(* ===== verification/_CoqProject ===== *)
-Q . S2P
Prelude.v
Defs.v
Atomic.v
DefaultPmm.v
LlvmSpec.v
PmmManager.v
PmmClient.v
ListH.v
CString.v
Printfmt.v
Machine.v
Kernel.v
Pmm.v
Trap.v
TrapEntry.v
Interrupt.v
Readline.v
Kmonitor.v
Session.v
Init.v
System.v
Encoding.v
Tools.v
LlvmApi.v
LlvmSample.v
Emitter.v
Racket.v
EmitterLayout.v
EmitterSpec.v
EmitterMain.v
