(* ===== verification/Prelude.v ===== *)
(** * CertiCore: a verification development

    CertiCore is a small RISC-V kernel in C (uCore's first labs) whose page
    allocator the repository also specifies in Racket.  This library models
    the kernel's C and assembly code and proves what makes it correct: from
    the first instruction at [kern_entry] to the idle loop, the page
    allocator and its specification, traps and the clock, the monitor, and
    the C library underneath.

    ** The program and the files

    One file models one part, with the definitions named as in the source
    (all source files are under src/):

    - [Prelude] (this file): machine integers, the execution monad [M] with
      its outcomes (a value, a panic, undefined behaviour), total-correctness
      triples [wp], loops, lenses from a component's state into the kernel's;
    - [Defs]: libs/defs.h, kern/mm/mmu.h, kern/mm/memlayout.h: rounding, Sv39
      addresses, the physical memory layout of both builds;
    - [Atomic]: libs/atomic.h: bit operations on an array of words, as the
      kernel's AMO instructions and as the verification build's plain
      read-modify-write;
    - [DefaultPmm]: kern/mm/default_pmm.c: the page allocator, on the words
      of [pages] and the counter [nr_free] ([mm_state]);
    - [LlvmSpec]: verif/llvm-spec.rkt, verif/llvm-impl.rkt, verif/llvm.rkt,
      verif/llvm-ni.rkt: the allocator's specification ([state],
      [spec_default_alloc_pages], ...), the abstraction function [abs] and
      the non-interference conditions;
    - [PmmManager]: [struct pmm_manager] of kern/mm/pmm.h as a class of
      methods with laws, which the allocator satisfies; [PmmClient]: clients
      of a manager as a transition system over its state and the blocks in
      use;
    - [ListH]: libs/list.h: circular doubly linked lists in a heap of
      entries, aliasing included;
    - [CString]: libs/string.c: string and memory functions on a
      byte-addressed memory;
    - [Printfmt]: libs/printfmt.c: [vprintfmt], whose [putch] is a parameter,
      [printnum], [vsnprintf];
    - [Machine]: libs/riscv.h (the register macros), libs/sbi.c,
      kern/driver/console.c, intr.c, clock.c, kern/sync/sync.h,
      kern/libs/stdio.c: control registers as a map, firmware calls recorded
      in a trace;
    - [Kernel]: the kernel's variables in one record ([kernel]), and
      kern/debug/panic.c, assert.h;
    - [Pmm]: kern/mm/pmm.c, pmm.h and the self-tests of default_pmm.c;
    - [Trap]: kern/trap/trap.c, trap.h; [TrapEntry]: kern/trap/trapentry.S as
      lists of instructions; [Interrupt]: the hart taking a trap, the
      assembly, [trap] and [sret] in one piece;
    - [Readline]: libs/readline.c; [Kmonitor]: kern/debug/kmonitor.c, kdebug.c;
      [Session]: both composed;
    - [Init]: kern/init/entry.S, kern/init/init.c;
    - [System]: the kernel running: calls of the allocator, interrupts at
      every point at which they are on, traps in between;
    - [Encoding]: the tables of libs/riscv.h and kern/debug/stab.h,
      verif/asm-offsets.c;
    - [Tools]: tools/sign.c and tools/vector.c, programs of the build host;
    - racket/llvm-rosette, the program that prints an LLVM module as Racket:
      [LlvmApi]: the types and methods of LLVM that it uses, as a class of
      parameters, and what their documentation says; [LlvmSample]: a small
      concrete LLVM; [Emitter]: RosetteEmitter.cc, with the text printed so
      far as its state; [Racket]: the nesting of Racket text, and rules for
      programs that write it; [EmitterLayout] and [EmitterSpec]: memory
      layouts, and which modules print as complete programs; [EmitterMain]:
      main.cc.

    ** How the parts interact

    A component's code runs on its own state; [zoom] runs it inside the
    kernel's ([mmL] the allocator's, [machL] the machine's).  The allocator
    is reached through [pmm_manager] ([Pmm.pmm_call]), inside a critical
    section ([local_intr_save]).  A trap ([System.take_irq]) is what the hart
    and the entry code do to the control registers, [trap] with interrupts
    off, and what the return does; an interrupt changes [ticks], the
    firmware's state and the registers that the hart uses for traps, and
    [System] proves that it commutes with every call.  A panic is an outcome
    of its own, which no caller continues from.

    ** The theorems

    - The system: in every state reachable from boot, under any calls and any
      interrupts, blocks are disjoint from each other and from the kernel's
      image, pages are conserved, interrupts stay on, no control register
      changes but those that traps use, and every call returns
      ([System.system_safety]); its runs refine the Racket specification of
      the calls alone ([System.system_refines_spec]); calls are atomic
      ([System.call_atomic]); values keep their types
      ([System.system_typed]).
    - The allocator: refinement of the specification for any sequence of
      calls, the contract of each operation on every branch (first fit, error
      codes, the exact condition under which [nr_free] stays right), safety
      and conservation for clients, non-interference.
    - Boot and memory: [kern_init] reaches its idle loop; [pmm_init] hands
      exactly the pages behind the image to the allocator; the boot page
      table maps what [PADDR] computes; pages and addresses convert back and
      forth; which images make [page_init] panic.
    - Traps: dispatch for every cause, ticks over any number of interrupts,
      the saving and restoring of the context, and that the interrupted code
      does not notice.
    - Console, monitor and library: formatted output equals a reference
      rendering through any [putch], buffers are not overrun, [strtol] reads
      back what is printed, [memmove] copies for any overlap, string
      functions and lists against list-level meanings, the line editor, the
      command parser with the exact bound beyond which it writes outside its
      array, a session with the monitor as a function of what is typed, up to
      the line that ends it.
    - Tables and tools: decoding is unambiguous, register numbers encode the
      privilege of their names; the boot sector that [sign] writes is well formed,
      and when it is cut off.
    - The emitter: on the modules it supports it returns and prints a complete
      Racket program; deleting unused functions ends and keeps what is needed;
      layouts do not depend on debugging information but for names; symbols
      are aligned and disjoint.

    ** Parameters, bounds and fuel

    What is not in the repository is a parameter: [Build] chooses one of the
    two builds ([IS_VERIF]: 5 pages and no console output; otherwise 4096
    pages), and every theorem holds for both; [Platform] is the firmware
    behind [ecall], any function; [ConsoleInput] says which characters it
    delivers; [Image] has the addresses that the linker fixes; [Grading] is
    [DEBUG_GRADE], which theorems over many interrupts take to be off, since
    the graded kernel stops at its first hundred ticks ([Trap.trap_spec]);
    [Host] is the host of the tools: permissions, free space, and how much
    [fread] and [fwrite] of its buffering C library report; [Llvm] is LLVM, of
    which [LlvmLaws] asks what its documentation says of texts, alignment and
    use lists; the compiled [trap] enters [Interrupt] by its calling convention
    only.  A theorem with hypotheses on them has a witness with concrete ones.

    A loop over a range recurses on the length of the range.  Loops without
    such a bound have fuel, and running out of it is undefined behaviour, so a
    theorem that such code returns shows that the fuel is enough: string
    functions get one more than the size of memory, [printnum] 64 digits (a
    64-bit number has no more in base 2), [vprintfmt] and [parse] the length
    of their text, [readline] more than the characters waiting; the monitor,
    which never returns, any number; the emitter as much as its module's types
    and constants nest, which the test of supported modules computes, and the
    deletion of functions one more than there are functions.

    ** Not modelled

    The contents of the stack and of registers inside C code (a call of C is
    a function; only trapentry.S and entry.S are modelled by instruction), so
    the running system has no program counter and no general registers: that a
    trap gives them back is [Interrupt.trap_transparent]; the boot stack;
    memory ordering, as there is one hart; interrupts between two instructions
    of a section that has them off, as the hart takes none; [flush_tlb] and
    [barrier], which no code calls.
    Declarations-only headers have no definitions of their own.  Of the
    emitter, LLVM itself (its classes, its dispatch of a visitor to the method
    of an instruction's class, its readers and printers) is a parameter, and
    [<<] evaluates its operands from left to right.  The Racket framework, its
    instruction-set tests and the toy examples are not the kernel's code. *)

From Stdlib Require Export ZArith Lia.
From stdpp Require Export prelude base tactics list gmap fin_maps strings sorting.

Declare Scope kernel_scope.
Delimit Scope kernel_scope with kernel.

#[global] Open Scope Z_scope.

(** ** Machine integers

    A C integer of width [w] is a [Z]; every operation of the source that can
    leave the range is followed by the conversion of its type.  [u64] is
    [size_t]/[uint64_t]/[uintptr_t]/[unsigned long], [s64] is [long] and
    [intptr_t], [s32] is [int], [u32] is [unsigned int], [u8] is
    [unsigned char] (and [char], which is unsigned on RISC-V). *)

Definition u64 (z : Z) : Z := z mod 2 ^ 64.
Definition u32 (z : Z) : Z := z mod 2 ^ 32.
Definition u8 (z : Z) : Z := z mod 2 ^ 8.
Definition s64 (z : Z) : Z := (z + 2 ^ 63) mod 2 ^ 64 - 2 ^ 63.
Definition s32 (z : Z) : Z := (z + 2 ^ 31) mod 2 ^ 32 - 2 ^ 31.

Definition in_u64 (z : Z) : Prop := 0 <= z < 2 ^ 64.
Definition in_u8 (z : Z) : Prop := 0 <= z < 2 ^ 8.
Definition in_s64 (z : Z) : Prop := - 2 ^ 63 <= z < 2 ^ 63.
Definition in_s32 (z : Z) : Prop := - 2 ^ 31 <= z < 2 ^ 31.

#[global] Instance in_u64_dec z : Decision (in_u64 z).
Proof. unfold in_u64; apply _. Defined.
#[global] Instance in_s64_dec z : Decision (in_s64 z).
Proof. unfold in_s64; apply _. Defined.
#[global] Instance in_s32_dec z : Decision (in_s32 z).
Proof. unfold in_s32; apply _. Defined.

(** C truth: any nonzero value is true. *)
Definition truthy (z : Z) : bool := negb (z =? 0).

(** [word_lia] closes linear goals about machine integers: it unfolds the
    conversions and ranges and gives [lia] the division equations. *)
Ltac word_unfold :=
  unfold u64, u32, u8, s64, s32, in_u64, in_u8, in_s64, in_s32 in *;
  change (2 ^ 64) with 18446744073709551616 in *;
  change (2 ^ 63) with 9223372036854775808 in *;
  change (2 ^ 32) with 4294967296 in *;
  change (2 ^ 31) with 2147483648 in *;
  change (2 ^ 8) with 256 in *.
Ltac word_lia := word_unfold; Z.to_euclidean_division_equations; lia.

Create HintDb word.
Create Rewrite HintDb word_rw.

Lemma u64_small z : in_u64 z -> u64 z = z.
Proof. intros H; by apply Z.mod_small. Qed.

Lemma u64_in z : in_u64 (u64 z).
Proof. word_lia. Qed.

Lemma u64_u64 z : u64 (u64 z) = u64 z.
Proof. apply u64_small, u64_in. Qed.

Lemma s64_small z : in_s64 z -> s64 z = z.
Proof. intros H; word_lia. Qed.

Lemma s32_small z : in_s32 z -> s32 z = z.
Proof. intros H; word_lia. Qed.

Lemma s32_in z : in_s32 (s32 z).
Proof. word_lia. Qed.

#[export] Hint Rewrite u64_u64 : word_rw.
#[export] Hint Resolve u64_in s32_in : word.

(** Bit-level helpers. *)
Lemma testbit_in_u64 z i : in_u64 z -> 64 <= i -> Z.testbit z i = false.
Proof.
  intros Hz Hi. rewrite <- (u64_small z Hz). unfold u64.
  by apply Z.mod_pow2_bits_high.
Qed.

Lemma in_u64_testbit z :
  0 <= z -> (forall i, 64 <= i -> Z.testbit z i = false) -> in_u64 z.
Proof.
  intros Hz Hb. assert (u64 z = z) as <-; [|apply u64_in].
  unfold u64. apply Z.bits_inj'. intros i Hi.
  destruct (decide (i < 64)).
  - by apply Z.mod_pow2_bits_low.
  - rewrite Z.mod_pow2_bits_high by lia. symmetry. apply Hb. lia.
Qed.

Lemma in_u64_lor a b : in_u64 a -> in_u64 b -> in_u64 (Z.lor a b).
Proof.
  intros Ha Hb. apply in_u64_testbit.
  - apply Z.lor_nonneg. word_unfold. lia.
  - intros i Hi. by rewrite Z.lor_spec, !testbit_in_u64.
Qed.

Lemma in_u64_land a b : in_u64 a -> 0 <= b -> in_u64 (Z.land a b).
Proof.
  intros Ha Hb. apply in_u64_testbit.
  - apply Z.land_nonneg. word_unfold. lia.
  - intros i Hi. by rewrite Z.land_spec, testbit_in_u64.
Qed.

#[export] Hint Resolve in_u64_lor in_u64_land : word.

(** ** Boolean quantifiers over lists *)

Lemma forallb_ext {A} (f g : A -> bool) l :
  (forall x, x ∈ l -> f x = g x) -> forallb f l = forallb g l.
Proof.
  intros He. induction l as [|x l IH]; [done|]. simpl.
  rewrite He, IH; [done| |set_solver]. intros y Hy. apply He. set_solver.
Qed.

Lemma existsb_ext {A} (f g : A -> bool) l :
  (forall x, x ∈ l -> f x = g x) -> existsb f l = existsb g l.
Proof.
  intros He. induction l as [|x l IH]; [done|]. simpl.
  rewrite He, IH; [done| |set_solver]. intros y Hy. apply He. set_solver.
Qed.

Lemma forallb_negb_existsb {A} (f : A -> bool) l :
  forallb f l = negb (existsb (fun x => negb (f x)) l).
Proof.
  induction l as [|x l IH]; [done|]. simpl. by rewrite IH, negb_orb, negb_involutive.
Qed.

Lemma existsb_seqZ_true (x : Z -> bool) hi :
  existsb x (seqZ 0 hi) = true <-> exists p, 0 <= p < hi /\ x p = true.
Proof.
  rewrite existsb_exists. split; intros (p & Hp & Hx); exists p.
  - apply list_elem_of_In, elem_of_seqZ in Hp. split; [lia|done].
  - split; [apply list_elem_of_In, elem_of_seqZ; lia|done].
Qed.

Lemma existsb_seqZ_false (x : Z -> bool) hi :
  existsb x (seqZ 0 hi) = false <-> forall p, 0 <= p < hi -> x p = false.
Proof.
  rewrite <- not_true_iff_false, existsb_seqZ_true. split.
  - intros Hno p Hp. apply not_true_iff_false. eauto.
  - intros Hf (p & Hp & Hx). by rewrite Hf in Hx.
Qed.

(** ** The execution monad

    C code runs in [M S]: it maps a state to a value and a state, it may stop
    in [panic] (kern/debug/panic.c never returns to its caller), or do
    something C leaves undefined (an access outside an object, a signed
    overflow, a division by zero). *)

Inductive outcome (S A : Type) : Type :=
  | Ok (a : A) (s : S)
  | Panic (msg : string) (s : S)
  | Undef.
Arguments Ok {S A} a s.
Arguments Panic {S A} msg s.
Arguments Undef {S A}.

Definition M (S A : Type) : Type := S -> outcome S A.

#[global] Instance M_ret {S} : MRet (M S) := fun A a s => Ok a s.
#[global] Instance M_bind {S} : MBind (M S) := fun A B k m s =>
  match m s with
  | Ok a s' => k a s'
  | Panic msg s' => Panic msg s'
  | Undef => Undef
  end.

Definition mget {S} : M S S := fun s => Ok s s.
Definition mput {S} (s : S) : M S unit := fun _ => Ok () s.
Definition mmodify {S} (f : S -> S) : M S unit := fun s => Ok () (f s).
Definition mpanic {S A} (msg : string) : M S A := fun s => Panic msg s.
Definition mundef {S A} : M S A := fun _ => Undef.
(** A partial operation: [None] is undefined behaviour. *)
Definition mlift {S A} (o : option A) : M S A :=
  match o with Some a => mret a | None => mundef end.
(** [assert(x)] of kern/debug/assert.h. *)
Definition massert {S} (b : bool) (msg : string) : M S unit :=
  if b then mret () else mpanic msg.

Lemma bind_Ok_inv {S A B} (m : M S A) (f : A -> M S B) s b s' :
  (m ≫= f) s = Ok b s' -> exists a s1, m s = Ok a s1 /\ f a s1 = Ok b s'.
Proof. unfold mbind, M_bind. destruct (m s) as [a s1| |]; [eauto|done|done]. Qed.

(** ** Loops

    [for_loop n p body a] runs [body p a], [body (p + 1) a'], ... [n] times;
    [Stop] is a [break] or a [return] inside the loop.  A C loop
    [for (size_t p = 0; p < hi; ++p)] whose body leaves [p] alone is
    [for_range hi]: the number of iterations is fixed by the bound, so the
    recursion is structural and no fuel is involved. *)

Inductive step (A R : Type) : Type :=
  | Next (a : A)
  | Stop (r : R).
Arguments Next {A R} a.
Arguments Stop {A R} r.

Fixpoint for_loop {S A R} (n : nat) (p : Z)
    (body : Z -> A -> M S (step A R)) (a : A) : M S (step A R) :=
  match n with
  | O => mret (Next a)
  | Datatypes.S n' =>
      r ← body p a;
      match r with
      | Next a' => for_loop n' (p + 1) body a'
      | Stop v => mret (Stop v)
      end
  end.

Definition for_range {S A R} (hi : Z)
    (body : Z -> A -> M S (step A R)) (a : A) : M S (step A R) :=
  for_loop (Z.to_nat hi) 0 body a.

(** [while_loop fuel body a] is a [while] loop with loop variables [a].  A loop
    that is cut off by its fuel is undefined, never a result, so that a theorem
    that such a loop returns also says that the fuel was enough. *)
Fixpoint while_loop {S A R} (fuel : nat) (body : A -> M S (step A R)) (a : A) : M S R :=
  match fuel with
  | O => mundef
  | Datatypes.S fuel' =>
      r ← body a;
      match r with
      | Next a' => while_loop fuel' body a'
      | Stop v => mret v
      end
  end.

(** ** Total correctness

    [wp m Q s]: running [m] in [s] returns (no panic, nothing undefined), in a
    result and state that satisfy [Q]. *)

Definition wp {S A} (m : M S A) (Q : A -> S -> Prop) (s : S) : Prop :=
  match m s with Ok a s' => Q a s' | _ => False end.

Section wp.
Context {S : Type}.

Lemma wp_ret {A} (a : A) (Q : A -> S -> Prop) s : Q a s -> wp (mret a) Q s.
Proof. done. Qed.

Lemma wp_bind {A B} (m : M S A) (k : A -> M S B) Q s :
  wp m (fun a s' => wp (k a) Q s') s -> wp (m ≫= k) Q s.
Proof. unfold wp, mbind, M_bind. by destruct (m s). Qed.

Lemma wp_mono {A} (m : M S A) (P Q : A -> S -> Prop) s :
  wp m P s -> (forall a s', P a s' -> Q a s') -> wp m Q s.
Proof. unfold wp. destruct (m s); eauto. Qed.

Lemma wp_elim {A} (m : M S A) Q s :
  wp m Q s -> exists a s', m s = Ok a s' /\ Q a s'.
Proof. unfold wp. destruct (m s); [eauto|done|done]. Qed.

Lemma wp_intro {A} (m : M S A) (Q : A -> S -> Prop) s a s' :
  m s = Ok a s' -> Q a s' -> wp m Q s.
Proof. unfold wp. by intros ->. Qed.

(** The invariant rule: [I q a s] before iteration [q], [Q r s] at a
    [break]. *)
Lemma wp_for_loop {A R} (I : Z -> A -> S -> Prop) (Q : R -> S -> Prop)
    (body : Z -> A -> M S (step A R)) n p a s :
  I p a s ->
  (forall q b t, p <= q < p + Z.of_nat n -> I q b t ->
     wp (body q b) (fun r t' => match r with
                              | Next b' => I (q + 1) b' t'
                              | Stop v => Q v t' end) t) ->
  wp (for_loop n p body a)
     (fun r t => match r with
               | Next b => I (p + Z.of_nat n) b t
               | Stop v => Q v t end) s.
Proof.
  revert p a s. induction n as [|n IH]; intros p a s HI Hbody; simpl.
  - apply wp_ret. by replace (p + Z.of_nat 0) with p by lia.
  - apply wp_bind. eapply wp_mono; [apply Hbody; [lia|done]|].
    intros [b|v] t Ht; [|by apply wp_ret].
    replace (p + Z.of_nat (Datatypes.S n)) with (p + 1 + Z.of_nat n) by lia.
    apply IH; [done|]. intros q c u Hq. apply Hbody. lia.
Qed.

Lemma wp_for_range {A R} (I : Z -> A -> S -> Prop) (Q : R -> S -> Prop)
    (body : Z -> A -> M S (step A R)) hi a s :
  0 <= hi ->
  I 0 a s ->
  (forall q b t, 0 <= q < hi -> I q b t ->
     wp (body q b) (fun r t' => match r with
                              | Next b' => I (q + 1) b' t'
                              | Stop v => Q v t' end) t) ->
  wp (for_range hi body a)
     (fun r t => match r with Next b => I hi b t | Stop v => Q v t end) s.
Proof.
  intros Hhi HI Hbody. unfold for_range.
  eapply wp_mono; [eapply (wp_for_loop I Q); [exact HI|]|].
  - intros q b t Hq. apply Hbody. lia.
  - intros [b|v] t; [|done]. by replace (0 + Z.of_nat (Z.to_nat hi)) with hi by lia.
Qed.

(** [I k a s]: the loop is about to run its body and needs at most [k] more
    rounds. *)
Lemma wp_while_loop {A R} (I : nat -> A -> S -> Prop) (Q : R -> S -> Prop)
    (body : A -> M S (step A R)) fuel k a s :
  (k < fuel)%nat ->
  I k a s ->
  (forall j b t, (j <= k)%nat -> I j b t ->
     wp (body b) (fun r t' => match r with
                            | Next b' => exists j', (j' < j)%nat /\ I j' b' t'
                            | Stop v => Q v t' end) t) ->
  wp (while_loop fuel body a) Q s.
Proof.
  revert k a s. induction fuel as [|fuel IH]; intros k a s Hk HI Hbody; [lia|]. simpl.
  apply wp_bind. eapply wp_mono; [by apply (Hbody k)|].
  intros [b|v] t Ht; [|by apply wp_ret]. destruct Ht as (j & Hj & Ht).
  apply (IH j); [lia|done|]. intros i c u Hi. apply Hbody. lia.
Qed.

(** The same rule for goals that say what the loop returns. *)
Lemma for_range_eq {A R} (I : Z -> A -> S -> Prop) (Q : R -> S -> Prop)
    (body : Z -> A -> M S (step A R)) hi a s o :
  0 <= hi ->
  I 0 a s ->
  (forall q b t, 0 <= q < hi -> I q b t ->
     wp (body q b) (fun r t' => match r with
                              | Next b' => I (q + 1) b' t'
                              | Stop v => Q v t' end) t) ->
  (forall b t, I hi b t -> Ok (Next b) t = o) ->
  (forall v t, Q v t -> Ok (Stop v) t = o) ->
  for_range hi body a s = o.
Proof.
  intros Hhi HI Hbody HN HS.
  destruct (wp_elim _ _ _ (wp_for_range I Q body hi a s Hhi HI Hbody))
    as ([b|v] & t & E & HE); rewrite E; auto.
Qed.
End wp.

(** ** Lenses

    A component's code runs on the component's own state; the kernel's state
    contains it.  [zoom] runs the component's code there. *)

Record lens (S T : Type) : Type := Lens {
  lget : S -> T;
  lput : T -> S -> S;
}.
Arguments Lens {S T} lget lput.
Arguments lget {S T} l s.
Arguments lput {S T} l t s.

Class LensLaws {S T} (l : lens S T) : Prop := {
  lget_lput t s : lget l (lput l t s) = t;
  lput_lget s : lput l (lget l s) s = s;
  lput_lput t t' s : lput l t (lput l t' s) = lput l t s;
}.

Definition zoom {S T A} (l : lens S T) (m : M T A) : M S A := fun s =>
  match m (lget l s) with
  | Ok a t => Ok a (lput l t s)
  | Panic msg t => Panic msg (lput l t s)
  | Undef => Undef
  end.

Lemma wp_zoom {S T A} (l : lens S T) (m : M T A) Q (s : S) :
  wp m (fun a t => Q a (lput l t s)) (lget l s) -> wp (zoom l m) Q s.
Proof. unfold wp, zoom. by destruct (m (lget l s)). Qed.

Lemma zoom_bind {S T A B} (l : lens S T) `{!LensLaws l} (m : M T A) (k : A -> M T B) (s : S) :
  zoom l (m ≫= k) s = (zoom l m ≫= fun a => zoom l (k a)) s.
Proof.
  unfold zoom, mbind, M_bind. destruct (m (lget l s)) as [a t|msg t|]; try done.
  rewrite lget_lput. destruct (k a t); by rewrite ?lput_lput.
Qed.
