(* ===== verification/Defs.v ===== *)
(** * Constants and address arithmetic

    libs/defs.h (rounding, [NULLPAGE]), kern/mm/mmu.h (pages and the Sv39
    virtual-address and page-table-entry layout) and kern/mm/memlayout.h (the
    physical memory map).  [NPAGE] depends on the build: [make verify] defines
    [IS_VERIF] and shrinks the page array to 5 pages. *)

From S2P Require Import Prelude.

(** The preprocessor configuration of a build. *)
Class Build := { IS_VERIF : bool }.

Definition verify_build : Build := {| IS_VERIF := true |}.
Definition kernel_build : Build := {| IS_VERIF := false |}.

(** ** libs/defs.h *)

Definition NULLPAGE : Z := 0x23333333.

(** [n] is a nonzero constant wherever the kernel rounds. *)
Definition ROUNDDOWN (a n : Z) : Z :=
  let a' := u64 a in u64 (a' - a' mod n).

Definition ROUNDUP (a n : Z) : Z :=
  let n' := u64 n in ROUNDDOWN (u64 (u64 (u64 a + n') - 1)) n'.

(** ** kern/mm/mmu.h *)

Definition PGSIZE : Z := 4096.
Definition PGSHIFT : Z := 12.

Definition PPN (la : Z) : Z := Z.shiftr (u64 la) PGSHIFT.

Definition SV39_NENTRY : Z := 512.
Definition SV39_VPN0SHIFT : Z := 12.
Definition SV39_VPN1SHIFT : Z := 21.
Definition SV39_VPN2SHIFT : Z := 30.
Definition SV39_PTE_PPN_SHIFT : Z := 10.

Definition SV39_VPN0 (la : Z) : Z := Z.land (Z.shiftr (u64 la) SV39_VPN0SHIFT) 0x1FF.
Definition SV39_VPN1 (la : Z) : Z := Z.land (Z.shiftr (u64 la) SV39_VPN1SHIFT) 0x1FF.
Definition SV39_VPN2 (la : Z) : Z := Z.land (Z.shiftr (u64 la) SV39_VPN2SHIFT) 0x1FF.
Definition SV39_VPN (la n : Z) : Z :=
  Z.land (Z.shiftr (Z.shiftr (u64 la) 12) (9 * n)) 0x1FF.

Definition SV39_PGADDR (v2 v1 v0 o : Z) : Z :=
  u64 (Z.lor (Z.lor (Z.lor (u64 (Z.shiftl v2 SV39_VPN2SHIFT))
                           (u64 (Z.shiftl v1 SV39_VPN1SHIFT)))
                    (u64 (Z.shiftl v0 SV39_VPN0SHIFT))) o).

Definition SV39_PTE_ADDR (pte : Z) : Z :=
  u64 (Z.shiftl (Z.land (u64 pte) (u64 (Z.lnot 0x1FF))) 3).

Definition PTE_V : Z := 0x001.
Definition PTE_R : Z := 0x002.
Definition PTE_W : Z := 0x004.
Definition PTE_X : Z := 0x008.
Definition PTE_U : Z := 0x010.
Definition PTE_G : Z := 0x020.
Definition PTE_A : Z := 0x040.
Definition PTE_D : Z := 0x080.
Definition PTE_SOFT : Z := 0x300.

(** ** kern/mm/memlayout.h *)

Section layout.
Context `{B : Build}.

Definition NPAGE : Z := if IS_VERIF then 0x0005 else 0x1000.

Definition KERNEL_BEGIN_PADDR : Z := 0x80200000.
Definition PHYSICAL_MEMORY_OFFSET : Z := 0xFFFFFFFF40000000.
Definition KERNBASE : Z := u64 (KERNEL_BEGIN_PADDR + PHYSICAL_MEMORY_OFFSET).
Definition KMEMSIZE : Z := s32 (NPAGE * PGSIZE).
Definition KERNTOP : Z := u64 (KERNBASE + KMEMSIZE).
Definition KERNEL_MEMEND_PADDR : Z := u32 (KERNEL_BEGIN_PADDR + KMEMSIZE).
Definition NBASE : Z := Z.shiftr KERNEL_BEGIN_PADDR PGSHIFT.

Definition KSTACKPAGE : Z := 2.
Definition KSTACKSIZE : Z := KSTACKPAGE * PGSIZE.

(** [struct Page] holds one word of flags; these are its bits. *)
Definition PG_reserved : Z := 0.
Definition PG_allocated : Z := 1.

Lemma NPAGE_range : 0 < NPAGE <= 4096.
Proof using Type. unfold NPAGE. destruct IS_VERIF; lia. Qed.

Lemma NPAGE_lt_NULLPAGE : NPAGE < NULLPAGE.
Proof using Type. pose proof NPAGE_range. unfold NULLPAGE. lia. Qed.

Lemma KERNEL_MEMEND_PADDR_eq :
  KERNEL_MEMEND_PADDR = KERNEL_BEGIN_PADDR + NPAGE * PGSIZE.
Proof using Type.
  unfold KERNEL_MEMEND_PADDR, KMEMSIZE, NPAGE. by destruct IS_VERIF.
Qed.
End layout.

(** ** Rounding *)

Lemma ROUNDDOWN_spec a n :
  in_u64 a -> 0 < n -> ROUNDDOWN a n = n * (a / n).
Proof.
  intros Ha Hn. unfold ROUNDDOWN. rewrite (u64_small a) by done.
  pose proof (Z.div_mod a n ltac:(lia)). pose proof (Z.mod_pos_bound a n Hn).
  rewrite u64_small; [lia|].
  assert (0 <= a / n) by (apply Z.div_pos; word_unfold; lia).
  word_unfold. nia.
Qed.

(** [ROUNDUP] is the ceiling, as long as [a + n - 1] does not leave [size_t]. *)
Lemma ROUNDUP_ceil a n :
  in_u64 a -> 0 < n < 2 ^ 64 -> a + n - 1 < 2 ^ 64 -> ROUNDUP a n = n * ((a + n - 1) / n).
Proof.
  intros Ha Hn Hlt. unfold ROUNDUP.
  assert (u64 n = n) as -> by (apply u64_small; word_unfold; lia).
  rewrite (u64_small a) by done.
  assert (u64 (u64 (a + n) - 1) = a + n - 1) as -> by word_lia.
  apply ROUNDDOWN_spec; [word_unfold; lia|lia].
Qed.

Section rounding.
Context (a n : Z).
Context (Ha : in_u64 a) (Hn : 0 < n < 2 ^ 64) (Hlt : a + n - 1 < 2 ^ 64).

(** [ROUNDUP] gives the least multiple of [n] that is at least [a]. *)
Lemma ROUNDUP_least :
  (n | ROUNDUP a n) /\ a <= ROUNDUP a n < a + n /\
  (forall k, (n | k) -> a <= k -> ROUNDUP a n <= k).
Proof using All.
  rewrite ROUNDUP_ceil by done.
  pose proof (Z.div_mod (a + n - 1) n ltac:(lia)).
  pose proof (Z.mod_pos_bound (a + n - 1) n ltac:(lia)).
  split; [by apply Z.divide_factor_l|]. split; [lia|].
  intros k [q ->] Hk. enough ((a + n - 1) / n < q + 1) by nia.
  apply Z.div_lt_upper_bound; lia.
Qed.
End rounding.

(** ** Sv39 addresses *)

Lemma land_1FF a : Z.land a 0x1FF = a mod 2 ^ 9.
Proof. exact (Z.land_ones a 9 ltac:(lia)). Qed.

Lemma SV39_VPN_level la :
  SV39_VPN la 0 = SV39_VPN0 la /\ SV39_VPN la 1 = SV39_VPN1 la /\
  SV39_VPN la 2 = SV39_VPN2 la.
Proof.
  unfold SV39_VPN, SV39_VPN0, SV39_VPN1, SV39_VPN2.
  rewrite !Z.shiftr_shiftr by lia. repeat split.
Qed.

(** Splitting a 39-bit virtual address into its three page-table indexes
    and its page offset and putting it together again is the identity. *)
Lemma SV39_PGADDR_VPN la :
  0 <= la < 2 ^ 39 ->
  SV39_PGADDR (SV39_VPN2 la) (SV39_VPN1 la) (SV39_VPN0 la) (la mod PGSIZE) = la.
Proof.
  intros Hla. unfold SV39_PGADDR, SV39_VPN2, SV39_VPN1, SV39_VPN0, u64.
  rewrite !land_1FF. unfold SV39_VPN2SHIFT, SV39_VPN1SHIFT, SV39_VPN0SHIFT, PGSIZE.
  rewrite (Z.mod_small la (2 ^ 64)) by lia.
  change 4096 with (2 ^ 12). apply Z.bits_inj'. intros i Hi.
  destruct (Z.lt_ge_cases i 39) as [Hlt|Hge].
  - assert (Hr : i < 12 \/ 12 <= i < 21 \/ 21 <= i < 30 \/ 30 <= i < 39) by lia.
    rewrite Z.mod_pow2_bits_low by lia.
    rewrite !Z.lor_spec, !(Z.mod_pow2_bits_low _ 64) by lia.
    rewrite !Z.shiftl_spec by lia.
    destruct Hr as [Hr|[Hr|[Hr|Hr]]];
      repeat first
        [ rewrite (Z.testbit_neg_r _ (i - _)) by lia
        | rewrite (Z.mod_pow2_bits_low _ 9) by lia
        | rewrite (Z.mod_pow2_bits_high _ 9) by lia
        | rewrite (Z.mod_pow2_bits_low _ 12) by lia
        | rewrite (Z.mod_pow2_bits_high _ 12) by lia
        | rewrite Z.shiftr_spec by lia ];
      rewrite ?orb_false_l, ?orb_false_r; f_equal; lia.
  - rewrite <- (Z.mod_small la (2 ^ 39)) at 5 by lia.
    rewrite (Z.mod_pow2_bits_high _ 39) by lia.
    destruct (Z.lt_ge_cases i 64); [|by apply Z.mod_pow2_bits_high; lia].
    rewrite Z.mod_pow2_bits_low by lia.
    rewrite !Z.lor_spec, !(Z.mod_pow2_bits_low _ 64) by lia.
    rewrite !Z.shiftl_spec by lia.
    repeat first
      [ rewrite (Z.mod_pow2_bits_high _ 9) by lia
      | rewrite (Z.mod_pow2_bits_high _ 12) by lia ]; done.
Qed.

(** The page-table entry the kernel boots with (the [.quad] that ends
    kern/init/entry.S): a 1 GiB leaf for physical page number [0x80000]. *)
Definition boot_pte : Z := Z.lor (Z.shiftl 0x80000 SV39_PTE_PPN_SHIFT) 0xcf.

Lemma land_not_1FF x : in_u64 x -> Z.land x (u64 (Z.lnot 0x1FF)) = x - x mod 2 ^ 9.
Proof.
  intros Hx.
  replace (u64 (Z.lnot 0x1FF)) with (Z.ldiff (Z.ones 64) (Z.ones 9)) by done.
  rewrite Z.ldiff_land, Z.land_assoc, <- Z.ldiff_land, Z.land_ones by lia.
  rewrite Z.mod_small by done. rewrite Z.ldiff_ones_r by lia.
  rewrite Z.shiftl_mul_pow2, Z.shiftr_div_pow2 by lia.
  pose proof (Z.div_mod x (2 ^ 9) ltac:(lia)). lia.
Qed.

Lemma lor_shiftl_add a b k : 0 <= k -> 0 <= b < 2 ^ k -> Z.lor (Z.shiftl a k) b = a * 2 ^ k + b.
Proof.
  intros Hk Hb. rewrite <- Z.shiftl_mul_pow2 by done. symmetry.
  rewrite <- Z.add_lor_land. enough (Z.land (Z.shiftl a k) b = 0) by lia.
  apply Z.bits_inj'. intros i Hi. rewrite Z.land_spec, Z.bits_0.
  destruct (Z.lt_ge_cases i k).
  - by rewrite Z.shiftl_spec_low.
  - rewrite <- (Z.mod_small b (2 ^ k)) by done.
    by rewrite Z.mod_pow2_bits_high, andb_false_r by lia.
Qed.

(** [SV39_PTE_ADDR] shifts the entry's 44-bit page number, which starts at
    bit [SV39_PTE_PPN_SHIFT] = 10, one place too far: it returns twice the
    physical address of the page the entry points to, for every page number
    and every setting of the flag bits 0 to 8. *)
Lemma SV39_PTE_ADDR_doubles ppn flags :
  0 <= ppn < 2 ^ 44 -> 0 <= flags < 2 ^ 9 ->
  SV39_PTE_ADDR (Z.lor (Z.shiftl ppn SV39_PTE_PPN_SHIFT) flags)
  = 2 * (Z.shiftl ppn PGSHIFT).
Proof.
  intros Hp Hf. unfold SV39_PTE_ADDR, SV39_PTE_PPN_SHIFT, PGSHIFT.
  rewrite lor_shiftl_add by lia.
  rewrite (u64_small (ppn * 2 ^ 10 + flags)) by (word_unfold; lia).
  rewrite land_not_1FF by (word_unfold; lia).
  assert ((ppn * 2 ^ 10 + flags) mod 2 ^ 9 = flags) as ->.
  { replace (ppn * 2 ^ 10 + flags) with (flags + (2 * ppn) * 2 ^ 9) by lia.
    rewrite Z.mod_add by lia. by apply Z.mod_small. }
  rewrite !Z.shiftl_mul_pow2 by lia. rewrite u64_small; [lia|word_unfold; lia].
Qed.

Lemma SV39_PTE_ADDR_doubles_witness :
  boot_pte = Z.lor (Z.shiftl 0x80000 SV39_PTE_PPN_SHIFT) 0xcf /\
  SV39_PTE_ADDR boot_pte = 2 * 0x80000000.
Proof.
  split; [reflexivity|].
  exact (SV39_PTE_ADDR_doubles 0x80000 0xcf ltac:(lia) ltac:(lia)).
Defined.

Lemma ROUNDUP_least_witness :
  (4096 | ROUNDUP 0x80201001 4096) /\ ROUNDUP 0x80201001 4096 = 0x80202000.
Proof.
  split; [|reflexivity].
  apply (ROUNDUP_least 0x80201001 4096); word_unfold; lia.
Defined.
