(* ===== verification/Atomic.v ===== *)
(** * Atomic bit operations

    libs/atomic.h.  The operations address a bit [nr] relative to a word
    address; memory is the list of 64-bit words of the enclosing object and an
    address is an index into it.  [set_bit], [clear_bit] and [change_bit] exist
    twice in the source, as RISC-V [amoor.d]/[amoand.d]/[amoxor.d] in the
    kernel build and as plain C in the build that is verified. *)

From S2P Require Import Prelude Defs.

Definition BITS_PER_LONG : Z := 64.

(** [1UL << ((nr) % BITS_PER_LONG)]: C's [%] truncates, and a negative shift
    is undefined. *)
Definition BIT_MASK (nr : Z) : option Z :=
  let k := Z.rem nr BITS_PER_LONG in
  if 0 <=? k then Some (u64 (Z.shiftl 1 k)) else None.
Definition BIT_WORD (nr : Z) : Z := Z.quot nr BITS_PER_LONG.

(** Memory accesses; outside the object they are undefined. *)
Definition load (i : Z) : M (list Z) Z := fun ws =>
  if 0 <=? i then mlift (ws !! Z.to_nat i) ws else Undef.
Definition store (i v : Z) : M (list Z) unit := fun ws =>
  if (0 <=? i) && (i <? Z.of_nat (length ws))
  then Ok () (<[Z.to_nat i := v]> ws) else Undef.
(** [amoOP.d rd, rs2, (rs1)]: read, combine, write back, return the old word. *)
Definition amo (op : Z -> Z -> Z) (i src : Z) : M (list Z) Z :=
  old ← load i; store i (op old src);; mret old.

Definition NOP (x : Z) : Z := x.
Definition NOT (x : Z) : Z := u64 (Z.lnot x).

Definition op_bit (op : Z -> Z -> Z) (md : Z -> Z) (nr addr : Z) : M (list Z) unit :=
  mask ← mlift (BIT_MASK nr);
  _ ← amo op (addr + BIT_WORD nr) (md mask);
  mret ().

Definition test_and_op_bit (op : Z -> Z -> Z) (md : Z -> Z) (nr addr : Z) : M (list Z) bool :=
  mask ← mlift (BIT_MASK nr);
  res ← amo op (addr + BIT_WORD nr) (md mask);
  mret (truthy (Z.land res mask)).

(** [a[BIT_WORD(nr)] op= md(BIT_MASK(nr))], the C version of [op_bit]. *)
Definition assign_bit (op : Z -> Z -> Z) (md : Z -> Z) (nr addr : Z) : M (list Z) unit :=
  mask ← mlift (BIT_MASK nr);
  w ← load (addr + BIT_WORD nr);
  store (addr + BIT_WORD nr) (op w (md mask)).

Definition set_bit `{Build} (nr addr : Z) : M (list Z) unit :=
  if IS_VERIF then assign_bit Z.lor NOP nr addr else op_bit Z.lor NOP nr addr.
Definition clear_bit `{Build} (nr addr : Z) : M (list Z) unit :=
  if IS_VERIF then assign_bit Z.land NOT nr addr else op_bit Z.land NOT nr addr.
Definition change_bit `{Build} (nr addr : Z) : M (list Z) unit :=
  if IS_VERIF then assign_bit Z.lxor NOP nr addr else op_bit Z.lxor NOP nr addr.

(** [( *addr >> nr) & 1]: shifting a 64-bit word by 64 or more, or by a
    negative amount, is undefined. *)
Definition test_bit (nr addr : Z) : M (list Z) Z :=
  w ← load addr;
  if (0 <=? nr) && (nr <? 64) then mret (Z.land (Z.shiftr w nr) 1) else mundef.

Definition test_and_set_bit (nr addr : Z) : M (list Z) bool :=
  test_and_op_bit Z.lor NOP nr addr.
Definition test_and_clear_bit (nr addr : Z) : M (list Z) bool :=
  test_and_op_bit Z.land NOT nr addr.

(** ** The bit array view

    [bitmap addr ws k] is bit [k] counted from word [addr] on. *)

Definition word_at (i : Z) (ws : list Z) : Z := default 0 (ws !! Z.to_nat i).
Definition bitmap (addr : Z) (ws : list Z) (k : Z) : bool :=
  Z.testbit (word_at (addr + k / 64) ws) (k mod 64).

(** Bit [nr] from word [addr] is inside the object. *)
Definition bit_valid (nr addr : Z) (ws : list Z) : Prop :=
  0 <= nr /\ 0 <= addr /\ addr + nr / 64 < Z.of_nat (length ws).

#[global] Instance bit_valid_dec nr addr ws : Decision (bit_valid nr addr ws).
Proof. unfold bit_valid; apply _. Defined.

Definition bit_mask (nr : Z) : Z := 2 ^ (nr mod 64).

Lemma BIT_MASK_eq nr : 0 <= nr -> BIT_MASK nr = Some (bit_mask nr).
Proof.
  intros Hnr. unfold BIT_MASK, BITS_PER_LONG, bit_mask.
  rewrite Z.rem_mod_nonneg by lia.
  pose proof (Z.mod_pos_bound nr 64 ltac:(lia)).
  destruct (Z.leb_spec 0 (nr mod 64)); [|lia].
  rewrite Z.shiftl_mul_pow2, Z.mul_1_l by lia. f_equal. apply u64_small.
  split; [lia|]. apply Z.pow_lt_mono_r; lia.
Qed.

Lemma bit_mask_u64 nr : in_u64 (bit_mask nr).
Proof.
  unfold bit_mask. pose proof (Z.mod_pos_bound nr 64 ltac:(lia)).
  split; [lia|]. apply Z.pow_lt_mono_r; lia.
Qed.

Lemma bit_mask_spec nr i : Z.testbit (bit_mask nr) i = bool_decide (i = nr mod 64).
Proof.
  unfold bit_mask. pose proof (Z.mod_pos_bound nr 64 ltac:(lia)).
  rewrite Z.pow2_bits_eqb by lia. case_bool_decide; lia.
Qed.

Lemma NOT_spec x i : 0 <= i < 64 -> Z.testbit (NOT x) i = negb (Z.testbit x i).
Proof.
  intros Hi. unfold NOT, u64. rewrite Z.mod_pow2_bits_low by lia.
  by rewrite Z.lnot_spec by lia.
Qed.

#[export] Hint Resolve bit_mask_u64 : word.

Lemma load_valid i ws :
  0 <= i < Z.of_nat (length ws) -> load i ws = Ok (word_at i ws) ws.
Proof.
  intros Hi. unfold load, word_at. destruct (Z.leb_spec 0 i); [|lia].
  destruct (lookup_lt_is_Some_2 ws (Z.to_nat i)) as [w Hw]; [lia|]. by rewrite Hw.
Qed.

Lemma store_valid i v ws :
  0 <= i < Z.of_nat (length ws) -> store i v ws = Ok () (<[Z.to_nat i := v]> ws).
Proof.
  intros Hi. unfold store.
  destruct (Z.leb_spec 0 i); [|lia]. destruct (Z.ltb_spec i (Z.of_nat (length ws))); [done|lia].
Qed.

Lemma BIT_WORD_eq nr : 0 <= nr -> BIT_WORD nr = nr / 64.
Proof. intros. unfold BIT_WORD, BITS_PER_LONG. by rewrite Z.quot_div_nonneg by lia. Qed.

(** The word index of a bit. *)
Definition bit_index (nr addr : Z) : nat := Z.to_nat (addr + nr / 64).

(** The one access pattern all five operations share. *)
Section rmw.
Context (op : Z -> Z -> Z) (md : Z -> Z) (nr addr : Z) (ws : list Z).
Context (Hv : bit_valid nr addr ws).

Let new : list Z :=
  <[bit_index nr addr := op (word_at (addr + nr / 64) ws) (md (bit_mask nr))]> ws.

Lemma amo_eq src :
  amo op (addr + nr / 64) src ws
  = Ok (word_at (addr + nr / 64) ws)
       (<[bit_index nr addr := op (word_at (addr + nr / 64) ws) src]> ws).
Proof using Hv.
  destruct Hv as (Hnr & Haddr & Hlen). pose proof (Z.div_pos nr 64 ltac:(lia) ltac:(lia)).
  unfold amo, mbind, M_bind. rewrite load_valid by lia. by rewrite store_valid by lia.
Qed.

Lemma op_bit_eq : op_bit op md nr addr ws = Ok () new.
Proof using Hv.
  pose proof Hv as (Hnr & Haddr & Hlen).
  unfold op_bit. rewrite BIT_MASK_eq, BIT_WORD_eq by done.
  unfold mbind, M_bind; simpl. by rewrite amo_eq.
Qed.

Lemma test_and_op_bit_eq :
  test_and_op_bit op md nr addr ws = Ok (bitmap addr ws nr) new.
Proof using Hv.
  pose proof Hv as (Hnr & Haddr & Hlen).
  unfold test_and_op_bit. rewrite BIT_MASK_eq, BIT_WORD_eq by done.
  unfold mbind, M_bind; simpl. rewrite amo_eq. f_equal.
  unfold truthy, bitmap, bit_mask. pose proof (Z.mod_pos_bound nr 64 ltac:(lia)).
  destruct (Z.testbit _ _) eqn:E.
  - apply negb_true_iff, Z.eqb_neq. intros H0.
    apply (f_equal (fun z => Z.testbit z (nr mod 64))) in H0.
    by rewrite Z.land_spec, E, Z.pow2_bits_true, Z.bits_0 in H0 by lia.
  - apply negb_false_iff, Z.eqb_eq, Z.bits_inj'. intros i Hi.
    rewrite Z.land_spec, Z.pow2_bits_eqb, Z.bits_0 by lia.
    destruct (Z.eqb_spec (nr mod 64) i) as [<-|]; [by rewrite E|apply andb_false_r].
Qed.

Lemma assign_bit_eq : assign_bit op md nr addr ws = Ok () new.
Proof using Hv.
  pose proof Hv as (Hnr & Haddr & Hlen). pose proof (Z.div_pos nr 64 ltac:(lia) ltac:(lia)).
  unfold assign_bit. rewrite BIT_MASK_eq, BIT_WORD_eq by done.
  unfold mbind, M_bind; simpl. rewrite load_valid by lia. by rewrite store_valid by lia.
Qed.
End rmw.

Lemma div_mod_64_inj k nr : k / 64 = nr / 64 -> k mod 64 = nr mod 64 -> k = nr.
Proof. intros. rewrite (Z.div_mod k 64), (Z.div_mod nr 64) by lia. lia. Qed.

Lemma word_at_insert i v ws j :
  0 <= i < Z.of_nat (length ws) -> 0 <= j ->
  word_at j (<[Z.to_nat i := v]> ws) = if j =? i then v else word_at j ws.
Proof.
  intros Hi Hj. unfold word_at. destruct (Z.eqb_spec j i) as [->|Hne].
  - by rewrite list_lookup_insert_eq by lia.
  - by rewrite list_lookup_insert_ne by lia.
Qed.

(** Replacing one word changes one bit of the bitmap when it changes one bit of
    the word. *)
Lemma bitmap_insert v b nr addr ws k :
  bit_valid nr addr ws -> 0 <= k ->
  (forall i, 0 <= i < 64 ->
     Z.testbit v i = if i =? nr mod 64 then b else Z.testbit (word_at (addr + nr / 64) ws) i) ->
  bitmap addr (<[bit_index nr addr := v]> ws) k = if k =? nr then b else bitmap addr ws k.
Proof.
  intros (Hnr & Haddr & Hlen) Hk Hv. unfold bitmap, bit_index.
  pose proof (Z.div_pos nr 64 ltac:(lia) ltac:(lia)).
  pose proof (Z.div_pos k 64 ltac:(lia) ltac:(lia)).
  rewrite word_at_insert by lia.
  destruct (Z.eqb_spec (addr + k / 64) (addr + nr / 64)) as [E|E].
  - rewrite Hv by (apply Z.mod_pos_bound; lia).
    destruct (Z.eqb_spec (k mod 64) (nr mod 64)) as [E'|E'].
    + assert (k = nr) as -> by (apply div_mod_64_inj; lia). by rewrite Z.eqb_refl.
    + destruct (Z.eqb_spec k nr) as [->|]; [done|]. by rewrite E.
  - destruct (Z.eqb_spec k nr) as [->|]; [done|done].
Qed.

(** The three modifications as functions on the addressed word. *)
Lemma lor_mask_bits w nr i :
  Z.testbit (Z.lor w (NOP (bit_mask nr))) i
  = if i =? nr mod 64 then true else Z.testbit w i.
Proof.
  unfold NOP. rewrite Z.lor_spec, bit_mask_spec.
  destruct (Z.eqb_spec i (nr mod 64)); case_bool_decide; try done;
    by rewrite ?orb_true_r, ?orb_false_r.
Qed.

Lemma land_mask_bits w nr i :
  0 <= i < 64 ->
  Z.testbit (Z.land w (NOT (bit_mask nr))) i
  = if i =? nr mod 64 then false else Z.testbit w i.
Proof.
  intros Hi. rewrite Z.land_spec, NOT_spec, bit_mask_spec by lia.
  destruct (Z.eqb_spec i (nr mod 64)); case_bool_decide; try done;
    by rewrite ?andb_true_r, ?andb_false_r.
Qed.

Lemma lxor_mask_bits w nr i :
  Z.testbit (Z.lxor w (NOP (bit_mask nr))) i
  = if i =? nr mod 64 then negb (Z.testbit w (nr mod 64)) else Z.testbit w i.
Proof.
  unfold NOP. rewrite Z.lxor_spec, bit_mask_spec.
  destruct (Z.eqb_spec i (nr mod 64)) as [->|]; case_bool_decide; try done;
    by rewrite ?xorb_true_r, ?xorb_false_r.
Qed.

(** What an operation on bit [nr] does to the bit array. *)
Definition updates_bit (nr addr : Z) (b : bool) (ws ws' : list Z) : Prop :=
  length ws' = length ws /\
  forall k, 0 <= k -> bitmap addr ws' k = if k =? nr then b else bitmap addr ws k.

Lemma test_bit_eq nr addr ws :
  0 <= nr < 64 -> 0 <= addr < Z.of_nat (length ws) ->
  test_bit nr addr ws = Ok (Z.b2z (bitmap addr ws nr)) ws.
Proof.
  intros Hnr Haddr. unfold test_bit, mbind, M_bind. rewrite load_valid by lia.
  destruct (Z.leb_spec 0 nr), (Z.ltb_spec nr 64); try lia. simpl. unfold mret, M_ret.
  f_equal. unfold bitmap. rewrite Z.div_small, Z.mod_small, Z.add_0_r by lia.
  rewrite (Z.land_ones _ 1) by lia. rewrite Z.testbit_spec' by lia.
  by rewrite Z.shiftr_div_pow2 by lia.
Qed.

Lemma test_bit_first_word nr addr ws :
  bit_valid nr addr ws ->
  test_bit nr addr ws = if nr <? 64 then Ok (Z.b2z (bitmap addr ws nr)) ws else Undef.
Proof.
  intros (Hnr & Haddr & Hlen). pose proof (Z.div_pos nr 64 ltac:(lia) ltac:(lia)).
  destruct (Z.ltb_spec nr 64).
  - apply test_bit_eq; lia.
  - unfold test_bit, mbind, M_bind. rewrite load_valid by lia.
    destruct (Z.leb_spec 0 nr), (Z.ltb_spec nr 64); by try lia.
Qed.

Section bits.
Context `{B : Build} (nr addr : Z) (ws : list Z).

(** C26: the plain C operations that are verified and the AMO instructions the
    kernel executes are the same functions, on every input. *)
Theorem builds_agree :
  set_bit (H := verify_build) nr addr ws = set_bit (H := kernel_build) nr addr ws /\
  clear_bit (H := verify_build) nr addr ws = clear_bit (H := kernel_build) nr addr ws /\
  change_bit (H := verify_build) nr addr ws = change_bit (H := kernel_build) nr addr ws.
Proof using Type.
  unfold set_bit, clear_bit, change_bit; simpl.
  unfold assign_bit, op_bit, amo, mbind, M_bind.
  destruct (BIT_MASK nr); [|done]; simpl.
  destruct (load _ ws) as [w ws'|msg ws'|]; [|done|done].
  split_and!; by destruct (store _ _ ws') as [[] ?| |].
Qed.

Lemma set_bit_eq :
  bit_valid nr addr ws ->
  set_bit nr addr ws
  = Ok () (<[bit_index nr addr := Z.lor (word_at (addr + nr / 64) ws) (bit_mask nr)]> ws).
Proof using Type.
  intros Hv. unfold set_bit. destruct IS_VERIF;
    [by rewrite assign_bit_eq | by rewrite op_bit_eq].
Qed.

Lemma clear_bit_eq :
  bit_valid nr addr ws ->
  clear_bit nr addr ws
  = Ok () (<[bit_index nr addr :=
               Z.land (word_at (addr + nr / 64) ws) (NOT (bit_mask nr))]> ws).
Proof using Type.
  intros Hv. unfold clear_bit. destruct IS_VERIF;
    [by rewrite assign_bit_eq | by rewrite op_bit_eq].
Qed.

Context (Hv : bit_valid nr addr ws).

Ltac solve_update :=
  pose proof Hv as (Hnr & Haddr & Hlen);
  split; [by rewrite length_insert|]; intros k Hk; apply bitmap_insert; try done;
  intros i Hi; rewrite ?lor_mask_bits, ?land_mask_bits, ?lxor_mask_bits by done;
  try done.

(** C27: on a bit array of any number of words, [set_bit], [clear_bit] and
    [change_bit] return, and set, clear and invert exactly bit [nr];
    [test_and_set_bit] and [test_and_clear_bit] also return the old bit; and
    [test_bit] returns the bit if it is in the first word, and is undefined
    otherwise. *)
Theorem bit_ops_spec :
  wp (set_bit nr addr) (fun _ => updates_bit nr addr true ws) ws /\
  wp (clear_bit nr addr) (fun _ => updates_bit nr addr false ws) ws /\
  wp (change_bit nr addr) (fun _ => updates_bit nr addr (negb (bitmap addr ws nr)) ws) ws /\
  wp (test_and_set_bit nr addr)
     (fun r ws' => r = bitmap addr ws nr /\ updates_bit nr addr true ws ws') ws /\
  wp (test_and_clear_bit nr addr)
     (fun r ws' => r = bitmap addr ws nr /\ updates_bit nr addr false ws ws') ws /\
  test_bit nr addr ws = if nr <? 64 then Ok (Z.b2z (bitmap addr ws nr)) ws else Undef.
Proof using Hv.
  unfold wp. rewrite set_bit_eq, clear_bit_eq by done. unfold change_bit.
  assert ((if IS_VERIF then assign_bit Z.lxor NOP nr addr else op_bit Z.lxor NOP nr addr) ws
    = Ok () (<[bit_index nr addr := Z.lxor (word_at (addr + nr / 64) ws) (NOP (bit_mask nr))]> ws))
    as -> by (destruct IS_VERIF; [by apply assign_bit_eq|by apply op_bit_eq]).
  unfold test_and_set_bit, test_and_clear_bit. rewrite !test_and_op_bit_eq by done.
  split_and!; try done; [change (bit_mask nr) with (NOP (bit_mask nr))| | | | |by apply test_bit_first_word];
    solve_update.
Qed.
End bits.

(** ** Witnesses *)

Lemma bit_ops_spec_witness :
  bit_valid 70 1 [0; 0; 5; 0] /\
  wp (set_bit (H := kernel_build) 70 1) (fun _ => updates_bit 70 1 true [0; 0; 5; 0]) [0; 0; 5; 0].
Proof.
  split; [vm_compute; intuition congruence|].
  apply (bit_ops_spec (B := kernel_build) 70 1 [0; 0; 5; 0]).
  vm_compute; intuition congruence.
Defined.
