(* ===== verification/DefaultPmm.v ===== *)
(** * The page allocator

    kern/mm/default_pmm.c over the page array of kern/mm/pmm.c, with the flag
    macros of kern/mm/memlayout.h.  First the code, operation by operation and
    loop by loop, then the closed form of every operation: what it returns and
    the state it leaves, on every branch. *)

From S2P Require Import Prelude Defs Atomic.

(** [struct Page pages[NPAGE]] (one flag word per page) and [size_t nr_free]. *)
Record mm_state : Type := Mm {
  pages : list Z;
  nr_free : Z;
}.

#[global] Instance mm_state_eq_dec : EqDecision mm_state.
Proof. solve_decision. Defined.

Definition set_pages (ps : list Z) (s : mm_state) : mm_state := Mm ps (nr_free s).
Definition set_nr_free (n : Z) (s : mm_state) : mm_state := Mm (pages s) n.

Definition pagesL : lens mm_state (list Z) := Lens pages set_pages.

#[export] Instance pagesL_laws : LensLaws pagesL.
Proof. by split; intros; destruct s. Qed.

Section code.
Context `{B : Build}.

(** ** Page flags *)

Definition SetPageReserved (page : Z) : M mm_state unit := zoom pagesL (set_bit PG_reserved page).
Definition ClearPageReserved (page : Z) : M mm_state unit := zoom pagesL (clear_bit PG_reserved page).
Definition PageReserved (page : Z) : M mm_state Z := zoom pagesL (test_bit PG_reserved page).
Definition SetPageAllocated (page : Z) : M mm_state unit := zoom pagesL (set_bit PG_allocated page).
Definition ClearPageAllocated (page : Z) : M mm_state unit := zoom pagesL (clear_bit PG_allocated page).
Definition PageAllocated (page : Z) : M mm_state Z := zoom pagesL (test_bit PG_allocated page).

(** [base <= p && p < base + n], the guard of every range loop. *)
Definition in_range (base n p : Z) : bool := (base <=? p) && (p <? u64 (base + n)).

(** ** The operations *)

Definition default_init : M mm_state unit := mmodify (set_nr_free 0).

Definition default_init_memmap (base n : Z) : M mm_state Z :=
  if negb (0 <? n) then mret 1 else
  if negb (n <=? NPAGE) then mret 2 else
  if negb (base <=? NPAGE) then mret 3 else
  if negb (u64 (base + n) <=? NPAGE) then mret 4 else
  r ← for_range NPAGE (fun p _ =>
        if in_range base n p then
          b ← PageReserved p;
          if negb (truthy b) then mret (Stop 5) else mret (Next ())
        else mret (Next ())) ();
  match r with Stop v => mret v | Next _ =>
  r ← for_range NPAGE (fun p _ =>
        if in_range base n p then
          b ← PageAllocated p;
          if truthy b then mret (Stop 6) else mret (Next ())
        else mret (Next ())) ();
  match r with Stop v => mret v | Next _ =>
  _ ← for_range (R := Empty_set) NPAGE (fun p _ =>
        if in_range base n p then ClearPageReserved p;; mret (Next ())
        else mret (Next ())) ();
  s ← mget;
  mput (set_nr_free (u64 (nr_free s + n)) s);;
  mret 0
  end end.

(** [PageReserved(p) || PageAllocated(p)], evaluated left to right. *)
Definition page_used (p : Z) : M mm_state bool :=
  r ← PageReserved p;
  if truthy r then mret true else
  a ← PageAllocated p;
  mret (truthy a).

(** The loop variables are [(page, first_usable)]. *)
Definition alloc_scan (n : Z) : M mm_state (step (Z * Z) (Z * Z)) :=
  for_range NPAGE (fun p '(page, first_usable) =>
    used ← page_used p;
    if used : bool then mret (Next (page, u64 (p + 1)))
    else if u64 (u64 (p - first_usable) + 1) =? n
    then mret (Stop (first_usable, first_usable))
    else mret (Next (page, first_usable))) (NULLPAGE, 0).

Definition default_alloc_pages (n : Z) : M mm_state Z :=
  if negb (0 <? n) then mret NULLPAGE else
  if negb (n <=? NPAGE) then mret NULLPAGE else
  r ← alloc_scan n;
  let page := match r with Next (page, _) => page | Stop (page, _) => page end in
  if negb (page =? NULLPAGE) then
    _ ← for_range (R := Empty_set) NPAGE (fun p _ =>
          if (page <=? p) && (p <? u64 (page + n))
          then SetPageAllocated p;; mret (Next ())
          else mret (Next ())) ();
    s ← mget;
    mput (set_nr_free (u64 (nr_free s - n)) s);;
    mret page
  else mret page.

Definition default_free_pages (base n : Z) : M mm_state unit :=
  if NPAGE <=? base then mret () else
  if n =? 0 then mret () else
  if NPAGE <? n then mret () else
  if NPAGE <? u64 (base + n) then mret () else
  _ ← for_range (R := Empty_set) NPAGE (fun p _ =>
        if in_range base n p then ClearPageAllocated p;; mret (Next ())
        else mret (Next ())) ();
  s ← mget;
  mput (set_nr_free (u64 (nr_free s + n)) s).

Definition default_nr_free_pages : M mm_state Z := s ← mget; mret (nr_free s).
End code.

(** ** Pages as flag words *)

Definition reserved (ps : list Z) (p : Z) : bool := Z.testbit (word_at p ps) PG_reserved.
Definition allocated (ps : list Z) (p : Z) : bool := Z.testbit (word_at p ps) PG_allocated.
Definition word_free (w : Z) : bool := negb (Z.testbit w PG_allocated) && negb (Z.testbit w PG_reserved).
(** A page that [alloc_pages] may hand out. *)
Definition avail (ps : list Z) (p : Z) : bool := word_free (word_at p ps).

Definition set_reserved (w : Z) : Z := Z.lor w (bit_mask PG_reserved).
Definition clear_reserved (w : Z) : Z := Z.land w (NOT (bit_mask PG_reserved)).
Definition set_allocated (w : Z) : Z := Z.lor w (bit_mask PG_allocated).
Definition clear_allocated (w : Z) : Z := Z.land w (NOT (bit_mask PG_allocated)).

(** [f] applied to the pages [base .. base + n - 1]. *)
Definition map_range (f : Z -> Z) (base n : Z) (ps : list Z) : list Z :=
  imap (fun i w => if in_range base n (Z.of_nat i) then f w else w) ps.

(** Every page of [q .. q + n - 1] is available. *)
Definition run_free (ps : list Z) (q n : Z) : Prop :=
  forall i, q <= i < q + n -> avail ps i = true.

(** The well-formed states: the arrays and counters have their C types. *)
Definition mm_wf `{B : Build} (s : mm_state) : Prop :=
  Z.of_nat (length (pages s)) = NPAGE /\ Forall in_u64 (pages s) /\ in_u64 (nr_free s).

(** ** Flag words *)

Lemma word_bit_small b : b = PG_reserved \/ b = PG_allocated -> 0 <= b < 64.
Proof. unfold PG_reserved, PG_allocated. lia. Qed.

Lemma or_flag_bits b w i :
  0 <= b < 64 -> Z.testbit (Z.lor w (bit_mask b)) i = if i =? b then true else Z.testbit w i.
Proof.
  intros Hb. pose proof (lor_mask_bits w b i) as E. unfold NOP in E. rewrite E.
  by rewrite Z.mod_small by lia.
Qed.

Lemma and_flag_bits b w i :
  0 <= b < 64 -> 0 <= i < 64 ->
  Z.testbit (Z.land w (NOT (bit_mask b))) i = if i =? b then false else Z.testbit w i.
Proof. intros Hb Hi. rewrite land_mask_bits by done. by rewrite (Z.mod_small b) by lia. Qed.

Lemma NOT_nonneg x : 0 <= NOT x.
Proof. apply u64_in. Qed.

Lemma in_u64_or_flag b w : in_u64 w -> in_u64 (Z.lor w (bit_mask b)).
Proof. intros. apply in_u64_lor; [done|apply bit_mask_u64]. Qed.

Lemma in_u64_and_flag b w : in_u64 w -> in_u64 (Z.land w (NOT (bit_mask b))).
Proof. intros. apply in_u64_land; [done|apply NOT_nonneg]. Qed.

#[export] Hint Resolve in_u64_or_flag in_u64_and_flag : word.

(** The four flag writes, seen through the two flag tests. *)
Ltac flag_bits :=
  unfold set_reserved, clear_reserved, set_allocated, clear_allocated, PG_reserved, PG_allocated;
  rewrite ?or_flag_bits, ?and_flag_bits by lia; try done.

Lemma set_allocated_flags w :
  Z.testbit (set_allocated w) PG_allocated = true /\
  Z.testbit (set_allocated w) PG_reserved = Z.testbit w PG_reserved.
Proof. split; flag_bits. Qed.
Lemma clear_allocated_flags w :
  Z.testbit (clear_allocated w) PG_allocated = false /\
  Z.testbit (clear_allocated w) PG_reserved = Z.testbit w PG_reserved.
Proof. split; flag_bits. Qed.
Lemma clear_reserved_flags w :
  Z.testbit (clear_reserved w) PG_allocated = Z.testbit w PG_allocated /\
  Z.testbit (clear_reserved w) PG_reserved = false.
Proof. split; flag_bits. Qed.

(** ** Single-page operations *)

Section page_ops.
Context `{B : Build} (b p : Z) (s : mm_state).
Context (Hb : 0 <= b < 64) (Hp : 0 <= p < Z.of_nat (length (pages s))).

Lemma page_bit_valid : bit_valid b p (pages s).
Proof using Hb Hp. split_and!; [lia|lia|]. rewrite Z.div_small by lia. lia. Qed.

Lemma page_bit_index : bit_index b p = Z.to_nat p.
Proof using Hb. clear Hp. unfold bit_index. rewrite Z.div_small by lia. by rewrite Z.add_0_r. Qed.

Lemma zoom_set_bit :
  zoom pagesL (set_bit b p) s
  = Ok () (set_pages (<[Z.to_nat p := Z.lor (word_at p (pages s)) (bit_mask b)]> (pages s)) s).
Proof using Hb Hp.
  unfold zoom. simpl. rewrite set_bit_eq by apply page_bit_valid.
  rewrite page_bit_index. by rewrite Z.div_small, Z.add_0_r by lia.
Qed.

Lemma zoom_clear_bit :
  zoom pagesL (clear_bit b p) s
  = Ok () (set_pages (<[Z.to_nat p := Z.land (word_at p (pages s)) (NOT (bit_mask b))]> (pages s)) s).
Proof using Hb Hp.
  unfold zoom. simpl. rewrite clear_bit_eq by apply page_bit_valid.
  rewrite page_bit_index. by rewrite Z.div_small, Z.add_0_r by lia.
Qed.

Lemma zoom_test_bit :
  zoom pagesL (test_bit b p) s = Ok (Z.b2z (Z.testbit (word_at p (pages s)) b)) s.
Proof using Hb Hp.
  unfold zoom. simpl. rewrite test_bit_eq by done.
  unfold bitmap. rewrite Z.div_small, Z.mod_small, Z.add_0_r by lia. by destruct s.
Qed.
End page_ops.

Lemma truthy_b2z b : truthy (Z.b2z b) = b.
Proof. by destruct b. Qed.

Section page_tests.
Context `{B : Build} (p : Z) (s : mm_state) (Hp : 0 <= p < Z.of_nat (length (pages s))).

Lemma PageReserved_eq : PageReserved p s = Ok (Z.b2z (reserved (pages s) p)) s.
Proof using Hp. apply zoom_test_bit; [unfold PG_reserved; lia|done]. Qed.
Lemma PageAllocated_eq : PageAllocated p s = Ok (Z.b2z (allocated (pages s) p)) s.
Proof using Hp. apply zoom_test_bit; [unfold PG_allocated; lia|done]. Qed.

Lemma page_used_eq : page_used p s = Ok (negb (avail (pages s) p)) s.
Proof using Hp.
  unfold page_used, mbind, M_bind. rewrite PageReserved_eq, truthy_b2z.
  unfold avail, word_free. change (Z.testbit (word_at p (pages s)) PG_reserved)
    with (reserved (pages s) p).
  destruct (reserved (pages s) p); [by rewrite andb_false_r|].
  rewrite PageAllocated_eq, truthy_b2z, andb_true_r, negb_involutive. done.
Qed.
End page_tests.

(** ** Range loops *)

Lemma imap_id {A} (f : nat -> A -> A) (l : list A) :
  (forall i x, l !! i = Some x -> f i x = x) -> imap f l = l.
Proof.
  intros Hf. apply list_eq. intros i. rewrite list_lookup_imap.
  destruct (l !! i) eqn:E; simpl; [f_equal; by apply Hf|done].
Qed.

Section range_loops.
Context `{B : Build}.

(** A loop that modifies the pages selected by [c]. *)
Lemma for_range_modify {R} (c : Z -> bool) (m : Z -> M mm_state unit) (f : Z -> Z) hi ps nr :
  hi = Z.of_nat (length ps) ->
  (forall p s, 0 <= p < Z.of_nat (length (pages s)) ->
     m p s = Ok () (set_pages (<[Z.to_nat p := f (word_at p (pages s))]> (pages s)) s)) ->
  for_range (R := R) hi
    (fun p _ => if c p then m p;; mret (Next ()) else mret (Next ())) () (Mm ps nr)
  = Ok (Next ()) (Mm (imap (fun i w => if c (Z.of_nat i) then f w else w) ps) nr).
Proof using Type.
  intros -> Hm.
  set (after q := imap (fun i w => if (Z.of_nat i <? q) && c (Z.of_nat i) then f w else w) ps).
  apply (for_range_eq (fun q _ s => s = Mm (after q) nr) (fun _ _ => False)); try done; [lia| | |].
  - f_equal. symmetry. apply imap_id. intros i x _.
    destruct (Z.ltb_spec (Z.of_nat i) 0); [lia|done].
  - intros q [] s Hq ->. simpl.
    assert (Hlen : length (after q) = length ps) by apply length_imap.
    assert (Hnext : after (q + 1)
      = if c q then <[Z.to_nat q := f (word_at q (after q))]> (after q) else after q).
    { apply list_eq. intros i. unfold after at 1. rewrite list_lookup_imap.
      destruct (decide (i = Z.to_nat q)) as [->|Hne].
      - destruct (lookup_lt_is_Some_2 ps (Z.to_nat q)) as [w Hw]; [lia|].
        assert (Ha : after q !! Z.to_nat q = Some w).
        { unfold after. rewrite list_lookup_imap, Hw. simpl.
          destruct (Z.ltb_spec (Z.of_nat (Z.to_nat q)) q); [lia|done]. }
        rewrite Hw, Z2Nat.id by lia. simpl.
        destruct (Z.ltb_spec q (q + 1)); [simpl|lia]. destruct (c q); [|done].
        rewrite list_lookup_insert_eq by lia. unfold word_at. by rewrite Ha.
      - assert (after q !! i = (if c q then
          <[Z.to_nat q := f (word_at q (after q))]> (after q) else after q) !! i) as <-.
        { destruct (c q); [by rewrite list_lookup_insert_ne|done]. }
        unfold after. rewrite list_lookup_imap. destruct (ps !! i); [|done]. simpl.
        destruct (Z.ltb_spec (Z.of_nat i) (q + 1)), (Z.ltb_spec (Z.of_nat i) q); try done; lia. }
    rewrite Hnext. destruct (c q).
    + unfold wp, mbind, M_bind. rewrite Hm by (simpl; lia). done.
    + done.
  - intros [] s ->. do 2 f_equal. unfold after. apply list_eq. intros i.
    rewrite !list_lookup_imap. destruct (ps !! i) eqn:Ei; [|done]; simpl.
    apply lookup_lt_Some in Ei.
    destruct (Z.ltb_spec (Z.of_nat i) (Z.of_nat (length ps))); [done|lia].
Qed.

(** A read-only loop that stops at the first page whose test holds. *)
Lemma for_range_search (x : Z -> bool) (v : Z) hi (s : mm_state)
    (body : Z -> unit -> M mm_state (step unit Z)) :
  0 <= hi ->
  (forall p, 0 <= p < hi -> body p () s = Ok (if x p then Stop v else Next ()) s) ->
  for_range hi body () s = Ok (if existsb x (seqZ 0 hi) then Stop v else Next ()) s.
Proof using Type.
  intros Hhi Hm.
  apply (for_range_eq (fun q _ s' => s' = s /\ forall p, 0 <= p < q -> x p = false)
    (fun r s' => s' = s /\ r = v /\ exists p, 0 <= p < hi /\ x p = true)).
  - done.
  - split; [done|lia].
  - intros q [] s' Hq [-> HI]. unfold wp. rewrite Hm by done. destruct (x q) eqn:Hx.
    + eauto.
    + split; [done|]. intros p Hp. destruct (decide (p = q)) as [->|]; [done|apply HI; lia].
  - intros [] s' [-> HE]. f_equal. destruct (existsb _ _) eqn:F; [|done].
    apply existsb_exists in F as (p & Hp & Hx).
    apply list_elem_of_In, elem_of_seqZ in Hp. by rewrite HE in Hx by lia.
  - intros r s' (-> & -> & p & Hp & Hx). f_equal. destruct (existsb _ _) eqn:F; [done|].
    apply not_true_iff_false in F. destruct F. apply existsb_exists.
    exists p. split; [|done]. apply list_elem_of_In, elem_of_seqZ. lia.
Qed.
End range_loops.

(** ** First fit *)

(** The reference definition: the least [q] such that the pages
    [q .. q + n - 1] exist and are all available. *)
Definition run_freeb (ps : list Z) (q n : Z) : bool := forallb (avail ps) (seqZ q n).
Definition first_fit `{Build} (n : Z) (ps : list Z) : option Z :=
  head (filter (fun q => run_freeb ps q n = true) (seqZ 0 (NPAGE - n + 1))).

Lemma run_freeb_spec ps q n : run_freeb ps q n = true <-> run_free ps q n.
Proof.
  unfold run_freeb, run_free. rewrite forallb_forall. split.
  - intros HF i Hi. apply HF, list_elem_of_In, elem_of_seqZ. lia.
  - intros HF i Hi. apply HF. by apply list_elem_of_In, elem_of_seqZ in Hi.
Qed.

(** The first element of a filtered range is the least one. *)
Lemma head_filter_seqZ (P : Z -> Prop) `{!forall x, Decision (P x)} lo len o :
  head (filter P (seqZ lo len)) = o <->
  match o with
  | Some q => lo <= q < lo + len /\ P q /\ forall r, lo <= r < q -> ~ P r
  | None => forall r, lo <= r < lo + len -> ~ P r
  end.
Proof.
  assert (Hh : forall o', head (filter P (seqZ lo len)) = o' ->
    match o' with
    | Some q => lo <= q < lo + len /\ P q /\ forall r, lo <= r < q -> ~ P r
    | None => forall r, lo <= r < lo + len -> ~ P r
    end).
  { intros o' <-. destruct (Z_le_gt_dec len 0).
    { rewrite seqZ_nil by lia. simpl. lia. }
    replace len with (Z.of_nat (Z.to_nat len)) by lia.
    generalize (Z.to_nat len) as k. clear. intros k. revert lo.
    induction k as [|k IH]; intros lo; [simpl; lia|].
    rewrite seqZ_cons by lia. rewrite filter_cons. case_decide as HP.
    - simpl. split_and!; [lia|lia|done|lia].
    - replace (Z.pred (Z.of_nat (Datatypes.S k))) with (Z.of_nat k) by lia.
      specialize (IH (Z.succ lo)). destruct (head _) as [q|].
      + destruct IH as (Hq & HPq & Hmin). split_and!; [lia|lia|done|].
        intros r Hr. destruct (decide (r = lo)) as [->|]; [done|apply Hmin; lia].
      + intros r Hr. destruct (decide (r = lo)) as [->|]; [done|apply IH; lia]. }
  split; [apply Hh|]. pose proof (Hh _ eq_refl) as Hx.
  destruct (head _) as [q|], o as [q'|]; simpl in *.
  - intros (Hr & HP & Hmin). destruct Hx as (Hr' & HP' & Hmin').
    f_equal. destruct (Z.lt_trichotomy q q') as [?|[?|?]]; [|done|].
    + by destruct (Hmin q); [lia|].
    + by destruct (Hmin' q'); [lia|].
  - intros Hno. destruct Hx as (Hr & HP & _). by destruct (Hno q).
  - intros (Hr & HP & _). by destruct (Hx q').
  - done.
Qed.

Lemma first_fit_spec `{Build} n ps o :
  first_fit n ps = o <->
  match o with
  | Some q => 0 <= q /\ q + n <= NPAGE /\ run_free ps q n /\
              (forall r, 0 <= r < q -> ~ run_free ps r n)
  | None => forall r, 0 <= r -> r + n <= NPAGE -> ~ run_free ps r n
  end.
Proof.
  unfold first_fit. rewrite head_filter_seqZ.
  destruct o as [q|]; setoid_rewrite run_freeb_spec; split.
  - intros (Hq & HP & Hmin). split_and!; [lia|lia|done|done].
  - intros (Hq & Hn & HP & Hmin). split_and!; [lia|lia|done|done].
  - intros Hno r Hr Hn. apply Hno. lia.
  - intros Hno r Hr. apply Hno; lia.
Qed.

(** ** Closed forms of the operations *)

(** The page the scan loop leaves in [page]. *)
Definition scan_page (r : step (Z * Z) (Z * Z)) : Z :=
  match r with Next (page, _) => page | Stop (page, _) => page end.

Section closed_forms.
Context `{B : Build}.

Lemma in_range_iff base n p :
  in_u64 base -> 0 <= n -> base + n < 2 ^ 64 ->
  in_range base n p = true <-> base <= p < base + n.
Proof using Type.
  intros Hb Hn Hlt. unfold in_range. rewrite u64_small by (word_unfold; lia).
  rewrite andb_true_iff, Z.leb_le, Z.ltb_lt. lia.
Qed.

(** The one-pass scan finds what the reference search finds. *)
Lemma alloc_scan_spec n s :
  0 < n <= NPAGE -> Z.of_nat (length (pages s)) = NPAGE ->
  wp (alloc_scan n)
     (fun r s' => s' = s /\ scan_page r = default NULLPAGE (first_fit n (pages s))) s.
Proof using Type.
  intros Hn Hlen. pose proof NPAGE_range. set (ps := pages s).
  eapply wp_mono; [apply (wp_for_range
    (fun p '(page, fu) s' => s' = s /\ page = NULLPAGE /\ 0 <= fu <= p /\ p - fu < n /\
       (forall i, fu <= i < p -> avail ps i = true) /\
       (fu = 0 \/ avail ps (fu - 1) = false) /\
       (forall q, 0 <= q -> q + n <= p -> ~ run_free ps q n))
    (fun '(page, fu) s' => s' = s /\ page = fu /\ first_fit n ps = Some fu))|].
  - lia.
  - split_and!; [done|done|lia|lia|lia|lia|auto|lia].
  - intros p [page fu] s' Hp (-> & -> & Hfu & Hlt & Hrun & Hprev & Hno).
    apply wp_bind. eapply wp_intro; [apply page_used_eq; lia|]. fold ps.
    destruct (avail ps p) eqn:Hav; simpl.
    + rewrite (u64_small (p - fu)), (u64_small (p - fu + 1)) by (word_unfold; lia).
      destruct (Z.eqb_spec (p - fu + 1) n) as [E|E]; cbn.
      * split_and!; [done|done|]. apply first_fit_spec. split_and!; [lia|lia| |].
        { intros i Hi. destruct (decide (i = p)) as [->|]; [done|apply Hrun; lia]. }
        { intros r Hr Hrf. destruct (decide (r + n <= p)) as [|]; [by apply (Hno r); [lia|done|]|].
          destruct Hprev as [->|Hprev]; [lia|]. by rewrite Hrf in Hprev by lia. }
      * split_and!; [done|done|lia|lia|lia| |done|].
        { intros i Hi. destruct (decide (i = p)) as [->|]; [done|apply Hrun; lia]. }
        { intros q Hq Hqn Hrf. destruct (decide (q + n <= p)); [by apply (Hno q)|].
          destruct Hprev as [->|Hprev]; [lia|]. by rewrite Hrf in Hprev by lia. }
    + rewrite u64_small by (word_unfold; lia). cbn.
      split_and!; [done|done|lia|lia|lia|lia| |].
      { right. by replace (p + 1 - 1) with p by lia. }
      { intros q Hq Hqn Hrf. destruct (decide (q + n <= p)); [by apply (Hno q)|].
        by rewrite Hrf in Hav by lia. }
  - intros [[page fu]|[page fu]] s'.
    + intros (-> & -> & _ & _ & _ & _ & Hno). split; [done|]. simpl.
      assert (first_fit n ps = None) as -> by by apply first_fit_spec. done.
    + intros (-> & -> & ->). done.
Qed.

(** [alloc_pages]: the reference search decides, the pages found are marked,
    the counter is adjusted. *)
Definition alloc_result (n : Z) (s : mm_state) : outcome mm_state Z :=
  if (0 <? n) && (n <=? NPAGE) then
    match first_fit n (pages s) with
    | Some q => Ok q (Mm (map_range set_allocated q n (pages s)) (u64 (nr_free s - n)))
    | None => Ok NULLPAGE s
    end
  else Ok NULLPAGE s.

Lemma default_alloc_pages_eq n s :
  Z.of_nat (length (pages s)) = NPAGE -> default_alloc_pages n s = alloc_result n s.
Proof using Type.
  intros Hlen. pose proof NPAGE_range. pose proof NPAGE_lt_NULLPAGE.
  unfold default_alloc_pages, alloc_result.
  destruct (Z.ltb_spec 0 n); [|done]. destruct (Z.leb_spec n NPAGE); [|done]. simpl.
  destruct (wp_elim _ _ _ (alloc_scan_spec n s ltac:(lia) Hlen)) as (r & s' & E & -> & Hr).
  unfold mbind at 1, M_bind at 1. rewrite E.
  change (match r with Next (page, _) => page | Stop (page, _) => page end) with (scan_page r).
  rewrite Hr. destruct (first_fit n (pages s)) as [q|] eqn:Eq; simpl; [|done].
  apply first_fit_spec in Eq as (Hq & Hqn & _).
  destruct (Z.eqb_spec q NULLPAGE); [lia|]. simpl.
  unfold mbind at 1, M_bind at 1. destruct s as [ps nr].
  change (fun p (_ : unit) => if (q <=? p) && (p <? u64 (q + n)) then _ else _)
    with (fun p (_ : unit) => if in_range q n p
            then SetPageAllocated p;; mret (Next (R := Empty_set) ()) else mret (Next ())).
  rewrite (for_range_modify (in_range q n) SetPageAllocated set_allocated); [done|done|].
  intros p s Hp. apply zoom_set_bit; [unfold PG_allocated; lia|done].
Qed.

(** The frees that the guards let through. *)
Definition free_guard (base n : Z) : bool :=
  (base <? NPAGE) && negb (n =? 0) && (n <=? NPAGE) && (u64 (base + n) <=? NPAGE).

Lemma default_free_pages_eq base n s :
  Z.of_nat (length (pages s)) = NPAGE ->
  default_free_pages base n s
  = Ok () (if free_guard base n
           then Mm (map_range clear_allocated base n (pages s)) (u64 (nr_free s + n))
           else s).
Proof using Type.
  intros Hlen. unfold default_free_pages, free_guard.
  destruct (Z.leb_spec NPAGE base), (Z.ltb_spec base NPAGE); try lia; [done|]; simpl.
  destruct (n =? 0); simpl; [done|].
  destruct (Z.ltb_spec NPAGE n), (Z.leb_spec n NPAGE); try lia; simpl; [done|].
  destruct (Z.ltb_spec NPAGE (u64 (base + n))), (Z.leb_spec (u64 (base + n)) NPAGE);
    try lia; simpl; [done|].
  unfold mbind at 1, M_bind at 1. destruct s as [ps nr].
  rewrite (for_range_modify (in_range base n) ClearPageAllocated clear_allocated); [done|done|].
  intros p s Hp. apply zoom_clear_bit; [unfold PG_allocated; lia|done].
Qed.

(** The return codes of [init_memmap], first failing check first. *)
Definition init_memmap_code (base n : Z) (ps : list Z) : Z :=
  if negb (0 <? n) then 1 else if negb (n <=? NPAGE) then 2 else
  if negb (base <=? NPAGE) then 3 else if negb (u64 (base + n) <=? NPAGE) then 4 else
  if existsb (fun p => in_range base n p && negb (reserved ps p)) (seqZ 0 NPAGE) then 5 else
  if existsb (fun p => in_range base n p && allocated ps p) (seqZ 0 NPAGE) then 6 else 0.

Lemma default_init_memmap_eq base n s :
  Z.of_nat (length (pages s)) = NPAGE ->
  default_init_memmap base n s
  = let r := init_memmap_code base n (pages s) in
    Ok r (if r =? 0
          then Mm (map_range clear_reserved base n (pages s)) (u64 (nr_free s + n))
          else s).
Proof using Type.
  intros Hlen. pose proof NPAGE_range. unfold default_init_memmap, init_memmap_code.
  destruct (negb (0 <? n)); [done|]. destruct (negb (n <=? NPAGE)); [done|].
  destruct (negb (base <=? NPAGE)); [done|]. destruct (negb (u64 (base + n) <=? NPAGE)); [done|].
  unfold mbind at 1, M_bind at 1.
  rewrite (for_range_search (fun p => in_range base n p && negb (reserved (pages s) p)) 5); [|lia|].
  2: { intros p Hp. destruct (in_range base n p); [|done]. simpl.
       unfold mbind, M_bind. rewrite PageReserved_eq, truthy_b2z by lia.
       by destruct (reserved _ _). }
  destruct (existsb _ _); [done|].
  unfold mbind at 1, M_bind at 1.
  rewrite (for_range_search (fun p => in_range base n p && allocated (pages s) p) 6); [|lia|].
  2: { intros p Hp. destruct (in_range base n p); [|done]. simpl.
       unfold mbind, M_bind. rewrite PageAllocated_eq, truthy_b2z by lia.
       by destruct (allocated _ _). }
  destruct (existsb _ _); [done|].
  unfold mbind at 1, M_bind at 1. destruct s as [ps nr].
  rewrite (for_range_modify (in_range base n) ClearPageReserved clear_reserved); [done|done|].
  intros p s Hp. apply zoom_clear_bit; [unfold PG_reserved; lia|done].
Qed.
End closed_forms.

(** ** Ranges of pages *)

Lemma length_map_range f base n ps : length (map_range f base n ps) = length ps.
Proof. apply length_imap. Qed.

Lemma word_at_map_range f base n ps p :
  0 <= p < Z.of_nat (length ps) ->
  word_at p (map_range f base n ps)
  = if in_range base n p then f (word_at p ps) else word_at p ps.
Proof.
  intros Hp. unfold word_at, map_range. rewrite list_lookup_imap.
  destruct (lookup_lt_is_Some_2 ps (Z.to_nat p)) as [w Hw]; [lia|].
  rewrite Hw. simpl. by rewrite Z2Nat.id by lia.
Qed.

Lemma Forall_map_range (P : Z -> Prop) f base n ps :
  (forall w, P w -> P (f w)) -> Forall P ps -> Forall P (map_range f base n ps).
Proof.
  intros Hf HP. rewrite Forall_lookup in HP |- *. intros i x. unfold map_range.
  rewrite list_lookup_imap. destruct (ps !! i) eqn:E; [|done]. simpl.
  intros [= <-]. destruct (in_range _ _ _); eauto.
Qed.

#[export] Hint Rewrite length_map_range : word_rw.

(** The range as a middle segment of the page array. *)
Definition slice (base n : Z) (ps : list Z) : list Z :=
  take (Z.to_nat n) (drop (Z.to_nat base) ps).

Lemma lookup_slice base n ps i :
  0 <= base -> (i < Z.to_nat n)%nat ->
  slice base n ps !! i = ps !! Z.to_nat (base + Z.of_nat i).
Proof.
  intros Hb Hi. unfold slice. rewrite lookup_take, lookup_drop, decide_True by done.
  f_equal. lia.
Qed.

Lemma length_slice base n ps :
  0 <= base -> 0 <= n -> base + n <= Z.of_nat (length ps) ->
  Z.of_nat (length (slice base n ps)) = n.
Proof. intros. unfold slice. rewrite length_take, length_drop. lia. Qed.

Section ranges.
Context (base n : Z) (ps : list Z).
Context (Hb : 0 <= base) (Hn : 0 <= n) (Hlen : base + n <= Z.of_nat (length ps)).
Context (Hlt : base + n < 2 ^ 64).

Lemma map_range_split f :
  map_range f base n ps
  = take (Z.to_nat base) ps ++ (f <$> slice base n ps) ++ drop (Z.to_nat (base + n)) ps.
Proof using All.
  apply list_eq. intros i. unfold map_range. rewrite list_lookup_imap.
  assert (Hr : in_range base n (Z.of_nat i) = true <-> base <= Z.of_nat i < base + n).
  { apply in_range_iff; [word_unfold; lia|lia|lia]. }
  assert (Ht : length (take (Z.to_nat base) ps) = Z.to_nat base) by (rewrite length_take; lia).
  assert (Hs : length (f <$> slice base n ps) = Z.to_nat n).
  { rewrite length_fmap. pose proof (length_slice base n ps Hb Hn Hlen). lia. }
  destruct (decide (Z.of_nat i < base)) as [H1|H1].
  { rewrite lookup_app_l, lookup_take_lt by lia.
    destruct (in_range base n (Z.of_nat i)) eqn:E; [destruct Hr as [Hr _]; specialize (Hr eq_refl); lia|].
    by destruct (ps !! i). }
  rewrite lookup_app_r, Ht by lia.
  destruct (decide (Z.of_nat i < base + n)) as [H2|H2].
  - rewrite lookup_app_l by lia. rewrite list_lookup_fmap, lookup_slice by lia.
    replace (Z.to_nat (base + Z.of_nat (i - Z.to_nat base))) with i by lia.
    assert (in_range base n (Z.of_nat i) = true) as -> by (apply Hr; lia). done.
  - rewrite lookup_app_r, Hs, lookup_drop by lia.
    replace (Z.to_nat (base + n) + (i - Z.to_nat base - Z.to_nat n))%nat with i by lia.
    destruct (in_range base n (Z.of_nat i)) eqn:E; [destruct Hr as [Hr _]; specialize (Hr eq_refl); lia|].
    by destruct (ps !! i).
Qed.

Lemma split_range :
  ps = take (Z.to_nat base) ps ++ slice base n ps ++ drop (Z.to_nat (base + n)) ps.
Proof using Hb Hn.
  rewrite <- (take_drop (Z.to_nat base) ps) at 1. f_equal. unfold slice.
  rewrite <- (take_drop (Z.to_nat n) (drop (Z.to_nat base) ps)) at 1. f_equal.
  rewrite drop_drop. f_equal. lia.
Qed.

Lemma Forall_slice (P : Z -> Prop) :
  Forall P (slice base n ps) <-> forall p, base <= p < base + n -> P (word_at p ps).
Proof using Hb Hn Hlen.
  pose proof (length_slice base n ps Hb Hn Hlen). rewrite Forall_lookup. split.
  - intros HP p Hp. destruct (lookup_lt_is_Some_2 ps (Z.to_nat p)) as [w Hw]; [lia|].
    unfold word_at. rewrite Hw. apply (HP (Z.to_nat (p - base))).
    rewrite lookup_slice by lia.
    by replace (Z.to_nat (base + Z.of_nat (Z.to_nat (p - base)))) with (Z.to_nat p) by lia.
  - intros HP i w Hw. pose proof (lookup_lt_Some _ _ _ Hw).
    rewrite lookup_slice in Hw by lia.
    specialize (HP (base + Z.of_nat i) ltac:(lia)). unfold word_at in HP. by rewrite Hw in HP.
Qed.
End ranges.

(** ** Counting *)

Definition count (t : Z -> bool) (ws : list Z) : Z :=
  Z.of_nat (length (filter (fun w => t w = true) ws)).

(** The number of pages [alloc_pages] may hand out. *)
Definition count_free (ps : list Z) : Z := count word_free ps.

Lemma count_app t ws ws' : count t (ws ++ ws') = count t ws + count t ws'.
Proof. unfold count. rewrite filter_app, length_app. lia. Qed.

Lemma count_cons t w ws : count t (w :: ws) = (if t w then 1 else 0) + count t ws.
Proof.
  unfold count. rewrite filter_cons. case_decide as E; [rewrite E; simpl length; lia|].
  apply not_true_is_false in E. by rewrite E.
Qed.

Lemma count_fmap t f ws : count t (f <$> ws) = count (fun w => t (f w)) ws.
Proof.
  induction ws as [|w ws IH]; [done|]. by rewrite fmap_cons, !count_cons, IH.
Qed.

Lemma count_range t ws : 0 <= count t ws <= Z.of_nat (length ws).
Proof. unfold count. pose proof (length_filter (fun w => t w = true) ws). lia. Qed.

Lemma count_all t ws : count t ws = Z.of_nat (length ws) <-> Forall (fun w => t w = true) ws.
Proof.
  induction ws as [|w ws IH]; [done|].
  rewrite count_cons, Forall_cons, <- IH. pose proof (count_range t ws).
  destruct (t w); simpl length; [intuition lia|]. split; [lia|by intros []].
Qed.

Lemma count_none t ws : Forall (fun w => t w = false) ws -> count t ws = 0.
Proof.
  induction 1 as [|w ws Hw HF IH]; [done|]. by rewrite count_cons, Hw, IH.
Qed.

Lemma count_ext t t' ws :
  Forall (fun w => t w = t' w) ws -> count t ws = count t' ws.
Proof.
  induction 1 as [|w ws Hw HF IH]; [done|]. by rewrite !count_cons, Hw, IH.
Qed.

(** How a range update moves a count. *)
Lemma count_map_range t f base n ps :
  0 <= base -> 0 <= n -> base + n <= Z.of_nat (length ps) -> base + n < 2 ^ 64 ->
  count t (map_range f base n ps)
  = count t ps - count t (slice base n ps) + count (fun w => t (f w)) (slice base n ps).
Proof.
  intros. rewrite map_range_split by done.
  rewrite (split_range base n ps) at 4 by done.
  rewrite !count_app, count_fmap. lia.
Qed.

(** ** The guards, without machine arithmetic *)

Section guards.
Context `{B : Build} (base n : Z) (Hb : in_u64 base) (Hn : in_u64 n).

(** The four checks of [free_pages] leave no room for the sum to wrap. *)
Lemma free_guard_iff : free_guard base n = true <-> 0 < n /\ base + n <= NPAGE.
Proof using All.
  pose proof NPAGE_range. unfold free_guard.
  rewrite !andb_true_iff, negb_true_iff, Z.eqb_neq, Z.ltb_lt, !Z.leb_le.
  word_unfold. split.
  - intros (((H1 & H2) & H3) & H4). rewrite Z.mod_small in H4 by lia. lia.
  - intros [H1 H2]. rewrite Z.mod_small by lia. lia.
Qed.

Lemma in_range_wf p : base + n <= NPAGE -> in_range base n p = true <-> base <= p < base + n.
Proof using All.
  intros Hle. pose proof NPAGE_range. apply in_range_iff; word_unfold; lia.
Qed.
End guards.

Lemma in_range_decide `{Build} base n p :
  in_u64 base -> in_u64 n -> base + n <= NPAGE ->
  in_range base n p = bool_decide (base <= p < base + n).
Proof.
  intros Hb Hn Hle. apply eq_bool_prop_intro. rewrite bool_decide_spec.
  rewrite Is_true_true. by apply in_range_wf.
Qed.

(** The pages [base .. base + n - 1] got [f], the others are as before. *)
Definition pages_updated `{Build} (f : Z -> Z) (base n : Z) (ps ps' : list Z) : Prop :=
  length ps' = length ps /\
  forall p, 0 <= p < NPAGE ->
    word_at p ps' = if bool_decide (base <= p < base + n) then f (word_at p ps) else word_at p ps.

Lemma map_range_updated `{Build} f base n ps :
  in_u64 base -> in_u64 n -> base + n <= NPAGE -> Z.of_nat (length ps) = NPAGE ->
  pages_updated f base n ps (map_range f base n ps).
Proof.
  intros Hb Hn Hle Hlen. split; [apply length_map_range|]. intros p Hp.
  rewrite word_at_map_range by lia. by rewrite in_range_decide.
Qed.

Lemma word_at_ext ps ps' :
  length ps = length ps' ->
  (forall p, 0 <= p < Z.of_nat (length ps) -> word_at p ps = word_at p ps') -> ps = ps'.
Proof.
  intros Hlen He. apply list_eq. intros i.
  destruct (decide (i < length ps)%nat) as [Hi|Hi].
  - specialize (He (Z.of_nat i) ltac:(lia)). unfold word_at in He. rewrite Nat2Z.id in He.
    destruct (lookup_lt_is_Some_2 ps i Hi) as [w Hw].
    destruct (lookup_lt_is_Some_2 ps' i) as [w' Hw']; [lia|].
    rewrite Hw, Hw' in He |- *. simpl in He. by rewrite He.
  - rewrite !lookup_ge_None_2 by lia. done.
Qed.

Lemma pages_updated_eq `{Build} f base n ps ps' :
  in_u64 base -> in_u64 n -> base + n <= NPAGE -> Z.of_nat (length ps) = NPAGE ->
  pages_updated f base n ps ps' -> ps' = map_range f base n ps.
Proof.
  intros Hb Hn Hle Hlen [Hl Hw]. apply word_at_ext; [by rewrite length_map_range|].
  intros p Hp. rewrite Hw, word_at_map_range by lia. by rewrite in_range_decide.
Qed.

(** ** What the operations promise *)

Section correctness.
Context `{B : Build} (s : mm_state) (Hwf : mm_wf s).

(** [alloc_pages(n)] is first fit: it fails, changing nothing, exactly
    when [n] is 0 or no [n] consecutive pages are available, and otherwise
    returns the lowest start of such a run, marks the pages of the run
    allocated and nothing else, and takes [n] off the counter. *)
Lemma alloc_pages_wp n :
  in_u64 n ->
  wp (default_alloc_pages n) (fun q s' =>
    (q = NULLPAGE /\ s' = s /\
     (n = 0 \/ forall r, 0 <= r -> r + n <= NPAGE -> ~ run_free (pages s) r n)) \/
    (0 < n /\ 0 <= q /\ q + n <= NPAGE /\ run_free (pages s) q n /\
     (forall r, 0 <= r < q -> ~ run_free (pages s) r n) /\
     pages_updated set_allocated q n (pages s) (pages s') /\
     nr_free s' = u64 (nr_free s - n))) s.
Proof using Hwf.
  intros Hn. pose proof NPAGE_range. destruct Hwf as (Hlen & _ & _).
  unfold wp. rewrite default_alloc_pages_eq by done. unfold alloc_result.
  destruct (Z.ltb_spec 0 n), (Z.leb_spec n NPAGE); simpl.
  - destruct (first_fit n (pages s)) as [q|] eqn:E; apply first_fit_spec in E.
    + destruct E as (Hq & Hqn & Hrun & Hmin). right. split_and!; try done.
      apply map_range_updated; word_unfold; lia.
    + left. split_and!; [done..|]. right. exact E.
  - left. split_and!; [done..|]. right. lia.
  - left. split_and!; [done..|]. word_unfold. lia.
  - left. split_and!; [done..|]. word_unfold. lia.
Qed.

(** [free_pages(base, n)] clears the allocated flag of exactly the pages
    [base .. base + n - 1] and adds [n] to the counter, when the range is not
    empty and lies inside the page array; any other request, including one
    whose end wraps around [size_t], changes nothing. *)
Lemma free_pages_wp base n :
  in_u64 base -> in_u64 n ->
  wp (default_free_pages base n) (fun _ s' =>
    (0 < n /\ base + n <= NPAGE /\
     pages_updated clear_allocated base n (pages s) (pages s') /\
     nr_free s' = u64 (nr_free s + n)) \/
    (~ (0 < n /\ base + n <= NPAGE) /\ s' = s)) s.
Proof using Hwf.
  intros Hb Hn. destruct Hwf as (Hlen & _ & _). unfold wp.
  rewrite default_free_pages_eq by done.
  destruct (free_guard base n) eqn:E.
  - apply free_guard_iff in E; [|done..]. left. split_and!; try lia; [|done].
    apply map_range_updated; try done; lia.
  - right. split; [|done]. rewrite <- free_guard_iff by done. by rewrite E.
Qed.
End correctness.

(** The outcomes of [init_memmap(base, n)] in state [s], by return code, as the
    comment in front of the function lists them. *)
Inductive init_memmap_outcome `{Build} (base n : Z) (s : mm_state) : Z -> mm_state -> Prop :=
  | init_empty : n = 0 -> init_memmap_outcome base n s 1 s
  | init_too_many : NPAGE < n -> init_memmap_outcome base n s 2 s
  | init_bad_base : 0 < n <= NPAGE -> NPAGE < base -> init_memmap_outcome base n s 3 s
  | init_past_end :
      0 < n <= NPAGE -> base <= NPAGE -> NPAGE < base + n -> init_memmap_outcome base n s 4 s
  | init_not_reserved p :
      0 < n -> base + n <= NPAGE -> base <= p < base + n -> reserved (pages s) p = false ->
      init_memmap_outcome base n s 5 s
  | init_allocated p :
      0 < n -> base + n <= NPAGE ->
      (forall q, base <= q < base + n -> reserved (pages s) q = true) ->
      base <= p < base + n -> allocated (pages s) p = true ->
      init_memmap_outcome base n s 6 s
  | init_ok s' :
      0 < n -> base + n <= NPAGE ->
      (forall q, base <= q < base + n ->
         reserved (pages s) q = true /\ allocated (pages s) q = false) ->
      pages_updated clear_reserved base n (pages s) (pages s') ->
      nr_free s' = u64 (nr_free s + n) ->
      init_memmap_outcome base n s 0 s'.

(** [init_memmap] returns, and its return code tells which of its checks
    failed first; it hands the pages over (reserved flags cleared, counter
    raised) only if all checks pass and changes nothing otherwise. *)
Lemma init_memmap_wp `{B : Build} base n s :
  mm_wf s -> in_u64 base -> in_u64 n ->
  wp (default_init_memmap base n) (init_memmap_outcome base n s) s.
Proof.
  intros (Hlen & _ & _) Hb Hn. pose proof NPAGE_range.
  unfold wp. rewrite default_init_memmap_eq by done. unfold init_memmap_code; simpl.
  destruct (Z.ltb_spec 0 n); simpl; [|apply init_empty; word_unfold; lia].
  destruct (Z.leb_spec n NPAGE); simpl; [|by apply init_too_many].
  destruct (Z.leb_spec base NPAGE); simpl; [|by apply init_bad_base].
  rewrite u64_small by (word_unfold; lia).
  destruct (Z.leb_spec (base + n) NPAGE); simpl; [|by apply init_past_end].
  destruct (existsb _ _) eqn:E5; simpl.
  { apply existsb_seqZ_true in E5 as (p & Hp & [Hr Hx]%andb_true_iff).
    apply in_range_wf in Hr; [|done..]. apply negb_true_iff in Hx. by apply (init_not_reserved _ _ _ p). }
  rewrite existsb_seqZ_false in E5.
  assert (Hres : forall q, base <= q < base + n -> reserved (pages s) q = true).
  { intros q Hq. specialize (E5 q).
    assert (in_range base n q = true) as Hin by by apply in_range_wf. rewrite Hin in E5.
    apply negb_false_iff, E5. unfold in_u64 in *. lia. }
  destruct (existsb _ _) eqn:E6; simpl.
  { apply existsb_seqZ_true in E6 as (p & Hp & [Hr Hx]%andb_true_iff).
    apply in_range_wf in Hr; [|done..]. by apply (init_allocated _ _ _ p). }
  rewrite existsb_seqZ_false in E6.
  apply init_ok; [done|lia| |by apply map_range_updated|done].
  intros q Hq. split; [by apply Hres|].
  specialize (E6 q).
  assert (in_range base n q = true) as Hin by by apply in_range_wf. rewrite Hin in E6.
  apply E6. unfold in_u64 in *. lia.
Qed.

(** ** Well-formedness and accounting *)

(** The calls of [struct pmm_manager] that [default_pmm_manager] fills in and
    that touch its state. *)
Inductive mm_call : Type :=
  | CallInit
  | CallInitMemmap (base n : Z)
  | CallAlloc (n : Z)
  | CallFree (base n : Z)
  | CallNrFree.

Definition run_call `{Build} (c : mm_call) : M mm_state Z :=
  match c with
  | CallInit => default_init;; mret 0
  | CallInitMemmap base n => default_init_memmap base n
  | CallAlloc n => default_alloc_pages n
  | CallFree base n => default_free_pages base n;; mret 0
  | CallNrFree => default_nr_free_pages
  end.

Definition call_typed (c : mm_call) : Prop :=
  match c with
  | CallInitMemmap base n | CallFree base n => in_u64 base /\ in_u64 n
  | CallAlloc n => in_u64 n
  | CallInit | CallNrFree => True
  end.

(** [nr_free] is the number of pages that [alloc_pages] may hand out. *)
Definition nr_free_eq (s : mm_state) : Prop := nr_free s = count_free (pages s).

Lemma word_free_set_allocated w : word_free (set_allocated w) = false.
Proof. unfold word_free. by rewrite (proj1 (set_allocated_flags w)). Qed.
Lemma word_free_clear_allocated w :
  word_free (clear_allocated w) = negb (Z.testbit w PG_reserved).
Proof.
  unfold word_free. destruct (clear_allocated_flags w) as [E1 E2]. by rewrite E1, E2.
Qed.
Lemma word_free_clear_reserved w :
  word_free (clear_reserved w) = negb (Z.testbit w PG_allocated).
Proof.
  unfold word_free. destruct (clear_reserved_flags w) as [E1 E2].
  by rewrite E1, E2, andb_true_r.
Qed.

(** A page in a client's hands: allocated, and not reserved for the kernel. *)
Definition word_owned (w : Z) : bool := Z.testbit w PG_allocated && negb (Z.testbit w PG_reserved).
Definition owned (ps : list Z) (p : Z) : bool := word_owned (word_at p ps).

(** A range update whose pages were uniformly free (or not) and become
    uniformly free (or not). *)
Lemma count_free_move f base n ps (v v' : bool) :
  0 <= base -> 0 <= n -> base + n <= Z.of_nat (length ps) -> base + n < 2 ^ 64 ->
  (forall p, base <= p < base + n -> avail ps p = v) ->
  (forall p, base <= p < base + n -> word_free (f (word_at p ps)) = v') ->
  count_free (map_range f base n ps)
  = count_free ps - (if v then n else 0) + (if v' then n else 0).
Proof.
  intros Hb Hn Hlen Hlt Hv Hv'. unfold count_free. rewrite count_map_range by done.
  assert (Huni : forall t u, (forall p, base <= p < base + n -> t (word_at p ps) = u) ->
    count t (slice base n ps) = if u : bool then n else 0).
  { intros t [] Ht.
    - rewrite <- (length_slice base n ps) at 2 by done. by apply count_all, Forall_slice.
    - by apply count_none, Forall_slice. }
  rewrite (Huni word_free v), (Huni (fun w => word_free (f w)) v') by done. lia.
Qed.

Section accounting.
Context `{B : Build} (s : mm_state) (Hwf : mm_wf s).

Lemma wf_map_range f base n nr :
  (forall w, in_u64 w -> in_u64 (f w)) -> in_u64 nr ->
  mm_wf (Mm (map_range f base n (pages s)) nr).
Proof using Hwf.
  destruct Hwf as (Hlen & Hps & Hnr). intros Hf Hn. split_and!; simpl; [|by apply Forall_map_range|done].
  by rewrite length_map_range.
Qed.

(** Every call of the manager returns a value of its C type and keeps the
    page array and the counter well formed. *)
Lemma run_call_wf c :
  call_typed c -> wp (run_call c) (fun r s' => in_u64 r /\ mm_wf s') s.
Proof using Hwf.
  pose proof NPAGE_range. pose proof Hwf as (Hlen & Hps & Hnr).
  destruct c as [|base n|n|base n|]; simpl; intros Ht; unfold wp, mbind, M_bind.
  - simpl. split; [word_unfold; lia|]. split_and!; try done; simpl; word_unfold; lia.
  - rewrite default_init_memmap_eq by done. simpl. split.
    + unfold init_memmap_code. repeat case_match; word_unfold; lia.
    + case_match; [|done]. apply wf_map_range; eauto with word.
  - rewrite default_alloc_pages_eq by done. unfold alloc_result.
    destruct (_ && _); [|split; [|done]; unfold NULLPAGE; word_unfold; lia].
    destruct (first_fit n (pages s)) as [q|] eqn:E.
    + apply first_fit_spec in E as (? & ? & _). split; [word_unfold; lia|].
      apply wf_map_range; eauto with word.
    + split; [unfold NULLPAGE; word_unfold; lia|done].
  - rewrite default_free_pages_eq by done. simpl. split; [word_unfold; lia|].
    case_match; [|done]. apply wf_map_range; eauto with word.
  - simpl. done.
Qed.

Lemma count_free_bound : 0 <= count_free (pages s) <= NPAGE.
Proof using Hwf.
  destruct Hwf as (Hlen & _). unfold count_free. pose proof (count_range word_free (pages s)). lia.
Qed.

(** [alloc_pages] and [init_memmap] keep the free-page counter equal to
    the number of pages that are neither reserved nor allocated. *)
Lemma nr_free_preserved :
  nr_free_eq s ->
  (forall n, in_u64 n -> wp (default_alloc_pages n) (fun _ => nr_free_eq) s) /\
  (forall base n, in_u64 base -> in_u64 n ->
     wp (default_init_memmap base n) (fun _ => nr_free_eq) s).
Proof using Hwf.
  intros Heq. pose proof NPAGE_range. pose proof count_free_bound as Hcb.
  pose proof Hwf as (Hlen & _ & _). unfold nr_free_eq in *. split.
  - intros n Hn. unfold wp. rewrite default_alloc_pages_eq by done. unfold alloc_result.
    destruct (Z.ltb_spec 0 n), (Z.leb_spec n NPAGE); try done. simpl.
    destruct (first_fit n (pages s)) as [q|] eqn:E; [|done].
    apply first_fit_spec in E as (Hq & Hqn & Hrun & _). cbn [nr_free pages].
    pose proof (count_range word_free (map_range set_allocated q n (pages s))) as Hr.
    fold (count_free (map_range set_allocated q n (pages s))) in Hr.
    rewrite (count_free_move _ _ _ _ true false) in Hr |- *; try done; try lia;
      try (intros p Hp; apply word_free_set_allocated).
    rewrite Heq, u64_small; [lia|unfold in_u64; lia].
  - intros base n Hb Hn. eapply wp_mono; [by apply init_memmap_wp|].
    intros r s' Ho. destruct Ho as [| | | | | |s' Hpos Hle Hall Hup Hnr]; try done.
    apply pages_updated_eq in Hup; [|done..].
    rewrite Hnr, Hup. unfold in_u64 in Hb.
    rewrite (count_free_move _ _ _ _ false true); try lia.
    + rewrite Heq, u64_small; [lia|unfold in_u64; lia].
    + intros p Hp. destruct (Hall p Hp) as [Hr _]. unfold avail, word_free.
      unfold reserved in Hr. by rewrite Hr, andb_false_r.
    + intros p Hp. destruct (Hall p Hp) as [_ Ha]. rewrite word_free_clear_reserved.
      unfold allocated in Ha. by rewrite Ha.
Qed.

(** [free_pages] keeps the counter right exactly when every page of the
    range was in a client's hands: freeing a page that is already free, or
    reserved, is not refused and makes the counter exceed the number of
    available pages from then on. *)
Lemma free_pages_accounting base n :
  nr_free_eq s -> in_u64 base -> in_u64 n -> 0 < n -> base + n <= NPAGE ->
  wp (default_free_pages base n) (fun _ s' =>
    nr_free_eq s' <-> forall p, base <= p < base + n -> owned (pages s) p = true) s.
Proof using Hwf.
  intros Heq Hb Hn Hpos Hle. pose proof NPAGE_range. pose proof count_free_bound as Hcb.
  pose proof Hwf as (Hlen & _ & _).
  eapply wp_mono; [by apply free_pages_wp|].
  intros [] s' [(_ & _ & Hup & Hnr)|[Hno _]]; [|by destruct Hno].
  apply pages_updated_eq in Hup; [|done..]. unfold nr_free_eq, count_free in *.
  unfold in_u64 in Hb.
  assert (Hsl : Z.of_nat (length (slice base n (pages s))) = n) by (apply length_slice; lia).
  set (sl := slice base n (pages s)) in *.
  assert (Hmove : count word_free (pages s') = nr_free s + count word_owned sl).
  { rewrite Hup, count_map_range by lia. fold sl. rewrite Heq.
    enough (count (fun w => word_free (clear_allocated w)) sl
            = count word_free sl + count word_owned sl) by lia.
    generalize sl. clear. intros l. induction l as [|w l IH]; [done|].
    rewrite !count_cons, IH, word_free_clear_allocated. unfold word_owned, word_free.
    destruct (Z.testbit w PG_allocated), (Z.testbit w PG_reserved); simpl; lia. }
  pose proof (count_range word_owned sl). rewrite Hmove, Hnr.
  rewrite u64_small by (unfold in_u64; lia).
  assert (Hall : (forall p, base <= p < base + n -> owned (pages s) p = true)
                 <-> count word_owned sl = n).
  { etransitivity; [symmetry; apply (Forall_slice base n (pages s)
      ltac:(lia) ltac:(lia) ltac:(lia) (fun w => word_owned w = true))|].
    fold sl. by rewrite <- count_all, Hsl. }
  rewrite Hall. lia.
Qed.
End accounting.

(** ** The contract of each operation *)

Section contracts.
Context `{B : Build} (s : mm_state) (Hwf : mm_wf s).

(** C4: [alloc_pages(n)] is first fit: it fails, changing nothing, exactly
    when [n] is 0 or no [n] consecutive pages are available, and otherwise
    returns the lowest start of such a run, marks the pages of the run
    allocated and nothing else, and takes [n] off the counter; page array and
    counter stay well formed, and a counter that is the number of available
    pages stays so. *)
Theorem default_alloc_pages_first_fit n :
  in_u64 n ->
  wp (default_alloc_pages n) (fun q s' =>
    ((q = NULLPAGE /\ s' = s /\
      (n = 0 \/ forall r, 0 <= r -> r + n <= NPAGE -> ~ run_free (pages s) r n)) \/
     (0 < n /\ 0 <= q /\ q + n <= NPAGE /\ run_free (pages s) q n /\
      (forall r, 0 <= r < q -> ~ run_free (pages s) r n) /\
      pages_updated set_allocated q n (pages s) (pages s') /\
      nr_free s' = u64 (nr_free s - n))) /\
    mm_wf s' /\ (nr_free_eq s -> nr_free_eq s')) s.
Proof using Hwf.
  intros Hn. pose proof (run_call_wf s Hwf (CallAlloc n) Hn) as Hw.
  pose proof (fun H => proj1 (nr_free_preserved s Hwf H) n Hn) as Hc.
  pose proof (alloc_pages_wp s Hwf n Hn) as Ha. unfold run_call, wp in *.
  destruct (default_alloc_pages n s); [|done..]. split; [done|]. by split; [apply Hw|].
Qed.

(** C6: [init_memmap] returns, and its return code tells which of its checks
    failed first; it hands the pages over (reserved flags cleared, counter
    raised) only if all checks pass and changes nothing otherwise; it keeps
    the state well formed and the counter right. *)
Theorem default_init_memmap_spec base n :
  in_u64 base -> in_u64 n ->
  wp (default_init_memmap base n) (fun r s' =>
    init_memmap_outcome base n s r s' /\ mm_wf s' /\ (nr_free_eq s -> nr_free_eq s')) s.
Proof using Hwf.
  intros Hb Hn. pose proof (run_call_wf s Hwf (CallInitMemmap base n) (conj Hb Hn)) as Hw.
  pose proof (fun H => proj2 (nr_free_preserved s Hwf H) base n Hb Hn) as Hc.
  pose proof (init_memmap_wp base n s Hwf Hb Hn) as Ha. unfold run_call, wp in *.
  destruct (default_init_memmap base n s); [|done..]. split; [done|]. by split; [apply Hw|].
Qed.

(** C5: [free_pages(base, n)] clears the allocated flag of exactly the pages
    [base .. base + n - 1] and adds [n] to the counter when the range is not
    empty and lies inside the page array; any other request, including one
    whose end wraps around [size_t], changes nothing.  The counter stays
    right exactly when every page of the range was in a client's hands:
    freeing a page that is already free, or reserved, is not refused and
    makes the counter exceed the number of available pages. *)
Theorem default_free_pages_spec base n :
  in_u64 base -> in_u64 n -> nr_free_eq s ->
  wp (default_free_pages base n) (fun _ s' =>
    mm_wf s' /\
    ((0 < n /\ base + n <= NPAGE /\
      pages_updated clear_allocated base n (pages s) (pages s') /\
      nr_free s' = u64 (nr_free s + n) /\
      (nr_free_eq s' <-> forall p, base <= p < base + n -> owned (pages s) p = true)) \/
     (~ (0 < n /\ base + n <= NPAGE) /\ s' = s))) s.
Proof using Hwf.
  intros Hb Hn Heq. pose proof (run_call_wf s Hwf (CallFree base n) (conj Hb Hn)) as Hw.
  pose proof (free_pages_accounting s Hwf base n Heq Hb Hn) as Hc.
  pose proof (free_pages_wp s Hwf base n Hb Hn) as Ha.
  unfold run_call, wp, mbind, M_bind in *.
  destruct (default_free_pages base n s) as [[] s'| |]; [|done..]. split; [apply Hw|].
  destruct Ha as [(Hpos & Hle & Hup & Hnr)|Hno]; [left|by right].
  split_and!; [done..|]. by apply Hc.
Qed.
End contracts.

(** A five-page array (the verification build): two reserved pages, a free one,
    one in a client's hands, a free one. *)
Definition sample_state : mm_state := Mm [1; 1; 0; 2; 0] 2.

Lemma sample_state_wf : mm_wf (B := verify_build) sample_state.
Proof. split_and!; [done| |done]. repeat constructor; done. Qed.

(** One page can be had, two in a row cannot. *)
Lemma default_alloc_pages_first_fit_witness :
  default_alloc_pages (B := verify_build) 1 sample_state = Ok 2 (Mm [1; 1; 2; 2; 0] 1) /\
  nr_free_eq (Mm [1; 1; 2; 2; 0] 1) /\
  default_alloc_pages (B := verify_build) 2 sample_state = Ok NULLPAGE sample_state /\
  ~ run_free (pages sample_state) 3 2.
Proof.
  pose proof (default_alloc_pages_first_fit (B := verify_build) sample_state sample_state_wf 1
    ltac:(done)) as [_ [_ E1]].
  pose proof (default_alloc_pages_first_fit (B := verify_build) sample_state sample_state_wf 2
    ltac:(done)) as [[(_ & _ & [E2|E2])|(_ & _ & E2 & _)] _]; [done| |done].
  split_and!; [done|by apply E1|done|by apply E2].
Defined.

Lemma default_init_memmap_spec_witness :
  default_init_memmap (B := verify_build) 0 2 sample_state = Ok 0 (Mm [0; 0; 0; 2; 0] 4) /\
  nr_free_eq (Mm [0; 0; 0; 2; 0] 4) /\
  default_init_memmap (B := verify_build) 1 2 sample_state = Ok 5 sample_state.
Proof.
  pose proof (default_init_memmap_spec (B := verify_build) sample_state sample_state_wf 0 2
    ltac:(done) ltac:(done)) as (_ & _ & E).
  split_and!; [done|by apply E|done].
Defined.

(** Freeing the client's page is accounted for; freeing a free page is not. *)
Lemma default_free_pages_spec_witness :
  default_free_pages (B := verify_build) 3 1 sample_state = Ok () (Mm [1; 1; 0; 0; 0] 3) /\
  nr_free_eq (Mm [1; 1; 0; 0; 0] 3) /\
  default_free_pages (B := verify_build) 2 1 sample_state = Ok () (Mm [1; 1; 0; 2; 0] 3) /\
  ~ nr_free_eq (Mm [1; 1; 0; 2; 0] 3).
Proof.
  pose proof (default_free_pages_spec (B := verify_build) sample_state sample_state_wf 3 1
    ltac:(done) ltac:(done) ltac:(done)) as (_ & [(_ & _ & _ & _ & E)|[E _]]).
  2:{ by destruct E. }
  split_and!; [done| |done|done].
  apply E. intros p Hp. by replace p with 3 by lia.
Defined.
