(* ===== verification/LlvmSpec.v ===== *)
(** * The allocator's specification, and that the C code refines it

    verif/llvm-spec.rkt is the specification the repository checks the compiled
    allocator against, with a solver and for 5 pages; verif/llvm-impl.rkt is
    the abstraction function, verif/llvm.rkt the list of refinement checks and
    verif/llvm-ni.rkt the non-interference checks.  This file translates them
    and proves them for the C code, for both page counts of the source. *)

From S2P Require Import Prelude Defs Atomic DefaultPmm.

(** ** The specification state

    Of the registers only [a0] matters: every specification function leaves
    the others alone. *)
Inductive retval : Type := RVoid | RVal (v : Z).

Record state : Type := State {
  a0 : retval;
  nrfree : Z;
  pagedb_flag : Z -> Z;
}.

Definition set_return (r : retval) (s : state) : state := State r (nrfree s) (pagedb_flag s).
Definition set_nrfree (n : Z) (s : state) : state := State (a0 s) n (pagedb_flag s).
Definition set_pagedb_flag (f : Z -> Z) (s : state) : state := State (a0 s) (nrfree s) f.

Section spec.
Context `{B : Build}.

Definition page_flag_mask (flag : Z) : Z := u64 (Z.shiftl 1 flag).
Definition page_in_bound (pageno : Z) : bool := pageno <? NPAGE.
Definition page_has_flag (s : state) (pageno flag : Z) : bool :=
  page_in_bound pageno &&
  negb (Z.land (pagedb_flag s pageno) (page_flag_mask flag) =? 0).
Definition page_reserved (s : state) (pageno : Z) : bool := page_has_flag s pageno PG_reserved.
Definition page_allocated (s : state) (pageno : Z) : bool := page_has_flag s pageno PG_allocated.
Definition page_available (s : state) (pageno : Z) : bool :=
  negb (page_allocated s pageno) && negb (page_reserved s pageno).

Definition update_func (f : Z -> Z) (pred : Z -> bool) (value_func : Z -> Z) : Z -> Z :=
  fun x => if pred x then value_func (f x) else f x.
Definition page_set_flag_func (s : state) (pred : Z -> bool) (flag : Z) : state :=
  set_pagedb_flag (update_func (pagedb_flag s) pred
    (fun v => Z.lor v (page_flag_mask flag))) s.
Definition page_clear_flag_func (s : state) (pred : Z -> bool) (flag : Z) : state :=
  set_pagedb_flag (update_func (pagedb_flag s) pred
    (fun v => Z.land (NOT (page_flag_mask flag)) v)) s.

Definition all_pages : list Z := seqZ 0 NPAGE.

Definition spec_default_init (s : state) : state := set_return RVoid (set_nrfree 0 s).

Definition page_valid_flag (s : state) (base num flag : Z) : bool :=
  forallb (fun p => implb ((base <=? p) && (p <? u64 (base + num))) (page_has_flag s p flag))
    all_pages.
Definition page_sat_flag (s : state) (base num flag : Z) : bool :=
  existsb (fun p => ((base <=? p) && (p <? u64 (base + num))) && page_has_flag s p flag)
    all_pages.

Definition spec_default_init_memmap (base num : Z) (s : state) : state :=
  if negb (0 <? num) then set_return (RVal 1) s else
  if negb (num <=? NPAGE) then set_return (RVal 2) s else
  if negb (base <=? NPAGE) then set_return (RVal 3) s else
  if negb (u64 (base + num) <=? NPAGE) then set_return (RVal 4) s else
  if negb (page_valid_flag s base num PG_reserved) then set_return (RVal 5) s else
  if page_sat_flag s base num PG_allocated then set_return (RVal 6) s else
  let s1 := page_clear_flag_func s
              (fun p => (base <=? p) && (p <? u64 (base + num))) PG_reserved in
  set_return (RVal 0) (set_nrfree (u64 (nrfree s1 + num)) s1).

Fixpoint find_free_accumulate (s : state) (num : Z) (lst : list Z) (acc ans : Z) : option Z :=
  if num =? acc then Some ans else
  match lst with
  | [] => None
  | p :: lst' =>
      if page_available s p
      then find_free_accumulate s num lst' (u64 (acc + 1)) (if acc =? 0 then p else ans)
      else find_free_accumulate s num lst' 0 0
  end.
Definition find_free_pages (s : state) (num : Z) : option Z :=
  find_free_accumulate s num all_pages 0 0.

Definition spec_default_alloc_pages (num : Z) (s : state) : state :=
  if negb (0 <? num) then set_return (RVal NULLPAGE) s else
  if negb (num <=? NPAGE) then set_return (RVal NULLPAGE) s else
  match find_free_pages s num with
  | Some freeblk =>
      let s1 := set_nrfree (u64 (nrfree s - num)) s in
      set_return (RVal freeblk)
        (page_set_flag_func s1
           (fun p => (freeblk <=? p) && (p <? u64 (num + freeblk))) PG_allocated)
  | None => set_return (RVal NULLPAGE) s
  end.

Definition spec_default_free_pages (base num : Z) (s : state) : state :=
  set_return RVoid
    (if negb (NPAGE <=? base) && negb (num =? 0) && negb (NPAGE <? num)
        && negb (NPAGE <? u64 (base + num))
     then let s1 := page_clear_flag_func s
                      (fun p => (base <=? p) && (p <? u64 (base + num))) PG_allocated in
          set_nrfree (u64 (nrfree s1 + num)) s1
     else s).

Definition spec_default_nr_free_pages (s : state) : state := set_return (RVal (nrfree s)) s.

Definition bvcount (f : Z -> bool) (l : list Z) : Z :=
  foldr (fun x cnt => if f x then u64 (cnt + 1) else cnt) 0 l.
(** [nr_free_eq] of the specification. *)
Definition spec_nr_free_eq (s : state) : Prop :=
  bvcount (page_available s) all_pages = nrfree s.
End spec.

#[global] Arguments page_flag_mask _ : simpl never.

(** ** Equality of specification states

    [equal-proc]: same registers, same counter, same flags on the pages that
    exist. *)
#[global] Instance state_equiv `{B : Build} : Equiv state := fun s t =>
  a0 s = a0 t /\ nrfree s = nrfree t /\
  forall p, 0 <= p < NPAGE -> pagedb_flag s p = pagedb_flag t p.

#[global] Instance state_equivalence `{Build} : Equivalence (≡@{state}).
Proof.
  split.
  - by intros s.
  - intros s t (? & ? & Hf). split_and!; [done..|]. intros p Hp. by rewrite Hf.
  - intros s t u (? & ? & Hf) (? & ? & Hg). split_and!; [congruence..|].
    intros p Hp. by rewrite Hf, Hg.
Qed.

Section proper.
Context `{B : Build}.

#[global] Instance set_return_proper r : Proper ((≡) ==> (≡)) (set_return r).
Proof using Type. intros s t (? & ? & Hf). by split_and!. Qed.

Lemma page_has_flag_equiv s t p flag :
  s ≡ t -> 0 <= p -> page_has_flag s p flag = page_has_flag t p flag.
Proof using Type.
  intros (_ & _ & Hf) Hp. unfold page_has_flag, page_in_bound.
  destruct (Z.ltb_spec p NPAGE); [|done]. by rewrite Hf by lia.
Qed.

Lemma page_available_equiv s t p :
  s ≡ t -> 0 <= p -> page_available s p = page_available t p.
Proof using Type.
  intros. unfold page_available, page_allocated, page_reserved.
  by rewrite !(page_has_flag_equiv s t).
Qed.

Lemma elem_of_all_pages p : p ∈ all_pages <-> 0 <= p < NPAGE.
Proof using Type. unfold all_pages. rewrite elem_of_seqZ. lia. Qed.

Lemma set_flags_equiv s t pred g :
  s ≡ t -> set_pagedb_flag (update_func (pagedb_flag s) pred g) s
         ≡ set_pagedb_flag (update_func (pagedb_flag t) pred g) t.
Proof using Type.
  intros (H1 & H2 & Hf). split_and!; [done..|]. intros p Hp. simpl.
  unfold update_func. by rewrite Hf.
Qed.

Lemma set_nrfree_equiv n s t : s ≡ t -> set_nrfree n s ≡ set_nrfree n t.
Proof using Type. intros (? & ? & Hf). by split_and!. Qed.

#[global] Instance spec_default_init_proper : Proper ((≡) ==> (≡)) spec_default_init.
Proof using Type. intros s t E. apply set_return_proper. by apply set_nrfree_equiv. Qed.

#[global] Instance spec_default_init_memmap_proper base num :
  Proper ((≡) ==> (≡)) (spec_default_init_memmap base num).
Proof using Type.
  intros s t E. unfold spec_default_init_memmap. repeat (case_match; [by rewrite E|]).
  assert (page_valid_flag s base num PG_reserved = page_valid_flag t base num PG_reserved) as ->.
  { apply forallb_ext. intros p Hp%elem_of_all_pages.
    by rewrite (page_has_flag_equiv s t) by (done || lia). }
  assert (page_sat_flag s base num PG_allocated = page_sat_flag t base num PG_allocated) as ->.
  { apply existsb_ext. intros p Hp%elem_of_all_pages.
    by rewrite (page_has_flag_equiv s t) by (done || lia). }
  repeat (case_match; [by rewrite E|]). apply set_return_proper.
  pose proof E as (_ & En & _). simpl. rewrite En. apply set_nrfree_equiv.
  by apply set_flags_equiv.
Qed.

#[global] Instance spec_default_alloc_pages_proper num :
  Proper ((≡) ==> (≡)) (spec_default_alloc_pages num).
Proof using Type.
  intros s t E. unfold spec_default_alloc_pages, find_free_pages.
  repeat (case_match; [by rewrite E|]).
  assert (Hff : forall l acc ans, (forall p, p ∈ l -> 0 <= p) ->
    find_free_accumulate s num l acc ans = find_free_accumulate t num l acc ans).
  { intros l. induction l as [|p l IH]; intros acc ans Hl; simpl; [done|].
    rewrite (page_available_equiv s t) by (done || apply Hl; set_solver).
    rewrite !IH; [done|..]; intros q Hq; apply Hl; set_solver. }
  rewrite Hff by (intros p Hp%elem_of_all_pages; lia).
  case_match; [|by rewrite E]. apply set_return_proper.
  pose proof E as (_ & En & _). simpl. rewrite En.
  apply (set_flags_equiv (set_nrfree _ s) (set_nrfree _ t)). by apply set_nrfree_equiv.
Qed.

#[global] Instance spec_default_free_pages_proper base num :
  Proper ((≡) ==> (≡)) (spec_default_free_pages base num).
Proof using Type.
  intros s t E. unfold spec_default_free_pages. apply set_return_proper.
  case_match; [|done]. pose proof E as (_ & En & _). simpl. rewrite En.
  apply set_nrfree_equiv. by apply set_flags_equiv.
Qed.

#[global] Instance spec_default_nr_free_pages_proper :
  Proper ((≡) ==> (≡)) spec_default_nr_free_pages.
Proof using Type.
  intros s t E. unfold spec_default_nr_free_pages. pose proof E as (_ & -> & _).
  by rewrite E.
Qed.
End proper.

(** ** Abstraction and refinement *)

(** [mregions-abstract] of verif/llvm-impl.rkt with the register [a0] that
    [abs-function] of verif/llvm.rkt fills in. *)
Definition abs (r : retval) (s : mm_state) : state :=
  State r (nr_free s) (fun p => word_at p (pages s)).

(** [impl] refines [spec]: from a well-formed state it returns, in a
    well-formed state whose abstraction is what the specification computes. *)
Definition refines `{Build} {A} (ret : A -> retval) (impl : M mm_state A)
    (spec : state -> state) : Prop :=
  forall r0 s, mm_wf s ->
    wp impl (fun a s' => mm_wf s' /\ abs (ret a) s' ≡ spec (abs r0 s)) s.

Section refinement.
Context `{B : Build}.

Lemma page_has_flag_abs r s p flag :
  0 <= flag < 64 -> 0 <= p < NPAGE ->
  page_has_flag (abs r s) p flag = Z.testbit (word_at p (pages s)) flag.
Proof using Type.
  intros Hf Hp. unfold page_has_flag, page_in_bound, page_flag_mask, abs. simpl.
  destruct (Z.ltb_spec p NPAGE); [|lia]. simpl.
  pose proof (BIT_MASK_eq flag ltac:(lia)) as Hm. unfold BIT_MASK, BITS_PER_LONG in Hm.
  rewrite Z.rem_small in Hm by lia. destruct (Z.leb_spec 0 flag); [|lia].
  injection Hm as ->. unfold bit_mask. rewrite Z.mod_small by lia.
  destruct (Z.testbit (word_at p (pages s)) flag) eqn:E.
  - apply negb_true_iff, Z.eqb_neq. intros Hz.
    apply (f_equal (fun z => Z.testbit z flag)) in Hz.
    by rewrite Z.land_spec, E, Z.pow2_bits_true, Z.bits_0 in Hz by lia.
  - apply negb_false_iff, Z.eqb_eq, Z.bits_inj'. intros i Hi.
    rewrite Z.land_spec, Z.pow2_bits_eqb, Z.bits_0 by lia.
    destruct (Z.eqb_spec flag i) as [<-|]; [by rewrite E|apply andb_false_r].
Qed.

Lemma page_flag_mask_eq flag : 0 <= flag < 64 -> page_flag_mask flag = bit_mask flag.
Proof using Type.
  intros Hf. pose proof (BIT_MASK_eq flag ltac:(lia)) as Hm. unfold BIT_MASK, BITS_PER_LONG in Hm.
  rewrite Z.rem_small in Hm by lia. destruct (Z.leb_spec 0 flag); [|lia].
  by injection Hm.
Qed.

Lemma page_available_abs r s p :
  0 <= p < NPAGE -> page_available (abs r s) p = avail (pages s) p.
Proof using Type.
  intros Hp. unfold page_available, page_allocated, page_reserved.
  by rewrite !page_has_flag_abs by (done || unfold PG_allocated, PG_reserved; lia).
Qed.

(** The specification's accumulating search is the reference search too. *)
Lemma find_free_accumulate_spec r s num k p acc ans :
  0 < num <= NPAGE -> p + Z.of_nat k = NPAGE -> 0 <= acc <= p -> acc <= num ->
  (0 < acc -> ans = p - acc) ->
  (forall i, p - acc <= i < p -> avail (pages s) i = true) ->
  (acc = p \/ avail (pages s) (p - acc - 1) = false) ->
  (forall q, 0 <= q < p - acc -> q + num <= p -> ~ run_free (pages s) q num) ->
  find_free_accumulate (abs r s) num (seqZ p (Z.of_nat k)) acc ans
  = first_fit num (pages s).
Proof using Type.
  pose proof NPAGE_range. intros Hnum. revert p acc ans.
  induction k as [|k IH]; intros p acc ans Hk Hacc Hle Hans Hrun Hprev Hno.
  - change (Z.of_nat 0) with 0 in *. rewrite seqZ_nil by lia. simpl.
    destruct (Z.eqb_spec num acc) as [->|Hne].
    + symmetry. apply first_fit_spec. rewrite Hans by lia.
      split_and!; [lia|lia| |]; [intros i Hi; apply Hrun; lia|].
      intros q Hq. apply Hno; lia.
    + symmetry. apply first_fit_spec. intros q Hq Hqn Hrf.
      destruct (decide (q < p - acc)); [by apply (Hno q); [lia|lia|]|lia].
  - rewrite seqZ_cons by lia. replace (Z.pred (Z.of_nat (S k))) with (Z.of_nat k) by lia.
    cbn [find_free_accumulate].
    destruct (Z.eqb_spec num acc) as [->|Hne].
    + symmetry. apply first_fit_spec. rewrite Hans by lia.
      split_and!; [lia|lia| |]; [intros i Hi; apply Hrun; lia|].
      intros q Hq Hrf. apply (Hno q); [lia|lia|done].
    + rewrite page_available_abs by lia. destruct (avail (pages s) p) eqn:Hav.
      * rewrite u64_small by (word_unfold; lia). apply IH; try lia.
        { destruct (Z.eqb_spec acc 0); lia. }
        { intros i Hi. destruct (decide (i = p)) as [->|]; [done|apply Hrun; lia]. }
        { destruct Hprev as [->|Hprev]; [by left|right].
          by replace (Z.succ p - (acc + 1) - 1) with (p - acc - 1) by lia. }
        { intros q Hq Hqn Hrf. destruct (decide (q + num <= p)); [by apply (Hno q); [lia|..]|].
          destruct Hprev as [->|Hprev]; [lia|]. by rewrite Hrf in Hprev by lia. }
      * apply IH; try lia.
        { right. by replace (Z.succ p - 0 - 1) with p by lia. }
        { intros q Hq Hqn Hrf. destruct (decide (q + num <= p)).
          - destruct (decide (q < p - acc)); [by apply (Hno q); [lia|..]|lia].
          - by rewrite Hrf in Hav by lia. }
Qed.

Lemma find_free_pages_abs r s num :
  0 < num <= NPAGE -> find_free_pages (abs r s) num = first_fit num (pages s).
Proof using Type.
  intros Hnum. unfold find_free_pages, all_pages. pose proof NPAGE_range.
  replace NPAGE with (Z.of_nat (Z.to_nat NPAGE)) by lia.
  apply find_free_accumulate_spec; try lia.
Qed.

(** A range update in the implementation and in the specification. *)
Lemma abs_map_range r nr f base n ps (pred : Z -> bool) g :
  Z.of_nat (length ps) = NPAGE ->
  (forall p, 0 <= p < NPAGE -> pred p = in_range base n p) -> (forall w, f w = g w) ->
  abs r (Mm (map_range f base n ps) nr)
  ≡ State r nr (update_func (fun p => word_at p ps) pred g).
Proof using Type.
  intros Hlen Hpred Hfg. split_and!; [done..|]. intros p Hp. simpl.
  rewrite word_at_map_range by lia. unfold update_func. by rewrite Hpred, Hfg by done.
Qed.

Lemma page_valid_flag_abs r s base num :
  page_valid_flag (abs r s) base num PG_reserved
  = negb (existsb (fun p => in_range base num p && negb (reserved (pages s) p)) (seqZ 0 NPAGE)).
Proof using Type.
  unfold page_valid_flag. rewrite forallb_negb_existsb. f_equal. apply existsb_ext.
  intros p Hp%elem_of_all_pages.
  rewrite page_has_flag_abs by (done || unfold PG_reserved; lia).
  unfold in_range, reserved. by destruct (_ && _), (Z.testbit _ _).
Qed.

Lemma page_sat_flag_abs r s base num :
  page_sat_flag (abs r s) base num PG_allocated
  = existsb (fun p => in_range base num p && allocated (pages s) p) (seqZ 0 NPAGE).
Proof using Type.
  apply existsb_ext. intros p Hp%elem_of_all_pages.
  by rewrite page_has_flag_abs by (done || unfold PG_allocated; lia).
Qed.
End refinement.

Section refinement_theorems.
Context `{B : Build}.

Lemma refines_default_init : refines (fun _ => RVoid) default_init spec_default_init.
Proof using Type.
  intros r0 s (Hlen & Hps & Hnr). unfold wp; simpl. split; [|done].
  split_and!; try done; simpl; word_unfold; lia.
Qed.

Lemma refines_default_init_memmap base n :
  in_u64 base -> in_u64 n ->
  refines RVal (default_init_memmap base n) (spec_default_init_memmap base n).
Proof using Type.
  intros Hb Hn r0 s Hwf. pose proof NPAGE_range.
  pose proof (run_call_wf s Hwf (CallInitMemmap base n) (conj Hb Hn)) as Hw.
  pose proof Hwf as (Hlen & _). unfold wp in *. simpl in Hw.
  rewrite default_init_memmap_eq in Hw |- * by done. simpl in *.
  destruct Hw as [_ Hw]. split; [exact Hw|]. clear Hw.
  unfold init_memmap_code, spec_default_init_memmap.
  rewrite page_valid_flag_abs, page_sat_flag_abs, negb_involutive.
  repeat (case_match; [done|]).
  apply abs_map_range; try done.
  intros w. rewrite page_flag_mask_eq by (unfold PG_reserved; lia). unfold clear_reserved. apply Z.land_comm.
Qed.

Lemma refines_default_alloc_pages n :
  in_u64 n -> refines RVal (default_alloc_pages n) (spec_default_alloc_pages n).
Proof using Type.
  intros Hn r0 s Hwf. pose proof NPAGE_range.
  pose proof (run_call_wf s Hwf (CallAlloc n) Hn) as Hw.
  pose proof Hwf as (Hlen & _). unfold wp in *. simpl in Hw.
  rewrite default_alloc_pages_eq in Hw |- * by done.
  unfold alloc_result, spec_default_alloc_pages in *.
  destruct (Z.ltb_spec 0 n), (Z.leb_spec n NPAGE); simpl in *; try done.
  rewrite find_free_pages_abs by lia.
  destruct (first_fit n (pages s)) as [q|] eqn:E; [|done].
  split; [apply Hw|]. apply abs_map_range; try done.
  intros p Hp. unfold in_range. by rewrite (Z.add_comm n q).
Qed.

Lemma refines_default_free_pages base n :
  in_u64 base -> in_u64 n ->
  refines (fun _ => RVoid) (default_free_pages base n) (spec_default_free_pages base n).
Proof using Type.
  intros Hb Hn r0 s Hwf.
  pose proof (run_call_wf s Hwf (CallFree base n) (conj Hb Hn)) as Hw.
  pose proof Hwf as (Hlen & _). unfold run_call, wp, mbind, M_bind in *.
  rewrite default_free_pages_eq in Hw |- * by done.
  split; [apply Hw|]. unfold spec_default_free_pages.
  assert (negb (NPAGE <=? base) && negb (n =? 0) && negb (NPAGE <? n)
          && negb (NPAGE <? u64 (base + n)) = free_guard base n) as ->.
  { unfold free_guard. rewrite <- !Z.ltb_antisym, <- !Z.leb_antisym. done. }
  destruct (free_guard base n); [|done]. apply abs_map_range; try done.
  intros w. rewrite page_flag_mask_eq by (unfold PG_allocated; lia). unfold clear_allocated. apply Z.land_comm.
Qed.

Lemma refines_default_nr_free_pages :
  refines RVal default_nr_free_pages spec_default_nr_free_pages.
Proof using Type. intros r0 s Hwf. unfold wp. by simpl. Qed.

(** The specification of each call, and of a sequence of calls. *)
Definition spec_call (c : mm_call) : state -> state :=
  match c with
  | CallInit => spec_default_init
  | CallInitMemmap base n => spec_default_init_memmap base n
  | CallAlloc n => spec_default_alloc_pages n
  | CallFree base n => spec_default_free_pages base n
  | CallNrFree => spec_default_nr_free_pages
  end.

#[global] Instance spec_call_proper c : Proper ((≡) ==> (≡)) (spec_call c).
Proof using Type. destruct c; apply _. Qed.

(** What a call leaves in the return register. *)
Definition call_ret (c : mm_call) (v : Z) : retval :=
  match c with CallInit | CallFree _ _ => RVoid | _ => RVal v end.

Fixpoint run_calls (cs : list mm_call) (r : retval) : M mm_state retval :=
  match cs with
  | [] => mret r
  | c :: cs' => v ← run_call c; run_calls cs' (call_ret c v)
  end.

Lemma refines_run_call c :
  call_typed c -> refines (call_ret c) (run_call c) (spec_call c).
Proof using Type.
  destruct c as [|base n|n|base n|]; intros Ht r0 s Hwf;
    cbn [run_call spec_call call_typed] in *.
  - apply wp_bind. eapply wp_mono; [by apply (refines_default_init r0)|].
    intros [] s' Hr. exact Hr.
  - destruct Ht. by apply refines_default_init_memmap.
  - by apply refines_default_alloc_pages.
  - destruct Ht as [Hb Hn]. apply wp_bind.
    eapply wp_mono; [by apply (refines_default_free_pages base n Hb Hn r0)|].
    intros [] s' Hr. exact Hr.
  - by apply refines_default_nr_free_pages.
Qed.

(** C3: the C allocator refines llvm-spec.rkt: each call, and every sequence
    of calls, returns, keeps the state well formed, and ends in a state and
    with a return value that the specification functions, applied in the
    same order, compute. *)
Theorem default_pmm_refines_spec cs :
  Forall call_typed cs ->
  forall r0 s, mm_wf s ->
  wp (run_calls cs r0) (fun r s' => mm_wf s' /\
    abs r s' ≡ foldl (fun t c => spec_call c t) (abs r0 s) cs) s.
Proof using Type.
  induction 1 as [|c cs Hc Hcs IH]; intros r0 s Hwf; simpl; [by apply wp_ret|].
  apply wp_bind. eapply wp_mono; [by apply (refines_run_call c Hc r0)|].
  intros v s' [Hwf' Habs]. eapply wp_mono; [by apply IH|].
  intros r s'' [Hwf'' He]. split; [done|]. rewrite He. clear IH He Hwf''.
  revert Habs. generalize (abs (call_ret c v) s') (spec_call c (abs r0 s)). clear Hcs.
  induction cs as [|c' cs IH]; intros t u E; simpl; [done|]. apply IH. by rewrite E.
Qed.

(** ** The specification's counter invariant is the code's *)

Lemma bvcount_count (x : Z -> bool) (t : Z -> bool) ps k :
  Z.of_nat (length ps) < 2 ^ 64 ->
  (forall i w, ps !! i = Some w -> x (k + Z.of_nat i) = t w) ->
  bvcount x (seqZ k (Z.of_nat (length ps))) = count t ps.
Proof using Type.
  revert k. induction ps as [|w ps IH]; intros k Hlt Hx; [done|].
  simpl length. rewrite seqZ_cons by lia.
  replace (Z.pred (Z.of_nat (S (length ps)))) with (Z.of_nat (length ps)) by lia.
  rewrite count_cons. simpl. simpl length in Hlt. rewrite IH; [|lia|].
  - pose proof (Hx 0%nat w eq_refl) as Hw. replace (k + Z.of_nat 0) with k in Hw by lia.
    rewrite Hw. pose proof (count_range t ps).
    destruct (t w); [rewrite u64_small; [lia|unfold in_u64; lia]|lia].
  - intros i w' Hi. rewrite <- (Hx (S i) w' Hi). f_equal. lia.
Qed.

Lemma spec_nr_free_eq_abs r s : mm_wf s -> spec_nr_free_eq (abs r s) <-> nr_free_eq s.
Proof using Type.
  intros (Hlen & _ & _). pose proof NPAGE_range.
  unfold spec_nr_free_eq, nr_free_eq, all_pages, count_free. rewrite <- Hlen.
  rewrite (bvcount_count _ word_free); [simpl; split; congruence|lia|].
  intros i w Hi. pose proof (lookup_lt_Some _ _ _ Hi). rewrite page_available_abs by lia.
  unfold avail, word_at. replace (Z.to_nat (0 + Z.of_nat i)) with i by lia. by rewrite Hi.
Qed.
End refinement_theorems.

(** A client's session on the sample array. *)
Definition sample_calls : list mm_call :=
  [CallInitMemmap 0 2; CallAlloc 2; CallNrFree; CallFree 0 1; CallAlloc 3; CallNrFree].

Lemma sample_calls_typed : Forall call_typed sample_calls.
Proof.
  repeat apply Forall_cons_2; try apply Forall_nil_2; cbn [call_typed]; unfold in_u64; lia.
Qed.

Lemma default_pmm_refines_spec_witness :
  exists s', run_calls (B := verify_build) sample_calls RVoid sample_state = Ok (RVal 3) s' /\
    equiv (A := state) (Equiv := state_equiv (B := verify_build)) (abs (RVal 3) s')
      (foldl (fun t c => spec_call (B := verify_build) c t) (abs RVoid sample_state) sample_calls).
Proof.
  pose proof (default_pmm_refines_spec (B := verify_build) sample_calls
    sample_calls_typed RVoid sample_state sample_state_wf) as H.
  destruct (wp_elim _ _ _ H) as (r & s' & E & _ & Habs).
  exists s'. assert (r = RVal 3) as ->; [|split; [exact E|exact Habs]].
  assert (Er : match run_calls (B := verify_build) sample_calls RVoid sample_state with
               | Ok v _ => v = RVal 3 | _ => False end) by (vm_compute; reflexivity).
  rewrite E in Er. exact Er.
Defined.

(** ** Non-interference

    verif/llvm-ni.rkt: two states are equivalent for page [u] when they agree
    on its flags; an operation on [base, base + num) must not let a page
    outside the range change (local respect), and what it does to a page may
    depend only on that page and the pages of the range (weak step
    consistency). *)

Definition unwinding (u : Z) (s t : state) : Prop := pagedb_flag s u = pagedb_flag t u.

#[global] Instance unwinding_equivalence u : Equivalence (unwinding u).
Proof. unfold unwinding. split; congruence. Qed.

Section ni.
Context `{B : Build}.

(** [base <= x < base + num] on 64-bit values. *)
Definition in_block (base num x : Z) : bool := (base <=? x) && (x <? u64 (base + num)).

Definition local_respect (spec : Z -> Z -> state -> state) : Prop :=
  forall base num s u, in_block base num u = false -> unwinding u (spec base num s) s.

Definition weak_step_consistency (spec : Z -> Z -> state -> state) : Prop :=
  forall base num s t u,
    unwinding u s t ->
    (forall x, 0 <= x < NPAGE -> in_block base num x = true -> unwinding x s t) ->
    unwinding u (spec base num s) (spec base num t).

Lemma unwinding_update u f pred s t :
  unwinding u s t ->
  unwinding u (set_pagedb_flag (update_func (pagedb_flag s) pred f) s)
              (set_pagedb_flag (update_func (pagedb_flag t) pred f) t).
Proof using Type. unfold unwinding; simpl. unfold update_func. by intros ->. Qed.

(** C25: the two non-interference properties the repository checks for
    [free_pages] (and has commented out for [init_memmap]) hold for both. *)
Theorem spec_noninterference :
  local_respect spec_default_free_pages /\
  weak_step_consistency spec_default_free_pages /\
  local_respect spec_default_init_memmap /\
  weak_step_consistency spec_default_init_memmap.
Proof using Type.
  split_and!.
  - intros base num s u Hu. unfold spec_default_free_pages, unwinding, in_block in *.
    case_match; [|done]. simpl. unfold update_func. by rewrite Hu.
  - intros base num s t u Hu _. unfold spec_default_free_pages.
    case_match; [|done]. by apply unwinding_update.
  - intros base num s u Hu. unfold spec_default_init_memmap, unwinding, in_block in *.
    repeat (case_match; [done|]). simpl. unfold update_func. by rewrite Hu.
  - intros base num s t u Hu Hblk. unfold spec_default_init_memmap.
    repeat (case_match; [done|]).
    assert (Hflag : forall p flag, p ∈ all_pages -> in_block base num p = true ->
      page_has_flag s p flag = page_has_flag t p flag).
    { intros p flag Hp%elem_of_all_pages Hin. unfold page_has_flag. f_equal. f_equal.
      f_equal. f_equal. by apply Hblk. }
    assert (page_valid_flag s base num PG_reserved = page_valid_flag t base num PG_reserved) as ->.
    { apply forallb_ext. intros p Hp. unfold in_block in Hflag.
      destruct ((base <=? p) && _) eqn:E; [|done]. simpl. by apply Hflag. }
    assert (page_sat_flag s base num PG_allocated = page_sat_flag t base num PG_allocated) as ->.
    { apply existsb_ext. intros p Hp. unfold in_block in Hflag.
      destruct ((base <=? p) && _) eqn:E; [|done]. simpl. by apply Hflag. }
    repeat (case_match; [done|]). by apply unwinding_update.
Qed.
End ni.
