(* ===== verification/PmmManager.v ===== *)
(** * Physical memory managers

    [struct pmm_manager] of kern/mm/pmm.h: the methods that a physical memory
    manager implements, as a class, and what code that uses one relies on, as
    its laws: they say which pages change hands and nothing about where a
    block is placed.  [default_pmm_manager] of kern/mm/default_pmm.c is an
    instance. *)

From S2P Require Import Prelude Defs Atomic DefaultPmm.

(** The methods that work on the state; [name] and [check] are with the kernel
    ([Kernel.manager_name], [Pmm.check_alloc_page]). *)
Class PmmManager : Type := {
  pm_init : M mm_state unit;
  pm_init_memmap : Z -> Z -> M mm_state Z;
  pm_alloc_pages : Z -> M mm_state Z;
  pm_free_pages : Z -> Z -> M mm_state unit;
  pm_nr_free_pages : M mm_state Z;
}.

(** A state in which the counter is right. *)
Definition mm_ok `{Build} (s : mm_state) : Prop := mm_wf s /\ nr_free_eq s.

Class PmmManagerLaws `{Build} (PM : PmmManager) : Prop := {
  (** Pages are handed over as asked for, or nothing changes. *)
  law_init_memmap s base n :
    mm_ok s -> in_u64 base -> in_u64 n ->
    wp (pm_init_memmap base n) (fun _ s' => mm_ok s' /\
      (s' = s \/
       0 < n /\ base + n <= NPAGE /\
       (forall q, base <= q < base + n -> reserved (pages s) q = true /\ allocated (pages s) q = false) /\
       pages_updated clear_reserved base n (pages s) (pages s') /\ nr_free s' = nr_free s + n)) s;
  (** A block is made of pages that were available, or nothing changes. *)
  law_alloc_pages s n :
    mm_ok s -> in_u64 n ->
    wp (pm_alloc_pages n) (fun q s' => mm_ok s' /\
      (q = NULLPAGE /\ s' = s \/
       q <> NULLPAGE /\ 0 < n /\ 0 <= q /\ q + n <= NPAGE /\ run_free (pages s) q n /\
       pages_updated set_allocated q n (pages s) (pages s') /\ nr_free s' = nr_free s - n)) s;
  (** Pages in a client's hands can be given back. *)
  law_free_pages s base n :
    mm_ok s -> 0 <= base -> 0 < n -> base + n <= NPAGE ->
    (forall p, base <= p < base + n -> owned (pages s) p = true) ->
    wp (pm_free_pages base n) (fun _ s' => mm_ok s' /\
      pages_updated clear_allocated base n (pages s) (pages s') /\ nr_free s' = nr_free s + n) s;
  law_nr_free_pages s : pm_nr_free_pages s = Ok (nr_free s) s;
}.

(** ** [default_pmm_manager] *)

Definition default_pmm_methods `{B : Build} : PmmManager := {|
  pm_init := default_init;
  pm_init_memmap := default_init_memmap;
  pm_alloc_pages := default_alloc_pages;
  pm_free_pages := default_free_pages;
  pm_nr_free_pages := default_nr_free_pages;
|}.
#[global] Existing Instance default_pmm_methods.

Section default.
Context `{B : Build}.

(** A counter that is right stays within the number of pages. *)
Lemma mm_ok_bound s : mm_ok s -> 0 <= nr_free s <= NPAGE.
Proof using Type. intros [Hwf Hcnt]. unfold nr_free_eq in Hcnt. rewrite Hcnt. by apply count_free_bound. Qed.

Lemma counter_add s s' n :
  mm_ok s -> mm_ok s' -> in_u64 n -> n <= NPAGE -> nr_free s' = u64 (nr_free s + n) -> nr_free s' = nr_free s + n.
Proof using Type.
  intros H1%mm_ok_bound H2%mm_ok_bound Hn Hle ->. pose proof NPAGE_range. unfold in_u64 in *.
  apply u64_small. unfold in_u64. lia.
Qed.
Lemma counter_sub s s' n :
  mm_ok s -> mm_ok s' -> in_u64 n -> n <= NPAGE -> nr_free s' = u64 (nr_free s - n) -> nr_free s' = nr_free s - n.
Proof using Type.
  intros H1%mm_ok_bound H2%mm_ok_bound Hn Hle E. pose proof NPAGE_range. unfold in_u64 in *.
  rewrite E in H2 |- *. word_lia.
Qed.

#[global] Instance default_pmm_laws : PmmManagerLaws default_pmm_methods.
Proof using Type.
  split.
  - intros s base n Hok Hb Hn. pose proof Hok as [Hwf Hcnt].
    pose proof (run_call_wf s Hwf (CallInitMemmap base n) (conj Hb Hn)) as Hw.
    pose proof (proj2 (nr_free_preserved s Hwf Hcnt) base n Hb Hn) as Hc.
    pose proof (init_memmap_wp base n s Hwf Hb Hn) as Ho. unfold run_call, wp in *.
    cbn [pm_init_memmap default_pmm_methods]. destruct (default_init_memmap base n s) as [r s'| |]; [|done..].
    assert (Hok' : mm_ok s') by (split; [apply Hw|exact Hc]). split; [exact Hok'|].
    destruct Ho as [| | | | | |s' Hpos Hle Hall Hup Hnr]; try (by left). right.
    unfold in_u64 in Hb. split_and!; try done. by apply (counter_add s); [..|lia|].
  - intros s n Hok Hn. pose proof Hok as [Hwf Hcnt].
    pose proof (run_call_wf s Hwf (CallAlloc n) Hn) as Hw.
    pose proof (proj1 (nr_free_preserved s Hwf Hcnt) n Hn) as Hc.
    pose proof (alloc_pages_wp s Hwf n Hn) as Ho. unfold run_call, wp in *.
    cbn [pm_alloc_pages default_pmm_methods]. destruct (default_alloc_pages n s) as [q s'| |]; [|done..].
    assert (Hok' : mm_ok s') by (split; [apply Hw|exact Hc]). split; [exact Hok'|].
    destruct Ho as [(-> & -> & _)|(Hpos & Hq & Hle & Hrun & _ & Hup & Hnr)]; [by left|right].
    pose proof NPAGE_lt_NULLPAGE. split_and!; try done; [lia|]. by apply (counter_sub s); [..|lia|].
  - intros s base n Hok Hb Hpos Hle Hown. pose proof Hok as [Hwf Hcnt]. pose proof NPAGE_range.
    assert (Hbw : in_u64 base) by (unfold in_u64; lia). assert (Hn : in_u64 n) by (unfold in_u64; lia).
    pose proof (run_call_wf s Hwf (CallFree base n) (conj Hbw Hn)) as Hw.
    pose proof (free_pages_accounting s Hwf base n Hcnt Hbw Hn Hpos Hle) as Hc.
    pose proof (free_pages_wp s Hwf base n Hbw Hn) as Ho. unfold run_call, wp, mbind, M_bind in *.
    cbn [pm_free_pages default_pmm_methods]. destruct (default_free_pages base n s) as [[] s'| |]; [|done..].
    assert (Hok' : mm_ok s') by (split; [apply Hw|by apply Hc]). split; [exact Hok'|].
    destruct Ho as [(_ & _ & Hup & Hnr)|[[] _]]; [|done]. split; [done|]. by apply (counter_add s); [..|lia|].
  - done.
Qed.
End default.
