(* ===== verification/PmmClient.v ===== *)
(** * Clients of the allocator

    A client that only frees blocks it was given, whole, and only once: a
    transition system over the allocator's state and the list of live blocks.
    The theorems are what such a client relies on: blocks in use never
    overlap, and pages are neither lost nor duplicated.  They are proved for
    every manager that keeps the laws of [PmmManager], and stated for the
    kernel's. *)

From S2P Require Import Prelude Defs Atomic DefaultPmm PmmManager.

(** A block is its first page and its number of pages. *)
Abbreviation block := (Z * Z)%type.

Definition in_blk (p : Z) (b : block) : Prop := b.1 <= p < b.1 + b.2.
#[global] Instance in_blk_dec p b : Decision (in_blk p b).
Proof. unfold in_blk; apply _. Defined.

(** How many live blocks contain page [p]. *)
Definition holders (p : Z) (live : list block) : nat := length (filter (in_blk p) live).

Definition live_pages (live : list block) : Z := foldr (fun b acc => b.2 + acc) 0 live.

Definition unreserved (w : Z) : bool := negb (Z.testbit w PG_reserved).

Record client : Type := Client { mm : mm_state; live : list block }.

Section client.
Context `{B : Build}.

(** The page array as [page_init] leaves it: every page reserved. *)
Definition boot_pages : list Z := replicate (Z.to_nat NPAGE) (set_reserved 0).
Definition boot_client : client := Client (Mm boot_pages 0) [].

(** One call by the client. *)
Inductive client_step `{PM : PmmManager} : client -> client -> Prop :=
  | client_init base n r s s' l :
      in_u64 base -> in_u64 n -> pm_init_memmap base n s = Ok r s' ->
      client_step (Client s l) (Client s' l)
  | client_alloc n q s s' l :
      in_u64 n -> pm_alloc_pages n s = Ok q s' -> q <> NULLPAGE ->
      client_step (Client s l) (Client s' ((q, n) :: l))
  | client_alloc_fail n s s' l :
      in_u64 n -> pm_alloc_pages n s = Ok NULLPAGE s' ->
      client_step (Client s l) (Client s' l)
  | client_free base n s s' l1 l2 :
      pm_free_pages base n s = Ok () s' ->
      client_step (Client s (l1 ++ (base, n) :: l2)) (Client s' (l1 ++ l2)).

Record client_inv (c : client) : Prop := {
  inv_ok : mm_ok (mm c);
  inv_blocks : Forall (fun b => 0 < b.2 /\ 0 <= b.1 /\ b.1 + b.2 <= NPAGE) (live c);
  inv_holders : forall p, 0 <= p < NPAGE ->
    holders p (live c) = if allocated (pages (mm c)) p then 1%nat else 0%nat;
  inv_unreserved : forall p, 0 <= p < NPAGE ->
    allocated (pages (mm c)) p = true -> reserved (pages (mm c)) p = false;
  inv_conserved : nr_free (mm c) + live_pages (live c) = count unreserved (pages (mm c));
}.
End client.

Lemma holders_cons p b l : holders p (b :: l) = ((if bool_decide (in_blk p b) then 1 else 0) + holders p l)%nat.
Proof. unfold holders. rewrite filter_cons. by destruct (decide (in_blk p b)) as [H|H]; [rewrite bool_decide_true|rewrite bool_decide_false]. Qed.

Lemma holders_app p l l' : holders p (l ++ l') = (holders p l + holders p l')%nat.
Proof. unfold holders. by rewrite filter_app, length_app. Qed.

Lemma live_pages_app l l' : live_pages (l ++ l') = live_pages l + live_pages l'.
Proof. induction l as [|b l IH]; [done|]. simpl. lia. Qed.

#[export] Hint Rewrite holders_cons holders_app live_pages_app : word_rw.

(** ** Flags after a range update *)

Section updated.
Context `{B : Build} (f : Z -> Z) (base n : Z) (ps ps' : list Z).
Context (Hup : pages_updated f base n ps ps').

Lemma updated_flag (i : Z) p (v : Z -> bool) :
  (forall w, Z.testbit (f w) i = v w) -> 0 <= p < NPAGE ->
  Z.testbit (word_at p ps') i
  = if bool_decide (in_blk p (base, n)) then v (word_at p ps) else Z.testbit (word_at p ps) i.
Proof using Hup.
  intros Hf Hp. destruct Hup as [_ Hw]. rewrite Hw by done.
  destruct (decide (base <= p < base + n)).
  - by rewrite !bool_decide_true, Hf.
  - by rewrite !bool_decide_false.
Qed.

Lemma count_unreserved_updated :
  (forall w, Z.testbit (f w) PG_reserved = Z.testbit w PG_reserved) ->
  in_u64 base -> in_u64 n -> base + n <= NPAGE -> Z.of_nat (length ps) = NPAGE ->
  count unreserved ps' = count unreserved ps.
Proof using Hup.
  intros Hf Hb Hn Hle Hlen. pose proof NPAGE_range.
  rewrite (pages_updated_eq f base n ps ps') by done. unfold in_u64 in *.
  rewrite count_map_range by lia.
  rewrite (count_ext (fun w => unreserved (f w)) unreserved); [lia|].
  apply Forall_true. intros w. unfold unreserved. by rewrite Hf.
Qed.
End updated.

Lemma inv_wf `{Build} c : client_inv c -> mm_wf (mm c).
Proof. intros I. apply (inv_ok _ I). Qed.
Lemma inv_count `{Build} c : client_inv c -> nr_free_eq (mm c).
Proof. intros I. apply (inv_ok _ I). Qed.

Lemma boot_client_inv `{B : Build} : client_inv boot_client.
Proof.
  pose proof NPAGE_range.
  assert (Hlen : length boot_pages = Z.to_nat NPAGE) by apply length_replicate.
  assert (Hw : forall p, 0 <= p < NPAGE -> word_at p boot_pages = set_reserved 0).
  { intros p Hp. unfold word_at, boot_pages. by rewrite lookup_replicate_2 by lia. }
  assert (Hcount : forall t, t (set_reserved 0) = false -> count t boot_pages = 0).
  { intros t Ht. apply count_none. unfold boot_pages. by apply Forall_replicate. }
  split; simpl.
  - split.
    + split_and!; simpl; [lia| |word_unfold; lia].
      apply Forall_replicate. apply in_u64_or_flag. word_unfold. lia.
    + unfold nr_free_eq, count_free; simpl. by rewrite Hcount.
  - constructor.
  - intros p Hp. unfold allocated. by rewrite Hw.
  - intros p Hp. unfold allocated. by rewrite Hw.
  - by rewrite Hcount.
Qed.

(** ** The invariant, for every manager *)

Section invariant.
Context `{B : Build} `{PM : PmmManager} `{PL : !PmmManagerLaws PM}.

Lemma client_inv_init base n r s s' l :
  in_u64 base -> in_u64 n -> pm_init_memmap base n s = Ok r s' ->
  client_inv (Client s l) -> client_inv (Client s' l).
Proof using PL.
  intros Hb Hn E I. pose proof NPAGE_range. destruct I as [Hok Hbl Hh Hu Hc]; simpl in *.
  pose proof (law_init_memmap s base n Hok Hb Hn) as Ho. unfold wp in Ho. rewrite E in Ho.
  destruct Ho as (Hok' & [->|(Hpos & Hle & Hall & Hup & Hnr)]); [by constructor|].
  assert (Ha : forall p, 0 <= p < NPAGE -> allocated (pages s') p = allocated (pages s) p).
  { intros p Hp. unfold allocated.
    rewrite (updated_flag _ _ _ _ _ Hup PG_allocated p (fun w => Z.testbit w PG_allocated));
      [by case_bool_decide|apply clear_reserved_flags|done]. }
  assert (Hr : forall p, 0 <= p < NPAGE -> reserved (pages s) p = false -> reserved (pages s') p = false).
  { intros p Hp Hres. unfold reserved.
    rewrite (updated_flag _ _ _ _ _ Hup PG_reserved p (fun _ => false));
      [by case_bool_decide|apply clear_reserved_flags|done]. }
  split; simpl; try done.
  - intros p Hp. rewrite Ha by done. by apply Hh.
  - intros p Hp. rewrite Ha by done. intros. by apply Hr, Hu.
  - destruct Hok as [(Hlen & _) _]. unfold in_u64 in Hb.
    rewrite (pages_updated_eq _ _ _ _ _ Hb Hn Hle Hlen Hup), count_map_range by lia.
    rewrite (count_none unreserved (slice base n (pages s))).
    2: { apply Forall_slice; [lia..|]. intros p Hp. unfold unreserved.
         destruct (Hall p Hp) as [Hres _]; unfold reserved in Hres; by rewrite Hres. }
    assert (Hsl : count (fun w => unreserved (clear_reserved w)) (slice base n (pages s)) = n).
    { rewrite <- (length_slice base n (pages s)) at 2 by lia. apply count_all, Forall_true.
      intros w. unfold unreserved. by rewrite (proj2 (clear_reserved_flags w)). }
    rewrite Hsl. lia.
Qed.

(** What a successful call does to the flag tests and the counter. *)
Lemma alloc_effect n q s s' :
  mm_ok s -> in_u64 n -> pm_alloc_pages n s = Ok q s' -> q <> NULLPAGE ->
  mm_ok s' /\ 0 < n /\ 0 <= q /\ q + n <= NPAGE /\ nr_free s' = nr_free s - n /\
  (forall p, q <= p < q + n -> avail (pages s) p = true) /\
  (forall p, 0 <= p < NPAGE ->
     allocated (pages s') p = bool_decide (in_blk p (q, n)) || allocated (pages s) p) /\
  (forall p, 0 <= p < NPAGE -> reserved (pages s') p = reserved (pages s) p) /\
  count unreserved (pages s') = count unreserved (pages s).
Proof using PL.
  intros Hok Hn E Hq. pose proof NPAGE_range. pose proof Hok as [(Hlen & _) _].
  pose proof (law_alloc_pages s n Hok Hn) as Ho. unfold wp in Ho. rewrite E in Ho.
  destruct Ho as (Hok' & [(-> & _)|(_ & Hpos & Hq0 & Hle & Hrun & Hup & Hnr)]); [done|].
  assert (Hqw : in_u64 q) by (unfold in_u64; lia). split_and!; try done.
  - intros p Hp. unfold allocated.
    rewrite (updated_flag _ _ _ _ _ Hup PG_allocated p (fun _ => true));
      [by case_bool_decide|apply set_allocated_flags|done].
  - intros p Hp. unfold reserved.
    rewrite (updated_flag _ _ _ _ _ Hup PG_reserved p (fun w => Z.testbit w PG_reserved));
      [by case_bool_decide|apply set_allocated_flags|done].
  - apply (count_unreserved_updated _ _ _ _ _ Hup); try done. intros w.
    apply set_allocated_flags.
Qed.

Lemma free_effect base n s s' :
  mm_ok s -> 0 <= base -> 0 < n -> base + n <= NPAGE ->
  (forall p, base <= p < base + n -> owned (pages s) p = true) ->
  pm_free_pages base n s = Ok () s' ->
  mm_ok s' /\ nr_free s' = nr_free s + n /\
  (forall p, 0 <= p < NPAGE ->
     allocated (pages s') p = negb (bool_decide (in_blk p (base, n))) && allocated (pages s) p) /\
  (forall p, 0 <= p < NPAGE -> reserved (pages s') p = reserved (pages s) p) /\
  count unreserved (pages s') = count unreserved (pages s).
Proof using PL.
  intros Hok Hb Hpos Hle Hown E. pose proof NPAGE_range. pose proof Hok as [(Hlen & _) _].
  pose proof (law_free_pages s base n Hok Hb Hpos Hle Hown) as Ho. unfold wp in Ho. rewrite E in Ho.
  destruct Ho as (Hok' & Hup & Hnr).
  assert (Hbw : in_u64 base) by (unfold in_u64; lia). assert (Hn : in_u64 n) by (unfold in_u64; lia).
  split_and!; try done.
  - intros p Hp. unfold allocated.
    rewrite (updated_flag _ _ _ _ _ Hup PG_allocated p (fun _ => false));
      [by case_bool_decide|apply clear_allocated_flags|done].
  - intros p Hp. unfold reserved.
    rewrite (updated_flag _ _ _ _ _ Hup PG_reserved p (fun w => Z.testbit w PG_reserved));
      [by case_bool_decide|apply clear_allocated_flags|done].
  - apply (count_unreserved_updated _ _ _ _ _ Hup); try done. intros w.
    apply clear_allocated_flags.
Qed.

Lemma client_inv_alloc n q s s' l :
  in_u64 n -> pm_alloc_pages n s = Ok q s' -> q <> NULLPAGE ->
  client_inv (Client s l) -> client_inv (Client s' ((q, n) :: l)).
Proof using PL.
  intros Hn E Hq I. destruct I as [Hok Hbl Hh Hu Hc]; simpl in *.
  destruct (alloc_effect n q s s' Hok Hn E Hq) as (Hok' & Hpos & Hq0 & Hle & Hnr & Hav & Ha & Hr & Hun).
  split; simpl; [done|by constructor| | |].
  - intros p Hp. rewrite holders_cons, Ha, Hh by done. case_bool_decide as Hin; [|done].
    specialize (Hav p Hin). unfold avail, word_free in Hav. unfold allocated.
    apply andb_prop in Hav as [Hav _]. apply negb_true_iff in Hav. by rewrite Hav.
  - intros p Hp. rewrite Ha, Hr by done. case_bool_decide as Hin; [|by apply Hu].
    intros _. specialize (Hav p Hin). unfold avail, word_free in Hav.
    apply andb_prop in Hav as [_ Hav]. by apply negb_true_iff in Hav.
  - lia.
Qed.

(** The pages of a live block are in the client's hands. *)
Lemma live_owned s l1 l2 base n :
  client_inv (Client s (l1 ++ (base, n) :: l2)) ->
  0 <= base /\ 0 < n /\ base + n <= NPAGE /\
  forall p, base <= p < base + n -> allocated (pages s) p = true /\ owned (pages s) p = true.
Proof using Type.
  intros [_ Hbl Hh Hu _]; simpl in *.
  apply Forall_app in Hbl as [_ [(Hpos & Hb0 & Hle) _]%Forall_cons]. simpl in *. split_and!; try done.
  intros p Hp. assert (Hpw : 0 <= p < NPAGE) by lia.
  assert (Ha : allocated (pages s) p = true).
  { specialize (Hh p Hpw). autorewrite with word_rw in Hh. rewrite bool_decide_true in Hh by done.
    destruct (allocated _ _); [done|lia]. }
  split; [done|]. unfold owned, word_owned.
  change (allocated (pages s) p && negb (reserved (pages s) p) = true). by rewrite Ha, Hu.
Qed.

Lemma client_inv_free base n s s' l1 l2 :
  pm_free_pages base n s = Ok () s' ->
  client_inv (Client s (l1 ++ (base, n) :: l2)) -> client_inv (Client s' (l1 ++ l2)).
Proof using PL.
  intros E I. destruct (live_owned _ _ _ _ _ I) as (Hb0 & Hpos & Hle & Hown).
  destruct I as [Hok Hbl Hh Hu Hc]; simpl in *.
  apply Forall_app in Hbl as [Hbl1 [_ Hbl2]%Forall_cons].
  destruct (free_effect base n s s' Hok Hb0 Hpos Hle (fun p Hp => proj2 (Hown p Hp)) E)
    as (Hok' & Hnr & Ha & Hr & Hun).
  split; simpl; [done|by apply Forall_app| | |].
  - intros p Hp. specialize (Hh p Hp). autorewrite with word_rw in *. rewrite Ha by done.
    case_bool_decide as Hin; simpl; [|lia].
    rewrite (proj1 (Hown p Hin)) in Hh. lia.
  - intros p Hp. rewrite Ha, Hr by done. intros [_ Hal]%andb_prop. by apply Hu.
  - autorewrite with word_rw in *. simpl in Hc. lia.
Qed.

Lemma client_step_inv c c' : client_step c c' -> client_inv c -> client_inv c'.
Proof using PL.
  intros [base n r s s' l Hb Hn E|n q s s' l Hn E Hq|n s s' l Hn E|base n s s' l1 l2 E] I.
  - exact (client_inv_init base n r s s' l Hb Hn E I).
  - exact (client_inv_alloc n q s s' l Hn E Hq I).
  - pose proof (law_alloc_pages s n (inv_ok _ I) Hn) as Ho.
    unfold wp in Ho. rewrite E in Ho. by destruct Ho as (_ & [(_ & ->)|(? & _)]).
  - exact (client_inv_free base n s s' l1 l2 E I).
Qed.

(** In every state a client can reach from boot, the invariant holds: the
    counter is the number of available pages, every allocated page is in
    exactly one live block and is not reserved, and free pages and live
    blocks add up to the pages handed over by [init_memmap]. *)
Lemma reachable_inv c : rtc client_step boot_client c -> client_inv c.
Proof using PL.
  intros Hr. pose proof boot_client_inv as I. revert I.
  induction Hr as [|c1 c2 c3 Hs _ IH]; [done|]. intros I. by eapply IH, client_step_inv.
Qed.

Lemma alloc_disjoint_any s l n q s' :
  rtc client_step boot_client (Client s l) -> in_u64 n ->
  pm_alloc_pages n s = Ok q s' -> q <> NULLPAGE ->
  0 <= q /\ q + n <= NPAGE /\
  Forall (fun b => forall p, in_blk p b -> ~ in_blk p (q, n)) l.
Proof using PL.
  intros Hreach Hn E Hq. pose proof (reachable_inv _ Hreach) as I.
  destruct I as [Hok Hbl Hh Hu Hc]; simpl in *.
  destruct (alloc_effect n q s s' Hok Hn E Hq) as (_ & Hpos & Hq0 & Hle & _ & Hav & _).
  split_and!; [done..|]. apply Forall_forall. intros b Hb p Hpb Hin.
  specialize (Hav p Hin). unfold in_blk in Hin; simpl in Hin.
  assert (Hp : 0 <= p < NPAGE) by lia. specialize (Hh p Hp).
  apply list_elem_of_split in Hb as (l1 & l2 & ->). autorewrite with word_rw in Hh.
  rewrite bool_decide_true in Hh by done.
  unfold avail, word_free in Hav. unfold allocated in Hh.
  destruct (Z.testbit _ PG_allocated); [done|lia].
Qed.

Lemma no_leak_any s :
  rtc client_step boot_client (Client s []) ->
  nr_free s = count unreserved (pages s) /\
  forall p, 0 <= p < NPAGE -> allocated (pages s) p = false.
Proof using PL.
  intros Hreach. pose proof (reachable_inv _ Hreach) as I.
  destruct I as [Hok Hbl Hh Hu Hc]; simpl in *. split; [lia|].
  intros p Hp. specialize (Hh p Hp). by destruct (allocated _ _).
Qed.
End invariant.

(** ** The kernel's manager *)

Section default.
Context `{B : Build}.

(** C7: in every state that a client of the kernel's allocator reaches from
    boot, a block that [alloc_pages] returns is inside the page array and
    shares no page with any block the client still holds. *)
Theorem alloc_disjoint s l n q s' :
  rtc (client_step (PM := default_pmm_methods)) boot_client (Client s l) -> in_u64 n ->
  default_alloc_pages n s = Ok q s' -> q <> NULLPAGE ->
  0 <= q /\ q + n <= NPAGE /\
  Forall (fun b => forall p, in_blk p b -> ~ in_blk p (q, n)) l.
Proof using Type. apply (alloc_disjoint_any (PM := default_pmm_methods)). Qed.

(** C8: a client that has freed everything it held is back at the full
    counter: every page handed over at boot is available again. *)
Theorem no_leak s :
  rtc (client_step (PM := default_pmm_methods)) boot_client (Client s []) ->
  nr_free s = count unreserved (pages s) /\
  forall p, 0 <= p < NPAGE -> allocated (pages s) p = false.
Proof using Type. apply (no_leak_any (PM := default_pmm_methods)). Qed.
End default.

(** A client of the verification build: it gets pages 0-4, takes two blocks and
    gives both back. *)
Definition sample_client : client := Client (Mm [2; 2; 2; 0; 0] 2) [(2, 1); (0, 2)].

Lemma sample_client_reachable :
  rtc (client_step (PM := @default_pmm_methods verify_build)) (boot_client (B := verify_build)) sample_client.
Proof.
  eapply rtc_l; [eapply (client_init (PM := @default_pmm_methods verify_build) 0 5); [done..|vm_compute; reflexivity]|].
  eapply rtc_l; [eapply (client_alloc (PM := @default_pmm_methods verify_build) 2); [done|vm_compute; reflexivity|done]|].
  eapply rtc_l; [eapply (client_alloc (PM := @default_pmm_methods verify_build) 1); [done|vm_compute; reflexivity|done]|].
  apply rtc_refl.
Qed.

Lemma alloc_disjoint_witness :
  default_alloc_pages (B := verify_build) 2 (mm sample_client)
    = Ok 3 (Mm [2; 2; 2; 2; 2] 0) /\
  Forall (fun b => forall p, in_blk p b -> ~ in_blk p (3, 2)) (live sample_client).
Proof.
  assert (E : default_alloc_pages (B := verify_build) 2 (mm sample_client)
    = Ok 3 (Mm [2; 2; 2; 2; 2] 0)) by done.
  split; [done|].
  exact (proj2 (proj2 (alloc_disjoint (B := verify_build) _ _ 2 3 _
    sample_client_reachable ltac:(done) E ltac:(done)))).
Defined.

Lemma no_leak_witness :
  rtc (client_step (PM := @default_pmm_methods verify_build)) (boot_client (B := verify_build))
    (Client (Mm [0; 0; 0; 0; 0] 5) []) /\
  forall p, 0 <= p < 5 -> allocated [0; 0; 0; 0; 0] p = false.
Proof.
  assert (R : rtc (client_step (PM := @default_pmm_methods verify_build)) (boot_client (B := verify_build))
    (Client (Mm [0; 0; 0; 0; 0] 5) [])).
  { eapply (transitivity (R := rtc (client_step (PM := @default_pmm_methods verify_build)))); [exact sample_client_reachable|].
    eapply rtc_l; [eapply (client_free (PM := @default_pmm_methods verify_build) 2 1 _ _ []); vm_compute; reflexivity|].
    eapply rtc_l; [eapply (client_free (PM := @default_pmm_methods verify_build) 0 2 _ _ []); vm_compute; reflexivity|].
    apply rtc_refl. }
  split; [exact R|]. exact (proj2 (no_leak (B := verify_build) _ R)).
Defined.
