(* ===== verification/ListH.v ===== *)
(** * Doubly linked lists

    libs/list.h: circular doubly linked lists over a heap of entries.  Every
    function is the sequence of field reads and writes of the C code, in its
    order, on a shared heap, so aliased arguments (a list of one element is its
    own neighbour) mean what they mean in C. *)

From S2P Require Import Prelude.

#[local] Set Warnings "-clear-no-such-hyp".

(** [struct list_entry]. *)
Record list_entry : Type := Entry { prev : Z; next : Z }.

(** The entries that exist, by address. *)
Abbreviation heap := (gmap Z list_entry).

Definition load_entry (a : Z) : M heap list_entry := h ← mget; mlift (h !! a).
Definition store_prev (a v : Z) : M heap unit :=
  e ← load_entry a; mmodify <[a := Entry v (next e)]>.
Definition store_next (a v : Z) : M heap unit :=
  e ← load_entry a; mmodify <[a := Entry (prev e) v]>.

(** [elm->prev = elm->next = elm]: the inner assignment first. *)
Definition list_init (elm : Z) : M heap unit :=
  store_next elm elm;; store_prev elm elm.

(** [__list_add]. *)
Definition list_add_between (elm prev next : Z) : M heap unit :=
  store_prev next elm;;
  store_next prev elm;;
  store_next elm next;;
  store_prev elm prev.

(** [__list_del]. *)
Definition list_del_between (prev next : Z) : M heap unit :=
  store_next prev next;;
  store_prev next prev.

Definition list_add_before (listelm elm : Z) : M heap unit :=
  e ← load_entry listelm; list_add_between elm (prev e) listelm.
Definition list_add_after (listelm elm : Z) : M heap unit :=
  e ← load_entry listelm; list_add_between elm listelm (next e).
Definition list_add (listelm elm : Z) : M heap unit := list_add_after listelm elm.

Definition list_del (listelm : Z) : M heap unit :=
  e ← load_entry listelm; list_del_between (prev e) (next e).
Definition list_del_init (listelm : Z) : M heap unit :=
  list_del listelm;; list_init listelm.

Definition list_empty (list : Z) : M heap bool :=
  e ← load_entry list; mret (next e =? list).
Definition list_next (listelm : Z) : M heap Z := e ← load_entry listelm; mret (next e).
Definition list_prev (listelm : Z) : M heap Z := e ← load_entry listelm; mret (prev e).

(** ** Rings *)

Definition next_is (h : heap) (a b : Z) : Prop := exists e, h !! a = Some e /\ next e = b.
Definition prev_is (h : heap) (b a : Z) : Prop := exists e, h !! b = Some e /\ prev e = a.

(** From [a] the entries of [l] follow, then [b], linked both ways. *)
Fixpoint chain (h : heap) (a : Z) (l : list Z) (b : Z) : Prop :=
  match l with
  | [] => next_is h a b /\ prev_is h b a
  | c :: l' => (next_is h a c /\ prev_is h c a) /\ chain h c l' b
  end.

(** The circular list whose entries, in order from some entry on, are [c]. *)
Definition ring (h : heap) (c : list Z) : Prop :=
  NoDup c /\ match c with [] => False | a :: l => chain h a l a end.

Lemma chain_app h a l1 x l2 b : chain h a (l1 ++ x :: l2) b <-> chain h a l1 x /\ chain h x l2 b.
Proof. revert a. induction l1 as [|c l1 IH]; intros a; simpl; [tauto|]. rewrite IH. tauto. Qed.

(** A ring may be read from any of its entries on. *)
Lemma ring_rotate h c1 c2 : ring h (c1 ++ c2) -> ring h (c2 ++ c1).
Proof.
  destruct c1 as [|a l1], c2 as [|b l2]; simpl; rewrite ?app_nil_r; try done.
  intros [Hnd Hc]. split.
  - change (NoDup ((b :: l2) ++ (a :: l1))). by rewrite Permutation_app_comm.
  - apply chain_app in Hc as [H1 H2]. by apply chain_app.
Qed.

Lemma ring_focus h c1 x c2 : ring h (c1 ++ x :: c2) -> ring h (x :: c2 ++ c1).
Proof. apply (ring_rotate h c1 (x :: c2)). Qed.
Lemma ring_unfocus h c1 x c2 : ring h (x :: c2 ++ c1) -> ring h (c1 ++ x :: c2).
Proof. intros H. by apply (ring_rotate h (x :: c2) c1). Qed.

(** Only the next fields of [a :: l] and the previous fields of [l ++ [b]]
    matter to a chain. *)
Lemma chain_frame h h' a l b :
  (forall x y, x ∈ a :: l -> next_is h x y -> next_is h' x y) ->
  (forall x y, x ∈ l ++ [b] -> prev_is h x y -> prev_is h' x y) ->
  chain h a l b -> chain h' a l b.
Proof.
  revert a. induction l as [|c l IH]; intros a Hn Hp; simpl.
  - intros [H1 H2]. split; [apply Hn|apply Hp]; [set_solver|done|set_solver|done].
  - intros [[H1 H2] H3]. split; [split; [apply Hn|apply Hp]; [set_solver|done|set_solver|done]|].
    apply IH; [| |done]; intros; [apply Hn|apply Hp]; set_solver.
Qed.

(** Field writes through [next_is] and [prev_is]. *)
Lemma next_is_insert h a e x y :
  next_is (<[a := e]> h) x y <-> (x = a /\ next e = y) \/ (x <> a /\ next_is h x y).
Proof.
  unfold next_is. destruct (decide (x = a)) as [->|Hne].
  - rewrite lookup_insert_eq. naive_solver.
  - rewrite lookup_insert_ne by done. naive_solver.
Qed.
Lemma prev_is_insert h a e x y :
  prev_is (<[a := e]> h) x y <-> (x = a /\ prev e = y) \/ (x <> a /\ prev_is h x y).
Proof.
  unfold prev_is. destruct (decide (x = a)) as [->|Hne].
  - rewrite lookup_insert_eq. naive_solver.
  - rewrite lookup_insert_ne by done. naive_solver.
Qed.

(** Writes to allocated entries: what the heap is afterwards, by field. *)
Definition fields_updated (h h' : heap) (fn fp : Z -> Z -> Z) : Prop :=
  dom h' = dom h /\
  (forall x y, next_is h x y -> next_is h' x (fn x y)) /\
  (forall x y, prev_is h x y -> prev_is h' x (fp x y)).

Lemma fields_updated_trans h1 h2 h3 fn1 fp1 fn2 fp2 :
  fields_updated h1 h2 fn1 fp1 -> fields_updated h2 h3 fn2 fp2 ->
  fields_updated h1 h3 (fun x y => fn2 x (fn1 x y)) (fun x y => fp2 x (fp1 x y)).
Proof. intros (? & ? & ?) (? & ? & ?). split_and!; [congruence|eauto..]. Qed.

Lemma wp_store_prev a v h :
  a ∈ dom h ->
  wp (store_prev a v) (fun _ h' => fields_updated h h' (fun _ y => y)
                                     (fun x y => if decide (x = a) then v else y)) h.
Proof.
  intros [e He]%elem_of_dom. unfold store_prev, load_entry, wp, mbind, M_bind, mget; simpl.
  rewrite He; simpl. split_and!.
  - rewrite dom_insert_L. apply elem_of_dom_2 in He. set_solver.
  - intros x y Hx. rewrite next_is_insert. destruct (decide (x = a)) as [->|]; [left|by right].
    destruct Hx as (e' & He' & <-). rewrite He in He'. by injection He' as ->.
  - intros x y Hx. rewrite prev_is_insert. case_decide; [by left|by right].
Qed.

Lemma wp_store_next a v h :
  a ∈ dom h ->
  wp (store_next a v) (fun _ h' => fields_updated h h'
                                     (fun x y => if decide (x = a) then v else y) (fun _ y => y)) h.
Proof.
  intros [e He]%elem_of_dom. unfold store_next, load_entry, wp, mbind, M_bind, mget; simpl.
  rewrite He; simpl. split_and!.
  - rewrite dom_insert_L. apply elem_of_dom_2 in He. set_solver.
  - intros x y Hx. rewrite next_is_insert. case_decide; [by left|by right].
  - intros x y Hx. rewrite prev_is_insert. destruct (decide (x = a)) as [->|]; [left|by right].
    destruct Hx as (e' & He' & <-). rewrite He in He'. by injection He' as ->.
Qed.

(** ** Insertion and deletion *)

Lemma chain_dom h a l b : chain h a l b -> a ∈ dom h /\ b ∈ dom h /\ forall x, x ∈ l -> x ∈ dom h.
Proof.
  revert a. induction l as [|c l IH]; intros a; simpl.
  - intros [(e & He & _) (e' & He' & _)]. apply elem_of_dom_2 in He, He'. set_solver.
  - intros [[(e & He & _) _] H]. apply IH in H as (Hc & Hb & Hl). apply elem_of_dom_2 in He.
    set_solver.
Qed.

(** The entries outside [c] are as before. *)
Definition unchanged_outside (h h' : heap) (c : list Z) : Prop :=
  forall x, x ∉ c -> h' !! x = h !! x.

Lemma fields_unchanged h h' fn fp c :
  fields_updated h h' fn fp ->
  (forall x y, x ∉ c -> fn x y = y /\ fp x y = y) -> unchanged_outside h h' c.
Proof.
  intros (Hd & Hn & Hp) Hid x Hx. destruct (h !! x) as [[p n]|] eqn:E.
  - destruct (Hn x n) as (e & He & Hen); [by exists (Entry p n)|].
    destruct (Hp x p) as (e' & He' & Hep); [by exists (Entry p n)|].
    rewrite He in He'. injection He' as <-. rewrite He. f_equal. destruct e; simpl in *.
    destruct (Hid x n Hx) as [E1 _], (Hid x p Hx) as [_ E2]. congruence.
  - apply not_elem_of_dom. rewrite Hd. by apply not_elem_of_dom.
Qed.

Lemma list_add_between_fields elm p n h :
  elm ∈ dom h -> p ∈ dom h -> n ∈ dom h ->
  wp (list_add_between elm p n) (fun _ h' => fields_updated h h'
    (fun x y => if decide (x = elm) then n else if decide (x = p) then elm else y)
    (fun x y => if decide (x = elm) then p else if decide (x = n) then elm else y)) h.
Proof.
  intros He Hp Hn. unfold list_add_between.
  apply wp_bind. eapply wp_mono; [by apply wp_store_prev|]. intros [] h1 U1.
  apply wp_bind. eapply wp_mono; [apply wp_store_next; by rewrite (proj1 U1)|]. intros [] h2 U2.
  pose proof (fields_updated_trans _ _ _ _ _ _ _ U1 U2) as U12. simpl in U12. clear U1 U2.
  apply wp_bind. eapply wp_mono; [apply wp_store_next; by rewrite (proj1 U12)|]. intros [] h3 U3.
  pose proof (fields_updated_trans _ _ _ _ _ _ _ U12 U3) as U. simpl in U. clear U12 U3.
  eapply wp_mono; [apply wp_store_prev; by rewrite (proj1 U)|]. intros [] h4 U4.
  exact (fields_updated_trans _ _ _ _ _ _ _ U U4).
Qed.

Lemma list_del_between_fields p n h :
  p ∈ dom h -> n ∈ dom h ->
  wp (list_del_between p n) (fun _ h' => fields_updated h h'
    (fun x y => if decide (x = p) then n else y)
    (fun x y => if decide (x = n) then p else y)) h.
Proof.
  intros Hp Hn. unfold list_del_between.
  apply wp_bind. eapply wp_mono; [by apply wp_store_next|]. intros [] h1 U1.
  eapply wp_mono; [apply wp_store_prev; by rewrite (proj1 U1)|]. intros [] h2 U2.
  exact (fields_updated_trans _ _ _ _ _ _ _ U1 U2).
Qed.

(** The neighbours of an entry: [hd] is followed by [l] and [hd] again. *)
Lemma chain_first h a l b : chain h a l b -> next_is h a (hd b l).
Proof. destruct l; simpl; tauto. Qed.
Lemma load_next h a b : next_is h a b -> exists e, load_entry a h = Ok e h /\ next e = b.
Proof. intros (e & He & <-). exists e. unfold load_entry, mbind, M_bind, mget; simpl. by rewrite He. Qed.
Lemma load_prev h b a : prev_is h b a -> exists e, load_entry b h = Ok e h /\ prev e = a.
Proof. intros (e & He & <-). exists e. unfold load_entry, mbind, M_bind, mget; simpl. by rewrite He. Qed.

(** A new entry between the neighbours [p] and [hd b l] of a chain. *)
Lemma chain_insert h h' elm p l b :
  fields_updated h h'
    (fun x y => if decide (x = elm) then hd b l else if decide (x = p) then elm else y)
    (fun x y => if decide (x = elm) then p else if decide (x = hd b l) then elm else y) ->
  elm ∈ dom h -> elm ∉ p :: l -> elm <> b -> NoDup (p :: l) -> NoDup (l ++ [b]) ->
  chain h p l b -> chain h' p (elm :: l) b.
Proof.
  intros (Hd & Hn & Hp) [e He]%elem_of_dom Hin Hb Hnd1 Hnd2 Hc.
  pose proof (Hn elm (next e) (ex_intro _ e (conj He eq_refl))) as Hn_elm.
  pose proof (Hp elm (prev e) (ex_intro _ e (conj He eq_refl))) as Hp_elm.
  pose proof (Hn p _ (chain_first _ _ _ _ Hc)) as Hn_p. apply not_elem_of_cons in Hin as [Hep Hel].
  rewrite decide_True in Hn_elm by done. rewrite decide_True in Hp_elm by done.
  rewrite decide_False, decide_True in Hn_p by done.
  split; [done|]. destruct l as [|c l]; simpl in *.
  - split; [done|]. destruct Hc as [_ Hpb]. specialize (Hp _ _ Hpb).
    by rewrite decide_False, decide_True in Hp by congruence.
  - destruct Hc as [[_ Hpc] Hc]. apply not_elem_of_cons in Hel as [Hec Hel]. split; [split; [done|]|].
    + specialize (Hp _ _ Hpc). by rewrite decide_False, decide_True in Hp by congruence.
    + apply NoDup_cons in Hnd1 as [Hpcl Hnd1], Hnd2 as [Hcl Hnd2].
      eapply chain_frame; [| |done].
      * intros x y Hx Hxy. specialize (Hn _ _ Hxy).
        by rewrite !decide_False in Hn by (intros ->; set_solver).
      * intros x y Hx Hxy. specialize (Hp _ _ Hxy).
        by rewrite !decide_False in Hp by (intros ->; set_solver).
Qed.

Lemma ring_insert_first h h' elm x c :
  fields_updated h h'
    (fun z y => if decide (z = elm) then hd x c else if decide (z = x) then elm else y)
    (fun z y => if decide (z = elm) then x else if decide (z = hd x c) then elm else y) ->
  elm ∈ dom h -> elm ∉ x :: c -> ring h (x :: c) -> ring h' (x :: elm :: c).
Proof.
  intros Hf He Hin [Hnd Hc]. split.
  - change (NoDup ([x] ++ [elm] ++ c)). rewrite (Permutation_app_comm [x]).
    simpl. rewrite Permutation_app_comm. simpl. apply NoDup_cons. split; [|done].
    set_solver.
  - eapply chain_insert; try done; [set_solver|].
    apply NoDup_cons in Hnd as [? ?]. apply NoDup_app. split_and!; [done| |apply NoDup_singleton].
    set_solver.
Qed.

(** [x] taken out from between [p] and [hd b l]. *)
Lemma chain_remove h h' p x l b :
  fields_updated h h'
    (fun z y => if decide (z = p) then hd b l else y)
    (fun z y => if decide (z = hd b l) then p else y) ->
  NoDup (p :: x :: l) -> NoDup (x :: l ++ [b]) ->
  chain h p (x :: l) b -> chain h' p l b.
Proof.
  intros (Hd & Hn & Hp) Hnd1 Hnd2 [[Hpx _] Hc].
  pose proof (Hn p _ Hpx) as Hn_p. rewrite decide_True in Hn_p by done.
  destruct l as [|c l]; simpl in *.
  - split; [done|]. destruct Hc as [_ Hb]. specialize (Hp _ _ Hb). by rewrite decide_True in Hp.
  - destruct Hc as [[_ Hpc] Hc]. specialize (Hp _ _ Hpc) as Hpc'. rewrite decide_True in Hpc' by done.
    split; [done|]. rewrite !NoDup_cons in Hnd1. rewrite !NoDup_cons in Hnd2.
    eapply chain_frame; [| |done].
    + intros z y Hz Hzy. specialize (Hn _ _ Hzy).
      by rewrite decide_False in Hn by (intros ->; set_solver).
    + intros z y Hz Hzy. specialize (Hp _ _ Hzy).
      by rewrite decide_False in Hp by (intros ->; set_solver).
Qed.

Lemma NoDup_snoc {A} (x : A) l : NoDup (l ++ [x]) <-> NoDup (x :: l).
Proof. by rewrite (Permutation_app_comm l [x]). Qed.

Lemma ring_remove_second h h' p x c :
  fields_updated h h'
    (fun z y => if decide (z = p) then hd p c else y)
    (fun z y => if decide (z = hd p c) then p else y) ->
  ring h (p :: x :: c) -> ring h' (p :: c).
Proof.
  intros Hf [Hnd Hc]. pose proof Hnd as Hnd'. rewrite !NoDup_cons in Hnd'.
  destruct Hnd' as (Hp & Hx & Hndc). split; [apply NoDup_cons; set_solver|].
  eapply (chain_remove h h' p x c p); [done|done| |done].
  change (NoDup ((x :: c) ++ [p])). by apply NoDup_snoc.
Qed.

Lemma ring_dom h c x : ring h c -> x ∈ c -> x ∈ dom h.
Proof.
  intros [_ Hc] Hx. destruct c as [|a l]; [done|]. apply chain_dom in Hc as (Ha & _ & Hl). set_solver.
Qed.

Lemma ring_neighbours h p x c : ring h (p :: x :: c) -> next_is h p x /\ prev_is h x p /\ next_is h x (hd p c).
Proof. intros [_ [[H1 H2] H3]]. split_and!; [done..|]. exact (chain_first _ _ _ _ H3). Qed.

Lemma ring_single_next h x c : ring h (x :: c) -> next_is h x (hd x c).
Proof. intros [_ H]. exact (chain_first _ _ _ _ H). Qed.

Ltac solve_unchanged U :=
  eapply (fields_unchanged _ _ _ _ _ U); intros z y Hz; simpl;
  rewrite !decide_False; [done|intros ->; set_solver..].

Section rings.
Context (h : heap) (elm : Z).

(** Insertion after the first entry of a ring, whatever its length. *)
Lemma list_add_after_first x c :
  ring h (x :: c) -> elm ∈ dom h -> elm ∉ x :: c ->
  wp (list_add_after x elm) (fun _ h' => ring h' (x :: elm :: c) /\
    unchanged_outside h h' (elm :: x :: c)) h.
Proof.
  intros Hr He Hin. pose proof (ring_single_next _ _ _ Hr) as Hnx.
  destruct (load_next _ _ _ Hnx) as (e & Hl & Hne).
  unfold list_add_after. unfold wp, mbind, M_bind. rewrite Hl, Hne.
  assert (Hhd : hd x c ∈ x :: c) by (destruct c; set_solver).
  assert (Hd : forall z, z ∈ x :: c -> z ∈ dom h) by (intros z; exact (ring_dom _ _ _ Hr)).
  pose proof (list_add_between_fields elm x (hd x c) h He
    (Hd x ltac:(set_solver)) (Hd _ Hhd)) as Hw.
  change (wp (list_add_between elm x (hd x c)) (fun _ h' => ring h' (x :: elm :: c) /\
    unchanged_outside h h' (elm :: x :: c)) h).
  eapply wp_mono; [exact Hw|]. intros [] h' U. split.
  - by eapply ring_insert_first.
  - solve_unchanged U.
Qed.

(** [list_add_before] the second entry is [list_add_after] the first. *)
Lemma list_add_before_second p x c :
  ring h (p :: x :: c) -> list_add_before x elm h = list_add_after p elm h.
Proof.
  intros (Hn & Hp & _)%ring_neighbours.
  destruct (load_next _ _ _ Hn) as (e & Hl & Hne), (load_prev _ _ _ Hp) as (e' & Hl' & Hne').
  unfold list_add_before, list_add_after, mbind, M_bind. by rewrite Hl, Hl', Hne, Hne'.
Qed.

Lemma list_add_before_single x : ring h [x] -> list_add_before x elm h = list_add_after x elm h.
Proof.
  intros [_ [Hn Hp]].
  destruct (load_next _ _ _ Hn) as (e & Hl & Hne), (load_prev _ _ _ Hp) as (e' & Hl' & Hne').
  unfold list_add_before, list_add_after, mbind, M_bind. rewrite Hl in Hl' |- *.
  injection Hl' as <-. by rewrite Hne, Hne'.
Qed.

Lemma list_del_second p x c :
  ring h (p :: x :: c) ->
  wp (list_del x) (fun _ h' => ring h' (p :: c) /\ unchanged_outside h h' (p :: c)) h.
Proof.
  intros Hr. pose proof Hr as (Hn & Hp & Hn2)%ring_neighbours.
  destruct (load_next _ _ _ Hn2) as (e & Hl & Hne), (load_prev _ _ _ Hp) as (e' & Hl' & Hne').
  rewrite Hl in Hl'. injection Hl' as <-.
  assert (Hhd : hd p c ∈ p :: c) by (destruct c; set_solver).
  assert (Hd : forall z, z ∈ p :: x :: c -> z ∈ dom h) by (intros z; exact (ring_dom _ _ _ Hr)).
  pose proof (list_del_between_fields p (hd p c) h
    (Hd p ltac:(set_solver)) (Hd (hd p c) ltac:(set_solver))) as Hw.
  unfold list_del. unfold wp at 1, mbind, M_bind. rewrite Hl, Hne, Hne'.
  change (wp (list_del_between p (hd p c)) (fun _ h' => ring h' (p :: c) /\
    unchanged_outside h h' (p :: c)) h).
  eapply wp_mono; [exact Hw|]. intros [] h' U. split; [by eapply ring_remove_second|].
  solve_unchanged U.
Qed.
End rings.

(** ** Correctness *)

Lemma ring_nonempty_second h c1 x c2 :
  c1 ++ c2 <> [] -> ring h (c1 ++ x :: c2) ->
  exists p c, ring h (p :: x :: c) /\ (x ∉ p :: c) /\
    (forall h', ring h' (p :: c) -> ring h' (c1 ++ c2)) /\
    (forall elm h', ring h' (p :: elm :: x :: c) -> ring h' (c1 ++ elm :: x :: c2)) /\
    (forall z, (z ∈ p :: c) <-> z ∈ (c1 ++ c2)).
Proof.
  intros Hne Hr. apply ring_focus in Hr.
  assert (c2 ++ c1 <> []) as Hne' by (intros E%app_eq_nil; destruct E as [-> ->]; done).
  destruct (exists_last Hne') as (c & p & E). exists p, c. rewrite E in Hr.
  pose proof (ring_rotate h (x :: c) [p]) as Hrot. simpl in Hrot. specialize (Hrot Hr).
  split_and!; [done| | | |].
  - destruct Hrot as [Hnd _]. rewrite !NoDup_cons in Hnd. set_solver.
  - intros h' H. apply (ring_rotate h' c2 c1). rewrite E. by apply (ring_rotate h' [p] c).
  - intros elm h' H. apply (ring_unfocus h' c1 elm (x :: c2)). simpl. rewrite E.
    by apply (ring_rotate h' [p] (elm :: x :: c)).
  - intros z. transitivity (z ∈ (c2 ++ c1)); [|by rewrite !elem_of_app; tauto].
    rewrite E. set_solver.
Qed.

Section list_specs.
Context (h : heap) (c1 : list Z) (x : Z) (c2 : list Z) (Hr : ring h (c1 ++ x :: c2)).

Lemma list_insert_eq elm :
  elm ∈ dom h -> elm ∉ c1 ++ x :: c2 ->
  wp (list_add x elm) (fun _ h' => ring h' (c1 ++ x :: elm :: c2) /\
    unchanged_outside h h' (elm :: c1 ++ x :: c2)) h /\
  wp (list_add_before x elm) (fun _ h' => ring h' (c1 ++ elm :: x :: c2) /\
    unchanged_outside h h' (elm :: c1 ++ x :: c2)) h.
Proof using Hr.
  intros He Hin. split.
  - eapply wp_mono; [apply (list_add_after_first h elm x (c2 ++ c1)); [by apply ring_focus|done|set_solver]|].
    intros [] h' [H1 H2]. split; [by apply (ring_unfocus h' c1 x (elm :: c2))|].
    intros z Hz. apply H2. set_solver.
  - destruct (decide (c1 ++ c2 = [])) as [[-> ->]%app_eq_nil|Hne].
    + unfold wp. rewrite (list_add_before_single h elm x) by done.
      eapply wp_mono; [by apply (list_add_after_first h elm x [])|].
      intros [] h' [H1 H2]. split; [by apply (ring_rotate h' [x] [elm])|exact H2].
    + destruct (ring_nonempty_second _ _ _ _ Hne Hr) as (p & c & Hp & Hx & _ & Hback & Hel).
      unfold wp. rewrite (list_add_before_second h elm p x c) by done.
      eapply wp_mono; [apply (list_add_after_first h elm p (x :: c)); [done|done|set_solver]|].
      intros [] h' [H1 H2]. split; [by apply Hback|]. intros z Hz. apply H2. set_solver.
Qed.

(** [list_del] leaves the deleted entry its old links. *)
Lemma list_del_eq :
  c1 ++ c2 <> [] ->
  wp (list_del x) (fun _ h' => ring h' (c1 ++ c2) /\
    unchanged_outside h h' (c1 ++ c2)) h /\
  wp (list_del_init x) (fun _ h' => ring h' (c1 ++ c2) /\ ring h' [x] /\
    unchanged_outside h h' (c1 ++ x :: c2)) h.
Proof using Hr.
  intros Hne. destruct (ring_nonempty_second _ _ _ _ Hne Hr) as (p & c & Hp & Hx & Hback & _ & Hel).
  assert (Hd : x ∈ dom h) by (apply (ring_dom _ _ _ Hr); set_solver).
  pose proof (list_del_second h p x c Hp) as Hdel. split.
  - eapply wp_mono; [exact Hdel|]. intros [] h' [H1 H2].
    split; [by apply Hback|]. intros z Hz. apply H2. by rewrite Hel.
  - unfold list_del_init. apply wp_bind. eapply wp_mono; [exact Hdel|]. intros [] h1 [H1 H2].
    assert (Hd1 : x ∈ dom h1) by (apply elem_of_dom; rewrite H2 by done; by apply elem_of_dom).
    unfold list_init. apply wp_bind. eapply wp_mono; [by apply wp_store_next|]. intros [] h2 U1.
    eapply wp_mono; [apply wp_store_prev; by rewrite (proj1 U1)|]. intros [] h3 U2.
    pose proof (fields_updated_trans _ _ _ _ _ _ _ U1 U2) as U. clear U1 U2.
    assert (Hout : unchanged_outside h1 h3 [x]) by solve_unchanged U.
    destruct U as (_ & Hn & Hpr). apply elem_of_dom in Hd1 as [e He].
    split_and!.
    + apply Hback. destruct H1 as [Hnd H1]. split; [done|].
      eapply chain_frame; [| |done]; intros z y Hz Hzy.
      * specialize (Hn z y Hzy). simpl in Hn. by rewrite decide_False in Hn by (intros ->; set_solver).
      * specialize (Hpr z y Hzy). simpl in Hpr.
        by rewrite decide_False in Hpr by (intros ->; set_solver).
    + specialize (Hn x (next e) ltac:(by exists e)). specialize (Hpr x (prev e) ltac:(by exists e)).
      simpl in *. rewrite decide_True in Hn by done. rewrite decide_True in Hpr by done.
      split; [apply NoDup_singleton|done].
    + intros z Hz. rewrite Hout, H2; [done| |set_solver]. rewrite Hel. set_solver.
Qed.

(** C37: inserting an entry that is not in the list after or before an entry
    [x] of the list, wherever [x] stands in it and even when it is the only
    one, gives the list with the new entry at that place, linked both ways;
    deleting an entry of a list of at least two leaves the rest of the list,
    in order, and [list_del_init] also makes the deleted entry an empty list;
    no entry outside the list is touched. *)
Theorem list_edit_spec :
  (forall elm, elm ∈ dom h -> elm ∉ c1 ++ x :: c2 ->
    wp (list_add x elm) (fun _ h' => ring h' (c1 ++ x :: elm :: c2) /\
      unchanged_outside h h' (elm :: c1 ++ x :: c2)) h /\
    wp (list_add_before x elm) (fun _ h' => ring h' (c1 ++ elm :: x :: c2) /\
      unchanged_outside h h' (elm :: c1 ++ x :: c2)) h) /\
  (c1 ++ c2 <> [] ->
    wp (list_del x) (fun _ h' => ring h' (c1 ++ c2) /\ unchanged_outside h h' (c1 ++ c2)) h /\
    wp (list_del_init x) (fun _ h' => ring h' (c1 ++ c2) /\ ring h' [x] /\
      unchanged_outside h h' (c1 ++ x :: c2)) h).
Proof using Hr. split; [exact list_insert_eq|exact list_del_eq]. Qed.
End list_specs.

(** What the accessors say of a list: whether it has entries besides [hd],
    and the neighbours of adjacent entries. *)
Lemma list_empty_spec h hd l : ring h (hd :: l) -> list_empty hd h = Ok (bool_decide (l = [])) h.
Proof.
  intros [Hnd Hc]. apply NoDup_cons in Hnd as [Hin _].
  destruct (load_next _ _ _ (chain_first _ _ _ _ Hc)) as (e & Hl & Hne).
  unfold list_empty, mbind, M_bind. rewrite Hl. simpl. rewrite Hne.
  destruct l as [|b l]; simpl; [by rewrite Z.eqb_refl|].
  destruct (Z.eqb_spec b hd) as [->|]; [set_solver|done].
Qed.

Lemma list_next_prev_spec h a b l :
  ring h (a :: b :: l) -> list_next a h = Ok b h /\ list_prev b h = Ok a h.
Proof.
  intros [_ [[(e & He & <-) (e' & He' & <-)] _]]. unfold list_next, list_prev, load_entry, mbind, M_bind, mget.
  by rewrite He, He'.
Qed.

(** *** A list of three entries *)

Definition sample_heap : heap :=
  {[ 10 := Entry 30 20; 20 := Entry 10 30; 30 := Entry 20 10; 40 := Entry 0 0 ]}.

Lemma sample_ring : ring sample_heap ([10] ++ 20 :: [30]).
Proof. split; [vm_compute; repeat constructor; set_solver|]. by repeat eexists. Qed.

Lemma list_edit_spec_witness :
  wp (list_add 20 40) (fun _ h' => ring h' [10; 20; 40; 30]) sample_heap /\
  wp (list_del_init 20) (fun _ h' => ring h' [10; 30] /\ ring h' [20]) sample_heap.
Proof.
  destruct (list_edit_spec sample_heap [10] 20 [30] sample_ring) as [Hinsert Hdel]. split.
  - eapply wp_mono; [exact (proj1 (Hinsert 40 ltac:(by apply elem_of_dom; eexists) ltac:(set_solver)))|].
    intros [] h' [H _]. exact H.
  - eapply wp_mono; [exact (proj2 (Hdel ltac:(done)))|].
    intros [] h' (H1 & H2 & _). split; [exact H1|exact H2].
Defined.
