(* ===== verification/CString.v ===== *)
(** * Strings and memory blocks

    libs/string.c over a byte-addressed memory.  A [char] is a byte (unsigned on
    RISC-V), a pointer is its address.  Reading or writing an address that is
    not in the memory is undefined.  A loop that looks for the end of a string
    moves its pointer up by one in every round, so it is cut off after one
    round more than the memory has bytes: by then it has left the memory. *)

From S2P Require Import Prelude Defs.

#[local] Set Warnings "-clear-no-such-hyp".

Abbreviation mem := (gmap Z Z).

Definition load8 (a : Z) : M mem Z := m ← mget; mlift (m !! a).
Definition store8 (a v : Z) : M mem unit :=
  _ ← load8 a; mmodify <[a := u8 v]>.
(** A 64-bit store, little endian. *)
Definition store64 (a v : Z) : M mem unit :=
  store8 a v;; store8 (a + 1) (Z.shiftr v 8);;
  store8 (a + 2) (Z.shiftr v 16);; store8 (a + 3) (Z.shiftr v 24);;
  store8 (a + 4) (Z.shiftr v 32);; store8 (a + 5) (Z.shiftr v 40);;
  store8 (a + 6) (Z.shiftr v 48);; store8 (a + 7) (Z.shiftr v 56).

Definition scan {A R} (body : A -> M mem (step A R)) (a : A) : M mem R :=
  m ← mget; while_loop (S (size m)) body a.
(** [while (n -- > 0)] and the like: [n] rounds. *)
Definition count_down {A R} (n : Z) (body : A -> M mem (step A R)) (a : A) : M mem (step A R) :=
  for_loop (Z.to_nat n) 0 (fun _ => body) a.

Definition NULL : Z := 0.

(** The characters of a string literal. *)
Definition text (s : string) : list Z := map (fun c => Z.of_nat (Ascii.nat_of_ascii c)) (String.list_ascii_of_string s).

(** ** The functions *)

Definition strlen (s : Z) : M mem Z :=
  scan (fun '(s, cnt) =>
    c ← load8 s;
    if negb (c =? 0) then mret (Next (s + 1, u64 (cnt + 1))) else mret (Stop cnt)) (s, 0).

Definition strnlen (s len : Z) : M mem Z :=
  scan (fun '(s, cnt) =>
    if cnt <? len then
      c ← load8 s;
      if negb (c =? 0) then mret (Next (s + 1, u64 (cnt + 1))) else mret (Stop cnt)
    else mret (Stop cnt)) (s, 0).

Definition strcpy (dst src : Z) : M mem Z :=
  _ ← scan (fun '(p, src) =>
    c ← load8 src;
    store8 p c;;
    if negb (c =? 0) then mret (Next (p + 1, src + 1)) else mret (Stop ())) (dst, src);
  mret dst.

Definition strncpy (dst src len : Z) : M mem Z :=
  _ ← count_down (R := Empty_set) len (fun '(p, src) =>
    c ← load8 src;
    store8 p c;;
    mret (Next (p + 1, if negb (c =? 0) then src + 1 else src))) (dst, src);
  mret dst.

Definition strcmp (s1 s2 : Z) : M mem Z :=
  scan (fun '(s1, s2) =>
    c1 ← load8 s1;
    if c1 =? 0 then c2 ← load8 s2; mret (Stop (c1 - c2)) else
    c2 ← load8 s2;
    if c1 =? c2 then mret (Next (s1 + 1, s2 + 1)) else mret (Stop (c1 - c2))) (s1, s2).

Definition strncmp (s1 s2 n : Z) : M mem Z :=
  scan (fun '(s1, s2, n) =>
    if negb (0 <? n) then mret (Stop 0) else
    c1 ← load8 s1;
    if c1 =? 0 then c2 ← load8 s2; mret (Stop (c1 - c2)) else
    c2 ← load8 s2;
    if c1 =? c2 then mret (Next (s1 + 1, s2 + 1, n - 1)) else mret (Stop (c1 - c2))) (s1, s2, n).

Definition strchr (s c : Z) : M mem Z :=
  scan (fun s =>
    x ← load8 s;
    if x =? 0 then mret (Stop NULL) else
    if x =? c then mret (Stop s) else mret (Next (s + 1))) s.

Definition strfind (s c : Z) : M mem Z :=
  scan (fun s =>
    x ← load8 s;
    if x =? 0 then mret (Stop s) else
    if x =? c then mret (Stop s) else mret (Next (s + 1))) s.

(** The digit a character stands for, whatever the base. *)
Definition digit (c : Z) : option Z :=
  if (48 <=? c) && (c <=? 57) then Some (c - 48)
  else if (97 <=? c) && (c <=? 122) then Some (c - 97 + 10)
  else if (65 <=? c) && (c <=? 90) then Some (c - 65 + 10)
  else None.

(** Signed arithmetic on [long] is undefined out of range. *)
Definition long (z : Z) : option Z := if bool_decide (in_s64 z) then Some z else None.

Definition strtol_blanks (s : Z) : M mem Z :=
  scan (fun s => c ← load8 s; mret (if (c =? 32) || (c =? 9) then Next (s + 1) else Stop s)) s.

Definition strtol_sign (s : Z) : M mem (Z * bool) :=
  c ← load8 s;
  mret (if c =? 43 then (s + 1, false) else if c =? 45 then (s + 1, true) else (s, false)).

(** [(base == 0 || base == 16) && (s[0] == '0' && s[1] == 'x')]. *)
Definition strtol_hex (s base : Z) : M mem bool :=
  if (base =? 0) || (base =? 16) then
    c0 ← load8 s;
    if c0 =? 48 then c1 ← load8 (s + 1); mret (c1 =? 120) else mret false
  else mret false.

Definition strtol_prefix (s base : Z) : M mem (Z * Z) :=
  hex ← strtol_hex s base;
  if hex : bool then mret (s + 2, 16) else
  if base =? 0 then
    c ← load8 s;
    mret (if c =? 48 then (s + 1, 8) else (s, 10))
  else mret (s, base).

Definition strtol_digits (s base : Z) : M mem (Z * Z) :=
  scan (fun '(s, val) =>
    c ← load8 s;
    match digit c with
    | None => mret (Stop (s, val))
    | Some dig =>
        if base <=? dig then mret (Stop (s, val)) else
        v ← mlift (long (val * base));
        v ← mlift (long (v + dig));
        mret (Next (s + 1, v))
    end) (s, 0).

Definition strtol (s endptr base : Z) : M mem Z :=
  s ← strtol_blanks s;
  '(s, neg) ← strtol_sign s;
  '(s, base) ← strtol_prefix s base;
  '(s, val) ← strtol_digits s base;
  _ ← (if truthy endptr then store64 endptr s else mret ());
  if neg : bool then mlift (long (- val)) else mret val.

Definition memset (s c n : Z) : M mem Z :=
  _ ← count_down (R := Empty_set) n (fun p => store8 p c;; mret (Next (p + 1))) s;
  mret s.

(** [*d ++ = *s ++], [n] times. *)
Definition copy_up (d s n : Z) : M mem (step (Z * Z) Empty_set) :=
  count_down n (fun '(d, s) => c ← load8 s; store8 d c;; mret (Next (d + 1, s + 1))) (d, s).
(** [*-- d = *-- s], [n] times. *)
Definition copy_down (d s n : Z) : M mem (step (Z * Z) Empty_set) :=
  count_down n (fun '(d, s) =>
    c ← load8 (s - 1); store8 (d - 1) c;; mret (Next (d - 1, s - 1))) (d, s).

Definition memmove (dst src n : Z) : M mem Z :=
  _ ← (if (src <? dst) && (dst <? src + n)
       then copy_down (dst + n) (src + n) n
       else copy_up dst src n);
  mret dst.

Definition memcpy (dst src n : Z) : M mem Z :=
  _ ← copy_up dst src n; mret dst.

Definition memcmp (v1 v2 n : Z) : M mem Z :=
  r ← count_down n (fun '(s1, s2) =>
    c1 ← load8 s1;
    c2 ← load8 s2;
    mret (if negb (c1 =? c2) then Stop (c1 - c2) else Next (s1 + 1, s2 + 1))) (v1, v2);
  mret (match r with Stop d => d | Next _ => 0 end).

(** ** Bytes in memory *)

(** The bytes [l] are stored from address [a] on. *)
Definition bytes_at (m : mem) (a : Z) (l : list Z) : Prop :=
  forall i b, l !! i = Some b -> m !! (a + Z.of_nat i) = Some b.
Definition nonzero (l : list Z) : Prop := Forall (fun b => b <> 0) l.
Definition bytes (l : list Z) : Prop := Forall in_u8 l.
(** The string at [a] is [l], followed by its null character. *)
Definition cstring (m : mem) (a : Z) (l : list Z) : Prop := bytes_at m a (l ++ [0]) /\ nonzero l.

(** [n] addresses from [a] on may be written. *)
Definition writable (m : mem) (a n : Z) : Prop := forall x, a <= x < a + n -> is_Some (m !! x).

(** The memory with [l] written from [a] on. *)
Fixpoint write_bytes (a : Z) (l : list Z) (m : mem) : mem :=
  match l with
  | [] => m
  | b :: l' => <[a := b]> (write_bytes (a + 1) l' m)
  end.

(** [n] bytes at [a] and [n'] bytes at [a'] do not overlap. *)
Definition disjoint_blocks (a n a' n' : Z) : Prop := a + n <= a' \/ a' + n' <= a.

Lemma bytes_at_app m a l l' :
  bytes_at m a (l ++ l') <-> bytes_at m a l /\ bytes_at m (a + Z.of_nat (length l)) l'.
Proof.
  unfold bytes_at. split.
  - intros H. split; intros i b Hi.
    + apply H. by apply lookup_app_l_Some.
    + rewrite <- Z.add_assoc, <- Nat2Z.inj_add. apply H.
      rewrite lookup_app_r by lia. by replace (length l + i - length l)%nat with i by lia.
  - intros [H1 H2] i b [Hi|[Hge Hi]]%lookup_app_Some; [by apply H1|].
    specialize (H2 _ _ Hi). by replace (a + Z.of_nat i) with
      (a + Z.of_nat (length l) + Z.of_nat (i - length l)) by lia.
Qed.

Lemma bytes_at_lookup m a l (i : nat) :
  bytes_at m a l -> (i < length l)%nat -> m !! (a + Z.of_nat i) = Some (l !!! i).
Proof. intros H Hi. apply H. by apply list_lookup_lookup_total_lt. Qed.

(** Distinct addresses: a block has at most as many bytes as the memory. *)
Lemma bytes_at_size m a l : bytes_at m a l -> (length l <= size m)%nat.
Proof.
  intros H. rewrite <- size_dom.
  assert (Hsub : list_to_set (seqZ a (Z.of_nat (length l))) ⊆ dom m).
  { intros x Hx. apply elem_of_list_to_set, elem_of_seqZ in Hx.
    apply elem_of_dom. exists (l !!! Z.to_nat (x - a)).
    replace x with (a + Z.of_nat (Z.to_nat (x - a))) at 1 by lia.
    apply bytes_at_lookup; [done|lia]. }
  apply subseteq_size in Hsub. rewrite size_list_to_set in Hsub by apply NoDup_seqZ.
  rewrite length_seqZ in Hsub. lia.
Qed.

Lemma load8_at m a c : m !! a = Some c -> load8 a m = Ok c m.
Proof. intros H. unfold load8, mbind, M_bind, mget; simpl. by rewrite H. Qed.

Lemma store8_at m a v : is_Some (m !! a) -> store8 a v m = Ok () (<[a := u8 v]> m).
Proof. intros [c H]. unfold store8, mbind, M_bind. by rewrite (load8_at _ _ _ H). Qed.

Lemma u8_small b : in_u8 b -> u8 b = b.
Proof. intros. by apply Z.mod_small. Qed.

Lemma write_bytes_lookup a l m x :
  write_bytes a l m !! x
  = if decide (a <= x < a + Z.of_nat (length l)) then l !! Z.to_nat (x - a) else m !! x.
Proof.
  revert a. induction l as [|b l IH]; intros a; simpl.
  - by rewrite decide_False by lia.
  - destruct (decide (x = a)) as [->|Hne].
    + rewrite lookup_insert_eq, decide_True by lia. by replace (Z.to_nat (a - a)) with 0%nat by lia.
    + rewrite lookup_insert_ne, IH by done. destruct (decide (a <= x < a + Z.of_nat (S (length l)))).
      * rewrite decide_True by lia. by replace (Z.to_nat (x - a)) with (S (Z.to_nat (x - (a + 1)))) by lia.
      * by rewrite decide_False by lia.
Qed.

Lemma write_bytes_at a l m : bytes_at (write_bytes a l m) a l.
Proof.
  intros i b Hi. rewrite write_bytes_lookup. apply lookup_lt_Some in Hi as Hlt.
  rewrite decide_True by lia. by replace (Z.to_nat (a + Z.of_nat i - a)) with i by lia.
Qed.

Lemma write_bytes_insert a l x v m :
  x < a -> write_bytes a l (<[x := v]> m) = <[x := v]> (write_bytes a l m).
Proof.
  revert a. induction l as [|b l IH]; intros a Hx; simpl; [done|].
  rewrite IH by lia. by rewrite insert_insert_ne by lia.
Qed.

(** Writing the next byte of a block from the left or from the right. *)
Lemma write_bytes_snoc a l b m :
  write_bytes a (l ++ [b]) m = <[a + Z.of_nat (length l) := b]> (write_bytes a l m).
Proof.
  apply map_eq. intros x. rewrite write_bytes_lookup, length_app. simpl.
  destruct (decide (x = a + Z.of_nat (length l))) as [->|Hne].
  - rewrite lookup_insert_eq, decide_True by lia.
    rewrite lookup_app_r by lia.
    by replace (Z.to_nat (a + Z.of_nat (length l) - a) - length l)%nat with 0%nat by lia.
  - rewrite lookup_insert_ne, write_bytes_lookup by done.
    destruct (decide (a <= x < a + Z.of_nat (length l))).
    + rewrite decide_True by lia. apply lookup_app_l. lia.
    + by rewrite decide_False by lia.
Qed.

Lemma write_bytes_take_S a l i m :
  (i < length l)%nat ->
  write_bytes a (take (S i) l) m = <[a + Z.of_nat i := l !!! i]> (write_bytes a (take i l) m).
Proof.
  intros Hi. rewrite (take_S_r l i (l !!! i)) by by apply list_lookup_lookup_total_lt.
  rewrite write_bytes_snoc, length_take. by rewrite Nat.min_l by lia.
Qed.

Lemma writable_write m a n b l : writable m a n -> writable (write_bytes b l m) a n.
Proof.
  intros H x Hx. rewrite write_bytes_lookup. case_decide; [|by apply H].
  apply lookup_lt_is_Some_2. lia.
Qed.

(** ** The loops *)

(** A loop that passes through the states [(f 0, g 0)], [(f 1, g 1)], ... *)
Lemma while_loop_seq {S A R} (body : A -> M S (step A R)) (f : nat -> A) (g : nat -> S) n r fuel :
  (n < fuel)%nat ->
  (forall i, (i < n)%nat -> body (f i) (g i) = Ok (Next (f (Datatypes.S i))) (g (Datatypes.S i))) ->
  forall s', body (f n) (g n) = Ok (Stop r) s' ->
  while_loop fuel body (f 0%nat) (g 0%nat) = Ok r s'.
Proof.
  intros Hfuel Hstep s' Hstop. enough (forall j i, (i + j = n)%nat -> forall fuel, (j < fuel)%nat ->
    while_loop fuel body (f i) (g i) = Ok r s') as H by (apply (H n 0%nat); lia).
  clear fuel Hfuel. induction j as [|j IH]; intros i Hij [|fuel] Hf; try lia; simpl.
  - replace i with n by lia. unfold mbind, M_bind. by rewrite Hstop.
  - unfold mbind, M_bind. rewrite Hstep by lia. apply IH; lia.
Qed.

Lemma scan_seq {A R} (body : A -> M mem (step A R)) (f : nat -> A) (g : nat -> mem) n r :
  (n <= size (g 0%nat))%nat ->
  (forall i, (i < n)%nat -> body (f i) (g i) = Ok (Next (f (S i))) (g (S i))) ->
  forall m', body (f n) (g n) = Ok (Stop r) m' ->
  scan body (f 0%nat) (g 0%nat) = Ok r m'.
Proof.
  intros Hsz Hstep m' Hstop. unfold scan, mbind, M_bind, mget; simpl.
  apply (while_loop_seq body f g n r (S (size (g 0%nat)))); [lia|done|done].
Qed.

Lemma scan_read {A R} (body : A -> M mem (step A R)) (f : nat -> A) n r m :
  (n <= size m)%nat ->
  (forall i, (i < n)%nat -> body (f i) m = Ok (Next (f (S i))) m) ->
  body (f n) m = Ok (Stop r) m ->
  scan body (f 0%nat) m = Ok r m.
Proof. intros Hsz Hstep Hstop. by apply (scan_seq body f (fun _ => m) n). Qed.

Lemma for_loop_seq {S A R} (body : Z -> A -> M S (step A R)) (f : nat -> A) (g : nat -> S) n p :
  (forall i, (i < n)%nat ->
     body (p + Z.of_nat i) (f i) (g i) = Ok (Next (f (Datatypes.S i))) (g (Datatypes.S i))) ->
  for_loop n p body (f 0%nat) (g 0%nat) = Ok (Next (f n)) (g n).
Proof.
  revert p f g. induction n as [|n IH]; intros p f g Hstep; [done|]. simpl. unfold mbind, M_bind.
  pose proof (Hstep 0%nat ltac:(lia)) as H0. rewrite Z.add_0_r in H0. rewrite H0.
  apply (IH (p + 1) (fun i => f (Datatypes.S i)) (fun i => g (Datatypes.S i))).
  intros i Hi. rewrite <- Hstep by lia. f_equal. lia.
Qed.

Lemma count_down_seq {A R} (body : A -> M mem (step A R)) (f : nat -> A) (g : nat -> mem) n :
  (forall i, (i < n)%nat -> body (f i) (g i) = Ok (Next (f (S i))) (g (S i))) ->
  count_down (Z.of_nat n) body (f 0%nat) (g 0%nat) = Ok (Next (f n)) (g n).
Proof. intros H. unfold count_down. rewrite Nat2Z.id. by apply for_loop_seq. Qed.

(** A [count_down] that stops after [n] rounds. *)
Lemma for_loop_stop {S A R} (body : Z -> A -> M S (step A R)) (f : nat -> A) (g : nat -> S) n k p r s' :
  (n < k)%nat ->
  (forall i, (i < n)%nat ->
     body (p + Z.of_nat i) (f i) (g i) = Ok (Next (f (Datatypes.S i))) (g (Datatypes.S i))) ->
  body (p + Z.of_nat n) (f n) (g n) = Ok (Stop r) s' ->
  for_loop k p body (f 0%nat) (g 0%nat) = Ok (Stop r) s'.
Proof.
  revert p f g k. induction n as [|n IH]; intros p f g [|k] Hk Hstep Hstop; try lia;
    simpl; unfold mbind, M_bind.
  - rewrite Z.add_0_r in Hstop. by rewrite Hstop.
  - pose proof (Hstep 0%nat ltac:(lia)) as H0. rewrite Z.add_0_r in H0. rewrite H0.
    apply (IH (p + 1) (fun i => f (Datatypes.S i)) (fun i => g (Datatypes.S i))); [lia| |].
    + intros i Hi. rewrite <- Hstep by lia. f_equal. lia.
    + rewrite <- Hstop. f_equal. lia.
Qed.

(** ** Lengths and searches *)

Lemma cstring_load m a l (i : nat) :
  cstring m a l -> (i <= length l)%nat ->
  exists c, m !! (a + Z.of_nat i) = Some c /\ (c = 0 <-> i = length l) /\
            ((i < length l)%nat -> c = l !!! i).
Proof.
  intros [Hb Hnz] Hi. destruct (decide (i = length l)) as [->|Hne].
  - exists 0. split_and!; [|done|lia]. apply Hb. by rewrite lookup_app_r, Nat.sub_diag.
  - assert (Hlt : (i < length l)%nat) by lia.
    pose proof (list_lookup_lookup_total_lt l i Hlt) as Hl.
    exists (l !!! i). split_and!; [apply Hb; by apply lookup_app_l_Some| |done].
    split; [|lia]. intros E. by destruct (proj1 (Forall_lookup _ _) Hnz i _ Hl).
Qed.

Lemma cstring_nul m a l : cstring m a l -> m !! (a + Z.of_nat (length l)) = Some 0.
Proof. intros [Hb _]. apply Hb. by rewrite lookup_app_r, Nat.sub_diag. Qed.

Lemma cstring_char m a l (i : nat) :
  cstring m a l -> (i < length l)%nat ->
  m !! (a + Z.of_nat i) = Some (l !!! i) /\ l !!! i <> 0.
Proof.
  intros H Hi. destruct (cstring_load m a l i H ltac:(lia)) as (c & Hc & Hz & He).
  rewrite <- He by done. split; [done|]. rewrite Hz. lia.
Qed.

Lemma cstring_size m a l : cstring m a l -> (length l < size m)%nat.
Proof. intros [Hb _]. apply bytes_at_size in Hb. rewrite length_app in Hb. simpl in Hb. lia. Qed.

Lemma cstring_length_u64 m a l : cstring m a l -> Z.of_nat (size m) <= 2 ^ 64 -> Z.of_nat (length l) < 2 ^ 64.
Proof. intros H%cstring_size. lia. Qed.

(** Rewrites the next load of a goal about [m]. *)
Ltac load_step H := unfold mbind, M_bind; rewrite (load8_at _ _ _ H).

Lemma neq0_eqb c : c <> 0 -> (c =? 0) = false.
Proof. apply Z.eqb_neq. Qed.

Ltac load_any := unfold mbind, M_bind;
  match goal with
  | H : ?m !! ?a = Some _ |- context [load8 ?a ?m] => rewrite (load8_at _ _ _ H)
  end; simpl; rewrite ?neq0_eqb by done; simpl.

Section searches.
Context (m : mem) (s : Z) (l : list Z).
Context (Hs : cstring m s l) (Hm : Z.of_nat (size m) <= 2 ^ 64).

Lemma strlen_eq : strlen s m = Ok (Z.of_nat (length l)) m.
Proof using Hs Hm.
  pose proof (cstring_size _ _ _ Hs).
  pose proof (scan_read (fun '(s, cnt) =>
    c ← load8 s;
    if negb (c =? 0) then mret (Next (s + 1, u64 (cnt + 1))) else mret (Stop cnt))
    (fun i => (s + Z.of_nat i, Z.of_nat i)) (length l) (Z.of_nat (length l)) m) as E.
  cbv beta in E. change (Z.of_nat 0) with 0 in E. rewrite Z.add_0_r in E. apply E; [lia| |].
  - intros i Hi. destruct (cstring_char _ _ _ _ Hs Hi) as [Hl Hn].
    load_step Hl. rewrite neq0_eqb by done. simpl.
    rewrite u64_small by (unfold in_u64; lia). do 3 f_equal; lia.
  - load_step (cstring_nul _ _ _ Hs). done.
Qed.

Lemma strnlen_eq len : 0 <= len -> strnlen s len m = Ok (Z.min len (Z.of_nat (length l))) m.
Proof using Hs Hm.
  intros Hlen. pose proof (cstring_size _ _ _ Hs).
  set (n := Nat.min (Z.to_nat len) (length l)).
  pose proof (scan_read (fun '(s, cnt) =>
    if cnt <? len then
      c ← load8 s;
      if negb (c =? 0) then mret (Next (s + 1, u64 (cnt + 1))) else mret (Stop cnt)
    else mret (Stop cnt))
    (fun i => (s + Z.of_nat i, Z.of_nat i)) n (Z.min len (Z.of_nat (length l))) m) as E.
  cbv beta in E. change (Z.of_nat 0) with 0 in E. rewrite Z.add_0_r in E. apply E; [lia| |].
  - intros i Hi. destruct (cstring_char _ _ _ i Hs ltac:(lia)) as [Hl Hn].
    destruct (Z.ltb_spec (Z.of_nat i) len); [|lia].
    load_step Hl. rewrite neq0_eqb by done. simpl.
    rewrite u64_small by (unfold in_u64; lia). do 3 f_equal; lia.
  - destruct (Z.ltb_spec (Z.of_nat n) len).
    + replace n with (length l) by lia. load_step (cstring_nul _ _ _ Hs). simpl. do 2 f_equal. lia.
    + unfold mret, M_ret. do 2 f_equal. lia.
Qed.

(** Where [c] occurs first in [l], if it does. *)
Definition index_of (c : Z) (l : list Z) : option nat := fst <$> list_find (fun x => x = c) l.

Lemma index_of_Some c i : index_of c l = Some i -> l !! i = Some c /\ forall j, (j < i)%nat -> l !! j <> Some c.
Proof using Type.
  unfold index_of. destruct (list_find _ l) as [[k x]|] eqn:E; simpl; [|done].
  intros [= ->]. apply list_find_Some in E as (Hl & -> & Hmin). split; [done|].
  intros j Hj Hc. by apply (Hmin j c).
Qed.
Lemma index_of_None c : index_of c l = None -> forall j, l !! j <> Some c.
Proof using Type.
  unfold index_of. destruct (list_find _ l) eqn:E; simpl; [done|]. intros _ j Hj.
  apply list_find_None in E. by apply (proj1 (Forall_lookup _ _) E j c Hj).
Qed.

(** The search loop that [strchr] and [strfind] share. *)
Lemma search_eq (stop : Z -> Z) c :
  scan (fun s =>
    x ← load8 s;
    if x =? 0 then mret (Stop (stop s)) else
    if x =? c then mret (Stop s) else mret (Next (s + 1))) s m
  = Ok (match index_of c l with
        | Some i => s + Z.of_nat i
        | None => stop (s + Z.of_nat (length l)) end) m.
Proof using Hs.
  pose proof (cstring_size _ _ _ Hs).
  set (n := match index_of c l with Some i => i | None => length l end).
  assert (Hn : (n <= length l)%nat /\ forall i, (i < n)%nat -> l !!! i <> c).
  { unfold n. destruct (index_of c l) as [i|] eqn:E.
    - apply index_of_Some in E as [Hi Hmin]. apply lookup_lt_Some in Hi. split; [lia|].
      intros j Hj Hc. apply (Hmin j Hj). rewrite list_lookup_lookup_total_lt by lia. by rewrite Hc.
    - split; [done|]. intros j Hj Hc. apply (index_of_None _ E j).
      rewrite list_lookup_lookup_total_lt by lia. by rewrite Hc. }
  destruct Hn as [Hn Hne].
  pose proof (fun r => scan_read (fun s =>
    x ← load8 s;
    if x =? 0 then mret (Stop (stop s)) else
    if x =? c then mret (Stop s) else mret (Next (s + 1)))
    (fun i => s + Z.of_nat i) n r m) as E.
  cbv beta in E. change (Z.of_nat 0) with 0 in E. rewrite Z.add_0_r in E. apply E; [lia| |].
  - intros i Hi. destruct (cstring_char _ _ _ i Hs ltac:(lia)) as [Hl Hnz].
    load_step Hl. rewrite neq0_eqb by done.
    destruct (Z.eqb_spec (l !!! i) c); [by destruct (Hne i)|]. simpl. do 2 f_equal. lia.
  - unfold n. destruct (index_of c l) as [i|] eqn:Ei.
    + apply index_of_Some in Ei as [Hi _]. pose proof (lookup_lt_Some _ _ _ Hi) as Hlt.
      destruct (cstring_char _ _ _ i Hs Hlt) as [Hl Hnz].
      load_step Hl. rewrite neq0_eqb by done.
      rewrite list_lookup_lookup_total_lt in Hi by done. injection Hi as ->.
      by rewrite Z.eqb_refl.
    + by load_step (cstring_nul _ _ _ Hs).
Qed.

(** [strlen] returns the length of the string, [strnlen] the length cut
    off at the bound, [strchr] and [strfind] the address of the first
    occurrence of the character; when there is none [strchr] returns [NULL]
    and [strfind] the end of the string.  All four return on every string and
    change nothing. *)
Lemma string_search_spec c len :
  0 <= len ->
  strlen s m = Ok (Z.of_nat (length l)) m /\
  strnlen s len m = Ok (Z.min len (Z.of_nat (length l))) m /\
  strchr s c m = Ok (match index_of c l with Some i => s + Z.of_nat i | None => NULL end) m /\
  strfind s c m = Ok (s + Z.of_nat (default (length l) (index_of c l))) m.
Proof using Hs Hm.
  intros Hlen. split_and!.
  - apply strlen_eq.
  - by apply strnlen_eq.
  - apply (search_eq (fun _ => NULL)).
  - unfold strfind. rewrite (search_eq (fun s => s)). by destruct (index_of c l).
Qed.
End searches.

(** ** Comparison *)

(** The difference [strcmp] computes, on the contents: at the first mismatch,
    a string that has ended counting as 0. *)
Fixpoint chars_diff (l1 l2 : list Z) : Z :=
  match l1, l2 with
  | [], [] => 0
  | [], b :: _ => 0 - b
  | a :: _, [] => a - 0
  | a :: l1', b :: l2' => if a =? b then chars_diff l1' l2' else a - b
  end.

(** Lexicographic order. *)
Inductive chars_lt : list Z -> list Z -> Prop :=
  | chars_lt_nil b l : chars_lt [] (b :: l)
  | chars_lt_head a b l1 l2 : a < b -> chars_lt (a :: l1) (b :: l2)
  | chars_lt_tail a l1 l2 : chars_lt l1 l2 -> chars_lt (a :: l1) (a :: l2).

Definition positive (l : list Z) : Prop := Forall (fun b => 0 < b) l.

Lemma chars_diff_antisym l1 l2 : chars_diff l2 l1 = - chars_diff l1 l2.
Proof.
  revert l2. induction l1 as [|a l1 IH]; intros [|b l2]; simpl; [lia..|].
  rewrite (Z.eqb_sym b a). destruct (Z.eqb_spec a b); [apply IH|lia].
Qed.

Lemma chars_diff_eq l1 l2 : positive l1 -> positive l2 -> chars_diff l1 l2 = 0 <-> l1 = l2.
Proof.
  intros H1. revert l2. induction H1 as [|a l1 Ha H1 IH]; intros l2 [|b l2' Hb H2]; simpl;
    try (split; [lia|done]); [done|].
  destruct (Z.eqb_spec a b) as [->|Hne].
  - rewrite IH by done. split; [by intros ->|congruence].
  - split; [lia|congruence].
Qed.

Lemma chars_diff_lt l1 l2 : positive l1 -> positive l2 -> chars_diff l1 l2 < 0 <-> chars_lt l1 l2.
Proof.
  intros H1. revert l2. induction H1 as [|a l1 Ha H1 IH]; intros l2 [|b l2' Hb H2]; simpl.
  - split; [lia|]. intros H; inversion H.
  - split; [by constructor|lia].
  - split; [lia|]. intros H; inversion H.
  - destruct (Z.eqb_spec a b) as [->|Hne].
    + rewrite IH by done. split; [by constructor|]. intros H; inversion H; subst; [lia|done].
    + split; [by constructor; lia|]. intros H; inversion H; subst; lia.
Qed.

Lemma cstring_nil m a : cstring m a [] <-> m !! a = Some 0.
Proof.
  split.
  - intros H. pose proof (cstring_nul _ _ _ H) as E. simpl in E. by rewrite Z.add_0_r in E.
  - intros E. split; [|constructor]. intros [|[|i]] b; simpl; [|done..]. intros [= <-].
    by rewrite Z.add_0_r.
Qed.

Lemma cstring_cons m a b l : cstring m a (b :: l) <-> m !! a = Some b /\ b <> 0 /\ cstring m (a + 1) l.
Proof.
  unfold cstring, nonzero. rewrite Forall_cons. change ((b :: l) ++ [0]) with ([b] ++ (l ++ [0])).
  rewrite (bytes_at_app m a [b]). change (Z.of_nat (length [b])) with 1.
  assert (bytes_at m a [b] <-> m !! a = Some b) as ->; [|tauto]. split.
  - intros H. rewrite <- (Z.add_0_r a). by apply (H 0%nat).
  - intros H [|[|i]] c; simpl; [|done..]. intros [= <-]. by rewrite Z.add_0_r.
Qed.

Section comparisons.
Context (m : mem) (s1 s2 : Z) (l1 l2 : list Z).
Context (H1 : cstring m s1 l1) (H2 : cstring m s2 l2).

Lemma strcmp_eq : strcmp s1 s2 m = Ok (chars_diff l1 l2) m.
Proof using H1 H2.
  unfold strcmp, scan. unfold mbind at 1, M_bind at 1, mget; simpl.
  pose proof (cstring_size _ _ _ H1) as Hf. generalize (size m) Hf. clear Hf. intros k.
  revert s1 s2 l1 l2 H1 H2. induction k as [|k IH]; intros p1 p2 q1 q2 Hq1 Hq2 Hk; [lia|].
  simpl. destruct q1 as [|a q1], q2 as [|b q2]; rewrite ?cstring_nil, ?cstring_cons in Hq1;
    rewrite ?cstring_nil, ?cstring_cons in Hq2; destruct_and?.
  - by repeat load_any.
  - by repeat load_any.
  - by repeat load_any.
  - repeat load_any. destruct (a =? b); [|done]. apply IH; [done|done|simpl in *; lia].
Qed.

Lemma strncmp_eq n :
  0 <= n -> strncmp s1 s2 n m = Ok (chars_diff (take (Z.to_nat n) l1) (take (Z.to_nat n) l2)) m.
Proof using H1 H2.
  unfold strncmp, scan. unfold mbind at 1, M_bind at 1, mget; simpl.
  pose proof (cstring_size _ _ _ H1) as Hf. generalize (size m) Hf. clear Hf. intros k.
  revert s1 s2 l1 l2 H1 H2 n. induction k as [|k IH]; intros p1 p2 q1 q2 Hq1 Hq2 n Hk Hn; [lia|].
  simpl. destruct (Z.ltb_spec 0 n); simpl; [|by replace (Z.to_nat n) with 0%nat by lia].
  replace (Z.to_nat n) with (S (Z.to_nat (n - 1))) by lia.
  destruct q1 as [|a q1], q2 as [|b q2]; rewrite ?cstring_nil, ?cstring_cons in Hq1;
    rewrite ?cstring_nil, ?cstring_cons in Hq2; destruct_and?.
  - by repeat load_any.
  - by repeat load_any.
  - by repeat load_any.
  - repeat load_any. destruct (a =? b); [|done].
    apply IH; [done|done|simpl in *; lia|lia].
Qed.

(** C38: [strcmp] returns 0 exactly on equal strings and is negative exactly
    when the first string comes first in lexicographic order of its bytes
    (positive when the second does); [strncmp] is the same on the first [n]
    characters.  Both return on all strings. *)
Theorem strcmp_spec n :
  bytes l1 -> bytes l2 -> 0 <= n ->
  (exists d, strcmp s1 s2 m = Ok d m /\ in_s32 d /\
     (d = 0 <-> l1 = l2) /\ (d < 0 <-> chars_lt l1 l2) /\ (0 < d <-> chars_lt l2 l1)) /\
  (exists d, strncmp s1 s2 n m = Ok d m /\
     let p1 := take (Z.to_nat n) l1 in let p2 := take (Z.to_nat n) l2 in
     (d = 0 <-> p1 = p2) /\ (d < 0 <-> chars_lt p1 p2) /\ (0 < d <-> chars_lt p2 p1)).
Proof using H1 H2.
  intros B1 B2 Hn.
  assert (Hpos : forall l, bytes l -> nonzero l -> positive l).
  { intros l Hb Hz. apply Forall_forall. intros b Hin.
    pose proof (proj1 (Forall_forall _ _) Hb b Hin). pose proof (proj1 (Forall_forall _ _) Hz b Hin).
    unfold in_u8 in *. simpl in *. lia. }
  pose proof (Hpos _ B1 (proj2 H1)) as P1. pose proof (Hpos _ B2 (proj2 H2)) as P2.
  assert (Hd : forall q1 q2, positive q1 -> positive q2 ->
    let d := chars_diff q1 q2 in
    (d = 0 <-> q1 = q2) /\ (d < 0 <-> chars_lt q1 q2) /\ (0 < d <-> chars_lt q2 q1)).
  { intros q1 q2 Q1 Q2 d. split_and!; [by apply chars_diff_eq|by apply chars_diff_lt|].
    rewrite <- chars_diff_lt, chars_diff_antisym by done. unfold d. lia. }
  split.
  - exists (chars_diff l1 l2). split; [apply strcmp_eq|]. split; [|by apply Hd].
    clear Hd Hpos H1 H2 P1 P2. revert l2 B2. induction B1 as [|a q1 Ha B1 IH]; intros q2 B2.
    + destruct B2 as [|b q2 Hb]; simpl; unfold in_u8, in_s32 in *; lia.
    + destruct B2 as [|b q2 Hb B2]; simpl; [unfold in_u8, in_s32 in *; lia|].
      destruct (a =? b); [by apply IH|]. unfold in_u8, in_s32 in *; lia.
  - exists (chars_diff (take (Z.to_nat n) l1) (take (Z.to_nat n) l2)).
    split; [by apply strncmp_eq|]. apply Hd; by apply Forall_take.
Qed.
End comparisons.

(** ** Copies and fills *)

Lemma bytes_lookup l (i : nat) : bytes l -> (i < length l)%nat -> u8 (l !!! i) = l !!! i.
Proof.
  intros Hb Hi. apply u8_small. apply (proj1 (Forall_lookup _ _) Hb i).
  by apply list_lookup_lookup_total_lt.
Qed.

Section copies.
Context (m : mem) (dst src : Z) (l : list Z).
Context (Hsrc : bytes_at m src l) (Hbytes : bytes l).
Context (Hdst : writable m dst (Z.of_nat (length l))).

Lemma store_next_byte a k (i : nat) :
  writable m a k -> Z.of_nat i < k -> forall b x, is_Some (write_bytes b x m !! (a + Z.of_nat i)).
Proof using Type. intros Hw Hi b x. apply (writable_write _ _ _ _ _ Hw). lia. Qed.

Lemma copy_up_eq :
  ~ (src < dst < src + Z.of_nat (length l)) ->
  exists r, copy_up dst src (Z.of_nat (length l)) m = Ok r (write_bytes dst l m).
Proof using Hsrc Hbytes Hdst.
  intros Hov. eexists.
  pose proof (count_down_seq (R := Empty_set)
    (fun '(d, s) => c ← load8 s; store8 d c;; mret (Next (d + 1, s + 1)))
    (fun i => (dst + Z.of_nat i, src + Z.of_nat i)) (fun i => write_bytes dst (take i l) m)
    (length l)) as E.
  cbv beta in E. change (Z.of_nat 0) with 0 in E. rewrite !Z.add_0_r, firstn_all in E.
  unfold copy_up. apply E. intros i Hi.
  assert (Hl : write_bytes dst (take i l) m !! (src + Z.of_nat i) = Some (l !!! i)).
  { rewrite write_bytes_lookup, length_take, decide_False by lia. by apply bytes_at_lookup. }
  load_step Hl. rewrite store8_at by (apply (store_next_byte dst _ i Hdst); lia).
  rewrite bytes_lookup, write_bytes_take_S by done. simpl. do 3 f_equal; lia.
Qed.

Lemma copy_down_eq :
  src < dst ->
  let n := Z.of_nat (length l) in
  exists r, copy_down (dst + n) (src + n) n m = Ok r (write_bytes dst l m).
Proof using Hsrc Hbytes Hdst.
  intros Hlt n. eexists.
  pose proof (count_down_seq (R := Empty_set)
    (fun '(d, s) => c ← load8 (s - 1); store8 (d - 1) c;; mret (Next (d - 1, s - 1)))
    (fun i => (dst + n - Z.of_nat i, src + n - Z.of_nat i))
    (fun i => write_bytes (dst + n - Z.of_nat i) (drop (length l - i) l) m)
    (length l)) as E.
  cbv beta in E. change (Z.of_nat 0) with 0 in E.
  rewrite !Z.sub_0_r, Nat.sub_0_r, Nat.sub_diag, drop_all, drop_0 in E. simpl in E.
  replace (dst + n - Z.of_nat (length l)) with dst in E by lia.
  unfold copy_down. apply E. intros i Hi.
  assert (Hl : write_bytes (dst + n - Z.of_nat i) (drop (length l - i) l) m
    !! (src + n - Z.of_nat i - 1) = Some (l !!! (length l - S i)%nat)).
  { rewrite write_bytes_lookup, length_drop, decide_False by lia.
    replace (src + n - Z.of_nat i - 1) with (src + Z.of_nat (length l - S i)) by lia.
    apply bytes_at_lookup; [done|lia]. }
  load_step Hl.
  replace (dst + n - Z.of_nat i - 1) with (dst + Z.of_nat (length l - S i)) by lia.
  rewrite store8_at by (apply (store_next_byte dst _ _ Hdst); lia).
  rewrite bytes_lookup by (done || lia). unfold mret, M_ret. f_equal; [do 2 f_equal; lia|].
  replace (length l - i)%nat with (S (length l - S i)) by lia.
  rewrite (drop_S l (l !!! (length l - S i)%nat) (length l - S i))
    by (apply list_lookup_lookup_total_lt; lia).
  replace (dst + n - Z.of_nat (S i)) with (dst + Z.of_nat (length l - S i)) by lia.
  simpl. do 2 f_equal. lia.
Qed.

(** C35: [memmove] leaves the source's old contents in the destination and
    changes nothing else, however the two blocks overlap; [memcpy] does the
    same unless the destination starts inside the source. *)
Theorem memmove_spec :
  let n := Z.of_nat (length l) in
  memmove dst src n m = Ok dst (write_bytes dst l m) /\
  (~ (src < dst < src + n) -> memcpy dst src n m = Ok dst (write_bytes dst l m)).
Proof using Hsrc Hbytes Hdst.
  cbv zeta. split.
  - unfold memmove. unfold mbind, M_bind.
    destruct (Z.ltb_spec src dst), (Z.ltb_spec dst (src + Z.of_nat (length l))); simpl.
    2, 3, 4: destruct copy_up_eq as [r E]; [lia|by rewrite E].
    destruct copy_down_eq as [r E]; [lia|]. by rewrite E.
  - intros Hov. destruct (copy_up_eq Hov) as [r E]. unfold memcpy, mbind, M_bind. by rewrite E.
Qed.
End copies.

Section string_copies.
Context (m : mem) (dst src : Z) (l : list Z).
Context (Hsrc : cstring m src l) (Hbytes : bytes l).

Lemma bytes_snoc0 : bytes (l ++ [0]).
Proof using Hbytes. apply Forall_app. split; [done|]. by repeat constructor. Qed.

Lemma strcpy_eq :
  writable m dst (Z.of_nat (length l) + 1) ->
  ~ (src < dst <= src + Z.of_nat (length l)) ->
  strcpy dst src m = Ok dst (write_bytes dst (l ++ [0]) m).
Proof using Hsrc Hbytes.
  intros Hdst Hov. pose proof (cstring_size _ _ _ Hsrc). pose proof bytes_snoc0 as Hb0.
  set (z := l ++ [0]) in *. assert (Hz : length z = S (length l)) by (unfold z; rewrite length_app; simpl; lia).
  pose proof (scan_seq (fun '(p, src) =>
    c ← load8 src;
    store8 p c;;
    if negb (c =? 0) then mret (Next (p + 1, src + 1)) else mret (Stop ()))
    (fun i => (dst + Z.of_nat i, src + Z.of_nat i)) (fun i => write_bytes dst (take i z) m)
    (length l) ()) as E.
  cbv beta in E. change (Z.of_nat 0) with 0 in E. rewrite !Z.add_0_r in E.
  change (write_bytes dst (take 0 z) m) with m in E.
  assert (Hload : forall i, (i <= length l)%nat ->
    write_bytes dst (take i z) m !! (src + Z.of_nat i) = Some (z !!! i)).
  { intros i Hi. rewrite write_bytes_lookup, length_take, decide_False by lia.
    apply bytes_at_lookup; [exact (proj1 Hsrc)|lia]. }
  unfold strcpy, mbind at 1, M_bind at 1.
  rewrite (E ltac:(simpl; lia)) with (m' := write_bytes dst z m); [done| |].
  - intros i Hi. load_step (Hload i ltac:(lia)).
    rewrite store8_at by (apply (store_next_byte _ _ _ i Hdst); lia).
    rewrite bytes_lookup, write_bytes_take_S by (done || lia).
    assert (Hnz : z !!! i <> 0).
    { unfold z. rewrite lookup_total_app_l by done. apply (cstring_char _ _ _ _ Hsrc Hi). }
    rewrite neq0_eqb by done. simpl. do 3 f_equal; lia.
  - load_step (Hload (length l) ltac:(lia)).
    rewrite store8_at by (apply (store_next_byte _ _ _ _ Hdst); lia).
    rewrite bytes_lookup, <- write_bytes_take_S by (done || lia).
    rewrite <- Hz, firstn_all. replace (z !!! length l) with 0; [done|].
    unfold z. by rewrite lookup_total_app_r, Nat.sub_diag by done.
Qed.

(** The [n] bytes that [strncpy] writes. *)
Definition padded (n : nat) : list Z := take n l ++ replicate (n - length l) 0.

Lemma length_padded n : length (padded n) = n.
Proof using Type. unfold padded. rewrite length_app, length_take, length_replicate. lia. Qed.

Lemma padded_lookup n i : (i < n)%nat -> padded n !!! i = (l ++ [0]) !!! Nat.min i (length l).
Proof using Type.
  intros Hi. unfold padded. apply list_lookup_total_correct.
  destruct (decide (i < length l)%nat) as [Hlt|Hge].
  - rewrite lookup_app_l by (rewrite length_take; lia). rewrite lookup_take, decide_True by lia.
    rewrite Nat.min_l by lia. rewrite lookup_total_app_l by done.
    by apply list_lookup_lookup_total_lt.
  - rewrite lookup_app_r by (rewrite length_take; lia).
    rewrite lookup_replicate_2 by (rewrite length_take; lia).
    rewrite Nat.min_r by lia. f_equal. symmetry. apply list_lookup_total_correct.
    by rewrite lookup_app_r, Nat.sub_diag.
Qed.

Lemma strncpy_eq n :
  writable m dst (Z.of_nat n) ->
  disjoint_blocks dst (Z.of_nat n) src (Z.of_nat (length l) + 1) ->
  strncpy dst src (Z.of_nat n) m = Ok dst (write_bytes dst (padded n) m).
Proof using Hsrc Hbytes.
  intros Hdst Hov. pose proof (length_padded n) as Hlen.
  pose proof (count_down_seq (R := Empty_set) (fun '(p, src) =>
    c ← load8 src; store8 p c;; mret (Next (p + 1, if negb (c =? 0) then src + 1 else src)))
    (fun i => (dst + Z.of_nat i, src + Z.of_nat (Nat.min i (length l))))
    (fun i => write_bytes dst (take i (padded n)) m) n) as E.
  cbv beta in E. rewrite Nat.min_0_l in E. change (Z.of_nat 0) with 0 in E.
  rewrite !Z.add_0_r, (take_ge (padded n) n) in E by lia.
  unfold strncpy, mbind at 1, M_bind at 1.
  change (write_bytes dst (take 0 (padded n)) m) with m in E. rewrite E; [done|]. clear E.
  intros i Hi. set (j := Nat.min i (length l)).
  assert (Hload : write_bytes dst (take i (padded n)) m !! (src + Z.of_nat j)
                  = Some ((l ++ [0]) !!! j)).
  { rewrite write_bytes_lookup, length_take, decide_False
      by (unfold disjoint_blocks in Hov; lia).
    apply bytes_at_lookup; [exact (proj1 Hsrc)|rewrite length_app; simpl; lia]. }
  load_step Hload. rewrite store8_at by (apply (store_next_byte _ _ _ i Hdst); lia).
  rewrite bytes_lookup by (apply bytes_snoc0 || (rewrite length_app; simpl; lia)).
  pose proof (padded_lookup n i Hi) as Hpad. fold j in Hpad. rewrite <- Hpad.
  rewrite <- write_bytes_take_S by lia. rewrite Hpad. clear Hpad.
  unfold mret, M_ret. do 3 f_equal; [lia|].
  destruct (decide (i < length l)%nat) as [Hlt|Hge].
  - destruct (cstring_char _ _ _ i Hsrc Hlt) as [_ Hnz]. unfold j.
    rewrite Nat.min_l, lookup_total_app_l, neq0_eqb by (done || lia). cbn [negb]. lia.
  - unfold j. rewrite Nat.min_r by lia.
    replace ((l ++ [0]) !!! length l) with 0; [change (negb (0 =? 0)) with false; cbv iota; lia|].
    by rewrite lookup_total_app_r, Nat.sub_diag by done.
Qed.

(** [strcpy] makes the destination hold the source string (terminator
    included) when the destination does not start inside the source; [strncpy]
    writes exactly [n] bytes: the first [n] characters, padded with zeros.
    Nothing outside the bytes written changes. *)
Lemma strcpy_spec n :
  writable m dst (Z.of_nat (Nat.max n (length l + 1))) ->
  disjoint_blocks dst (Z.of_nat n) src (Z.of_nat (length l) + 1) ->
  ~ (src < dst <= src + Z.of_nat (length l)) ->
  (exists m', strcpy dst src m = Ok dst m' /\ cstring m' dst l /\
     m' = write_bytes dst (l ++ [0]) m) /\
  strncpy dst src (Z.of_nat n) m = Ok dst (write_bytes dst (padded n) m).
Proof using Hsrc Hbytes.
  intros Hw Hov Hdst. split.
  - eexists. split_and!; [apply strcpy_eq; [intros x Hx; apply Hw; lia|done]| |done].
    split; [apply write_bytes_at|exact (proj2 Hsrc)].
  - apply strncpy_eq; [intros x Hx; apply Hw; lia|done].
Qed.
End string_copies.

Lemma memset_eq m s c n :
  writable m s (Z.of_nat n) ->
  memset s c (Z.of_nat n) m = Ok s (write_bytes s (replicate n (u8 c)) m).
Proof.
  intros Hw.
  pose proof (count_down_seq (R := Empty_set) (fun p => store8 p c;; mret (Next (p + 1)))
    (fun i => s + Z.of_nat i) (fun i => write_bytes s (take i (replicate n (u8 c))) m) n) as E.
  cbv beta in E. change (Z.of_nat 0) with 0 in E. rewrite Z.add_0_r in E.
  rewrite (take_ge (replicate n (u8 c)) n) in E by (by rewrite length_replicate).
  unfold memset, mbind at 1, M_bind at 1.
  change (write_bytes s (take 0 (replicate n (u8 c))) m) with m in E. rewrite E; [done|].
  intros i Hi. unfold mbind, M_bind.
  rewrite store8_at by (apply (store_next_byte _ _ _ i Hw); lia).
  rewrite write_bytes_take_S by (by rewrite length_replicate).
  rewrite lookup_total_replicate_2 by done. unfold mret, M_ret. do 2 f_equal. lia.
Qed.

Lemma bytes_at_cons m a b l : bytes_at m a (b :: l) <-> m !! a = Some b /\ bytes_at m (a + 1) l.
Proof.
  change (b :: l) with ([b] ++ l). rewrite bytes_at_app. change (Z.of_nat (length [b])) with 1.
  assert (bytes_at m a [b] <-> m !! a = Some b) as ->; [|done]. split.
  - intros H. rewrite <- (Z.add_0_r a). by apply (H 0%nat).
  - intros H [|[|i]] c; simpl; [|done..]. intros [= <-]. by rewrite Z.add_0_r.
Qed.

Lemma memcmp_eq m v1 v2 l1 l2 :
  bytes_at m v1 l1 -> bytes_at m v2 l2 -> length l1 = length l2 ->
  memcmp v1 v2 (Z.of_nat (length l1)) m = Ok (chars_diff l1 l2) m.
Proof.
  unfold memcmp, count_down. rewrite Nat2Z.id. generalize 0 at 2. revert v1 v2 l2.
  induction l1 as [|a l1 IH]; intros v1 v2 [|b l2] p B1 B2 Hl; try done.
  rewrite bytes_at_cons in B1, B2. destruct_and?. simpl length. cbn [for_loop].
  unfold mbind, M_bind in *.
  rewrite (load8_at m v1 a), (load8_at m v2 b) by done. simpl.
  destruct (Z.eqb_spec a b) as [->|Hne]; simpl; [|done]. by apply IH; [..|injection Hl].
Qed.

(** [memset] writes [n] copies of the byte and nothing else; [memcmp]
    compares two blocks of the same size as [strcmp] compares strings, zero
    bytes included. *)
Lemma memset_memcmp_spec m s c n v1 v2 l1 l2 :
  writable m s (Z.of_nat n) ->
  bytes_at m v1 l1 -> bytes_at m v2 l2 -> length l1 = length l2 ->
  memset s c (Z.of_nat n) m = Ok s (write_bytes s (replicate n (u8 c)) m) /\
  exists d, memcmp v1 v2 (Z.of_nat (length l1)) m = Ok d m /\
    (d = 0 <-> l1 = l2) /\ (d < 0 <-> chars_lt l1 l2) /\ (0 < d <-> chars_lt l2 l1).
Proof.
  intros Hw B1 B2 Hl. split; [by apply memset_eq|].
  exists (chars_diff l1 l2). split; [by apply memcmp_eq|].
  assert (Hlt : forall q1 q2, length q1 = length q2 -> chars_diff q1 q2 < 0 <-> chars_lt q1 q2).
  { induction q1 as [|a q1 IH]; intros [|b q2] Hq; try done; simpl.
    - split; [lia|]. intros H; inversion H.
    - destruct (Z.eqb_spec a b) as [->|Hne].
      + rewrite IH by (by injection Hq). split; [by constructor|].
        intros H; inversion H; subst; [lia|done].
      + split; [by constructor; lia|]. intros H; inversion H; subst; lia. }
  split_and!; [|by apply Hlt|].
  - clear Hlt B1 B2. revert l2 Hl. induction l1 as [|a q1 IH]; intros [|b q2] Hq; try done; simpl.
    destruct (Z.eqb_spec a b) as [->|Hne].
    + rewrite IH by (by injection Hq). split; [by intros ->|by intros [= ->]].
    + split; [lia|congruence].
  - rewrite <- Hlt, chars_diff_antisym by done. lia.
Qed.

(** ** Numbers *)

(** The value of a digit list, most significant first. *)
Definition digits_value (base : Z) (v : Z) (ds : list Z) : Z := foldl (fun v d => v * base + d) v ds.

(** What the digit loop computes: like [digits_value], each step in range. *)
Fixpoint digits_eval (base v : Z) (ds : list Z) : option Z :=
  match ds with
  | [] => Some v
  | d :: ds' => v ← long (v * base); v ← long (v + d); digits_eval base v ds'
  end.

Lemma long_in z : in_s64 z -> long z = Some z.
Proof. intros H. unfold long. by rewrite bool_decide_true. Qed.
Lemma long_out z : ~ in_s64 z -> long z = None.
Proof. intros H. unfold long. by rewrite bool_decide_false. Qed.
Lemma long_Some z w : long z = Some w -> w = z.
Proof. unfold long. case_bool_decide; congruence. Qed.

Lemma digits_value_ge base v ds :
  1 <= base -> 0 <= v -> Forall (fun d => 0 <= d) ds -> v <= digits_value base v ds.
Proof.
  intros Hb Hv Hd. revert v Hv. induction Hd as [|d ds Hd Hds IH]; intros v Hv; simpl; [lia|].
  transitivity (v * base + d); [nia|]. apply IH. nia.
Qed.

Lemma digits_eval_value base v ds :
  1 <= base -> 0 <= v -> in_s64 v -> Forall (fun d => 0 <= d) ds ->
  digits_eval base v ds = long (digits_value base v ds).
Proof.
  intros Hb Hv Hr Hd. revert v Hv Hr. induction Hd as [|d ds Hd Hds IH]; intros v Hv Hr.
  - cbn. by rewrite long_in.
  - cbn [digits_eval].
    change (digits_value base v (d :: ds)) with (digits_value base (v * base + d) ds).
    destruct (decide (in_s64 (v * base + d))) as [Hin|Hout].
    + rewrite long_in by (unfold in_s64 in *; nia). simpl.
      rewrite long_in by done. simpl. apply IH; [nia|done].
    + pose proof (digits_value_ge base (v * base + d) ds Hb ltac:(nia) Hds) as Hge.
      rewrite (long_out (digits_value _ _ ds)) by (unfold in_s64 in *; nia).
      destruct (long (v * base)) as [w|] eqn:E; simpl; [|done].
      apply long_Some in E as ->. by rewrite long_out.
Qed.

Definition blank (c : Z) : Prop := c = 32 \/ c = 9.

(** An optional sign. *)
Inductive sign_text : list Z -> bool -> Prop :=
  | sign_none : sign_text [] false
  | sign_plus : sign_text [43] false
  | sign_minus : sign_text [45] true.

(** [prefix_text base px rest base']: with [rest] to follow, [px] is the base
    prefix, and the digits are read in [base']. *)
Inductive prefix_text (base : Z) : list Z -> list Z -> Z -> Prop :=
  | prefix_hex rest : base = 0 \/ base = 16 -> prefix_text base [48; 120] rest 16
  | prefix_octal rest : base = 0 -> head rest <> Some 120 -> prefix_text base [48] rest 8
  | prefix_decimal rest : base = 0 -> head rest <> Some 48 -> prefix_text base [] rest 10
  | prefix_given rest :
      base <> 0 -> (base = 16 -> forall l, rest <> 48 :: 120 :: l) ->
      prefix_text base [] rest base.

(** [ds] are the digits of the character list [cs] in [base]. *)
Definition digits_text (base : Z) (cs ds : list Z) : Prop :=
  Forall2 (fun c d => digit c = Some d /\ d < base) cs ds.
(** No digit of [base] comes first in [rest]. *)
Definition digits_end (base : Z) (rest : list Z) : Prop :=
  match rest with [] => True | c :: _ => forall d, digit c = Some d -> base <= d end.

Lemma digit_range c d : digit c = Some d -> 0 <= d < 36 /\ c <> 0 /\ ~ blank c /\ c <> 43 /\ c <> 45.
Proof.
  unfold digit, blank.
  destruct (Z.leb_spec 48 c), (Z.leb_spec c 57); simpl; try (intros [= <-]; lia);
    destruct (Z.leb_spec 97 c), (Z.leb_spec c 122); simpl; try (intros [= <-]; lia);
    destruct (Z.leb_spec 65 c), (Z.leb_spec c 90); simpl; try (intros [= <-]; lia); done.
Qed.

Lemma cstring_app_r m s l1 l2 : cstring m s (l1 ++ l2) -> cstring m (s + Z.of_nat (length l1)) l2.
Proof.
  intros [Hb Hn]. split.
  - rewrite <- app_assoc in Hb. by apply bytes_at_app in Hb as [_ Hb].
  - by apply Forall_app in Hn as [_ Hn].
Qed.

Lemma cstring_head m s l : cstring m s l -> load8 s m = Ok (default 0 (head l)) m.
Proof.
  intros H. destruct l as [|c l].
  - by apply load8_at, cstring_nil.
  - apply cstring_cons in H as (Hc & _). by apply load8_at.
Qed.

Section strtol.
Context (m : mem).

Lemma strtol_blanks_eq s ws l :
  cstring m s (ws ++ l) -> Forall blank ws -> (forall c, head l = Some c -> ~ blank c) ->
  strtol_blanks s m = Ok (s + Z.of_nat (length ws)) m.
Proof using Type.
  intros Hs Hws Hl. pose proof (cstring_size _ _ _ Hs) as Hf. rewrite length_app in Hf.
  unfold strtol_blanks, scan. unfold mbind at 1, M_bind at 1, mget; simpl.
  revert Hf. generalize (size m). intros k Hf.
  revert s k Hs Hf. induction Hws as [|w ws Hw Hws IH]; intros s [|k] Hs Hf; try lia;
    cbn [while_loop]; unfold mbind, M_bind; rewrite (cstring_head _ _ _ Hs); simpl.
  - assert (((default 0 (head l) =? 32) || (default 0 (head l) =? 9)) = false) as ->.
    { destruct l as [|c l]; simpl; [done|]. specialize (Hl c eq_refl). unfold blank in Hl.
      destruct (Z.eqb_spec c 32), (Z.eqb_spec c 9); tauto. }
    simpl. f_equal. lia.
  - assert (((w =? 32) || (w =? 9)) = true) as ->.
    { destruct Hw as [-> | ->]; done. }
    simpl. replace (s + Z.of_nat (S (length ws))) with (s + 1 + Z.of_nat (length ws)) by lia.
    simpl in Hs, Hf. rewrite cstring_cons in Hs. apply IH; [tauto|lia].
Qed.

Lemma strtol_sign_eq s sg neg l :
  cstring m s (sg ++ l) -> sign_text sg neg ->
  (sg = [] -> forall c, head l = Some c -> c <> 43 /\ c <> 45) ->
  strtol_sign s m = Ok (s + Z.of_nat (length sg), neg) m.
Proof using Type.
  intros Hs Hsg Hl. unfold strtol_sign, mbind, M_bind. rewrite (cstring_head _ _ _ Hs).
  destruct Hsg; simpl; try done.
  destruct l as [|c l]; simpl; [by rewrite Z.add_0_r|].
  destruct (Hl eq_refl c eq_refl). rewrite (proj2 (Z.eqb_neq c 43)), (proj2 (Z.eqb_neq c 45)) by done.
  by rewrite Z.add_0_r.
Qed.

Lemma strtol_prefix_eq s base px base' l :
  cstring m s (px ++ l) -> prefix_text base px l base' ->
  strtol_prefix s base m = Ok (s + Z.of_nat (length px), base') m.
Proof using Type.
  intros Hs Hp. unfold strtol_prefix, strtol_hex.
  pose proof (cstring_head _ _ _ Hs) as H0.
  destruct Hp as [l Hb|l Hb Hx|l Hb H48|l Hb Hx]; simpl in Hs.
  - rewrite !cstring_cons in Hs. destruct Hs as (_ & _ & H1 & _).
    destruct Hb as [-> | ->]; simpl; unfold mbind, M_bind; rewrite H0; simpl;
      by rewrite (load8_at _ _ _ H1).
  - subst base. simpl. unfold mbind, M_bind. rewrite H0. simpl.
    rewrite cstring_cons in Hs. destruct Hs as (_ & _ & H1).
    rewrite (cstring_head _ _ _ H1).
    assert ((default 0 (head l) =? 120) = false) as ->.
    { destruct l as [|c l]; simpl in *; [done|]. apply Z.eqb_neq. congruence. }
    unfold mret at 1, M_ret at 1. by rewrite H0.
  - subst base. simpl. unfold mbind, M_bind. rewrite H0. simpl.
    simpl in H0. assert (Hne : (default 0 (head l) =? 48) = false).
    { destruct l as [|c l]; simpl in *; [done|]. apply Z.eqb_neq. congruence. }
    rewrite Hne. unfold mret at 1, M_ret at 1. rewrite H0. simpl.
    by rewrite Hne, Z.add_0_r.
  - rewrite (proj2 (Z.eqb_neq base 0)) by done. simpl. unfold mbind, M_bind.
    rewrite Z.add_0_r. destruct (Z.eqb_spec base 16) as [->|]; [|done]. rewrite H0.
    destruct l as [|c l]; simpl; [done|]. destruct (Z.eqb_spec c 48) as [->|]; [|done].
    rewrite cstring_cons in Hs. destruct Hs as (_ & _ & H1). rewrite (cstring_head _ _ _ H1).
    destruct l as [|c l]; simpl; [done|].
    destruct (Z.eqb_spec c 120) as [->|]; [|done]. by destruct (Hx eq_refl l).
Qed.

Lemma strtol_digits_eq s base cs ds rest :
  cstring m s (cs ++ rest) -> digits_text base cs ds -> digits_end base rest ->
  strtol_digits s base m
  = match digits_eval base 0 ds with
    | Some v => Ok (s + Z.of_nat (length cs), v) m
    | None => Undef end.
Proof using Type.
  intros Hs Hd He. pose proof (cstring_size _ _ _ Hs) as Hf. rewrite length_app in Hf.
  unfold strtol_digits, scan. unfold mbind at 1, M_bind at 1, mget; cbv beta iota.
  revert Hf. generalize (size m). intros k Hf. generalize 0 at 1 2.
  revert s k Hs Hf. induction Hd as [|c d cs ds [Hc Hlt] Hd IH]; intros s k Hs Hf v.
  - destruct k as [|k]; cbn [while_loop]; unfold mbind, M_bind; rewrite (cstring_head _ _ _ Hs);
      simpl; (destruct rest as [|c rest]; simpl; [by rewrite Z.add_0_r|]);
      (destruct (digit c) as [d|] eqn:Hc; [|by rewrite Z.add_0_r]);
      pose proof (He d Hc); (destruct (Z.leb_spec base d); [|lia]); by rewrite Z.add_0_r.
  - destruct k as [|k]; [simpl in Hf; lia|]. cbn [while_loop digits_eval]. unfold mbind, M_bind.
    rewrite (cstring_head _ _ _ Hs). change (default 0 (head ((c :: cs) ++ rest))) with c. rewrite Hc.
    destruct (Z.leb_spec base d); [lia|].
    destruct (long (v * base)) as [v1|]; [|done]. simpl.
    destruct (long (v1 + d)) as [v2|]; [|done]. simpl.
    replace (s + Z.of_nat (S (length cs))) with (s + 1 + Z.of_nat (length cs)) by lia.
    simpl in Hs, Hf. rewrite cstring_cons in Hs. apply IH; [tauto|lia].
Qed.
End strtol.

(** The 8 bytes of a 64-bit value, least significant first. *)
Definition le_bytes (v : Z) : list Z :=
  [u8 v; u8 (Z.shiftr v 8); u8 (Z.shiftr v 16); u8 (Z.shiftr v 24);
   u8 (Z.shiftr v 32); u8 (Z.shiftr v 40); u8 (Z.shiftr v 48); u8 (Z.shiftr v 56)].

Lemma store64_eq m a v : writable m a 8 -> store64 a v m = Ok () (write_bytes a (le_bytes v) m).
Proof.
  intros Hw. unfold store64.
  assert (Hs : forall i x, (i < 8)%nat -> le_bytes v !!! i = u8 x ->
    store8 (a + Z.of_nat i) x (write_bytes a (take i (le_bytes v)) m)
    = Ok () (write_bytes a (take (S i) (le_bytes v)) m)).
  { intros i x Hi Hx. rewrite store8_at by (apply (writable_write m a 8); [done|lia]).
    rewrite write_bytes_take_S by (simpl; lia). by rewrite Hx. }
  assert (E0 : store8 a v m = Ok () (write_bytes a (take 1 (le_bytes v)) m)).
  { rewrite <- (Z.add_0_r a) at 1. exact (Hs 0%nat v ltac:(lia) eq_refl). }
  unfold mbind, M_bind. rewrite E0.
  change (a + 1) with (a + Z.of_nat 1). change (a + 2) with (a + Z.of_nat 2).
  change (a + 3) with (a + Z.of_nat 3). change (a + 4) with (a + Z.of_nat 4).
  change (a + 5) with (a + Z.of_nat 5). change (a + 6) with (a + Z.of_nat 6).
  change (a + 7) with (a + Z.of_nat 7).
  rewrite (Hs 1%nat _ ltac:(lia) eq_refl), (Hs 2%nat _ ltac:(lia) eq_refl),
    (Hs 3%nat _ ltac:(lia) eq_refl), (Hs 4%nat _ ltac:(lia) eq_refl),
    (Hs 5%nat _ ltac:(lia) eq_refl), (Hs 6%nat _ ltac:(lia) eq_refl).
  exact (Hs 7%nat _ ltac:(lia) eq_refl).
Qed.

(** [l] reads, for [strtol] in [base], as blanks, a sign, a base prefix, the
    digits [ds] of [base'], and the rest. *)
Record number_text (base : Z) (l rest : list Z) (neg : bool) (base' : Z) (ds : list Z) : Prop := {
  nt_parts : exists ws sg px cs,
    l = ws ++ sg ++ px ++ cs ++ rest /\ Forall blank ws /\ sign_text sg neg /\
    prefix_text base px (cs ++ rest) base' /\ digits_text base' cs ds /\
    (sg ++ px ++ cs = [] -> forall c, head rest = Some c -> ~ blank c /\ c <> 43 /\ c <> 45);
  nt_end : digits_end base' rest;
}.

Lemma digits_text_eval base cs ds :
  digits_text base cs ds -> digits_eval base 0 ds = long (digits_value base 0 ds).
Proof.
  intros Hd. destruct Hd as [|c d cs ds [Hc Hlt] Hd]; [by rewrite long_in by done|].
  pose proof (digit_range _ _ Hc). apply digits_eval_value; [lia|lia|done|].
  constructor; [lia|]. clear -Hd. induction Hd as [|c d cs ds [Hc _] Hd IH]; constructor; [|done].
  pose proof (digit_range _ _ Hc). lia.
Qed.

Lemma digits_value_nonneg base cs ds : digits_text base cs ds -> 0 <= digits_value base 0 ds.
Proof.
  intros Hd. destruct Hd as [|c d cs ds [Hc Hlt] Hd]; [done|].
  pose proof (digit_range _ _ Hc). apply digits_value_ge; [lia|done|].
  constructor; [lia|]. clear -Hd. induction Hd as [|c d cs ds [Hc _] Hd IH]; constructor; [|done].
  pose proof (digit_range _ _ Hc). lia.
Qed.

(** The head of what follows the blanks, and of what follows the sign. *)
Lemma number_head base px cs ds rest base' c :
  prefix_text base px (cs ++ rest) base' -> digits_text base' cs ds -> px ++ cs <> [] ->
  head (px ++ cs ++ rest) = Some c -> ~ blank c /\ c <> 43 /\ c <> 45.
Proof.
  intros Hp Hd Hne Hh. enough (exists d, digit c = Some d) as [d Hc] by (pose proof (digit_range _ _ Hc); tauto).
  assert (Hcs : px = [] -> exists d, digit c = Some d).
  { intros ->. destruct Hd as [|c' d cs ds [Hc _] Hd]; [done|]. injection Hh as <-. eauto. }
  destruct Hp; try by apply Hcs.
  - injection Hh as <-. by exists 0.
  - injection Hh as <-. by exists 0.
Qed.

Lemma strtol_eq m s l base rest neg base' ds endptr :
  cstring m s l -> number_text base l rest neg base' ds ->
  (endptr <> 0 -> writable m endptr 8) ->
  let v := digits_value base' 0 ds in
  strtol s endptr base m =
    if bool_decide (v < 2 ^ 63)
    then Ok (if neg then - v else v)
            (if bool_decide (endptr = 0) then m else
             write_bytes endptr (le_bytes (s + Z.of_nat (length l) - Z.of_nat (length rest))) m)
    else Undef.
Proof.
  intros Hs [(ws & sg & px & cs & -> & Hws & Hsg & Hpx & Hcs & Hhead) Hend] Hw v.
  assert (Hh : forall c, px ++ cs <> [] \/ sg = [] -> head (px ++ cs ++ rest) = Some c ->
    ~ blank c /\ c <> 43 /\ c <> 45).
  { intros c Hor Hc. destruct (decide (px ++ cs = [])) as [E|Hne]; [|by eapply number_head].
    destruct Hor as [|Hsg0]; [done|]. apply Hhead; [by rewrite Hsg0|].
    apply app_eq_nil in E as [-> ->]. done. }
  unfold strtol. unfold mbind, M_bind.
  rewrite (strtol_blanks_eq m s ws _ Hs Hws).
  2:{ intros c Hc. destruct Hsg; [by apply Hh; [right|]|..]; injection Hc as <-; unfold blank; lia. }
  apply cstring_app_r in Hs. rewrite (strtol_sign_eq m _ sg neg _ Hs Hsg).
  2:{ intros Hsg0 c Hc. by apply Hh; [right|]. }
  apply cstring_app_r in Hs. rewrite (strtol_prefix_eq m _ base px base' _ Hs Hpx).
  apply cstring_app_r in Hs. rewrite (strtol_digits_eq m _ base' cs ds rest Hs Hcs Hend).
  rewrite (digits_text_eval _ _ _ Hcs). fold v.
  pose proof (digits_value_nonneg _ _ _ Hcs) as Hv. fold v in Hv.
  case_bool_decide; [|by rewrite long_out by (unfold in_s64; lia)].
  rewrite long_in by (unfold in_s64; lia). unfold truthy.
  replace (s + Z.of_nat (length ws) + Z.of_nat (length sg) + Z.of_nat (length px) + Z.of_nat (length cs))
    with (s + Z.of_nat (length (ws ++ sg ++ px ++ cs ++ rest)) - Z.of_nat (length rest))
    by (rewrite !length_app; lia).
  case_bool_decide as He.
  - subst endptr. simpl. destruct neg; [|done]. by rewrite long_in by (unfold in_s64; lia).
  - rewrite (proj2 (Z.eqb_neq endptr 0)) by done. simpl. rewrite store64_eq by auto.
    destruct neg; [|done]. by rewrite long_in by (unfold in_s64; lia).
Qed.

(** C36: on a string of the form blanks, optional sign, optional base prefix and
    digits, [strtol] returns the signed value of the digits in the base that
    the argument or the prefix gives and stores the address of the first
    character after them; when the magnitude does not fit [long] the C code
    computes a signed overflow, which is undefined. *)
Theorem strtol_spec m s l base rest neg base' ds endptr :
  cstring m s l -> number_text base l rest neg base' ds ->
  (endptr <> 0 -> writable m endptr 8) ->
  let v := digits_value base' 0 ds in
  strtol s endptr base m =
    if bool_decide (v < 2 ^ 63)
    then Ok (if neg then - v else v)
            (if bool_decide (endptr = 0) then m else
             write_bytes endptr (le_bytes (s + Z.of_nat (length l) - Z.of_nat (length rest))) m)
    else Undef.
Proof. apply strtol_eq. Qed.

(** *** Concrete strings *)

Definition sample_mem : mem :=
  write_bytes 100 (text "hello" ++ [0]) (write_bytes 200 (text "help" ++ [0])
    (write_bytes 300 (text "  -0x1Fz" ++ [0]) (write_bytes 400 (replicate 16 0) ∅))).

(** Evaluates the lengths of closed lists. *)
Ltac eval_lengths := repeat
  match goal with
  | |- context [length ?l] => let n := eval vm_compute in (length l) in
      change (length l) with n
  end.
Ltac sample_bytes :=
  intros i b Hi; repeat (destruct i as [|i]; [injection Hi as <-; vm_compute; reflexivity|]); done.
Lemma sample_hello : cstring sample_mem 100 (text "hello").
Proof. split; [sample_bytes|]. vm_compute. repeat constructor; done. Qed.
Lemma sample_help : cstring sample_mem 200 (text "help").
Proof. split; [sample_bytes|]. vm_compute. repeat constructor; done. Qed.
Lemma sample_number : cstring sample_mem 300 (text "  -0x1Fz").
Proof. split; [sample_bytes|]. vm_compute. repeat constructor; done. Qed.
Lemma sample_writable : writable sample_mem 400 16.
Proof.
  intros x Hx. unfold sample_mem. do 3 rewrite write_bytes_lookup, decide_False by (eval_lengths; lia).
  rewrite write_bytes_lookup, decide_True by (eval_lengths; lia).
  apply lookup_lt_is_Some_2. eval_lengths. lia.
Qed.

Lemma text_bytes s : bytes (text s).
Proof.
  unfold text, bytes. apply Forall_forall. intros b (c & <- & _)%list_elem_of_In%in_map_iff.
  pose proof (Ascii.nat_ascii_bounded c). unfold in_u8. lia.
Qed.

Lemma strcmp_spec_witness :
  exists d, strcmp 100 200 sample_mem = Ok d sample_mem /\ d < 0 /\
  strncmp 100 200 3 sample_mem = Ok 0 sample_mem.
Proof.
  pose proof (strcmp_spec sample_mem 100 200 (text "hello") (text "help") sample_hello sample_help 3
    (text_bytes _) (text_bytes _) ltac:(done)) as [(d & E & _ & _ & Hlt & _) (d' & E' & H0 & _)].
  exists d. split; [exact E|]. split.
  - apply Hlt. do 3 apply chars_lt_tail. by apply chars_lt_head.
  - rewrite E'. by rewrite (proj2 H0 eq_refl).
Defined.

(** Overlapping blocks, both ways. *)
Lemma memmove_spec_witness :
  memmove 101 100 4 sample_mem = Ok 101 (write_bytes 101 (text "hell") sample_mem) /\
  memcpy 99 100 4 (<[99 := 0]> sample_mem)
    = Ok 99 (write_bytes 99 (text "hell") (<[99 := 0]> sample_mem)).
Proof.
  split.
  - apply (proj1 (memmove_spec sample_mem 101 100 (text "hell") ltac:(sample_bytes) (text_bytes _)
      ltac:(intros x Hx; exists ((text "hello" ++ [0]) !!! Z.to_nat (x - 100));
            assert (x = 101 \/ x = 102 \/ x = 103 \/ x = 104) as [-> | [-> | [-> | ->]]]
              by (revert Hx; eval_lengths; lia); vm_compute; reflexivity))).
  - apply (proj2 (memmove_spec (<[99 := 0]> sample_mem) 99 100 (text "hell") ltac:(sample_bytes) (text_bytes _)
      ltac:(intros x Hx; exists (([0] ++ text "hello" ++ [0]) !!! Z.to_nat (x - 99));
            assert (x = 99 \/ x = 100 \/ x = 101 \/ x = 102) as [-> | [-> | [-> | ->]]]
              by (revert Hx; eval_lengths; lia); vm_compute; reflexivity))). eval_lengths. lia.
Defined.

Lemma strtol_spec_witness :
  strtol 300 400 0 sample_mem = Ok (-31) (write_bytes 400 (le_bytes 307) sample_mem) /\
  strtol 300 0 16 sample_mem = Ok (-31) sample_mem.
Proof.
  assert (Ht : forall base, base = 0 \/ base = 16 ->
    number_text base (text "  -0x1Fz") (text "z") true 16 [1; 15]).
  { intros base Hb. split; [|intros d Hd; vm_compute in Hd; injection Hd as <-; lia].
    exists (text "  "), [45], [48; 120], (text "1F").
    split_and!; [done|by repeat constructor; left|by constructor|by constructor| |done].
    by repeat constructor. }
  split.
  - apply (strtol_spec sample_mem 300 _ 0 (text "z") true 16 [1; 15] 400 sample_number); [auto|].
    intros _ x Hx. apply sample_writable. lia.
  - apply (strtol_spec sample_mem 300 _ 16 (text "z") true 16 [1; 15] 0 sample_number); [auto|done].
Defined.
