(* ===== verification/Printfmt.v ===== *)
(** * Formatted output

    libs/printfmt.c: [printnum], [vprintfmt] and [vsnprintf], for any function
    [putch] that prints one character.  Format strings and [%s] arguments are
    constant character arrays, given by their contents; the null character ends
    them.  A variable argument is a 64-bit slot or a string pointer. *)

From Stdlib Require Import Ascii.
From S2P Require Import Prelude Defs CString.

Definition chr (c : Ascii.ascii) : Z := Z.of_nat (Ascii.nat_of_ascii c).

#[global] Arguments chr c%_char_scope.

(** [int] arithmetic: undefined out of range. *)
Definition int (z : Z) : option Z := if bool_decide (in_s32 z) then Some z else None.

(** ** Error codes (libs/error.h) *)

Definition E_UNSPECIFIED : Z := 1.
Definition E_BAD_PROC : Z := 2.
Definition E_INVAL : Z := 3.
Definition E_NO_MEM : Z := 4.
Definition E_NO_FREE_PROC : Z := 5.
Definition E_FAULT : Z := 6.
Definition MAXERROR : Z := 6.

Definition error_string (err : Z) : option string :=
  if err =? E_UNSPECIFIED then Some "unspecified error"
  else if err =? E_BAD_PROC then Some "bad process"
  else if err =? E_INVAL then Some "invalid parameter"
  else if err =? E_NO_MEM then Some "out of memory"
  else if err =? E_NO_FREE_PROC then Some "out of processes"
  else if err =? E_FAULT then Some "segmentation fault"
  else None.

(** ** Variable arguments *)

Inductive varg : Type :=
  | VInt (w : Z)
  | VStr (s : list Z).

Abbreviation va_list := (list varg).

(** What a C program sees of a character array: up to the first null. *)
Fixpoint c_str (s : list Z) : list Z :=
  match s with
  | [] => []
  | c :: s' => if c =? 0 then [] else c :: c_str s'
  end.

Section varargs.
Context {S : Type}.

(** A slot read with an integer type of the given conversion. *)
Definition va_word (conv : Z -> Z) (ap : va_list) : M S (Z * va_list) :=
  match ap with
  | VInt w :: ap' => mret (conv w, ap')
  | _ => mundef
  end.
Definition va_int : va_list -> M S (Z * va_list) := va_word s32.

(** [va_arg(ap, char * )]: [None] is the null pointer. *)
Definition va_string (ap : va_list) : M S (option (list Z) * va_list) :=
  match ap with
  | VStr s :: ap' => mret (Some (c_str s), ap')
  | VInt 0 :: ap' => mret (None, ap')
  | _ => mundef
  end.

(** [getuint] and [getint]: the value as an [unsigned long long]. *)
Definition getuint (ap : va_list) (lflag : Z) : M S (Z * va_list) :=
  if 2 <=? lflag then va_word u64 ap
  else if truthy lflag then va_word u64 ap
  else va_word u32 ap.
Definition getint (ap : va_list) (lflag : Z) : M S (Z * va_list) :=
  if 2 <=? lflag then va_word (fun w => u64 (s64 w)) ap
  else if truthy lflag then va_word (fun w => u64 (s64 w)) ap
  else va_word (fun w => u64 (s32 w)) ap.
End varargs.

(** ** Escape sequences *)

(** The variables that the flags, the width and the precision set. *)
Record fmt_flags : Type := Flags {
  padc : Z;
  width : Z;
  precision : Z;
  lflag : Z;
  altflag : bool;
}.

Definition no_flags : fmt_flags := Flags (chr " ") (-1) (-1) 0 false.
Definition set_padc (c : Z) (f : fmt_flags) : fmt_flags :=
  Flags c (width f) (precision f) (lflag f) (altflag f).
Definition set_width (w : Z) (f : fmt_flags) : fmt_flags :=
  Flags (padc f) w (precision f) (lflag f) (altflag f).
Definition set_precision (p : Z) (f : fmt_flags) : fmt_flags :=
  Flags (padc f) (width f) p (lflag f) (altflag f).
Definition incr_lflag (f : fmt_flags) : fmt_flags :=
  Flags (padc f) (width f) (precision f) (lflag f + 1) (altflag f).
Definition set_altflag (f : fmt_flags) : fmt_flags :=
  Flags (padc f) (width f) (precision f) (lflag f) true.

(** The label [process_precision]. *)
Definition process_precision (f : fmt_flags) : fmt_flags :=
  if width f <? 0 then set_precision (-1) (set_width (precision f) f) else f.

Definition is_digit (ch : Z) : bool := (chr "0" <=? ch) && (ch <=? chr "9").

Section printfmt.
Context {S : Type} (putch : Z -> M S unit).

(** [while (-- width > 0) putch(padc, putdat)] and
    [for (; width > 0; width --) putch(c, putdat)]. *)
Fixpoint repeat_putch (n : nat) (c : Z) : M S unit :=
  match n with
  | O => mret ()
  | Datatypes.S n' => putch c;; repeat_putch n' c
  end.
Definition pad (n c : Z) : M S unit := repeat_putch (Z.to_nat n) c.

Definition digit_char (mod_ : Z) : option Z := (text "0123456789abcdef" ++ [0]) !! Z.to_nat mod_.

(** The recursion divides [num] by [base]; [fuel] bounds its depth. *)
Fixpoint printnum (fuel : nat) (num base width padc : Z) : M S unit :=
  match fuel with
  | O => mundef
  | Datatypes.S fuel' =>
      if base =? 0 then mundef else
      let mod_ := u32 (s32 (num mod base)) in
      let result := num / base in
      _ ← (if base <=? num
           then w ← mlift (int (width - 1)); printnum fuel' result base w padc
           else w ← mlift (int (width - 1)); pad w padc);
      c ← mlift (digit_char mod_);
      putch c
  end.
(** 64 bits are enough for any base from 2 on. *)
Definition print_number (num base width padc : Z) : M S unit := printnum 64 num base width padc.

Definition fetch (fmt : list Z) (i : nat) : M S Z := mlift ((fmt ++ [0]) !! i).

(** [for (precision = 0; ; ++ fmt) { ... }] of the width field. *)
Fixpoint read_precision (fuel : nat) (fmt : list Z) (i : nat) (prec ch : Z) : M S (Z * nat) :=
  match fuel with
  | O => mundef
  | Datatypes.S fuel' =>
      p ← mlift (int (prec * 10));
      p ← mlift (int (p + ch));
      p ← mlift (int (p - chr "0"));
      ch ← fetch fmt i;
      if negb (is_digit ch) then mret (p, i)
      else read_precision fuel' fmt (Datatypes.S i) p ch
  end.

(** The label [reswitch] and the cases that jump back to it: returns the
    conversion character, what follows it, the flags and the arguments left. *)
Fixpoint reswitch (fuel : nat) (fmt : list Z) (i : nat) (f : fmt_flags) (ap : va_list)
    : M S (Z * nat * fmt_flags * va_list) :=
  match fuel with
  | O => mundef
  | Datatypes.S fuel' =>
      ch ← fetch fmt i;
      let i := Datatypes.S i in
      if ch =? chr "-" then reswitch fuel' fmt i (set_padc (chr "-") f) ap
      else if ch =? chr "0" then reswitch fuel' fmt i (set_padc (chr "0") f) ap
      else if is_digit ch then
        '(p, i) ← read_precision (Datatypes.S (length fmt)) fmt i 0 ch;
        reswitch fuel' fmt i (process_precision (set_precision p f)) ap
      else if ch =? chr "*" then
        '(p, ap) ← va_int ap;
        reswitch fuel' fmt i (process_precision (set_precision p f)) ap
      else if ch =? chr "." then
        reswitch fuel' fmt i (if width f <? 0 then set_width 0 f else f) ap
      else if ch =? chr "#" then reswitch fuel' fmt i (set_altflag f) ap
      else if ch =? chr "l" then reswitch fuel' fmt i (incr_lflag f) ap
      else mret (ch, i, f, ap)
  end.

(** The loop of the [%s] case that prints the characters, returning the
    width that is left. *)
Fixpoint put_string (s : list Z) (f : fmt_flags) (width precision : Z) : M S Z :=
  match s with
  | [] => mret width
  | ch :: s' =>
      if ch =? 0 then mret width else
      if (precision <? 0) || (0 <=? precision - 1) then
        putch (if altflag f && ((ch <? chr " ") || (chr "~" <? ch)) then chr "?" else ch);;
        w ← mlift (int (width - 1));
        put_string s' f w (if precision <? 0 then precision else precision - 1)
      else mret width
  end.

Definition conv_string (f : fmt_flags) (ap : va_list) : M S va_list :=
  '(p, ap) ← va_string ap;
  let p := default (text "(null)") p in
  w ← (if (0 <? width f) && negb (padc f =? chr "-") then
         let w := s32 (u64 (u64 (width f) - Z.min (u64 (precision f)) (Z.of_nat (length p)))) in
         pad w (padc f);;
         mret (Z.min w 0)
       else mret (width f));
  w ← put_string p f w (precision f);
  pad w (chr " ");;
  mret ap.

(** [number:] *)
Definition conv_number (f : fmt_flags) (num base : Z) (ap : va_list) : M S va_list :=
  print_number num base (width f) (padc f);;
  mret ap.

Definition conv_decimal (f : fmt_flags) (ap : va_list) : M S va_list :=
  '(num, ap) ← getint ap (lflag f);
  num ← (if s64 num <? 0 then
           putch (chr "-");;
           n ← mlift (long (- s64 num));
           mret (u64 n)
         else mret num);
  conv_number f num 10 ap.

(** [for (fmt --; fmt[-1] != '%'; fmt --)]: back to just after the last '%'. *)
Fixpoint back_to_percent (fmt : list Z) (i : nat) : M S nat :=
  match i with
  | O => mundef
  | Datatypes.S i' =>
      c ← fetch fmt i';
      if c =? chr "%" then mret i else back_to_percent fmt i'
  end.

(** [depth] bounds the nesting of the [printfmt] calls of the [%e] case. *)
Fixpoint vprintfmt_depth (depth : nat) (fmt : list Z) (ap : va_list) : M S unit :=
  let conv_error (ap : va_list) : M S va_list :=
    match depth with
    | O => mundef
    | Datatypes.S depth' =>
        '(err, ap) ← va_int ap;
        err ← (if err <? 0 then mlift (int (- err)) else mret err);
        match (if MAXERROR <? err then None else error_string err) with
        | None => vprintfmt_depth depth' (text "error %d") [VInt (u64 err)];; mret ap
        | Some p => vprintfmt_depth depth' (text "%s") [VStr (text p)];; mret ap
        end
    end in
  let escape (i : nat) (ap : va_list) : M S (nat * va_list) :=
    '(ch, i, f, ap) ← reswitch (Datatypes.S (length fmt)) fmt i no_flags ap;
    if ch =? chr "c" then
      '(c, ap) ← va_int ap; putch c;; mret (i, ap)
    else if ch =? chr "e" then ap ← conv_error ap; mret (i, ap)
    else if ch =? chr "s" then ap ← conv_string f ap; mret (i, ap)
    else if ch =? chr "d" then ap ← conv_decimal f ap; mret (i, ap)
    else if ch =? chr "u" then
      '(num, ap) ← getuint ap (lflag f); ap ← conv_number f num 10 ap; mret (i, ap)
    else if ch =? chr "o" then
      '(num, ap) ← getuint ap (lflag f); ap ← conv_number f num 8 ap; mret (i, ap)
    else if ch =? chr "p" then
      putch (chr "0");; putch (chr "x");;
      '(num, ap) ← va_word u64 ap; ap ← conv_number f num 16 ap; mret (i, ap)
    else if ch =? chr "x" then
      '(num, ap) ← getuint ap (lflag f); ap ← conv_number f num 16 ap; mret (i, ap)
    else if ch =? chr "%" then putch ch;; mret (i, ap)
    else
      putch (chr "%");;
      i ← back_to_percent fmt (i - 1);
      mret (i, ap) in
  while_loop (Datatypes.S (length fmt)) (fun '(i, ap) =>
    ch ← fetch fmt i;
    if ch =? chr "%" then
      r ← escape (Datatypes.S i) ap;
      mret (Next r)
    else if ch =? 0 then mret (Stop ())
    else putch ch;; mret (Next (Datatypes.S i, ap))) (0%nat, ap).

Definition vprintfmt (fmt : list Z) (ap : va_list) : M S unit := vprintfmt_depth 1 fmt ap.
End printfmt.

(** ** Output does not depend on where it goes

    The formatter only uses [putch] to print: what it prints through any
    [putch] is what it prints into a list. *)

Definition emit (c : Z) : M (list Z) unit := mmodify (fun out => out ++ [c]).

Fixpoint put_all {S} (putch : Z -> M S unit) (out : list Z) : M S unit :=
  match out with
  | [] => mret ()
  | c :: out' => putch c;; put_all putch out'
  end.

Lemma put_all_app {S} (putch : Z -> M S unit) o1 o2 s :
  put_all putch (o1 ++ o2) s = (put_all putch o1;; put_all putch o2) s.
Proof.
  revert s. induction o1 as [|c o1 IH]; intros s; [done|]. simpl. unfold mbind, M_bind in *.
  destruct (putch c s); [apply IH|done|done].
Qed.

Lemma put_all_emit out o : put_all emit out o = Ok () (o ++ out).
Proof.
  revert o. induction out as [|c out IH]; intros o; simpl; [by rewrite app_nil_r|].
  unfold mbind, M_bind, emit at 1, mmodify. rewrite IH. by rewrite <- app_assoc.
Qed.

(** [m] prints through [putch] what [m0] appends to the list. *)
Definition emits {S A} (putch : Z -> M S unit) (m0 : M (list Z) A) (m : M S A) : Prop :=
  forall o a o', m0 o = Ok a o' ->
    exists out, o' = o ++ out /\ forall s, m s = (put_all putch out;; mret a) s.

Create HintDb emits.

Section emits.
Context {S : Type} (putch : Z -> M S unit).
Abbreviation emits := (emits putch).

Lemma emits_ret {A} (a : A) : emits (mret a) (mret a).
Proof using Type. intros o b o' [= <- <-]. exists []. by rewrite app_nil_r. Qed.

Lemma emits_undef {A} : emits (mundef : M _ A) (mundef : M _ A).
Proof using Type. by intros o a o'. Qed.

Lemma emits_lift {A} (x : option A) : emits (mlift x) (mlift x).
Proof using Type. destruct x; [apply emits_ret|apply emits_undef]. Qed.

Lemma emits_putch c : emits (emit c) (putch c).
Proof using Type.
  intros o a o' [= <- <-]. exists [c]. split; [done|]. intros s. simpl.
  unfold mbind, M_bind, mret, M_ret. destruct (putch c s) as [[] s'| |]; done.
Qed.

Lemma emits_bind {A B} (m0 : M (list Z) A) (m : M S A) (k0 : A -> M (list Z) B) (k : A -> M S B) :
  emits m0 m -> (forall a, emits (k0 a) (k a)) -> emits (m0 ≫= k0) (m ≫= k).
Proof using Type.
  intros Hm Hk o b o'. unfold mbind at 1, M_bind at 1.
  destruct (m0 o) as [a o1| |] eqn:E; [|done|done]. intros E'.
  destruct (Hm _ _ _ E) as (out1 & -> & H1), (Hk _ _ _ _ E') as (out2 & -> & H2).
  exists (out1 ++ out2). split; [by rewrite app_assoc|]. intros s.
  unfold mbind, M_bind in *. rewrite H1, put_all_app. unfold mbind, M_bind.
  destruct (put_all putch out1 s) as [[] s1| |]; [apply H2|done|done].
Qed.

Lemma emits_while_loop {A R} fuel (b0 : A -> M (list Z) (step A R)) (b : A -> M S (step A R)) a :
  (forall a, emits (b0 a) (b a)) -> emits (while_loop fuel b0 a) (while_loop fuel b a).
Proof using Type.
  intros Hb. revert a. induction fuel as [|fuel IH]; intros a; simpl; [apply emits_undef|].
  apply emits_bind; [apply Hb|]. intros [a'|r]; [apply IH|apply emits_ret].
Qed.
End emits.

#[export] Hint Resolve emits_ret emits_undef emits_lift emits_putch : emits.
#[export] Hint Extern 2 (emits _ (_ ≫= _) (_ ≫= _)) => apply emits_bind; [|intros ?] : emits.
#[export] Hint Extern 3 (emits _ (if ?b then _ else _) (if ?b then _ else _)) => destruct b : emits.
#[export] Hint Extern 3 (emits _ (match ?x with _ => _ end) (match ?x with _ => _ end)) => destruct x : emits.
#[export] Hint Extern 3 (emits _ (let '(_, _) := ?x in _) (let '(_, _) := ?x in _)) => destruct x : emits.

Section emits_printfmt.
Context {S : Type} (putch : Z -> M S unit).

Lemma emits_repeat n c : emits putch (repeat_putch emit n c) (repeat_putch putch n c).
Proof using Type. induction n; simpl; auto with emits. Qed.
Hint Resolve emits_repeat : emits.
Lemma emits_pad n c : emits putch (pad emit n c) (pad putch n c).
Proof using Type. apply emits_repeat. Qed.
Hint Resolve emits_pad : emits.

Lemma emits_printnum fuel num base w c :
  emits putch (printnum emit fuel num base w c) (printnum putch fuel num base w c).
Proof using Type.
  revert num w. induction fuel as [|fuel IH]; intros num w; simpl; auto 10 with emits.
Qed.
Hint Resolve emits_printnum : emits.

Lemma emits_fetch fmt i : emits putch (fetch fmt i) (fetch fmt i).
Proof using Type. apply emits_lift. Qed.
Hint Resolve emits_fetch : emits.

Lemma emits_read_precision fuel fmt i p ch :
  emits putch (read_precision fuel fmt i p ch) (read_precision fuel fmt i p ch).
Proof using Type.
  revert i p ch. induction fuel as [|fuel IH]; intros i p ch; simpl; auto 20 with emits.
Qed.
Hint Resolve emits_read_precision : emits.

Lemma emits_va_word conv ap : emits putch (va_word conv ap) (va_word conv ap).
Proof using Type. unfold va_word. auto with emits. Qed.
Hint Resolve emits_va_word : emits.

Lemma emits_reswitch fuel fmt i f ap :
  emits putch (reswitch fuel fmt i f ap) (reswitch fuel fmt i f ap).
Proof using Type.
  revert i f ap. induction fuel as [|fuel IH]; intros i f ap; simpl; [auto with emits|].
  unfold va_int. auto 20 with emits.
Qed.
Hint Resolve emits_reswitch : emits.

Lemma emits_put_string s f w p : emits putch (put_string emit s f w p) (put_string putch s f w p).
Proof using Type. revert w p. induction s as [|c s IH]; intros w p; simpl; auto 10 with emits. Qed.
Hint Resolve emits_put_string : emits.

Lemma emits_conv_string f ap : emits putch (conv_string emit f ap) (conv_string putch f ap).
Proof using Type. unfold conv_string, va_string. auto 20 with emits. Qed.
Lemma emits_conv_number f num base ap :
  emits putch (conv_number emit f num base ap) (conv_number putch f num base ap).
Proof using Type. unfold conv_number, print_number. auto with emits. Qed.
Hint Resolve emits_conv_string emits_conv_number : emits.
Lemma emits_conv_decimal f ap : emits putch (conv_decimal emit f ap) (conv_decimal putch f ap).
Proof using Type. unfold conv_decimal, getint. auto 20 with emits. Qed.
Hint Resolve emits_conv_decimal : emits.

Lemma emits_back fmt i : emits putch (back_to_percent fmt i) (back_to_percent fmt i).
Proof using Type. induction i; simpl; auto 10 with emits. Qed.
Hint Resolve emits_back : emits.

Lemma emits_vprintfmt_depth depth fmt ap :
  emits putch (vprintfmt_depth emit depth fmt ap) (vprintfmt_depth putch depth fmt ap).
Proof using Type.
  revert fmt ap. induction depth as [|depth IH]; intros fmt ap; cbn [vprintfmt_depth];
    apply emits_while_loop; intros [i ap']; unfold va_int, getuint; auto 40 with emits.
Qed.
End emits_printfmt.

(** ** Numbers *)

(** The digits of [n] in [base], most significant first. *)
Fixpoint num_digits (fuel : nat) (base n : Z) : list Z :=
  match fuel with
  | O => []
  | S fuel' => if n <? base then [n] else num_digits fuel' base (n / base) ++ [n mod base]
  end.

Definition dchar (d : Z) : Z := if d <? 10 then 48 + d else 87 + d.

(** A number as [printnum] shows it. *)
Definition number_out (base n w c : Z) : list Z :=
  let ds := num_digits 64 base n in
  replicate (Z.to_nat (w - Z.of_nat (length ds))) c ++ map dchar ds.

Lemma digit_char_eq d : 0 <= d < 16 -> digit_char d = Some (dchar d).
Proof.
  intros Hd. assert (Hall : forallb (fun d => bool_decide (digit_char d = Some (dchar d))) (seqZ 0 16) = true)
    by (vm_compute; reflexivity).
  rewrite forallb_forall in Hall. specialize (Hall d).
  rewrite bool_decide_eq_true in Hall. apply Hall, list_elem_of_In, elem_of_seqZ. lia.
Qed.

Lemma digit_dchar d : 0 <= d < 16 -> digit (dchar d) = Some d.
Proof.
  intros Hd. assert (Hall : forallb (fun d => bool_decide (digit (dchar d) = Some d)) (seqZ 0 16) = true)
    by (vm_compute; reflexivity).
  rewrite forallb_forall in Hall. specialize (Hall d).
  rewrite bool_decide_eq_true in Hall. apply Hall, list_elem_of_In, elem_of_seqZ. lia.
Qed.

Lemma repeat_emit n c o : repeat_putch emit n c o = Ok () (o ++ replicate n c).
Proof.
  revert o. induction n as [|n IH]; intros o; simpl; [by rewrite app_nil_r|].
  unfold mbind, M_bind, emit at 1, mmodify. rewrite IH. by rewrite <- app_assoc.
Qed.

Lemma pad_emit n c o : pad emit n c o = Ok () (o ++ replicate (Z.to_nat n) c).
Proof. apply repeat_emit. Qed.

Lemma int_in z : in_s32 z -> int z = Some z.
Proof. intros H. unfold int. by rewrite bool_decide_true. Qed.

Section numbers.
Context (base : Z) (Hbase : 2 <= base <= 16).

Lemma div_fuel fuel n : 0 <= n -> n < 2 ^ Z.of_nat (S fuel) -> n / base < 2 ^ Z.of_nat fuel.
Proof using Hbase.
  intros Hn Hlt. apply Z.div_lt_upper_bound; [lia|].
  rewrite Nat2Z.inj_succ, Z.pow_succ_r in Hlt by lia. nia.
Qed.

Lemma num_digits_pos fuel n : (0 < length (num_digits (S fuel) base n))%nat.
Proof using Type. simpl. case_match; [simpl; lia|rewrite length_app; simpl; lia]. Qed.

Lemma num_digits_length fuel n : (length (num_digits fuel base n) <= fuel)%nat.
Proof using Type.
  revert n. induction fuel as [|fuel IH]; intros n; simpl; [lia|].
  case_match; [simpl; lia|]. rewrite length_app. simpl. specialize (IH (n / base)). lia.
Qed.

Lemma num_digits_S fuel n :
  num_digits (S fuel) base n
  = if n <? base then [n] else num_digits fuel base (n / base) ++ [n mod base].
Proof using Type. done. Qed.

(** One level of the recursion. *)
Lemma printnum_S fuel n w c o :
  0 <= n -> in_s32 (w - 1) ->
  printnum emit (S fuel) n base w c o
  = (_ ← (if n <? base then pad emit (w - 1) c else printnum emit fuel (n / base) base (w - 1) c);
     emit (dchar (n mod base))) o.
Proof using Hbase.
  intros Hn Hw. cbn [printnum]. destruct (Z.eqb_spec base 0); [lia|].
  pose proof (Z.mod_pos_bound n base ltac:(lia)) as Hmod.
  assert (u32 (s32 (n mod base)) = n mod base) as -> by word_lia.
  rewrite (digit_char_eq (n mod base)), int_in by (done || lia).
  destruct (Z.leb_spec base n), (Z.ltb_spec n base); try lia; done.
Qed.

Lemma printnum_emit fuel n w c o :
  0 <= n < 2 ^ Z.of_nat (S fuel) -> in_s32 w -> in_s32 (w - Z.of_nat (S fuel)) ->
  printnum emit (S fuel) n base w c o
  = Ok () (o ++ replicate (Z.to_nat (w - Z.of_nat (length (num_digits (S fuel) base n)))) c
             ++ map dchar (num_digits (S fuel) base n)).
Proof using Hbase.
  revert n w o. induction fuel as [|fuel IH]; intros n w o Hn Hw Hwf;
    rewrite printnum_S, num_digits_S by (unfold in_s32 in *; lia);
    destruct (Z.ltb_spec n base) as [Hlt|Hge].
  1, 3: unfold mbind, M_bind; rewrite pad_emit; unfold emit, mmodify;
    rewrite Z.mod_small by lia; simpl; by rewrite <- app_assoc.
  - change (2 ^ Z.of_nat 1) with 2 in Hn. lia.
  - pose proof (div_fuel (S fuel) n ltac:(lia) ltac:(lia)) as Hd.
    pose proof (Z.div_pos n base ltac:(lia) ltac:(lia)).
    unfold mbind, M_bind. rewrite IH by (unfold in_s32 in *; lia).
    unfold emit, mmodify. f_equal. rewrite length_app, map_app, <- !app_assoc. simpl length.
    do 2 f_equal. f_equal. lia.
Qed.

Lemma print_number_emit n w c o :
  in_u64 n -> in_s32 w -> in_s32 (w - 64) ->
  print_number emit n base w c o = Ok () (o ++ number_out base n w c).
Proof using Hbase. intros Hn Hw Hw'. by apply (printnum_emit 63). Qed.

(** What the digits are. *)
Lemma num_digits_range fuel n : 0 <= n -> Forall (fun d => 0 <= d < base) (num_digits fuel base n).
Proof using Hbase.
  revert n. induction fuel as [|fuel IH]; intros n Hn; [constructor|]. rewrite num_digits_S.
  destruct (Z.ltb_spec n base); [by repeat constructor|].
  apply Forall_app. split; [apply IH, Z.div_pos; lia|].
  repeat constructor; apply Z.mod_pos_bound; lia.
Qed.

Lemma num_digits_value fuel n :
  0 <= n < 2 ^ Z.of_nat (S fuel) -> digits_value base 0 (num_digits (S fuel) base n) = n.
Proof using Hbase.
  revert n. induction fuel as [|fuel IH]; intros n Hn; rewrite num_digits_S;
    (destruct (Z.ltb_spec n base); [simpl; lia|]).
  - change (2 ^ Z.of_nat 1) with 2 in Hn. lia.
  - pose proof (div_fuel (S fuel) n ltac:(lia) ltac:(lia)).
    pose proof (Z.div_pos n base ltac:(lia) ltac:(lia)).
    unfold digits_value in *. rewrite foldl_app, IH by lia. simpl.
    pose proof (Z.div_mod n base ltac:(lia)). lia.
Qed.

Lemma num_digits_head fuel n :
  0 < n < 2 ^ Z.of_nat (S fuel) -> exists d ds, num_digits (S fuel) base n = d :: ds /\ d <> 0.
Proof using Hbase.
  revert n. induction fuel as [|fuel IH]; intros n Hn; rewrite num_digits_S;
    (destruct (Z.ltb_spec n base); [by exists n, []; split; [|lia]|]).
  - change (2 ^ Z.of_nat 1) with 2 in Hn. lia.
  - pose proof (div_fuel (S fuel) n ltac:(lia) ltac:(lia)).
    assert (0 < n / base) by (apply Z.div_str_pos; lia).
    destruct (IH (n / base)) as (d & ds & E & Hd); [lia|].
    exists d, (ds ++ [n mod base]). by rewrite E.
Qed.

Lemma num_digits_text n : in_u64 n -> digits_text base (map dchar (num_digits 64 base n)) (num_digits 64 base n).
Proof using Hbase.
  intros Hn. unfold digits_text. apply Forall2_fmap_l. apply Forall_Forall2_diag.
  eapply Forall_impl; [apply num_digits_range; unfold in_u64 in Hn; lia|].
  intros d Hd. simpl in *. split; [apply digit_dchar|]; lia.
Qed.
End numbers.

(** ** Formats as directives *)

Inductive conversion : Type :=
  | ConvDecimal | ConvUnsigned | ConvOctal | ConvHex | ConvPointer
  | ConvString | ConvChar | ConvPercent.

(** ["%" 0? width? (. precision)? l* conversion]; a width of 0 is none. *)
Record directive : Type := Directive {
  d_zero : bool;
  d_width : Z;
  d_precision : option Z;
  d_long : nat;
  d_conv : conversion;
}.

Inductive piece : Type :=
  | Literal (c : Z)
  | Escape (d : directive).

Definition conv_letter (c : conversion) : Z :=
  match c with
  | ConvDecimal => chr "d" | ConvUnsigned => chr "u" | ConvOctal => chr "o" | ConvHex => chr "x"
  | ConvPointer => chr "p" | ConvString => chr "s" | ConvChar => chr "c" | ConvPercent => chr "%"
  end.

Definition decimal_text (n : Z) : list Z := map dchar (num_digits 64 10 n).

Definition directive_text (d : directive) : list Z :=
  (if d_zero d then [chr "0"] else []) ++
  (if 0 <? d_width d then decimal_text (d_width d) else []) ++
  match d_precision d with Some p => chr "." :: decimal_text p | None => [] end ++
  replicate (d_long d) (chr "l") ++ [conv_letter (d_conv d)].

Definition piece_text (p : piece) : list Z :=
  match p with Literal c => [c] | Escape d => chr "%" :: directive_text d end.
Definition format_text (ps : list piece) : list Z := concat (map piece_text ps).

Definition directive_ok (d : directive) : Prop :=
  0 <= d_width d < 1000000 /\ match d_precision d with Some p => 0 < p < 1000000 | None => True end.
Definition piece_ok (p : piece) : Prop :=
  match p with Literal c => c <> 0 /\ c <> chr "%" | Escape d => directive_ok d end.
Definition arg_ok (a : varg) : Prop :=
  match a with VInt w => in_u64 w | VStr s => nonzero s /\ Z.of_nat (length s) < 1000000000 end.

(** The width as the directive gives it; without one, a precision makes it 0. *)
Definition dir_width (d : directive) : Z :=
  if 0 <? d_width d then d_width d else match d_precision d with Some _ => 0 | None => -1 end.
Definition dir_padc (d : directive) : Z := if d_zero d then chr "0" else chr " ".
Definition dir_flags (d : directive) : fmt_flags :=
  Flags (dir_padc d) (dir_width d) (default (-1) (d_precision d)) (Z.of_nat (d_long d)) false.

(** What a directive prints, and the arguments it leaves. *)
Definition signed_arg (d : directive) (w : Z) : Z := if (d_long d =? 0)%nat then s32 w else s64 w.
Definition unsigned_arg (d : directive) (w : Z) : Z := if (d_long d =? 0)%nat then u32 w else u64 w.

Definition render_number (d : directive) (base n : Z) : list Z :=
  number_out base n (dir_width d) (dir_padc d).
Definition render_string (d : directive) (s : list Z) : list Z :=
  let shown := match d_precision d with Some p => take (Z.to_nat p) s | None => s end in
  replicate (Z.to_nat (d_width d - Z.of_nat (length shown))) (dir_padc d) ++ shown.

Definition render_directive (d : directive) (ap : va_list) : option (list Z * va_list) :=
  match d_conv d, ap with
  | ConvPercent, _ => Some ([chr "%"], ap)
  | ConvChar, VInt w :: ap' => Some ([s32 w], ap')
  | ConvString, VStr s :: ap' => Some (render_string d s, ap')
  | ConvDecimal, VInt w :: ap' =>
      let n := signed_arg d w in
      if n =? - 2 ^ 63 then None else
      Some ((if n <? 0 then [chr "-"] else []) ++ render_number d 10 (Z.abs n), ap')
  | ConvUnsigned, VInt w :: ap' => Some (render_number d 10 (unsigned_arg d w), ap')
  | ConvOctal, VInt w :: ap' => Some (render_number d 8 (unsigned_arg d w), ap')
  | ConvHex, VInt w :: ap' => Some (render_number d 16 (unsigned_arg d w), ap')
  | ConvPointer, VInt w :: ap' => Some (chr "0" :: chr "x" :: render_number d 16 w, ap')
  | _, _ => None
  end.

Fixpoint render (ps : list piece) (ap : va_list) : option (list Z) :=
  match ps with
  | [] => Some []
  | Literal c :: ps' => out ← render ps' ap; Some (c :: out)
  | Escape d :: ps' =>
      '(o, ap') ← render_directive d ap; out ← render ps' ap'; Some (o ++ out)
  end.

(** *** Reading a directive *)

Section parsing.
Context {S : Type} (fmt : list Z).

Lemma fetch_cons i c l (s : S) : drop i fmt = c :: l -> fetch fmt i s = Ok c s.
Proof using Type.
  intros E. unfold fetch. assert (Hl : (i < length fmt)%nat).
  { destruct (decide (i < length fmt)%nat); [done|]. rewrite drop_ge in E by lia. done. }
  rewrite lookup_app_l by done. rewrite <- (Nat.add_0_r i), <- lookup_drop, E. done.
Qed.
Lemma drop_next i c l : drop i fmt = c :: l -> drop (Datatypes.S i) fmt = l.
Proof using Type. intros E. rewrite <- (Nat.add_1_r i), <- drop_drop, E. done. Qed.
Lemma drop_nexts i l1 l2 : drop i fmt = l1 ++ l2 -> drop (i + length l1) fmt = l2.
Proof using Type. intros E. rewrite <- drop_drop, E. apply drop_app_length. Qed.
Lemma fetch_end i (s : S) : i = length fmt -> fetch fmt i s = Ok 0 s.
Proof using Type. intros ->. unfold fetch. by rewrite lookup_app_r, Nat.sub_diag. Qed.

Lemma is_digit_dchar d : 0 <= d < 10 -> is_digit (dchar d) = true /\ dchar d = 48 + d.
Proof using Type.
  intros Hd. unfold dchar, is_digit. change (chr "0") with 48. change (chr "9") with 57.
  destruct (Z.ltb_spec d 10); [|lia]. split; [|done]. apply andb_true_iff. lia.
Qed.

Lemma read_precision_S fuel i p ch (s : S) :
  0 <= p < 1000000 -> 48 <= ch <= 57 ->
  read_precision (Datatypes.S fuel) fmt i p ch s
  = (c ← fetch fmt i;
     if negb (is_digit c) then mret (p * 10 + (ch - 48), i)
     else read_precision fuel fmt (Datatypes.S i) (p * 10 + (ch - 48)) c) s.
Proof using Type.
  intros Hp Hch. cbn [read_precision]. change (chr "0") with 48.
  rewrite int_in by (unfold in_s32; lia). simpl mlift. unfold mbind at 1, M_bind at 1, mret at 1, M_ret at 1.
  rewrite int_in by (unfold in_s32; lia). simpl mlift. unfold mbind at 1, M_bind at 1, mret at 1, M_ret at 1.
  rewrite int_in by (unfold in_s32; lia). simpl mlift. unfold mbind at 1, M_bind at 1, mret at 1, M_ret at 1.
  by rewrite Z.add_sub_assoc.
Qed.

Lemma read_precision_eq fuel i p d ds l c (s : S) :
  Forall (fun d => 0 <= d < 10) (d :: ds) -> 0 <= p ->
  drop i fmt = map dchar ds ++ c :: l -> is_digit c = false ->
  digits_value 10 p (d :: ds) < 1000000 -> (length ds < fuel)%nat ->
  read_precision fuel fmt i p (dchar d) s = Ok (digits_value 10 p (d :: ds), (i + length ds)%nat) s.
Proof using Type.
  revert fuel i p d. induction ds as [|d' ds IH]; intros fuel i p d Hds Hp Hdrop Hc Hv Hf;
    (destruct fuel as [|fuel]; [lia|]); apply Forall_cons in Hds as [Hd Hds];
    destruct (is_digit_dchar d Hd) as [_ Hdc];
    change (digits_value 10 p (d :: ?ds)) with (digits_value 10 (p * 10 + d) ds) in *.
  - change (digits_value 10 (p * 10 + d) []) with (p * 10 + d) in *.
    rewrite read_precision_S by lia. unfold mbind, M_bind. rewrite (fetch_cons i c l) by done.
    rewrite Hc, Hdc. simpl. unfold mret, M_ret. do 2 f_equal; lia.
  - assert (Hnn : Forall (fun d => 0 <= d) (d' :: ds)) by (eapply Forall_impl; [exact Hds|simpl; lia]).
    pose proof (digits_value_ge 10 (p * 10 + d) (d' :: ds) ltac:(lia) ltac:(lia) Hnn) as Hge.
    rewrite read_precision_S by lia. unfold mbind, M_bind. simpl in Hdrop.
    rewrite (fetch_cons i (dchar d') (map dchar ds ++ c :: l)) by done.
    destruct (is_digit_dchar d') as [-> _]; [by apply Forall_cons in Hds as [? _]|].
    rewrite Hdc. replace (48 + d - 48) with d by lia. cbv beta iota delta [negb].
    rewrite IH; [|done|lia|by eapply drop_next|done|done|simpl in Hf; lia].
    simpl length. do 2 f_equal. lia.
Qed.

(** One flag, read. *)
Lemma reswitch_flag fuel i c l f ap (s : S) :
  drop i fmt = c :: l ->
  reswitch (Datatypes.S fuel) fmt i f ap s
  = (let i := Datatypes.S i in
      if c =? chr "-" then reswitch fuel fmt i (set_padc (chr "-") f) ap
      else if c =? chr "0" then reswitch fuel fmt i (set_padc (chr "0") f) ap
      else if is_digit c then
        '(p, i) ← read_precision (Datatypes.S (length fmt)) fmt i 0 c;
        reswitch fuel fmt i (process_precision (set_precision p f)) ap
      else if c =? chr "*" then
        '(p, ap) ← va_int ap;
        reswitch fuel fmt i (process_precision (set_precision p f)) ap
      else if c =? chr "." then
        reswitch fuel fmt i (if width f <? 0 then set_width 0 f else f) ap
      else if c =? chr "#" then reswitch fuel fmt i (set_altflag f) ap
      else if c =? chr "l" then reswitch fuel fmt i (incr_lflag f) ap
      else mret (c, i, f, ap)) s.
Proof using Type. intros E. cbn [reswitch]. unfold mbind at 1, M_bind at 1. by rewrite (fetch_cons i c l). Qed.

(** A decimal number, read as a width or a precision. *)
Lemma reswitch_number fuel i n c l f ap (s : S) :
  0 < n < 1000000 -> drop i fmt = decimal_text n ++ c :: l -> is_digit c = false ->
  reswitch (Datatypes.S fuel) fmt i f ap s
  = reswitch fuel fmt (i + length (decimal_text n)) (process_precision (set_precision n f)) ap s.
Proof using Type.
  intros Hn Hdrop Hc. unfold decimal_text in *.
  pose proof (num_digits_value 10 ltac:(lia) 63 n ltac:(lia)) as Hv.
  pose proof (num_digits_range 10 ltac:(lia) 64 n ltac:(lia)) as Hr.
  destruct (num_digits_head 10 ltac:(lia) 63 n ltac:(lia)) as (d & ds & E & Hd0).
  rewrite E in *. assert (Hd : 0 <= d < 10) by (by apply Forall_cons in Hr as [? _]).
  simpl in Hdrop. rewrite (reswitch_flag _ i (dchar d) (map dchar ds ++ c :: l)) by done.
  destruct (is_digit_dchar d Hd) as [Hdig Hdc]. cbv zeta. rewrite Hdig.
  rewrite (proj2 (Z.eqb_neq (dchar d) (chr "-"))) by (change (chr "-") with 45; lia).
  rewrite (proj2 (Z.eqb_neq (dchar d) (chr "0"))) by (change (chr "0") with 48; lia).
  unfold mbind, M_bind.
  assert (Hlen : (length ds < Datatypes.S (length fmt))%nat).
  { apply (f_equal length) in Hdrop. rewrite length_drop in Hdrop. simpl in Hdrop.
    rewrite length_app, length_map in Hdrop. simpl in Hdrop. lia. }
  rewrite (read_precision_eq _ _ 0 d ds l c) by (done || lia || by eapply drop_next).
  rewrite Hv. simpl length. rewrite length_map. f_equal. lia.
Qed.
End parsing.

Lemma decimal_text_length n : 0 < n < 1000000 -> (0 < length (decimal_text n))%nat.
Proof. intros Hn. unfold decimal_text. rewrite length_map. apply (num_digits_pos 10 63). Qed.

Ltac not_flag := change (chr "-") with 45; change (chr "0") with 48; change (chr "*") with 42;
  change (chr ".") with 46; change (chr "#") with 35; change (chr "l") with 108.

Lemma conv_letter_flag c :
  let l := conv_letter c in
  (l =? chr "-") = false /\ (l =? chr "0") = false /\ is_digit l = false /\ (l =? chr "*") = false /\
  (l =? chr ".") = false /\ (l =? chr "#") = false /\ (l =? chr "l") = false.
Proof. by destruct c. Qed.

Section directive_parsing.
Context {S : Type} (fmt : list Z) (d : directive) (post : list Z) (Hd : directive_ok d).

Definition flags_zero : fmt_flags := set_padc (dir_padc d) no_flags.
Definition flags_width : fmt_flags :=
  if 0 <? d_width d then set_width (d_width d) flags_zero else flags_zero.
Definition flags_precision : fmt_flags :=
  match d_precision d with
  | Some p => set_precision p (if width flags_width <? 0 then set_width 0 flags_width else flags_width)
  | None => flags_width
  end.

Lemma reswitch_longs fuel i f ap (s : S) k c l :
  drop i fmt = replicate k (chr "l") ++ c :: l ->
  reswitch (k + fuel) fmt i f ap s
  = reswitch fuel fmt (i + k) (Flags (padc f) (width f) (precision f) (lflag f + Z.of_nat k) (altflag f)) ap s.
Proof using Type.
  revert i f. induction k as [|k IH]; intros i f E.
  - simpl. rewrite Nat.add_0_r, Z.add_0_r. by destruct f.
  - change (Datatypes.S k + fuel)%nat with (Datatypes.S (k + fuel)).
    rewrite (reswitch_flag fmt _ i _ _ _ _ _ E). cbv zeta.
    change (is_digit (chr "l")) with false. not_flag. cbn [Z.eqb Pos.eqb].
    rewrite IH by (eapply drop_next, E). destruct f as [pc w p lf al]. unfold incr_lflag; simpl.
    f_equal; [lia|]. f_equal. lia.
Qed.

Lemma reswitch_conv fuel i f ap (s : S) :
  drop i fmt = conv_letter (d_conv d) :: post ->
  reswitch (Datatypes.S fuel) fmt i f ap s = Ok (conv_letter (d_conv d), Datatypes.S i, f, ap) s.
Proof using Type.
  intros E. rewrite (reswitch_flag fmt _ i _ _ _ _ _ E). cbv zeta.
  destruct (conv_letter_flag (d_conv d)) as (-> & -> & -> & -> & -> & -> & ->). done.
Qed.

(** A tail of the directive starts with a character that is not a digit. *)
Lemma tail_not_digit :
  exists c l, replicate (d_long d) (chr "l") ++ conv_letter (d_conv d) :: post = c :: l /\ is_digit c = false.
Proof using Type.
  destruct (d_long d); simpl; eexists _, _; (split; [done|]); [|done].
  destruct (conv_letter_flag (d_conv d)); tauto.
Qed.

Lemma reswitch_zero fuel i ap l (s : S) :
  drop i fmt = (if d_zero d then [chr "0"] else []) ++ l ->
  reswitch ((if d_zero d then 1 else 0) + fuel) fmt i no_flags ap s
  = reswitch fuel fmt (i + length (if d_zero d then [chr "0"] else [])) flags_zero ap s.
Proof using Type.
  unfold flags_zero, dir_padc. destruct (d_zero d); intros E; simpl Nat.add.
  - by rewrite (reswitch_flag fmt _ i _ _ _ _ _ E), Nat.add_1_r.
  - by rewrite Nat.add_0_r.
Qed.

Lemma reswitch_width fuel i ap c l (s : S) :
  drop i fmt = (if 0 <? d_width d then decimal_text (d_width d) else []) ++ c :: l ->
  is_digit c = false ->
  reswitch ((if 0 <? d_width d then 1 else 0) + fuel) fmt i flags_zero ap s
  = reswitch fuel fmt (i + length (if 0 <? d_width d then decimal_text (d_width d) else [])) flags_width ap s.
Proof using Hd.
  destruct Hd as [Hw _]. unfold flags_width. destruct (Z.ltb_spec 0 (d_width d)); intros E Hc; simpl Nat.add.
  - by rewrite (reswitch_number fmt _ i (d_width d) c l) by (done || lia).
  - by rewrite Nat.add_0_r.
Qed.

Definition precision_text : list Z :=
  match d_precision d with Some p => chr "." :: decimal_text p | None => [] end.

Lemma reswitch_precision fuel i ap c l (s : S) :
  drop i fmt = precision_text ++ c :: l -> is_digit c = false ->
  reswitch (match d_precision d with Some _ => 2 | None => 0 end + fuel) fmt i flags_width ap s
  = reswitch fuel fmt (i + length precision_text) flags_precision ap s.
Proof using Hd.
  destruct Hd as [_ Hp]. unfold flags_precision, precision_text.
  destruct (d_precision d) as [p|]; intros E Hc; simpl Nat.add; [|by rewrite Nat.add_0_r].
  rewrite (reswitch_flag fmt _ i _ _ _ _ _ E). cbv zeta.
  change (is_digit (chr ".")) with false. not_flag. cbn [Z.eqb Pos.eqb].
  rewrite (reswitch_number fmt _ (Datatypes.S i) p c l) by (done || lia || by eapply drop_next, E).
  f_equal; [lia|]. unfold process_precision. simpl.
  destruct (Z.ltb_spec (width flags_width) 0); simpl; [done|].
  destruct (Z.ltb_spec (width flags_width) 0); [lia|done].
Qed.

Lemma flags_precision_eq :
  Flags (padc flags_precision) (width flags_precision) (precision flags_precision)
    (lflag flags_precision + Z.of_nat (d_long d)) (altflag flags_precision) = dir_flags d.
Proof using Hd.
  unfold dir_flags, dir_width, flags_precision, flags_width, flags_zero.
  destruct (Z.ltb_spec 0 (d_width d)), (d_precision d) as [p|]; simpl; try done.
  by destruct (Z.ltb_spec (d_width d) 0); [lia|].
Qed.

Lemma reswitch_directive i ap (s : S) :
  drop i fmt = directive_text d ++ post ->
  reswitch (Datatypes.S (length fmt)) fmt i no_flags ap s
  = Ok (conv_letter (d_conv d), (i + length (directive_text d))%nat, dir_flags d, ap) s.
Proof using Hd.
  intros E. unfold directive_text in *. fold precision_text in *. rewrite <- !app_assoc in E.
  set (z := if d_zero d then [chr "0"] else []) in *.
  set (w := if 0 <? d_width d then decimal_text (d_width d) else []) in *.
  pose proof (f_equal length E) as Hlen. rewrite length_drop, !length_app, length_replicate in Hlen.
  simpl in Hlen.
  set (k1 := (if d_zero d then 1 else 0)%nat). set (k2 := (if (0 <? d_width d)%Z then 1 else 0)%nat).
  set (k3 := match d_precision d with Some _ => 2%nat | None => 0%nat end).
  assert (Hk1 : (k1 <= length z)%nat) by (unfold k1, z; destruct (d_zero d); simpl; lia).
  assert (Hk2 : (k2 <= length w)%nat).
  { unfold k2, w. destruct (Z.ltb_spec 0 (d_width d)); [|simpl; lia].
    destruct Hd. pose proof (decimal_text_length (d_width d) ltac:(lia)). lia. }
  assert (Hk3 : (k3 <= length precision_text)%nat).
  { unfold k3, precision_text. destruct Hd as [_ Hp]. destruct (d_precision d) as [p|]; [|simpl; lia].
    pose proof (decimal_text_length p ltac:(lia)). simpl. lia. }
  assert (Hf : exists fuel, Datatypes.S (length fmt) = (k1 + (k2 + (k3 + (d_long d + Datatypes.S fuel))))%nat).
  { exists (length fmt - (k1 + (k2 + (k3 + d_long d))))%nat. lia. }
  destruct Hf as [fuel ->].
  destruct tail_not_digit as (c & l & Htail & Hc). simpl in E. rewrite Htail in E.
  unfold k1. rewrite (reswitch_zero _ i _ _ s E). fold z. apply drop_nexts in E.
  assert (Hc2 : exists c2 l2, precision_text ++ c :: l = c2 :: l2 /\ is_digit c2 = false).
  { unfold precision_text. destruct (d_precision d); simpl; eauto. }
  destruct Hc2 as (c2 & l2 & E2 & Hc2). rewrite E2 in E.
  unfold k2. rewrite (reswitch_width _ _ _ _ _ s E Hc2). fold w. apply drop_nexts in E.
  rewrite <- E2 in E.
  unfold k3. rewrite (reswitch_precision _ _ _ _ _ s E Hc). apply drop_nexts in E.
  rewrite <- Htail in E. rewrite (reswitch_longs _ _ _ _ s _ _ _ E). apply drop_nexts in E.
  rewrite length_replicate in E. rewrite flags_precision_eq, (reswitch_conv _ _ _ _ s E).
  do 4 f_equal. rewrite !length_app, length_replicate. simpl. lia.
Qed.
End directive_parsing.

(** *** Printing a directive *)

Lemma c_str_nonzero s : nonzero s -> c_str s = s.
Proof.
  induction 1 as [|c s Hc Hs IH]; [done|]. simpl. by rewrite (proj2 (Z.eqb_neq c 0)), IH.
Qed.

Lemma put_string_emit s f w p o :
  nonzero s -> altflag f = false -> in_s32 w -> in_s32 (w - Z.of_nat (length s)) ->
  let shown := if p <? 0 then s else take (Z.to_nat p) s in
  put_string emit s f w p o = Ok (w - Z.of_nat (length shown)) (o ++ shown).
Proof.
  intros Hs Ha. revert w p o. induction Hs as [|c s Hc Hs IH]; intros w p o Hw Hl shown.
  - unfold shown. rewrite take_nil. unfold mret, M_ret.
    destruct (p <? 0); simpl; rewrite app_nil_r, Z.sub_0_r; done.
  - simpl put_string. rewrite (proj2 (Z.eqb_neq c 0)) by done. rewrite Ha. simpl length in Hl.
    unfold shown. destruct (Z.ltb_spec p 0) as [Hp|Hp]; simpl orb.
    + unfold mbind, M_bind. simpl. rewrite int_in by (unfold in_s32 in *; lia). simpl.
      rewrite IH by (unfold in_s32 in *; lia). destruct (Z.ltb_spec p 0); [|lia].
      rewrite <- app_assoc. f_equal. lia.
    + destruct (Z.leb_spec 0 (p - 1)) as [Hp1|Hp1].
      * unfold mbind, M_bind. simpl. rewrite int_in by (unfold in_s32 in *; lia). simpl.
        rewrite IH by (unfold in_s32 in *; lia). destruct (Z.ltb_spec (p - 1) 0); [lia|].
        replace (Z.to_nat p) with (Datatypes.S (Z.to_nat (p - 1))) by lia. simpl.
        rewrite <- app_assoc. f_equal. lia.
      * replace (Z.to_nat p) with 0%nat by lia. simpl. rewrite app_nil_r. unfold mret, M_ret.
        f_equal. lia.
Qed.

Section directives.
Context (d : directive) (Hd : directive_ok d).

Lemma dir_width_range : -1 <= dir_width d < 1000000.
Proof using Hd.
  destruct Hd as [Hw _]. unfold dir_width. destruct (Z.ltb_spec 0 (d_width d)); [lia|].
  destruct (d_precision d); lia.
Qed.

Lemma dir_precision_range :
  match d_precision d with Some p => 0 < p < 1000000 | None => True end.
Proof using Hd. apply Hd. Qed.

Lemma conv_number_emit n base ap o :
  2 <= base <= 16 -> in_u64 n ->
  conv_number emit (dir_flags d) n base ap o = Ok ap (o ++ render_number d base n).
Proof using Hd.
  intros Hb Hn. pose proof dir_width_range. unfold conv_number, mbind, M_bind.
  rewrite print_number_emit by (done || unfold in_s32; simpl; lia). done.
Qed.

Lemma conv_string_emit s ap o :
  nonzero s -> Z.of_nat (length s) < 1000000000 ->
  conv_string emit (dir_flags d) (VStr s :: ap) o = Ok ap (o ++ render_string d s).
Proof using Hd.
  intros Hs Hlen. pose proof dir_width_range as Hw. pose proof dir_precision_range as Hp.
  unfold conv_string, va_string. rewrite (c_str_nonzero s Hs). cbn [mbind M_bind mret M_ret].
  assert (Hpad : (padc (dir_flags d) =? chr "-") = false) by (simpl; unfold dir_padc; by destruct (d_zero d)).
  assert (Hprec : precision (dir_flags d) = default (-1) (d_precision d)) by done.
  assert (Hwid : width (dir_flags d) = dir_width d) by done.
  set (shown := match d_precision d with Some p => take (Z.to_nat p) s | None => s end).
  assert (Hshown : (if default (-1) (d_precision d) <? 0 then s
    else take (Z.to_nat (default (-1) (d_precision d))) s) = shown).
  { unfold shown. destruct (d_precision d) as [p|]; simpl; [by destruct (Z.ltb_spec p 0); [lia|]|done]. }
  assert (Hl : (length shown <= length s)%nat).
  { unfold shown. destruct (d_precision d); [rewrite length_take; lia|done]. }
  assert (Hmin : Z.min (u64 (default (-1) (d_precision d))) (Z.of_nat (length s)) = Z.of_nat (length shown)).
  { unfold shown. destruct (d_precision d) as [p|]; simpl.
    - rewrite u64_small, length_take by (unfold in_u64; lia). lia.
    - unfold u64. change (-1 mod 2 ^ 64) with 18446744073709551615. lia. }
  unfold mbind at 1, M_bind at 1, mret at 1, M_ret at 1. cbv beta iota zeta.
  change (default (text "(null)") (Some s)) with s.
  rewrite Hpad, Hprec, Hwid, Hmin. unfold render_string. fold shown.
  unfold mbind, M_bind, mret, M_ret. change (negb false) with true. rewrite andb_true_r.
  destruct (Z.ltb_spec 0 (dir_width d)) as [Hpos|Hneg].
  - assert (Hdw : dir_width d = d_width d).
    { unfold dir_width in *. destruct (Z.ltb_spec 0 (d_width d)); [done|]. destruct (d_precision d); lia. }
    assert (Hs32 : s32 (u64 (u64 (dir_width d) - Z.of_nat (length shown)))
      = dir_width d - Z.of_nat (length shown)) by word_lia.
    rewrite Hs32, pad_emit. simpl padc.
    rewrite put_string_emit by (done || unfold in_s32; lia). rewrite Hshown.
    rewrite pad_emit, Hdw. replace (Z.to_nat (Z.min _ _ - _)) with 0%nat by lia.
    simpl. by rewrite app_nil_r, <- app_assoc.
  - rewrite put_string_emit by (done || unfold in_s32; lia). rewrite Hshown.
    assert (Hdw : d_width d <= 0).
    { unfold dir_width in *. destruct (Z.ltb_spec 0 (d_width d)); lia. }
    rewrite pad_emit. replace (Z.to_nat (dir_width d - _)) with 0%nat by lia.
    replace (Z.to_nat (d_width d - _)) with 0%nat by lia. simpl. by rewrite app_nil_r.
Qed.

Lemma getint_eq w ap o :
  getint (VInt w :: ap) (lflag (dir_flags d)) o = Ok (u64 (signed_arg d w), ap) o :> outcome (list Z) _.
Proof using Type.
  unfold getint, signed_arg. simpl. destruct (d_long d) as [|[|k]]; simpl; [done..|].
  destruct (Z.leb_spec 2 (Z.of_nat (S (S k)))); [done|lia].
Qed.
Lemma getuint_eq w ap o :
  getuint (VInt w :: ap) (lflag (dir_flags d)) o = Ok (unsigned_arg d w, ap) o :> outcome (list Z) _.
Proof using Type.
  unfold getuint, unsigned_arg. simpl. destruct (d_long d) as [|[|k]]; simpl; [done..|].
  destruct (Z.leb_spec 2 (Z.of_nat (S (S k)))); [done|lia].
Qed.

Lemma signed_arg_range w : in_s64 (signed_arg d w).
Proof using Type. unfold signed_arg. case_match; word_lia. Qed.
Lemma unsigned_arg_range w : in_u64 (unsigned_arg d w).
Proof using Type. unfold unsigned_arg. case_match; word_lia. Qed.

Lemma conv_decimal_emit w ap o :
  let n := signed_arg d w in
  n <> - 2 ^ 63 ->
  conv_decimal emit (dir_flags d) (VInt w :: ap) o
  = Ok ap (o ++ (if n <? 0 then [chr "-"] else []) ++ render_number d 10 (Z.abs n)).
Proof using Hd.
  intros n Hn. pose proof (signed_arg_range w) as Hr. fold n in Hr.
  unfold conv_decimal. unfold mbind at 1, M_bind at 1. rewrite getint_eq. fold n. cbv beta iota.
  assert (s64 (u64 n) = n) as -> by word_lia.
  unfold mbind, M_bind. destruct (Z.ltb_spec n 0).
  - rewrite long_in by (unfold in_s64 in *; lia). cbn [emit mmodify mlift mret M_ret].
    rewrite conv_number_emit by (lia || apply u64_in). rewrite <- app_assoc.
    by rewrite u64_small, Z.abs_neq by (unfold in_u64, in_s64 in *; lia).
  - unfold mret, M_ret. rewrite conv_number_emit by (lia || apply u64_in).
    by rewrite u64_small, Z.abs_eq by (unfold in_u64, in_s64 in *; lia).
Qed.
End directives.

(** *** Whole formats *)

Definition args_ok (ap : va_list) : Prop := Forall arg_ok ap.

Lemma render_directive_args d ap out ap' :
  render_directive d ap = Some (out, ap') -> args_ok ap -> args_ok ap'.
Proof.
  intros E Ha. unfold render_directive in E.
  destruct (d_conv d), ap as [|[w|s] ap]; try done; try (injection E as <- <-);
    try (by apply Forall_cons in Ha as [_ Ha]); try done.
  destruct (_ =? _); [done|]. injection E as <- <-. by apply Forall_cons in Ha as [_ Ha].
Qed.

(** The body of the loop of [vprintfmt], by what it finds. *)
Lemma vprintfmt_loop fmt (body : nat * va_list -> M (list Z) (step (nat * va_list) unit)) :
  (forall i c l ap o, drop i fmt = c :: l -> c <> 0 -> c <> chr "%" ->
     body (i, ap) o = Ok (Next (Datatypes.S i, ap)) (o ++ [c])) ->
  (forall i d l ap o out ap', drop i fmt = piece_text (Escape d) ++ l -> directive_ok d -> args_ok ap ->
     render_directive d ap = Some (out, ap') ->
     body (i, ap) o = Ok (Next (i + length (piece_text (Escape d)), ap')%nat) (o ++ out)) ->
  (forall ap o, body (length fmt, ap) o = Ok (Stop ()) o) ->
  forall ps fuel i ap o out,
    Forall piece_ok ps -> args_ok ap -> drop i fmt = format_text ps -> (i <= length fmt)%nat ->
    (length (drop i fmt) < fuel)%nat -> render ps ap = Some out ->
    while_loop fuel body (i, ap) o = Ok () (o ++ out).
Proof.
  intros Hlit Hesc Hend ps. induction ps as [|p ps IH]; intros fuel i ap o out Hps Ha E Hi Hf Hr;
    (destruct fuel as [|fuel]; [lia|]); cbn [while_loop]; unfold mbind, M_bind.
  - injection Hr as <-. apply (f_equal length) in E. rewrite length_drop in E. simpl in E.
    replace i with (length fmt) by lia. rewrite Hend, app_nil_r. done.
  - apply Forall_cons in Hps as [Hp Hps]. unfold format_text in E. simpl in E. fold (format_text ps) in E.
    rewrite length_drop in Hf. pose proof (f_equal length E) as Hl. rewrite length_drop, length_app in Hl.
    destruct p as [c|d]; simpl in Hr.
    + destruct Hp as [Hc0 Hcp]. rewrite (Hlit _ _ _ _ _ E Hc0 Hcp).
      destruct (render ps ap) as [out'|] eqn:Er; [|done]. injection Hr as <-. simpl in Hl.
      rewrite (IH _ _ _ _ out'); [by rewrite <- app_assoc|done|done|by eapply drop_next, E|lia| |done].
      rewrite length_drop. lia.
    + destruct (render_directive d ap) as [[o1 ap1]|] eqn:Ed; [|done]. simpl in Hr.
      destruct (render ps ap1) as [out'|] eqn:Er; [|done]. injection Hr as <-.
      rewrite (Hesc _ _ _ _ _ _ _ E Hp Ha Ed). simpl in Hl.
      rewrite (IH _ _ _ _ out'); [by rewrite <- app_assoc|done|by eapply render_directive_args| | | |done].
      * by apply drop_nexts in E.
      * simpl. lia.
      * rewrite length_drop. simpl. lia.
Qed.

(** Decides which case a conversion letter selects. *)
Ltac eval_letters := repeat
  match goal with
  | |- context [conv_letter ?c =? chr ?x] =>
      let b := eval vm_compute in (conv_letter c =? chr x) in
      change (conv_letter c =? chr x) with b; cbv iota
  end.

Lemma vprintfmt_emit ps ap out o :
  Forall piece_ok ps -> args_ok ap -> render ps ap = Some out ->
  vprintfmt emit (format_text ps) ap o = Ok () (o ++ out).
Proof.
  intros Hps Ha Hr. unfold vprintfmt. cbn [vprintfmt_depth]. set (fmt := format_text ps).
  apply (vprintfmt_loop fmt) with (ps := ps); try done; [| | |lia|rewrite drop_0; lia].
  - intros i c l ap' o' E Hc0 Hcp. unfold mbind, M_bind. rewrite (fetch_cons fmt i c l) by done.
    rewrite (proj2 (Z.eqb_neq c (chr "%"))), (proj2 (Z.eqb_neq c 0)) by done. done.
  - intros i d l ap' o' out' ap'' E Hd Ha' Ed. simpl in E. unfold mbind at 1 2, M_bind at 1 2.
    rewrite (fetch_cons fmt i (chr "%") (directive_text d ++ l)) by done.
    change (chr "%" =? chr "%") with true. cbv beta iota. unfold mbind, M_bind.
    rewrite (reswitch_directive fmt d l Hd (S i)) by (by eapply drop_next, E). cbv beta iota.
    simpl length. replace (i + S (length (directive_text d)))%nat with (S i + length (directive_text d))%nat by lia.
    unfold render_directive in Ed. destruct (d_conv d) eqn:Ec; eval_letters;
      destruct ap' as [|[w|s] ap']; try done; try (apply Forall_cons in Ha' as [Ha1 Ha']).
    + destruct (Z.eqb_spec (signed_arg d w) (- 2 ^ 63)); [done|]. injection Ed as <- <-.
      by rewrite (conv_decimal_emit d Hd).
    + injection Ed as <- <-. rewrite getuint_eq.
      by rewrite (conv_number_emit d Hd) by (lia || apply unsigned_arg_range).
    + injection Ed as <- <-. rewrite getuint_eq.
      by rewrite (conv_number_emit d Hd) by (lia || apply unsigned_arg_range).
    + injection Ed as <- <-. rewrite getuint_eq.
      by rewrite (conv_number_emit d Hd) by (lia || apply unsigned_arg_range).
    + injection Ed as <- <-. cbn [emit mmodify va_word mret M_ret].
      rewrite (u64_small w Ha1), (conv_number_emit d Hd) by (lia || exact Ha1). by rewrite <- !app_assoc.
    + injection Ed as <- <-. destruct Ha1. by rewrite (conv_string_emit d Hd).
    + by injection Ed as <- <-.
    + by injection Ed as <- <-.
    + by injection Ed as <- <-.
    + by injection Ed as <- <-.
  - intros ap' o'. unfold mbind, M_bind. by rewrite fetch_end.
Qed.


(** In a base from 2 to 16 [printnum] prints the padding and then the
    digits of the number: each below the base, the first one not 0 unless the
    number is 0, and their value is the number.  In base 1, which its comment
    allows, the recursion does not end, whatever the stack. *)
Lemma printnum_spec {S} (putch : Z -> M S unit) n base w c s :
  2 <= base <= 16 -> in_u64 n -> -1 <= w < 1000000 ->
  (exists ds,
    print_number putch n base w c s
    = put_all putch (replicate (Z.to_nat (w - Z.of_nat (length ds))) c ++ map dchar ds) s /\
    Forall (fun d => 0 <= d < base) ds /\ digits_value base 0 ds = n /\
    (n = 0 -> ds = [0]) /\ (0 < n -> head ds <> Some 0 /\ ds <> [])) /\
  (0 < n -> forall fuel, printnum putch fuel n 1 w c s = Undef).
Proof.
  intros Hb Hn Hw. split.
  - exists (num_digits 64 base n).
    pose proof (print_number_emit base Hb n w c [] Hn ltac:(unfold in_s32; lia) ltac:(unfold in_s32; lia)) as E.
    destruct (emits_printnum putch _ _ _ _ _ _ _ _ E) as (out & Ho & H). simpl in Ho. subst out.
    split_and!.
    + unfold print_number. rewrite H. unfold mbind, M_bind, number_out.
      by destruct (put_all putch _ s) as [[] s'| |].
    + apply num_digits_range; unfold in_u64 in Hn; lia.
    + by apply num_digits_value.
    + intros ->. rewrite (num_digits_S base). by destruct (Z.ltb_spec 0 base); [|lia].
    + intros Hpos. destruct (num_digits_head base Hb 63 n) as (d & ds & E' & Hd); [unfold in_u64 in Hn; lia|].
      rewrite E'. simpl. split; congruence.
  - intros Hpos fuel. clear Hw. revert w. induction fuel as [|fuel IH]; intros w; [done|].
    cbn [printnum]. change (1 =? 0) with false. cbv iota. destruct (Z.leb_spec 1 n); [|lia].
    unfold mbind, M_bind. destruct (int (w - 1)) as [w'|]; [|done].
    simpl mlift. unfold mret at 1, M_ret at 1. by rewrite Z.div_1_r, IH.
Qed.

(** ** Printing into a buffer *)

Record sprintbuf : Type := Sprintbuf { buf : Z; ebuf : Z; cnt : Z }.

Definition sprintputch (ch : Z) : M (mem * sprintbuf) unit :=
  '(m, b) ← mget;
  c ← mlift (int (cnt b + 1));
  if buf b <? ebuf b then
    match store8 (buf b) ch m with
    | Ok _ m' => mput (m', Sprintbuf (buf b + 1) (ebuf b) c)
    | _ => mundef
    end
  else mput (m, Sprintbuf (buf b) (ebuf b) c).

Definition vsnprintf (str size : Z) (fmt : list Z) (ap : va_list) : M mem Z := fun m =>
  let b := Sprintbuf str (u64 (str + size - 1)) 0 in
  if (str =? NULL) || (ebuf b <? buf b) then Ok (- E_INVAL) m else
  match vprintfmt sprintputch fmt ap (m, b) with
  | Ok _ (m', b') => (store8 (buf b') 0;; mret (cnt b')) m'
  | _ => Undef
  end.

(** The variable arguments are the list [ap]. *)
Definition snprintf (str size : Z) (fmt : list Z) (ap : va_list) : M mem Z := vsnprintf str size fmt ap.

Lemma put_all_sprintputch out m b k :
  0 <= k -> ebuf b = buf b + k -> writable m (buf b) (k + 1) ->
  0 <= cnt b -> cnt b + Z.of_nat (length out) < 2 ^ 31 ->
  put_all sprintputch out (m, b)
  = Ok () (write_bytes (buf b) (map u8 (take (Z.to_nat k) out)) m,
           Sprintbuf (buf b + Z.min k (Z.of_nat (length out))) (ebuf b) (cnt b + Z.of_nat (length out))).
Proof.
  revert m b k. induction out as [|c out IH]; intros m b k Hk He Hw Hc Hn.
  - simpl. rewrite take_nil. simpl. unfold mret, M_ret. destruct b; simpl in *. do 3 f_equal; lia.
  - simpl in Hn |- *. unfold mbind at 1, M_bind at 1. unfold sprintputch at 1.
    unfold mbind at 1, M_bind at 1, mget. cbv beta iota.
    rewrite int_in by (unfold in_s32; lia). unfold mbind at 1, M_bind at 1. simpl mlift.
    unfold mret at 1, M_ret at 1. destruct (Z.ltb_spec (buf b) (ebuf b)).
    + rewrite store8_at by (apply Hw; lia). unfold mput.
      rewrite (IH _ _ (k - 1)); cbn [buf ebuf cnt]; [|lia|lia| |lia|lia].
      * replace (Z.to_nat k) with (S (Z.to_nat (k - 1))) by lia.
        cbn [take map write_bytes]. do 3 f_equal; try lia.
        apply write_bytes_insert. lia.
      * intros x Hx. rewrite lookup_insert_ne by lia. apply Hw. lia.
    + unfold mput. assert (k = 0) as -> by lia.
      rewrite (IH _ _ 0); cbn [buf ebuf cnt]; [|lia|lia|done|lia|lia].
      simpl. do 3 f_equal; lia.
Qed.

(** A text of 2^31 characters or more overflows the counter. *)
Lemma put_all_sprintputch_overflow out m b k :
  0 <= k -> ebuf b = buf b + k -> writable m (buf b) (k + 1) ->
  0 <= cnt b < 2 ^ 31 -> 2 ^ 31 <= cnt b + Z.of_nat (length out) ->
  put_all sprintputch out (m, b) = Undef.
Proof.
  intros Hk He Hw Hc Hn. set (n := Z.to_nat (2 ^ 31 - 1 - cnt b)).
  destruct (drop n out) as [|c rest] eqn:Ed.
  { apply (f_equal length) in Ed. rewrite length_drop in Ed. simpl length in Ed. lia. }
  rewrite <- (take_drop n out), put_all_app. unfold mbind, M_bind.
  rewrite (put_all_sprintputch (take n out) m b k) by (rewrite ?length_take; lia || done).
  rewrite Ed. cbn [put_all]. unfold mbind, M_bind, sprintputch at 1, mbind, M_bind, mget. cbn [cnt].
  unfold int. rewrite bool_decide_false; [done|]. rewrite length_take. unfold in_s32. lia.
Qed.

(** What [vsnprintf] does with the text [out]. *)
Definition sprinted (str size : Z) (out : list Z) (m : mem) : outcome mem Z :=
  if (str =? 0) || (size =? 0) then Ok (- E_INVAL) m
  else if Z.of_nat (length out) <? 2 ^ 31
  then Ok (Z.of_nat (length out))
          (write_bytes str (map u8 (take (Z.to_nat (size - 1)) out) ++ [0]) m)
  else Undef.

Section vsnprintf.
Context (str size : Z) (m : mem).
Context (Hs0 : 0 <= str) (Hsz : 0 <= size) (Hs64 : str + size <= 2 ^ 64) (Hw : writable m str size).

Lemma vsnprintf_emitted fmt ap out :
  vprintfmt emit fmt ap [] = Ok () out -> vsnprintf str size fmt ap m = sprinted str size out m.
Proof using Hs0 Hsz Hs64 Hw.
  intros E. unfold vsnprintf, sprinted. cbn [buf ebuf]. unfold NULL.
  destruct (Z.eqb_spec str 0) as [|Hs]; [done|]. simpl orb.
  rewrite u64_small by (unfold in_u64; lia).
  destruct (Z.ltb_spec (str + size - 1) str), (Z.eqb_spec size 0); try lia; [done|].
  destruct (emits_vprintfmt_depth sprintputch 1 _ _ _ _ _ E) as (out' & Ho & Hv).
  simpl in Ho. subst out'. unfold vprintfmt. rewrite Hv. unfold mbind at 1, M_bind at 1.
  destruct (Z.ltb_spec (Z.of_nat (length out)) (2 ^ 31)).
  - rewrite (put_all_sprintputch out m _ (size - 1)); cbn [buf ebuf cnt];
      [|lia|lia|by replace (size - 1 + 1) with size by lia|lia|lia].
    unfold mret at 1, M_ret at 1. unfold mbind, M_bind.
    cbn [buf ebuf cnt]. rewrite store8_at by (apply (writable_write m str size); [done|lia]).
    rewrite write_bytes_snoc, length_map, length_take. unfold mret, M_ret.
    do 2 f_equal. do 2 f_equal. lia.
  - by rewrite (put_all_sprintputch_overflow out m _ (size - 1)); cbn [buf ebuf cnt];
      [|lia|lia|replace (size - 1 + 1) with size by lia|lia|lia].
Qed.

Lemma vsnprintf_eq ps ap out :
  Forall piece_ok ps -> args_ok ap -> render ps ap = Some out ->
  vsnprintf str size (format_text ps) ap m = sprinted str size out m.
Proof using Hs0 Hsz Hs64 Hw.
  intros Hps Ha Hr. apply vsnprintf_emitted. exact (vprintfmt_emit ps ap out [] Hps Ha Hr).
Qed.
End vsnprintf.

(** C29: for a buffer of [size] writable bytes at [str], and every format
    and arguments for which the formatter prints a text into a list without
    undefined behaviour (the flags '-' and '#', a '*' for the width, '%e', a
    null string and unknown conversions included), [vsnprintf] returns the
    length of the whole text, stores as much of it as fits in [size - 1] bytes
    followed by a null character, and writes nothing outside the [size] bytes;
    without a buffer, or with one of size 0, it returns [-E_INVAL] and writes
    nothing.  A text of 2^31 characters or more is the exception: the counter,
    an [int], overflows.  For a format of the grammar of [render] and arguments
    of the right kinds the text is the reference rendering. *)
Theorem vsnprintf_spec str size fmt ap m :
  0 <= str -> 0 <= size -> str + size <= 2 ^ 64 -> writable m str size ->
  let returns out :=
    vsnprintf str size fmt ap m
    = if (str =? 0) || (size =? 0) then Ok (- E_INVAL) m
      else if Z.of_nat (length out) <? 2 ^ 31
      then Ok (Z.of_nat (length out))
              (write_bytes str (map u8 (take (Z.to_nat (size - 1)) out) ++ [0]) m)
      else Undef in
  (forall out, vprintfmt emit fmt ap [] = Ok () out -> returns out) /\
  (forall ps out, fmt = format_text ps -> Forall piece_ok ps -> args_ok ap -> render ps ap = Some out ->
     returns out).
Proof.
  intros Hs0 Hsz Hs64 Hw returns. split.
  - intros out E. by apply vsnprintf_emitted.
  - intros ps out -> Hps Ha Hr. by apply vsnprintf_eq.
Qed.

(** ** Printing and reading back *)

Definition long_decimal : directive := Directive false 0 None 1 ConvDecimal.
Definition long_hex : directive := Directive false 0 None 1 ConvHex.
(** ["%ld"] and ["0x%lx"]. *)
Definition decimal_format : list piece := [Escape long_decimal].
Definition hex_format : list piece := [Literal (chr "0"); Literal (chr "x"); Escape long_hex].

Lemma dchar_char d : 0 <= d < 16 -> in_u8 (dchar d) /\ dchar d <> 0.
Proof. intros Hd. unfold dchar, in_u8. destruct (Z.ltb_spec d 10); lia. Qed.

Lemma digits_chars base n :
  2 <= base <= 16 -> 0 <= n ->
  Forall (fun c => in_u8 c /\ c <> 0) (map dchar (num_digits 64 base n)).
Proof.
  intros Hb Hn. apply Forall_fmap. eapply Forall_impl; [by apply num_digits_range|].
  intros d Hd. simpl in *. apply dchar_char. lia.
Qed.

Lemma map_u8_bytes l : bytes l -> map u8 l = l.
Proof. induction 1 as [|b l Hb Hl IH]; [done|]. simpl. by rewrite u8_small, IH. Qed.

Section roundtrip.
Context (m : mem) (str size : Z).
Context (Hs : 0 < str) (Hsize : 68 <= size) (H64 : str + size <= 2 ^ 64) (Hw : writable m str size).

(** Text that fits is a string in the buffer afterwards. *)
Lemma vsnprintf_cstring ps ap out :
  Forall piece_ok ps -> args_ok ap -> render ps ap = Some out ->
  (length out <= 66)%nat -> Forall (fun c => in_u8 c /\ c <> 0) out ->
  exists m', vsnprintf str size (format_text ps) ap m = Ok (Z.of_nat (length out)) m' /\
    cstring m' str out.
Proof using Hs Hsize H64 Hw.
  intros Hps Ha Hr Hlen Hout. apply Forall_and in Hout as [Hb Hz]. eexists. split.
  - rewrite (vsnprintf_eq str size m ltac:(lia) ltac:(lia) H64 Hw ps ap out) by done. unfold sprinted.
    destruct (Z.eqb_spec str 0), (Z.eqb_spec size 0); try lia. simpl orb. cbv iota.
    rewrite (proj2 (Z.ltb_lt _ _)) by lia. reflexivity.
  - rewrite take_ge by lia. rewrite map_u8_bytes by done. split; [apply write_bytes_at|done].
Qed.

Lemma number_out_none base n c :
  2 <= base <= 16 -> number_out base n (-1) c = map dchar (num_digits 64 base n).
Proof using Type. intros Hb. unfold number_out. by replace (Z.to_nat _) with 0%nat by lia. Qed.

(** C30: what [vsnprintf] prints for ["%ld"], [strtol] in base 10 reads back
    as the same number, for every [long] but the smallest; what it prints
    for ["0x%lx"], [strtol] reads back both in base 16 and with the base left
    to the prefix. *)
Theorem printf_strtol_roundtrip n :
  - 2 ^ 63 < n < 2 ^ 63 ->
  (exists cnt m', vsnprintf str size (format_text decimal_format) [VInt (u64 n)] m = Ok cnt m' /\
     strtol str 0 10 m' = Ok n m') /\
  (0 <= n -> exists cnt m',
     vsnprintf str size (format_text hex_format) [VInt n] m = Ok cnt m' /\
     strtol str 0 16 m' = Ok n m' /\ strtol str 0 0 m' = Ok n m').
Proof using Hs Hsize H64 Hw.
  intros Hn. split.
  - assert (Hu : in_u64 (Z.abs n)) by (unfold in_u64; lia).
    set (ds := num_digits 64 10 (Z.abs n)).
    set (out := (if n <? 0 then [45] else []) ++ map dchar ds).
    assert (Hsig : signed_arg long_decimal (u64 n) = n) by (unfold signed_arg; simpl; word_lia).
    assert (Hr : render decimal_format [VInt (u64 n)] = Some out).
    { simpl. unfold render_directive. cbn [d_conv long_decimal]. rewrite Hsig.
      destruct (Z.eqb_spec n (- 2 ^ 63)); [lia|]. simpl. rewrite app_nil_r.
      unfold out, render_number. change (dir_width long_decimal) with (-1).
      by rewrite number_out_none by lia. }
    pose proof (num_digits_length 10 64 (Z.abs n)) as Hl.
    destruct (vsnprintf_cstring decimal_format [VInt (u64 n)] out) as (m' & E & Hc); [..|done| | |].
    { repeat constructor; simpl; lia. }
    { apply Forall_singleton. apply u64_in. }
    { unfold out. rewrite length_app, length_map. fold ds in Hl. destruct (n <? 0); simpl; lia. }
    { apply Forall_app. split; [|apply digits_chars; lia]. destruct (n <? 0); repeat constructor; done. }
    exists (Z.of_nat (length out)), m'. split; [done|].
    rewrite (strtol_eq m' str out 10 [] (n <? 0) 10 ds 0 Hc).
    + pose proof (num_digits_value 10 ltac:(lia) 63 (Z.abs n) ltac:(unfold in_u64 in Hu; lia)) as Hv.
      fold ds in Hv. rewrite Hv. rewrite bool_decide_true by lia. rewrite bool_decide_true by done.
      f_equal. destruct (Z.ltb_spec n 0); lia.
    + split; [|done]. exists [], (if n <? 0 then [45] else []), [], (map dchar ds).
      split_and!; [by rewrite app_nil_r|constructor| | |by apply num_digits_text; [lia|]|by destruct ds].
      * destruct (n <? 0); constructor.
      * constructor; [lia|]. intros ?. lia.
    + done.
  - intros Hn0. assert (Hu : in_u64 n) by (unfold in_u64; lia).
    set (ds := num_digits 64 16 n). set (out := [48; 120] ++ map dchar ds).
    assert (Hr : render hex_format [VInt n] = Some out).
    { simpl. unfold render_directive. cbn [d_conv long_hex]. unfold unsigned_arg. simpl.
      rewrite u64_small by done. unfold render_number. change (dir_width long_hex) with (-1).
      rewrite number_out_none by lia. by rewrite app_nil_r. }
    pose proof (num_digits_length 16 64 n) as Hl. fold ds in Hl.
    destruct (vsnprintf_cstring hex_format [VInt n] out) as (m' & E & Hc); [..|done| | |].
    { repeat constructor; simpl; try done; lia. }
    { apply Forall_singleton. exact Hu. }
    { unfold out. rewrite length_app, length_map. simpl. lia. }
    { apply Forall_app. split; [|apply digits_chars; lia]. repeat constructor; done. }
    exists (Z.of_nat (length out)), m'. split; [done|].
    assert (Hst : forall base, base = 0 \/ base = 16 -> strtol str 0 base m' = Ok n m').
    { intros base Hbase. rewrite (strtol_eq m' str out base [] false 16 ds 0 Hc); [| |done].
      - pose proof (num_digits_value 16 ltac:(lia) 63 n ltac:(unfold in_u64 in Hu; lia)) as Hv.
        fold ds in Hv. rewrite Hv. by rewrite !bool_decide_true by (done || lia).
      - split; [|done]. exists [], [], [48; 120], (map dchar ds).
        split_and!; [by rewrite app_nil_r|constructor|constructor|by constructor| |done].
        by apply num_digits_text; [lia|]. }
    split; apply Hst; auto.
Qed.
End roundtrip.

(** The ['-'] flag is documented to pad on the right; for numbers it pads on
    the left, with minus signs. *)
Lemma minus_flag_number {S} (putch : Z -> M S unit) s :
  vprintfmt putch (text "%-5d") [VInt 42] s = put_all putch (text "---42") s.
Proof.
  assert (E : vprintfmt_depth emit 1 (text "%-5d") [VInt 42] [] = Ok () (text "---42"))
    by (vm_compute; reflexivity).
  destruct (emits_vprintfmt_depth putch 1 _ _ _ _ _ E) as (out & Ho & H).
  simpl in Ho. subst out. unfold vprintfmt. rewrite H. unfold mbind, M_bind.
  by destruct (put_all putch _ s) as [[] s'| |].
Qed.

(** *** Concrete formats *)

(** ["a%5.2s=0x%08lx%%"]. *)
Definition sample_format : list piece :=
  [Literal (chr "a"); Escape (Directive false 5 (Some 2) 0 ConvString); Literal (chr "=");
   Literal (chr "0"); Literal (chr "x"); Escape (Directive true 8 None 1 ConvHex);
   Escape (Directive false 0 None 0 ConvPercent)].
Definition sample_args : va_list := [VStr (text "xyz"); VInt 48879].

Lemma sample_format_ok : Forall piece_ok sample_format.
Proof. repeat (apply Forall_cons; split); [..|constructor]; simpl; try split; simpl; done || lia. Qed.
Lemma sample_args_ok : args_ok sample_args.
Proof.
  repeat (apply Forall_cons; split); [split; [vm_compute; repeat constructor; done|done]|done|constructor].
Qed.


Lemma printnum_spec_witness :
  exists ds, print_number emit 255 16 6 48 [] = put_all emit (replicate (Z.to_nat (6 - Z.of_nat (length ds))) 48 ++ map dchar ds) [] /\
  digits_value 16 0 ds = 255.
Proof.
  destruct (printnum_spec emit 255 16 6 48 [] ltac:(lia) ltac:(done) ltac:(lia))
    as [(ds & E & _ & Hv & _) _].
  exists ds. split; [exact E|exact Hv].
Defined.

Lemma sample_buffer_writable n : writable (write_bytes 400 (replicate n 0) ∅) 400 (Z.of_nat n).
Proof.
  intros x Hx. rewrite write_bytes_lookup, length_replicate, decide_True by lia.
  apply lookup_lt_is_Some_2. rewrite length_replicate. lia.
Qed.

(** A buffer of 8 bytes is too small for the 18 characters; a format outside
    the grammar, ["%-5s|%e"]. *)
Lemma vsnprintf_spec_witness :
  let m := write_bytes 400 (replicate 8 0) ∅ in
  vsnprintf 400 8 (format_text sample_format) sample_args m
  = Ok 18 (write_bytes 400 (text "a   xy=" ++ [0]) m) /\
  vsnprintf 400 8 (text "%-5s|%e") [VStr (text "ab"); VInt 4] m
  = Ok 19 (write_bytes 400 (text "ab   |o" ++ [0]) m).
Proof.
  set (m := write_bytes 400 (replicate 8 0) ∅). split.
  - exact (proj2 (vsnprintf_spec 400 8 (format_text sample_format) sample_args m
      ltac:(done) ltac:(done) ltac:(done) (sample_buffer_writable 8))
      sample_format (text "a   xy=0x0000beef%") eq_refl sample_format_ok sample_args_ok eq_refl).
  - exact (proj1 (vsnprintf_spec 400 8 (text "%-5s|%e") [VStr (text "ab"); VInt 4] m
      ltac:(done) ltac:(done) ltac:(done) (sample_buffer_writable 8))
      (text "ab   |out of memory") eq_refl).
Defined.

Lemma printf_strtol_roundtrip_witness :
  let m := write_bytes 400 (replicate 68 0) ∅ in
  exists cnt m', vsnprintf 400 68 (format_text decimal_format) [VInt (u64 (-1234))] m = Ok cnt m' /\
    strtol 400 0 10 m' = Ok (-1234) m'.
Proof.
  exact (proj1 (printf_strtol_roundtrip (write_bytes 400 (replicate 68 0) ∅) 400 68
    ltac:(done) ltac:(done) ltac:(done) (sample_buffer_writable 68) (-1234) ltac:(done))).
Defined.
