(* ===== verification/Machine.v ===== *)
(** * The machine under the kernel

    Control and status registers (the access macros of libs/riscv.h), the
    firmware's call interface (libs/sbi.c), and what the kernel builds directly
    on them: the console driver (kern/driver/console.c), interrupt enabling
    (kern/driver/intr.c, kern/sync/sync.h), the clock driver
    (kern/driver/clock.c) and console output (kern/libs/stdio.c).

    The firmware behind [ecall] is not part of the repository: it is the
    parameter [Platform].  The machine records every call made to it. *)

From S2P Require Import Prelude Defs CString Printfmt.

(** ** Control and status registers *)

Inductive csr : Type :=
  | Csr_sstatus | Csr_sie | Csr_sip | Csr_sscratch | Csr_stvec
  | Csr_sepc | Csr_sbadaddr | Csr_scause | Csr_satp.

#[global] Instance csr_eq_dec : EqDecision csr.
Proof. solve_decision. Defined.

Definition csr_code (r : csr) : nat :=
  match r with
  | Csr_sstatus => 0 | Csr_sie => 1 | Csr_sip => 2 | Csr_sscratch => 3 | Csr_stvec => 4
  | Csr_sepc => 5 | Csr_sbadaddr => 6 | Csr_scause => 7 | Csr_satp => 8
  end%nat.
Definition csr_decode (n : nat) : option csr :=
  [Csr_sstatus; Csr_sie; Csr_sip; Csr_sscratch; Csr_stvec; Csr_sepc; Csr_sbadaddr;
   Csr_scause; Csr_satp] !! n.
#[global] Instance csr_countable : Countable csr.
Proof. apply (inj_countable csr_code csr_decode). by intros []. Defined.

Definition SSTATUS_SIE : Z := 0x2.
Definition SSTATUS_SPP : Z := 0x100.
Definition IRQ_S_TIMER : Z := 5.
Definition MIP_STIP : Z := Z.shiftl 1 IRQ_S_TIMER.

(** ** Firmware *)

(** One call of the firmware: its number and arguments. *)
Record sbi_event : Type := SbiCall { sbi_type : Z; sbi_arg0 : Z; sbi_arg1 : Z; sbi_arg2 : Z }.

(** What the firmware does on a call, and how the time counter reads. *)
Class Platform : Type := {
  fw : Type;
  sbi_ecall : sbi_event -> fw -> Z * fw;
  time_csr : fw -> Z;
}.

Record machine `{Platform} : Type := Machine {
  csrs : gmap csr Z;
  fw_state : fw;
  trace : list sbi_event;
}.

Definition SBI_SET_TIMER : Z := 0.
Definition SBI_CONSOLE_PUTCHAR : Z := 1.
Definition SBI_CONSOLE_GETCHAR : Z := 2.
Definition SBI_SHUTDOWN : Z := 8.

(** [timebase] of kern/driver/clock.c. *)
Definition timebase : Z := 100000.

Section machine.
Context `{B : Build} `{P : Platform}.

Definition csr_value (m : machine) (r : csr) : Z := default 0 (csrs m !! r).
Definition put_csr (r : csr) (v : Z) (m : machine) : machine :=
  Machine _ (<[r := v]> (csrs m)) (fw_state m) (trace m).

Definition read_csr (r : csr) : M machine Z := m ← mget; mret (csr_value m r).
Definition write_csr (r : csr) (v : Z) : M machine unit := mmodify (put_csr r (u64 v)).
Definition swap_csr (r : csr) (v : Z) : M machine Z :=
  old ← read_csr r; write_csr r v;; mret old.
Definition set_csr (r : csr) (bits : Z) : M machine Z :=
  old ← read_csr r; write_csr r (Z.lor old (u64 bits));; mret old.
Definition clear_csr (r : csr) (bits : Z) : M machine Z :=
  old ← read_csr r; write_csr r (Z.land old (u64 (Z.lnot (u64 bits))));; mret old.

(** *** libs/sbi.c *)

Definition sbi_call (ty a0 a1 a2 : Z) : M machine Z := fun m =>
  let ev := SbiCall (u64 ty) (u64 a0) (u64 a1) (u64 a2) in
  let '(r, s) := sbi_ecall ev (fw_state m) in
  Ok (u64 r) (Machine _ (csrs m) s (trace m ++ [ev])).
Definition sbi_console_putchar (ch : Z) : M machine unit :=
  _ ← sbi_call SBI_CONSOLE_PUTCHAR (u8 ch) 0 0; mret ().
Definition sbi_set_timer (stime_value : Z) : M machine unit :=
  _ ← sbi_call SBI_SET_TIMER stime_value 0 0; mret ().
Definition sbi_console_getchar : M machine Z :=
  r ← sbi_call SBI_CONSOLE_GETCHAR 0 0 0; mret (s32 r).

(** *** kern/driver/console.c *)

Definition kbd_intr : M machine unit := mret ().
Definition serial_intr : M machine unit := mret ().
Definition cons_init : M machine unit := mret ().
Definition cons_putc (c : Z) : M machine unit := sbi_console_putchar (u8 c).
Definition cons_getc : M machine Z := sbi_console_getchar.

(** *** kern/driver/intr.c and kern/sync/sync.h *)

Definition intr_enable : M machine unit := _ ← set_csr Csr_sstatus SSTATUS_SIE; mret ().
Definition intr_disable : M machine unit := _ ← clear_csr Csr_sstatus SSTATUS_SIE; mret ().
Definition intr_save : M machine bool :=
  s ← read_csr Csr_sstatus;
  if truthy (Z.land s SSTATUS_SIE) then intr_disable;; mret true else mret false.
Definition intr_restore (flag : bool) : M machine unit :=
  if flag then intr_enable else mret ().

(** *** kern/driver/clock.c *)

Definition get_cycles : M machine Z := m ← mget; mret (u64 (time_csr (fw_state m))).
Definition clock_set_next_event : M machine unit :=
  t ← get_cycles; sbi_set_timer (u64 (t + timebase)).

(** *** kern/libs/stdio.c *)

(** [cputch] with the counter its second argument points to. *)
Definition cputch (c : Z) : M (machine * Z) unit :=
  '(m, cnt) ← mget;
  match cons_putc c m with
  | Ok _ m' => n ← mlift (int (cnt + 1)); mput (m', n)
  | Panic msg m' => fun _ => Panic msg (m', cnt)
  | Undef => mundef
  end.

(** Runs code that has a counter of its own. *)
Definition with_counter (f : M (machine * Z) unit) : M machine Z := fun m =>
  match f (m, 0) with
  | Ok _ (m', cnt) => Ok cnt m'
  | Panic msg (m', _) => Panic msg m'
  | Undef => Undef
  end.

Definition vcprintf (fmt : list Z) (ap : va_list) : M machine Z :=
  with_counter (vprintfmt cputch fmt ap).
Definition cprintf (fmt : list Z) (ap : va_list) : M machine Z :=
  if IS_VERIF then mret 0 else vcprintf fmt ap.
Definition cputchar (c : Z) : M machine unit := cons_putc c.

Fixpoint cputs_loop (str : list Z) : M (machine * Z) unit :=
  match str with
  | [] => mret ()
  | c :: str' => if c =? 0 then mret () else cputch c;; cputs_loop str'
  end.
Definition cputs (str : list Z) : M machine Z :=
  if IS_VERIF then mret 0 else with_counter (cputs_loop str;; cputch 10).

(** [getchar] polls the console until the firmware answers with something
    other than 0; [fuel] bounds the number of polls. *)
Fixpoint getchar (fuel : nat) : M machine Z :=
  match fuel with
  | O => mundef
  | Datatypes.S fuel' =>
      c ← cons_getc;
      if c =? 0 then getchar fuel' else mret c
  end.
End machine.

(** ** Output *)

Section output.
Context `{B : Build} `{P : Platform}.

(** The machine after the firmware calls [evs]. *)
Definition after_calls (evs : list sbi_event) (m : machine) : machine :=
  Machine _ (csrs m) (foldl (fun s ev => snd (sbi_ecall ev s)) (fw_state m) evs) (trace m ++ evs).

Definition put_event (c : Z) : sbi_event := SbiCall SBI_CONSOLE_PUTCHAR (u8 c) 0 0.

(** The characters that the firmware was asked to print. *)
Definition console_out (tr : list sbi_event) : list Z :=
  map sbi_arg0 (filter (fun ev => sbi_type ev = SBI_CONSOLE_PUTCHAR) tr).

Lemma after_calls_nil m : after_calls [] m = m.
Proof using Type. destruct m. unfold after_calls. simpl. by rewrite app_nil_r. Qed.

Lemma after_calls_app e1 e2 m : after_calls (e1 ++ e2) m = after_calls e2 (after_calls e1 m).
Proof using Type. unfold after_calls. simpl. by rewrite foldl_app, app_assoc. Qed.

Lemma console_out_app t1 t2 : console_out (t1 ++ t2) = console_out t1 ++ console_out t2.
Proof using Type. unfold console_out. by rewrite filter_app, map_app. Qed.

Lemma console_out_puts out : console_out (map put_event out) = map u8 out.
Proof using Type.
  induction out as [|c out IH]; [done|]. unfold console_out in *. simpl map at 2.
  rewrite filter_cons_True by done. simpl. by rewrite IH.
Qed.

Lemma u8_u8 z : u8 (u8 z) = u8 z.
Proof using Type. word_lia. Qed.
Lemma u64_u8 z : u64 (u8 z) = u8 z.
Proof using Type. word_lia. Qed.

Lemma cons_putc_eq c m : cons_putc c m = Ok () (after_calls [put_event c] m).
Proof using Type.
  unfold cons_putc, sbi_console_putchar, sbi_call, put_event, after_calls, mbind, M_bind. simpl.
  rewrite !u8_u8, u64_u8. by destruct (sbi_ecall _ _).
Qed.

Lemma put_all_cputch out m n :
  0 <= n -> n + Z.of_nat (length out) < 2 ^ 31 ->
  put_all cputch out (m, n) = Ok () (after_calls (map put_event out) m, n + Z.of_nat (length out)).
Proof using Type.
  revert m n. induction out as [|c out IH]; intros m n Hn Hlen.
  - simpl. rewrite after_calls_nil, Z.add_0_r. done.
  - simpl in Hlen |- *. unfold mbind at 1, M_bind at 1. unfold cputch at 1.
    unfold mbind at 1, M_bind at 1, mget. cbv beta iota. rewrite cons_putc_eq.
    rewrite int_in by (unfold in_s32; lia). unfold mbind at 1, M_bind at 1. simpl mlift.
    unfold mret at 1, M_ret at 1, mput. cbv beta iota. rewrite IH by lia.
    change (put_event c :: map put_event out) with ([put_event c] ++ map put_event out).
    rewrite after_calls_app. do 2 f_equal. lia.
Qed.

(** A format whose output has been computed. *)
Lemma vcprintf_emit fmt ap out m :
  vprintfmt emit fmt ap [] = Ok () out -> Z.of_nat (length out) < 2 ^ 31 ->
  vcprintf fmt ap m = Ok (Z.of_nat (length out)) (after_calls (map put_event out) m).
Proof using Type.
  intros E Hlen. destruct (emits_vprintfmt_depth cputch 1 _ _ _ _ _ E) as (out' & Ho & H).
  simpl in Ho. subst out'. unfold vcprintf, with_counter, vprintfmt. rewrite H.
  unfold mbind, M_bind. by rewrite put_all_cputch by lia.
Qed.

Lemma vcprintf_eq ps ap out m :
  Forall piece_ok ps -> args_ok ap -> render ps ap = Some out -> Z.of_nat (length out) < 2 ^ 31 ->
  vcprintf (format_text ps) ap m
  = Ok (Z.of_nat (length out)) (after_calls (map put_event out) m).
Proof using Type.
  intros Hps Ha Hr Hlen. apply vcprintf_emit; [|done]. by apply (vprintfmt_emit ps ap out []).
Qed.

Lemma cprintf_emit fmt ap out m :
  vprintfmt emit fmt ap [] = Ok () out -> Z.of_nat (length out) < 2 ^ 31 ->
  cprintf fmt ap m
  = if IS_VERIF then Ok 0 m
    else Ok (Z.of_nat (length out)) (after_calls (map put_event out) m).
Proof using Type.
  intros E Hlen. unfold cprintf. destruct IS_VERIF; [done|]. by apply vcprintf_emit.
Qed.

Lemma cputs_eq str m :
  nonzero str -> Z.of_nat (length str) < 1000000000 ->
  cputs str m
  = if IS_VERIF then Ok 0 m
    else Ok (Z.of_nat (length str) + 1) (after_calls (map put_event (str ++ [10])) m).
Proof using Type.
  intros Hs Hlen. unfold cputs. destruct IS_VERIF; [done|].
  assert (Hput : forall s n, nonzero s -> 
    (cputs_loop s;; cputch 10) n = put_all cputch (s ++ [10]) n).
  { intros s n Hnz. revert n. induction Hnz as [|c s Hc Hnz IH]; intros n; simpl.
    - unfold mbind, M_bind, mret, M_ret. by destruct (cputch 10 n) as [[] ?|?|].
    - rewrite (proj2 (Z.eqb_neq c 0)) by done. unfold mbind, M_bind in *.
      destruct (cputch c n); [apply IH|done|done]. }
  unfold with_counter. rewrite Hput by done. rewrite put_all_cputch.
  - rewrite length_app. simpl. f_equal. lia.
  - lia.
  - rewrite length_app. simpl. lia.
Qed.

(** [cprintf] prints the rendering of its format and arguments on the
    console, nothing else, and returns its length; in the verification build
    it does nothing and returns 0.  [cputs] prints its string and a newline. *)
Lemma cprintf_spec ps ap out str m :
  Forall piece_ok ps -> args_ok ap -> render ps ap = Some out -> Z.of_nat (length out) < 2 ^ 31 ->
  nonzero str -> Z.of_nat (length str) < 1000000000 ->
  wp (cprintf (format_text ps) ap) (fun r m' =>
    csrs m' = csrs m /\
    if IS_VERIF then r = 0 /\ trace m' = trace m
    else r = Z.of_nat (length out) /\
         console_out (trace m') = console_out (trace m) ++ map u8 out) m /\
  wp (cputs str) (fun r m' =>
    csrs m' = csrs m /\
    if IS_VERIF then r = 0 /\ trace m' = trace m
    else r = Z.of_nat (length str) + 1 /\
         console_out (trace m') = console_out (trace m) ++ map u8 str ++ [10]) m.
Proof using Type.
  intros Hps Ha Hr Hlen Hs Hsl. split.
  - unfold wp, cprintf. destruct IS_VERIF; [done|]. rewrite (vcprintf_eq ps ap out) by done.
    split_and!; [done..|]. simpl. by rewrite console_out_app, console_out_puts.
  - unfold wp. rewrite cputs_eq by done. destruct IS_VERIF; [done|].
    split_and!; [done..|]. simpl. by rewrite console_out_app, console_out_puts, map_app.
Qed.
End output.

(** ** Critical sections *)

Section critical.
Context `{P : Platform}.

Definition sie (m : machine) : bool := Z.testbit (csr_value m Csr_sstatus) 1.

(** [local_intr_save(flag); { body } local_intr_restore(flag);] *)
Definition critical {A} (body : M machine A) : M machine A :=
  flag ← intr_save;
  a ← body;
  intr_restore flag;;
  mret a.

Lemma land_sie z : truthy (Z.land z SSTATUS_SIE) = Z.testbit z 1.
Proof using Type.
  unfold truthy, SSTATUS_SIE. change 2 with (2 ^ 1).
  destruct (Z.testbit z 1) eqn:E.
  - apply negb_true_iff, Z.eqb_neq. intros Hz. apply (f_equal (fun x => Z.testbit x 1)) in Hz.
    by rewrite Z.land_spec, E, Z.pow2_bits_true, Z.bits_0 in Hz by lia.
  - apply negb_false_iff, Z.eqb_eq, Z.bits_inj'. intros i Hi.
    rewrite Z.land_spec, Z.pow2_bits_eqb, Z.bits_0 by lia.
    destruct (Z.eqb_spec 1 i) as [<-|]; [by rewrite E|apply andb_false_r].
Qed.

Lemma csr_put_same m r v : csr_value (put_csr r v m) r = v.
Proof using Type. unfold csr_value, put_csr. simpl. by rewrite lookup_insert_eq. Qed.
Lemma csr_put_other m r r' v : r <> r' -> csr_value (put_csr r v m) r' = csr_value m r'.
Proof using Type. intros H. unfold csr_value, put_csr. simpl. by rewrite lookup_insert_ne. Qed.

Lemma intr_save_eq m :
  intr_save m
  = Ok (sie m) (if sie m then
      put_csr Csr_sstatus (u64 (Z.land (csr_value m Csr_sstatus) (u64 (Z.lnot (u64 SSTATUS_SIE))))) m else m).
Proof using Type.
  unfold intr_save, mbind at 1, M_bind at 1, read_csr at 1. unfold mbind at 1, M_bind at 1, mget.
  unfold mret at 1, M_ret at 1. rewrite land_sie. unfold sie. by destruct (Z.testbit _ _).
Qed.

(** Clearing the interrupt bit and setting it again gives the register back. *)
Lemma sie_clear_bits s i :
  in_u64 s -> 0 <= i ->
  Z.testbit (u64 (Z.land s (u64 (Z.lnot (u64 SSTATUS_SIE))))) i = Z.testbit s i && negb (i =? 1).
Proof using Type.
  intros Hs Hi. destruct (Z.ltb_spec i 64).
  - unfold u64 at 1. rewrite Z.mod_pow2_bits_low, Z.land_spec by lia. f_equal.
    unfold u64 at 1. rewrite Z.mod_pow2_bits_low, Z.lnot_spec by lia. f_equal.
    change (u64 SSTATUS_SIE) with (2 ^ 1). rewrite Z.pow2_bits_eqb by lia. apply Z.eqb_sym.
  - rewrite (testbit_in_u64 s) by done. apply testbit_in_u64; [apply u64_in|done].
Qed.

Lemma sie_set_clear s :
  in_u64 s -> Z.testbit s 1 = true ->
  u64 (Z.lor (u64 (Z.land s (u64 (Z.lnot (u64 SSTATUS_SIE))))) (u64 SSTATUS_SIE)) = s.
Proof using Type.
  intros Hs Hsie. apply Z.bits_inj'. intros i Hi. destruct (Z.ltb_spec i 64).
  - unfold u64 at 1. rewrite Z.mod_pow2_bits_low, Z.lor_spec, sie_clear_bits by (done || lia).
    change (u64 SSTATUS_SIE) with (2 ^ 1). rewrite Z.pow2_bits_eqb by lia.
    rewrite (Z.eqb_sym 1 i). destruct (Z.eqb_spec i 1) as [->|]; cbn [negb]; [by rewrite Hsie|].
    by rewrite andb_true_r, orb_false_r.
  - by rewrite !testbit_in_u64 by (done || apply u64_in).
Qed.

(** Saving and restoring around code that leaves the machine alone. *)
Lemma intr_save_restore m :
  in_u64 (csr_value m Csr_sstatus) ->
  exists f m1, intr_save m = Ok f m1 /\ intr_restore f m1 = Ok () m.
Proof using Type.
  intros Hs. rewrite intr_save_eq. eexists _, _. split; [done|].
  destruct (sie m) eqn:E; [|done]. unfold sie in E.
  unfold intr_restore, intr_enable, set_csr, write_csr, read_csr, mbind, M_bind, mget, mmodify, mret, M_ret.
  rewrite csr_put_same, sie_set_clear by done. f_equal. destruct m as [cs f tr].
  unfold put_csr, csr_value in *. simpl in *. f_equal. rewrite insert_insert_eq.
  apply insert_id. destruct (cs !! Csr_sstatus); simpl in *; [done|]. discriminate E.
Qed.

(** C15: code between [local_intr_save] and [local_intr_restore] runs with
    supervisor interrupts off, whatever state it is entered in, and if it
    leaves [sstatus] alone, [sstatus] is afterwards exactly what it was, so
    critical sections nest. *)
Theorem critical_spec {A} (body : M machine A) (Q : A -> machine -> Prop) m :
  in_u64 (csr_value m Csr_sstatus) ->
  (forall m1, sie m1 = false -> trace m1 = trace m -> fw_state m1 = fw_state m ->
     wp body (fun a m2 => csr_value m2 Csr_sstatus = csr_value m1 Csr_sstatus /\
       forall m3, trace m3 = trace m2 -> fw_state m3 = fw_state m2 ->
         (forall r, r <> Csr_sstatus -> csr_value m3 r = csr_value m2 r) -> Q a m3) m1) ->
  wp (critical body) (fun a m' =>
    csr_value m' Csr_sstatus = csr_value m Csr_sstatus /\ Q a m') m.
Proof using Type.
  intros Hs Hbody. set (s := csr_value m Csr_sstatus) in *.
  set (s0 := u64 (Z.land s (u64 (Z.lnot (u64 SSTATUS_SIE))))).
  unfold critical. apply wp_bind. unfold wp at 1. rewrite intr_save_eq. fold s.
  destruct (sie m) eqn:Hsie; unfold sie in Hsie; fold s in Hsie.
  - apply wp_bind. eapply wp_mono.
    { apply Hbody; [|done|done]. unfold sie. rewrite csr_put_same. fold s0. unfold s0. rewrite sie_clear_bits by (done || lia). apply andb_false_r. }
    intros a m2 [E HQ]. rewrite csr_put_same in E. fold s0 in E.
    unfold wp, intr_restore, intr_enable, set_csr, write_csr, read_csr, mbind, M_bind, mget, mmodify, mret, M_ret.
    rewrite E, csr_put_same. split.
    + by apply sie_set_clear.
    + apply HQ; [done|done|]. intros r Hr. by rewrite csr_put_other.
  - apply wp_bind. eapply wp_mono; [by apply Hbody|].
    intros a m2 [E HQ]. unfold wp, intr_restore, mbind, M_bind, mret, M_ret. simpl.
    split; [exact E|]. by apply HQ.
Qed.
End critical.

(** ** Witnesses *)

(** A firmware with pending input and a clock. *)
Definition sample_platform : Platform := {|
  fw := list Z * Z;
  sbi_ecall ev s :=
    if sbi_type ev =? SBI_CONSOLE_GETCHAR then
      match s.1 with [] => (-1, s) | c :: l => (c, (l, s.2)) end
    else (0, s);
  time_csr s := s.2;
|}.
Definition sample_machine (sstatus : Z) (input : list Z) : @machine sample_platform :=
  Machine sample_platform {[ Csr_sstatus := sstatus ]} (input, 5000) [].

Lemma critical_spec_witness :
  wp (critical (P := sample_platform) (cputchar 65)) (fun _ m' =>
    csr_value m' Csr_sstatus = 2 /\ console_out (trace m') = [65]) (sample_machine 2 []).
Proof.
  apply (critical_spec (P := sample_platform) (cputchar 65) (fun _ m' => console_out (trace m') = [65])
    (sample_machine 2 [])); [by vm_compute|].
  intros m1 _ Ht Hf. unfold wp, cputchar. rewrite cons_putc_eq. split; [done|].
  intros m3 -> _ _. unfold after_calls. simpl. by rewrite Ht.
Defined.
