(* ===== verification/Kernel.v ===== *)
(** * Kernel state

    The variables of the kernel, and the way out of it: [panic]
    (kern/debug/panic.c, kern/debug/assert.h). *)

From S2P Require Import Prelude Defs CString Printfmt Machine DefaultPmm.

(** Addresses that the linker fixes (tools/kernel.ld). *)
Class Image : Type := {
  sym_end : Z;
  sym_etext : Z;
  sym_edata : Z;
  sym_kern_init : Z;
  sym_boot_page_table : Z;
  sym_alltraps : Z;
}.

(** The physical memory managers there are: what the function pointers of
    [pmm_manager] point to. *)
Inductive manager : Type := default_pmm_manager.

Definition manager_name (m : manager) : string :=
  match m with default_pmm_manager => "default_pmm_manager" end.

Record kernel `{Platform} : Type := Kernel {
  mach : machine;
  kmm : mm_state;
  pmm_manager : option manager;
  npage : Z;
  nbase : Z;
  va_pa_offset : Z;
  satp_virtual : Z;
  satp_physical : Z;
  ticks : Z;
  is_panic : bool;
}.

(** A message that ends a line. *)
Definition line (s : string) : list Z := text s ++ [10].

Section kernel.
Context `{B : Build} `{P : Platform}.

Definition set_mach (m : machine) (k : kernel) : kernel :=
  Kernel _ m (kmm k) (pmm_manager k) (npage k) (nbase k) (va_pa_offset k)
    (satp_virtual k) (satp_physical k) (ticks k) (is_panic k).
Definition set_kmm (m : mm_state) (k : kernel) : kernel :=
  Kernel _ (mach k) m (pmm_manager k) (npage k) (nbase k) (va_pa_offset k)
    (satp_virtual k) (satp_physical k) (ticks k) (is_panic k).
Definition set_manager (m : option manager) (k : kernel) : kernel :=
  Kernel _ (mach k) (kmm k) m (npage k) (nbase k) (va_pa_offset k)
    (satp_virtual k) (satp_physical k) (ticks k) (is_panic k).
Definition set_layout (va nb np : Z) (k : kernel) : kernel :=
  Kernel _ (mach k) (kmm k) (pmm_manager k) np nb va
    (satp_virtual k) (satp_physical k) (ticks k) (is_panic k).
Definition set_satp (v p : Z) (k : kernel) : kernel :=
  Kernel _ (mach k) (kmm k) (pmm_manager k) (npage k) (nbase k) (va_pa_offset k)
    v p (ticks k) (is_panic k).
Definition set_ticks (t : Z) (k : kernel) : kernel :=
  Kernel _ (mach k) (kmm k) (pmm_manager k) (npage k) (nbase k) (va_pa_offset k)
    (satp_virtual k) (satp_physical k) t (is_panic k).
Definition set_is_panic (b : bool) (k : kernel) : kernel :=
  Kernel _ (mach k) (kmm k) (pmm_manager k) (npage k) (nbase k) (va_pa_offset k)
    (satp_virtual k) (satp_physical k) (ticks k) b.

Definition machL : lens kernel machine := Lens mach set_mach.
Definition mmL : lens kernel mm_state := Lens kmm set_kmm.

#[global] Instance machL_laws : LensLaws machL.
Proof using Type. by split; intros; destruct s. Qed.
#[global] Instance mmL_laws : LensLaws mmL.
Proof using Type. by split; intros; destruct s. Qed.

Definition printk (fmt : list Z) (ap : va_list) : M kernel unit :=
  _ ← zoom machL (cprintf fmt ap); mret ().

(** [__panic]: a first panic prints its message; then the kernel stays in
    its monitor for good, so the caller never continues. *)
Definition panic {A} (file : string) (ln : Z) (fmt : list Z) (ap : va_list) (msg : string) : M kernel A :=
  k ← mget;
  _ ← (if is_panic k then mret () else
         mput (set_is_panic true k);;
         printk (line "kernel panic at %s:%d:" ++ text "    ") [VStr (text file); VInt ln];;
         (_ ← zoom machL (vcprintf fmt ap); mret ());;
         printk [10] []);
  zoom machL intr_disable;;
  mpanic msg.

(** [__warn]. *)
Definition warn (file : string) (ln : Z) (fmt : list Z) (ap : va_list) : M kernel unit :=
  printk (line "kernel warning at %s:%d:" ++ text "    ") [VStr (text file); VInt ln];;
  (_ ← zoom machL (vcprintf fmt ap); mret ());;
  printk [10] [].

Definition is_kernel_panic : M kernel bool := k ← mget; mret (is_panic k).

(** [assert(x)], [x] written out in [expr]. *)
Definition kassert (x : bool) (file : string) (ln : Z) (expr : string) : M kernel unit :=
  if x then mret () else panic file ln (text "assertion failed: %s") [VStr (text expr)] expr.
End kernel.

(** ** Formats the kernel prints *)

Definition plain (c : conversion) : directive := Directive false 0 None 0 c.
Definition hex16 : directive := Directive true 16 None 1 ConvHex.
Definition hex8 : directive := Directive true 8 None 0 ConvHex.
Definition lits (s : list Z) : list piece := map Literal s.

Definition hex16_out (v : Z) : list Z := render_number hex16 16 (u64 v).
Definition hex8_out (v : Z) : list Z := render_number hex8 16 (u32 v).
Definition decimal_out (v : Z) : list Z :=
  (if v <? 0 then [45] else []) ++ render_number (plain ConvDecimal) 10 (Z.abs v).

Lemma number_out_length base n w c :
  Z.of_nat (length (number_out base n w c)) <= Z.max 0 w + 64.
Proof.
  unfold number_out. rewrite length_app, length_replicate, length_map.
  pose proof (num_digits_length base 64 n). lia.
Qed.

Lemma hex16_out_length v : Z.of_nat (length (hex16_out v)) <= 80.
Proof. unfold hex16_out, render_number. etransitivity; [apply number_out_length|]. by vm_compute. Qed.
Lemma hex8_out_length v : Z.of_nat (length (hex8_out v)) <= 72.
Proof. unfold hex8_out, render_number. etransitivity; [apply number_out_length|]. by vm_compute. Qed.
Lemma decimal_out_length v : Z.of_nat (length (decimal_out v)) <= 65.
Proof.
  unfold decimal_out, render_number. rewrite length_app.
  pose proof (number_out_length 10 (Z.abs v) (dir_width (plain ConvDecimal)) (dir_padc (plain ConvDecimal))).
  change (dir_width (plain ConvDecimal)) with (-1) in *. destruct (v <? 0); simpl length; lia.
Qed.

Lemma lits_text s : concat (map piece_text (lits s)) = s.
Proof. induction s as [|c s IH]; [done|]. simpl. f_equal. exact IH. Qed.
Lemma lits_ok s : Forall (fun c => c <> 0 /\ c <> 37) s -> Forall piece_ok (lits s).
Proof. intros H. by apply Forall_fmap. Qed.
Lemma hex16_ok : piece_ok (Escape hex16).
Proof. split; simpl; [lia|done]. Qed.
Lemma hex8_ok : piece_ok (Escape hex8).
Proof. split; simpl; [lia|done]. Qed.
Lemma plain_ok c : piece_ok (Escape (plain c)).
Proof. split; simpl; [lia|done]. Qed.

(** The pieces of a fixed format: literals and the directives above. *)
Ltac pieces_ok :=
  repeat (apply Forall_app; split);
  first [apply lits_ok; vm_compute; repeat constructor; discriminate
        |apply Forall_singleton; (apply hex16_ok || apply hex8_ok || apply plain_ok)].

(** ** Rules *)

Section kernel_rules.
Context `{B : Build} `{P : Platform}.

(** Printing a computed text changes only what the firmware has seen. *)
Lemma printk_eq fmt ap out k :
  vprintfmt emit fmt ap [] = Ok () out -> Z.of_nat (length out) < 2 ^ 31 ->
  exists evs, printk fmt ap k = Ok () (set_mach (after_calls evs (mach k)) k) /\
    (if IS_VERIF then evs = [] else evs = map put_event out).
Proof using Type.
  intros E Hlen. unfold printk, zoom, mbind, M_bind. simpl.
  rewrite (cprintf_emit fmt ap out (mach k) E Hlen). destruct IS_VERIF.
  - exists []. rewrite after_calls_nil. done.
  - exists (map put_event out). done.
Qed.

(** A kernel that differs from [k] only in the firmware calls made. *)
Definition only_calls (k k' : kernel) : Prop :=
  exists evs, k' = set_mach (after_calls evs (mach k)) k.

Lemma only_calls_refl k : only_calls k k.
Proof using Type. exists []. rewrite after_calls_nil. by destruct k. Qed.
Lemma only_calls_trans k1 k2 k3 : only_calls k1 k2 -> only_calls k2 k3 -> only_calls k1 k3.
Proof using Type.
  intros [e1 ->] [e2 ->]. exists (e1 ++ e2). rewrite after_calls_app. by destruct k1.
Qed.

Lemma wp_printk fmt ap out k :
  vprintfmt emit fmt ap [] = Ok () out -> Z.of_nat (length out) < 2 ^ 31 ->
  wp (printk fmt ap) (fun _ => only_calls k) k.
Proof using Type.
  intros E Hlen. destruct (printk_eq fmt ap out k E Hlen) as (evs & Ek & _).
  unfold wp. rewrite Ek. by exists evs.
Qed.

Lemma wp_kassert (x : bool) file ln expr (Q : unit -> kernel -> Prop) k :
  x = true -> Q () k -> wp (kassert x file ln expr) Q k.
Proof using Type. intros -> HQ. exact HQ. Qed.

Lemma wp_printk_pieces fmt ps ap out k :
  fmt = format_text ps -> Forall piece_ok ps -> args_ok ap -> render ps ap = Some out ->
  Z.of_nat (length out) < 2 ^ 31 -> wp (printk fmt ap) (fun _ => only_calls k) k.
Proof using Type.
  intros -> Hps Ha Hr Hlen. apply (wp_printk _ _ out); [|done].
  apply (vprintfmt_emit ps ap out [] Hps Ha Hr).
Qed.

(** *** Code between outputs *)

(** [k] after output. *)
Lemma only_calls_eq k k' : only_calls k k' -> k' = set_mach (mach k') k.
Proof using Type. intros [evs ->]. by destruct k. Qed.

Lemma wp_output fmt ap out k k' :
  vprintfmt emit fmt ap [] = Ok () out -> Z.of_nat (length out) < 2 ^ 31 -> only_calls k k' ->
  wp (printk fmt ap) (fun _ => only_calls k) k'.
Proof using Type.
  intros E Hlen Hc. eapply wp_mono; [by apply (wp_printk fmt ap out)|].
  intros [] k''. by apply only_calls_trans.
Qed.
End kernel_rules.

Lemma render_lits s ps ap : render (lits s ++ ps) ap = (out ← render ps ap; Some (s ++ out)).
Proof.
  induction s as [|c s IH]; simpl; [by destruct (render ps ap)|]. rewrite IH. by destruct (render ps ap).
Qed.
Lemma render_lits_end s : render (lits s) [] = Some s.
Proof. rewrite <- (app_nil_r (lits s)), render_lits. simpl. by rewrite app_nil_r. Qed.
Lemma render_str s ps ap :
  render ([Escape (plain ConvString)] ++ ps) (VStr s :: ap) = (out ← render ps ap; Some (s ++ out)).
Proof.
  simpl. unfold render_directive, render_string. simpl. by replace (Z.to_nat _) with 0%nat by lia.
Qed.
Lemma render_dec n ps ap :
  in_s32 n ->
  render ([Escape (plain ConvDecimal)] ++ ps) (VInt n :: ap) = (out ← render ps ap; Some (decimal_out n ++ out)).
Proof.
  intros Hn. simpl. unfold render_directive, signed_arg. simpl. rewrite s32_small by done.
  unfold in_s32 in Hn. by rewrite (proj2 (Z.eqb_neq n _)) by lia.
Qed.
Lemma render_hex16 v ps ap :
  render ([Escape hex16] ++ ps) (VInt v :: ap) = (out ← render ps ap; Some (hex16_out v ++ out)).
Proof. done. Qed.
Lemma render_hex8 v ps ap :
  render ([Escape hex8] ++ ps) (VInt v :: ap) = (out ← render ps ap; Some (hex8_out v ++ out)).
Proof. done. Qed.

(** ** Code that only prints *)

Section prints.
Context `{B : Build} `{P : Platform}.

(** [k] after the output [out]; the verification build prints nothing. *)
Definition printed (out : list Z) (k : kernel) : kernel :=
  if IS_VERIF then k else set_mach (after_calls (map put_event out) (mach k)) k.

(** [m] returns, and all it does is to print [out]. *)
Definition prints (m : M kernel unit) (out : list Z) : Prop :=
  forall k, m k = Ok () (printed out k).

Lemma printed_app o1 o2 k : printed (o1 ++ o2) k = printed o2 (printed o1 k).
Proof using Type.
  unfold printed. destruct IS_VERIF; [done|]. rewrite map_app, after_calls_app. by destruct k.
Qed.
Lemma printed_nil k : printed [] k = k.
Proof using Type. unfold printed. destruct IS_VERIF; [done|]. simpl. rewrite after_calls_nil. by destruct k. Qed.

Lemma prints_nothing : prints (mret ()) [].
Proof using Type. intros k. by rewrite printed_nil. Qed.

Lemma prints_printk fmt ap out :
  vprintfmt emit fmt ap [] = Ok () out -> Z.of_nat (length out) < 2 ^ 31 -> prints (printk fmt ap) out.
Proof using Type.
  intros E Hlen k. unfold printk, zoom, mbind, M_bind. cbn [machL lget].
  rewrite (cprintf_emit fmt ap out (mach k) E Hlen). unfold printed.
  destruct IS_VERIF; cbn [lput]; unfold mret, M_ret; [by destruct k|done].
Qed.

Lemma prints_seq m1 m2 o1 o2 : prints m1 o1 -> prints m2 o2 -> prints (m1;; m2) (o1 ++ o2).
Proof using Type. intros H1 H2 k. unfold mbind, M_bind. by rewrite H1, H2, printed_app. Qed.

(** A fixed message. *)
Lemma prints_text s :
  vprintfmt emit s [] [] = Ok () s -> Z.of_nat (length s) < 2 ^ 31 -> prints (printk s []) s.
Proof using Type. apply prints_printk. Qed.

Lemma printed_console out k :
  console_out (trace (mach (printed out k)))
  = console_out (trace (mach k)) ++ if IS_VERIF then [] else map u8 out.
Proof using Type.
  unfold printed. destruct IS_VERIF; [by rewrite app_nil_r|].
  simpl. by rewrite console_out_app, console_out_puts.
Qed.

Lemma printed_csrs out k : csrs (mach (printed out k)) = csrs (mach k).
Proof using Type. unfold printed. by destruct IS_VERIF. Qed.
Lemma printed_ticks out k : ticks (printed out k) = ticks k.
Proof using Type. unfold printed. by destruct IS_VERIF. Qed.

Lemma printed_only_calls out k : only_calls k (printed out k).
Proof using Type. unfold printed. destruct IS_VERIF; [apply only_calls_refl|]. by eexists. Qed.
End prints.

(** ** Panic *)

Section panic_rules.
Context `{B : Build} `{P : Platform}.

Definition panic_pieces : list piece :=
  lits (text "kernel panic at ") ++ [Escape (plain ConvString)] ++ lits (text ":") ++
  [Escape (plain ConvDecimal)] ++ lits (line ":" ++ text "    ").
(** What a panic prints before its message. *)
Definition panic_header (file : string) (ln : Z) : list Z :=
  text "kernel panic at " ++ text file ++ text ":" ++ decimal_out ln ++ (line ":" ++ text "    ").

Lemma panic_header_emit file ln :
  nonzero (text file) -> Z.of_nat (length (text file)) < 1000000000 -> 0 <= ln < 2 ^ 31 ->
  vprintfmt emit (line "kernel panic at %s:%d:" ++ text "    ") [VStr (text file); VInt ln] []
    = Ok () (panic_header file ln) /\ Z.of_nat (length (panic_header file ln)) < 2 ^ 31.
Proof using Type.
  intros Hf Hfl Hln. split.
  - assert (line "kernel panic at %s:%d:" ++ text "    " = format_text panic_pieces) as -> by by vm_compute.
    apply (vprintfmt_emit _ _ (panic_header file ln) []).
    + unfold panic_pieces. pieces_ok.
    + apply Forall_cons; split; [done|]. apply Forall_cons; split; [|constructor]. simpl. unfold in_u64. lia.
    + unfold panic_pieces, panic_header. rewrite render_lits, render_str, render_lits, render_dec by (unfold in_s32; lia).
      by rewrite render_lits_end.
  - unfold panic_header. rewrite !length_app. pose proof (decimal_out_length ln).
    change (length (text "kernel panic at ")) with 16%nat. change (length (text ":")) with 1%nat.
    change (length (line ":")) with 2%nat. change (length (text "    ")) with 4%nat. lia.
Qed.

(** The kernel with supervisor interrupts off. *)
Definition interrupts_off (k : kernel) : Prop := sie (mach k) = false.

Lemma intr_disable_off m : exists m', intr_disable m = Ok () m' /\ sie m' = false /\ trace m' = trace m.
Proof using Type.
  unfold intr_disable, clear_csr, write_csr, read_csr, mbind, M_bind, mget, mmodify, mret, M_ret.
  eexists. split; [done|]. split; [|done]. unfold sie. rewrite csr_put_same.
  unfold u64 at 1. rewrite Z.mod_pow2_bits_low, Z.land_spec by lia.
  unfold u64 at 1. rewrite Z.mod_pow2_bits_low, Z.lnot_spec by lia.
  change (u64 SSTATUS_SIE) with (2 ^ 1). rewrite Z.pow2_bits_true by lia. apply andb_false_r.
Qed.

(** Everything but the machine and the panic flag is as before. *)
Definition rest_same (k k' : kernel) : Prop :=
  set_is_panic (is_panic k) (set_mach (mach k) k') = k.

Lemma panic_eq {A} file ln fmt ap out msg k :
  nonzero (text file) -> Z.of_nat (length (text file)) < 1000000000 -> 0 <= ln < 2 ^ 31 ->
  vprintfmt emit fmt ap [] = Ok () out -> Z.of_nat (length out) < 2 ^ 31 ->
  exists k', panic (A := A) file ln fmt ap msg k = Panic msg k' /\
    is_panic k' = true /\ interrupts_off k' /\ rest_same k k' /\
    console_out (trace (mach k')) = console_out (trace (mach k)) ++
      (if is_panic k then [] else
       if IS_VERIF then map u8 out else map u8 (panic_header file ln ++ out ++ [10])).
Proof using Type.
  intros Hf Hfl Hln E Hlen. destruct (panic_header_emit file ln Hf Hfl Hln) as [Eh Hh].
  unfold panic. unfold mbind at 1, M_bind at 1, mget. destruct (is_panic k) eqn:Ep.
  - unfold mbind, M_bind, mret at 1, M_ret at 1, zoom. simpl lget.
    destruct (intr_disable_off (mach k)) as (m' & Em & Hoff & Ht). rewrite Em.
    exists (set_mach m' k). split; [done|]. split_and!; [done|done|by destruct k|].
    simpl. by rewrite Ht, app_nil_r.
  - set (k1 := set_is_panic true k).
    destruct (printk_eq _ _ _ k1 Eh Hh) as (e1 & E1 & He1).
    set (k2 := set_mach (after_calls e1 (mach k1)) k1) in *.
    set (k3 := set_mach (after_calls (map put_event out) (mach k2)) k2).
    destruct (printk_eq [10] [] [10] k3) as (e3 & E3 & He3); [by vm_compute|by vm_compute|].
    destruct (intr_disable_off (after_calls e3 (mach k3))) as (m' & Em & Hoff & Ht).
    exists (set_mach m' k3). unfold mbind, M_bind, mput. rewrite E1. unfold zoom at 1. simpl lget.
    rewrite (vcprintf_emit fmt ap out) by done. cbn [machL lput]. fold k3. unfold mret at 1, M_ret at 1.
    change (printk [10] [] _) with (printk [10] [] k3). rewrite E3. unfold zoom. cbn [machL lget].
    change (mach (set_mach ?m ?k0)) with m. rewrite Em.
    split; [done|]. split_and!; [done|done|by destruct k; simpl in Ep; subst|].
    change (trace (mach (set_mach m' k3))) with (trace m'). rewrite Ht.
    change (trace (after_calls e3 (mach k3))) with (((trace (mach k) ++ e1) ++ map put_event out) ++ e3).
    rewrite !console_out_app, console_out_puts. clear Em Hoff Ht E1 E3.
    destruct IS_VERIF; rewrite He1, He3.
    + by rewrite !app_nil_r.
    + by rewrite !console_out_puts, !map_app, <- !app_assoc.
Qed.

(** C16: a panic never returns to its caller.  The first one prints its
    position and message (in the verification build, whose [cprintf] is
    empty, the message alone), a later one prints nothing; either way
    interrupts are off and nothing but the machine and the panic flag has
    changed. *)
Theorem panic_spec {A} file ln ps ap out msg k :
  nonzero (text file) -> Z.of_nat (length (text file)) < 1000000000 -> 0 <= ln < 2 ^ 31 ->
  Forall piece_ok ps -> args_ok ap -> render ps ap = Some out -> Z.of_nat (length out) < 2 ^ 31 ->
  exists k', panic (A := A) file ln (format_text ps) ap msg k = Panic msg k' /\
    is_panic k' = true /\ sie (mach k') = false /\ rest_same k k' /\
    console_out (trace (mach k')) = console_out (trace (mach k)) ++
      (if is_panic k then [] else
       if IS_VERIF then map u8 out else map u8 (panic_header file ln ++ out ++ [10])).
Proof using Type.
  intros Hf Hfl Hln Hps Ha Hr Hlen. apply panic_eq; try done. by apply (vprintfmt_emit ps ap out []).
Qed.
End panic_rules.

(** ** Witness *)

Definition sample_kernel (s : mm_state) : @kernel sample_platform :=
  Kernel sample_platform (sample_machine 2 []) s (Some default_pmm_manager)
    (NBASE + NPAGE (B := verify_build)) NBASE PHYSICAL_MEMORY_OFFSET 0 0 0 false.

Lemma panic_spec_witness :
  exists k', panic (B := kernel_build) (P := sample_platform) (A := Z) "a.c" 7 (text "bad %d") [VInt 5] "bad"
      (sample_kernel (Mm [] 0)) = Panic "bad" k' /\
    console_out (trace (mach k')) = line "kernel panic at a.c:7:" ++ text "    " ++ line "bad 5".
Proof.
  destruct (panic_spec (B := kernel_build) (P := sample_platform) (A := Z) "a.c" 7
    (lits (text "bad ") ++ [Escape (plain ConvDecimal)]) [VInt 5] (text "bad 5") "bad" (sample_kernel (Mm [] 0))
    ltac:(repeat (apply Forall_cons; split); [done|done|done|constructor]) ltac:(by vm_compute) ltac:(lia)
    ltac:(pieces_ok) ltac:(apply Forall_cons; split; [by vm_compute|constructor])
    ltac:(by vm_compute) ltac:(by vm_compute)) as (k' & E & _ & _ & _ & Eo).
  exists k'. split; [exact E|]. rewrite Eo. by vm_compute.
Defined.
