(* ===== verification/Pmm.v ===== *)
(** * Physical memory management

    kern/mm/pmm.c and kern/mm/pmm.h: the wrappers of the allocator that turn
    interrupts off, the conversions between pages and addresses, and the
    initialisation of the page array; and the self-tests of
    kern/mm/default_pmm.c, which call the allocator through the wrappers. *)

From S2P Require Import Prelude Defs CString Printfmt Atomic DefaultPmm Machine Kernel PmmManager PmmClient.

Section code.
Context `{B : Build} `{P : Platform} `{I : Image}.

(** ** The wrappers *)

(** A call through a function pointer of [pmm_manager]; before the manager is
    set the pointers are null. *)
Definition pmm_call (c : mm_call) : M kernel Z :=
  k ← mget;
  match pmm_manager k with
  | Some default_pmm_manager => zoom mmL (run_call c)
  | None => mundef
  end.

Definition local_intr_save : M kernel bool := zoom machL intr_save.
Definition local_intr_restore (flag : bool) : M kernel unit := zoom machL (intr_restore flag).

Definition init_memmap (base n : Z) : M kernel Z := pmm_call (CallInitMemmap base n).

Definition alloc_pages (n : Z) : M kernel Z :=
  intr_flag ← local_intr_save;
  page ← pmm_call (CallAlloc n);
  local_intr_restore intr_flag;;
  mret page.

Definition free_pages (base n : Z) : M kernel unit :=
  intr_flag ← local_intr_save;
  _ ← pmm_call (CallFree base n);
  local_intr_restore intr_flag.

Definition nr_free_pages : M kernel Z :=
  intr_flag ← local_intr_save;
  ret ← pmm_call CallNrFree;
  local_intr_restore intr_flag;;
  mret ret.

Definition alloc_page : M kernel Z := alloc_pages 1.
Definition free_page (page : Z) : M kernel unit := free_pages page 1.

(** ** Addresses *)

Definition page2ppn (page : Z) : M kernel Z := k ← mget; mret (u64 (page + nbase k)).
Definition page2pa (page : Z) : M kernel Z :=
  ppn ← page2ppn page; mret (u64 (Z.shiftl ppn PGSHIFT)).
Definition pa2page (pa : Z) : M kernel Z :=
  k ← mget;
  if npage k <=? PPN pa
  then panic "kern/mm/pmm.h" 93 (text "pa2page called with invalid pa") []
         "pa2page called with invalid pa"
  else mret (u64 (PPN pa - nbase k)).

Definition PADDR (file : string) (ln kva : Z) : M kernel Z :=
  if u64 kva <? KERNBASE
  then panic file ln (text "PADDR called with invalid kva %08lx") [VInt (u64 kva)]
         "PADDR called with invalid kva"
  else k ← mget; mret (u64 (u64 kva - va_pa_offset k)).

(** ** Initialisation *)

Definition init_pmm_manager : M kernel unit :=
  mmodify (set_manager (Some default_pmm_manager));;
  printk (line "memory management: %s") [VStr (text (manager_name default_pmm_manager))];;
  _ ← pmm_call CallInit;
  mret ().

(** [pages[i].flags = 0; SetPageReserved(i)] for every page. *)
Definition reserve_pages : M kernel unit :=
  _ ← for_range (R := Empty_set) NPAGE (fun i _ =>
        zoom mmL (zoom pagesL (store i 0));;
        zoom mmL (SetPageReserved i);;
        mret (Next ())) ();
  mret ().

Definition memory_format : list Z := line "  memory: 0x%016lx, [0x%016lx, 0x%016lx].".

(** The end of [page_init]: hand the pages behind the image to the manager;
    [mem_end] is the end of memory. *)
Definition page_init_free (mem_end : Z) : M kernel unit :=
  freemem ← PADDR "kern/mm/pmm.c" 106 sym_end;
  let mem_begin := ROUNDUP freemem PGSIZE in
  let mem_end := ROUNDDOWN mem_end PGSIZE in
  k ← mget;
  let top := u64 (npage k * PGSIZE) in
  let mem_end := if top <? mem_end then top else mem_end in
  if freemem <? mem_end then
    base ← pa2page mem_begin;
    init_ret ← init_memmap base (u64 (mem_end - mem_begin) / PGSIZE);
    kassert (init_ret =? 0) "kern/mm/pmm.c" 115 "init_ret == 0";;
    printk (line "free memory :") [];;
    printk memory_format
      [VInt (u64 (mem_end - mem_begin)); VInt mem_begin; VInt (u64 (mem_end - 1))]
  else mret ().

Definition page_init : M kernel unit :=
  mmodify (set_layout PHYSICAL_MEMORY_OFFSET NBASE (u64 (NBASE + NPAGE)));;
  let mem_begin := KERNEL_BEGIN_PADDR in
  let mem_size := KERNEL_MEMEND_PADDR - KERNEL_BEGIN_PADDR in
  let mem_end := KERNEL_MEMEND_PADDR in
  printk (line "physcial memory:") [];;
  printk memory_format [VInt (u64 mem_size); VInt mem_begin; VInt (u64 (mem_end - 1))];;
  reserve_pages;;
  page_init_free mem_end.

(** ** Self-tests *)

Definition check_file : string := "kern/mm/default_pmm.c".

Definition basic_check : M kernel unit :=
  p0 ← alloc_page;
  kassert (negb (p0 =? NULLPAGE)) check_file 113 "(p0 = alloc_page()) != NULLPAGE";;
  p1 ← alloc_page;
  kassert (negb (p1 =? NULLPAGE)) check_file 114 "(p1 = alloc_page()) != NULLPAGE";;
  p2 ← alloc_page;
  kassert (negb (p2 =? NULLPAGE)) check_file 115 "(p2 = alloc_page()) != NULLPAGE";;
  kassert (negb (p0 =? p1) && negb (p0 =? p2) && negb (p1 =? p2)) check_file 117
    "p0 != p1 && p0 != p2 && p1 != p2";;
  k ← mget;
  let top := u64 (npage k * PGSIZE) in
  a0 ← page2pa p0; kassert (a0 <? top) check_file 119 "page2pa(p0) < npage * PGSIZE";;
  a1 ← page2pa p1; kassert (a1 <? top) check_file 120 "page2pa(p1) < npage * PGSIZE";;
  a2 ← page2pa p2; kassert (a2 <? top) check_file 121 "page2pa(p2) < npage * PGSIZE";;
  free_page p0;;
  free_page p1;;
  free_page p2.

(** The two counting loops of [default_check], [step] being [+ 1] and
    [- 1]. *)
Definition count_pages (step : Z -> Z) (not_reserved not_allocated : Z) : M kernel (Z * Z) :=
  r ← for_range (R := Empty_set) NPAGE (fun p '(nr, na) =>
        b ← zoom mmL (PageReserved p);
        if negb (truthy b) then
          a ← zoom mmL (PageAllocated p);
          mret (Next (u64 (step nr), if negb (truthy a) then u64 (step na) else na))
        else mret (Next (nr, na))) (not_reserved, not_allocated);
  match r with Next x => mret x | Stop e => match (e : Empty_set) with end end.

Definition default_check : M kernel unit :=
  '(not_reserved, not_allocated) ← count_pages (fun n => n + 1) 0 0;
  n ← nr_free_pages;
  kassert (not_allocated =? n) check_file 140 "not_allocated == nr_free_pages()";;
  basic_check;;
  p0 ← alloc_pages 5;
  kassert (negb (p0 =? NULLPAGE)) check_file 145 "p0 != NULLPAGE";;
  a ← zoom mmL (PageAllocated p0);
  kassert (truthy a) check_file 146 "PageAllocated(p0)";;
  free_pages p0 5;;
  '(not_reserved, not_allocated) ← count_pages (fun n => n - 1) not_reserved not_allocated;
  kassert (not_reserved =? 0) check_file 157 "not_reserved == 0";;
  kassert (not_allocated =? 0) check_file 158 "not_allocated == 0".

Definition check_alloc_page : M kernel unit :=
  k ← mget;
  _ ← match pmm_manager k with
      | Some default_pmm_manager => default_check
      | None => mundef
      end;
  printk (line "check_alloc_page() succeeded!") [].

Definition pmm_init : M kernel unit :=
  init_pmm_manager;;
  page_init;;
  check_alloc_page;;
  let v := u64 sym_boot_page_table in
  mmodify (fun k => set_satp v (satp_physical k) k);;
  p ← PADDR "kern/mm/pmm.c" 141 v;
  mmodify (fun k => set_satp (satp_virtual k) p k);;
  printk (line "satp virtual address: 0x%016lx" ++ line "satp physical address: 0x%016lx")
    [VInt v; VInt p].
End code.

(** ** The wrappers compute what the allocator computes *)

(** What the wrappers rely on: a manager is installed and [sstatus] is a
    64-bit register; and what [page_init] sets up. *)
Definition kernel_ready `{B : Build} `{P : Platform} (k : kernel) : Prop :=
  pmm_manager k = Some default_pmm_manager /\ in_u64 (csr_value (mach k) Csr_sstatus).
Definition layout_ready `{B : Build} `{P : Platform} (k : kernel) : Prop :=
  nbase k = NBASE /\ npage k = NBASE + NPAGE /\ va_pa_offset k = PHYSICAL_MEMORY_OFFSET.

Section wrappers.
Context `{B : Build} `{P : Platform} `{I : Image}.

Lemma set_kmm_id k : set_kmm (kmm k) k = k.
Proof using Type. by destruct k. Qed.
Lemma set_mach_id k : set_mach (mach k) k = k.
Proof using Type. by destruct k. Qed.

Lemma pmm_call_eq c k v mm' :
  kernel_ready k -> run_call c (kmm k) = Ok v mm' -> pmm_call c k = Ok v (set_kmm mm' k).
Proof using Type.
  intros [Hm _] E. unfold pmm_call, mbind, M_bind, mget. rewrite Hm.
  unfold zoom; simpl. by rewrite E.
Qed.

(** A call bracketed by the saving and restoring of the interrupt bit. *)
Lemma wrapped_call {A} c k v mm' (a : A) :
  kernel_ready k -> run_call c (kmm k) = Ok v mm' ->
  (f ← local_intr_save; _ ← pmm_call c; local_intr_restore f;; mret a) k
  = Ok a (set_kmm mm' k).
Proof using Type.
  intros Hk E. pose proof Hk as [Hm Hs].
  destruct (intr_save_restore (mach k) Hs) as (f & m1 & Hsave & Hrest).
  unfold local_intr_save, local_intr_restore, mbind at 1, M_bind at 1, zoom at 1. simpl lget.
  rewrite Hsave. cbn [machL lput]. unfold mbind at 1, M_bind at 1.
  assert (Hk1 : pmm_call c (set_mach m1 k) = Ok v (set_kmm mm' (set_mach m1 k))).
  { unfold pmm_call, mbind, M_bind, mget. simpl. rewrite Hm. unfold zoom; simpl. by rewrite E. }
  rewrite Hk1. unfold mbind, M_bind, zoom. simpl. rewrite Hrest. by destruct k.
Qed.

Lemma alloc_pages_eq n k q mm' :
  kernel_ready k -> default_alloc_pages n (kmm k) = Ok q mm' ->
  alloc_pages n k = Ok q (set_kmm mm' k).
Proof using Type.
  intros Hk E. rewrite <- (wrapped_call (CallAlloc n) k q mm' q Hk E).
  pose proof Hk as [Hm Hs]. destruct (intr_save_restore (mach k) Hs) as (f & m1 & Hsave & Hrest).
  unfold alloc_pages, local_intr_save, local_intr_restore, mbind, M_bind, zoom. simpl.
  rewrite Hsave. unfold pmm_call, mbind, M_bind, mget. simpl. rewrite Hm.
  unfold zoom; simpl. by rewrite E.
Qed.

Lemma free_pages_eq base n k mm' :
  kernel_ready k -> default_free_pages base n (kmm k) = Ok () mm' ->
  free_pages base n k = Ok () (set_kmm mm' k).
Proof using Type.
  intros Hk E.
  assert (E' : run_call (CallFree base n) (kmm k) = Ok 0 mm').
  { simpl. unfold mbind, M_bind. by rewrite E. }
  rewrite <- (wrapped_call (CallFree base n) k 0 mm' () Hk E').
  unfold free_pages, mbind, M_bind. destruct (local_intr_save k) as [f k1| |]; [|done..].
  destruct (pmm_call (CallFree base n) k1) as [v k2| |]; [|done..].
  by destruct (local_intr_restore f k2) as [[] k3| |].
Qed.

Lemma nr_free_pages_eq k : kernel_ready k -> nr_free_pages k = Ok (nr_free (kmm k)) k.
Proof using Type.
  intros Hk. rewrite <- (set_kmm_id k) at 3.
  rewrite <- (wrapped_call CallNrFree k (nr_free (kmm k)) (kmm k) (nr_free (kmm k)) Hk eq_refl).
  pose proof Hk as [Hm Hs]. destruct (intr_save_restore (mach k) Hs) as (f & m1 & Hsave & Hrest).
  unfold nr_free_pages, local_intr_save, local_intr_restore, mbind, M_bind, zoom. simpl.
  rewrite Hsave. unfold pmm_call, mbind, M_bind, mget. simpl. by rewrite Hm.
Qed.

(** ** Taking pages and giving them back *)

Lemma clear_set_allocated w :
  in_u64 w -> word_free w = true -> clear_allocated (set_allocated w) = w.
Proof using Type.
  intros Hw Hf. unfold word_free in Hf. apply andb_prop in Hf as [Hf _]. apply negb_true_iff in Hf.
  apply Z.bits_inj'. intros i Hi. unfold clear_allocated, set_allocated.
  destruct (Z.ltb_spec i 64).
  - rewrite and_flag_bits, or_flag_bits by (unfold PG_allocated; lia).
    destruct (Z.eqb_spec i PG_allocated) as [->|]; done.
  - rewrite !testbit_in_u64; eauto with word.
Qed.

Lemma word_at_in_u64 s p : mm_wf s -> in_u64 (word_at p (pages s)).
Proof using Type.
  intros (_ & Hw & _). unfold word_at. destruct (pages s !! Z.to_nat p) eqn:E; simpl.
  - exact (proj1 (Forall_lookup _ _) Hw _ _ E).
  - unfold in_u64. lia.
Qed.

(** The words of the pages after an allocation and after a release. *)
Lemma alloc_words s n q s' :
  mm_wf s -> in_u64 n -> default_alloc_pages n s = Ok q s' -> q <> NULLPAGE ->
  0 < n /\ 0 <= q /\ q + n <= NPAGE /\ run_free (pages s) q n /\
  pages_updated set_allocated q n (pages s) (pages s') /\ nr_free s' = u64 (nr_free s - n) /\ mm_wf s'.
Proof using Type.
  intros Hwf Hn E Hq. pose proof (alloc_pages_wp s Hwf n Hn) as Ho.
  pose proof (run_call_wf s Hwf (CallAlloc n) Hn) as Hw. unfold wp in *. simpl in Hw. rewrite E in Ho, Hw.
  destruct Ho as [(? & _)|(H1 & H2 & H3 & H4 & _ & H5 & H6)]; [done|].
  split_and!; try done; apply Hw.
Qed.

Lemma free_words s base n :
  mm_wf s -> in_u64 base -> 0 < n -> base + n <= NPAGE ->
  exists s', default_free_pages base n s = Ok () s' /\
    pages_updated clear_allocated base n (pages s) (pages s') /\ nr_free s' = u64 (nr_free s + n) /\ mm_wf s'.
Proof using Type.
  intros Hwf Hb Hn Hle. pose proof NPAGE_range. assert (Hnw : in_u64 n) by (unfold in_u64 in *; lia).
  destruct (wp_elim _ _ _ (free_pages_wp s Hwf base n Hb Hnw)) as ([] & s' & E & Ho).
  exists s'. destruct Ho as [(_ & _ & Hup & Hnr)|[[] _]]; [|done].
  pose proof (run_call_wf s Hwf (CallFree base n) (conj Hb Hnw)) as Hw.
  unfold run_call, wp, mbind, M_bind in Hw. rewrite E in Hw. split_and!; try done; apply Hw.
Qed.

Lemma mm_state_ext s s' :
  mm_wf s -> mm_wf s' -> nr_free s' = nr_free s ->
  (forall p, 0 <= p < NPAGE -> word_at p (pages s') = word_at p (pages s)) -> s' = s.
Proof using Type.
  intros (Hl & _) (Hl' & _) Hn Hw. destruct s as [ps nr], s' as [ps' nr']; simpl in *. f_equal; [|done].
  apply word_at_ext; [lia|]. intros p Hp. apply Hw. lia.
Qed.

(** Allocating a run and freeing it gives the allocator's state back. *)
Lemma alloc_free s n q s' :
  mm_wf s -> in_u64 n -> default_alloc_pages n s = Ok q s' -> q <> NULLPAGE ->
  default_free_pages q n s' = Ok () s.
Proof using Type.
  intros Hwf Hn E Hq. pose proof NPAGE_range.
  destruct (alloc_words s n q s' Hwf Hn E Hq) as (Hpos & Hq0 & Hle & Hrun & [_ Hup] & Hnr & Hwf').
  destruct (free_words s' q n Hwf' ltac:(unfold in_u64; lia) Hpos Hle) as (s2 & E2 & [_ Hup2] & Hnr2 & Hwf2).
  rewrite E2. f_equal. apply mm_state_ext; [done|done| |].
  - rewrite Hnr2, Hnr. destruct Hwf as (_ & _ & Hw). unfold in_u64 in *. word_lia.
  - intros p Hp. rewrite Hup2, Hup by done. case_bool_decide as Hin; [|done].
    apply clear_set_allocated; [by apply word_at_in_u64|by apply Hrun].
Qed.
End wrappers.

(** ** The self-tests *)

Lemma count_take_S t (ps : list Z) q :
  0 <= q < Z.of_nat (length ps) ->
  count t (take (Z.to_nat (q + 1)) ps)
  = count t (take (Z.to_nat q) ps) + (if t (word_at q ps) then 1 else 0).
Proof.
  intros Hq. replace (Z.to_nat (q + 1)) with (S (Z.to_nat q)) by lia.
  destruct (lookup_lt_is_Some_2 ps (Z.to_nat q)) as [w Hw]; [lia|].
  rewrite (take_S_r ps _ w Hw), count_app, count_cons. unfold word_at. rewrite Hw.
  change (count t []) with 0. simpl. lia.
Qed.

Section checks.
Context `{B : Build} `{P : Platform} `{I : Image}.

Lemma u64_step x d : u64 (u64 x + d) = u64 (x + d).
Proof using Type. word_lia. Qed.

Lemma count_pages_eq d nr na k :
  mm_wf (kmm k) -> in_u64 nr -> in_u64 na ->
  count_pages (fun n => n + d) nr na k
  = Ok (u64 (nr + d * count unreserved (pages (kmm k))), u64 (na + d * count_free (pages (kmm k)))) k.
Proof using Type.
  intros (Hlen & _) Hnr Hna. pose proof NPAGE_range. set (ps := pages (kmm k)) in *.
  unfold count_pages. unfold mbind at 1, M_bind at 1.
  rewrite (for_range_eq (fun q '(x, y) k' => k' = k /\
      x = u64 (nr + d * count unreserved (take (Z.to_nat q) ps)) /\
      y = u64 (na + d * count word_free (take (Z.to_nat q) ps))) (fun _ _ => False))
    with (o := Ok (Next (u64 (nr + d * count unreserved ps), u64 (na + d * count word_free ps))) k).
  - done.
  - lia.
  - rewrite take_0. change (count unreserved []) with 0. change (count word_free []) with 0.
    by rewrite !Z.mul_0_r, !Z.add_0_r, !u64_small.
  - intros q [x y] k' Hq (-> & -> & ->). unfold wp, mbind, M_bind, zoom. simpl lget.
    rewrite PageReserved_eq by (fold ps; lia). fold ps. rewrite truthy_b2z.
    change (lput mmL (kmm k) k) with (set_kmm (kmm k) k). rewrite set_kmm_id.
    rewrite !count_take_S by lia.
    unfold reserved at 1. assert (Hu : unreserved (word_at q ps) = negb (Z.testbit (word_at q ps) PG_reserved)) by done.
    assert (Hf : word_free (word_at q ps)
      = negb (Z.testbit (word_at q ps) PG_allocated) && negb (Z.testbit (word_at q ps) PG_reserved)) by done.
    rewrite Hu, Hf. destruct (Z.testbit (word_at q ps) PG_reserved); cbn [negb].
    + rewrite andb_false_r, !Z.add_0_r. done.
    + cbn [mmL lget]. rewrite PageAllocated_eq by (fold ps; lia). fold ps. rewrite truthy_b2z.
      change (lput mmL (kmm k) k) with (set_kmm (kmm k) k). rewrite set_kmm_id.
      unfold allocated. rewrite andb_true_r. destruct (Z.testbit (word_at q ps) PG_allocated); cbn [negb].
      * rewrite u64_step, Z.add_0_r. split_and!; [done| |done]. f_equal. lia.
      * rewrite !u64_step. split_and!; [done| |]; f_equal; lia.
  - intros [x y] k' (-> & -> & ->). by rewrite !take_ge by lia.
  - done.
Qed.

(** There is a page to hand out as long as the count is positive. *)
Lemma count_free_avail ps : 0 < count_free ps -> exists p, 0 <= p < Z.of_nat (length ps) /\ avail ps p = true.
Proof using Type.
  intros Hc. destruct (decide (Exists (fun w => word_free w = true) ps)) as [He|Hno].
  - apply Exists_exists in He as (w & Hin & Hw). apply list_elem_of_lookup in Hin as [i Hi].
    exists (Z.of_nat i). pose proof (lookup_lt_Some _ _ _ Hi). split; [lia|].
    unfold avail, word_at. by rewrite Nat2Z.id, Hi.
  - unfold count_free in Hc. rewrite count_none in Hc; [lia|].
    apply Forall_forall. intros w Hw. apply not_true_is_false. intros Ht. apply Hno.
    apply Exists_exists. eauto.
Qed.

Lemma alloc_succeeds s n :
  mm_wf s -> in_u64 n -> 0 < n -> (exists r, 0 <= r /\ r + n <= NPAGE /\ run_free (pages s) r n) ->
  exists q s', default_alloc_pages n s = Ok q s' /\ q <> NULLPAGE /\ 0 <= q /\ q + n <= NPAGE.
Proof using Type.
  intros Hwf Hn Hpos (r & Hr & Hrn & Hrun). pose proof NPAGE_lt_NULLPAGE.
  destruct (wp_elim _ _ _ (alloc_pages_wp s Hwf n Hn)) as (q & s' & E & Ho).
  exists q, s'. destruct Ho as [(_ & _ & [->|Hno])|(_ & H1 & H2 & _)]; [lia|by destruct (Hno r)|].
  split_and!; [done|lia|done|done].
Qed.

Lemma alloc_one s :
  mm_wf s -> nr_free_eq s -> 0 < nr_free s ->
  exists q s', default_alloc_pages 1 s = Ok q s' /\ q <> NULLPAGE /\ 0 <= q < NPAGE /\
    avail (pages s) q = true /\ avail (pages s') q = false /\
    (forall p, 0 <= p < NPAGE -> avail (pages s') p = true -> avail (pages s) p = true) /\
    mm_wf s' /\ nr_free_eq s' /\ nr_free s' = nr_free s - 1.
Proof using Type.
  intros Hwf Hcnt Hpos. pose proof Hwf as (Hlen & _).
  destruct (count_free_avail (pages s)) as (r & Hr & Hav); [by rewrite <- Hcnt|].
  destruct (alloc_succeeds s 1 Hwf ltac:(done) ltac:(lia)) as (q & s' & E & Hq & Hq0 & Hq1).
  { exists r. split_and!; [lia|lia|]. intros i Hi. by replace i with r by lia. }
  destruct (alloc_effect 1 q s s' (conj Hwf Hcnt) ltac:(done) E Hq)
    as ([Hwf' Hc] & _ & _ & _ & Hnr & Hrun & Ha & Hres & _).
  assert (Hav' : forall p, 0 <= p < NPAGE ->
    avail (pages s') p = negb (bool_decide (in_blk p (q, 1)) || allocated (pages s) p) && negb (reserved (pages s) p)).
  { intros p Hp. rewrite <- Ha, <- Hres by done. done. }
  exists q, s'. split_and!; try done; try lia.
  - apply Hrun. lia.
  - rewrite Hav' by lia. rewrite bool_decide_true; [done|]. unfold in_blk; simpl; lia.
  - intros p Hp. rewrite Hav' by done. unfold avail, word_free, allocated, reserved.
    rewrite negb_orb, !andb_true_iff. tauto.
Qed.

Lemma page2pa_eq k p :
  nbase k = NBASE -> 0 <= p < NPAGE -> page2pa p k = Ok ((NBASE + p) * PGSIZE) k.
Proof using Type.
  intros Hb Hp. pose proof NPAGE_range. unfold page2pa, page2ppn, mbind, M_bind, mget, mret, M_ret. rewrite Hb.
  rewrite Z.shiftl_mul_pow2 by (unfold PGSHIFT; lia).
  change NBASE with 524800. change (2 ^ PGSHIFT) with 4096. change PGSIZE with 4096.
  rewrite (u64_small (p + 524800)) by (unfold in_u64; lia).
  rewrite u64_small by (unfold in_u64; lia). f_equal. lia.
Qed.

Lemma npage_bytes k :
  npage k = NBASE + NPAGE -> u64 (npage k * PGSIZE) = (NBASE + NPAGE) * PGSIZE.
Proof using Type.
  intros ->. pose proof NPAGE_range. change NBASE with 524800. change PGSIZE with 4096.
  apply u64_small. unfold in_u64. lia.
Qed.

Lemma kernel_ready_kmm k s : kernel_ready k -> kernel_ready (set_kmm s k).
Proof using Type. by destruct k. Qed.
End checks.

Section check_proofs.
Context `{B : Build} `{P : Platform} `{I : Image}.

(** Three single pages taken and given back, in the order of the code. *)
Lemma three_pages s :
  mm_wf s -> nr_free_eq s -> 3 <= nr_free s ->
  exists p0 p1 p2 s1 s2 s3 s4 s5,
    default_alloc_pages 1 s = Ok p0 s1 /\ default_alloc_pages 1 s1 = Ok p1 s2 /\
    default_alloc_pages 1 s2 = Ok p2 s3 /\
    default_free_pages p0 1 s3 = Ok () s4 /\ default_free_pages p1 1 s4 = Ok () s5 /\
    default_free_pages p2 1 s5 = Ok () s /\
    0 <= p0 < NPAGE /\ 0 <= p1 < NPAGE /\ 0 <= p2 < NPAGE /\ p0 <> p1 /\ p0 <> p2 /\ p1 <> p2.
Proof using Type.
  intros Hwf Hcnt Hge. pose proof NPAGE_range.
  destruct (alloc_one s Hwf Hcnt ltac:(lia)) as (p0 & s1 & E0 & Q0 & R0 & A0 & N0 & M0 & W1 & C1 & F1).
  destruct (alloc_one s1 W1 C1 ltac:(lia)) as (p1 & s2 & E1 & Q1 & R1 & A1 & N1 & M1 & W2 & C2 & F2).
  destruct (alloc_one s2 W2 C2 ltac:(lia)) as (p2 & s3 & E2 & Q2 & R2 & A2 & N2 & M2 & W3 & C3 & F3).
  assert (D01 : p0 <> p1) by congruence. assert (D12 : p1 <> p2) by congruence.
  pose proof (M1 p2 R2 A2) as A2'. assert (D02 : p0 <> p2) by congruence.
  destruct (free_words s3 p0 1 W3 ltac:(unfold in_u64; lia) ltac:(lia) ltac:(lia)) as (s4 & E3 & [_ U4] & F4 & W4).
  destruct (free_words s4 p1 1 W4 ltac:(unfold in_u64; lia) ltac:(lia) ltac:(lia)) as (s5 & E4 & [_ U5] & F5 & W5).
  destruct (free_words s5 p2 1 W5 ltac:(unfold in_u64; lia) ltac:(lia) ltac:(lia)) as (s6 & E5 & [_ U6] & F6 & W6).
  destruct (alloc_words s 1 p0 s1 Hwf ltac:(done) E0 Q0) as (_ & _ & _ & _ & [_ U1] & _).
  destruct (alloc_words s1 1 p1 s2 W1 ltac:(done) E1 Q1) as (_ & _ & _ & _ & [_ U2] & _).
  destruct (alloc_words s2 1 p2 s3 W2 ltac:(done) E2 Q2) as (_ & _ & _ & _ & [_ U3] & _).
  assert (s6 = s) as ->.
  { apply mm_state_ext; [done|done| |].
    - destruct Hwf as (_ & _ & Hw). rewrite F6, F5, F4, F3, F2, F1.
      unfold in_u64 in Hw. clear -Hw Hge. word_lia.
    - intros p Hp. rewrite U6, U5, U4, U3, U2, U1 by done.
      assert (Hone : forall q, bool_decide (q <= p < q + 1) = bool_decide (p = q))
        by (intros q; apply bool_decide_ext; lia).
      rewrite !Hone. repeat case_bool_decide; subst; try done.
      all: apply clear_set_allocated; [by apply word_at_in_u64|].
      all: first [exact A0|by apply M0|by apply M0, M1]. }
  by exists p0, p1, p2, s1, s2, s3, s4, s5.
Qed.

Lemma basic_check_eq k :
  kernel_ready k -> layout_ready k -> mm_wf (kmm k) -> nr_free_eq (kmm k) -> 3 <= nr_free (kmm k) ->
  basic_check k = Ok () k.
Proof using Type.
  intros Hk (Hnb & Hnp & _) Hwf Hcnt Hge. pose proof NPAGE_lt_NULLPAGE.
  destruct (three_pages (kmm k) Hwf Hcnt Hge) as
    (p0 & p1 & p2 & s1 & s2 & s3 & s4 & s5 & E0 & E1 & E2 & E3 & E4 & E5 & R0 & R1 & R2 & D01 & D02 & D12).
  assert (Hready : forall s, kernel_ready (set_kmm s k)) by (intros s; by apply kernel_ready_kmm).
  assert (Hne : forall p, 0 <= p < NPAGE -> negb (p =? NULLPAGE) = true)
    by (intros p Hp; apply negb_true_iff, Z.eqb_neq; lia).
  assert (Hpa : forall p s, 0 <= p < NPAGE -> page2pa p (set_kmm s k) = Ok ((NBASE + p) * PGSIZE) (set_kmm s k))
    by (intros p s Hp; by apply page2pa_eq).
  assert (Htop : forall s, u64 (npage (set_kmm s k) * PGSIZE) = (NBASE + NPAGE) * PGSIZE)
    by (intros s; by apply npage_bytes).
  assert (Hlt : forall p, 0 <= p < NPAGE -> ((NBASE + p) * PGSIZE <? (NBASE + NPAGE) * PGSIZE) = true).
  { intros p Hp. apply Z.ltb_lt. change PGSIZE with 4096. lia. }
  unfold basic_check, alloc_page, free_page. unfold mbind, M_bind.
  rewrite (alloc_pages_eq 1 k p0 s1 Hk E0), Hne by done. cbn [kassert mret M_ret].
  rewrite (alloc_pages_eq 1 (set_kmm s1 k) p1 s2 (Hready s1) E1), Hne by done. cbn [kassert mret M_ret].
  rewrite (alloc_pages_eq 1 (set_kmm s2 (set_kmm s1 k)) p2 s3 (Hready s2) E2), Hne by done. cbn [kassert mret M_ret].
  rewrite !(proj2 (Z.eqb_neq _ _)) by done. cbn [negb andb kassert mret M_ret mget].
  change (set_kmm s3 (set_kmm s2 (set_kmm s1 k))) with (set_kmm s3 k).
  rewrite Htop. rewrite (Hpa p0 s3 R0), (Hlt p0 R0). cbn [kassert mret M_ret].
  rewrite (Hpa p1 s3 R1), (Hlt p1 R1). cbn [kassert mret M_ret].
  rewrite (Hpa p2 s3 R2), (Hlt p2 R2). cbn [kassert mret M_ret].
  rewrite (free_pages_eq p0 1 (set_kmm s3 k) s4 (Hready s3) E3).
  rewrite (free_pages_eq p1 1 (set_kmm s4 (set_kmm s3 k)) s5 (Hready s4) E4).
  rewrite (free_pages_eq p2 1 (set_kmm s5 (set_kmm s4 (set_kmm s3 k))) (kmm k) (Hready s5) E5).
  by destruct k.
Qed.

Lemma default_check_eq k r :
  kernel_ready k -> layout_ready k -> mm_wf (kmm k) -> nr_free_eq (kmm k) ->
  0 <= r -> r + 5 <= NPAGE -> run_free (pages (kmm k)) r 5 ->
  default_check k = Ok () k.
Proof using Type.
  intros Hk Hl Hwf Hcnt Hr Hr5 Hrun. pose proof NPAGE_lt_NULLPAGE. pose proof NPAGE_range.
  pose proof Hwf as (Hlen & _ & Hnr).
  assert (Hfive : 3 <= nr_free (kmm k)).
  { rewrite Hcnt. unfold count_free. rewrite (split_range r 5 (pages (kmm k))) by lia. rewrite !count_app.
    assert (count word_free (slice r 5 (pages (kmm k))) = 5) as ->.
    { rewrite <- (length_slice r 5 (pages (kmm k))) at 2 by lia. apply count_all, Forall_slice; [lia..|].
      exact Hrun. }
    pose proof (count_range word_free (take (Z.to_nat r) (pages (kmm k)))).
    pose proof (count_range word_free (drop (Z.to_nat (r + 5)) (pages (kmm k)))). lia. }
  destruct (alloc_succeeds (kmm k) 5 Hwf ltac:(done) ltac:(lia)) as (q & s' & E & Hq & Hq0 & Hq5); [eauto|].
  pose proof (alloc_free (kmm k) 5 q s' Hwf ltac:(done) E Hq) as Ef.
  destruct (alloc_words (kmm k) 5 q s' Hwf ltac:(done) E Hq) as (_ & _ & _ & _ & [Hl' Hw'] & _ & _).
  pose proof (count_range unreserved (pages (kmm k))). pose proof (count_range word_free (pages (kmm k))).
  fold (count_free (pages (kmm k))) in *.
  unfold default_check. unfold mbind, M_bind.
  rewrite (count_pages_eq 1 0 0 k Hwf ltac:(done) ltac:(done)). cbv beta iota.
  rewrite (nr_free_pages_eq k Hk). rewrite !Z.add_0_l, !Z.mul_1_l, <- Hcnt, !(u64_small (nr_free _)) by done.
  rewrite Z.eqb_refl. cbn [kassert mret M_ret]. rewrite (basic_check_eq k) by done.
  rewrite (alloc_pages_eq 5 k q s' Hk E). rewrite (proj2 (Z.eqb_neq q NULLPAGE)) by done.
  cbn [negb kassert mret M_ret]. unfold zoom at 1. cbn [mmL lget lput].
  change (kmm (set_kmm s' k)) with s'.
  rewrite PageAllocated_eq, truthy_b2z by lia.
  assert (allocated (pages s') q = true) as ->.
  { unfold allocated. rewrite Hw' by lia. rewrite bool_decide_true by lia. apply set_allocated_flags. }
  cbn [kassert mret M_ret]. change (set_kmm s' (set_kmm s' k)) with (set_kmm s' k).
  rewrite (free_pages_eq q 5 (set_kmm s' k) (kmm k) (kernel_ready_kmm _ _ Hk) Ef).
  assert (set_kmm (kmm k) (set_kmm s' k) = k) as -> by by destruct k.
  change (fun n => n - 1) with (fun n => n + -1).
  rewrite (count_pages_eq (-1) _ _ k Hwf) by (done || apply u64_in). cbv beta iota.
  unfold nr_free_eq in Hcnt. rewrite ?Hcnt.
  rewrite (u64_small (count unreserved _)), (u64_small (count_free _)) by (unfold in_u64; lia).
  replace (count unreserved (pages (kmm k)) + -1 * count unreserved (pages (kmm k))) with 0 by lia.
  replace (count_free (pages (kmm k)) + -1 * count_free (pages (kmm k))) with 0 by lia. done.
Qed.
End check_proofs.

(** ** Initialisation *)

Definition memory_pieces : list piece :=
  lits (text "  memory: 0x") ++ [Escape hex16] ++ lits (text ", [0x") ++ [Escape hex16] ++
  lits (text ", 0x") ++ [Escape hex16] ++ lits (line "].").
Definition satp_pieces : list piece :=
  lits (text "satp virtual address: 0x") ++ [Escape hex16] ++
  lits (10 :: text "satp physical address: 0x") ++ [Escape hex16] ++ lits [10].

Section init.
Context `{B : Build} `{P : Platform} `{I : Image}.

Lemma memory_pieces_ok : Forall piece_ok memory_pieces.
Proof using Type.
  unfold memory_pieces. rewrite !Forall_app, !Forall_singleton.
  split_and!; try apply hex16_ok; apply lits_ok; vm_compute; repeat constructor; done.
Qed.
Lemma satp_pieces_ok : Forall piece_ok satp_pieces.
Proof using Type.
  unfold satp_pieces. rewrite !Forall_app, !Forall_singleton.
  split_and!; try apply hex16_ok; apply lits_ok; vm_compute; repeat constructor; done.
Qed.

Lemma render_memory a b c :
  render memory_pieces [VInt a; VInt b; VInt c]
  = Some (text "  memory: 0x" ++ hex16_out a ++ text ", [0x" ++ hex16_out b ++
          text ", 0x" ++ hex16_out c ++ line "].").
Proof using Type. reflexivity. Qed.

Lemma render_satp a b :
  render satp_pieces [VInt a; VInt b]
  = Some (text "satp virtual address: 0x" ++ hex16_out a ++
          (10 :: text "satp physical address: 0x") ++ hex16_out b ++ [10]).
Proof using Type. reflexivity. Qed.

Lemma wp_print_memory a b c k :
  in_u64 a -> in_u64 b -> in_u64 c -> wp (printk memory_format [VInt a; VInt b; VInt c]) (fun _ => only_calls k) k.
Proof using Type.
  intros Ha Hb Hc. eapply wp_printk_pieces; [|exact memory_pieces_ok| |apply render_memory|].
  - vm_compute. reflexivity.
  - apply Forall_cons; split; [exact Ha|]. apply Forall_cons; split; [exact Hb|].
    apply Forall_cons; split; [exact Hc|constructor].
  - rewrite !length_app. pose proof (hex16_out_length a). pose proof (hex16_out_length b).
    pose proof (hex16_out_length c). change (length (text "  memory: 0x")) with 12%nat.
    change (length (text ", [0x")) with 5%nat. change (length (text ", 0x")) with 4%nat.
    change (length (line "].")) with 3%nat. lia.
Qed.

Lemma wp_print_satp a b k :
  in_u64 a -> in_u64 b ->
  wp (printk (line "satp virtual address: 0x%016lx" ++ line "satp physical address: 0x%016lx")
    [VInt a; VInt b]) (fun _ => only_calls k) k.
Proof using Type.
  intros Ha Hb. eapply wp_printk_pieces; [|exact satp_pieces_ok| |apply render_satp|].
  - vm_compute. reflexivity.
  - apply Forall_cons; split; [exact Ha|]. apply Forall_cons; split; [exact Hb|constructor].
  - rewrite !length_app. pose proof (hex16_out_length a). pose proof (hex16_out_length b).
    change (length (text "satp virtual address: 0x")) with 24%nat.
    change (length (10 :: text "satp physical address: 0x")) with 26%nat.
    change (length [10]) with 1%nat. lia.
Qed.

(** Every page becomes reserved, whatever it was. *)
Lemma reserve_pages_eq k :
  Z.of_nat (length (pages (kmm k))) = NPAGE ->
  reserve_pages k = Ok () (set_kmm (Mm boot_pages (nr_free (kmm k))) k).
Proof using Type.
  intros Hlen. pose proof NPAGE_range. set (ps := pages (kmm k)) in *. set (nr := nr_free (kmm k)).
  assert (Hb : length boot_pages = Z.to_nat NPAGE) by apply length_replicate.
  set (after q := take (Z.to_nat q) boot_pages ++ drop (Z.to_nat q) ps).
  unfold reserve_pages. unfold mbind at 1, M_bind at 1.
  rewrite (for_range_eq (fun q _ k' => k' = set_kmm (Mm (after q) nr) k) (fun _ _ => False))
    with (o := Ok (Next ()) (set_kmm (Mm boot_pages nr) k)).
  - done.
  - lia.
  - unfold after. simpl. destruct k as [? [? ?]]; done.
  - intros q [] k' Hq ->.
    assert (Hla : length (after q) = Z.to_nat NPAGE).
    { unfold after. rewrite length_app, length_take, length_drop. lia. }
    unfold wp, mbind, M_bind, zoom at 1. cbn [mmL lget]. change (kmm (set_kmm ?s k)) with s.
    unfold zoom at 1. cbn [pagesL lget pages]. unfold store.
    destruct (Z.leb_spec 0 q), (Z.ltb_spec q (Z.of_nat (length (after q)))); try lia. cbn [andb].
    cbn [lput set_pages nr_free]. change (set_kmm ?s2 (set_kmm ?s1 k)) with (set_kmm s2 k).
    unfold zoom at 1. cbn [lget]. change (kmm (set_kmm ?s k)) with s.
    unfold SetPageReserved. rewrite zoom_set_bit by (simpl; rewrite ?length_insert; unfold PG_reserved; lia).
    cbn [mmL pagesL lget lput]. change (kmm (set_kmm ?s ?k0)) with s. cbn [pages nr_free set_pages].
    assert (Hkk : forall s1 s2, set_kmm s2 (set_kmm s1 k) = set_kmm s2 k) by done.
    rewrite !Hkk. f_equal.
    assert (Hq0 : word_at q (<[Z.to_nat q := 0]> (after q)) = 0).
    { unfold word_at. by rewrite list_lookup_insert_eq by lia. }
    rewrite Hq0. unfold set_pages. cbn [nr_free]. f_equal. rewrite list_insert_insert_eq. fold (set_reserved 0). unfold after.
    assert (Ht : length (take (Z.to_nat q) boot_pages) = Z.to_nat q) by (rewrite length_take; lia).
    rewrite insert_app_r_alt by lia. rewrite Ht, Nat.sub_diag.
    destruct (lookup_lt_is_Some_2 ps (Z.to_nat q)) as [w Hw]; [lia|].
    rewrite (drop_S ps w _ Hw). simpl.
    replace (Z.to_nat (q + 1)) with (S (Z.to_nat q)) by lia.
    rewrite (take_S_r boot_pages _ (set_reserved 0)) by (apply lookup_replicate_2; lia).
    by rewrite <- app_assoc.
  - intros [] k' ->. unfold after. rewrite take_ge, drop_ge by lia. by rewrite app_nil_r.
  - done.
Qed.

(** *** The first free page *)

(** The number of pages that the kernel's image takes, from [KERNBASE] up to
    the linker's [end]. *)
Definition image_pages : Z := (sym_end - KERNBASE + (PGSIZE - 1)) / PGSIZE.

Lemma KERNBASE_eq : KERNBASE = 0xFFFFFFFFC0200000.
Proof using Type. reflexivity. Qed.

Lemma PADDR_eq file ln v k :
  va_pa_offset k = PHYSICAL_MEMORY_OFFSET -> KERNBASE <= v < 2 ^ 64 ->
  PADDR file ln v k = Ok (v - PHYSICAL_MEMORY_OFFSET) k.
Proof using Type.
  intros Ho Hv. rewrite KERNBASE_eq in Hv. unfold PADDR. rewrite (u64_small v) by (unfold in_u64; lia).
  rewrite KERNBASE_eq. destruct (Z.ltb_spec v 0xFFFFFFFFC0200000); [lia|].
  unfold mbind, M_bind, mget, mret, M_ret. rewrite Ho. unfold PHYSICAL_MEMORY_OFFSET.
  rewrite u64_small by (unfold in_u64; lia). done.
Qed.

(** Where the image ends, as [page_init] computes it. *)
Lemma image_end :
  KERNBASE <= sym_end <= KERNBASE + NPAGE * PGSIZE ->
  in_u64 (sym_end - PHYSICAL_MEMORY_OFFSET) /\ 0 <= image_pages <= NPAGE /\
  ROUNDUP (sym_end - PHYSICAL_MEMORY_OFFSET) PGSIZE = (NBASE + image_pages) * PGSIZE /\
  ROUNDDOWN KERNEL_MEMEND_PADDR PGSIZE = (NBASE + NPAGE) * PGSIZE.
Proof using Type.
  unfold image_pages. pose proof NPAGE_range. rewrite KERNBASE_eq, KERNEL_MEMEND_PADDR_eq.
  unfold PHYSICAL_MEMORY_OFFSET, KERNEL_BEGIN_PADDR. change NBASE with 524800. change PGSIZE with 4096.
  intros He. assert (in_u64 (sym_end - 0xFFFFFFFF40000000)) by (unfold in_u64; lia).
  split_and!; [unfold in_u64; lia|Z.to_euclidean_division_equations; lia
    |Z.to_euclidean_division_equations; lia| |].
  - rewrite ROUNDUP_ceil by (done || unfold in_u64 in *; lia). Z.to_euclidean_division_equations; lia.
  - rewrite ROUNDDOWN_spec by (done || unfold in_u64; lia). Z.to_euclidean_division_equations; lia.
Qed.

Lemma pa2page_eq q k :
  nbase k = NBASE -> npage k = NBASE + NPAGE -> 0 <= q < NPAGE ->
  pa2page ((NBASE + q) * PGSIZE) k = Ok q k.
Proof using Type.
  intros Hb Hn Hq. pose proof NPAGE_range. unfold pa2page, mbind, M_bind, mget.
  assert (Hp : PPN ((NBASE + q) * PGSIZE) = NBASE + q).
  { change NBASE with 524800. change PGSIZE with 4096. unfold PPN.
    rewrite u64_small by (unfold in_u64; lia). rewrite Z.shiftr_div_pow2 by (unfold PGSHIFT; lia).
    by apply Z.div_mul. }
  rewrite Hp, Hb, Hn. destruct (Z.leb_spec (NBASE + NPAGE) (NBASE + q)); [lia|].
  unfold mret, M_ret. f_equal. rewrite u64_small; [lia|unfold in_u64; lia].
Qed.

(** *** The allocator's state after [page_init] *)

Record initialised (n0 : Z) (s : mm_state) : Prop := {
  ini_wf : mm_wf s;
  ini_count : nr_free_eq s;
  ini_free : nr_free s = NPAGE - n0;
  ini_pages : forall p, 0 <= p < NPAGE ->
    allocated (pages s) p = false /\ reserved (pages s) p = bool_decide (p < n0);
}.

Lemma init_boot_pages n0 :
  0 <= n0 < NPAGE ->
  exists s, default_init_memmap n0 (NPAGE - n0) (Mm boot_pages 0) = Ok 0 s /\ initialised n0 s.
Proof using Type.
  intros Hn0. pose proof NPAGE_range. pose proof (inv_wf _ boot_client_inv) as Hwf. simpl in Hwf.
  pose proof (inv_count _ boot_client_inv) as Hcnt. simpl in Hcnt.
  assert (Hb : in_u64 n0) by (unfold in_u64; lia). assert (Hn : in_u64 (NPAGE - n0)) by (unfold in_u64; lia).
  assert (Hw : forall p, 0 <= p < NPAGE -> word_at p boot_pages = set_reserved 0).
  { intros p Hp. unfold word_at, boot_pages. by rewrite lookup_replicate_2 by lia. }
  assert (Hres : forall p, 0 <= p < NPAGE -> reserved boot_pages p = true)
    by (intros p Hp; unfold reserved; by rewrite Hw).
  assert (Hall : forall p, 0 <= p < NPAGE -> allocated boot_pages p = false)
    by (intros p Hp; unfold allocated; by rewrite Hw).
  destruct (wp_elim _ _ _ (init_memmap_wp n0 (NPAGE - n0) _ Hwf Hb Hn)) as (r & s & E & Ho).
  pose proof (run_call_wf _ Hwf (CallInitMemmap n0 (NPAGE - n0)) (conj Hb Hn)) as Hwf'.
  pose proof (proj2 (nr_free_preserved _ Hwf Hcnt) n0 (NPAGE - n0) Hb Hn) as Hcnt'.
  unfold wp in Hwf', Hcnt'. simpl in Hwf'. rewrite E in Hwf', Hcnt'.
  destruct Ho as [?|?|? ?|? ? ?|p ? ? ? Hf|p ? ? ? ? Hf|s Hpos Hle _ Hup Hnr]; try lia.
  - simpl in Hf. rewrite Hres in Hf by lia. done.
  - simpl in Hf. rewrite Hall in Hf by lia. done.
  - exists s. split; [done|]. split; [apply Hwf'|done| |].
    + rewrite Hnr. simpl. rewrite u64_small; [lia|unfold in_u64; lia].
    + intros p Hp. unfold allocated, reserved. rewrite !(updated_flag _ _ _ _ _ Hup _ p _ (fun w => proj1 (clear_reserved_flags w)) Hp).
      rewrite (updated_flag _ _ _ _ _ Hup _ p (fun _ => false) (fun w => proj2 (clear_reserved_flags w)) Hp).
      simpl. rewrite !Hw by done. split; [by case_bool_decide|].
      unfold in_blk; simpl. repeat case_bool_decide; (done || lia).
Qed.

Lemma only_calls_set_kmm s k k' : only_calls k k' -> only_calls (set_kmm s k) (set_kmm s k').
Proof using Type. intros [evs ->]. exists evs. by destruct k. Qed.

Lemma only_calls_ready k k' : only_calls k k' -> kernel_ready k -> kernel_ready k'.
Proof using Type. by intros [evs ->] [? ?]. Qed.

(** The kernel after [page_init]: the layout variables set, and the
    allocator's state [s]. *)
Definition laid_out (s : mm_state) (k : kernel) : kernel :=
  set_kmm s (set_layout PHYSICAL_MEMORY_OFFSET NBASE (NBASE + NPAGE) k).

(** Up to the reservation of all pages. *)
Lemma page_init_reserve k :
  Z.of_nat (length (pages (kmm k))) = NPAGE -> nr_free (kmm k) = 0 ->
  exists k', only_calls (laid_out (Mm boot_pages 0) k) k' /\
    page_init k = page_init_free KERNEL_MEMEND_PADDR k'.
Proof using Type.
  intros Hlen Hnr. set (k1 := set_layout PHYSICAL_MEMORY_OFFSET NBASE (NBASE + NPAGE) k).
  assert (Hnp : u64 (NBASE + NPAGE) = NBASE + NPAGE).
  { pose proof NPAGE_range. change NBASE with 524800. apply u64_small. unfold in_u64. lia. }
  assert (Hout : wp (printk (line "physcial memory:") [];;
    printk memory_format [VInt (u64 (KERNEL_MEMEND_PADDR - KERNEL_BEGIN_PADDR)); VInt KERNEL_BEGIN_PADDR;
      VInt (u64 (KERNEL_MEMEND_PADDR - 1))]) (fun _ => only_calls k1) k1).
  { apply wp_bind. eapply wp_mono; [apply (wp_output _ _ (line "physcial memory:") k1);
      [by vm_compute|by vm_compute|apply only_calls_refl]|]. intros [] k2 H2.
    eapply wp_mono; [apply wp_print_memory; [apply u64_in|by unfold in_u64, KERNEL_BEGIN_PADDR|apply u64_in]|].
    intros [] k3 H3. by apply (only_calls_trans _ k2). }
  destruct (wp_elim _ _ _ Hout) as ([] & k3 & E & H3). pose proof (only_calls_eq _ _ H3) as E3.
  exists (set_kmm (Mm boot_pages 0) k3). split; [by apply only_calls_set_kmm|].
  unfold page_init. unfold mbind at 1, M_bind at 1. unfold mmodify at 1. rewrite Hnp. fold k1.
  cbv zeta. unfold mbind, M_bind in E |- *. destruct (printk (line _) [] k1) as [[] k2| |]; [|done..].
  rewrite E. rewrite reserve_pages_eq by (rewrite E3; destruct k; exact Hlen).
  assert (nr_free (kmm k3) = 0) as -> by (rewrite E3; by destruct k). done.
Qed.

Lemma page_init_free_wp k s :
  kernel_ready k -> layout_ready k -> kmm k = Mm boot_pages 0 ->
  KERNBASE <= sym_end <= KERNBASE + NPAGE * PGSIZE -> image_pages < NPAGE ->
  default_init_memmap image_pages (NPAGE - image_pages) (Mm boot_pages 0) = Ok 0 s ->
  wp (page_init_free KERNEL_MEMEND_PADDR) (fun _ => only_calls (set_kmm s k)) k.
Proof using Type.
  intros Hk (Hnb & Hnp & Hoff) Hmm He Himg Es. pose proof NPAGE_range.
  destruct (image_end He) as (Hfm & Himg0 & Hup & Hdown).
  assert (Hend : KERNBASE <= sym_end < 2 ^ 64) by (rewrite KERNBASE_eq in *; unfold PGSIZE in *; lia).
  assert (Hlt : sym_end - PHYSICAL_MEMORY_OFFSET < (NBASE + NPAGE) * PGSIZE).
  { unfold image_pages in Himg. rewrite KERNBASE_eq in *. unfold PHYSICAL_MEMORY_OFFSET.
    change NBASE with 524800. change PGSIZE with 4096 in *. Z.to_euclidean_division_equations; lia. }
  unfold page_init_free. apply wp_bind. unfold wp at 1. rewrite PADDR_eq by done. cbv zeta.
  rewrite Hup, Hdown. apply wp_bind. unfold wp at 1, mget. rewrite npage_bytes by done.
  rewrite Z.ltb_irrefl. rewrite (proj2 (Z.ltb_lt _ _) Hlt).
  apply wp_bind. unfold wp at 1. rewrite pa2page_eq by (done || lia).
  replace (u64 ((NBASE + NPAGE) * PGSIZE - (NBASE + image_pages) * PGSIZE))
    with ((NPAGE - image_pages) * PGSIZE) by
    (change PGSIZE with 4096; change NBASE with 524800; symmetry; rewrite u64_small; [lia|unfold in_u64; lia]).
  rewrite Z.div_mul by done. apply wp_bind. unfold wp at 1, init_memmap.
  rewrite (pmm_call_eq (CallInitMemmap _ _) k 0 s Hk) by (rewrite Hmm; exact Es).
  apply wp_bind. apply wp_kassert; [done|].
  apply wp_bind. eapply wp_mono; [apply (wp_output _ _ (line "free memory :") (set_kmm s k));
    [by vm_compute|by vm_compute|apply only_calls_refl]|]. intros [] k2 H2.
  eapply wp_mono; [apply wp_print_memory; [| |apply u64_in]|].
  - unfold in_u64. change PGSIZE with 4096. lia.
  - unfold in_u64. change PGSIZE with 4096. change NBASE with 524800. lia.
  - intros [] k3 H3. by apply (only_calls_trans _ k2).
Qed.

Lemma page_init_wp k :
  kernel_ready k -> Z.of_nat (length (pages (kmm k))) = NPAGE -> nr_free (kmm k) = 0 ->
  KERNBASE <= sym_end <= KERNBASE + NPAGE * PGSIZE -> image_pages < NPAGE ->
  exists s, initialised image_pages s /\ wp page_init (fun _ => only_calls (laid_out s k)) k.
Proof using Type.
  intros Hk Hlen Hnr He Himg. destruct (image_end He) as (_ & Himg0 & _).
  destruct (init_boot_pages image_pages) as (s & Es & Hini); [lia|]. exists s. split; [done|].
  destruct (page_init_reserve k Hlen Hnr) as (k' & Hc & E). unfold wp. rewrite E.
  pose proof (only_calls_eq _ _ Hc) as Ek.
  eapply wp_mono; [apply (page_init_free_wp k' s)|]; try done.
  - apply (only_calls_ready _ _ Hc). by destruct k.
  - rewrite Ek. by destruct k.
  - by rewrite Ek.
  - intros [] k2 H2. apply (only_calls_set_kmm s) in Hc. by apply (only_calls_trans _ _ _ Hc).
Qed.

(** *** Printing during initialisation *)

(** The kernel as [pmm_init] leaves it, up to output. *)
Definition pmm_ready (s : mm_state) (k : kernel) : kernel :=
  set_satp sym_boot_page_table (sym_boot_page_table - PHYSICAL_MEMORY_OFFSET)
    (laid_out s (set_manager (Some default_pmm_manager) k)).

Lemma init_pmm_manager_wp k :
  wp init_pmm_manager (fun _ => only_calls
    (set_kmm (Mm (pages (kmm k)) 0) (set_manager (Some default_pmm_manager) k))) k.
Proof using Type.
  unfold init_pmm_manager. apply wp_bind. unfold wp at 1, mmodify.
  set (k1 := set_manager _ k). apply wp_bind.
  eapply wp_mono; [apply (wp_output _ _ (line "memory management: default_pmm_manager") k1);
    [by vm_compute|by vm_compute|apply only_calls_refl]|].
  intros [] k2 H2. pose proof (only_calls_eq _ _ H2) as E2.
  unfold wp, mbind, M_bind, pmm_call, mget, mret, M_ret. rewrite E2. simpl.
  unfold zoom. simpl. apply (only_calls_set_kmm (Mm (pages (kmm k)) 0)) in H2.
  rewrite E2 in H2. by destruct k.
Qed.

Lemma check_alloc_page_wp k r :
  kernel_ready k -> layout_ready k -> mm_wf (kmm k) -> nr_free_eq (kmm k) ->
  0 <= r -> r + 5 <= NPAGE -> run_free (pages (kmm k)) r 5 ->
  wp check_alloc_page (fun _ => only_calls k) k.
Proof using Type.
  intros Hk Hl Hwf Hcnt Hr Hr5 Hrun. unfold check_alloc_page. apply wp_bind. unfold wp at 1, mget.
  apply wp_bind. rewrite (proj1 Hk). unfold wp at 1. rewrite (default_check_eq k r) by done.
  apply (wp_output _ _ (line "check_alloc_page() succeeded!")); [by vm_compute|by vm_compute|].
  apply only_calls_refl.
Qed.

Lemma initialised_run n0 s : initialised n0 s -> n0 + 5 <= NPAGE -> 0 <= n0 -> run_free (pages s) n0 5.
Proof using Type.
  intros [_ _ _ Hp] Hn H0 p Hin. destruct (Hp p) as [Ha Hr]; [lia|].
  unfold avail, word_free. unfold allocated, reserved in *. rewrite Ha, Hr. by rewrite bool_decide_false by lia.
Qed.

Lemma only_calls_set_satp v p k k' : only_calls k k' -> only_calls (set_satp v p k) (set_satp v p k').
Proof using Type. intros [evs ->]. exists evs. by destruct k. Qed.
Lemma only_calls_laid_out s k k' : only_calls k k' -> only_calls (laid_out s k) (laid_out s k').
Proof using Type. intros [evs ->]. exists evs. by destruct k. Qed.

Lemma pmm_init_wp k :
  in_u64 (csr_value (mach k) Csr_sstatus) -> Z.of_nat (length (pages (kmm k))) = NPAGE ->
  KERNBASE <= sym_end <= KERNBASE + NPAGE * PGSIZE -> image_pages + 5 <= NPAGE ->
  KERNBASE <= sym_boot_page_table < 2 ^ 64 ->
  exists s, initialised image_pages s /\ wp pmm_init (fun _ => only_calls (pmm_ready s k)) k.
Proof using Type.
  intros Hs Hlen He Himg Hbpt. destruct (image_end He) as (_ & Himg0 & _).
  set (k0 := set_kmm (Mm (pages (kmm k)) 0) (set_manager (Some default_pmm_manager) k)).
  destruct (wp_elim _ _ _ (init_pmm_manager_wp k)) as ([] & k1 & E1 & H1). fold k0 in H1.
  pose proof (only_calls_eq _ _ H1) as Ek1.
  destruct (page_init_wp k1) as (s & Hini & Hpage); try done.
  { apply (only_calls_ready _ _ H1). by destruct k. }
  { by rewrite Ek1. } { by rewrite Ek1. } { lia. }
  exists s. split; [done|]. unfold pmm_init. apply wp_bind. unfold wp at 1. rewrite E1.
  apply wp_bind. eapply wp_mono; [exact Hpage|]. intros [] k2 H2.
  pose proof (only_calls_trans _ _ _ (only_calls_laid_out s _ _ H1) H2) as H02.
  assert (Hk0 : laid_out s k0 = laid_out s (set_manager (Some default_pmm_manager) k)) by by destruct k.
  rewrite Hk0 in H02. pose proof (only_calls_eq _ _ H02) as Ek2. clear H1 H2 E1 Ek1 Hpage.
  apply wp_bind. eapply wp_mono; [apply (check_alloc_page_wp k2 image_pages)|].
  - apply (only_calls_ready _ _ H02). by destruct k.
  - rewrite Ek2. by destruct k.
  - rewrite Ek2. apply Hini.
  - rewrite Ek2. apply Hini.
  - lia.
  - done.
  - rewrite Ek2. apply initialised_run; [done|lia|lia].
  - intros [] k3 H3. pose proof (only_calls_trans _ _ _ H02 H3) as H03. clear H02 H3 Ek2 k2.
    pose proof (only_calls_eq _ _ H03) as Ek3. assert (in_u64 sym_boot_page_table) as Hb.
    { rewrite KERNBASE_eq in Hbpt. unfold in_u64. lia. }
    rewrite (u64_small sym_boot_page_table) by done. cbv zeta.
    apply wp_bind. unfold wp at 1, mmodify at 1. apply wp_bind. unfold wp at 1.
    rewrite PADDR_eq by (done || by rewrite Ek3).
    apply wp_bind. unfold wp at 1, mmodify.
    eapply wp_mono; [apply wp_print_satp; [done|]|].
    + rewrite KERNBASE_eq in Hbpt. unfold in_u64, PHYSICAL_MEMORY_OFFSET in *. lia.
    + intros [] k4 H4. eapply only_calls_trans; [|exact H4].
      apply (only_calls_set_satp sym_boot_page_table (sym_boot_page_table - PHYSICAL_MEMORY_OFFSET)) in H03.
      exact H03.
Qed.
End init.

(** ** Properties *)

Section properties.
Context `{B : Build} `{P : Platform} `{I : Image}.

(** C13: a page's physical address is page-aligned and inside the memory the
    kernel manages, every address inside the page is mapped back to it, and
    an address behind the last page is refused by a panic. *)
Theorem page_address_roundtrip k p off pa :
  layout_ready k -> 0 <= p < NPAGE -> 0 <= off < PGSIZE ->
  KERNEL_MEMEND_PADDR <= pa < 2 ^ 64 ->
  wp (page2pa p) (fun q k' => k' = k /\ q mod PGSIZE = 0 /\
    KERNEL_BEGIN_PADDR <= q < KERNEL_MEMEND_PADDR /\ pa2page (q + off) k = Ok p k) k /\
  exists k', pa2page pa k = Panic "pa2page called with invalid pa" k'.
Proof using Type.
  intros (Hb & Hn & _) Hp Hoff Hpa. pose proof NPAGE_range. rewrite KERNEL_MEMEND_PADDR_eq in Hpa |- *. split.
  - unfold wp. rewrite page2pa_eq by done. change PGSIZE with 4096 in *.
    change NBASE with 524800 in *. unfold KERNEL_BEGIN_PADDR in *.
    split_and!; [done|by apply Z.mod_mul|lia|lia|].
    assert (Hq : PPN ((524800 + p) * 4096 + off) = 524800 + p).
    { unfold PPN. rewrite u64_small by (unfold in_u64; lia).
      rewrite Z.shiftr_div_pow2 by (unfold PGSHIFT; lia). change (2 ^ PGSHIFT) with 4096.
      rewrite Z.div_add_l, Z.div_small by lia. lia. }
    unfold pa2page, mbind, M_bind, mget. rewrite Hq, Hb, Hn.
    destruct (Z.leb_spec (524800 + NPAGE) (524800 + p)); [lia|]. unfold mret, M_ret. f_equal.
    rewrite u64_small; [lia|unfold in_u64; lia].
  - unfold pa2page, mbind, M_bind, mget. rewrite Hn.
    assert (NBASE + NPAGE <= PPN pa) as Hle.
    { unfold PPN. rewrite u64_small by (unfold in_u64, KERNEL_BEGIN_PADDR, PGSIZE in *; lia).
      rewrite Z.shiftr_div_pow2 by (unfold PGSHIFT; lia). change (2 ^ PGSHIFT) with 4096.
      change PGSIZE with 4096 in *. change NBASE with 524800. unfold KERNEL_BEGIN_PADDR in *. clear - Hpa.
      Z.to_euclidean_division_equations; lia. }
    rewrite (proj2 (Z.leb_le _ _) Hle).
    destruct (panic_eq (A := Z) "kern/mm/pmm.h" 93 (text "pa2page called with invalid pa") []
      (text "pa2page called with invalid pa") "pa2page called with invalid pa" k) as (k' & E & _);
      [by vm_compute; repeat constructor|by vm_compute|lia|by vm_compute|by vm_compute|].
    exists k'. exact E.
Qed.

(** C10: [pmm_init] returns with a working allocator: the pages behind the
    kernel's image are free, the pages of the image reserved, the counter is
    right, and [satp_physical] is the physical address of the boot page
    table; no control register has changed.  It needs five pages behind the
    image, which its self-test allocates. *)
Theorem pmm_init_spec k :
  in_u64 (csr_value (mach k) Csr_sstatus) -> Z.of_nat (length (pages (kmm k))) = NPAGE ->
  KERNBASE <= sym_end <= KERNBASE + NPAGE * PGSIZE -> image_pages + 5 <= NPAGE ->
  KERNBASE <= sym_boot_page_table < 2 ^ 64 ->
  wp pmm_init (fun _ k' =>
    mm_wf (kmm k') /\ nr_free_eq (kmm k') /\ nr_free (kmm k') = NPAGE - image_pages /\
    (forall p, 0 <= p < NPAGE ->
       allocated (pages (kmm k')) p = false /\
       reserved (pages (kmm k')) p = bool_decide (KERNBASE + p * PGSIZE < sym_end)) /\
    kernel_ready k' /\ layout_ready k' /\
    satp_virtual k' = sym_boot_page_table /\
    satp_physical k' = sym_boot_page_table - PHYSICAL_MEMORY_OFFSET /\
    csrs (mach k') = csrs (mach k)) k.
Proof using Type.
  intros Hs Hlen He Himg Hb. destruct (pmm_init_wp k Hs Hlen He Himg Hb) as (s & Hini & Hw).
  eapply wp_mono; [exact Hw|]. intros [] k' [evs ->]. destruct Hini as [Hwf Hcnt Hfree Hpages].
  split_and!; try done. intros p Hp. destruct (Hpages p Hp) as [Ha Hr]. split; [exact Ha|].
  simpl. rewrite Hr. apply bool_decide_ext. unfold image_pages. change PGSIZE with 4096.
  Z.to_euclidean_division_equations; lia.
Qed.

(** C14: when the image ends inside the last page, no whole page is left behind
    it, but [page_init] does not notice: its guard compares the unrounded end
    of the image, and it panics in [pa2page] instead of leaving the manager
    without pages. *)
Theorem page_init_last_page k :
  kernel_ready k -> Z.of_nat (length (pages (kmm k))) = NPAGE -> nr_free (kmm k) = 0 ->
  KERNBASE + (NPAGE - 1) * PGSIZE < sym_end < KERNBASE + NPAGE * PGSIZE ->
  exists k', page_init k = Panic "pa2page called with invalid pa" k'.
Proof using Type.
  intros Hk Hlen Hnr He. pose proof NPAGE_range.
  destruct (image_end) as (Hfm & Himg0 & Hup & Hdown); [unfold PGSIZE in *; lia|].
  assert (Himg : image_pages = NPAGE).
  { unfold image_pages. change PGSIZE with 4096 in *. Z.to_euclidean_division_equations; lia. }
  rewrite Himg in Hup.
  destruct (page_init_reserve k Hlen Hnr) as (k1 & Hc & ->). rewrite (only_calls_eq _ _ Hc).
  set (k2 := set_mach _ _). unfold page_init_free. unfold mbind at 1, M_bind at 1.
  rewrite PADDR_eq by (done || rewrite KERNBASE_eq in *; unfold PGSIZE in *; lia). cbv zeta.
  rewrite Hup, Hdown. unfold mbind at 1, M_bind at 1, mget. rewrite npage_bytes by done.
  rewrite Z.ltb_irrefl. rewrite (proj2 (Z.ltb_lt _ _)) by
    (rewrite KERNBASE_eq in *; unfold PHYSICAL_MEMORY_OFFSET; change NBASE with 524800;
     change PGSIZE with 4096 in *; lia).
  assert (Hp : PPN ((NBASE + NPAGE) * PGSIZE) = NBASE + NPAGE).
  { change NBASE with 524800. change PGSIZE with 4096. unfold PPN.
    rewrite u64_small by (unfold in_u64; lia). rewrite Z.shiftr_div_pow2 by (unfold PGSHIFT; lia).
    by apply Z.div_mul. }
  unfold pa2page. unfold mbind at 1 2, M_bind at 1 2, mget. rewrite Hp.
  unfold mbind at 1, M_bind at 1. change (npage k2) with (NBASE + NPAGE). rewrite Z.leb_refl.
  destruct (panic_eq (A := Z) "kern/mm/pmm.h" 93 (text "pa2page called with invalid pa") []
    (text "pa2page called with invalid pa") "pa2page called with invalid pa" k2) as (k' & E & _);
    [by vm_compute; repeat constructor|by vm_compute|lia|by vm_compute|by vm_compute|].
  exists k'. by rewrite E.
Qed.
End properties.

(** ** Witnesses *)

Definition sample_image (e : Z) : Image :=
  {| sym_end := e; sym_etext := e - 0x2000; sym_edata := e - 0x1000;
     sym_kern_init := 0xFFFFFFFFC0200000; sym_boot_page_table := 0xFFFFFFFFC0203000;
     sym_alltraps := 0xFFFFFFFFC0200400 |}.

(** The normal build, before initialisation: a page array of zeros. *)
Definition sample_boot : @kernel sample_platform :=
  Kernel sample_platform (sample_machine 2 []) (Mm (replicate 4096 0) 0) None 0 0 0 0 0 0 false.

Lemma page_address_roundtrip_witness :
  pa2page (B := verify_build) (P := sample_platform) 0x80202004 (sample_kernel sample_state)
    = Ok 2 (sample_kernel sample_state) /\
  exists k', pa2page (B := verify_build) (P := sample_platform) 0x80205000 (sample_kernel sample_state)
    = Panic "pa2page called with invalid pa" k'.
Proof.
  destruct (page_address_roundtrip (B := verify_build) (P := sample_platform) (sample_kernel sample_state)
    2 4 0x80205000 ltac:(by split) ltac:(by vm_compute) ltac:(by vm_compute) ltac:(by vm_compute)) as [Hw Hp].
  split; [|exact Hp]. unfold wp in Hw. simpl in Hw. apply Hw.
Defined.

Lemma pmm_init_spec_witness :
  wp (pmm_init (B := kernel_build) (P := sample_platform) (I := sample_image 0xFFFFFFFFC0205001))
    (fun _ k' => nr_free (kmm k') = 4090 /\ reserved (pages (kmm k')) 5 = true /\
       reserved (pages (kmm k')) 6 = false) sample_boot.
Proof.
  eapply wp_mono.
  - apply (pmm_init_spec (B := kernel_build) (P := sample_platform) (I := sample_image 0xFFFFFFFFC0205001)
      sample_boot); by vm_compute.
  - intros [] k' (_ & _ & -> & Hp & _). split_and!; [done| |].
    + by rewrite (proj2 (Hp 5 ltac:(done))).
    + by rewrite (proj2 (Hp 6 ltac:(done))).
Defined.

Lemma page_init_last_page_witness :
  exists k', page_init (B := verify_build) (P := sample_platform) (I := sample_image 0xFFFFFFFFC0204800)
    (sample_kernel (Mm [0; 0; 0; 0; 0] 0)) = Panic "pa2page called with invalid pa" k'.
Proof.
  apply (page_init_last_page (B := verify_build) (P := sample_platform) (I := sample_image 0xFFFFFFFFC0204800));
    first [by split|by vm_compute].
Defined.
