(* ===== verification/Trap.v ===== *)
(** * Traps

    kern/trap/trap.c and kern/trap/trap.h: the dispatch of interrupts and
    exceptions; and kern/trap/trapentry.S: the assembly that saves the
    interrupted context in a trap frame and restores it. *)

From S2P Require Import Prelude Defs CString Printfmt Machine Kernel DefaultPmm.

(** ** Trap frames *)

Record pushregs : Type := Pushregs {
  gpr_zero : Z;
  gpr_ra : Z;
  gpr_sp : Z;
  gpr_gp : Z;
  gpr_tp : Z;
  gpr_t0 : Z;
  gpr_t1 : Z;
  gpr_t2 : Z;
  gpr_s0 : Z;
  gpr_s1 : Z;
  gpr_a0 : Z;
  gpr_a1 : Z;
  gpr_a2 : Z;
  gpr_a3 : Z;
  gpr_a4 : Z;
  gpr_a5 : Z;
  gpr_a6 : Z;
  gpr_a7 : Z;
  gpr_s2 : Z;
  gpr_s3 : Z;
  gpr_s4 : Z;
  gpr_s5 : Z;
  gpr_s6 : Z;
  gpr_s7 : Z;
  gpr_s8 : Z;
  gpr_s9 : Z;
  gpr_s10 : Z;
  gpr_s11 : Z;
  gpr_t3 : Z;
  gpr_t4 : Z;
  gpr_t5 : Z;
  gpr_t6 : Z;
}.

Record trapframe : Type := Trapframe {
  gpr : pushregs;
  status : Z;
  epc : Z;
  badvaddr : Z;
  cause : Z;
}.

(** ** Causes (libs/riscv.h) *)

Definition IRQ_U_SOFT : Z := 0.
Definition IRQ_S_SOFT : Z := 1.
Definition IRQ_H_SOFT : Z := 2.
Definition IRQ_M_SOFT : Z := 3.
Definition IRQ_U_TIMER : Z := 4.
Definition IRQ_H_TIMER : Z := 6.
Definition IRQ_M_TIMER : Z := 7.
Definition IRQ_U_EXT : Z := 8.
Definition IRQ_S_EXT : Z := 9.
Definition IRQ_H_EXT : Z := 10.
Definition IRQ_M_EXT : Z := 11.

Definition CAUSE_MISALIGNED_FETCH : Z := 0x0.
Definition CAUSE_FAULT_FETCH : Z := 0x1.
Definition CAUSE_ILLEGAL_INSTRUCTION : Z := 0x2.
Definition CAUSE_BREAKPOINT : Z := 0x3.
Definition CAUSE_MISALIGNED_LOAD : Z := 0x4.
Definition CAUSE_FAULT_LOAD : Z := 0x5.
Definition CAUSE_MISALIGNED_STORE : Z := 0x6.
Definition CAUSE_FAULT_STORE : Z := 0x7.
Definition CAUSE_USER_ECALL : Z := 0x8.
Definition CAUSE_SUPERVISOR_ECALL : Z := 0x9.
Definition CAUSE_HYPERVISOR_ECALL : Z := 0xa.
Definition CAUSE_MACHINE_ECALL : Z := 0xb.

Definition TICK_NUM : Z := 100.

(** [make grade] defines [DEBUG_GRADE]. *)
Class Grading := { DEBUG_GRADE : bool }.

Section trap.
Context `{B : Build} `{P : Platform} `{I : Image} `{G : Grading}.

Definition print_ticks : M kernel unit :=
  printk (line "%d ticks") [VInt TICK_NUM];;
  if DEBUG_GRADE then
    printk (line "End of Test.") [];;
    panic "kern/trap/trap.c" 18 (text "EOT: kernel seems ok.") [] "EOT: kernel seems ok."
  else mret ().

Definition idt_init : M kernel unit :=
  zoom machL (write_csr Csr_sscratch 0);;
  zoom machL (write_csr Csr_stvec sym_alltraps).

Definition trap_in_kernel (tf : trapframe) : bool := truthy (Z.land (status tf) SSTATUS_SPP).

(** One [cprintf] of [print_regs] or [print_trapframe]. *)
Definition print_reg (label : string) (v : Z) : M kernel unit :=
  printk (text label ++ line "0x%08x") [VInt v].

Definition print_regs (r : pushregs) : M kernel unit :=
  print_reg "  zero     " (gpr_zero r);;
  print_reg "  ra       " (gpr_ra r);;
  print_reg "  sp       " (gpr_sp r);;
  print_reg "  gp       " (gpr_gp r);;
  print_reg "  tp       " (gpr_tp r);;
  print_reg "  t0       " (gpr_t0 r);;
  print_reg "  t1       " (gpr_t1 r);;
  print_reg "  t2       " (gpr_t2 r);;
  print_reg "  s0       " (gpr_s0 r);;
  print_reg "  s1       " (gpr_s1 r);;
  print_reg "  a0       " (gpr_a0 r);;
  print_reg "  a1       " (gpr_a1 r);;
  print_reg "  a2       " (gpr_a2 r);;
  print_reg "  a3       " (gpr_a3 r);;
  print_reg "  a4       " (gpr_a4 r);;
  print_reg "  a5       " (gpr_a5 r);;
  print_reg "  a6       " (gpr_a6 r);;
  print_reg "  a7       " (gpr_a7 r);;
  print_reg "  s2       " (gpr_s2 r);;
  print_reg "  s3       " (gpr_s3 r);;
  print_reg "  s4       " (gpr_s4 r);;
  print_reg "  s5       " (gpr_s5 r);;
  print_reg "  s6       " (gpr_s6 r);;
  print_reg "  s7       " (gpr_s7 r);;
  print_reg "  s8       " (gpr_s8 r);;
  print_reg "  s9       " (gpr_s9 r);;
  print_reg "  s10      " (gpr_s10 r);;
  print_reg "  s11      " (gpr_s11 r);;
  print_reg "  t3       " (gpr_t3 r);;
  print_reg "  t4       " (gpr_t4 r);;
  print_reg "  t5       " (gpr_t5 r);;
  print_reg "  t6       " (gpr_t6 r).

(** [addr] is the address of the frame [tf]. *)
Definition print_trapframe (addr : Z) (tf : trapframe) : M kernel unit :=
  printk (line "trapframe at %p") [VInt addr];;
  print_regs (gpr tf);;
  print_reg "  status   " (status tf);;
  print_reg "  epc      " (epc tf);;
  print_reg "  badvaddr " (badvaddr tf);;
  print_reg "  cause    " (cause tf).

Definition interrupt_cause (tf : trapframe) : Z :=
  s64 (Z.shiftr (u64 (Z.shiftl (cause tf) 1)) 1).

Definition interrupt_handler (addr : Z) (tf : trapframe) : M kernel unit :=
  let c := interrupt_cause tf in
  if c =? IRQ_U_SOFT then printk (line "User software interrupt") []
  else if c =? IRQ_S_SOFT then printk (line "Supervisor software interrupt") []
  else if c =? IRQ_H_SOFT then printk (line "Hypervisor software interrupt") []
  else if c =? IRQ_M_SOFT then printk (line "Machine software interrupt") []
  else if c =? IRQ_U_TIMER then printk (line "User Timer interrupt") []
  else if c =? IRQ_S_TIMER then
    zoom machL clock_set_next_event;;
    k ← mget;
    let t := u64 (ticks k + 1) in
    mput (set_ticks t k);;
    if t mod TICK_NUM =? 0 then print_ticks else mret ()
  else if c =? IRQ_H_TIMER then printk (line "Hypervisor software interrupt") []
  else if c =? IRQ_M_TIMER then printk (line "Machine software interrupt") []
  else if c =? IRQ_U_EXT then printk (line "User software interrupt") []
  else if c =? IRQ_S_EXT then printk (line "Supervisor external interrupt") []
  else if c =? IRQ_H_EXT then printk (line "Hypervisor software interrupt") []
  else if c =? IRQ_M_EXT then printk (line "Machine software interrupt") []
  else print_trapframe addr tf.

(** The causes [exception_handler] knows; it ignores every one of them. *)
Definition known_exceptions : list Z :=
  [CAUSE_MISALIGNED_FETCH; CAUSE_FAULT_FETCH; CAUSE_ILLEGAL_INSTRUCTION; CAUSE_BREAKPOINT;
   CAUSE_MISALIGNED_LOAD; CAUSE_FAULT_LOAD; CAUSE_MISALIGNED_STORE; CAUSE_FAULT_STORE;
   CAUSE_USER_ECALL; CAUSE_SUPERVISOR_ECALL; CAUSE_HYPERVISOR_ECALL; CAUSE_MACHINE_ECALL].

Definition exception_handler (addr : Z) (tf : trapframe) : M kernel unit :=
  if bool_decide (cause tf ∈ known_exceptions) then mret ()
  else print_trapframe addr tf.

Definition trap_dispatch (addr : Z) (tf : trapframe) : M kernel unit :=
  if s64 (cause tf) <? 0 then interrupt_handler addr tf else exception_handler addr tf.

Definition trap (addr : Z) (tf : trapframe) : M kernel unit := trap_dispatch addr tf.

(** *** kern/driver/clock.c *)

Definition clock_init : M kernel unit :=
  _ ← zoom machL (set_csr Csr_sie MIP_STIP);
  zoom machL clock_set_next_event;;
  mmodify (set_ticks 0);;
  printk (line "++ setup timer interrupts") [].
End trap.

(** ** What a trap prints *)

Section output.
Context `{B : Build} `{P : Platform} `{I : Image} `{G : Grading}.

Definition reg_text (label : string) (v : Z) : list Z := text label ++ text "0x" ++ hex8_out v ++ [10].
Definition pointer_out (v : Z) : list Z := text "0x" ++ render_number (plain ConvPointer) 16 v.

Definition regs_text (r : pushregs) : list Z :=
  reg_text "  zero     " (gpr_zero r) ++
  reg_text "  ra       " (gpr_ra r) ++
  reg_text "  sp       " (gpr_sp r) ++
  reg_text "  gp       " (gpr_gp r) ++
  reg_text "  tp       " (gpr_tp r) ++
  reg_text "  t0       " (gpr_t0 r) ++
  reg_text "  t1       " (gpr_t1 r) ++
  reg_text "  t2       " (gpr_t2 r) ++
  reg_text "  s0       " (gpr_s0 r) ++
  reg_text "  s1       " (gpr_s1 r) ++
  reg_text "  a0       " (gpr_a0 r) ++
  reg_text "  a1       " (gpr_a1 r) ++
  reg_text "  a2       " (gpr_a2 r) ++
  reg_text "  a3       " (gpr_a3 r) ++
  reg_text "  a4       " (gpr_a4 r) ++
  reg_text "  a5       " (gpr_a5 r) ++
  reg_text "  a6       " (gpr_a6 r) ++
  reg_text "  a7       " (gpr_a7 r) ++
  reg_text "  s2       " (gpr_s2 r) ++
  reg_text "  s3       " (gpr_s3 r) ++
  reg_text "  s4       " (gpr_s4 r) ++
  reg_text "  s5       " (gpr_s5 r) ++
  reg_text "  s6       " (gpr_s6 r) ++
  reg_text "  s7       " (gpr_s7 r) ++
  reg_text "  s8       " (gpr_s8 r) ++
  reg_text "  s9       " (gpr_s9 r) ++
  reg_text "  s10      " (gpr_s10 r) ++
  reg_text "  s11      " (gpr_s11 r) ++
  reg_text "  t3       " (gpr_t3 r) ++
  reg_text "  t4       " (gpr_t4 r) ++
  reg_text "  t5       " (gpr_t5 r) ++
  reg_text "  t6       " (gpr_t6 r).

Definition trapframe_text (addr : Z) (tf : trapframe) : list Z :=
  (text "trapframe at " ++ pointer_out addr ++ [10]) ++ regs_text (gpr tf) ++
  reg_text "  status   " (status tf) ++ reg_text "  epc      " (epc tf) ++
  reg_text "  badvaddr " (badvaddr tf) ++ reg_text "  cause    " (cause tf).

(** The messages by interrupt number; number 5 is the supervisor timer. *)
Definition interrupt_messages : list string :=
  ["User software interrupt"; "Supervisor software interrupt"; "Hypervisor software interrupt";
   "Machine software interrupt"; "User Timer interrupt"; "";
   "Hypervisor software interrupt"; "Machine software interrupt"; "User software interrupt";
   "Supervisor external interrupt"; "Hypervisor software interrupt"; "Machine software interrupt"].

Definition is_interrupt (tf : trapframe) : bool := Z.testbit (cause tf) 63.
Definition is_timer (tf : trapframe) : bool := cause tf =? 2 ^ 63 + IRQ_S_TIMER.

Definition trap_text (addr : Z) (tf : trapframe) : list Z :=
  if is_interrupt tf then
    match interrupt_messages !! Z.to_nat (cause tf - 2 ^ 63) with
    | Some m => line m
    | None => trapframe_text addr tf
    end
  else if bool_decide (cause tf < 12) then [] else trapframe_text addr tf.

Definition regs_in (r : pushregs) : Prop :=
  Forall in_u64 [gpr_zero r; gpr_ra r; gpr_sp r; gpr_gp r; gpr_tp r; gpr_t0 r; gpr_t1 r; gpr_t2 r; gpr_s0 r; gpr_s1 r; gpr_a0 r; gpr_a1 r; gpr_a2 r; gpr_a3 r; gpr_a4 r; gpr_a5 r; gpr_a6 r; gpr_a7 r; gpr_s2 r; gpr_s3 r; gpr_s4 r; gpr_s5 r; gpr_s6 r; gpr_s7 r; gpr_s8 r; gpr_s9 r; gpr_s10 r; gpr_s11 r; gpr_t3 r; gpr_t4 r; gpr_t5 r; gpr_t6 r].
Definition frame_in (tf : trapframe) : Prop :=
  regs_in (gpr tf) /\ in_u64 (status tf) /\ in_u64 (epc tf) /\ in_u64 (badvaddr tf) /\ in_u64 (cause tf).

Definition label_ok (s : string) : Prop :=
  Forall (fun c => c <> 0 /\ c <> 37) (text s) /\ (length (text s) <= 100)%nat.

Lemma prints_reg label v : label_ok label -> in_u64 v -> prints (print_reg label v) (reg_text label v).
Proof using Type.
  intros [Hl Hlen] Hv. unfold print_reg, reg_text. apply prints_printk.
  - assert (text label ++ line "0x%08x"
      = format_text (lits (text label) ++ lits (text "0x") ++ [Escape hex8] ++ lits [10])) as ->.
    { unfold format_text. rewrite map_app, concat_app. by rewrite lits_text. }
    apply (vprintfmt_emit _ _ (text label ++ text "0x" ++ hex8_out v ++ [10]) []).
    + apply Forall_app; split; [by apply lits_ok|]. pieces_ok.
    + apply Forall_cons; split; [done|constructor].
    + by rewrite !render_lits, render_hex8, render_lits_end.
  - rewrite !length_app. pose proof (hex8_out_length v).
    change (length (text "0x")) with 2%nat. change (length [10]) with 1%nat. lia.
Qed.

Ltac known_label :=
  split; [vm_compute; repeat constructor; discriminate|apply Nat.leb_le; vm_compute; reflexivity].

Lemma prints_regs r : regs_in r -> prints (print_regs r) (regs_text r).
Proof using Type.
  intros H. unfold regs_in in H. rewrite !Forall_cons in H. destruct_and? H.
  unfold print_regs, regs_text.
  repeat (apply prints_seq; [apply prints_reg; [known_label|done]|]).
  apply prints_reg; [known_label|done].
Qed.

Lemma render_pointer v ps ap :
  render ([Escape (plain ConvPointer)] ++ ps) (VInt v :: ap)
  = (out ← render ps ap; Some (pointer_out v ++ out)).
Proof using Type. done. Qed.

Lemma prints_trapframe addr tf :
  in_u64 addr -> frame_in tf -> prints (print_trapframe addr tf) (trapframe_text addr tf).
Proof using Type.
  intros Ha (Hr & Hs & He & Hb & Hc). unfold print_trapframe, trapframe_text.
  apply prints_seq; [|apply prints_seq; [by apply prints_regs|]];
    [|do 3 (apply prints_seq; [apply prints_reg; [known_label|done]|]); apply prints_reg; [known_label|done]].
  apply prints_printk.
  - assert (line "trapframe at %p"
      = format_text (lits (text "trapframe at ") ++ [Escape (plain ConvPointer)] ++ lits [10])) as -> by done.
    apply (vprintfmt_emit _ _ (text "trapframe at " ++ pointer_out addr ++ [10]) []).
    + pieces_ok.
    + apply Forall_cons; split; [done|constructor].
    + by rewrite render_lits, render_pointer, render_lits_end.
  - unfold pointer_out, render_number. rewrite !length_app.
    pose proof (number_out_length 16 addr (dir_width (plain ConvPointer)) (dir_padc (plain ConvPointer))) as H.
    change (dir_width (plain ConvPointer)) with (-1) in *.
    change (length (text "trapframe at ")) with 13%nat. change (length (text "0x")) with 2%nat.
    change (length [10]) with 1%nat. lia.
Qed.

(** *** Dispatch *)

Lemma s64_negative c : in_u64 c -> (s64 c <? 0) = Z.testbit c 63.
Proof using Type.
  intros Hc. rewrite Z.testbit_eqb by lia. unfold in_u64 in Hc.
  assert (c / 2 ^ 63 = 0 \/ c / 2 ^ 63 = 1) as Hd by (Z.to_euclidean_division_equations; lia).
  destruct Hd as [Hd|Hd]; rewrite Hd; simpl; word_lia.
Qed.

Lemma interrupt_cause_eq tf :
  in_u64 (cause tf) -> is_interrupt tf = true -> interrupt_cause tf = cause tf - 2 ^ 63.
Proof using Type.
  intros Hc Hi. unfold is_interrupt in Hi. rewrite <- s64_negative in Hi by done.
  unfold interrupt_cause. rewrite Z.shiftl_mul_pow2, Z.shiftr_div_pow2 by lia. word_lia.
Qed.

Lemma prints_fixed s : vprintfmt emit (line s) [] [] = Ok () (line s) -> (length (line s) <= 100)%nat ->
  prints (printk (line s) []) (line s).
Proof using Type. intros E Hl. apply prints_text; [done|lia]. Qed.

Lemma interrupt_prints addr tf :
  in_u64 addr -> frame_in tf -> is_interrupt tf = true -> is_timer tf = false ->
  prints (interrupt_handler addr tf) (trap_text addr tf).
Proof using Type.
  intros Ha Hf Hi Ht. pose proof Hf as (_ & _ & _ & _ & Hc). unfold trap_text. rewrite Hi.
  unfold interrupt_handler. rewrite interrupt_cause_eq by done. cbv zeta.
  unfold is_timer in Ht. unfold is_interrupt in Hi. rewrite <- s64_negative in Hi by done.
  assert (0 <= cause tf - 2 ^ 63) as Hge by word_lia.
  set (c := cause tf - 2 ^ 63) in *. assert (c <> IRQ_S_TIMER) as Hne by lia.
  destruct (decide (c < 12)) as [Hlt|Hlt].
  - assert (c = 0 \/ c = 1 \/ c = 2 \/ c = 3 \/ c = 4 \/ c = 6 \/ c = 7 \/ c = 8 \/ c = 9 \/ c = 10 \/ c = 11) as Hcs
      by (unfold IRQ_S_TIMER in Hne; lia).
    clearbody c. repeat destruct Hcs as [-> | Hcs]; try subst c;
      (apply prints_fixed; [by vm_compute|by apply Nat.leb_le; vm_compute]).
  - assert (interrupt_messages !! Z.to_nat c = None) as -> by (apply lookup_ge_None_2; simpl; lia).
    repeat match goal with |- context [c =? ?x] =>
      rewrite (proj2 (Z.eqb_neq c x)) by (unfold x; lia) end.
    by apply prints_trapframe.
Qed.

Lemma exception_prints addr tf :
  in_u64 addr -> frame_in tf -> is_interrupt tf = false ->
  prints (exception_handler addr tf) (trap_text addr tf).
Proof using Type.
  intros Ha Hf Hi. pose proof Hf as (_ & _ & _ & _ & Hc). unfold trap_text, exception_handler. rewrite Hi.
  assert (bool_decide (cause tf ∈ known_exceptions) = bool_decide (cause tf < 12)) as ->.
  { apply bool_decide_ext. unfold in_u64 in Hc. unfold known_exceptions.
    rewrite !elem_of_cons, elem_of_nil.
    unfold CAUSE_MISALIGNED_FETCH, CAUSE_FAULT_FETCH, CAUSE_ILLEGAL_INSTRUCTION, CAUSE_BREAKPOINT,
      CAUSE_MISALIGNED_LOAD, CAUSE_FAULT_LOAD, CAUSE_MISALIGNED_STORE, CAUSE_FAULT_STORE, CAUSE_USER_ECALL,
      CAUSE_SUPERVISOR_ECALL, CAUSE_HYPERVISOR_ECALL, CAUSE_MACHINE_ECALL. lia. }
  case_bool_decide; [apply prints_nothing|by apply prints_trapframe].
Qed.

(** The firmware call that asks for the next timer interrupt. *)
Definition next_timer (m : machine) : sbi_event :=
  SbiCall SBI_SET_TIMER (u64 (u64 (time_csr (fw_state m)) + timebase)) 0 0.

Lemma clock_set_next_event_eq m :
  clock_set_next_event m = Ok () (after_calls [next_timer m] m).
Proof using Type.
  unfold clock_set_next_event, get_cycles, sbi_set_timer, sbi_call, mbind, M_bind, mget, mret, M_ret.
  unfold after_calls, next_timer. rewrite u64_u64. simpl.
  change (u64 SBI_SET_TIMER) with SBI_SET_TIMER. change (u64 0) with 0. by destruct (sbi_ecall _ _).
Qed.

Definition ticked (k : kernel) : kernel :=
  set_ticks (u64 (ticks k + 1)) (set_mach (after_calls [next_timer (mach k)] (mach k)) k).

Lemma prints_ticks : DEBUG_GRADE = false -> prints print_ticks (line "100 ticks").
Proof using Type.
  intros HG. unfold print_ticks. rewrite HG.
  rewrite <- (app_nil_r (line "100 ticks")). apply prints_seq; [|apply prints_nothing].
  apply prints_printk; by vm_compute.
Qed.

(** The graded kernel stops at a multiple of a hundred ticks. *)
Definition end_of_test (k : kernel) (tf : trapframe) : bool :=
  DEBUG_GRADE && is_timer tf && (u64 (ticks k + 1) mod TICK_NUM =? 0).

(** A timer interrupt, up to [print_ticks]. *)
Lemma timer_steps addr tf k :
  is_timer tf = true ->
  trap addr tf k = (if u64 (ticks k + 1) mod TICK_NUM =? 0 then print_ticks else mret ()) (ticked k).
Proof using Type.
  intros Ht. unfold is_timer in Ht. apply Z.eqb_eq in Ht. unfold trap, trap_dispatch.
  rewrite Ht. change (s64 _ <? 0) with true. cbv iota. unfold interrupt_handler.
  assert (interrupt_cause tf = IRQ_S_TIMER) as -> by (unfold interrupt_cause; rewrite Ht; by vm_compute).
  cbv zeta. do 5 (rewrite (proj2 (Z.eqb_neq _ _)) by done). rewrite Z.eqb_refl.
  unfold mbind at 1, M_bind at 1, zoom. cbn [machL lget]. rewrite clock_set_next_event_eq. cbn [lput].
  unfold mbind, M_bind, mget, mput. set (k1 := set_mach (after_calls [next_timer (mach k)] (mach k)) k).
  change (set_ticks (u64 (ticks k1 + 1)) k1) with (ticked k). change (ticks k1) with (ticks k).
  reflexivity.
Qed.

Lemma timer_eq addr tf k :
  is_timer tf = true -> end_of_test k tf = false ->
  trap addr tf k = Ok () (printed (if u64 (ticks k + 1) mod TICK_NUM =? 0 then line "100 ticks" else []) (ticked k)).
Proof using Type.
  intros Ht He. rewrite timer_steps by done. unfold end_of_test in He. rewrite Ht, andb_true_r in He.
  destruct (_ =? 0); [|by rewrite printed_nil]. rewrite andb_true_r in He. by apply prints_ticks.
Qed.

(** What the end of a graded run prints. *)
Definition end_text : list Z :=
  line "100 ticks" ++ line "End of Test." ++ panic_header "kern/trap/trap.c" 18 ++
  text "EOT: kernel seems ok." ++ [10].

Lemma timer_end addr tf k :
  end_of_test k tf = true -> is_panic k = false ->
  exists k', trap addr tf k = Panic "EOT: kernel seems ok." k' /\ is_panic k' = true /\ sie (mach k') = false /\
    console_out (trace (mach k')) = console_out (trace (mach k)) ++
      (if IS_VERIF then map u8 (text "EOT: kernel seems ok.") else map u8 end_text).
Proof using Type.
  unfold end_of_test. intros [[HG Ht]%andb_prop H0]%andb_prop Hp. rewrite timer_steps, H0 by done.
  unfold print_ticks. rewrite HG.
  assert (E1 : prints (printk (line "%d ticks") [VInt TICK_NUM]) (line "100 ticks")) by (apply prints_printk; by vm_compute).
  assert (E2 : prints (printk (line "End of Test.") []) (line "End of Test.")) by (apply prints_text; by vm_compute).
  unfold mbind, M_bind. rewrite E1, E2, <- printed_app.
  set (k1 := printed _ (ticked k)). assert (Hp1 : is_panic k1 = false)
    by (unfold k1, printed; destruct IS_VERIF; exact Hp).
  destruct (panic_eq (A := unit) "kern/trap/trap.c" 18 (text "EOT: kernel seems ok.") []
    (text "EOT: kernel seems ok.") "EOT: kernel seems ok." k1) as (k' & E & Hpk & Hoff & _ & Hout);
    [by vm_compute; repeat constructor|by vm_compute|lia|by vm_compute|by vm_compute|].
  exists k'. split_and!; [exact E|exact Hpk|exact Hoff|]. rewrite Hout, Hp1. unfold k1. rewrite printed_console.
  assert (Hc : console_out (trace (mach (ticked k))) = console_out (trace (mach k))).
  { unfold ticked. simpl. rewrite console_out_app. by rewrite app_nil_r. }
  rewrite Hc. unfold end_text. destruct IS_VERIF; [by rewrite app_nil_r|]. by rewrite !map_app, <- !app_assoc.
Qed.

(** The kernel after a trap. *)
Definition after_trap (addr : Z) (tf : trapframe) (k : kernel) : kernel :=
  if is_timer tf
  then printed (if u64 (ticks k + 1) mod TICK_NUM =? 0 then line "100 ticks" else []) (ticked k)
  else printed (trap_text addr tf) k.

Lemma trap_returns addr tf k :
  in_u64 addr -> frame_in tf -> end_of_test k tf = false -> trap addr tf k = Ok () (after_trap addr tf k).
Proof using Type.
  intros Ha Hf He. unfold after_trap. destruct (is_timer tf) eqn:Ht; [by apply timer_eq|].
  pose proof Hf as (_ & _ & _ & _ & Hc). unfold trap, trap_dispatch. rewrite s64_negative by done.
  fold (is_interrupt tf). destruct (is_interrupt tf) eqn:Hi.
  - by apply interrupt_prints.
  - by apply exception_prints.
Qed.

Lemma trap_eq addr tf k :
  in_u64 addr -> frame_in tf -> DEBUG_GRADE = false -> trap addr tf k = Ok () (after_trap addr tf k).
Proof using Type. intros Ha Hf HG. apply trap_returns; [done|done|]. unfold end_of_test. by rewrite HG. Qed.

(** C19: [trap] returns for every cause.  A supervisor timer interrupt asks for
    the next one and counts a tick, printing every hundredth; another known
    interrupt prints its message; an exception of the twelve known causes is
    ignored; anything else prints the frame.  Nothing else changes.  Only the
    graded kernel does not return from a hundredth tick: it reports the end
    of its test and panics. *)
Theorem trap_spec addr tf k :
  in_u64 addr -> frame_in tf -> is_panic k = false ->
  if end_of_test k tf
  then exists k', trap addr tf k = Panic "EOT: kernel seems ok." k' /\ is_panic k' = true /\ sie (mach k') = false /\
    console_out (trace (mach k')) = console_out (trace (mach k)) ++
      (if IS_VERIF then map u8 (text "EOT: kernel seems ok.") else map u8 end_text)
  else trap addr tf k = Ok ()
    (if is_timer tf
     then printed (if u64 (ticks k + 1) mod TICK_NUM =? 0 then line "100 ticks" else []) (ticked k)
     else printed (trap_text addr tf) k).
Proof using Type.
  intros Ha Hf Hp. destruct (end_of_test k tf) eqn:He; [by apply timer_end|by apply trap_returns].
Qed.
End output.

(** ** Counting time *)

Section ticking.
Context `{B : Build} `{P : Platform} `{I : Image} `{G : Grading}.

(** [n] timer interrupts in a row. *)
Fixpoint timer_traps (n : nat) (addr : Z) (tf : trapframe) : M kernel unit :=
  match n with
  | O => mret ()
  | S n' => trap addr tf;; timer_traps n' addr tf
  end.

Definition timer_requests (tr : list sbi_event) : Z :=
  Z.of_nat (length (filter (fun ev => sbi_type ev = SBI_SET_TIMER) tr)).

Lemma timer_requests_app t1 t2 : timer_requests (t1 ++ t2) = timer_requests t1 + timer_requests t2.
Proof using Type. unfold timer_requests. rewrite filter_app, length_app. lia. Qed.
Lemma timer_requests_puts out : timer_requests (map put_event out) = 0.
Proof using Type. induction out as [|c out IH]; [done|]. unfold timer_requests in *. simpl. by rewrite filter_cons_False. Qed.

Lemma printed_requests out k :
  timer_requests (trace (mach (printed out k))) = timer_requests (trace (mach k)).
Proof using Type.
  unfold printed. destruct IS_VERIF; [done|]. simpl. rewrite timer_requests_app, timer_requests_puts. lia.
Qed.

Lemma ticked_facts k :
  in_u64 (ticks k + 1) ->
  ticks (ticked k) = ticks k + 1 /\ csrs (mach (ticked k)) = csrs (mach k) /\
  timer_requests (trace (mach (ticked k))) = timer_requests (trace (mach k)) + 1 /\
  console_out (trace (mach (ticked k))) = console_out (trace (mach k)).
Proof using Type.
  intros Ht. unfold ticked. simpl. rewrite u64_small by done.
  rewrite timer_requests_app, console_out_app. split_and!; try done. by rewrite app_nil_r.
Qed.

(** The number of hundreds passed from [t] to [t + n]. *)
Definition hundreds (t n : Z) : Z := (t + n) / TICK_NUM - t / TICK_NUM.

Lemma hundreds_step t n :
  0 <= t -> 0 <= n ->
  hundreds t (n + 1) = (if (t + 1) mod TICK_NUM =? 0 then 1 else 0) + hundreds (t + 1) n.
Proof using Type.
  intros Ht Hn. unfold hundreds, TICK_NUM.
  destruct (Z.eqb_spec ((t + 1) mod 100) 0); Z.to_euclidean_division_equations; lia.
Qed.
Lemma hundreds_nonneg t n : 0 <= n -> 0 <= hundreds t n.
Proof using Type. intros Hn. unfold hundreds, TICK_NUM. Z.to_euclidean_division_equations; lia. Qed.

(** C20: [n] timer interrupts count [n] ticks, each asks the firmware for the
    next one, and ["100 ticks"] is printed exactly once for every multiple of
    100 that the counter passes. *)
Theorem ticks_spec n addr tf k :
  is_timer tf = true -> DEBUG_GRADE = false -> 0 <= ticks k -> ticks k + Z.of_nat n < 2 ^ 64 ->
  wp (timer_traps n addr tf) (fun _ k' =>
    ticks k' = ticks k + Z.of_nat n /\ csrs (mach k') = csrs (mach k) /\
    timer_requests (trace (mach k')) = timer_requests (trace (mach k)) + Z.of_nat n /\
    console_out (trace (mach k')) = console_out (trace (mach k)) ++
      if IS_VERIF then []
      else concat (replicate (Z.to_nat (hundreds (ticks k) (Z.of_nat n))) (map u8 (line "100 ticks")))) k.
Proof using Type.
  intros Ht HG. revert k. induction n as [|n IH]; intros k H0 Hlt.
  - apply wp_ret. unfold hundreds. rewrite !Z.add_0_r, Z.sub_diag. split_and!; [done..|].
    destruct IS_VERIF; by rewrite app_nil_r.
  - cbn [timer_traps]. apply wp_bind. unfold wp at 1. rewrite timer_eq by (done || unfold end_of_test; by rewrite HG).
    assert (Hw : in_u64 (ticks k + 1)) by (unfold in_u64; lia).
    destruct (ticked_facts k Hw) as (F1 & F2 & F3 & F4). rewrite (u64_small _ Hw).
    set (out := if _ =? 0 then _ else _). eapply wp_mono; [apply IH; rewrite printed_ticks, F1; lia|].
    intros [] k' (E1 & E2 & E3 & E4). rewrite printed_ticks, F1 in E1, E4.
    rewrite printed_csrs, F2 in E2. rewrite printed_requests, F3 in E3.
    rewrite printed_console, F4, <- app_assoc in E4.
    split_and!; [lia|done|lia|]. rewrite E4. f_equal. destruct IS_VERIF; [done|].
    replace (Z.of_nat (S n)) with (Z.of_nat n + 1) by lia. rewrite hundreds_step by lia. unfold out.
    pose proof (hundreds_nonneg (ticks k + 1) (Z.of_nat n) ltac:(lia)).
    destruct (_ =? 0); [|done]. by rewrite Z2Nat.inj_add by lia.
Qed.
End ticking.

(** ** Witnesses *)

Definition sample_grading : Grading := {| DEBUG_GRADE := false |}.
Definition sample_regs : pushregs :=
  Pushregs 0 1 2 3 4 5 6 7 8 9 10 11 12 13 14 15 16 17 18 19 20 21 22 23 24 25 26 27 28 29 30 31.
Definition sample_frame (c : Z) : trapframe := Trapframe sample_regs 0x100 0xFFFFFFFFC0200010 0 c.

Lemma sample_frame_in c : in_u64 c -> frame_in (sample_frame c).
Proof.
  intros Hc. split_and!; [|done|done|done|exact Hc]. unfold regs_in. simpl.
  repeat (apply Forall_cons; split; [done|]). constructor.
Qed.

Lemma trap_spec_witness :
  trap (B := kernel_build) (P := sample_platform) (G := sample_grading) 0x1000 (sample_frame (2 ^ 63 + 1))
    (sample_kernel (Mm [] 0))
  = Ok () (printed (B := kernel_build) (P := sample_platform) (line "Supervisor software interrupt")
      (sample_kernel (Mm [] 0))).
Proof.
  exact (trap_spec (B := kernel_build) (P := sample_platform) (G := sample_grading) 0x1000
    (sample_frame (2 ^ 63 + 1)) (sample_kernel (Mm [] 0)) ltac:(done) (sample_frame_in (2 ^ 63 + 1) ltac:(done)) eq_refl).
Defined.

Lemma ticks_spec_witness :
  wp (timer_traps (B := kernel_build) (P := sample_platform) (G := sample_grading) 250 0x1000
      (sample_frame (2 ^ 63 + 5)))
    (fun _ k' => ticks k' = 250 /\ console_out (trace (mach k')) = line "100 ticks" ++ line "100 ticks")
    (sample_kernel (Mm [] 0)).
Proof.
  eapply wp_mono.
  - apply (ticks_spec (B := kernel_build) (P := sample_platform) (G := sample_grading) 250 0x1000
      (sample_frame (2 ^ 63 + 5)) (sample_kernel (Mm [] 0))); by vm_compute.
  - intros [] k' (-> & _ & _ & ->). by vm_compute.
Defined.
