(* ===== verification/TrapEntry.v ===== *)
(** * Saving and restoring the interrupted context

    kern/trap/trapentry.S: the instructions it uses, as operations on a hart's
    registers and memory, and its two macros.  The theorem: the frame handed to
    [trap] holds the interrupted context, and the return from the trap resumes
    exactly the context that the frame then holds. *)

From S2P Require Import Prelude Defs Machine Trap.

(** ** Harts *)

(** [xs] are the registers [x0] to [x31]; [mem] holds doublewords, by their
    (aligned) address. *)
Record hart : Type := Hart { xs : list Z; hcsrs : gmap csr Z; mem : gmap Z Z }.

Definition REGBYTES : Z := Z.shiftl 1 3.

Definition x (h : hart) (r : nat) : Z := if (r =? 0)%nat then 0 else default 0 (xs h !! r).
Definition set_x (r : nat) (v : Z) (h : hart) : hart :=
  Hart (if (r =? 0)%nat then xs h else <[r := v]> (xs h)) (hcsrs h) (mem h).
Definition hcsr (h : hart) (r : csr) : Z := default 0 (hcsrs h !! r).
Definition set_hcsr (r : csr) (v : Z) (h : hart) : hart := Hart (xs h) (<[r := v]> (hcsrs h)) (mem h).
Definition address (h : hart) (base : nat) (off : Z) : Z := u64 (x h base + off).

Inductive instr : Type :=
  | Csrw (r : csr) (rs : nat)
  | Csrr (rd : nat) (r : csr)
  | Csrrw (rd : nat) (r : csr) (rs : nat)
  | Addi (rd rs : nat) (imm : Z)
  | Store (rs : nat) (off : Z) (base : nat)
  | Load (rd : nat) (off : Z) (base : nat).

(** A misaligned access traps; here it is undefined. *)
Definition exec1 (i : instr) (h : hart) : option hart :=
  match i with
  | Csrw r rs => Some (set_hcsr r (x h rs) h)
  | Csrr rd r => Some (set_x rd (hcsr h r) h)
  | Csrrw rd r rs => Some (set_x rd (hcsr h r) (set_hcsr r (x h rs) h))
  | Addi rd rs imm => Some (set_x rd (u64 (x h rs + imm)) h)
  | Store rs off base =>
      let a := address h base off in
      if a mod REGBYTES =? 0 then Some (Hart (xs h) (hcsrs h) (<[a := x h rs]> (mem h))) else None
  | Load rd off base =>
      let a := address h base off in
      if a mod REGBYTES =? 0 then Some (set_x rd (default 0 (mem h !! a)) h) else None
  end.

Fixpoint exec (code : list instr) (h : hart) : option hart :=
  match code with [] => Some h | i :: code' => h' ← exec1 i h; exec code' h' end.

(** The registers the macros name. *)
Definition sp : nat := 2.
Definition s0 : nat := 8.
Definition s1 : nat := 9.
Definition s2 : nat := 18.
Definition s3 : nat := 19.
Definition s4 : nat := 20.

Definition SAVE_ALL : list instr := [
  Csrw Csr_sscratch sp;
  Addi sp sp (-36 * REGBYTES);
  Store 0 (0 * REGBYTES) sp;
  Store 1 (1 * REGBYTES) sp;
  Store 3 (3 * REGBYTES) sp;
  Store 4 (4 * REGBYTES) sp;
  Store 5 (5 * REGBYTES) sp;
  Store 6 (6 * REGBYTES) sp;
  Store 7 (7 * REGBYTES) sp;
  Store 8 (8 * REGBYTES) sp;
  Store 9 (9 * REGBYTES) sp;
  Store 10 (10 * REGBYTES) sp;
  Store 11 (11 * REGBYTES) sp;
  Store 12 (12 * REGBYTES) sp;
  Store 13 (13 * REGBYTES) sp;
  Store 14 (14 * REGBYTES) sp;
  Store 15 (15 * REGBYTES) sp;
  Store 16 (16 * REGBYTES) sp;
  Store 17 (17 * REGBYTES) sp;
  Store 18 (18 * REGBYTES) sp;
  Store 19 (19 * REGBYTES) sp;
  Store 20 (20 * REGBYTES) sp;
  Store 21 (21 * REGBYTES) sp;
  Store 22 (22 * REGBYTES) sp;
  Store 23 (23 * REGBYTES) sp;
  Store 24 (24 * REGBYTES) sp;
  Store 25 (25 * REGBYTES) sp;
  Store 26 (26 * REGBYTES) sp;
  Store 27 (27 * REGBYTES) sp;
  Store 28 (28 * REGBYTES) sp;
  Store 29 (29 * REGBYTES) sp;
  Store 30 (30 * REGBYTES) sp;
  Store 31 (31 * REGBYTES) sp;
  Csrrw s0 Csr_sscratch 0;
  Csrr s1 Csr_sstatus;
  Csrr s2 Csr_sepc;
  Csrr s3 Csr_sbadaddr;
  Csrr s4 Csr_scause;
  Store s0 (2 * REGBYTES) sp;
  Store s1 (32 * REGBYTES) sp;
  Store s2 (33 * REGBYTES) sp;
  Store s3 (34 * REGBYTES) sp;
  Store s4 (35 * REGBYTES) sp
].

Definition RESTORE_ALL : list instr := [
  Load s1 (32 * REGBYTES) sp;
  Load s2 (33 * REGBYTES) sp;
  Csrw Csr_sstatus s1;
  Csrw Csr_sepc s2;
  Load 1 (1 * REGBYTES) sp;
  Load 3 (3 * REGBYTES) sp;
  Load 4 (4 * REGBYTES) sp;
  Load 5 (5 * REGBYTES) sp;
  Load 6 (6 * REGBYTES) sp;
  Load 7 (7 * REGBYTES) sp;
  Load 8 (8 * REGBYTES) sp;
  Load 9 (9 * REGBYTES) sp;
  Load 10 (10 * REGBYTES) sp;
  Load 11 (11 * REGBYTES) sp;
  Load 12 (12 * REGBYTES) sp;
  Load 13 (13 * REGBYTES) sp;
  Load 14 (14 * REGBYTES) sp;
  Load 15 (15 * REGBYTES) sp;
  Load 16 (16 * REGBYTES) sp;
  Load 17 (17 * REGBYTES) sp;
  Load 18 (18 * REGBYTES) sp;
  Load 19 (19 * REGBYTES) sp;
  Load 20 (20 * REGBYTES) sp;
  Load 21 (21 * REGBYTES) sp;
  Load 22 (22 * REGBYTES) sp;
  Load 23 (23 * REGBYTES) sp;
  Load 24 (24 * REGBYTES) sp;
  Load 25 (25 * REGBYTES) sp;
  Load 26 (26 * REGBYTES) sp;
  Load 27 (27 * REGBYTES) sp;
  Load 28 (28 * REGBYTES) sp;
  Load 29 (29 * REGBYTES) sp;
  Load 30 (30 * REGBYTES) sp;
  Load 31 (31 * REGBYTES) sp;
  Load 2 (2 * REGBYTES) sp
].

(** The frame that a [struct trapframe *] at [addr] points to. *)
Definition frame_word (h : hart) (addr : Z) (i : Z) : Z := default 0 (mem h !! u64 (addr + i * REGBYTES)).
Definition frame_regs (h : hart) (addr : Z) : list Z := map (frame_word h addr) (seqZ 0 32).
Definition trapframe_at (h : hart) (addr : Z) : trapframe :=
  let w := frame_word h addr in
  Trapframe (Pushregs
    (w 0) (w 1) (w 2) (w 3) (w 4) (w 5) (w 6) (w 7) (w 8) (w 9) (w 10) (w 11) (w 12) (w 13) (w 14) (w 15) (w 16) (w 17) (w 18) (w 19) (w 20) (w 21) (w 22) (w 23) (w 24) (w 25) (w 26) (w 27) (w 28) (w 29) (w 30) (w 31))
    (w 32) (w 33) (w 34) (w 35).

(** ** Execution *)

Definition slot (base i : Z) : Z := u64 (base + i * REGBYTES).
Definition aligned (a : Z) : Prop := a mod REGBYTES = 0.

Lemma REGBYTES_eq : REGBYTES = 8.
Proof. done. Qed.

Lemma slot_aligned base i : aligned base -> aligned (slot base i).
Proof. unfold aligned, slot. rewrite REGBYTES_eq. intros H. word_lia. Qed.

Lemma slot_inj base i j : 0 <= i < 36 -> 0 <= j < 36 -> slot base i = slot base j -> i = j.
Proof. unfold slot. rewrite REGBYTES_eq. intros Hi Hj H. word_lia. Qed.

Lemma exec_app c1 c2 h : exec (c1 ++ c2) h = (h' ← exec c1 h; exec c2 h').
Proof.
  revert h. induction c1 as [|i c1 IH]; intros h; [done|]. simpl. destruct (exec1 i h); simpl; [apply IH|done].
Qed.

Lemma exec_store rs i h :
  aligned (x h sp) -> exec1 (Store rs (i * REGBYTES) sp) h
    = Some (Hart (xs h) (hcsrs h) (<[slot (x h sp) i := x h rs]> (mem h))).
Proof.
  intros Ha. unfold exec1. change (address h sp (i * REGBYTES)) with (slot (x h sp) i).
  by rewrite (slot_aligned (x h sp) i Ha).
Qed.
Lemma exec_load rd i h :
  aligned (x h sp) -> exec1 (Load rd (i * REGBYTES) sp) h = Some (set_x rd (frame_word h (x h sp) i) h).
Proof.
  intros Ha. unfold exec1. change (address h sp (i * REGBYTES)) with (slot (x h sp) i).
  by rewrite (slot_aligned (x h sp) i Ha).
Qed.

(** A block of stores of registers into their slots. *)
Definition store_regs (l : list nat) : list instr := map (fun r => Store r (Z.of_nat r * REGBYTES) sp) l.
Definition load_regs (l : list nat) : list instr := map (fun r => Load r (Z.of_nat r * REGBYTES) sp) l.

Lemma exec_store_regs l h :
  aligned (x h sp) -> Forall (fun r => (r < 32)%nat) l ->
  exists m, exec (store_regs l) h = Some (Hart (xs h) (hcsrs h) m) /\
    (forall i, 0 <= i < 36 -> Z.to_nat i ∉ l -> m !! slot (x h sp) i = mem h !! slot (x h sp) i) /\
    (forall r, r ∈ l -> m !! slot (x h sp) (Z.of_nat r) = Some (x h r)) /\
    (forall a, (forall i, 0 <= i < 36 -> a <> slot (x h sp) i) -> m !! a = mem h !! a).
Proof.
  intros Ha Hl. revert h Ha. induction l as [|r l IH]; intros h Ha.
  - exists (mem h). split_and!; [by destruct h|done| |done]. intros r Hr. by apply elem_of_nil in Hr.
  - apply Forall_cons in Hl as [Hr Hl]. cbn [store_regs map exec]. rewrite exec_store by done.
    set (h' := Hart _ _ _). assert (Hx : forall q, x h' q = x h q) by done.
    destruct (IH Hl h') as (m & E & Hold & Hnew & Hout); [by rewrite Hx|].
    rewrite Hx in *. exists m. split_and!.
    + exact E.
    + intros i Hi Hni. rewrite not_elem_of_cons in Hni. destruct Hni as [Hne Hni].
      rewrite Hold by done. simpl. apply lookup_insert_ne. intros Heq. apply Hne.
      apply slot_inj in Heq; lia.
    + intros q Hq. destruct (decide (q ∈ l)) as [Hin|Hin]; [by rewrite <- Hx; apply Hnew|].
      apply elem_of_cons in Hq as [->|]; [|done].
      rewrite Hold by (rewrite ?Nat2Z.id; done || lia). simpl. by rewrite lookup_insert_eq.
    + intros a Hna. rewrite Hout by done. simpl. apply lookup_insert_ne.
      intros <-. apply (Hna (Z.of_nat r)); [lia|done].
Qed.

Lemma x_set_same h r v : r <> 0%nat -> (r < length (xs h))%nat -> x (set_x r v h) r = v.
Proof.
  intros H0 Hr. unfold x, set_x. rewrite (proj2 (Nat.eqb_neq r 0)) by done. simpl.
  by rewrite list_lookup_insert_eq.
Qed.
Lemma x_set_other h r q v : q <> r -> x (set_x r v h) q = x h q.
Proof.
  intros H. unfold x, set_x. destruct (q =? 0)%nat; [done|]. destruct (r =? 0)%nat; [done|]. simpl.
  by rewrite list_lookup_insert_ne by done.
Qed.
Lemma length_set_x h r v : length (xs (set_x r v h)) = length (xs h).
Proof. unfold set_x. simpl. destruct (r =? 0)%nat; [done|]. by rewrite length_insert. Qed.

Lemma exec_load_regs l h :
  aligned (x h sp) -> length (xs h) = 32%nat -> Forall (fun r => (r < 32)%nat) l -> sp ∉ l -> 0%nat ∉ l ->
  exists ys, exec (load_regs l) h = Some (Hart ys (hcsrs h) (mem h)) /\ length ys = 32%nat /\
    forall r, x (Hart ys (hcsrs h) (mem h)) r
      = if bool_decide (r ∈ l) then frame_word h (x h sp) (Z.of_nat r) else x h r.
Proof.
  revert h. induction l as [|r l IH]; intros h Ha Hlen Hl Hsp H0.
  - exists (xs h). split_and!; [by destruct h|done|]. intros r. rewrite bool_decide_false by set_solver. done.
  - apply Forall_cons in Hl as [Hr Hl]. apply not_elem_of_cons in Hsp as [Hsr Hsp].
    apply not_elem_of_cons in H0 as [H0r H0]. cbn [load_regs map exec]. rewrite exec_load by done.
    set (v := frame_word h (x h sp) (Z.of_nat r)). set (h' := set_x r v h).
    assert (Hxsp : x h' sp = x h sp) by by apply x_set_other.
    destruct (IH h') as (ys & E & Hy & Hx); try done; [by rewrite Hxsp|by unfold h'; rewrite length_set_x|].
    exists ys. split_and!; [exact E|done|]. intros q. change (hcsrs h) with (hcsrs h').
    change (mem h) with (mem h'). rewrite Hx, Hxsp. change (frame_word h') with (frame_word h).
    destruct (decide (q ∈ l)) as [Hin|Hin].
    + rewrite !bool_decide_true by set_solver. done.
    + rewrite bool_decide_false by done. destruct (decide (q = r)) as [->|Hne].
      * rewrite bool_decide_true by set_solver. apply x_set_same; [done|lia].
      * rewrite bool_decide_false by (by rewrite not_elem_of_cons). by apply x_set_other.
Qed.

(** ** Saving *)

Definition saved_regs : list nat := [0; 1]%nat ++ seq 3 29.
Definition save_csrs : list instr :=
  [Csrrw s0 Csr_sscratch 0; Csrr s1 Csr_sstatus; Csrr s2 Csr_sepc; Csrr s3 Csr_sbadaddr; Csrr s4 Csr_scause].
Definition store_csrs : list instr :=
  [Store s0 (2 * REGBYTES) sp; Store s1 (32 * REGBYTES) sp; Store s2 (33 * REGBYTES) sp;
   Store s3 (34 * REGBYTES) sp; Store s4 (35 * REGBYTES) sp].

Lemma SAVE_ALL_blocks :
  SAVE_ALL = [Csrw Csr_sscratch sp; Addi sp sp (-36 * REGBYTES)] ++ store_regs saved_regs ++ save_csrs ++ store_csrs.
Proof. done. Qed.
Lemma RESTORE_ALL_blocks :
  RESTORE_ALL = [Load s1 (32 * REGBYTES) sp; Load s2 (33 * REGBYTES) sp; Csrw Csr_sstatus s1; Csrw Csr_sepc s2]
    ++ load_regs (1%nat :: seq 3 29) ++ [Load sp (2 * REGBYTES) sp].
Proof. done. Qed.

(** The stack pointer with room for the frame. *)
Definition frame_sp (h : hart) : Z := u64 (x h sp + -36 * REGBYTES).

Lemma frame_sp_aligned h : aligned (x h sp) -> aligned (frame_sp h).
Proof. intros H. unfold frame_sp. change (u64 (x h sp + -36 * REGBYTES)) with (slot (x h sp) (-36)). by apply slot_aligned. Qed.

Lemma hcsr_set_same r v h : hcsr (set_hcsr r v h) r = v.
Proof. unfold hcsr, set_hcsr. simpl. by rewrite lookup_insert_eq. Qed.
Lemma hcsr_set_other r q v h : q <> r -> hcsr (set_hcsr r v h) q = hcsr h q.
Proof. intros H. unfold hcsr, set_hcsr. simpl. by rewrite lookup_insert_ne. Qed.

(** A register number below the number of registers. *)
Ltac reg_bound := rewrite ?length_set_x; unfold sp, s0, s1, s2, s3, s4; simpl; lia.

(** What [save_csrs] leaves in the registers it loads. *)
Lemma exec_save_csrs h :
  length (xs h) = 32%nat ->
  exists h', exec save_csrs h = Some h' /\ mem h' = mem h /\ length (xs h') = 32%nat /\
    x h' sp = x h sp /\ x h' s0 = hcsr h Csr_sscratch /\ x h' s1 = hcsr h Csr_sstatus /\
    x h' s2 = hcsr h Csr_sepc /\ x h' s3 = hcsr h Csr_sbadaddr /\ x h' s4 = hcsr h Csr_scause /\
    hcsr h' Csr_sscratch = 0.
Proof.
  intros Hlen. eexists. split; [reflexivity|].
  assert (Hc : forall q, q <> Csr_sscratch -> hcsr (set_hcsr Csr_sscratch (x h 0) h) q = hcsr h q)
    by (intros q Hq; by apply hcsr_set_other).
  split_and!; [done|by rewrite !length_set_x|..].
  - by rewrite !x_set_other.
  - rewrite !(x_set_other _ _ s0) by done. apply x_set_same; [done|reg_bound].
  - rewrite !(x_set_other _ _ s1) by done. rewrite x_set_same by (done || reg_bound).
    by apply (Hc Csr_sstatus).
  - rewrite !(x_set_other _ _ s2) by done. rewrite x_set_same by (done || reg_bound).
    by apply (Hc Csr_sepc).
  - rewrite !(x_set_other _ _ s3) by done. rewrite x_set_same by (done || reg_bound).
    by apply (Hc Csr_sbadaddr).
  - rewrite x_set_same by (done || reg_bound). by apply (Hc Csr_scause).
  - change (hcsr (set_hcsr Csr_sscratch (x h 0) h) Csr_sscratch = 0). by rewrite hcsr_set_same.
Qed.

(** The words of the frame that [store_csrs] fills. *)
Definition csr_words : list (nat * Z) := [(s0, 2); (s1, 32); (s2, 33); (s3, 34); (s4, 35)].

Lemma exec_store_csrs h :
  aligned (x h sp) ->
  exists m, exec store_csrs h = Some (Hart (xs h) (hcsrs h) m) /\
    (forall r i, (r, i) ∈ csr_words -> m !! slot (x h sp) i = Some (x h r)) /\
    (forall i, 0 <= i < 36 -> i ∉ map snd csr_words -> m !! slot (x h sp) i = mem h !! slot (x h sp) i) /\
    (forall a, (forall i, 0 <= i < 36 -> a <> slot (x h sp) i) -> m !! a = mem h !! a).
Proof.
  intros Ha. set (b := x h sp). unfold store_csrs. cbn [exec].
  repeat (rewrite exec_store by exact Ha; cbn [mbind option_bind xs hcsrs mem];
    change (x (Hart (xs h) (hcsrs h) ?m) ?r) with (x h r)).
  fold b.
  eexists. split; [reflexivity|].
  assert (Hne : forall i j, 0 <= i < 36 -> 0 <= j < 36 -> i <> j -> slot b i <> slot b j)
    by (intros i j Hi Hj Hij Hs; by apply Hij, (slot_inj b)).
  split_and!.
  - intros r i Hin. unfold csr_words in Hin. rewrite !elem_of_cons, elem_of_nil in Hin.
    destruct Hin as [Hin|[Hin|[Hin|[Hin|[Hin|[]]]]]]; injection Hin as -> ->;
      repeat (rewrite lookup_insert_ne by (apply Hne; lia)); by rewrite lookup_insert_eq.
  - intros i Hi Hni. simpl in Hni. rewrite !not_elem_of_cons in Hni. destruct_and? Hni.
    by rewrite !lookup_insert_ne by (apply Hne; lia).
  - intros a Hna. by rewrite !lookup_insert_ne by (intros Heq; eapply Hna; [|symmetry; exact Heq]; lia).
Qed.

Ltac csr_word := unfold csr_words; rewrite !elem_of_cons; auto 10.

Lemma exec_SAVE_ALL h :
  length (xs h) = 32%nat -> aligned (x h sp) ->
  exists h1, exec SAVE_ALL h = Some h1 /\ x h1 sp = frame_sp h /\ hcsr h1 Csr_sscratch = 0 /\
    length (xs h1) = 32%nat /\
    (forall r, (r < 32)%nat -> frame_word h1 (frame_sp h) (Z.of_nat r) = x h r) /\
    frame_word h1 (frame_sp h) 32 = hcsr h Csr_sstatus /\ frame_word h1 (frame_sp h) 33 = hcsr h Csr_sepc /\
    frame_word h1 (frame_sp h) 34 = hcsr h Csr_sbadaddr /\ frame_word h1 (frame_sp h) 35 = hcsr h Csr_scause /\
    (forall a, (forall i, 0 <= i < 36 -> a <> slot (frame_sp h) i) -> mem h1 !! a = mem h !! a).
Proof.
  intros Hlen Ha. set (b := frame_sp h). pose proof (frame_sp_aligned h Ha) as Hb. fold b in Hb.
  set (ha := set_x sp b (set_hcsr Csr_sscratch (x h sp) h)).
  assert (Hla : length (xs ha) = 32%nat) by (unfold ha; by rewrite length_set_x).
  assert (Hspa : x ha sp = b) by (apply x_set_same; [done|reg_bound]).
  assert (Hxa : forall r, r <> sp -> x ha r = x h r) by (intros r Hr; by apply (x_set_other (set_hcsr Csr_sscratch (x h sp) h))).
  assert (Hca : forall q, q <> Csr_sscratch -> hcsr ha q = hcsr h q)
    by (intros q Hq; by apply (hcsr_set_other _ _ _ h)).
  destruct (exec_store_regs saved_regs ha) as (m1 & E1 & _ & New1 & Out1);
    [by rewrite Hspa|by apply Forall_forall; intros r Hr; unfold saved_regs in Hr; rewrite elem_of_app, elem_of_seq, !elem_of_cons, elem_of_nil in Hr; lia|].
  rewrite Hspa in *. set (hb := Hart (xs ha) (hcsrs ha) m1) in *.
  destruct (exec_save_csrs hb Hla) as (hc & E2 & Hm2 & Hl2 & Hsp2 & X0 & X1 & X2 & X3 & X4 & C0).
  change (x hb sp) with (x ha sp) in Hsp2. rewrite Hspa in Hsp2.
  destruct (exec_store_csrs hc) as (m3 & E3 & New3 & Old3 & Out3); [by rewrite Hsp2|].
  rewrite Hsp2, Hm2 in *. exists (Hart (xs hc) (hcsrs hc) m3).
  assert (Hword : forall r i, (r, i) ∈ csr_words -> frame_word (Hart (xs hc) (hcsrs hc) m3) b i = x hc r)
    by (intros r i Hri; unfold frame_word; simpl; fold (slot b i); by rewrite (New3 r)).
  split_and!; try done.
  - rewrite SAVE_ALL_blocks, exec_app. cbn [exec exec1]. cbn [mbind option_bind].
    match goal with |- exec _ ?h0 = _ => change h0 with ha end.
    by rewrite exec_app, E1; cbn [mbind option_bind]; rewrite exec_app, E2.
  - intros r Hr. destruct (decide (r = sp)) as [->|Hne].
    + change (Z.of_nat sp) with 2. rewrite (Hword s0 2) by csr_word. rewrite X0.
      change (hcsr ha Csr_sscratch = x h sp). apply (hcsr_set_same _ _ h).
    + unfold frame_word. simpl. fold (slot b (Z.of_nat r)). rewrite Old3.
      * simpl. rewrite New1; [by apply Hxa|]. unfold saved_regs.
        rewrite elem_of_app, elem_of_seq, !elem_of_cons, elem_of_nil. unfold sp in Hne. lia.
      * lia.
      * simpl. rewrite !not_elem_of_cons. unfold sp in Hne. split_and!; try lia. apply not_elem_of_nil.
  - rewrite (Hword s1 32) by csr_word. rewrite X1. by apply (Hca Csr_sstatus).
  - rewrite (Hword s2 33) by csr_word. rewrite X2. by apply (Hca Csr_sepc).
  - rewrite (Hword s3 34) by csr_word. rewrite X3. by apply (Hca Csr_sbadaddr).
  - rewrite (Hword s4 35) by csr_word. rewrite X4. by apply (Hca Csr_scause).
  - intros a Hna. simpl. rewrite Out3 by done. simpl. by rewrite Out1.
Qed.

(** ** Restoring *)

Lemma exec_RESTORE_ALL h :
  length (xs h) = 32%nat -> aligned (x h sp) ->
  exists h', exec RESTORE_ALL h = Some h' /\ mem h' = mem h /\
    (forall r, (0 < r < 32)%nat -> x h' r = frame_word h (x h sp) (Z.of_nat r)) /\
    hcsr h' Csr_sstatus = frame_word h (x h sp) 32 /\ hcsr h' Csr_sepc = frame_word h (x h sp) 33 /\
    (forall q, q <> Csr_sstatus -> q <> Csr_sepc -> hcsr h' q = hcsr h q).
Proof.
  intros Hlen Ha. set (b := x h sp) in *.
  set (ha := set_x s2 (frame_word h b 33) (set_x s1 (frame_word h b 32) h)).
  set (hb := set_hcsr Csr_sepc (x ha s2) (set_hcsr Csr_sstatus (x ha s1) ha)).
  assert (Hla : length (xs ha) = 32%nat) by (unfold ha; by rewrite !length_set_x).
  assert (Hx1 : x ha s1 = frame_word h b 32).
  { unfold ha. rewrite x_set_other by done. apply x_set_same; [done|reg_bound]. }
  assert (Hx2 : x ha s2 = frame_word h b 33).
  { unfold ha. apply x_set_same; [done|reg_bound]. }
  assert (Hspb : x hb sp = b) by (change (x ha sp = b); unfold ha; by rewrite !x_set_other).
  destruct (exec_load_regs (1%nat :: seq 3 29) hb) as (ys & E & Hy & Hx); try done.
  - by rewrite Hspb.
  - apply Forall_forall. intros r Hr. rewrite elem_of_cons, elem_of_seq in Hr. lia.
  - rewrite not_elem_of_cons, elem_of_seq. unfold sp. lia.
  - rewrite not_elem_of_cons, elem_of_seq. lia.
  - rewrite Hspb in Hx. set (hc := Hart ys (hcsrs hb) (mem hb)) in *.
    assert (Hspc : x hc sp = b).
    { rewrite Hx, bool_decide_false by (rewrite elem_of_cons, elem_of_seq; unfold sp; lia). exact Hspb. }
    exists (set_x sp (frame_word hc b 2) hc). split_and!.
    + rewrite RESTORE_ALL_blocks, exec_app. cbn [exec].
      rewrite exec_load by done. cbn [mbind option_bind]. fold b.
      rewrite exec_load by (rewrite x_set_other by done; exact Ha). rewrite (x_set_other _ s1 sp) by done.
      cbn [mbind option_bind exec1]. fold b. change (frame_word (set_x ?r ?v h)) with (frame_word h).
      match goal with |- exec _ ?h0 = _ => change h0 with hb end. rewrite exec_app, E. cbn [mbind option_bind exec].
      rewrite exec_load by (rewrite Hspc; exact Ha). by rewrite Hspc.
    + done.
    + intros r Hr. destruct (decide (r = sp)) as [->|Hne].
      * apply x_set_same; [done|]. simpl. unfold sp. lia.
      * rewrite x_set_other by done. rewrite Hx, bool_decide_true; [done|].
        rewrite elem_of_cons, elem_of_seq. unfold sp in Hne. lia.
    + change (hcsr hb Csr_sstatus = frame_word h b 32). unfold hb. rewrite hcsr_set_other by done.
      by rewrite hcsr_set_same.
    + change (hcsr hb Csr_sepc = frame_word h b 33). unfold hb. by rewrite hcsr_set_same.
    + intros q H1 H2. change (hcsr hb q = hcsr h q). unfold hb. by rewrite !hcsr_set_other.
Qed.

(** ** Frames and contexts *)

(** The context of a hart, as a trap frame has it. *)
Definition context (h : hart) : trapframe :=
  Trapframe (Pushregs
    (x h 0) (x h 1) (x h 2) (x h 3) (x h 4) (x h 5) (x h 6) (x h 7) (x h 8) (x h 9) (x h 10) (x h 11) (x h 12) (x h 13) (x h 14) (x h 15) (x h 16) (x h 17) (x h 18) (x h 19) (x h 20) (x h 21) (x h 22) (x h 23) (x h 24) (x h 25) (x h 26) (x h 27) (x h 28) (x h 29) (x h 30) (x h 31))
    (hcsr h Csr_sstatus) (hcsr h Csr_sepc) (hcsr h Csr_sbadaddr) (hcsr h Csr_scause).

Definition regs_list (r : pushregs) : list Z := [
  gpr_zero r; gpr_ra r; gpr_sp r; gpr_gp r; gpr_tp r; gpr_t0 r; gpr_t1 r; gpr_t2 r; gpr_s0 r; gpr_s1 r; gpr_a0 r; gpr_a1 r; gpr_a2 r; gpr_a3 r; gpr_a4 r; gpr_a5 r; gpr_a6 r; gpr_a7 r; gpr_s2 r; gpr_s3 r; gpr_s4 r; gpr_s5 r; gpr_s6 r; gpr_s7 r; gpr_s8 r; gpr_s9 r; gpr_s10 r; gpr_s11 r; gpr_t3 r; gpr_t4 r; gpr_t5 r; gpr_t6 r].

(** Register number [r] of a frame. *)
Definition frame_reg (tf : trapframe) (r : nat) : Z := default 0 (regs_list (gpr tf) !! r).

Lemma frame_reg_at h addr r :
  (r < 32)%nat -> frame_reg (trapframe_at h addr) r = frame_word h addr (Z.of_nat r).
Proof. intros Hr. do 32 (destruct r as [|r]; [reflexivity|]). lia. Qed.
Lemma frame_reg_context h r : (r < 32)%nat -> frame_reg (context h) r = x h r.
Proof. intros Hr. do 32 (destruct r as [|r]; [reflexivity|]). lia. Qed.

Lemma trapframe_at_context h1 addr h :
  (forall r, (r < 32)%nat -> frame_word h1 addr (Z.of_nat r) = x h r) ->
  frame_word h1 addr 32 = hcsr h Csr_sstatus -> frame_word h1 addr 33 = hcsr h Csr_sepc ->
  frame_word h1 addr 34 = hcsr h Csr_sbadaddr -> frame_word h1 addr 35 = hcsr h Csr_scause ->
  trapframe_at h1 addr = context h.
Proof.
  intros Hr H1 H2 H3 H4. unfold trapframe_at, context. rewrite H1, H2, H3, H4.
  f_equal. f_equal; match goal with |- frame_word _ _ ?i = _ => apply (Hr (Z.to_nat i)); lia end.
Qed.

(** C17: [__alltraps] hands [trap] a frame on the interrupted stack that holds the
    interrupted context, register by register and with the four control
    registers, and touches no memory outside the frame; [__trapret] loads
    exactly what the frame then holds, whatever else the handler changed, so
    that a frame left alone resumes the interrupted context. *)
Theorem trapentry_spec h :
  length (xs h) = 32%nat -> aligned (x h sp) ->
  exists h1, exec SAVE_ALL h = Some h1 /\
    trapframe_at h1 (x h1 sp) = context h /\ hcsr h1 Csr_sscratch = 0 /\ x h1 sp = u64 (x h sp - 288) /\ length (xs h1) = 32%nat /\
    (forall a, (forall i, 0 <= i < 36 -> a <> u64 (x h1 sp + i * REGBYTES)) -> mem h1 !! a = mem h !! a) /\
    forall h2, length (xs h2) = 32%nat -> x h2 sp = x h1 sp ->
      exists h3, exec RESTORE_ALL h2 = Some h3 /\ mem h3 = mem h2 /\
        (forall r, (0 < r < 32)%nat -> x h3 r = frame_reg (trapframe_at h2 (x h1 sp)) r) /\
        hcsr h3 Csr_sstatus = status (trapframe_at h2 (x h1 sp)) /\
        hcsr h3 Csr_sepc = epc (trapframe_at h2 (x h1 sp)) /\
        (trapframe_at h2 (x h1 sp) = context h ->
           (forall r, (r < 32)%nat -> x h3 r = x h r) /\
           hcsr h3 Csr_sstatus = hcsr h Csr_sstatus /\ hcsr h3 Csr_sepc = hcsr h Csr_sepc).
Proof.
  intros Hlen Ha. destruct (exec_SAVE_ALL h Hlen Ha) as (h1 & E & Hsp & Hss & Hl1 & Hr & H1 & H2 & H3 & H4 & Hout).
  exists h1. rewrite Hsp. split_and!; try done; [by apply trapframe_at_context|].
  intros h2 Hlen2 Hsp2.
  destruct (exec_RESTORE_ALL h2 Hlen2) as (h3 & E3 & Hm & Hx & Hst & Hep & _);
    [rewrite Hsp2; by apply frame_sp_aligned|].
  rewrite Hsp2 in *. exists h3.
  assert (Hfr : forall r, (0 < r < 32)%nat -> x h3 r = frame_reg (trapframe_at h2 (frame_sp h)) r)
    by (intros r Hr'; rewrite frame_reg_at by lia; by apply Hx).
  split_and!; try done. intros Hc. split_and!.
  - intros [|r] Hr'; [done|]. rewrite Hfr by lia. by rewrite Hc, frame_reg_context.
  - rewrite Hst. exact (f_equal status Hc).
  - rewrite Hep. exact (f_equal epc Hc).
Qed.

(** ** Witness *)

Definition sample_hart : hart :=
  Hart (map (fun i => 0x1000 + Z.of_nat i * 8) (seq 0 32)) {[ Csr_sstatus := 0x120; Csr_sepc := 0xFFFFFFFFC0200040 ]} ∅.

Lemma trapentry_spec_witness :
  exists h1, exec SAVE_ALL sample_hart = Some h1 /\ trapframe_at h1 (x h1 sp) = context sample_hart /\
    exists h3, exec RESTORE_ALL (set_x 10 99 h1) = Some h3 /\ x h3 10 = 0x1050 /\ x h3 2 = 0x1010.
Proof.
  destruct (trapentry_spec sample_hart eq_refl eq_refl) as (h1 & E & Hf & _ & _ & Hl & _ & Hret).
  exists h1. split_and!; [exact E|exact Hf|].
  destruct (Hret (set_x 10 99 h1)) as (h3 & E3 & _ & _ & _ & _ & Hback);
    [by rewrite length_set_x|by apply x_set_other|].
  exists h3. destruct (Hback Hf) as [Hx _].
  split_and!; [exact E3|by rewrite (Hx 10%nat) by lia|by rewrite (Hx 2%nat) by lia].
Defined.
