(* ===== verification/Interrupt.v ===== *)
(** * A trap from the interrupted code's side

    What the hart does when a trap is taken and on [sret], around the code of
    kern/trap/trapentry.S and the compiled [trap]: the interrupted code goes
    on as if nothing had happened, and [trap] runs with interrupts off on a
    frame that describes the interruption. *)

From S2P Require Import Prelude Defs Machine Trap TrapEntry.

(** A hart with its program counter and its privilege. *)
Record cpu : Type := Cpu { hart_of : hart; pc : Z; supervisor : bool }.

(** The bits of [sstatus] that traps change: [SIE], [SPIE] and [SPP]. *)
Definition SIE : Z := 1.
Definition SPIE : Z := 5.
Definition SPP : Z := 8.
Definition set_field (b : Z) (v : bool) (w : Z) : Z := if v then Z.setbit w b else Z.clearbit w b.

Lemma set_field_bits b v w i :
  0 <= b -> Z.testbit (set_field b v w) i = if decide (i = b) then v else Z.testbit w i.
Proof.
  intros Hb. unfold set_field. destruct (decide (i = b)) as [->|Hi], v.
  - by apply Z.setbit_eq.
  - apply Z.clearbit_eq.
  - by rewrite Z.setbit_neq by (done || lia).
  - by rewrite Z.clearbit_neq by lia.
Qed.

(** Taking a trap: the privileged architecture's part. *)
Definition take_trap (cause tval : Z) (c : cpu) : cpu :=
  let h := hart_of c in
  let s := hcsr h Csr_sstatus in
  let s := set_field SPP (supervisor c) (set_field SIE false (set_field SPIE (Z.testbit s SIE) s)) in
  let h := set_hcsr Csr_sbadaddr tval h in
  let h := set_hcsr Csr_scause cause h in
  let h := set_hcsr Csr_sepc (pc c) h in
  let h := set_hcsr Csr_sstatus s h in
  Cpu h (hcsr h Csr_stvec) true.

Definition sret (h : hart) : cpu :=
  let s := hcsr h Csr_sstatus in
  let s' := set_field SPP false (set_field SPIE true (set_field SIE (Z.testbit s SPIE) s)) in
  Cpu (set_hcsr Csr_sstatus s' h) (hcsr h Csr_sepc) (Z.testbit s SPP).

Definition a0 : nat := 10.

(** [SAVE_ALL; move a0, sp], up to [jal trap]. *)
Definition trap_prologue : list instr := SAVE_ALL ++ [Addi a0 sp 0].

(** [__alltraps]; [trap_code] is [jal trap] until it is back. *)
Definition alltraps (trap_code : hart -> option hart) (h : hart) : option cpu :=
  h1 ← exec trap_prologue h;
  h2 ← trap_code h1;
  h3 ← exec RESTORE_ALL h2;
  Some (sret h3).

(** Code that does not write a control register leaves it alone. *)
Definition writes_csr (q : csr) (i : instr) : Prop :=
  match i with Csrw r _ | Csrrw _ r _ => r = q | _ => False end.

Lemma exec_keeps_csr q code h h' :
  Forall (fun i => ~ writes_csr q i) code -> exec code h = Some h' -> hcsr h' q = hcsr h q.
Proof.
  intros Hc. revert h. induction Hc as [|i code Hi Hc IH]; intros h E; [by injection E as ->|].
  cbn [exec] in E. destruct (exec1 i h) as [h1|] eqn:E1; [|done]. cbn in E. rewrite (IH h1) by done.
  destruct i; simpl in E1, Hi; repeat case_match; simplify_eq; try done.
  - by apply hcsr_set_other.
  - unfold hcsr, set_x. simpl. by apply hcsr_set_other.
Qed.

(** What the interrupted code sees of a trap: the registers that traps do not
    change, and [sstatus] but for the fields that a trap uses up. *)
Definition resumed (c c' : cpu) : Prop :=
  pc c' = pc c /\ supervisor c' = supervisor c /\
  (forall r, (r < 32)%nat -> x (hart_of c') r = x (hart_of c) r) /\
  (forall i, 0 <= i -> i <> SPIE -> i <> SPP ->
     Z.testbit (hcsr (hart_of c') Csr_sstatus) i = Z.testbit (hcsr (hart_of c) Csr_sstatus) i).

(** What [trap] is called with: [a0] points to a frame that holds the context
    of [c], the cause and the address, and interrupts are off. *)
Definition called (cause tval : Z) (c : cpu) (h : hart) : Prop :=
  let tf := trapframe_at h (x h a0) in
  x h a0 = u64 (x (hart_of c) sp - 288) /\ x h sp = x h a0 /\
  (forall r, (r < 32)%nat -> frame_reg tf r = x (hart_of c) r) /\
  Z.testbit (status tf) SPIE = Z.testbit (hcsr (hart_of c) Csr_sstatus) SIE /\
  epc tf = pc c /\ badvaddr tf = tval /\ Trap.cause tf = cause /\
  Z.testbit (hcsr h Csr_sstatus) SIE = false.

Section transparent.
Context (trap_code : hart -> option hart) (W : Z -> Prop).

(** The calling convention: the compiled [trap] returns, with the stack pointer
    it was called with, and writes memory only at the addresses [W], which are
    its own stack below the frame and the kernel's variables. *)
Context (trap_abi : forall h, length (xs h) = 32%nat -> aligned (x h sp) ->
  exists h', trap_code h = Some h' /\ length (xs h') = 32%nat /\ x h' sp = x h sp /\
    forall a, ~ W a -> mem h' !! a = mem h !! a).

Lemma take_trap_x cause tval c r : x (hart_of (take_trap cause tval c)) r = x (hart_of c) r.
Proof using Type. done. Qed.

Lemma take_trap_csr cause tval c :
  let h := hart_of (take_trap cause tval c) in
  hcsr h Csr_sepc = pc c /\ hcsr h Csr_scause = cause /\ hcsr h Csr_sbadaddr = tval /\
  forall i, 0 <= i -> Z.testbit (hcsr h Csr_sstatus) i =
    if decide (i = SPP) then supervisor c else if decide (i = SIE) then false
    else if decide (i = SPIE) then Z.testbit (hcsr (hart_of c) Csr_sstatus) SIE
    else Z.testbit (hcsr (hart_of c) Csr_sstatus) i.
Proof using Type.
  cbv zeta. unfold take_trap. cbn [hart_of]. split_and!.
  - rewrite hcsr_set_other by done. apply hcsr_set_same.
  - rewrite !(hcsr_set_other Csr_sstatus), !(hcsr_set_other Csr_sepc) by done. apply hcsr_set_same.
  - rewrite !(hcsr_set_other Csr_sstatus), !(hcsr_set_other Csr_sepc), (hcsr_set_other Csr_scause) by done.
    apply hcsr_set_same.
  - intros i Hi. rewrite hcsr_set_same. by rewrite !set_field_bits by (unfold SPP, SIE, SPIE; lia).
Qed.

(** The prologue: the frame, and the call. *)
Lemma exec_prologue h :
  length (xs h) = 32%nat -> aligned (x h sp) ->
  exists h1, exec trap_prologue h = Some h1 /\ length (xs h1) = 32%nat /\
    x h1 sp = frame_sp h /\ x h1 a0 = frame_sp h /\ trapframe_at h1 (frame_sp h) = context h /\
    hcsr h1 Csr_sstatus = hcsr h Csr_sstatus /\
    (forall r, (r < 32)%nat -> frame_word h1 (frame_sp h) (Z.of_nat r) = x h r) /\
    frame_word h1 (frame_sp h) 32 = hcsr h Csr_sstatus /\ frame_word h1 (frame_sp h) 33 = hcsr h Csr_sepc /\
    (forall a, (forall i, 0 <= i < 36 -> a <> slot (frame_sp h) i) -> mem h1 !! a = mem h !! a).
Proof using Type.
  intros Hlen Ha. destruct (exec_SAVE_ALL h Hlen Ha) as (h1 & E & Hsp & Hss & Hl1 & Hr & H1 & H2 & H3 & H4 & Hout).
  exists (set_x a0 (u64 (x h1 sp + 0)) h1).
  assert (Hw : u64 (x h1 sp + 0) = frame_sp h) by (rewrite Z.add_0_r, Hsp; apply u64_u64).
  split_and!.
  - unfold trap_prologue. rewrite exec_app, E. done.
  - by rewrite length_set_x.
  - by rewrite x_set_other.
  - rewrite Hw. apply x_set_same; [done|]. rewrite Hl1. unfold a0. lia.
  - apply (trapframe_at_context h1); done.
  - change (hcsr (set_x a0 _ h1) Csr_sstatus) with (hcsr h1 Csr_sstatus).
    apply (exec_keeps_csr _ SAVE_ALL); [|done]. unfold SAVE_ALL. repeat (apply Forall_cons; split; [by intros ?|]). constructor.
  - exact Hr.
  - exact H1.
  - exact H2.
  - exact Hout.
Qed.

(** C18: a trap is transparent: [__alltraps] calls [trap] with interrupts off on
    a frame that describes the interruption, and after [sret] the interrupted
    code goes on at the instruction at which it was interrupted, with its
    privilege, with all its registers and with interrupts enabled as before;
    memory has changed only in the frame, below its stack, and where [trap]
    writes. *)
Theorem trap_transparent cause tval c :
  length (xs (hart_of c)) = 32%nat -> aligned (x (hart_of c) sp) ->
  (forall i, 0 <= i < 36 -> ~ W (slot (frame_sp (hart_of c)) i)) ->
  exists h1 c', exec trap_prologue (hart_of (take_trap cause tval c)) = Some h1 /\ called cause tval c h1 /\
    alltraps trap_code (hart_of (take_trap cause tval c)) = Some c' /\ resumed c c' /\
    forall a, ~ W a -> (forall i, 0 <= i < 36 -> a <> slot (frame_sp (hart_of c)) i) ->
      mem (hart_of c') !! a = mem (hart_of c) !! a.
Proof using trap_abi.
  intros Hlen Ha HW. set (h := hart_of (take_trap cause tval c)).
  destruct (take_trap_csr cause tval c) as (Hepc & Hcause & Htval & Hst). fold h in Hepc, Hcause, Htval, Hst.
  destruct (exec_prologue h Hlen Ha) as (h1 & E1 & Hl1 & Hsp1 & Ha1 & Htf & Hst1 & Hr & Hw32 & Hw33 & Hout).
  change (frame_sp h) with (frame_sp (hart_of c)) in *. set (b := frame_sp (hart_of c)) in *.
  destruct (trap_abi h1 Hl1) as (h2 & E2 & Hl2 & Hsp2 & Hm2); [rewrite Hsp1; by apply frame_sp_aligned|].
  destruct (exec_RESTORE_ALL h2 Hl2) as (h3 & E3 & Hm3 & Hx3 & Hs3 & Hp3 & _);
    [rewrite Hsp2, Hsp1; by apply frame_sp_aligned|].
  rewrite Hsp2, Hsp1 in *.
  assert (Hfw : forall i, 0 <= i < 36 -> frame_word h2 b i = frame_word h1 b i)
    by (intros i Hi; unfold frame_word; by rewrite Hm2 by by apply HW).
  exists h1, (sret h3). split_and!; [exact E1| | | |].
  - unfold called. rewrite Hsp1, Ha1, Htf. split_and!; try done.
    + intros r Hr'. rewrite frame_reg_context by done. apply take_trap_x.
    + change (status (context h)) with (hcsr h Csr_sstatus). by rewrite Hst by done.
    + by rewrite Hst1, Hst by done.
  - unfold alltraps, mbind, option_bind. by rewrite E1, E2, E3.
  - unfold resumed, sret. cbn [pc hart_of supervisor]. split_and!.
    + by rewrite Hp3, Hfw, Hw33.
    + by rewrite Hs3, Hfw, Hw32, Hst by done.
    + intros [|r] Hr'; [done|]. change (x (set_hcsr _ _ h3) (S r)) with (x h3 (S r)).
      rewrite Hx3, Hfw, Hr by lia. apply take_trap_x.
    + intros i Hi H5 H8. rewrite hcsr_set_same. rewrite !set_field_bits by (unfold SPP, SIE, SPIE; lia).
      rewrite !decide_False by done. rewrite Hs3, Hfw, Hw32 by lia.
      case_decide as H1; rewrite Hst by (unfold SPIE; lia).
      * subst i. done.
      * by rewrite !decide_False.
  - intros a HWa Hna. unfold sret. cbn [hart_of]. change (mem (set_hcsr _ _ h3)) with (mem h3).
    rewrite Hm3, Hm2 by done. by apply Hout.
Qed.
End transparent.

(** ** Witness *)

(** A handler that uses every register it may and writes below its stack
    pointer. *)
Definition sample_handler (h : hart) : option hart :=
  Some (Hart (<[sp := x h sp]> (replicate 32 7)) (hcsrs h) (<[0x100 := 1]> (mem h))).

Definition sample_cpu : cpu :=
  Cpu (Hart (map (fun i => 0x1000 + Z.of_nat i * 8) (seq 0 32))
    {[ Csr_sstatus := 0x102; Csr_stvec := 0xFFFFFFFFC0200400 ]} ∅) 0xFFFFFFFFC0200040 true.

Lemma sample_handler_abi h :
  length (xs h) = 32%nat -> aligned (x h sp) ->
  exists h', sample_handler h = Some h' /\ length (xs h') = 32%nat /\ x h' sp = x h sp /\
    forall a, ~ a = 0x100 -> mem h' !! a = mem h !! a.
Proof.
  intros Hl Ha. eexists. split_and!; [done|done|done|]. intros a Hne. simpl. by apply lookup_insert_ne.
Qed.

Lemma trap_transparent_witness :
  exists c', alltraps sample_handler (hart_of (take_trap (2 ^ 63 + 5) 0 sample_cpu)) = Some c' /\
    pc c' = 0xFFFFFFFFC0200040 /\ x (hart_of c') 31 = 0x10F8.
Proof.
  destruct (trap_transparent sample_handler (fun a => a = 0x100) sample_handler_abi (2 ^ 63 + 5) 0 sample_cpu
    eq_refl eq_refl) as (h1 & c' & _ & _ & E & (Hpc & _ & Hx & _) & _).
  - intros i Hi Heq. unfold slot in Heq. change (frame_sp (hart_of sample_cpu)) with 0xEF0 in Heq.
    rewrite REGBYTES_eq in Heq. word_unfold. rewrite Z.mod_small in Heq by lia. lia.
  - exists c'. split_and!; [exact E|exact Hpc|by rewrite (Hx 31%nat) by lia].
Defined.
