(* ===== verification/Readline.v ===== *)
(** * The line editor

    libs/readline.c: reading a line from the console into a buffer of 1024
    characters, with echo and backspace.  The console's input comes from the
    firmware: [ConsoleInput] states what the kernel relies on. *)

From S2P Require Import Prelude Defs CString Printfmt Machine.

(** ** The firmware's console *)

Definition getchar_event : sbi_event := SbiCall SBI_CONSOLE_GETCHAR 0 0 0.

(** What the firmware promises: [pending] are the answers the next calls of
    [sbi_console_getchar] will get, and printing does not change them. *)
Class ConsoleInput `{P : Platform} : Type := {
  pending : fw -> list Z;
  getchar_law s c l :
    pending s = c :: l ->
    s32 (u64 (sbi_ecall getchar_event s).1) = c /\ pending (sbi_ecall getchar_event s).2 = l;
  putchar_law s c : pending (sbi_ecall (put_event c) s).2 = pending s;
}.

Definition BUFSIZE : Z := 1024.

Section readline.
Context `{B : Build} `{P : Platform}.

(** The loop of [readline]: [i] and the static [buf] are its variables. *)
Fixpoint readline_loop (fuel : nat) (i : nat) (buf : list Z) : M machine (bool * list Z) :=
  match fuel with
  | O => mundef
  | S fuel' =>
      c ← getchar fuel;
      if c <? 0 then mret (false, buf)
      else if (32 <=? c) && (Z.of_nat i <? BUFSIZE - 1) then
        cputchar c;;
        if (i <? length buf)%nat then readline_loop fuel' (S i) (<[i := u8 c]> buf) else mundef
      else if (c =? 8) && (0 <? i)%nat then
        cputchar c;; readline_loop fuel' (i - 1) buf
      else if (c =? 10) || (c =? 13) then
        cputchar c;;
        if (i <? length buf)%nat then mret (true, <[i := 0]> buf) else mundef
      else readline_loop fuel' i buf
  end.

(** The result is whether a line was read, and the buffer; [false] is the
    code's [NULL]. *)
Definition readline (fuel : nat) (prompt : option (list Z)) (buf : list Z) : M machine (bool * list Z) :=
  _ ← match prompt with
      | Some p => _ ← cprintf (text "%s") [VStr p]; mret ()
      | None => mret ()
      end;
  readline_loop fuel 0 buf.
End readline.

(** ** The editor as a function of its input *)

Record edited : Type := Edited { ed_line : option (list Z); ed_echo : list Z; ed_rest : list Z }.

Definition echoing (c : Z) (e : edited) : edited := Edited (ed_line e) (c :: ed_echo e) (ed_rest e).

(** [edit acc input]: the line so far is [acc]; [None] if the input ends before
    the line does. *)
Fixpoint edit (acc input : list Z) : option edited :=
  match input with
  | [] => None
  | c :: input' =>
      if c =? 0 then edit acc input'
      else if c <? 0 then Some (Edited None [] input')
      else if (32 <=? c) && (Z.of_nat (length acc) <? BUFSIZE - 1) then
        echoing c <$> edit (acc ++ [c]) input'
      else if (c =? 8) && negb (length acc =? 0)%nat then
        echoing c <$> edit (take (length acc - 1) acc) input'
      else if (c =? 10) || (c =? 13) then Some (Edited (Some acc) [c] input')
      else edit acc input'
  end.

(** ** Correctness *)

Section correct.
Context `{B : Build} `{P : Platform} {Input : ConsoleInput}.

Definition input (m : machine) : list Z := pending (fw_state m).

(** The machine after a call of the firmware that delivers a character. *)
Definition after_get (m : machine) : machine := after_calls [getchar_event] m.

Lemma cons_getc_eq m c l :
  input m = c :: l -> cons_getc m = Ok c (after_get m) /\ input (after_get m) = l.
Proof using Type.
  intros Hp. destruct (getchar_law _ _ _ Hp) as [Hc Hl].
  unfold cons_getc, sbi_console_getchar, sbi_call, mbind, M_bind, mret, M_ret, after_get, after_calls, input.
  change (SbiCall (u64 SBI_CONSOLE_GETCHAR) (u64 0) (u64 0) (u64 0)) with getchar_event.
  simpl. destruct (sbi_ecall getchar_event (fw_state m)) as [r s] eqn:E. simpl in *. by rewrite Hc.
Qed.

Lemma cputchar_eq c m :
  cputchar c m = Ok () (after_calls [put_event c] m) /\ input (after_calls [put_event c] m) = input m.
Proof using Type.
  unfold cputchar. rewrite cons_putc_eq. split; [done|]. unfold input. simpl. apply putchar_law.
Qed.

(** Polls of the console that print nothing. *)
Lemma console_out_get m : console_out (trace (after_get m)) = console_out (trace m).
Proof using Type. unfold after_get. simpl. by rewrite console_out_app, app_nil_r. Qed.

Lemma getchar_zeros fuel m c l n :
  input m = replicate n 0 ++ c :: l -> c <> 0 -> (n < fuel)%nat ->
  exists m', getchar fuel m = Ok c m' /\ input m' = l /\ csrs m' = csrs m /\
    console_out (trace m') = console_out (trace m).
Proof using Type.
  revert fuel m. induction n as [|n IH]; intros [|fuel] m Hi Hc Hn; try lia; simpl in Hi.
  - destruct (cons_getc_eq m c l Hi) as [E Hl]. exists (after_get m). split_and!; [|done|done|apply console_out_get].
    cbn [getchar]. unfold mbind, M_bind. rewrite E. by rewrite (proj2 (Z.eqb_neq c 0)).
  - destruct (cons_getc_eq m 0 _ Hi) as [E Hl].
    destruct (IH fuel (after_get m) Hl Hc) as (m' & E' & H1 & H2 & H3); [lia|].
    exists m'. rewrite console_out_get in H3. split_and!; [|done|done|done].
    cbn [getchar]. unfold mbind, M_bind. by rewrite E.
Qed.

Lemma leading_zeros (l : list Z) :
  exists n, l = replicate n 0 \/ exists c l', l = replicate n 0 ++ c :: l' /\ c <> 0.
Proof using Type.
  induction l as [|c l (n & IH)]; [by exists 0%nat; left|].
  destruct (decide (c = 0)) as [->|Hc]; [|by exists 0%nat; right; exists c, l].
  exists (S n). destruct IH as [-> | (d & l' & -> & Hd)]; [by left|right; by exists d, l'].
Qed.

Lemma edit_zeros n acc l : edit acc (replicate n 0 ++ l) = edit acc l.
Proof using Type. induction n as [|n IH]; [done|]. simpl. exact IH. Qed.

(** What the loop leaves: [e] is what the editor does with the input. *)
Definition read_post (e : edited) (m : machine) (r : bool * list Z) (m' : machine) : Prop :=
  input m' = ed_rest e /\ csrs m' = csrs m /\
  console_out (trace m') = console_out (trace m) ++ map u8 (ed_echo e) /\
  length r.2 = Z.to_nat BUFSIZE /\
  match ed_line e with
  | None => r.1 = false
  | Some l => r.1 = true /\ Z.of_nat (length l) < BUFSIZE /\
      take (S (length l)) r.2 = map u8 l ++ [0]
  end.

(** The buffer holds the line so far. *)
Definition holds (acc buf : list Z) : Prop :=
  length buf = Z.to_nat BUFSIZE /\ Z.of_nat (length acc) < BUFSIZE /\ take (length acc) buf = map u8 acc.

Lemma holds_snoc acc buf c :
  holds acc buf -> Z.of_nat (length acc) < BUFSIZE - 1 -> holds (acc ++ [c]) (<[length acc := u8 c]> buf).
Proof using Type.
  intros (Hl & Ha & Ht) Hlt. unfold holds, BUFSIZE in *. rewrite length_insert, length_app. simpl.
  split_and!; [done|lia|]. rewrite Nat.add_1_r, (take_S_r _ _ (u8 c)) by (apply list_lookup_insert_eq; lia).
  by rewrite take_insert_ge, Ht, map_app by lia.
Qed.
Lemma holds_back acc buf : holds acc buf -> holds (take (length acc - 1) acc) buf.
Proof using Type.
  intros (Hl & Ha & Ht). unfold holds. rewrite length_take. split_and!; [done|lia|].
  rewrite <- firstn_map, <- Ht, take_take. done.
Qed.
Lemma holds_end acc buf : holds acc buf -> take (S (length acc)) (<[length acc := 0]> buf) = map u8 acc ++ [0].
Proof using Type.
  intros (Hl & Ha & Ht). unfold BUFSIZE in *.
  rewrite (take_S_r _ _ 0) by (apply list_lookup_insert_eq; lia). by rewrite take_insert_ge, Ht by lia.
Qed.

(** One character more on the console, then the rest. *)
Lemma read_post_echo e c m m1 m2 r :
  csrs m1 = csrs m -> console_out (trace m1) = console_out (trace m) ->
  read_post e (after_calls [put_event c] m1) r m2 -> read_post (echoing c e) m r m2.
Proof using Type.
  intros Hc Ho (H1 & H2 & H3 & H4). split; [done|]. split; [by rewrite H2|]. split; [|done].
  rewrite H3. simpl. rewrite console_out_app, Ho, <- app_assoc. done.
Qed.

Lemma readline_loop_spec fuel acc buf m e :
  (length (input m) < fuel)%nat -> holds acc buf -> edit acc (input m) = Some e ->
  wp (readline_loop fuel (length acc) buf) (read_post e m) m.
Proof using Type.
  revert acc buf m e. induction fuel as [|fuel IH]; intros acc buf m e Hf Hh He; [lia|].
  destruct (leading_zeros (input m)) as (n & [Hz | (c & l & Hz & Hc)]).
  { rewrite Hz, <- (app_nil_r (replicate n 0)), edit_zeros in He. done. }
  rewrite Hz, edit_zeros in He. rewrite Hz, length_app, length_replicate in Hf. simpl in Hf.
  destruct (getchar_zeros (S fuel) m c l n Hz Hc) as (m1 & E & Hl & Hcs & Hout); [lia|].
  cbn [readline_loop]. apply wp_bind. unfold wp at 1. rewrite E.
  destruct (cputchar_eq c m1) as [Ep Hin]. rewrite Hl in Hin.
  assert (Hbuf : (length acc <? length buf)%nat = true).
  { destruct Hh as (Hlb & Ha & _). unfold BUFSIZE in *. apply Nat.ltb_lt. lia. }
  cbn [edit] in He. rewrite (proj2 (Z.eqb_neq c 0)) in He by done.
  destruct (Z.ltb_spec c 0); [injection He as <-; destruct Hh as (Hlb & _); by split_and!; rewrite ?app_nil_r|].
  destruct (_ && _) eqn:Ein in He; rewrite Ein.
  { destruct (edit _ l) as [e'|] eqn:Ee; [|done]. injection He as <-.
    apply wp_bind. unfold wp at 1. rewrite Ep, Hbuf. apply andb_prop in Ein as [_ Hlt].
    replace (S (length acc)) with (length (acc ++ [c])) by (rewrite length_app; simpl; lia).
    eapply wp_mono; [apply (IH _ _ _ e')|intros r m2; by apply read_post_echo].
    - rewrite Hin. lia. - apply holds_snoc; [done|lia]. - by rewrite Hin. }
  assert (Hpos : (0 <? length acc)%nat = negb (length acc =? 0)%nat) by (by destruct acc).
  rewrite Hpos. clear Ein. destruct (_ && _) eqn:Ein in He; rewrite Ein.
  { destruct (edit _ l) as [e'|] eqn:Ee; [|done]. injection He as <-.
    apply wp_bind. unfold wp at 1. rewrite Ep.
    assert (length acc - 1 = length (take (length acc - 1) acc))%nat as Hlen by (rewrite length_take; lia).
    rewrite Hlen at 1.
    eapply wp_mono; [apply (IH _ _ _ e')|intros r m2; by apply read_post_echo].
    - rewrite Hin. lia. - by apply holds_back. - by rewrite Hin. }
  destruct (_ || _).
  { injection He as <-. apply wp_bind. unfold wp at 1. rewrite Ep, Hbuf. apply wp_ret.
    pose proof (holds_end _ _ Hh) as Hend. destruct Hh as (Hlb & Ha & _). split_and!; simpl; try done.
    - by rewrite console_out_app, Hout.
    - by rewrite length_insert. }
  eapply wp_mono; [apply (IH acc buf m1 e)|].
  - rewrite Hl. lia. - done. - by rewrite Hl.
  - intros r m2 (H1 & H2 & H3 & H4). split; [done|]. split; [by rewrite H2|]. split; [by rewrite H3, Hout|done].
Qed.

Lemma input_puts out m : input (after_calls (map put_event out) m) = input m.
Proof using Type.
  revert m. induction out as [|c out IH]; intros m; [by rewrite after_calls_nil|].
  change (map put_event (c :: out)) with ([put_event c] ++ map put_event out).
  rewrite after_calls_app, IH. by destruct (cputchar_eq c m).
Qed.

Definition prompt_text (prompt : option (list Z)) : list Z := if IS_VERIF then [] else default [] prompt.

Lemma prompt_eq p m :
  nonzero p -> Z.of_nat (length p) < 1000000000 ->
  exists r, cprintf (text "%s") [VStr p] m = Ok r (after_calls (map put_event (prompt_text (Some p))) m).
Proof using Type.
  intros Hp Hl. assert (E : vprintfmt emit (text "%s") [VStr p] [] = Ok () p).
  { apply (vprintfmt_emit [Escape (Directive false 0 None 0 ConvString)] _ p []).
    - apply Forall_singleton. by split.
    - apply Forall_cons; split; [by split|constructor].
    - simpl. unfold render_string. simpl. replace (Z.to_nat _) with 0%nat by lia. by rewrite app_nil_r. }
  rewrite (cprintf_emit _ _ _ m E) by lia. unfold prompt_text.
  destruct IS_VERIF; eexists; [simpl; by rewrite after_calls_nil|done].
Qed.

(** What [readline] does, as a program on the machine. *)
Lemma readline_eq prompt buf m e fuel :
  length buf = Z.to_nat BUFSIZE -> (length (input m) < fuel)%nat -> edit [] (input m) = Some e ->
  match prompt with Some p => nonzero p /\ Z.of_nat (length p) < 1000000000 | None => True end ->
  wp (readline fuel prompt buf) (fun r m' =>
    input m' = ed_rest e /\ csrs m' = csrs m /\
    console_out (trace m') = console_out (trace m) ++ map u8 (prompt_text prompt ++ ed_echo e) /\
    length r.2 = Z.to_nat BUFSIZE /\
    match ed_line e with
    | None => r.1 = false
    | Some l => r.1 = true /\ Z.of_nat (length l) < BUFSIZE /\ take (S (length l)) r.2 = map u8 l ++ [0]
    end) m.
Proof using Type.
  intros Hb Hf He Hp. unfold readline. apply wp_bind.
  assert (Hpr : exists m1, (match prompt with
    | Some p => _ ← cprintf (text "%s") [VStr p]; mret () | None => mret () end) m = Ok () m1 /\
    m1 = after_calls (map put_event (prompt_text prompt)) m).
  { destruct prompt as [p|].
    - destruct (prompt_eq p m) as [r E]; [apply Hp|apply Hp|]. eexists. split; [|done].
      unfold mbind, M_bind. by rewrite E.
    - exists m. split; [done|]. unfold prompt_text. by destruct IS_VERIF; simpl; rewrite after_calls_nil. }
  destruct Hpr as (m1 & E & ->). unfold wp at 1. rewrite E. pose proof (input_puts (prompt_text prompt) m) as Hin.
  eapply wp_mono; [apply (readline_loop_spec fuel [] buf _ e)|].
  - by rewrite Hin. - by split_and!. - by rewrite Hin.
  - intros r m' (H1 & H2 & H3 & H4). split; [done|]. split; [done|]. split; [|done].
    rewrite H3. simpl. by rewrite console_out_app, console_out_puts, map_app, <- app_assoc.
Qed.

(** C22: whenever the console's input contains a complete line, [readline]
    returns: it prints the prompt, echoes exactly the characters the editor
    accepts, and leaves in the buffer the edited line, at most 1023 characters
    and zero-terminated; what was typed behind the line is still pending. *)
Theorem readline_spec prompt buf m e fuel :
  length buf = Z.to_nat BUFSIZE -> (length (input m) < fuel)%nat -> edit [] (input m) = Some e ->
  match prompt with Some p => nonzero p /\ Z.of_nat (length p) < 1000000000 | None => True end ->
  wp (readline fuel prompt buf) (fun '(ok, b) m' =>
    input m' = ed_rest e /\ csrs m' = csrs m /\
    console_out (trace m') = console_out (trace m) ++ map u8 (prompt_text prompt ++ ed_echo e) /\
    match ed_line e with
    | None => ok = false
    | Some l => ok = true /\ Z.of_nat (length l) < BUFSIZE /\ take (S (length l)) b = map u8 l ++ [0]
    end) m.
Proof using Type.
  intros Hb Hf He Hp. eapply wp_mono; [by apply readline_eq|].
  intros [ok b] m' (H1 & H2 & H3 & _ & H4). by split_and!.
Qed.
End correct.

(** ** Witness *)

Definition sample_pending (s : @fw sample_platform) : list Z := map (fun c => s32 (u64 c)) s.1.
Definition sample_input : ConsoleInput (P := sample_platform).
Proof.
  refine {| pending := sample_pending |}.
  - intros [l t] c l' H. unfold sample_pending in *. destruct l as [|d l]; [done|]. by injection H as <- <-.
  - done.
Defined.

(** Typing "ab", backspace, "c", return. *)
Lemma readline_spec_witness :
  wp (readline (B := kernel_build) (P := sample_platform) 10 (Some (text "K> ")) (replicate 1024 0))
    (fun '(ok, b) m' => ok = true /\ take 3 b = [97; 99; 0] /\ input (Input := sample_input) m' = [33] /\
       console_out (trace m') = text "K> " ++ [97; 98; 8; 99; 13])
    (sample_machine 0 [97; 0; 98; 8; 99; 13; 33]).
Proof.
  eapply wp_mono.
  - apply (readline_spec (B := kernel_build) (P := sample_platform) (Input := sample_input) (Some (text "K> "))
      (replicate 1024 0) (sample_machine 0 [97; 0; 98; 8; 99; 13; 33])
      (Edited (Some [97; 99]) [97; 98; 8; 99; 13] [33]) 10).
    + done.
    + apply Nat.ltb_lt. by vm_compute.
    + by vm_compute.
    + split; [|by vm_compute]. repeat (apply Forall_cons; split); [done|done|done|constructor].
  - intros [ok b] m' (-> & _ & Ho & -> & _ & Ht). split_and!; [done|exact Ht|done|exact Ho].
Defined.
