(* ===== verification/Kmonitor.v ===== *)
(** * The kernel monitor

    kern/debug/kmonitor.c: the splitting of a command line into arguments, the
    commands and the monitor's loop; kern/debug/kdebug.c: what the commands
    print. *)

From S2P Require Import Prelude Defs CString Printfmt Machine Kernel DefaultPmm Trap Readline.

(** ** kern/debug/kdebug.c *)

Section kdebug.
Context `{B : Build} `{P : Platform} `{I : Image}.

Definition print_kerninfo : M kernel unit :=
  printk (line "Special kernel symbols:") [];;
  printk (line "  entry  0x%016lx (virtual)") [VInt (u64 sym_kern_init)];;
  printk (line "  etext  0x%016lx (virtual)") [VInt (u64 sym_etext)];;
  printk (line "  edata  0x%016lx (virtual)") [VInt (u64 sym_edata)];;
  printk (line "  end    0x%016lx (virtual)") [VInt (u64 sym_end)];;
  printk (line "Kernel executable memory footprint: %dKB")
    [VInt (u64 (Z.quot (sym_end - sym_kern_init + 1023) 1024))].

Definition print_debuginfo (eip : Z) : M kernel unit :=
  panic "kern/debug/kdebug.c" 25 (text "Not Implemented!") [] "Not Implemented!".
Definition print_stackframe : M kernel unit :=
  panic "kern/debug/kdebug.c" 91 (text "Not Implemented!") [] "Not Implemented!".
End kdebug.

(** ** The command interpreter *)

Definition MAXARGS : Z := 16.
(** [WHITESPACE]. *)
Definition is_blank (c : Z) : bool := (c =? 32) || (c =? 9) || (c =? 10) || (c =? 13).

(** The inner loops of [parse]; a buffer is indexed from its start, and an
    access outside it is undefined ([None]). *)
Fixpoint clear_blanks (fuel : nat) (buf : list Z) (i : nat) : option (list Z * nat) :=
  match fuel with
  | O => None
  | S fuel' =>
      c ← buf !! i;
      if negb (c =? 0) && is_blank c then clear_blanks fuel' (<[i := 0]> buf) (S i) else Some (buf, i)
  end.

Fixpoint scan_word (fuel : nat) (buf : list Z) (i : nat) : option nat :=
  match fuel with
  | O => None
  | S fuel' =>
      c ← buf !! i;
      if negb (c =? 0) && negb (is_blank c) then scan_word fuel' buf (S i) else Some i
  end.

(** The C string at [p]. *)
Fixpoint take_string (l : list Z) : list Z :=
  match l with [] => [] | c :: l' => if c =? 0 then [] else c :: take_string l' end.
Definition string_at (buf : list Z) (p : nat) : list Z := take_string (drop p buf).

Inductive command : Type := CmdHelp | CmdKerninfo | CmdBacktrace.
Definition commands : list command := [CmdHelp; CmdKerninfo; CmdBacktrace].
Definition command_name (c : command) : string :=
  match c with CmdHelp => "help" | CmdKerninfo => "kerninfo" | CmdBacktrace => "backtrace" end.
Definition command_desc (c : command) : string :=
  match c with
  | CmdHelp => "Display this list of commands."
  | CmdKerninfo => "Display information about the kernel."
  | CmdBacktrace => "Print backtrace of stack frame."
  end.

Section kmonitor.
Context `{B : Build} `{P : Platform} `{I : Image}.

(** [parse]: [argv] are the pointers stored so far; [argv] has [MAXARGS]
    slots, and a store behind them is undefined. *)
Fixpoint parse_loop (fuel : nat) (buf : list Z) (i : nat) (argv : list nat) : M kernel (list nat * list Z) :=
  match fuel with
  | O => mundef
  | S fuel' =>
      '(buf, i) ← mlift (clear_blanks (S (length buf)) buf i);
      c ← mlift (buf !! i);
      if c =? 0 then mret (argv, buf) else
      let argc := Z.of_nat (length argv) in
      _ ← if argc =? MAXARGS - 1
          then printk (line "Too many arguments (max %d).") [VInt MAXARGS] else mret ();
      if argc <? MAXARGS then
        j ← mlift (scan_word (S (length buf)) buf i);
        parse_loop fuel' buf j (argv ++ [i])
      else mundef
  end.
Definition parse (buf : list Z) : M kernel (list nat * list Z) :=
  parse_loop (S (length buf)) buf 0 [].

(** The loop of [mon_help]. *)
Fixpoint print_commands (cs : list command) : M kernel unit :=
  match cs with
  | [] => mret ()
  | c :: cs' =>
      printk (line "%s - %s") [VStr (text (command_name c)); VStr (text (command_desc c))];;
      print_commands cs'
  end.
Definition mon_help : M kernel Z := print_commands commands;; mret 0.
Definition mon_kerninfo : M kernel Z := print_kerninfo;; mret 0.
Definition mon_backtrace : M kernel Z := print_stackframe;; mret 0.

Definition run_command (c : command) : M kernel Z :=
  match c with CmdHelp => mon_help | CmdKerninfo => mon_kerninfo | CmdBacktrace => mon_backtrace end.

(** The first command whose name is [name]; [strcmp] is 0 exactly on equal
    strings. *)
Definition find_command (name : list Z) : option command :=
  List.find (fun c => bool_decide (text (command_name c) = name)) commands.

(** The result is that of the command, and the buffer as [parse] leaves
    it. *)
Definition runcmd (buf : list Z) : M kernel (Z * list Z) :=
  '(argv, buf) ← parse buf;
  match argv with
  | [] => mret (0, buf)
  | p :: _ =>
      match find_command (string_at buf p) with
      | Some c => r ← run_command c; mret (r, buf)
      | None => printk (line "Unknown command '%s'") [VStr (string_at buf p)];; mret (0, buf)
      end
  end.

(** [kmonitor]: [frame] is [tf] with its address, if there is one; [fuel]
    bounds the commands read and the polls of each. *)
Fixpoint kmonitor_loop (fuel : nat) (buf : list Z) : M kernel unit :=
  match fuel with
  | O => mundef
  | S fuel' =>
      '(ok, buf) ← zoom machL (readline fuel (Some (text "K> ")) buf);
      if (ok : bool) then
        '(r, buf) ← runcmd buf;
        if r <? 0 then mret () else kmonitor_loop fuel' buf
      else kmonitor_loop fuel' buf
  end.

Definition kmonitor (fuel : nat) (frame : option (Z * trapframe)) (buf : list Z) : M kernel unit :=
  printk (line "Welcome to the kernel debug monitor!!") [];;
  printk (line "Type 'help' for a list of commands.") [];;
  _ ← match frame with Some (addr, tf) => print_trapframe addr tf | None => mret () end;
  kmonitor_loop fuel buf.
End kmonitor.

(** ** Words *)

(** The words of a line and where they start; [i] is the position and [cur] the
    word being read. *)
Definition flush (cur : list Z) : list (list Z) := match cur with [] => [] | _ => [cur] end.
Fixpoint words (cur s : list Z) : list (list Z) :=
  match s with
  | [] => flush cur
  | c :: s' => if is_blank c then flush cur ++ words [] s' else words (cur ++ [c]) s'
  end.
Fixpoint starts (inside : bool) (i : nat) (s : list Z) : list nat :=
  match s with
  | [] => []
  | c :: s' =>
      if is_blank c then starts false (S i) s'
      else if inside then starts true (S i) s' else i :: starts true (S i) s'
  end.
(** The line with its blanks replaced by zeros. *)
Definition zeroed (s : list Z) : list Z := map (fun c => if is_blank c then 0 else c) s.

Abbreviation blanks := (Forall (fun c => is_blank c = true)).
Abbreviation solid := (Forall (fun c => c <> 0 /\ is_blank c = false)).

(** Where a word ends: at a blank or at the end. *)
Definition ends_word (s : list Z) : Prop := match s with [] => True | d :: _ => is_blank d = true end.

Lemma is_blank_nonzero c : is_blank c = true -> c <> 0.
Proof. by intros H ->. Qed.

(** A line is blanks, a word, and the rest. *)
Lemma split_line s :
  nonzero s -> exists b s1, s = b ++ s1 /\ blanks b /\
    (s1 = [] \/ exists c w s2, s1 = (c :: w) ++ s2 /\ solid (c :: w) /\ ends_word s2).
Proof.
  intros Hs. induction Hs as [|c s Hc Hs (b & s1 & -> & Hb & H1)].
  - exists [], []. split_and!; [done|constructor|by left].
  - destruct (is_blank c) eqn:Ec.
    { exists (c :: b), s1. split_and!; [done|by constructor|done]. }
    exists [], (c :: b ++ s1). split_and!; [done|constructor|right]. destruct b as [|d b].
    + destruct H1 as [-> | (d & w & s2 & -> & Hw & He)].
      * exists c, [], []. split_and!; [done|by apply Forall_singleton|done].
      * exists c, (d :: w), s2. split_and!; [done|by constructor|done].
    + exists c, [], ((d :: b) ++ s1). apply Forall_cons in Hb as [Hd _].
      split_and!; [done|by apply Forall_singleton|done].
Qed.

Lemma words_skip b s : blanks b -> words [] (b ++ s) = words [] s.
Proof. induction 1 as [|c l Hc _ IH]; [done|]. simpl. rewrite Hc. apply IH. Qed.
Lemma starts_skip b i s : blanks b -> starts false i (b ++ s) = starts false (i + length b) s.
Proof.
  intros Hb. revert i. induction Hb as [|c l Hc _ IH]; intros i; simpl; [by rewrite Nat.add_0_r|].
  by rewrite Hc, IH, Nat.add_succ_r.
Qed.
Lemma zeroed_blanks b : blanks b -> zeroed b = replicate (length b) 0.
Proof. induction 1 as [|c l Hc _ IH]; [done|]. simpl. rewrite Hc. by f_equal. Qed.

Section word.
Context (s2 : list Z) (He : ends_word s2).

Lemma words_word cur w : solid w -> cur ++ w <> [] -> words cur (w ++ s2) = (cur ++ w) :: words [] s2.
Proof using He.
  intros Hw. revert cur. induction Hw as [|c w [_ Hc] _ IH]; intros cur Hne; simpl.
  - rewrite app_nil_r in *. destruct s2 as [|d s3]; simpl in *; [by destruct cur|].
    rewrite He. by destruct cur.
  - rewrite Hc, IH by (by destruct cur). by rewrite <- app_assoc.
Qed.
Lemma starts_inside i w : solid w -> starts true i (w ++ s2) = starts false (i + length w) s2.
Proof using He.
  intros Hw. revert i. induction Hw as [|c w [_ Hc] _ IH]; intros i; simpl.
  - rewrite Nat.add_0_r. destruct s2 as [|d s3]; simpl in *; [done|]. by rewrite He.
  - by rewrite Hc, IH, Nat.add_succ_r.
Qed.
Lemma starts_word i c w : solid (c :: w) -> starts false i ((c :: w) ++ s2) = i :: starts false (i + length (c :: w)) s2.
Proof using He.
  intros Hw. apply Forall_cons in Hw as [[_ Hc] Hw]. simpl. rewrite Hc, starts_inside by done.
  by rewrite Nat.add_succ_r.
Qed.
End word.

Lemma zeroed_solid w : solid w -> zeroed w = w.
Proof. induction 1 as [|c w [_ Hc] _ IH]; [done|]. simpl. by rewrite Hc, IH. Qed.
Lemma zeroed_app s t : zeroed (s ++ t) = zeroed s ++ zeroed t.
Proof. apply map_app. Qed.
Lemma length_zeroed s : length (zeroed s) = length s.
Proof. apply length_map. Qed.

(** The strings at the starts are the words. *)
Lemma take_string_word w t : solid w -> take_string (w ++ 0 :: t) = w.
Proof.
  induction 1 as [|c w [Hc _] _ IH]; [done|]. simpl. by rewrite (proj2 (Z.eqb_neq c 0)), IH.
Qed.

Lemma strings_are_words n s pre post :
  (length s <= n)%nat -> nonzero s ->
  map (string_at (pre ++ zeroed s ++ 0 :: post)) (starts false (length pre) s) = words [] s.
Proof.
  revert s pre. induction n as [|n IH]; intros s pre Hn Hs; [by destruct s; [|simpl in Hn; lia]|].
  destruct (split_line s Hs) as (b & s1 & -> & Hb & [-> | (c & w & s2 & -> & Hw & He)]).
  - by rewrite starts_skip, words_skip.
  - rewrite starts_skip, words_skip, (starts_word s2 He), (words_word s2 He [] (c :: w)) by done.
    rewrite !zeroed_app, zeroed_blanks, (zeroed_solid (c :: w)), <- !app_assoc by done.
    set (pre' := pre ++ replicate (length b) 0 ++ (c :: w)).
    assert (Hp : length pre' = (length pre + length b + length (c :: w))%nat).
    { unfold pre'. rewrite !length_app, length_replicate. lia. }
    rewrite map_cons. f_equal.
    + unfold string_at. rewrite app_assoc.
      rewrite drop_app_length' by (rewrite length_app, length_replicate; lia).
      destruct s2 as [|d s3]; [by apply take_string_word|]. simpl in He. simpl zeroed. rewrite He.
      exact (take_string_word (c :: w) (zeroed s3 ++ 0 :: post) Hw).
    + rewrite <- Hp. assert (pre ++ replicate (length b) 0 ++ (c :: w) ++ zeroed s2 ++ 0 :: post
        = pre' ++ zeroed s2 ++ 0 :: post) as -> by (unfold pre'; by rewrite <- !app_assoc).
      apply Forall_app in Hs as [_ Hs]. apply Forall_app in Hs as [_ Hs].
      apply IH; [|done]. rewrite !length_app in Hn. simpl in Hn. lia.
Qed.

(** ** The loops of [parse] *)

Lemma clear_blanks_eq fuel b pre d rest :
  blanks b -> d = 0 \/ is_blank d = false -> (length b < fuel)%nat ->
  clear_blanks fuel (pre ++ b ++ d :: rest) (length pre)
  = Some (pre ++ replicate (length b) 0 ++ d :: rest, (length pre + length b)%nat).
Proof.
  intros Hb Hd. revert pre fuel. induction Hb as [|c b Hc _ IH]; intros pre [|fuel] Hf; simpl in Hf; try lia.
  - cbn [clear_blanks]. simpl app. rewrite list_lookup_middle by done. cbn [mbind option_bind].
    assert (negb (d =? 0) && is_blank d = false) as -> by (destruct Hd as [-> | ->]; [done|apply andb_false_r]).
    by rewrite Nat.add_0_r.
  - cbn [clear_blanks]. simpl app. rewrite list_lookup_middle by done. cbn [mbind option_bind].
    rewrite (proj2 (Z.eqb_neq c 0)), Hc by by apply is_blank_nonzero. cbn [negb andb].
    assert (<[length pre := 0]> (pre ++ c :: b ++ d :: rest) = (pre ++ [0]) ++ b ++ d :: rest) as ->.
    { rewrite insert_app_r_alt, Nat.sub_diag by done. by rewrite <- app_assoc. }
    replace (S (length pre)) with (length (pre ++ [0])) by (rewrite length_app; simpl; lia).
    rewrite IH by lia. rewrite length_app, <- app_assoc. simpl. do 2 f_equal. lia.
Qed.

Lemma scan_word_eq fuel w pre d rest :
  solid w -> d = 0 \/ is_blank d = true -> (length w < fuel)%nat ->
  scan_word fuel (pre ++ w ++ d :: rest) (length pre) = Some (length pre + length w)%nat.
Proof.
  intros Hw Hd. revert pre fuel. induction Hw as [|c w [Hc Hcb] _ IH]; intros pre [|fuel] Hf; simpl in Hf; try lia.
  - cbn [scan_word]. simpl app. rewrite list_lookup_middle by done. cbn [mbind option_bind].
    assert (negb (d =? 0) && negb (is_blank d) = false) as -> by (destruct Hd as [-> | ->]; [done|apply andb_false_r]).
    by rewrite Nat.add_0_r.
  - cbn [scan_word]. simpl app. rewrite list_lookup_middle by done. cbn [mbind option_bind].
    rewrite (proj2 (Z.eqb_neq c 0)), Hcb by done. cbn [negb andb].
    assert (pre ++ c :: w ++ d :: rest = (pre ++ [c]) ++ w ++ d :: rest) as -> by by rewrite <- app_assoc.
    replace (S (length pre)) with (length (pre ++ [c])) by (rewrite length_app; simpl; lia).
    rewrite IH by lia. rewrite length_app. simpl. f_equal. lia.
Qed.

(** ** Parsing *)

Section parsing.
Context `{B : Build} `{P : Platform} `{I : Image}.

Definition too_many_text : list Z := line "Too many arguments (max 16).".
(** Printed when the last slot of [argv] is taken. *)
Definition too_many (have total : nat) : list Z :=
  if (have <? 16)%nat && (total =? 16)%nat then too_many_text else [].

Lemma prints_too_many : prints (printk (line "Too many arguments (max %d).") [VInt MAXARGS]) too_many_text.
Proof using Type. apply prints_printk; by vm_compute. Qed.

(** Storing one more argument. *)
Lemma store_arg {A} (argv : list nat) (m : M kernel A) k :
  (length argv <= 16)%nat ->
  (_ ← (if Z.of_nat (length argv) =? MAXARGS - 1
        then printk (line "Too many arguments (max %d).") [VInt MAXARGS] else mret ());
   if Z.of_nat (length argv) <? MAXARGS then m else mundef) k
  = if (length argv =? 16)%nat then Undef
    else m (printed (if (length argv =? 15)%nat then too_many_text else []) k).
Proof using Type.
  intros Hl. unfold mbind, M_bind. assert (HM : MAXARGS = 16) by done.
  destruct (Nat.eqb_spec (length argv) 16) as [E|E].
  - by rewrite E.
  - rewrite (proj2 (Z.ltb_lt _ _)) by lia. destruct (Nat.eqb_spec (length argv) 15) as [E'|E'].
    + rewrite E'. change (Z.of_nat 15 =? MAXARGS - 1) with true. cbv iota. by rewrite prints_too_many.
    + rewrite (proj2 (Z.eqb_neq _ _)) by lia. by rewrite printed_nil.
Qed.

Lemma lookup_end {A} (pre : list A) d rest : (pre ++ d :: rest) !! length pre = Some d.
Proof using Type. by apply list_lookup_middle. Qed.

Lemma parse_end fuel b pre post argv k :
  blanks b ->
  parse_loop (S fuel) (pre ++ b ++ 0 :: post) (length pre) argv k
  = Ok (argv, pre ++ replicate (length b) 0 ++ 0 :: post) k.
Proof using Type.
  intros Hb. cbn [parse_loop]. unfold mbind at 1, M_bind at 1.
  rewrite clear_blanks_eq by (done || (left; done) || (rewrite !length_app; simpl; lia)).
  cbn [mlift]. unfold mret at 1, M_ret at 1. cbv beta iota. rewrite app_assoc.
  replace (length pre + length b)%nat with (length (pre ++ replicate (length b) 0))
    by (rewrite length_app, length_replicate; lia).
  unfold mbind, M_bind. rewrite lookup_end. cbn [mlift]. unfold mret, M_ret. by rewrite Z.eqb_refl.
Qed.

Lemma parse_word fuel b c w s2 pre post argv k :
  blanks b -> solid (c :: w) -> ends_word s2 -> (length argv <= 16)%nat ->
  let pb := pre ++ replicate (length b) 0 in
  parse_loop (S fuel) (pre ++ b ++ (c :: w) ++ s2 ++ 0 :: post) (length pre) argv k
  = if (length argv =? 16)%nat then Undef
    else parse_loop fuel ((pb ++ c :: w) ++ s2 ++ 0 :: post) (length (pb ++ c :: w)) (argv ++ [length pb])
           (printed (if (length argv =? 15)%nat then too_many_text else []) k).
Proof using Type.
  intros Hb Hw He Ha pb.
  assert (Hpb : length pb = (length pre + length b)%nat) by (unfold pb; rewrite length_app, length_replicate; lia).
  pose proof Hw as Hcw. apply Forall_cons in Hcw as [[Hc Hcb] _].
  cbn [parse_loop]. unfold mbind at 1, M_bind at 1.
  change ((c :: w) ++ s2 ++ 0 :: post) with (c :: w ++ s2 ++ 0 :: post).
  rewrite clear_blanks_eq by (done || (by right) || (rewrite !length_app; simpl; lia)).
  cbn [mlift]. unfold mret at 1, M_ret at 1. cbv beta iota. rewrite <- Hpb, app_assoc. fold pb.
  unfold mbind at 1, M_bind at 1. rewrite lookup_end. cbn [mlift]. unfold mret at 1, M_ret at 1.
  rewrite (proj2 (Z.eqb_neq c 0)) by done. cbv zeta. rewrite store_arg by done.
  change (pb ++ c :: w ++ s2 ++ 0 :: post) with (pb ++ (c :: w) ++ s2 ++ 0 :: post).
  assert (Hscan : scan_word (S (length (pb ++ (c :: w) ++ s2 ++ 0 :: post))) (pb ++ (c :: w) ++ s2 ++ 0 :: post)
    (length pb) = Some (length pb + length (c :: w))%nat).
  { destruct s2 as [|d s3]; [change ([] ++ 0 :: post) with (0 :: post)|change ((d :: s3) ++ 0 :: post) with (d :: s3 ++ 0 :: post)];
      apply scan_word_eq; (done || (by left) || (by right) || (rewrite !length_app; simpl; lia)). }
  unfold mbind, M_bind. rewrite Hscan. cbn [mlift]. unfold mret, M_ret.
  rewrite app_assoc. by rewrite length_app.
Qed.

(** The messages of one step and of the rest. *)
Lemma too_many_step n total :
  (n < 16)%nat -> (n < total)%nat -> (total <= 16)%nat ->
  (if (n =? 15)%nat then too_many_text else []) ++ too_many (S n) total = too_many n total.
Proof using Type.
  intros Hn Ht H16. unfold too_many.
  destruct (Nat.eqb_spec n 15), (Nat.ltb_spec (S n) 16), (Nat.ltb_spec n 16), (Nat.eqb_spec total 16);
    simpl; rewrite ?app_nil_r; (done || lia).
Qed.

Lemma parse_loop_eq fuel s pre post argv k :
  (length s < fuel)%nat -> nonzero s -> (length argv <= 16)%nat ->
  let ps := starts false (length pre) s in
  parse_loop fuel (pre ++ s ++ 0 :: post) (length pre) argv k
  = if (length argv + length ps <=? 16)%nat
    then Ok (argv ++ ps, pre ++ zeroed s ++ 0 :: post)
           (printed (too_many (length argv) (length argv + length ps)) k)
    else Undef.
Proof using Type.
  revert s pre argv k. induction fuel as [|fuel IH]; intros s pre argv k Hf Hs Ha; [lia|]. cbv zeta.
  destruct (split_line s Hs) as (b & s1 & -> & Hb & [-> | (c & w & s2 & -> & Hw & He)]).
  - rewrite starts_skip, zeroed_app, zeroed_blanks by done. simpl starts. simpl zeroed.
    rewrite !app_nil_r, Nat.add_0_r, parse_end by done.
    rewrite (proj2 (Nat.leb_le _ _) Ha). unfold too_many.
    assert ((length argv <? 16)%nat && (length argv =? 16)%nat = false) as ->.
    { destruct (Nat.ltb_spec (length argv) 16), (Nat.eqb_spec (length argv) 16); (done || lia). }
    by rewrite printed_nil.
  - rewrite <- !app_assoc. rewrite parse_word by done. set (pb := pre ++ replicate (length b) 0).
    assert (Hpb : length pb = (length pre + length b)%nat) by (unfold pb; rewrite length_app, length_replicate; lia).
    rewrite starts_skip, (starts_word s2 He), <- Hpb by done.
    rewrite !zeroed_app, zeroed_blanks, (zeroed_solid (c :: w)) by done.
    destruct (Nat.eqb_spec (length argv) 16) as [E|E].
    { by rewrite (proj2 (Nat.leb_gt _ _)) by (simpl; lia). }
    rewrite IH; [|rewrite !length_app in Hf; simpl in Hf; lia| |rewrite length_app; simpl; lia].
    2: { apply Forall_app in Hs as [_ Hs]. by apply Forall_app in Hs as [_ Hs]. }
    rewrite (length_app pb (c :: w)). set (ps := starts false (length pb + length (c :: w)) s2).
    rewrite length_app. simpl length.
    replace (length argv + 1 + length ps)%nat with (length argv + S (length ps))%nat by lia.
    rewrite Nat.add_1_r.
    destruct (Nat.leb_spec (length argv + S (length ps)) 16); [|done].
    rewrite <- printed_app, too_many_step by lia. unfold pb at 2. by rewrite <- !app_assoc.
Qed.

(** The words of a line that starts the buffer. *)
Lemma line_words s post :
  nonzero s -> map (string_at (zeroed s ++ 0 :: post)) (starts false 0 s) = words [] s.
Proof using Type. intros Hs. exact (strings_are_words (length s) s [] post ltac:(done) Hs). Qed.

Lemma parse_eq s post k :
  nonzero s ->
  parse (s ++ 0 :: post) k
  = if (length (words [] s) <=? 16)%nat
    then Ok (starts false 0 s, zeroed s ++ 0 :: post)
           (printed (if (length (words [] s) =? 16)%nat then too_many_text else []) k)
    else Undef.
Proof using Type.
  intros Hs. rewrite <- (line_words s post Hs), length_map.
  apply (parse_loop_eq (S (length (s ++ 0 :: post))) s [] post [] k); [|done|simpl; lia].
  rewrite length_app. simpl. lia.
Qed.

(** C21: [parse] splits a line into its words: every [argv] entry points to a
    zero-terminated copy of its word in place, for up to 16 words, with a
    warning when the sixteenth is stored.  It does not stop there: with more
    than 16 words it writes past the end of [argv]. *)
Theorem parse_spec s post k :
  nonzero s ->
  ((length (words [] s) <= 16)%nat ->
    exists argv buf, parse (s ++ 0 :: post) k = Ok (argv, buf)
        (printed (if (length (words [] s) =? 16)%nat then too_many_text else []) k) /\
      map (string_at buf) argv = words [] s /\ length buf = length (s ++ 0 :: post)) /\
  ((16 < length (words [] s))%nat -> parse (s ++ 0 :: post) k = Undef).
Proof using Type.
  intros Hs. rewrite (parse_eq s post k Hs). pose proof (line_words s post Hs) as Hw. split; intros Hn.
  - exists (starts false 0 s), (zeroed s ++ 0 :: post). rewrite (proj2 (Nat.leb_le _ _) Hn).
    split_and!; [done|done|]. by rewrite !length_app, length_zeroed.
  - by rewrite (proj2 (Nat.leb_gt _ _)).
Qed.
End parsing.

(** ** Commands *)

Section commands.
Context `{B : Build} `{P : Platform} `{I : Image}.

Definition help_line (c : command) : list Z := line (command_name c ++ " - " ++ command_desc c).
Definition help_text : list Z := help_line CmdHelp ++ help_line CmdKerninfo ++ help_line CmdBacktrace.

(** The kernel's size in kilobytes, rounded up. *)
Definition footprint : Z := Z.quot (sym_end - sym_kern_init + 1023) 1024.
Definition symbol_line (label : string) (v : Z) : list Z := text label ++ hex16_out (u64 v) ++ line " (virtual)".
Definition kerninfo_text : list Z :=
  line "Special kernel symbols:" ++ symbol_line "  entry  0x" sym_kern_init ++
  symbol_line "  etext  0x" sym_etext ++ symbol_line "  edata  0x" sym_edata ++
  symbol_line "  end    0x" sym_end ++
  text "Kernel executable memory footprint: " ++ decimal_out (s32 (u64 footprint)) ++ line "KB".

Definition unknown_text (name : list Z) : list Z := text "Unknown command '" ++ name ++ line "'".

Lemma prints_help c :
  prints (printk (line "%s - %s") [VStr (text (command_name c)); VStr (text (command_desc c))]) (help_line c).
Proof using Type. destruct c; (apply prints_printk; by vm_compute). Qed.

Lemma mon_help_eq k : mon_help k = Ok 0 (printed help_text k).
Proof using Type.
  unfold mon_help, help_text, commands, mbind, M_bind. cbn [print_commands].
  unfold mbind, M_bind. by rewrite !prints_help, !printed_app.
Qed.

Lemma prints_symbol label v :
  (label = "  entry  0x" \/ label = "  etext  0x" \/ label = "  edata  0x" \/ label = "  end    0x")%string ->
  prints (printk (line (label ++ "%016lx (virtual)")) [VInt (u64 v)]) (symbol_line label v).
Proof using Type.
  intros Hl. apply prints_printk.
  - assert (line (label ++ "%016lx (virtual)")
      = format_text (lits (text label) ++ [Escape hex16] ++ lits (line " (virtual)"))) as ->
      by (destruct Hl as [-> | [-> | [-> | ->]]]; done).
    apply (vprintfmt_emit _ _ (symbol_line label v) []).
    + destruct Hl as [-> | [-> | [-> | ->]]]; pieces_ok.
    + apply Forall_cons; split; [apply u64_in|constructor].
    + by rewrite render_lits, render_hex16, render_lits_end.
  - unfold symbol_line. rewrite !length_app. pose proof (hex16_out_length (u64 v)).
    assert (length (text label) = 11)%nat as -> by (destruct Hl as [-> | [-> | [-> | ->]]]; done).
    change (length (line " (virtual)")) with 11%nat. lia.
Qed.

Lemma render_dec_s32 n ps ap :
  render ([Escape (plain ConvDecimal)] ++ ps) (VInt n :: ap) = (out ← render ps ap; Some (decimal_out (s32 n) ++ out)).
Proof using Type.
  simpl. unfold render_directive, signed_arg. simpl. pose proof (s32_in n) as Hn. unfold in_s32 in Hn.
  by rewrite (proj2 (Z.eqb_neq (s32 n) _)) by lia.
Qed.

Lemma prints_footprint :
  prints (printk (line "Kernel executable memory footprint: %dKB") [VInt (u64 footprint)])
    (text "Kernel executable memory footprint: " ++ decimal_out (s32 (u64 footprint)) ++ line "KB").
Proof using Type.
  apply prints_printk.
  - assert (line "Kernel executable memory footprint: %dKB" = format_text
      (lits (text "Kernel executable memory footprint: ") ++ [Escape (plain ConvDecimal)] ++ lits (line "KB"))) as ->
      by done.
    apply (vprintfmt_emit _ _ (text "Kernel executable memory footprint: " ++
      decimal_out (s32 (u64 footprint)) ++ line "KB") []).
    + pieces_ok.
    + apply Forall_cons; split; [apply u64_in|constructor].
    + by rewrite render_lits, render_dec_s32, render_lits_end.
  - rewrite !length_app. pose proof (decimal_out_length (s32 (u64 footprint))).
    change (length (text "Kernel executable memory footprint: ")) with 36%nat.
    change (length (line "KB")) with 3%nat. lia.
Qed.

Lemma prints_kerninfo : prints print_kerninfo kerninfo_text.
Proof using Type.
  unfold print_kerninfo, kerninfo_text.
  apply prints_seq; [apply prints_text; by vm_compute|].
  apply prints_seq; [apply (prints_symbol "  entry  0x"); by left|].
  apply prints_seq; [apply (prints_symbol "  etext  0x"); by right; left|].
  apply prints_seq; [apply (prints_symbol "  edata  0x"); by right; right; left|].
  apply prints_seq; [apply (prints_symbol "  end    0x"); by right; right; right|].
  apply prints_footprint.
Qed.

Lemma prints_unknown name :
  nonzero name -> Z.of_nat (length name) < 1000000000 ->
  prints (printk (line "Unknown command '%s'") [VStr name]) (unknown_text name).
Proof using Type.
  intros Hn Hl. apply prints_printk.
  - assert (line "Unknown command '%s'" = format_text
      (lits (text "Unknown command '") ++ [Escape (plain ConvString)] ++ lits (line "'"))) as -> by done.
    apply (vprintfmt_emit _ _ (unknown_text name) []).
    + pieces_ok.
    + apply Forall_cons; split; [by split|constructor].
    + by rewrite render_lits, render_str, render_lits_end.
  - unfold unknown_text. rewrite !length_app. change (length (text "Unknown command '")) with 17%nat.
    change (length (line "'")) with 2%nat. lia.
Qed.

Lemma mon_backtrace_eq k : exists k', mon_backtrace k = Panic "Not Implemented!" k'.
Proof using Type.
  destruct (panic_eq (A := unit) "kern/debug/kdebug.c" 91 (text "Not Implemented!") []
    (text "Not Implemented!") "Not Implemented!" k) as (k' & E & _);
    [by vm_compute; repeat constructor|by vm_compute|lia|by vm_compute|by vm_compute|].
  exists k'. unfold mon_backtrace, print_stackframe, mbind, M_bind. by rewrite E.
Qed.

(** What a command line does: its output and whether it ends in a panic. *)
Definition warning (ws : list (list Z)) : list Z := if (length ws =? 16)%nat then too_many_text else [].
Definition command_text (name : list Z) : list Z :=
  match find_command name with
  | Some CmdHelp => help_text
  | Some CmdKerninfo => kerninfo_text
  | Some CmdBacktrace => []
  | None => unknown_text name
  end.
End commands.

Section monitor.
Context `{B : Build} `{P : Platform} `{I : Image}.

Lemma nonzero_words s cur w : nonzero s -> nonzero cur -> w ∈ words cur s -> nonzero w /\ w <> [] /\ (length w <= length cur + length s)%nat.
Proof using Type.
  intros Hs. revert cur. induction Hs as [|c s Hc Hs IH]; intros cur Hcur Hw; simpl in Hw.
  - destruct cur as [|d cur]; simpl in Hw; [by apply elem_of_nil in Hw|].
    apply list_elem_of_singleton in Hw as ->. split_and!; [done|done|simpl; lia].
  - destruct (is_blank c).
    + apply elem_of_app in Hw as [Hw|Hw].
      * destruct cur as [|d cur]; simpl in Hw; [by apply elem_of_nil in Hw|].
        apply list_elem_of_singleton in Hw as ->. split_and!; [done|done|simpl; lia].
      * destruct (IH [] ltac:(constructor) Hw) as (? & ? & Hl). split_and!; [done|done|simpl in *; lia].
    + destruct (IH (cur ++ [c])) as (? & ? & Hl); [by apply Forall_app; split; [|apply Forall_singleton]|done|].
      split_and!; [done|done|]. rewrite length_app in Hl. simpl in *. lia.
Qed.

(** A command line of at most 16 words runs the command its first word
    names: [help] and [kerninfo] print and return 0, an unknown name is
    reported, an empty line does nothing, and [backtrace], which the kernel
    does not implement, panics. *)
Lemma runcmd_eq s post k :
  nonzero s -> Z.of_nat (length s) < 1000000000 -> (length (words [] s) <= 16)%nat ->
  match words [] s with
  | [] => exists buf, runcmd (s ++ 0 :: post) k = Ok (0, buf) k /\
      length buf = length (s ++ 0 :: post)
  | w :: _ =>
      if decide (w = text "backtrace") then exists k', runcmd (s ++ 0 :: post) k = Panic "Not Implemented!" k'
      else exists buf, runcmd (s ++ 0 :: post) k
             = Ok (0, buf) (printed (warning (words [] s) ++ command_text w) k) /\
             length buf = length (s ++ 0 :: post)
  end.
Proof using Type.
  intros Hs Hl Hn. pose proof (line_words s post Hs) as Hw.
  set (buf := zeroed s ++ 0 :: post) in *.
  assert (Hbuf : length buf = length (s ++ 0 :: post))
    by (unfold buf; by rewrite !length_app, length_zeroed). set (k1 := printed (warning (words [] s)) k).
  assert (Hrun : runcmd (s ++ 0 :: post) k = match starts false 0 s with
    | [] => Ok (0, buf) k1
    | p :: _ => match find_command (string_at buf p) with
                | Some c => (r ← run_command c; mret (r, buf)) k1
                | None => (printk (line "Unknown command '%s'") [VStr (string_at buf p)];; mret (0, buf)) k1
                end end).
  { unfold runcmd. unfold mbind at 1, M_bind at 1. rewrite (parse_eq s post k Hs), (proj2 (Nat.leb_le _ _) Hn).
    fold (warning (words [] s)). fold k1. fold buf. destruct (starts false 0 s); [done|].
    by destruct (find_command _). }
  assert (Hwords : forall w, w ∈ words [] s -> nonzero w /\ w <> [] /\ (length w <= length s)%nat)
    by (intros w Hin; exact (nonzero_words s [] w Hs (Forall_nil_2 _) Hin)).
  rewrite Hrun. clear Hrun. assert (Hk1 : k1 = printed (warning (words [] s)) k) by done.
  clearbody k1. rewrite <- Hw in *. destruct (starts false 0 s) as [|p ps]; simpl map in *.
  { exists buf. split; [|done]. rewrite Hk1. change (warning []) with (@nil Z). by rewrite printed_nil. }
  set (w := string_at buf p) in *. destruct (Hwords w) as (Hnz & _ & Hlw); [by left|].
  destruct (decide (w = text "backtrace")) as [Eb|Eb].
  { rewrite Eb. change (find_command (text "backtrace")) with (Some CmdBacktrace). cbn [run_command].
    destruct (mon_backtrace_eq k1) as (k' & E). exists k'. unfold mbind, M_bind. by rewrite E. }
  exists buf. split; [|done]. rewrite printed_app, <- Hk1. unfold command_text.
  destruct (find_command w) as [[]|] eqn:Ef; cbn [run_command]; unfold mbind, M_bind.
  - by rewrite mon_help_eq.
  - unfold mon_kerninfo, mbind, M_bind. by rewrite prints_kerninfo.
  - apply find_some in Ef as [_ Ef]. apply bool_decide_eq_true in Ef. by destruct Eb.
  - by rewrite prints_unknown by (done || lia).
Qed.

Lemma runcmd_zero buf k r b k' : runcmd buf k = Ok (r, b) k' -> r = 0.
Proof using Type.
  intros E. unfold runcmd in E. apply bind_Ok_inv in E as ([argv b1] & k1 & _ & E).
  destruct argv as [|p argv]; [by injection E|].
  destruct (find_command _) as [c|].
  - apply bind_Ok_inv in E as (r1 & k2 & Ec & E). injection E as <- _ _.
    destruct c; cbn [run_command] in Ec.
    + rewrite mon_help_eq in Ec. by injection Ec.
    + unfold mon_kerninfo in Ec. apply bind_Ok_inv in Ec as ([] & k3 & _ & Ec). by injection Ec.
    + destruct (mon_backtrace_eq k1) as (k3 & Eb). by rewrite Eb in Ec.
  - apply bind_Ok_inv in E as ([] & k2 & _ & E). by injection E.
Qed.

Lemma kmonitor_loop_stuck fuel buf k k' : kmonitor_loop fuel buf k <> Ok () k'.
Proof using Type.
  revert buf k. induction fuel as [|fuel IH]; intros buf k E; [done|]. cbn [kmonitor_loop] in E.
  apply bind_Ok_inv in E as ([ok b1] & k1 & _ & E). destruct ok; [|by apply IH in E].
  apply bind_Ok_inv in E as ([r b2] & k2 & Er & E). apply runcmd_zero in Er as ->. by apply IH in E.
Qed.

(** The monitor never gives control back, whatever is typed: no command
    returns a negative number, so its loop cannot be left.  A panic, which
    ends in the monitor, therefore never returns to its caller. *)
Lemma kmonitor_never_returns fuel frame buf k k' : kmonitor fuel frame buf k <> Ok () k'.
Proof using Type.
  intros E. unfold kmonitor in E. apply bind_Ok_inv in E as ([] & k1 & _ & E).
  apply bind_Ok_inv in E as ([] & k2 & _ & E). apply bind_Ok_inv in E as (u & k3 & _ & E).
  by apply kmonitor_loop_stuck in E.
Qed.
End monitor.

(** ** Witnesses *)

Lemma parse_spec_witness :
  (exists argv buf, parse (B := verify_build) (P := sample_platform) (text "  help me " ++ [0; 7]) (sample_kernel (Mm [] 0))
      = Ok (argv, buf) (sample_kernel (Mm [] 0)) /\ map (string_at buf) argv = [text "help"; text "me"]) /\
  parse (B := verify_build) (P := sample_platform) (text "a b c d e f g h i j k l m n o p q" ++ [0]) (sample_kernel (Mm [] 0))
    = Undef.
Proof.
  split.
  - destruct (proj1 (parse_spec (B := verify_build) (P := sample_platform) (text "  help me ") [7]
      (sample_kernel (Mm [] 0)) ltac:(repeat (apply Forall_cons; split; [done|]); constructor)))
      as (argv & buf & E & Hw & _); [apply Nat.leb_le; by vm_compute|].
    exists argv, buf. split; [exact E|exact Hw].
  - apply (proj2 (parse_spec (B := verify_build) (P := sample_platform) (text "a b c d e f g h i j k l m n o p q") []
      (sample_kernel (Mm [] 0)) ltac:(repeat (apply Forall_cons; split; [done|]); constructor))).
    apply Nat.ltb_lt. by vm_compute.
Defined.
