(* ===== verification/Session.v ===== *)
(** * A session with the kernel monitor

    The line editor of libs/readline.c and the commands of
    kern/debug/kmonitor.c composed: what the monitor prints for all the lines
    that are typed, as a function of the characters. *)

From S2P Require Import Prelude Defs CString Printfmt Machine Kernel DefaultPmm Trap Readline Kmonitor.

Section session.
Context `{B : Build} `{P : Platform} `{Im : Image} {Input : ConsoleInput}.

(** On the console: the verification build prints nothing. *)
Definition shown (out : list Z) : list Z := if IS_VERIF then [] else out.

Definition monitor_prompt : list Z := text "K> ".

(** What the monitor prints for a line; none if the line makes it panic or has
    too many words. *)
Definition response (l : list Z) : option (list Z) :=
  if bool_decide (nonzero l) && (length (words [] l) <=? 16)%nat then
    match words [] l with
    | [] => Some []
    | w :: _ =>
        if decide (w = text "backtrace") then None
        else Some (shown (warning (words [] l) ++ command_text w))
    end
  else None.

(** What is on the console after [n] lines, and the characters left: prompts,
    echo and responses; a line that the console gives up has no response. *)
Fixpoint session (n : nat) (inp : list Z) : option (list Z * list Z) :=
  match n with
  | O => Some ([], inp)
  | S n =>
      e ← edit [] inp;
      out ← match ed_line e with Some l => response (map u8 l) | None => Some [] end;
      '(outs, rest) ← session n (ed_rest e);
      Some (prompt_text (Some monitor_prompt) ++ ed_echo e ++ out ++ outs, rest)
  end.

(** [k'] is [k] with [out] on the console and [rest] still to be read. *)
Definition console_step (out rest : list Z) (k k' : kernel) : Prop :=
  (exists m, k' = set_mach m k) /\
  input (mach k') = rest /\ csrs (mach k') = csrs (mach k) /\
  console_out (trace (mach k')) = console_out (trace (mach k)) ++ map u8 out.

Lemma console_step_trans o1 o2 r1 r2 k1 k2 k3 :
  console_step o1 r1 k1 k2 -> console_step o2 r2 k2 k3 -> console_step (o1 ++ o2) r2 k1 k3.
Proof using Type.
  intros ((m1 & ->) & H1 & H2 & H3) ((m2 & ->) & H4 & H5 & H6). split_and!.
  - exists m2. by destruct k1.
  - done.
  - by rewrite H5, H2.
  - by rewrite H6, H3, map_app, app_assoc.
Qed.

Lemma console_step_printed out k : console_step (shown out) (input (mach k)) k (printed out k).
Proof using Type.
  split_and!.
  - unfold printed. destruct IS_VERIF; [exists (mach k); by destruct k|by eexists].
  - unfold printed. destruct IS_VERIF; [done|]. apply input_puts.
  - apply printed_csrs.
  - rewrite printed_console. unfold shown. by destruct IS_VERIF.
Qed.

Lemma edit_rest acc inp e : edit acc inp = Some e -> (length (ed_rest e) < length inp)%nat.
Proof using Type.
  revert acc e. induction inp as [|c inp IH]; intros acc e; [done|]. cbn [edit length].
  assert (Hecho : forall acc, echoing c <$> edit acc inp = Some e -> (length (ed_rest e) < S (length inp))%nat).
  { intros acc' (e' & He & ->)%fmap_Some. apply IH in He. simpl. lia. }
  repeat case_match; try (by intros [= <-]; simpl; lia); try apply Hecho.
  all: intros H'; apply IH in H'; lia.
Qed.

(** The line editor inside the kernel. *)
Lemma readline_step fuel buf k e :
  length buf = Z.to_nat BUFSIZE -> (length (input (mach k)) < fuel)%nat -> edit [] (input (mach k)) = Some e ->
  exists ok b k', zoom machL (readline fuel (Some monitor_prompt) buf) k = Ok (ok, b) k' /\
    console_step (prompt_text (Some monitor_prompt) ++ ed_echo e) (ed_rest e) k k' /\
    length b = Z.to_nat BUFSIZE /\
    match ed_line e with
    | None => ok = false
    | Some l => ok = true /\ Z.of_nat (length l) < BUFSIZE /\ take (S (length l)) b = map u8 l ++ [0]
    end.
Proof using Type.
  intros Hb Hf He.
  destruct (wp_elim _ _ _ (readline_eq (Some monitor_prompt) buf (mach k) e fuel Hb Hf He ltac:(split; [
    repeat (apply Forall_cons; split; [done|]); constructor | by vm_compute])))
    as ([ok b] & m & E & H1 & H2 & H3 & H4 & H5).
  exists ok, b, (set_mach m k). split_and!; try done.
  - unfold zoom. cbn [machL lget]. by rewrite E.
  - split_and!; try done. by exists m.
Qed.

(** The command of a line. *)
Lemma response_step l b k out :
  response l = Some out -> Z.of_nat (length l) < BUFSIZE -> length b = Z.to_nat BUFSIZE ->
  take (S (length l)) b = l ++ [0] ->
  exists b' k', runcmd b k = Ok (0, b') k' /\ console_step out (input (mach k)) k k' /\
    length b' = Z.to_nat BUFSIZE.
Proof using Type.
  unfold response. destruct (bool_decide (nonzero l)) eqn:Hnz; [|done].
  destruct (_ <=? 16)%nat eqn:H16; [|done]. apply bool_decide_eq_true in Hnz. apply Nat.leb_le in H16.
  intros Hout Hl Hb Ht.
  assert (Hbuf : b = l ++ 0 :: drop (S (length l)) b).
  { rewrite <- (take_drop (S (length l)) b) at 1. by rewrite Ht, <- app_assoc. }
  pose proof (runcmd_eq l (drop (S (length l)) b) k Hnz ltac:(unfold BUFSIZE in Hl; lia) H16) as Hrun.
  rewrite <- Hbuf in Hrun. simpl in Hout. destruct (words [] l) as [|w ws].
  - injection Hout as <-. destruct Hrun as (b' & E & Hb'). exists b', k. split_and!; [done|..].
    + split_and!; [|done|done|by rewrite app_nil_r]. exists (mach k). by destruct k.
    + by rewrite Hb'.
  - destruct (decide _); [done|]. injection Hout as <-. destruct Hrun as (b' & E & Hb').
    eexists b', _. split_and!; [exact E|apply console_step_printed|by rewrite Hb'].
Qed.

Lemma session_loop n fuel buf k out rest :
  length buf = Z.to_nat BUFSIZE -> session n (input (mach k)) = Some (out, rest) ->
  (n + length (input (mach k)) < fuel)%nat ->
  exists buf' k', kmonitor_loop fuel buf k = kmonitor_loop (fuel - n) buf' k' /\
    length buf' = Z.to_nat BUFSIZE /\ console_step out rest k k'.
Proof using Type.
  revert fuel buf k out. induction n as [|n IH]; intros fuel buf k out Hb Hs Hf.
  { injection Hs as <- <-. exists buf, k. rewrite Nat.sub_0_r. split_and!; [done..|].
    split_and!; [exists (mach k); by destruct k|done|done|by rewrite app_nil_r]. }
  destruct fuel as [|fuel]; [lia|]. cbn [session] in Hs.
  apply bind_Some in Hs as (e & He & Hs). apply bind_Some in Hs as (o & Ho & Hs).
  apply bind_Some in Hs as ([outs rest'] & Hs & Hr). injection Hr as <- <-.
  pose proof (edit_rest _ _ _ He) as Hlt.
  destruct (readline_step (S fuel) buf k e Hb ltac:(lia) He) as (ok & b & k1 & E & Hstep & Hlb & Hline).
  assert (Hin : input (mach k1) = ed_rest e) by apply Hstep.
  assert (Hcmd : exists b2 k2, kmonitor_loop (S fuel) buf k = kmonitor_loop fuel b2 k2 /\
    length b2 = Z.to_nat BUFSIZE /\ console_step o (ed_rest e) k1 k2).
  { cbn [kmonitor_loop]. unfold mbind at 1, M_bind at 1. unfold monitor_prompt in E. rewrite E.
    destruct (ed_line e) as [l|].
    - destruct Hline as (-> & Hl & Ht).
      destruct (response_step (map u8 l) b k1 o Ho) as (b2 & k2 & E2 & Hstep2 & Hb2);
        [by rewrite length_map|done|by rewrite length_map|].
      exists b2, k2. unfold mbind at 1, M_bind at 1. rewrite E2. split_and!; [done|done|by rewrite <- Hin].
    - subst ok. injection Ho as <-. exists b, k1. split_and!; [done|done|].
      rewrite <- Hin. split_and!; [exists (mach k1); by destruct k1|done|done|by rewrite app_nil_r]. }
  destruct Hcmd as (b2 & k2 & -> & Hb2 & Hstep2).
  assert (Hin2 : input (mach k2) = ed_rest e) by apply Hstep2.
  destruct (IH fuel b2 k2 outs Hb2) as (b3 & k3 & -> & Hb3 & Hstep3);
    [by rewrite Hin2|rewrite Hin2; lia|].
  exists b3, k3. split_and!; [done|done|]. rewrite app_assoc.
  eapply console_step_trans; [exact Hstep|]. by eapply console_step_trans.
Qed.

(** What the monitor prints when it is entered, with the trap frame it is
    given. *)
Definition welcome (frame : option (Z * trapframe)) : list Z :=
  line "Welcome to the kernel debug monitor!!" ++ line "Type 'help' for a list of commands." ++
  match frame with Some (addr, tf) => trapframe_text addr tf | None => [] end.

Lemma kmonitor_enter fuel frame buf k :
  match frame with Some (addr, tf) => in_u64 addr /\ frame_in tf | None => True end ->
  kmonitor fuel frame buf k = kmonitor_loop fuel buf (printed (welcome frame) k).
Proof using Type.
  intros Hframe. unfold kmonitor, welcome. rewrite !printed_app. unfold mbind, M_bind.
  rewrite (prints_text (line "Welcome to the kernel debug monitor!!")) by (by vm_compute).
  rewrite (prints_text (line "Type 'help' for a list of commands.")) by (by vm_compute).
  destruct frame as [[addr tf]|]; [|by rewrite printed_nil].
  by rewrite (prints_trapframe addr tf (proj1 Hframe) (proj2 Hframe)).
Qed.

Lemma session_rest n inp out rest :
  session n inp = Some (out, rest) -> (n + length rest <= length inp)%nat.
Proof using Type.
  revert inp out. induction n as [|n IH]; intros inp out Hs; cbn [session] in Hs.
  { injection Hs as _ ->. lia. }
  apply bind_Some in Hs as (e & He & Hs). apply bind_Some in Hs as (o & Ho & Hs).
  apply bind_Some in Hs as ([outs rest'] & Hs & Hr). injection Hr as _ ->.
  apply edit_rest in He. apply IH in Hs. lia.
Qed.

(** A complete line that has no response: too many words, or [backtrace]. *)
Lemma loop_fatal fuel buf k e l :
  length buf = Z.to_nat BUFSIZE -> (length (input (mach k)) < fuel)%nat ->
  edit [] (input (mach k)) = Some e -> ed_line e = Some l -> nonzero (map u8 l) ->
  let ws := words [] (map u8 l) in
  ((16 < length ws)%nat -> kmonitor_loop fuel buf k = Undef) /\
  ((length ws <= 16)%nat -> head ws = Some (text "backtrace") ->
   exists k', kmonitor_loop fuel buf k = Panic "Not Implemented!" k').
Proof using Type.
  intros Hb Hf He Hl Hnz ws. destruct fuel as [|fuel]; [lia|].
  destruct (readline_step (S fuel) buf k e Hb Hf He) as (ok & b & k1 & E & _ & Hlb & Hline).
  rewrite Hl in Hline. destruct Hline as (-> & Hlen & Ht).
  assert (Hloop : kmonitor_loop (S fuel) buf k
    = ('(r, b') ← runcmd b; if r <? 0 then mret () else kmonitor_loop fuel b') k1).
  { cbn [kmonitor_loop]. unfold mbind at 1, M_bind at 1. unfold monitor_prompt in E. by rewrite E. }
  assert (Hbuf : b = map u8 l ++ 0 :: drop (S (length l)) b).
  { rewrite <- (take_drop (S (length l)) b) at 1. by rewrite Ht, <- app_assoc. }
  rewrite Hloop, Hbuf. unfold mbind, M_bind. split.
  - intros H16. unfold runcmd, mbind, M_bind.
    by rewrite (parse_eq _ _ _ Hnz), (proj2 (Nat.leb_gt _ _)) by done.
  - intros H16 Hw.
    pose proof (runcmd_eq (map u8 l) (drop (S (length l)) b) k1 Hnz
      ltac:(rewrite length_map; unfold BUFSIZE in Hlen; lia) H16) as Hrun.
    fold ws in Hrun. destruct ws as [|w ws']; [done|]. injection Hw as ->.
    rewrite decide_True in Hrun by done. destruct Hrun as (k' & ->). by exists k'.
Qed.

(** C23: take [n] complete lines, each of at most 16 words, of no null
    character, and with another first word than [backtrace].  After them the
    monitor is at its prompt again, and all it has done is to read the lines
    and to print the welcome and, for each line, the prompt, the echo of what
    the editor accepted and what the command that the line names prints;
    nothing else in the kernel has changed.  Such a session never returns to
    its caller.  The lines it excludes end it: if the next complete line has
    more than 16 words the monitor stores behind [argv], and if its first
    word is [backtrace] the monitor panics. *)
Theorem monitor_session n fuel frame buf k out rest :
  length buf = Z.to_nat BUFSIZE ->
  match frame with Some (addr, tf) => in_u64 addr /\ frame_in tf | None => True end ->
  session n (input (mach k)) = Some (out, rest) -> (n + length (input (mach k)) < fuel)%nat ->
  (exists buf' k', kmonitor fuel frame buf k = kmonitor_loop (fuel - n) buf' k' /\
     length buf' = Z.to_nat BUFSIZE /\ console_step (shown (welcome frame) ++ out) rest k k') /\
  (forall k', kmonitor fuel frame buf k <> Ok () k') /\
  (forall e l, edit [] rest = Some e -> ed_line e = Some l -> nonzero (map u8 l) ->
     let ws := words [] (map u8 l) in
     ((16 < length ws)%nat -> kmonitor fuel frame buf k = Undef) /\
     ((length ws <= 16)%nat -> head ws = Some (text "backtrace") ->
      exists k', kmonitor fuel frame buf k = Panic "Not Implemented!" k')).
Proof using Type.
  intros Hb Hframe Hs Hf.
  assert (Hrun : exists buf' k', kmonitor fuel frame buf k = kmonitor_loop (fuel - n) buf' k' /\
    length buf' = Z.to_nat BUFSIZE /\ console_step (shown (welcome frame) ++ out) rest k k').
  { set (k1 := printed (welcome frame) k).
    pose proof (console_step_printed (welcome frame) k) as Hstep. fold k1 in Hstep.
    assert (Hin : input (mach k1) = input (mach k)) by apply Hstep.
    destruct (session_loop n fuel buf k1 out rest Hb) as (b' & k' & E' & Hb' & Hstep');
      [by rewrite Hin|by rewrite Hin|].
    exists b', k'. split_and!; [by rewrite kmonitor_enter|done|]. by eapply console_step_trans. }
  split; [exact Hrun|]. split; [intros k'; by apply kmonitor_never_returns|].
  intros e l He Hl Hnz. destruct Hrun as (b' & k' & -> & Hb' & _ & Hin & _).
  pose proof (session_rest _ _ _ _ Hs). rewrite <- Hin in *.
  apply (loop_fatal _ _ _ e l); [done|lia|done..].
Qed.
End session.

(** ** Witness *)

(** Typing [help], return, [exit 1], line feed, and one character more. *)
Definition sample_typed : list Z := text "help" ++ [13] ++ text "exit 1" ++ [10; 33].
Definition sample_session : kernel := set_mach (sample_machine 0 sample_typed) (sample_kernel (Mm [] 0)).
Definition sample_image : Image :=
  {| sym_end := 0; sym_etext := 0; sym_edata := 0; sym_kern_init := 0; sym_boot_page_table := 0; sym_alltraps := 0 |}.

(** A kernel before which [typed] is waiting. *)
Definition session_of (typed : list Z) : kernel := set_mach (sample_machine 0 typed) (sample_kernel (Mm [] 0)).

Lemma monitor_session_witness :
  let monitor := kmonitor (B := kernel_build) (P := sample_platform) (I := sample_image) in
  (exists buf' k', monitor 40%nat None (replicate 1024 0) sample_session
      = kmonitor_loop (B := kernel_build) (P := sample_platform) (I := sample_image) 38 buf' k' /\
    input (Input := sample_input) (mach k') = [33] /\
    console_out (trace (mach k')) = line "Welcome to the kernel debug monitor!!" ++
      line "Type 'help' for a list of commands." ++ text "K> help" ++ [13] ++ help_text ++
      text "K> exit 1" ++ [10] ++ line "Unknown command 'exit'") /\
  (exists k', monitor 40%nat None (replicate 1024 0) (session_of (text "backtrace" ++ [13]))
      = Panic "Not Implemented!" k') /\
  monitor 60%nat None (replicate 1024 0) (session_of (text "a b c d e f g h i j k l m n o p q" ++ [13])) = Undef.
Proof.
  set (T := monitor_session (B := kernel_build) (P := sample_platform) (Im := sample_image) (Input := sample_input)).
  split; [|split].
  - destruct (T 2%nat 40%nat None (replicate 1024 0) sample_session
      (text "K> help" ++ [13] ++ help_text ++ text "K> exit 1" ++ [10] ++ line "Unknown command 'exit'") [33])
      as [(buf' & k' & E & _ & _ & Hin & _ & Ho) _].
    + vm_compute. reflexivity.
    + exact Logic.I.
    + vm_compute. reflexivity.
    + apply Nat.ltb_lt. vm_compute. reflexivity.
    + exists buf', k'. split; [exact E|]. split; [exact Hin|]. rewrite Ho. vm_compute. reflexivity.
  - apply (proj2 (proj2 (proj2 (T 0%nat 40%nat None (replicate 1024 0) (session_of (text "backtrace" ++ [13]))
      [] (text "backtrace" ++ [13]) ltac:(reflexivity) Logic.I ltac:(reflexivity)
      ltac:(apply Nat.ltb_lt; vm_compute; reflexivity)))
      (Edited (Some (text "backtrace")) (text "backtrace" ++ [13]) []) (text "backtrace")
      ltac:(vm_compute; reflexivity) eq_refl ltac:(by repeat constructor))).
    + apply Nat.leb_le. vm_compute. reflexivity.
    + vm_compute. reflexivity.
  - set (l := text "a b c d e f g h i j k l m n o p q").
    apply (proj1 (proj2 (proj2 (T 0%nat 60%nat None (replicate 1024 0) (session_of (l ++ [13])) [] (l ++ [13])
      ltac:(reflexivity) Logic.I ltac:(reflexivity) ltac:(apply Nat.ltb_lt; vm_compute; reflexivity)))
      (Edited (Some l) (l ++ [13]) []) l ltac:(vm_compute; reflexivity) eq_refl ltac:(by repeat constructor))).
    apply Nat.leb_le. vm_compute. reflexivity.
Defined.
