(* ===== verification/Init.v ===== *)
(** * Booting

    kern/init/entry.S: the hart enters supervisor mode with the boot page
    table; kern/init/init.c: [kern_init] brings up console, traps, memory and
    clock, and then idles with interrupts on. *)

From S2P Require Import Prelude Defs CString Printfmt Atomic DefaultPmm Machine Kernel PmmClient Pmm Trap Kmonitor.

(** ** kern/init/entry.S *)

Section entry.
Context `{I : Image}.

(** The boot page table: 511 empty entries, then [boot_pte]. *)
Definition boot_page_table : list Z := replicate 511 0 ++ [boot_pte].

(** The value that [kern_entry] writes to [satp]; [lui t0, %hi(...)] loads the
    table's address, which is page-aligned. *)
Definition entry_satp : Z :=
  let t0 := u64 sym_boot_page_table in
  let t1 := u64 (0xffffffffc0000000 - 0x80000000) in
  let t0 := u64 (t0 - t1) in
  let t0 := Z.shiftr t0 12 in
  let t1 := u64 (Z.shiftl 8 60) in
  Z.lor t0 t1.
End entry.

(** ** kern/init/init.c *)

Section init.
Context `{B : Build} `{P : Platform} `{I : Image} `{G : Grading}.

Definition message : list Z := text "(THU.CST) os is loading ...".

(** [memset(edata, 0, end - edata)]: the kernel's variables are in that
    range; the hart and the firmware are not. *)
Definition clear_bss (k : kernel) : kernel :=
  Kernel _ (mach k) (Mm (replicate (Z.to_nat NPAGE) 0) 0) None 0 0 0 0 0 0 false.

(** [kern_init], up to its idle loop. *)
Definition kern_init : M kernel unit :=
  mmodify clear_bss;;
  zoom machL cons_init;;
  _ ← zoom machL (cputs message);
  print_kerninfo;;
  idt_init;;
  pmm_init;;
  idt_init;;
  clock_init;;
  zoom machL intr_enable.

Definition grade_backtrace2 (arg0 arg1 arg2 arg3 : Z) : M kernel unit := _ ← mon_backtrace; mret ().
Definition grade_backtrace1 (arg0 arg1 addr0 addr1 : Z) : M kernel unit :=
  grade_backtrace2 arg0 addr0 arg1 addr1.
Definition grade_backtrace0 (arg0 arg1 arg2 addr0 addr1 : Z) : M kernel unit :=
  grade_backtrace1 arg0 arg2 addr0 addr1.
(** [addr0] and [addr1] are the addresses of parameters on the stack. *)
Definition grade_backtrace (addr0 addr1 : Z) : M kernel unit :=
  grade_backtrace0 0 sym_kern_init 0xffff0000 addr0 addr1.

(** The static counter [round] is passed around. *)
Definition lab1_print_cur_status (round : Z) : M kernel Z := mlift (int (round + 1)).
Definition lab1_switch_to_user : M kernel unit := mret ().
Definition lab1_switch_to_kernel : M kernel unit := mret ().
Definition lab1_switch_test (round : Z) : M kernel Z :=
  round ← lab1_print_cur_status round;
  printk (line "+++ switch to  user  mode +++") [];;
  lab1_switch_to_user;;
  round ← lab1_print_cur_status round;
  printk (line "+++ switch to kernel mode +++") [];;
  lab1_switch_to_kernel;;
  lab1_print_cur_status round.
End init.

(** ** The address space of the boot page table *)

(** An Sv39 entry of the top level that is a leaf maps a gigabyte: the
    physical page number it holds gives the upper bits of the address. *)
Definition sv39_gigapage (pte va : Z) : option Z :=
  if truthy (Z.land pte PTE_V) && truthy (Z.land pte (Z.lor PTE_R PTE_X))
  then Some (Z.shiftr pte SV39_PTE_PPN_SHIFT * PGSIZE + va mod 2 ^ 30) else None.

(** Sv39 addresses are sign-extended from bit 38. *)
Definition boot_translate (va : Z) : option Z :=
  pte ← boot_page_table !! Z.to_nat (SV39_VPN2 va); sv39_gigapage pte va.

Section entry_proofs.
Context `{B : Build} `{I : Image}.

(** C24: with the [satp] value that [kern_entry] writes, the top-level table is
    the boot page table, at the physical address the kernel computes for it;
    every address of the upper gigabyte, the kernel's included, is mapped to
    the address [PADDR] gives, and no other half of the table is mapped. *)
Theorem boot_mapping va :
  KERNBASE <= sym_boot_page_table < 2 ^ 64 -> sym_boot_page_table mod PGSIZE = 0 ->
  Z.shiftr entry_satp 60 = 8 /\
  (entry_satp mod 2 ^ 44) * PGSIZE = sym_boot_page_table - PHYSICAL_MEMORY_OFFSET /\
  (2 ^ 64 - 2 ^ 30 <= va < 2 ^ 64 -> boot_translate va = Some (va - PHYSICAL_MEMORY_OFFSET)) /\
  (2 ^ 64 - 2 ^ 38 <= va < 2 ^ 64 - 2 ^ 30 \/ 0 <= va < 2 ^ 38 -> boot_translate va = None).
Proof using Type.
  rewrite KERNBASE_eq. unfold PHYSICAL_MEMORY_OFFSET. change PGSIZE with 4096. intros Hb Hal.
  assert (Hs : entry_satp = 8 * 2 ^ 60 + (sym_boot_page_table - 0xFFFFFFFF40000000) / 4096).
  { unfold entry_satp. cbv zeta. rewrite (u64_small sym_boot_page_table) by (unfold in_u64; lia).
    change (u64 (0xffffffffc0000000 - 0x80000000)) with 0xFFFFFFFF40000000.
    rewrite u64_small by (unfold in_u64; lia). rewrite Z.shiftr_div_pow2 by lia.
    change (u64 (Z.shiftl 8 60)) with (8 * 2 ^ 60). rewrite Z.lor_comm.
    rewrite <- Z.shiftl_mul_pow2 by lia. rewrite lor_shiftl_add; [done|lia|].
    change (2 ^ 12) with 4096. Z.to_euclidean_division_equations; lia. }
  assert (Hva : forall v, 0 <= v < 2 ^ 64 -> SV39_VPN2 v = v / 2 ^ 30 mod 2 ^ 9).
  { intros v Hv. unfold SV39_VPN2, SV39_VPN2SHIFT. rewrite u64_small by done.
    rewrite land_1FF, Z.shiftr_div_pow2 by (unfold PGSHIFT; lia). done. }
  split_and!.
  - rewrite Hs, Z.shiftr_div_pow2 by lia. Z.to_euclidean_division_equations; lia.
  - rewrite Hs. Z.to_euclidean_division_equations; lia.
  - intros Hr. unfold boot_translate. rewrite Hva by lia.
    replace (va / 2 ^ 30 mod 2 ^ 9) with 511 by (Z.to_euclidean_division_equations; lia).
    change (boot_page_table !! Z.to_nat 511) with (Some boot_pte). cbn [mbind option_bind].
    unfold sv39_gigapage. change (truthy _ && truthy _) with true. cbv iota. f_equal.
    change (Z.shiftr boot_pte SV39_PTE_PPN_SHIFT * PGSIZE) with 0x80000000.
    Z.to_euclidean_division_equations; lia.
  - intros Hr. unfold boot_translate. rewrite Hva by lia.
    assert (Hi : 0 <= va / 2 ^ 30 mod 2 ^ 9 < 511) by (Z.to_euclidean_division_equations; lia).
    unfold boot_page_table. rewrite lookup_app_l by (rewrite length_replicate; lia).
    rewrite lookup_replicate_2 by lia. done.
Qed.
End entry_proofs.

(** ** Boot *)

Section boot.
Context `{B : Build} `{P : Platform} `{I : Image} `{G : Grading}.

Definition csr_of (k : kernel) (r : csr) : Z := csr_value (mach k) r.

Lemma prints_cputs s :
  nonzero s -> Z.of_nat (length s) < 1000000000 ->
  prints (_ ← zoom machL (cputs s); mret ()) (s ++ [10]).
Proof using Type.
  intros Hs Hl k. unfold zoom, mbind, M_bind. cbn [machL lget]. rewrite cputs_eq by done. unfold printed.
  destruct IS_VERIF; cbn [lput]; unfold mret, M_ret; [by destruct k|done].
Qed.

(** The trap vector set, as [idt_init] does. *)
Definition with_vector (k : kernel) : kernel :=
  set_mach (put_csr Csr_stvec (u64 sym_alltraps) (put_csr Csr_sscratch 0 (mach k))) k.

Lemma idt_init_eq k : idt_init k = Ok () (with_vector k).
Proof using Type. by destruct k. Qed.

Lemma with_vector_csr k r :
  csr_of (with_vector k) r
  = if decide (r = Csr_stvec) then u64 sym_alltraps else if decide (r = Csr_sscratch) then 0 else csr_of k r.
Proof using Type.
  unfold csr_of, with_vector. simpl. destruct (decide (r = Csr_stvec)) as [->|H1]; [apply csr_put_same|].
  rewrite csr_put_other by done. destruct (decide (r = Csr_sscratch)) as [->|H2]; [apply csr_put_same|].
  by apply csr_put_other.
Qed.

(** Setting bits of a register. *)
Definition with_bits (r : csr) (bits : Z) (m : machine) : machine :=
  put_csr r (u64 (Z.lor (csr_value m r) (u64 bits))) m.

Lemma set_csr_eq r bits m : set_csr r bits m = Ok (csr_value m r) (with_bits r bits m).
Proof using Type. done. Qed.

(** The kernel after [clock_init], up to output. *)
Definition clocked (k : kernel) : kernel :=
  let m := with_bits Csr_sie MIP_STIP (mach k) in
  set_ticks 0 (set_mach (after_calls [next_timer m] m) k).

Lemma clock_init_eq k : clock_init k = Ok () (printed (line "++ setup timer interrupts") (clocked k)).
Proof using Type.
  unfold clock_init. unfold mbind at 1, M_bind at 1. unfold zoom at 1. cbn [machL lget]. rewrite set_csr_eq. cbn [lput].
  unfold mbind at 1, M_bind at 1. unfold zoom at 1. cbn [lget]. change (mach (set_mach ?m k)) with m.
  rewrite clock_set_next_event_eq. cbn [lput]. unfold mbind, M_bind, mmodify.
  change (set_mach ?m2 (set_mach ?m1 k)) with (set_mach m2 k).
  apply prints_text; by vm_compute.
Qed.

Definition with_interrupts (k : kernel) : kernel :=
  set_mach (with_bits Csr_sstatus SSTATUS_SIE (mach k)) k.
Lemma intr_enable_eq k : zoom machL intr_enable k = Ok () (with_interrupts k).
Proof using Type. by destruct k. Qed.

(** What [kern_init] does after [pmm_init]. *)
Definition finished (k : kernel) : kernel :=
  with_interrupts (printed (line "++ setup timer interrupts") (clocked (with_vector k))).

Lemma kern_init_eq k (Q : unit -> kernel -> Prop) :
  wp pmm_init (fun _ k' => Q () (finished k'))
    (with_vector (printed kerninfo_text (printed (message ++ [10]) (clear_bss k)))) ->
  wp kern_init Q k.
Proof using Type.
  intros Hw. set (k0 := clear_bss k) in *. unfold kern_init. apply wp_bind. unfold wp at 1, mmodify. fold k0.
  apply wp_bind. unfold wp at 1. change (zoom machL cons_init k0) with (Ok () (set_mach (mach k0) k0)).
  change (set_mach (mach k0) k0) with k0.
  assert (Hm : nonzero message) by (by vm_compute; repeat constructor).
  pose proof (prints_cputs message Hm ltac:(by vm_compute) k0) as Ec.
  apply wp_bind. unfold wp at 1. unfold mbind, M_bind in Ec.
  destruct (zoom machL (cputs message) k0) as [r k1| |]; [|done..]. injection Ec as ->.
  apply wp_bind. unfold wp at 1. rewrite prints_kerninfo.
  apply wp_bind. unfold wp at 1. rewrite idt_init_eq.
  apply wp_bind. eapply wp_mono; [exact Hw|]. intros [] k2 HQ.
  apply wp_bind. unfold wp at 1. rewrite idt_init_eq.
  apply wp_bind. unfold wp at 1. rewrite clock_init_eq.
  unfold wp. by rewrite intr_enable_eq.
Qed.

(** The kernel in its idle loop. *)
Record idle (k : kernel) : Prop := {
  idle_mm : initialised image_pages (kmm k);
  idle_ready : kernel_ready k;
  idle_layout : layout_ready k;
  idle_stvec : csr_of k Csr_stvec = sym_alltraps;
  idle_sscratch : csr_of k Csr_sscratch = 0;
  idle_sie : Z.testbit (csr_of k Csr_sie) IRQ_S_TIMER = true;
  idle_sie_typed : in_u64 (csr_of k Csr_sie);
  idle_interrupts : sie (mach k) = true;
  idle_timer : exists t, SbiCall SBI_SET_TIMER t 0 0 ∈ trace (mach k);
  idle_ticks : ticks k = 0;
  idle_no_panic : is_panic k = false;
}.

(** What booting from [k0] leaves. *)
Record booted (k0 k : kernel) : Prop := {
  booted_idle : idle k;
  booted_satp : satp_virtual k = sym_boot_page_table /\
    satp_physical k = sym_boot_page_table - PHYSICAL_MEMORY_OFFSET;
  booted_csrs : forall r, r ∉ [Csr_sstatus; Csr_sie; Csr_stvec; Csr_sscratch] -> csr_of k r = csr_of k0 r;
}.

(** The registers and the trace after [pmm_init]. *)
Lemma finished_csr k r :
  csr_of (finished k) r
  = if decide (r = Csr_sstatus) then u64 (Z.lor (csr_of k Csr_sstatus) (u64 SSTATUS_SIE))
    else if decide (r = Csr_sie) then u64 (Z.lor (csr_of k Csr_sie) (u64 MIP_STIP))
    else csr_of (with_vector k) r.
Proof using Type.
  assert (Hp : forall r', csr_of (printed (line "++ setup timer interrupts") (clocked (with_vector k))) r'
    = if decide (r' = Csr_sie) then u64 (Z.lor (csr_of k Csr_sie) (u64 MIP_STIP)) else csr_of (with_vector k) r').
  { intros r'. unfold csr_of at 1, csr_value at 1. rewrite printed_csrs.
    change (default 0 (csrs (mach (clocked (with_vector k))) !! r'))
      with (csr_value (with_bits Csr_sie MIP_STIP (mach (with_vector k))) r').
    destruct (decide (r' = Csr_sie)) as [->|Hr]; [|by apply csr_put_other].
    unfold with_bits. rewrite csr_put_same. fold (csr_of (with_vector k) Csr_sie). by rewrite with_vector_csr. }
  change (csr_of (finished k) r) with (csr_value (with_bits Csr_sstatus SSTATUS_SIE
    (mach (printed (line "++ setup timer interrupts") (clocked (with_vector k))))) r).
  destruct (decide (r = Csr_sstatus)) as [->|Hr].
  - unfold with_bits. rewrite csr_put_same.
    fold (csr_of (printed (line "++ setup timer interrupts") (clocked (with_vector k))) Csr_sstatus).
    rewrite Hp. simpl. by rewrite with_vector_csr.
  - unfold with_bits. rewrite csr_put_other by done.
    fold (csr_of (printed (line "++ setup timer interrupts") (clocked (with_vector k))) r). apply Hp.
Qed.

Lemma finished_timer k : exists t, SbiCall SBI_SET_TIMER t 0 0 ∈ trace (mach (finished k)).
Proof using Type.
  set (m := with_bits Csr_sie MIP_STIP (mach (with_vector k))). eexists.
  assert (Hin : next_timer m ∈ trace (mach (clocked (with_vector k)))).
  { change (trace (mach (clocked (with_vector k)))) with (trace m ++ [next_timer m]).
    apply elem_of_app. right. by left. }
  change (trace (mach (finished k))) with (trace (mach (printed (line "++ setup timer interrupts") (clocked (with_vector k))))).
  unfold printed. destruct IS_VERIF; [exact Hin|]. simpl trace. apply elem_of_app. left. exact Hin.
Qed.

Lemma lor_bit w b : 0 <= b < 64 -> Z.testbit (u64 (Z.lor w (u64 (2 ^ b)))) b = true.
Proof using Type.
  intros Hb. unfold u64 at 1. rewrite Z.mod_pow2_bits_low, Z.lor_spec by lia. unfold u64.
  rewrite Z.mod_pow2_bits_low, Z.pow2_bits_true by lia. apply orb_true_r.
Qed.

Lemma kern_init_booted k :
  in_u64 (csr_of k Csr_sstatus) -> in_u64 sym_alltraps ->
  KERNBASE <= sym_end <= KERNBASE + NPAGE * PGSIZE -> image_pages + 5 <= NPAGE ->
  KERNBASE <= sym_boot_page_table < 2 ^ 64 ->
  wp kern_init (fun _ => booted k) k.
Proof using Type.
  intros Hs Ha He Himg Hb. apply kern_init_eq. set (kp := printed kerninfo_text _). set (k0 := with_vector kp).
  assert (Hk0 : forall r, r ∉ [Csr_stvec; Csr_sscratch] -> csr_of k0 r = csr_of k r).
  { intros r Hr. rewrite !not_elem_of_cons in Hr. destruct Hr as (H1 & H2 & _).
    unfold k0. rewrite with_vector_csr, !decide_False by done. unfold csr_of, csr_value, kp. by rewrite !printed_csrs. }
  assert (Hs0 : csr_of k0 Csr_sstatus = csr_of k Csr_sstatus) by (apply Hk0; apply (bool_decide_unpack _); done).
  assert (Hmm : kmm k0 = Mm (replicate (Z.to_nat NPAGE) 0) 0) by (unfold k0, kp, printed; by destruct IS_VERIF).
  destruct (pmm_init_wp k0) as (s & Hini & Hw); try done.
  { by unfold csr_of in Hs0; rewrite Hs0. }
  { rewrite Hmm. simpl. rewrite length_replicate. pose proof NPAGE_range. lia. }
  eapply wp_mono; [exact Hw|]. intros [] k1 Hc. pose proof (only_calls_eq _ _ Hc) as E1.
  assert (Hp : is_panic k0 = false) by (unfold k0, kp, printed; by destruct IS_VERIF).
  assert (Hk : kmm (finished k1) = s /\ layout_ready (finished k1) /\ ticks (finished k1) = 0 /\
    is_panic (finished k1) = false /\ pmm_manager (finished k1) = Some default_pmm_manager /\
    satp_virtual (finished k1) = sym_boot_page_table /\
    satp_physical (finished k1) = sym_boot_page_table - PHYSICAL_MEMORY_OFFSET).
  { unfold finished, printed. rewrite E1. destruct IS_VERIF; by split_and!. }
  destruct Hk as (Hkmm & Hl & Ht & Hpa & Hman & Hsv & Hsp).
  assert (Hcs : csrs (mach k1) = csrs (mach k0)) by (destruct Hc as [evs ->]; done).
  split; [|done|].
  2: { intros r Hr. rewrite !not_elem_of_cons in Hr. destruct Hr as (H1 & H2 & H3 & H4 & _).
    rewrite finished_csr, !decide_False by done. rewrite with_vector_csr, !decide_False by done.
    unfold csr_of, csr_value. rewrite Hcs. apply Hk0.
    rewrite !not_elem_of_cons. split_and!; [done|done|apply not_elem_of_nil]. }
  split; try done.
  - by rewrite Hkmm.
  - split; [exact Hman|]. fold (csr_of (finished k1) Csr_sstatus). rewrite finished_csr. apply u64_in.
  - rewrite finished_csr, with_vector_csr. simpl. by apply u64_small.
  - by rewrite finished_csr, with_vector_csr.
  - rewrite finished_csr. simpl. exact (lor_bit _ 5 ltac:(lia)).
  - rewrite finished_csr. simpl. apply u64_in.
  - unfold sie. fold (csr_of (finished k1) Csr_sstatus). rewrite finished_csr. exact (lor_bit _ 1 ltac:(lia)).
  - apply finished_timer.
Qed.

Lemma kern_init_idle k :
  in_u64 (csr_of k Csr_sstatus) -> in_u64 sym_alltraps ->
  KERNBASE <= sym_end <= KERNBASE + NPAGE * PGSIZE -> image_pages + 5 <= NPAGE ->
  KERNBASE <= sym_boot_page_table < 2 ^ 64 ->
  wp kern_init (fun _ => idle) k.
Proof using Type.
  intros. eapply wp_mono; [by apply kern_init_booted|]. intros [] k' []. done.
Qed.

(** C9: [kern_init], entered in any state of the machine and of memory, reaches
    its idle loop if the image leaves five pages free: the allocator manages
    exactly the pages behind the image, traps go to [__alltraps] with
    [sscratch] 0, the timer interrupt is enabled and one is requested, and
    interrupts are on; no tick is counted, no panic has happened, and no other
    register has changed. *)
Theorem kern_init_spec k :
  in_u64 (csr_of k Csr_sstatus) -> in_u64 sym_alltraps ->
  KERNBASE <= sym_end <= KERNBASE + NPAGE * PGSIZE -> image_pages + 5 <= NPAGE ->
  KERNBASE <= sym_boot_page_table < 2 ^ 64 ->
  wp kern_init (fun _ k' =>
    mm_wf (kmm k') /\ nr_free_eq (kmm k') /\ nr_free (kmm k') = NPAGE - image_pages /\
    (forall p, 0 <= p < NPAGE ->
       allocated (pages (kmm k')) p = false /\ reserved (pages (kmm k')) p = bool_decide (p < image_pages)) /\
    layout_ready k' /\ satp_physical k' = sym_boot_page_table - PHYSICAL_MEMORY_OFFSET /\
    (forall r, r ∉ [Csr_sstatus; Csr_sie; Csr_stvec; Csr_sscratch] -> csr_of k' r = csr_of k r) /\
    csr_of k' Csr_stvec = sym_alltraps /\ csr_of k' Csr_sscratch = 0 /\
    Z.testbit (csr_of k' Csr_sie) IRQ_S_TIMER = true /\ sie (mach k') = true /\
    (exists t, SbiCall SBI_SET_TIMER t 0 0 ∈ trace (mach k')) /\
    ticks k' = 0 /\ is_panic k' = false) k.
Proof using Type.
  intros Hs Ha He Himg Hb. eapply wp_mono; [by apply kern_init_booted|].
  intros [] k' [[[Hwf Hcnt Hfree Hpages] [_ _] Hl Hv Hc Hi _ Hon Ht Htk Hpa] [_ Hsp] Hcs]. by split_and!.
Qed.
End boot.

(** ** Witnesses *)

Lemma boot_mapping_witness :
  boot_translate 0xFFFFFFFFC0200010 = Some 0x80200010 /\
  entry_satp (I := sample_image 0xFFFFFFFFC0205001) mod 2 ^ 44 * PGSIZE = 0x80203000.
Proof.
  destruct (boot_mapping (I := sample_image 0xFFFFFFFFC0205001) 0xFFFFFFFFC0200010
    ltac:(by vm_compute) ltac:(done)) as (_ & Hs & Hm & _).
  split; [apply Hm; lia|exact Hs].
Defined.

Lemma kern_init_spec_witness :
  wp (kern_init (B := kernel_build) (P := sample_platform) (I := sample_image 0xFFFFFFFFC0205001))
    (fun _ k' => nr_free (kmm k') = 4090 /\ sie (mach k') = true /\ csr_of k' Csr_stvec = 0xFFFFFFFFC0200400)
    (sample_kernel (Mm [7] 99)).
Proof.
  eapply wp_mono.
  - apply (kern_init_spec (B := kernel_build) (P := sample_platform) (I := sample_image 0xFFFFFFFFC0205001)
      (sample_kernel (Mm [7] 99))); by vm_compute.
  - intros [] k' (_ & _ & -> & _ & _ & _ & _ & -> & _ & _ & -> & _). done.
Defined.
