(* ===== verification/System.v ===== *)
(** * The running system

    The kernel after boot: its code calls the allocator, and traps come in
    between, at any instruction at which interrupts are on (kern/sync/sync.h,
    kern/mm/pmm.c, kern/trap/trap.c, kern/init/init.c).  The theorems compose
    the components: calls are atomic with respect to interrupts, the system
    refines the allocator's specification whatever interrupts arrive, and the
    memory of its blocks is safe in every state reachable from boot. *)

From S2P Require Import Prelude Defs TrapEntry Interrupt.
From S2P Require Import Atomic DefaultPmm LlvmSpec PmmManager PmmClient Machine Kernel Pmm Trap Init.

(** A trap: where the entry code puts the frame, and what it saves there; the
    hart, not this frame, says what [status] is. *)
Abbreviation irq := (Z * trapframe)%type.

(** ** Traps and the control registers

    What happens to the control registers around [trap], when the kernel is
    interrupted: the hart and the entry code before it, the return code and
    [sret] after it ([Interrupt] has the instructions). *)

Definition status_of (cs : gmap csr Z) : Z := default 0 (cs !! Csr_sstatus).

(** The hart takes the trap. *)
Definition take_csrs (tf : trapframe) (cs : gmap csr Z) : gmap csr Z :=
  let s := status_of cs in
  <[Csr_sstatus := set_field SPP true (set_field SIE false (set_field SPIE (Z.testbit s SIE) s))]>
    (<[Csr_sepc := epc tf]> (<[Csr_scause := cause tf]> (<[Csr_sbadaddr := badvaddr tf]> cs))).
(** [SAVE_ALL] leaves 0 in [sscratch]. *)
Definition enter_csrs (tf : trapframe) (cs : gmap csr Z) : gmap csr Z :=
  <[Csr_sscratch := 0]> (take_csrs tf cs).
(** [sret]. *)
Definition sret_csrs (cs : gmap csr Z) : gmap csr Z :=
  let s := status_of cs in
  <[Csr_sstatus := set_field SPP false (set_field SPIE true (set_field SIE (Z.testbit s SPIE) s))]> cs.
(** [RESTORE_ALL] writes what the frame holds to [sstatus] and [sepc]. *)
Definition leave_csrs (tf : trapframe) (cs : gmap csr Z) : gmap csr Z :=
  sret_csrs (<[Csr_sepc := epc tf]> (<[Csr_sstatus := status tf]> cs)).

(** They are those of [take_trap] and [sret]. *)
Lemma take_csrs_eq tf c :
  pc c = epc tf -> supervisor c = true ->
  hcsrs (hart_of (take_trap (cause tf) (badvaddr tf) c)) = take_csrs tf (hcsrs (hart_of c)).
Proof. intros Hpc Hs. unfold take_trap. by rewrite Hpc, Hs. Qed.
Lemma sret_csrs_eq h : hcsrs (hart_of (sret h)) = sret_csrs (hcsrs h).
Proof. done. Qed.

(** The calls of kern/mm/pmm.h that code of a running kernel makes. *)
Inductive kcall : Type :=
  | KAlloc (n : Z)
  | KFree (base n : Z)
  | KNrFree.

Definition mm_call_of (c : kcall) : mm_call :=
  match c with
  | KAlloc n => CallAlloc n
  | KFree base n => CallFree base n
  | KNrFree => CallNrFree
  end.
Definition kcall_typed (c : kcall) : Prop := call_typed (mm_call_of c).

Section system.
Context `{B : Build} `{P : Platform} `{I : Image} `{G : Grading}.

Definition kernel_call (c : kcall) : M kernel Z :=
  match c with
  | KAlloc n => alloc_pages n
  | KFree base n => free_pages base n;; mret 0
  | KNrFree => nr_free_pages
  end.

(** The frame with the [sstatus] that the entry code finds. *)
Definition saved (s : Z) (tf : trapframe) : trapframe :=
  Trapframe (gpr tf) s (epc tf) (badvaddr tf) (cause tf).

Definition on_csrs (f : gmap csr Z -> gmap csr Z) (m : machine) : machine :=
  Machine _ (f (csrs m)) (fw_state m) (trace m).

(** A trap, from the instruction it interrupts to the return to it: the hart,
    [__alltraps], [trap], with interrupts off, [__trapret] and [sret].  The
    frame is not changed by [trap], so the return restores what was saved. *)
Definition take_irq (i : irq) : M kernel unit :=
  zoom machL (mmodify (on_csrs (enter_csrs i.2)));;
  s ← zoom machL (read_csr Csr_sstatus);
  trap i.1 (saved s i.2);;
  zoom machL (mmodify (on_csrs (leave_csrs (saved s i.2)))).

Fixpoint run_traps (l : list irq) : M kernel unit :=
  match l with
  | [] => mret ()
  | i :: l' => take_irq i;; run_traps l'
  end.

(** A point between two instructions at which the interrupts [l] arrive: with
    interrupts off they stay pending. *)
Definition window (l : list irq) : M kernel unit :=
  k ← mget; if sie (mach k) then run_traps l else mret ().

(** [local_intr_save] with interrupts arriving before it and between its read
    of [sstatus] and the instruction that turns interrupts off. *)
Definition save_interrupted (l0 l1 : list irq) : M kernel bool :=
  window l0;;
  s ← zoom machL (read_csr Csr_sstatus);
  window l1;;
  if truthy (Z.land s SSTATUS_SIE) then zoom machL intr_disable;; mret true else mret false.

(** A call of the allocator's wrappers with interrupts arriving before, in and
    behind it: [w i] are those of window [i]. *)
Definition call_interrupted (c : kcall) (w : nat -> list irq) : M kernel Z :=
  f ← save_interrupted (w 0%nat) (w 1%nat);
  window (w 2%nat);;
  v ← pmm_call (mm_call_of c);
  window (w 3%nat);;
  local_intr_restore f;;
  window (w 4%nat);;
  mret v.

Definition irq_in (i : irq) : Prop := in_u64 i.1 /\ frame_in i.2 /\ is_interrupt i.2 = true.
Definition irqs_in (w : nat -> list irq) : Prop := forall i, Forall irq_in (w i).
End system.

(** ** What traps leave alone *)

Section traps.
Context `{B : Build} `{P : Platform} `{I : Image} `{G : Grading}.

Lemma printed_mmL out s k : printed out (set_kmm s k) = set_kmm s (printed out k).
Proof using Type. unfold printed. by destruct IS_VERIF. Qed.

(** A trap neither reads nor writes the allocator's state. *)
Lemma after_trap_mmL addr tf s k : after_trap addr tf (set_kmm s k) = set_kmm s (after_trap addr tf k).
Proof using Type.
  unfold after_trap. destruct (is_timer tf); [|apply printed_mmL].
  change (ticked (set_kmm s k)) with (set_kmm s (ticked k)). apply printed_mmL.
Qed.

(** The kernel when a trap has been taken. *)
Definition entered (tf : trapframe) (k : kernel) : kernel := set_mach (on_csrs (enter_csrs tf) (mach k)) k.
Definition left_trap (tf : trapframe) (k : kernel) : kernel := set_mach (on_csrs (leave_csrs tf) (mach k)) k.
Definition entry_frame (tf : trapframe) (cs : gmap csr Z) : trapframe := saved (status_of (enter_csrs tf cs)) tf.
Definition after_irq (i : irq) (k : kernel) : kernel :=
  let tf := entry_frame i.2 (csrs (mach k)) in left_trap tf (after_trap i.1 tf (entered i.2 k)).

Lemma after_irq_mmL i s k : after_irq i (set_kmm s k) = set_kmm s (after_irq i k).
Proof using Type.
  unfold after_irq. change (entered i.2 (set_kmm s k)) with (set_kmm s (entered i.2 k)).
  rewrite after_trap_mmL. done.
Qed.

(** What is the same before and after traps: everything but the clock, the
    machine's firmware and control registers. *)
Definition trap_frame (k : kernel) :=
  (kmm k, pmm_manager k, (npage k, nbase k, va_pa_offset k), (satp_virtual k, satp_physical k), is_panic k).

Lemma trap_frame_printed out k : trap_frame (printed out k) = trap_frame k.
Proof using Type. unfold printed. by destruct IS_VERIF. Qed.

Lemma trap_frame_after addr tf k : trap_frame (after_trap addr tf k) = trap_frame k.
Proof using Type. unfold after_trap. by destruct (is_timer tf); rewrite trap_frame_printed. Qed.
Lemma trap_frame_irq i k : trap_frame (after_irq i k) = trap_frame k.
Proof using Type.
  unfold after_irq, left_trap. change (trap_frame (set_mach ?m ?k1)) with (trap_frame k1).
  by rewrite trap_frame_after.
Qed.

Definition after_traps (l : list irq) (k : kernel) : kernel := foldl (fun k i => after_irq i k) k l.

Lemma after_traps_app l1 l2 k : after_traps (l1 ++ l2) k = after_traps l2 (after_traps l1 k).
Proof using Type. apply foldl_app. Qed.

Lemma after_traps_mmL l s k : after_traps l (set_kmm s k) = set_kmm s (after_traps l k).
Proof using Type.
  revert k. induction l as [|i l IH]; intros k; [done|]. simpl. by rewrite after_irq_mmL, IH.
Qed.

Lemma trap_frame_traps l k : trap_frame (after_traps l k) = trap_frame k.
Proof using Type.
  revert k. induction l as [|i l IH]; intros k; [done|]. simpl. by rewrite IH, trap_frame_irq.
Qed.
Lemma after_traps_kmm l k : kmm (after_traps l k) = kmm k.
Proof using Type. pose proof (trap_frame_traps l k) as E. unfold trap_frame in E. congruence. Qed.

(** *** The control registers *)

Definition irq_csrs (tf : trapframe) (cs : gmap csr Z) : gmap csr Z :=
  leave_csrs (entry_frame tf cs) (enter_csrs tf cs).
(** The control registers after traps. *)
Definition traps_csrs (l : list irq) (cs : gmap csr Z) : gmap csr Z := foldl (fun cs i => irq_csrs i.2 cs) cs l.

Lemma traps_csrs_app l1 l2 cs : traps_csrs (l1 ++ l2) cs = traps_csrs l2 (traps_csrs l1 cs).
Proof using Type. apply foldl_app. Qed.

Lemma after_trap_csrs addr tf k : csrs (mach (after_trap addr tf k)) = csrs (mach k).
Proof using Type. unfold after_trap. by destruct (is_timer tf); rewrite printed_csrs. Qed.
Lemma after_irq_csrs i k : csrs (mach (after_irq i k)) = irq_csrs i.2 (csrs (mach k)).
Proof using Type.
  unfold after_irq, left_trap. cbn [mach set_mach on_csrs csrs]. by rewrite after_trap_csrs.
Qed.
Lemma after_traps_csrs l k : csrs (mach (after_traps l k)) = traps_csrs l (csrs (mach k)).
Proof using Type.
  revert k. induction l as [|i l IH]; intros k; [done|]. simpl. by rewrite IH, after_irq_csrs.
Qed.

(** [sstatus] after a trap. *)
Definition resumed_status (s : Z) : Z := set_field SPP false (set_field SPIE true s).

Lemma status_put v cs : status_of (<[Csr_sstatus := v]> cs) = v.
Proof using Type. unfold status_of. by rewrite lookup_insert_eq. Qed.
Lemma status_put_other r v cs : r <> Csr_sstatus -> status_of (<[r := v]> cs) = status_of cs.
Proof using Type. intros Hr. unfold status_of. by rewrite lookup_insert_ne. Qed.

Lemma irq_csrs_status tf cs : status_of (irq_csrs tf cs) = resumed_status (status_of cs).
Proof using Type.
  unfold irq_csrs, leave_csrs, sret_csrs, entry_frame, saved, enter_csrs, take_csrs, resumed_status.
  cbn [status epc]. rewrite !status_put, !(status_put_other Csr_sepc), !status_put by done.
  rewrite !(status_put_other Csr_sscratch), !status_put by done.
  apply Z.bits_inj'. intros n Hn. rewrite !set_field_bits by (unfold SIE, SPIE, SPP; lia).
  repeat case_decide; subst; done.
Qed.

Lemma irq_csrs_other tf cs r :
  r ∉ [Csr_sstatus; Csr_sepc; Csr_scause; Csr_sbadaddr; Csr_sscratch] -> irq_csrs tf cs !! r = cs !! r.
Proof using Type.
  rewrite !not_elem_of_cons. intros (H1 & H2 & H3 & H4 & H5 & _).
  unfold irq_csrs, leave_csrs, sret_csrs, enter_csrs, take_csrs. by rewrite !lookup_insert_ne.
Qed.
Lemma irq_csrs_scratch tf cs : irq_csrs tf cs !! Csr_sscratch = Some 0.
Proof using Type.
  unfold irq_csrs, leave_csrs, sret_csrs, enter_csrs. by simplify_map_eq.
Qed.

(** What code sees of the control registers when traps have been taken: all is
    as before but what the hart uses for a trap, [sepc], [scause], [sbadaddr]
    and two fields of [sstatus]; [sscratch], which the entry code uses, is 0
    if it was. *)
Definition kept (cs cs' : gmap csr Z) : Prop :=
  (forall r, r ∉ [Csr_sstatus; Csr_sepc; Csr_scause; Csr_sbadaddr; Csr_sscratch] -> cs' !! r = cs !! r) /\
  (forall i, i <> SPIE -> i <> SPP -> Z.testbit (status_of cs') i = Z.testbit (status_of cs) i) /\
  (default 0 (cs !! Csr_sscratch) = 0 -> default 0 (cs' !! Csr_sscratch) = 0).

#[global] Instance kept_preorder : PreOrder kept.
Proof using Type.
  split.
  - intros cs. by split_and!.
  - intros c1 c2 c3 (H1 & H2 & H3) (H4 & H5 & H6). split_and!; [|..|tauto].
    + intros r Hr. by rewrite H4, H1.
    + intros i Hi Hi'. by rewrite H5, H2.
Qed.

Lemma resumed_status_bits s i :
  Z.testbit (resumed_status s) i
  = if decide (i = SPP) then false else if decide (i = SPIE) then true else Z.testbit s i.
Proof using Type. unfold resumed_status. by rewrite !set_field_bits by (unfold SPIE, SPP; lia). Qed.

Lemma irq_csrs_kept tf cs : kept cs (irq_csrs tf cs).
Proof using Type.
  split_and!.
  - apply irq_csrs_other.
  - intros i H1 H2. by rewrite irq_csrs_status, resumed_status_bits, !decide_False.
  - by rewrite irq_csrs_scratch.
Qed.
Lemma traps_csrs_kept l cs : kept cs (traps_csrs l cs).
Proof using Type.
  revert cs. induction l as [|i l IH]; intros cs; [done|]. simpl. etrans; [apply irq_csrs_kept|apply IH].
Qed.
Lemma after_traps_kept l k : kept (csrs (mach k)) (csrs (mach (after_traps l k))).
Proof using Type. rewrite after_traps_csrs. apply traps_csrs_kept. Qed.

Lemma kept_sie m m' : kept (csrs m) (csrs m') -> sie m' = sie m.
Proof using Type. intros (_ & H & _). exact (H 1 ltac:(done) ltac:(done)). Qed.
Lemma after_traps_sie l k : sie (mach (after_traps l k)) = sie (mach k).
Proof using Type. apply kept_sie, after_traps_kept. Qed.

(** A field of a 64-bit register. *)
Lemma in_u64_bits w : 0 <= w -> (forall i, 64 <= i -> Z.testbit w i = false) -> in_u64 w.
Proof using Type.
  intros H0 H. enough (u64 w = w) as <- by apply u64_in. apply Z.bits_inj'. intros i Hi. unfold u64.
  destruct (Z.ltb_spec i 64); [by apply Z.mod_pow2_bits_low|rewrite Z.mod_pow2_bits_high by lia; by rewrite H].
Qed.
Lemma set_field_in b v w : 0 <= b < 64 -> in_u64 w -> in_u64 (set_field b v w).
Proof using Type.
  intros Hb Hw. apply in_u64_bits.
  - unfold in_u64 in Hw. unfold set_field, Z.setbit, Z.clearbit. destruct v.
    + apply Z.lor_nonneg. split; [lia|]. apply Z.shiftl_nonneg. lia.
    + apply Z.ldiff_nonneg. lia.
  - intros i Hi. rewrite set_field_bits by lia. rewrite decide_False by lia. by apply testbit_in_u64.
Qed.

Lemma status_entered tf cs : in_u64 (status_of cs) -> in_u64 (status_of (enter_csrs tf cs)).
Proof using Type.
  intros Hs. unfold enter_csrs, take_csrs. rewrite status_put_other, status_put by done.
  repeat apply set_field_in; done.
Qed.
Lemma status_traps l cs : in_u64 (status_of cs) -> in_u64 (status_of (traps_csrs l cs)).
Proof using Type.
  revert cs. induction l as [|i l IH]; intros cs Hs; [done|]. simpl. apply IH. rewrite irq_csrs_status.
  by repeat apply set_field_in.
Qed.
Lemma after_traps_ready l k : kernel_ready k -> kernel_ready (after_traps l k).
Proof using Type.
  pose proof (trap_frame_traps l k) as E. unfold trap_frame in E. intros [Hm Hs].
  split; [congruence|]. unfold csr_value. rewrite after_traps_csrs. by apply status_traps.
Qed.

(** Registers hold 64-bit values. *)
Definition csrs_in (cs : gmap csr Z) : Prop := forall r, in_u64 (default 0 (cs !! r)).

Lemma csrs_in_insert cs r v : csrs_in cs -> in_u64 v -> csrs_in (<[r := v]> cs).
Proof using Type. intros Hcs Hv q. rewrite lookup_insert. by case_decide. Qed.
Lemma irq_csrs_in tf cs : frame_in tf -> csrs_in cs -> csrs_in (irq_csrs tf cs).
Proof using Type.
  intros (_ & _ & He & Hb & Hc) Hcs. pose proof (status_entered tf cs (Hcs Csr_sstatus)) as Hs.
  assert (Hent : csrs_in (enter_csrs tf cs)).
  { unfold enter_csrs, take_csrs. pose proof (Hcs Csr_sstatus).
    apply csrs_in_insert; [|by vm_compute]. apply csrs_in_insert; [by repeat apply csrs_in_insert|].
    by repeat apply set_field_in. }
  unfold irq_csrs, leave_csrs, sret_csrs. cbn [entry_frame saved epc status].
  assert (Hl : csrs_in (<[Csr_sepc := epc tf]> (<[Csr_sstatus := status_of (enter_csrs tf cs)]> (enter_csrs tf cs))))
    by (apply csrs_in_insert; [by apply csrs_in_insert|done]).
  apply csrs_in_insert; [exact Hl|]. repeat apply set_field_in; try done. exact (Hl Csr_sstatus).
Qed.
Lemma traps_csrs_in l cs : Forall (fun i => frame_in i.2) l -> csrs_in cs -> csrs_in (traps_csrs l cs).
Proof using Type.
  intros Hl. revert cs. induction Hl as [|i l Hi Hl IH]; intros cs Hcs; [done|]. by apply IH, irq_csrs_in.
Qed.

(** The ticks that traps count. *)
Definition timer_count (l : list irq) : Z := Z.of_nat (length (filter (fun i => is_timer i.2 = true) l)).

Lemma after_irq_ticks i k :
  ticks (after_irq i k) = if is_timer i.2 then u64 (ticks k + 1) else ticks k.
Proof using Type.
  unfold after_irq, left_trap, after_trap. cbn [ticks set_mach].
  change (is_timer (entry_frame _ _)) with (is_timer i.2). by destruct (is_timer i.2); rewrite printed_ticks.
Qed.

Lemma after_traps_ticks l k : in_u64 (ticks k) -> ticks (after_traps l k) = u64 (ticks k + timer_count l).
Proof using Type.
  revert k. induction l as [|i l IH]; intros k Hk.
  - change (timer_count []) with 0. rewrite Z.add_0_r. by rewrite u64_small.
  - change (after_traps (i :: l) k) with (after_traps l (after_irq i k)).
    rewrite IH; rewrite after_irq_ticks; [|destruct (is_timer i.2); eauto with word].
    unfold timer_count. rewrite filter_cons. destruct (is_timer i.2); simpl length; [word_lia|done].
Qed.

Context (HG : DEBUG_GRADE = false).

Lemma take_irq_eq i k :
  in_u64 i.1 -> frame_in i.2 -> kernel_ready k -> take_irq i k = Ok () (after_irq i k).
Proof using HG.
  intros Ha (Hg & _ & He & Hb & Hc) [_ Hs]. unfold take_irq, after_irq.
  change (entered i.2 k) with (set_mach (on_csrs (enter_csrs i.2) (mach k)) k).
  set (k1 := set_mach _ k). set (tf := entry_frame i.2 (csrs (mach k))).
  unfold mbind at 1, M_bind at 1.
  change (zoom machL (mmodify (on_csrs (enter_csrs i.2))) k) with (Ok () k1). cbv beta iota.
  unfold mbind at 1, M_bind at 1.
  change (zoom machL (read_csr Csr_sstatus) k1) with (Ok (csr_value (mach k1) Csr_sstatus) (set_mach (mach k1) k1)).
  rewrite set_mach_id. change (saved (csr_value (mach k1) Csr_sstatus) i.2) with tf.
  assert (Hf : frame_in tf) by (split_and!; try done; exact (status_entered i.2 (csrs (mach k)) Hs)).
  unfold mbind, M_bind. by rewrite (trap_eq _ _ _ Ha Hf HG).
Qed.

Lemma run_traps_eq l k : Forall irq_in l -> kernel_ready k -> run_traps l k = Ok () (after_traps l k).
Proof using HG.
  intros Hl. revert k. induction Hl as [|i l (Ha & Hf & _) Hl IH]; intros k Hk; [done|].
  cbn [run_traps]. unfold mbind, M_bind. rewrite take_irq_eq by done.
  apply IH. exact (after_traps_ready [i] k Hk).
Qed.

(** What arrives in a window that interrupts are on in. *)
Definition delivered (k : kernel) (l : list irq) : list irq := if sie (mach k) then l else [].

Lemma window_eq l k :
  Forall irq_in l -> kernel_ready k -> window l k = Ok () (after_traps (delivered k l) k).
Proof using HG.
  intros Hl Hk. unfold window, delivered, mbind, M_bind, mget. destruct (sie (mach k)); [by apply run_traps_eq|done].
Qed.

Lemma window_off l k : sie (mach k) = false -> window l k = Ok () k.
Proof using Type. intros E. unfold window, mbind, M_bind, mget. by rewrite E. Qed.
End traps.

(** ** Calls and interrupts *)

Section atomicity.
Context `{B : Build} `{P : Platform} `{I : Image} `{G : Grading}.
Context (HG : DEBUG_GRADE = false).

Lemma kernel_call_eq c k v s :
  kernel_ready k -> run_call (mm_call_of c) (kmm k) = Ok v s -> kernel_call c k = Ok v (set_kmm s k).
Proof using Type.
  intros Hk E. destruct c as [n|base n|]; cbn [kernel_call mm_call_of run_call] in *.
  - by apply alloc_pages_eq.
  - apply bind_Ok_inv in E as ([] & s1 & E1 & E2). injection E2 as <- <-.
    unfold mbind, M_bind. by rewrite (free_pages_eq base n k s1 Hk E1).
  - injection E as <- <-. rewrite nr_free_pages_eq, set_kmm_id by done. done.
Qed.

(** Every typed call returns. *)
Lemma run_call_total c s :
  call_typed c -> mm_wf s -> exists v s', run_call c s = Ok v s' /\ in_u64 v /\ mm_wf s'.
Proof using Type. intros Ht Hwf. exact (wp_elim _ _ _ (run_call_wf s Hwf c Ht)). Qed.

Lemma delivered_same l l' k : delivered (after_traps l k) l' = delivered k l'.
Proof using Type. unfold delivered. by rewrite after_traps_sie. Qed.

(** [local_intr_save] with interrupts in it is those interrupts and then
    [local_intr_save]. *)
Lemma save_interrupted_eq l0 l1 k :
  Forall irq_in l0 -> Forall irq_in l1 -> kernel_ready k ->
  save_interrupted l0 l1 k
  = local_intr_save (after_traps (delivered k l0 ++ delivered k l1) k).
Proof using HG.
  intros H0 H1 Hk. unfold save_interrupted. unfold mbind at 1, M_bind at 1. rewrite (window_eq HG) by done.
  set (k0 := after_traps _ k). unfold mbind at 1, M_bind at 1.
  assert (Hk0 : kernel_ready k0) by by apply after_traps_ready.
  change (zoom machL (read_csr Csr_sstatus) k0) with (Ok (csr_value (mach k0) Csr_sstatus) (set_mach (mach k0) k0)).
  rewrite set_mach_id. unfold mbind at 1, M_bind at 1. rewrite (window_eq HG) by done.
  rewrite after_traps_app. fold k0. assert (delivered k l1 = delivered k0 l1) as ->
    by (symmetry; apply delivered_same).
  set (k1 := after_traps (delivered k0 l1) k0).
  rewrite land_sie. fold (sie (mach k0)). assert (sie (mach k0) = sie (mach k1)) as ->
    by (symmetry; apply after_traps_sie).
  unfold local_intr_save, zoom. cbn [machL lget]. rewrite intr_save_eq.
  destruct (sie (mach k1)); cbn [lput machL]; [done|]. unfold mret, M_ret. by rewrite set_mach_id.
Qed.

Lemma intr_save_off k :
  kernel_ready k ->
  exists f m, local_intr_save k = Ok f (set_mach m k) /\ sie m = false /\
    intr_restore f m = Ok () (mach k).
Proof using Type.
  intros [_ Hs]. destruct (intr_save_restore (mach k) Hs) as (f & m & Es & Er).
  exists f, m. unfold local_intr_save, zoom. cbn [machL lget lput]. rewrite Es. split_and!; [done| |done].
  rewrite intr_save_eq in Es. injection Es as <- <-. destruct (sie (mach k)) eqn:E; [|done].
  unfold sie. rewrite csr_put_same, sie_clear_bits by (done || lia). apply andb_false_r.
Qed.

Lemma call_interrupted_eq c w k v s :
  irqs_in w -> kernel_ready k -> run_call (mm_call_of c) (kmm k) = Ok v s ->
  call_interrupted c w k
  = Ok v (after_traps (delivered k (w 0%nat ++ w 1%nat ++ w 4%nat)) (set_kmm s k)).
Proof using HG.
  intros Hw Hk E. unfold call_interrupted. unfold mbind at 1, M_bind at 1.
  rewrite save_interrupted_eq by (done || apply Hw). set (ls := delivered k _ ++ _).
  destruct (intr_save_off (after_traps ls k)) as (f & m & Es & Hoff & Er); [by apply after_traps_ready|].
  rewrite Es. set (k1 := set_mach m _) in *.
  unfold mbind at 1, M_bind at 1. rewrite window_off by done.
  unfold mbind at 1, M_bind at 1.
  assert (Hk1 : kernel_ready (after_traps ls k)) by (by apply after_traps_ready).
  assert (pmm_call (mm_call_of c) k1 = Ok v (set_kmm s k1)) as ->.
  { unfold pmm_call, mbind at 1, M_bind at 1, mget. destruct Hk1 as [Hm _].
    change (pmm_manager k1) with (pmm_manager (after_traps ls k)). rewrite Hm. unfold zoom. cbn [mmL lget lput].
    change (kmm k1) with (kmm (after_traps ls k)). by rewrite after_traps_kmm, E. }
  unfold mbind at 1, M_bind at 1. rewrite window_off by done.
  unfold mbind at 1, M_bind at 1. unfold local_intr_restore, zoom. cbn [machL lget lput].
  change (mach (set_kmm s k1)) with m. rewrite Er.
  change (set_mach (mach (after_traps ls k)) (set_kmm s k1))
    with (set_kmm s (set_mach (mach (after_traps ls k)) (after_traps ls k))).
  rewrite set_mach_id, <- after_traps_mmL. unfold mbind at 1, M_bind at 1.
  rewrite (window_eq HG) by (apply Hw || exact (after_traps_ready ls (set_kmm s k) Hk)). rewrite delivered_same. unfold mret, M_ret.
  rewrite <- after_traps_app. do 2 f_equal. unfold ls. change (delivered (set_kmm s k)) with (delivered k).
  unfold delivered. by destruct (sie (mach k)); rewrite ?app_assoc.
Qed.

(** C11: a call of the allocator is atomic with respect to interrupts.  Whatever
    interrupts arrive before, in and behind it, it computes what the allocator
    alone computes, and the same result and kernel are reached when all of
    them arrive before the call, or all of them after it; those that arrive
    while the call has interrupts off stay pending. *)
Theorem call_atomic c w k :
  kcall_typed c -> irqs_in w -> kernel_ready k -> mm_wf (kmm k) ->
  let l := w 0%nat ++ w 1%nat ++ w 4%nat in
  wp (run_call (mm_call_of c)) (fun v s =>
    call_interrupted c w k = Ok v (set_kmm s (after_traps (delivered k l) k)) /\
    (window l;; kernel_call c) k = call_interrupted c w k /\
    (v ← kernel_call c; window l;; mret v) k = call_interrupted c w k) (kmm k).
Proof using HG.
  intros Ht Hw Hk Hwf l. destruct (run_call_total _ _ Ht Hwf) as (v & s & E & _).
  apply (wp_intro _ _ _ _ _ E). rewrite (call_interrupted_eq _ _ _ v s) by done. fold l.
  rewrite after_traps_mmL.
  assert (Hl : Forall irq_in l) by (unfold l; rewrite !Forall_app; split_and!; apply Hw).
  split_and!; [done| |].
  - unfold mbind, M_bind. rewrite (window_eq HG) by done.
    rewrite (kernel_call_eq c _ v s); [done|by apply after_traps_ready|by rewrite after_traps_kmm].
  - unfold mbind, M_bind. rewrite (kernel_call_eq c k v s) by done. rewrite (window_eq HG) by done.
    change (delivered (set_kmm s k) l) with (delivered k l). by rewrite after_traps_mmL.
Qed.
End atomicity.

(** ** Runs of the system *)

(** What happens to a running kernel: it calls the allocator, interrupts
    arriving in the windows of the call; or a trap is taken elsewhere. *)
Inductive event : Type :=
  | EvCall (c : kcall) (w : nat -> list irq)
  | EvTrap (i : irq).

Section runs.
Context `{B : Build} `{P : Platform} `{I : Image} `{G : Grading}.

Definition event_typed (e : event) : Prop :=
  match e with
  | EvCall c w => kcall_typed c /\ irqs_in w
  | EvTrap i => in_u64 i.1 /\ frame_in i.2
  end.

(** What the calls return, in order. *)
Fixpoint run_events (es : list event) : M kernel (list retval) :=
  match es with
  | [] => mret []
  | EvCall c w :: es' =>
      v ← call_interrupted c w;
      vs ← run_events es';
      mret (call_ret (mm_call_of c) v :: vs)
  | EvTrap i :: es' => take_irq i;; run_events es'
  end.

Definition calls (es : list event) : list mm_call :=
  omap (fun e => match e with EvCall c _ => Some (mm_call_of c) | EvTrap _ => None end) es.

(** The traps that are taken, if interrupts are on or off throughout. *)
Definition traps (on : bool) (es : list event) : list irq :=
  es ≫= fun e => match e with
                 | EvCall _ w => if on then w 0%nat ++ w 1%nat ++ w 4%nat else []
                 | EvTrap i => [i]
                 end.

(** The specification's run: its results and its final state. *)
Fixpoint spec_results (cs : list mm_call) (t : state) : list retval :=
  match cs with
  | [] => []
  | c :: cs' => let t' := spec_call c t in a0 t' :: spec_results cs' t'
  end.
Definition spec_run (cs : list mm_call) (t : state) : state := foldl (fun t c => spec_call c t) t cs.

Lemma spec_results_equiv cs t u : t ≡ u -> spec_results cs t = spec_results cs u.
Proof using Type.
  revert t u. induction cs as [|c cs IH]; intros t u E; [done|]. simpl.
  assert (E' : spec_call c t ≡ spec_call c u) by (by rewrite E).
  f_equal; [by destruct E'|by apply IH].
Qed.

#[global] Instance spec_run_proper cs : Proper ((≡) ==> (≡)) (spec_run cs).
Proof using Type.
  induction cs as [|c cs IH]; intros t u E; [done|]. simpl. apply IH. by rewrite E.
Qed.

Lemma find_free_return r t num : find_free_pages (set_return r t) num = find_free_pages t num.
Proof using Type.
  assert (Hl : forall l acc ans,
    find_free_accumulate (set_return r t) num l acc ans = find_free_accumulate t num l acc ans); [|apply Hl].
  induction l as [|p l IH]; intros acc ans; [done|]. simpl. by rewrite !IH.
Qed.

(** The register that holds the result is overwritten by every call. *)
Lemma spec_call_return c r t : spec_call c (set_return r t) = spec_call c t.
Proof using Type.
  destruct c; cbn [spec_call]; unfold spec_default_init_memmap, spec_default_alloc_pages, spec_default_free_pages;
    change (page_valid_flag (set_return r t)) with (page_valid_flag t);
    change (page_sat_flag (set_return r t)) with (page_sat_flag t);
    rewrite ?find_free_return; repeat case_match; done.
Qed.

Lemma timer_count_app l1 l2 : timer_count (l1 ++ l2) = timer_count l1 + timer_count l2.
Proof using Type. unfold timer_count. rewrite filter_app, length_app. lia. Qed.

Context (HG : DEBUG_GRADE = false).

(** One call: its result, the allocator, and what is the same. *)
Lemma call_step c w k r0 :
  kcall_typed c -> irqs_in w -> kernel_ready k -> mm_wf (kmm k) ->
  wp (call_interrupted c w) (fun v k' =>
    abs (call_ret (mm_call_of c) v) (kmm k') ≡ spec_call (mm_call_of c) (abs r0 (kmm k)) /\
    mm_wf (kmm k') /\
    k' = set_kmm (kmm k') (after_traps (delivered k (w 0%nat ++ w 1%nat ++ w 4%nat)) k)) k.
Proof using HG.
  intros Ht Hw Hk Hwf. destruct (wp_elim _ _ _ (refines_run_call _ Ht r0 _ Hwf)) as (v & s & E & Hwf' & Hs).
  apply (wp_intro _ _ _ _ _ (call_interrupted_eq HG c w k v s Hw Hk E)).
  rewrite after_traps_mmL. by split_and!.
Qed.
Lemma spec_results_return cs r t : spec_results cs (set_return r t) = spec_results cs t.
Proof using Type. destruct cs; [done|]. simpl. by rewrite spec_call_return. Qed.
Lemma spec_run_return cs q r t : set_return q (spec_run cs (set_return r t)) = set_return q (spec_run cs t).
Proof using Type. destruct cs; [done|]. unfold spec_run. simpl. by rewrite spec_call_return. Qed.

(** The effect of a step on what traps can see. *)
Definition step_frame (l : list irq) (k k' : kernel) : Prop :=
  k' = set_kmm (kmm k') (after_traps l k).

Lemma step_frame_facts l k k' :
  step_frame l k k' -> kernel_ready k -> in_u64 (ticks k) ->
  kernel_ready k' /\ csrs (mach k') = traps_csrs l (csrs (mach k)) /\ ticks k' = u64 (ticks k + timer_count l).
Proof using Type.
  unfold step_frame. intros -> Hk Ht. split_and!; [exact (after_traps_ready l k Hk)|exact (after_traps_csrs l k)|].
  exact (after_traps_ticks l k Ht).
Qed.

Lemma sie_csrs l k k' : csrs (mach k') = traps_csrs l (csrs (mach k)) -> sie (mach k') = sie (mach k).
Proof using Type. intros E. apply kept_sie. rewrite E. apply traps_csrs_kept. Qed.

Lemma ticks_add t a b : u64 (u64 (t + a) + b) = u64 (t + (a + b)).
Proof using Type. word_lia. Qed.

Lemma run_events_spec es k :
  Forall event_typed es -> kernel_ready k -> mm_wf (kmm k) -> in_u64 (ticks k) ->
  wp (run_events es) (fun rs k' =>
    rs = spec_results (calls es) (abs RVoid (kmm k)) /\
    abs RVoid (kmm k') ≡ set_return RVoid (spec_run (calls es) (abs RVoid (kmm k))) /\
    mm_wf (kmm k') /\
    csrs (mach k') = traps_csrs (traps (sie (mach k)) es) (csrs (mach k)) /\
    ticks k' = u64 (ticks k + timer_count (traps (sie (mach k)) es))) k.
Proof using HG.
  intros Hes. revert k. induction Hes as [|e es He Hes IH]; intros k Hk Hwf Ht.
  - apply wp_ret. change (timer_count (traps _ [])) with 0. rewrite Z.add_0_r, u64_small by done. done.
  - destruct e as [c w|i]; cbn [run_events event_typed] in *.
    + destruct He as [Hc Hw]. apply wp_bind. eapply wp_mono; [by apply (call_step c w k RVoid)|].
      intros v k1 (Hs & Hwf1 & Hfr). destruct (step_frame_facts _ _ _ Hfr Hk Ht) as (Hk1 & Hcs & Ht1).
      apply wp_bind. eapply wp_mono; [apply IH; [done|done|rewrite Ht1; apply u64_in]|].
      intros rs k' (-> & Habs & Hwf' & Hcs' & Ht'). apply wp_ret.
      change (abs RVoid (kmm k1)) with (set_return RVoid (abs (call_ret (mm_call_of c) v) (kmm k1))) in *.
      rewrite spec_results_return, spec_run_return in *.
      change (calls (EvCall c w :: es)) with (mm_call_of c :: calls es).
      change (spec_run (_ :: calls es) ?t) with (spec_run (calls es) (spec_call (mm_call_of c) t)).
      cbn [spec_results]. rewrite (sie_csrs _ _ _ Hcs) in *. split_and!; [|by rewrite Habs, Hs|done| |].
      * f_equal; [by destruct Hs|]. by apply spec_results_equiv.
      * by rewrite Hcs', Hcs, <- traps_csrs_app.
      * rewrite Ht', Ht1, ticks_add, <- timer_count_app. done.
    + destruct He as [Ha Hf]. apply wp_bind. unfold wp at 1. rewrite (take_irq_eq HG i k Ha Hf Hk).
      set (k1 := after_irq i k).
      assert (Hmm : kmm k1 = kmm k) by exact (after_traps_kmm [i] k).
      assert (Hfr : step_frame [i] k k1) by (unfold step_frame; rewrite Hmm; by rewrite <- after_traps_mmL, set_kmm_id).
      destruct (step_frame_facts _ _ _ Hfr Hk Ht) as (Hk1 & Hcs & Ht1).
      eapply wp_mono; [apply IH; [done|by rewrite Hmm|rewrite Ht1; apply u64_in]|].
      intros rs k' H. rewrite Hmm, Ht1, ticks_add, (sie_csrs _ _ _ Hcs), <- timer_count_app, Hcs, <- traps_csrs_app in H.
      exact H.
Qed.

(** C2: whatever traps come in, the running system refines the allocator's
    specification: every run of calls, with interrupts arriving in and between
    them, returns; every call returns what llvm-spec.rkt's functions, applied
    to the calls alone, return, and the allocator ends in their state.  The
    control registers hold what the hart leaves in them when it has taken those
    traps and nothing else: all are as before but [sepc], [scause],
    [sbadaddr], the fields SPIE and SPP of [sstatus], and [sscratch], which the
    entry code clears.  The clock has advanced by the timer interrupts
    taken. *)
Theorem system_refines_spec es k :
  Forall event_typed es -> kernel_ready k -> mm_wf (kmm k) -> in_u64 (ticks k) ->
  wp (run_events es) (fun rs k' =>
    rs = spec_results (calls es) (abs RVoid (kmm k)) /\
    abs RVoid (kmm k') ≡ set_return RVoid (spec_run (calls es) (abs RVoid (kmm k))) /\
    mm_wf (kmm k') /\
    csrs (mach k') = traps_csrs (traps (sie (mach k)) es) (csrs (mach k)) /\
    kept (csrs (mach k)) (csrs (mach k')) /\
    ticks k' = u64 (ticks k + timer_count (traps (sie (mach k)) es))) k.
Proof using HG.
  intros Hes Hk Hwf Ht. eapply wp_mono; [by apply run_events_spec|].
  intros rs k' (H1 & H2 & H3 & H4 & H5). split_and!; [done..| |done]. rewrite H4. apply traps_csrs_kept.
Qed.
End runs.

(** ** The system from boot on *)

(** The kernel and the blocks of pages its code holds. *)
Record sys `{Platform} : Type := Sys { knl : kernel; blocks : list block }.
Arguments Sys {_} knl blocks.

Section safety.
Context `{B : Build} `{P : Platform} `{I : Image} `{G : Grading}.

(** One step: code of the kernel takes a block, gives back, whole, one that it
    holds, or asks for the number of free pages, with interrupts arriving in
    every window; or a trap comes in. *)
Inductive sys_step : sys -> sys -> Prop :=
  | sys_alloc n w q k k' l :
      in_u64 n -> irqs_in w -> call_interrupted (KAlloc n) w k = Ok q k' -> q <> NULLPAGE ->
      sys_step (Sys k l) (Sys k' ((q, n) :: l))
  | sys_alloc_fail n w k k' l :
      in_u64 n -> irqs_in w -> call_interrupted (KAlloc n) w k = Ok NULLPAGE k' ->
      sys_step (Sys k l) (Sys k' l)
  | sys_free base n w r k k' l1 l2 :
      irqs_in w -> call_interrupted (KFree base n) w k = Ok r k' ->
      sys_step (Sys k (l1 ++ (base, n) :: l2)) (Sys k' (l1 ++ l2))
  | sys_query w r k k' l :
      irqs_in w -> call_interrupted KNrFree w k = Ok r k' -> sys_step (Sys k l) (Sys k' l)
  | sys_trap addr tf k k' l :
      in_u64 addr -> frame_in tf -> take_irq (addr, tf) k = Ok () k' -> sys_step (Sys k l) (Sys k' l).

Record sys_inv (k0 : kernel) (s : sys) : Prop := {
  sys_client : client_inv (Client (kmm (knl s)) (blocks s));
  sys_ready : kernel_ready (knl s);
  sys_frame : trap_frame (knl s) = trap_frame (set_kmm (kmm (knl s)) k0);
  sys_csrs : kept (csrs (mach k0)) (csrs (mach (knl s)));
  sys_reserved : forall p, 0 <= p < NPAGE ->
    reserved (pages (kmm (knl s))) p = bool_decide (p < image_pages);
  sys_unreserved : count unreserved (pages (kmm (knl s))) = NPAGE - image_pages;
}.

Lemma trap_frame_mmL s k k' : trap_frame k = trap_frame k' -> trap_frame (set_kmm s k) = trap_frame (set_kmm s k').
Proof using Type. unfold trap_frame. simpl. congruence. Qed.

(** The invariant only looks at the allocator and the frame. *)
Lemma sys_inv_traps k0 l k bs : sys_inv k0 (Sys k bs) -> sys_inv k0 (Sys (after_traps l k) bs).
Proof using Type.
  intros [Hc Hr Hf Hk Hres Hun]. split; simpl in *; rewrite ?after_traps_kmm; try done.
  - by apply after_traps_ready.
  - by rewrite trap_frame_traps.
  - etrans; [exact Hk|apply after_traps_kept].
Qed.

Lemma frame_mmL k0 s k : trap_frame k = trap_frame (set_kmm (kmm k) k0) ->
  trap_frame (set_kmm s k) = trap_frame (set_kmm s k0).
Proof using Type. unfold trap_frame. simpl. congruence. Qed.

Context (HG : DEBUG_GRADE = false).

(** A call in a state of the invariant: a call of the allocator alone, and
    traps that change nothing the invariant speaks of. *)
Lemma sys_call k0 c w k bs r k' :
  sys_inv k0 (Sys k bs) -> kcall_typed c -> irqs_in w -> call_interrupted c w k = Ok r k' ->
  exists s l, run_call (mm_call_of c) (kmm k) = Ok r s /\ k' = after_traps l (set_kmm s k).
Proof using HG.
  intros [Hc Hr Hf _ Hres Hun] Ht Hw E. simpl in *.
  destruct (run_call_total _ _ Ht (inv_wf _ Hc)) as (v & s & Er & _).
  rewrite (call_interrupted_eq HG c w k v s Hw Hr Er) in E. injection E as <- <-. eauto.
Qed.

Lemma sys_step_inv k0 s s' : sys_step s s' -> sys_inv k0 s -> sys_inv k0 s'.
Proof using HG.
  intros [n w q k k' l Hn Hw E Hq|n w k k' l Hn Hw E|base n w r k k' l1 l2 Hw E|w r k k' l Hw E
    |addr tf k k' l Ha Hf E] Hi.
  - destruct (sys_call _ (KAlloc n) _ _ _ _ _ Hi Hn Hw E) as (sm & ls & Er & ->). cbn in Er.
    apply sys_inv_traps. destruct Hi as [Hc Hr Hf Hk Hres Hun]; simpl in *.
    destruct (alloc_effect (PM := default_pmm_methods) n q (kmm k) sm (inv_ok _ Hc) Hn Er Hq) as (_ & _ & _ & _ & _ & _ & _ & Hr' & Hu').
    split; simpl.
    + by apply (client_inv_alloc (PM := default_pmm_methods) n q (kmm k)).
    + exact Hr.
    + by apply frame_mmL.
    + exact Hk.
    + intros p Hp. by rewrite Hr', Hres.
    + by rewrite Hu'.
  - destruct (sys_call _ (KAlloc n) _ _ _ _ _ Hi Hn Hw E) as (sm & ls & Er & ->). cbn in Er.
    apply sys_inv_traps. pose proof (sys_client _ _ Hi) as Hc. simpl in Hc.
    pose proof (alloc_pages_wp _ (inv_wf _ Hc) n Hn) as Ho. unfold wp in Ho. simpl in Ho. rewrite Er in Ho.
    pose proof NPAGE_lt_NULLPAGE. destruct Ho as [(_ & -> & _)|(? & ? & ? & _)]; [|lia].
    by rewrite set_kmm_id.
  - assert (Ht : kcall_typed (KFree base n)).
    { destruct (live_owned _ _ _ _ _ (sys_client _ _ Hi)) as (? & ? & ? & _). pose proof NPAGE_range.
      split; unfold in_u64; lia. }
    destruct (sys_call _ _ _ _ _ _ _ Hi Ht Hw E) as (sm & ls & Er & ->). cbn [mm_call_of run_call] in Er.
    apply bind_Ok_inv in Er as ([] & s1 & Er & Es). injection Es as <- <-.
    apply sys_inv_traps. destruct Hi as [Hc Hr Hf Hk Hres Hun]; simpl in *.
    destruct (live_owned _ _ _ _ _ Hc) as (Hb0 & Hpos & Hle & Hown).
    destruct (free_effect (PM := default_pmm_methods) base n (kmm k) s1 (inv_ok _ Hc) Hb0 Hpos Hle (fun p Hp => proj2 (Hown p Hp)) Er)
      as (_ & _ & _ & Hr' & Hu').
    split; simpl.
    + by apply (client_inv_free (PM := default_pmm_methods) base n (kmm k)).
    + exact Hr.
    + by apply frame_mmL.
    + exact Hk.
    + intros p Hp. by rewrite Hr', Hres.
    + by rewrite Hu'.
  - destruct (sys_call _ KNrFree _ _ _ _ _ Hi Logic.I Hw E) as (sm & ls & Er & ->). injection Er as <- <-.
    apply sys_inv_traps. by rewrite set_kmm_id.
  - rewrite (take_irq_eq HG (addr, tf) k Ha Hf (sys_ready _ _ Hi)) in E. injection E as <-.
    exact (sys_inv_traps _ [(addr, tf)] _ _ Hi).
Qed.
Lemma sys_reachable k0 s s' : rtc sys_step s s' -> sys_inv k0 s -> sys_inv k0 s'.
Proof using HG. induction 1 as [|s1 s2 s3 Hs _ IH]; [done|]. intros Hi. by eapply IH, sys_step_inv. Qed.

Lemma count_unreserved_initialised n0 s :
  initialised n0 s -> count unreserved (pages s) = NPAGE - n0.
Proof using Type.
  intros [Hwf Hcnt Hfree Hp]. unfold nr_free_eq, count_free in Hcnt. rewrite <- Hfree, Hcnt.
  destruct Hwf as (Hlen & _). apply count_ext. apply Forall_lookup. intros i w Hi.
  pose proof (lookup_lt_Some _ _ _ Hi).
  destruct (Hp (Z.of_nat i)) as [Ha _]; [lia|]. unfold allocated, word_at in Ha. rewrite Nat2Z.id, Hi in Ha.
  change (default 0 (Some w)) with w in Ha. unfold unreserved, word_free. by rewrite Ha.
Qed.

(** The idle kernel satisfies the invariant, with no block handed out. *)
Lemma sys_inv_idle k : idle k -> sys_inv k (Sys k []).
Proof using Type.
  intros Hi. pose proof (idle_mm _ Hi) as Hini. pose proof Hini as [Hwf Hcnt Hfree Hp].
  split; simpl.
  - split; simpl; try done.
    + intros p H. by rewrite (proj1 (Hp p H)).
    + intros p H. by rewrite (proj1 (Hp p H)).
    + rewrite (count_unreserved_initialised _ _ Hini). lia.
  - apply (idle_ready _ Hi).
  - by rewrite set_kmm_id.
  - done.
  - intros p H. apply (proj2 (Hp p H)).
  - by apply count_unreserved_initialised.
Qed.

(** Blocks in use are behind the kernel's image. *)
Lemma blocks_behind_image k0 s :
  sys_inv k0 s -> Forall (fun b => 0 < b.2 /\ image_pages <= b.1 /\ b.1 + b.2 <= NPAGE) (blocks s).
Proof using Type.
  intros [Hc _ _ _ Hres _]. apply Forall_forall. intros b Hb.
  pose proof (proj1 (Forall_forall _ _) (inv_blocks _ Hc) b Hb) as (Hpos & H0 & Hle). simpl in *.
  split_and!; [done| |done].
  assert (Hp : 0 <= b.1 < NPAGE) by lia. pose proof (inv_holders _ Hc _ Hp) as Hh. simpl in Hh.
  assert (allocated (pages (kmm (knl s))) b.1 = true) as Ha.
  { apply list_elem_of_split in Hb as (l1 & l2 & E). rewrite E in Hh. autorewrite with word_rw in Hh.
    rewrite bool_decide_true in Hh by (unfold in_blk; lia). destruct (allocated _ _); [done|lia]. }
  pose proof (inv_unreserved _ Hc _ Hp Ha) as Hr. simpl in Hr. rewrite Hres in Hr by done.
  by apply bool_decide_eq_false, Z.nlt_ge in Hr.
Qed.

(** C1: in every state that the system reaches after boot, whatever calls its
    code makes, as long as it frees only whole blocks it holds, and whatever
    traps come in at whatever point: interrupts are on and no panic has
    happened; the control registers are as boot has left them, but for those
    that the hart itself writes when it takes a trap ([sepc], [scause],
    [sbadaddr], and SPIE and SPP of [sstatus]); no two blocks share a page
    and none overlaps the kernel's image; free pages and blocks in use add up
    to the pages behind the image; and every further call and trap returns. *)
Theorem system_safety k :
  in_u64 (csr_of k Csr_sstatus) -> in_u64 sym_alltraps ->
  KERNBASE <= sym_end <= KERNBASE + NPAGE * PGSIZE -> image_pages + 5 <= NPAGE ->
  KERNBASE <= sym_boot_page_table < 2 ^ 64 ->
  wp kern_init (fun _ k0 => forall k1 l, rtc sys_step (Sys k0 []) (Sys k1 l) ->
    (sie (mach k1) = true /\ is_panic k1 = false) /\
    (forall r, r ∉ [Csr_sepc; Csr_scause; Csr_sbadaddr; Csr_sstatus] -> csr_of k1 r = csr_of k0 r) /\
    (forall i, i <> SPIE -> i <> SPP ->
      Z.testbit (csr_of k1 Csr_sstatus) i = Z.testbit (csr_of k0 Csr_sstatus) i) /\
    (forall p, 0 <= p < NPAGE -> (holders p l <= 1)%nat) /\
    Forall (fun b => 0 < b.2 /\ sym_end <= KERNBASE + b.1 * PGSIZE /\ b.1 + b.2 <= NPAGE) l /\
    nr_free (kmm k1) + live_pages l = NPAGE - image_pages /\
    (forall c w, kcall_typed c -> irqs_in w -> exists v k2, call_interrupted c w k1 = Ok v k2) /\
    (forall addr tf, in_u64 addr -> frame_in tf ->
      (exists k2, trap addr tf k1 = Ok () k2) /\ (exists k2, take_irq (addr, tf) k1 = Ok () k2))) k.
Proof using HG.
  intros Hs Ha He Himg Hb. eapply wp_mono; [by apply kern_init_idle|]. intros [] k0 Hidle k1 l Hr.
  pose proof (sys_reachable k0 _ _ Hr (sys_inv_idle k0 Hidle)) as Hi.
  pose proof Hi as [Hc Hrd Hf Hk _ Hun]. simpl in *. unfold trap_frame in Hf. simpl in Hf. split_and!.
  - rewrite (kept_sie _ _ Hk). apply (idle_interrupts _ Hidle).
  - pose proof (idle_no_panic _ Hidle). congruence.
  - intros r Hr'. destruct Hk as (Hreg & _ & Hscr). destruct (decide (r = Csr_sscratch)) as [->|Hne].
    + pose proof (idle_sscratch _ Hidle) as H0. unfold csr_of, csr_value in *. by rewrite H0, Hscr.
    + unfold csr_of, csr_value. rewrite Hreg; [done|]. intros Hin. apply Hr'.
      rewrite !elem_of_cons in Hin. rewrite !elem_of_cons. tauto.
  - apply Hk.
  - intros p Hp. pose proof (inv_holders _ Hc p Hp) as Hh. simpl in Hh. rewrite Hh. destruct (allocated _ _); lia.
  - eapply Forall_impl; [exact (blocks_behind_image _ _ Hi)|]. intros b (H1 & H2 & H3). split_and!; try done.
    unfold image_pages in H2. change PGSIZE with 4096 in *. clear - H2. Z.to_euclidean_division_equations; lia.
  - pose proof (inv_conserved _ Hc) as Hcon. simpl in Hcon. by rewrite <- Hun.
  - intros c w Ht Hw. destruct (run_call_total _ _ Ht (inv_wf _ Hc)) as (v & s & Er & _).
    eexists _, _. exact (call_interrupted_eq HG c w k1 v s Hw Hrd Er).
  - intros addr tf Had Htf. split; eexists; [exact (trap_eq addr tf k1 Had Htf HG)|].
    exact (take_irq_eq HG (addr, tf) k1 Had Htf Hrd).
Qed.
End safety.

(** ** Types *)

Section typing.
Context `{B : Build} `{P : Platform} `{I : Image} `{G : Grading}.

(** Every variable of the kernel, and every register, holds a value of its C
    type, and the function pointers are set. *)
Record kernel_typed (k : kernel) : Prop := {
  typed_mm : mm_wf (kmm k);
  typed_csrs : forall r, in_u64 (csr_of k r);
  typed_vars : Forall in_u64 [npage k; nbase k; va_pa_offset k; satp_virtual k; satp_physical k; ticks k];
  typed_manager : pmm_manager k = Some default_pmm_manager;
}.

Definition ret_typed (r : retval) : Prop := match r with RVoid => True | RVal v => in_u64 v end.

Lemma kernel_typed_ready k : kernel_typed k -> kernel_ready k.
Proof using Type. intros Hk. split; [exact (typed_manager _ Hk)|exact (typed_csrs _ Hk Csr_sstatus)]. Qed.

Lemma kernel_typed_traps l s k :
  Forall (fun i => frame_in i.2) l -> kernel_typed k -> mm_wf s -> kernel_typed (set_kmm s (after_traps l k)).
Proof using Type.
  intros Hl [_ Hc Hv Hm] Hs. pose proof (trap_frame_traps l k) as E. unfold trap_frame in E.
  injection E as _ Em En Eb Ev Esv Esp _. split; try done.
  - change (csrs_in (csrs (mach (after_traps l k)))). rewrite after_traps_csrs. by apply traps_csrs_in.
  - cbn [npage nbase va_pa_offset satp_virtual satp_physical ticks set_kmm].
    rewrite !Forall_cons in Hv |- *. destruct Hv as (? & ? & ? & ? & ? & Ht & _).
    rewrite En, Eb, Ev, Esv, Esp, after_traps_ticks by done. split_and!; try done. apply u64_in.
  - cbn [pmm_manager set_kmm]. by rewrite Em.
Qed.

Lemma kernel_typed_idle k0 k :
  (forall r, in_u64 (csr_of k0 r)) -> in_u64 sym_alltraps -> KERNBASE <= sym_boot_page_table < 2 ^ 64 ->
  booted k0 k -> kernel_typed k.
Proof using Type.
  intros Hc Ha Hb [Hi [Hsv Hsp] Hr]. rewrite KERNBASE_eq in Hb. pose proof NPAGE_range. split.
  - apply (idle_mm _ Hi).
  - intros r. destruct (decide (r ∈ [Csr_sstatus; Csr_sie; Csr_stvec; Csr_sscratch])) as [Hin|Hin].
    + rewrite !elem_of_cons in Hin. destruct Hin as [-> | [-> | [-> | [-> | Hin]]]].
      * apply (idle_ready _ Hi).
      * apply (idle_sie_typed _ Hi).
      * by rewrite (idle_stvec _ Hi).
      * rewrite (idle_sscratch _ Hi). word_unfold. lia.
      * by apply elem_of_nil in Hin.
    + rewrite Hr by done. apply Hc.
  - destruct (idle_layout _ Hi) as (-> & -> & ->). rewrite Hsv, Hsp, (idle_ticks _ Hi).
    unfold PHYSICAL_MEMORY_OFFSET. change NBASE with 524800.
    rewrite !Forall_cons. split_and!; try (unfold in_u64; lia). constructor.
  - apply (idle_ready _ Hi).
Qed.

Context (HG : DEBUG_GRADE = false).

Lemma run_events_typed es k :
  Forall event_typed es -> kernel_typed k ->
  wp (run_events es) (fun rs k' => length rs = length (calls es) /\ Forall ret_typed rs /\ kernel_typed k') k.
Proof using HG.
  intros Hes. revert k. induction Hes as [|e es He Hes IH]; intros k Hk; [by apply wp_ret|].
  destruct e as [c w|i]; cbn [run_events event_typed] in *.
  - destruct He as [Hc Hw]. destruct (run_call_total _ _ Hc (typed_mm _ Hk)) as (v & s & E & Hv & Hs).
    apply wp_bind. apply (wp_intro _ _ _ _ _ (call_interrupted_eq HG c w k v s Hw (kernel_typed_ready _ Hk) E)).
    rewrite after_traps_mmL. apply wp_bind. eapply wp_mono.
    { apply IH, kernel_typed_traps; [|done|done]. apply (Forall_impl irq_in); [|by intros i (_ & Hi & _)].
      unfold delivered. destruct (sie (mach k)); [|constructor]. rewrite !Forall_app. split_and!; apply Hw. }
    intros rs k' (Hl & Hrs & Hk'). apply wp_ret. split_and!; [simpl; by rewrite Hl| |done].
    apply Forall_cons. split; [by destruct c|done].
  - destruct He as [Ha Hf]. apply wp_bind. unfold wp at 1. rewrite (take_irq_eq HG i k Ha Hf (kernel_typed_ready _ Hk)).
    apply IH. pose proof (kernel_typed_traps [i] (kmm k) k (Forall_cons_2 (fun i : irq => frame_in i.2) i [] Hf (Forall_nil_2 _)) Hk (typed_mm _ Hk)) as H.
    by rewrite <- after_traps_mmL, set_kmm_id in H.
Qed.

(** C12: types are sound: whatever the kernel boots from, and whatever calls
    and traps follow, every call returns a value of its type, and every
    variable and register of the kernel holds a value of its own. *)
Theorem system_typed es k :
  (forall r, in_u64 (csr_of k r)) -> in_u64 sym_alltraps ->
  KERNBASE <= sym_end <= KERNBASE + NPAGE * PGSIZE -> image_pages + 5 <= NPAGE ->
  KERNBASE <= sym_boot_page_table < 2 ^ 64 -> Forall event_typed es ->
  wp (kern_init;; run_events es) (fun rs k' =>
    length rs = length (calls es) /\ Forall ret_typed rs /\ kernel_typed k') k.
Proof using HG.
  intros Hc Ha He Himg Hb Hes. apply wp_bind. eapply wp_mono; [by apply kern_init_booted|].
  intros [] k1 Hk1. apply run_events_typed; [done|]. by apply (kernel_typed_idle k).
Qed.
End typing.

(** ** Witnesses *)

(** A timer interrupt in every window. *)
Definition sample_irq : irq := (0x1000, sample_frame (2 ^ 63 + 5)).
Definition sample_windows (i : nat) : list irq := [sample_irq].

Lemma sample_irqs_in : irqs_in sample_windows.
Proof. intros i. apply Forall_singleton. split_and!; [done|by apply sample_frame_in|done]. Qed.

Lemma call_atomic_witness :
  exists k', call_interrupted (B := verify_build) (P := sample_platform) (G := sample_grading) (KAlloc 1)
    sample_windows (sample_kernel sample_state) = Ok 2 k' /\
    kmm k' = Mm [1; 1; 2; 2; 0] 1 /\ ticks k' = 3.
Proof.
  pose proof (call_atomic (B := verify_build) (P := sample_platform) (G := sample_grading) eq_refl (KAlloc 1)
    sample_windows (sample_kernel sample_state) ltac:(done) sample_irqs_in ltac:(by split) sample_state_wf) as H.
  destruct (wp_elim _ _ _ H) as (v & s & E & E' & _).
  assert (Ev : default_alloc_pages (B := verify_build) 1 sample_state = Ok 2 (Mm [1; 1; 2; 2; 0] 1))
    by (by vm_compute).
  eexists. assert (v = 2 /\ s = Mm [1; 1; 2; 2; 0] 1) as [-> ->].
  { clear - E Ev. simpl in E. rewrite Ev in E. by injection E as <- <-. }
  split; [exact E'|]. by split; vm_compute.
Defined.

(** An unknown exception, then two calls with timer interrupts in them. *)
Definition sample_events : list event :=
  [EvTrap (0x1000, sample_frame 2); EvCall (KAlloc 1) sample_windows; EvCall KNrFree sample_windows].

Lemma sample_events_typed : Forall event_typed sample_events.
Proof.
  assert (H2 : event_typed (EvTrap (0x1000, sample_frame 2))).
  { split; [by vm_compute|apply sample_frame_in; by vm_compute]. }
  assert (H1 : event_typed (EvCall (KAlloc 1) sample_windows)) by (split; [by vm_compute|exact sample_irqs_in]).
  assert (H0 : event_typed (EvCall KNrFree sample_windows)) by (split; [exact Logic.I|exact sample_irqs_in]).
  exact (Forall_cons_2 _ _ _ H2 (Forall_cons_2 _ _ _ H1 (Forall_cons_2 _ _ _ H0 (Forall_nil_2 _)))).
Qed.

Lemma sample_ready s : kernel_ready (B := verify_build) (sample_kernel s).
Proof. by split. Qed.

Lemma system_refines_spec_witness :
  exists k', run_events (B := verify_build) (P := sample_platform) (G := sample_grading) sample_events
    (sample_kernel sample_state) = Ok [RVal 2; RVal 1] k' /\ ticks k' = 6.
Proof.
  assert (Ht0 : in_u64 (ticks (sample_kernel sample_state))) by (by vm_compute).
  pose proof (system_refines_spec (B := verify_build) (P := sample_platform) (G := sample_grading) eq_refl
    sample_events (sample_kernel sample_state)) as H.
  specialize (H sample_events_typed (sample_ready sample_state) sample_state_wf Ht0).
  apply wp_elim in H as (rs & k' & E & Hrs & _ & _ & _ & _ & Ht).
  exists k'. assert (rs = [RVal 2; RVal 1]) as -> by (rewrite Hrs; by vm_compute).
  split; [exact E|]. rewrite Ht. by vm_compute.
Defined.

Lemma system_safety_witness :
  wp (kern_init (B := kernel_build) (P := sample_platform) (I := sample_image 0xFFFFFFFFC0205001))
    (fun _ k0 => forall k1 l,
       rtc (sys_step (B := kernel_build) (P := sample_platform) (G := sample_grading)) (Sys k0 []) (Sys k1 l) ->
       nr_free (kmm k1) + live_pages l = 4090 /\
       exists v k2, call_interrupted (B := kernel_build) (P := sample_platform) (G := sample_grading)
         (KAlloc 3) sample_windows k1 = Ok v k2)
    (sample_kernel (Mm [7] 99)).
Proof.
  eapply wp_mono.
  - apply (system_safety (B := kernel_build) (P := sample_platform) (I := sample_image 0xFFFFFFFFC0205001)
      (G := sample_grading) eq_refl (sample_kernel (Mm [7] 99))); by vm_compute.
  - intros [] k0 H k1 l Hr. destruct (H k1 l Hr) as (_ & _ & _ & _ & _ & Hfree & Hcall & _).
    split; [exact Hfree|]. apply Hcall; [done|apply sample_irqs_in].
Defined.

Lemma system_typed_witness :
  wp (_ ← kern_init (B := kernel_build) (P := sample_platform) (I := sample_image 0xFFFFFFFFC0205001);
      run_events (B := kernel_build) (P := sample_platform) (G := sample_grading) sample_events)
    (fun rs k' => length rs = 2%nat /\ Forall ret_typed rs) (sample_kernel (Mm [7] 99)).
Proof.
  eapply wp_mono.
  - apply (system_typed (B := kernel_build) (P := sample_platform) (I := sample_image 0xFFFFFFFFC0205001)
      (G := sample_grading) eq_refl sample_events (sample_kernel (Mm [7] 99)));
      [by intros []; vm_compute|by vm_compute|by vm_compute|by vm_compute|by vm_compute|exact sample_events_typed].
  - intros rs k' (Hl & Hrs & _). split; [exact Hl|exact Hrs].
Defined.
