(* ===== verification/Encoding.v ===== *)
(** * Encodings

    libs/riscv.h: the fields of the machine's registers, the opcodes of its
    instructions, and the numbers of its control registers and causes.  The
    kernel's own model uses a few of the constants by name; this file has the
    tables, and what makes them usable: a word decodes to one instruction, a
    number names one register, and the register's number tells who may use
    it. *)

From S2P Require Import Prelude Defs Machine Trap.

#[local] Open Scope string_scope.
#[local] Open Scope Z_scope.

(** ** Register fields *)

(** [MSTATUS_] *)
Definition mstatus_fields : list (string * Z) :=
  [("UIE", 0x00000001); ("SIE", 0x00000002); ("HIE", 0x00000004); ("MIE", 0x00000008);
   ("UPIE", 0x00000010); ("SPIE", 0x00000020); ("HPIE", 0x00000040); ("MPIE", 0x00000080);
   ("SPP", 0x00000100); ("HPP", 0x00000600); ("MPP", 0x00001800); ("FS", 0x00006000);
   ("XS", 0x00018000); ("MPRV", 0x00020000); ("PUM", 0x00040000); ("MXR", 0x00080000);
   ("VM", 0x1F000000); ("32_SD", 0x80000000); ("64_SD", 0x8000000000000000)].

(** [SSTATUS_] *)
Definition sstatus_fields : list (string * Z) :=
  [("UIE", 0x00000001); ("SIE", 0x00000002); ("UPIE", 0x00000010); ("SPIE", 0x00000020);
   ("SPP", 0x00000100); ("FS", 0x00006000); ("XS", 0x00018000); ("PUM", 0x00040000);
   ("32_SD", 0x80000000); ("64_SD", 0x8000000000000000)].

(** [DCSR_]; [3U<<30] is an [unsigned int], the other shifts are of an
    [int]. *)
Definition dcsr_fields : list (string * Z) :=
  [("XDEBUGVER", u32 (Z.shiftl 3 30)); ("NDRESET", Z.shiftl 1 29); ("FULLRESET", Z.shiftl 1 28);
   ("EBREAKM", Z.shiftl 1 15); ("EBREAKH", Z.shiftl 1 14); ("EBREAKS", Z.shiftl 1 13);
   ("EBREAKU", Z.shiftl 1 12); ("STOPCYCLE", Z.shiftl 1 10); ("STOPTIME", Z.shiftl 1 9);
   ("CAUSE", Z.shiftl 7 6); ("DEBUGINT", Z.shiftl 1 5); ("HALT", Z.shiftl 1 3);
   ("STEP", Z.shiftl 1 2); ("PRV", Z.shiftl 3 0)].
Definition dcsr_causes : list (string * Z) :=
  [("NONE", 0); ("SWBP", 1); ("HWBP", 2); ("DEBUGINT", 3); ("STEP", 4); ("HALT", 5)].

(** [MCONTROL_]; the upper fields depend on the register's width, and their
    shifts are of an [unsigned long long]. *)
Definition MCONTROL_TYPE (xlen : Z) : Z := u64 (Z.shiftl 0xf (xlen - 4)).
Definition MCONTROL_DMODE (xlen : Z) : Z := u64 (Z.shiftl 1 (xlen - 5)).
Definition MCONTROL_MASKMAX (xlen : Z) : Z := u64 (Z.shiftl 0x3f (xlen - 11)).
Definition mcontrol_fields : list (string * Z) :=
  [("SELECT", Z.shiftl 1 19); ("TIMING", Z.shiftl 1 18); ("ACTION", Z.shiftl 0x3f 12);
   ("CHAIN", Z.shiftl 1 11); ("MATCH", Z.shiftl 0xf 7); ("M", Z.shiftl 1 6); ("H", Z.shiftl 1 5);
   ("S", Z.shiftl 1 4); ("U", Z.shiftl 1 3); ("EXECUTE", Z.shiftl 1 2); ("STORE", Z.shiftl 1 1);
   ("LOAD", Z.shiftl 1 0)].
Definition mcontrol_types : list (string * Z) := [("NONE", 0); ("MATCH", 2)].
Definition mcontrol_actions : list (string * Z) :=
  [("DEBUG_EXCEPTION", 0); ("DEBUG_MODE", 1); ("TRACE_START", 2); ("TRACE_STOP", 3); ("TRACE_EMIT", 4)].
Definition mcontrol_matches : list (string * Z) :=
  [("EQUAL", 0); ("NAPOT", 1); ("GE", 2); ("LT", 3); ("MASK_LOW", 4); ("MASK_HIGH", 5)].

(** [MIP_] *)
Definition mip_bits : list (string * Z) :=
  [("SSIP", Z.shiftl 1 IRQ_S_SOFT); ("HSIP", Z.shiftl 1 IRQ_H_SOFT); ("MSIP", Z.shiftl 1 IRQ_M_SOFT);
   ("STIP", Z.shiftl 1 IRQ_S_TIMER); ("HTIP", Z.shiftl 1 IRQ_H_TIMER); ("MTIP", Z.shiftl 1 IRQ_M_TIMER);
   ("SEIP", Z.shiftl 1 IRQ_S_EXT); ("HEIP", Z.shiftl 1 IRQ_H_EXT); ("MEIP", Z.shiftl 1 IRQ_M_EXT)].

(** [PRV_], [VM_], the remaining [IRQ_], the address map. *)
Definition privileges : list (string * Z) := [("U", 0); ("S", 1); ("H", 2); ("M", 3)].
Definition vm_modes : list (string * Z) :=
  [("MBARE", 0); ("MBB", 1); ("MBBID", 2); ("SV32", 8); ("SV39", 9); ("SV48", 10)].
Definition IRQ_COP : Z := 12.
Definition IRQ_HOST : Z := 13.
Definition address_map : list (string * Z) :=
  [("DEFAULT_RSTVEC", 0x00001000); ("DEFAULT_NMIVEC", 0x00001004); ("DEFAULT_MTVEC", 0x00001010);
   ("CONFIG_STRING_ADDR", 0x0000100C); ("EXT_IO_BASE", 0x40000000); ("DRAM_BASE", 0x80000000)].

(** Page tables. *)
Definition PTE_TABLE (pte : Z) : bool :=
  Z.land pte (Z.lor (Z.lor (Z.lor PTE_V PTE_R) PTE_W) PTE_X) =? PTE_V.
Definition RISCV_PGLEVEL_BITS : Z := 9.
Definition RISCV_PGSHIFT : Z := 12.
Definition RISCV_PGSIZE : Z := Z.shiftl 1 RISCV_PGSHIFT.

(** [lcr3]: its argument is an [unsigned int]. *)
Definition lcr3 `{Platform} (cr3 : Z) : M machine unit :=
  write_csr Csr_satp (Z.shiftr (u32 cr3) RISCV_PGSHIFT).

(** The permissions of kern/mm/mmu.h. *)
Definition pte_permissions : list (string * Z) :=
  [("PAGE_TABLE_DIR", PTE_V); ("READ_ONLY", Z.lor PTE_R PTE_V);
   ("READ_WRITE", Z.lor (Z.lor PTE_R PTE_W) PTE_V); ("EXEC_ONLY", Z.lor PTE_X PTE_V);
   ("READ_EXEC", Z.lor (Z.lor PTE_R PTE_X) PTE_V);
   ("READ_WRITE_EXEC", Z.lor (Z.lor (Z.lor PTE_R PTE_W) PTE_X) PTE_V);
   ("PTE_USER", Z.lor (Z.lor (Z.lor (Z.lor PTE_R PTE_W) PTE_X) PTE_U) PTE_V)].

(** *** kern/debug/stab.h *)

Definition stab_types : list (string * Z) :=
  [("GSYM", 0x20); ("FNAME", 0x22); ("FUN", 0x24); ("STSYM", 0x26); ("LCSYM", 0x28); ("MAIN", 0x2a);
   ("PC", 0x30); ("RSYM", 0x40); ("SLINE", 0x44); ("DSLINE", 0x46); ("BSLINE", 0x48);
   ("SSYM", 0x60); ("SO", 0x64); ("LSYM", 0x80); ("BINCL", 0x82); ("SOL", 0x84); ("PSYM", 0xa0);
   ("EINCL", 0xa2); ("ENTRY", 0xa4); ("LBRAC", 0xc0); ("EXCL", 0xc2); ("RBRAC", 0xe0);
   ("BCOMM", 0xe2); ("ECOMM", 0xe4); ("ECOML", 0xe8); ("LENG", 0xfe)].

(** An entry of the symbol table: a [uint32_t], two [uint8_t], a [uint16_t] and
    a [uintptr_t]. *)
Record stab : Type := Stab { n_strx : Z; n_type : Z; n_other : Z; n_desc : Z; n_value : Z }.

(** *** verif/asm-offsets.c: the constants handed to the Racket
    specifications. *)
Definition asm_offsets `{Build} : list (string * Z) :=
  [("KSTACKSIZE", KSTACKSIZE); ("IRQ_S_TIMER", IRQ_S_TIMER); ("NPAGE", NPAGE);
   ("PG_RESERVED", PG_reserved); ("PG_ALLOCATED", PG_allocated); ("NULLPAGE", NULLPAGE)].

(** ** Opcodes: [MATCH_] and [MASK_] *)

(** Integer and multiplication instructions, 32 and 64 bits. *)
Definition opcodes_base : list (string * (Z * Z)) :=
  [
   ("BEQ", (0x63, 0x707f)); ("BNE", (0x1063, 0x707f)); ("BLT", (0x4063, 0x707f));
   ("BGE", (0x5063, 0x707f)); ("BLTU", (0x6063, 0x707f)); ("BGEU", (0x7063, 0x707f));
   ("JALR", (0x67, 0x707f)); ("JAL", (0x6f, 0x7f)); ("LUI", (0x37, 0x7f)); ("AUIPC", (0x17, 0x7f));
   ("ADDI", (0x13, 0x707f)); ("SLLI", (0x1013, 0xfc00707f)); ("SLTI", (0x2013, 0x707f));
   ("SLTIU", (0x3013, 0x707f)); ("XORI", (0x4013, 0x707f)); ("SRLI", (0x5013, 0xfc00707f));
   ("SRAI", (0x40005013, 0xfc00707f)); ("ORI", (0x6013, 0x707f)); ("ANDI", (0x7013, 0x707f));
   ("ADD", (0x33, 0xfe00707f)); ("SUB", (0x40000033, 0xfe00707f)); ("SLL", (0x1033, 0xfe00707f));
   ("SLT", (0x2033, 0xfe00707f)); ("SLTU", (0x3033, 0xfe00707f)); ("XOR", (0x4033, 0xfe00707f));
   ("SRL", (0x5033, 0xfe00707f)); ("SRA", (0x40005033, 0xfe00707f)); ("OR", (0x6033, 0xfe00707f));
   ("AND", (0x7033, 0xfe00707f)); ("ADDIW", (0x1b, 0x707f)); ("SLLIW", (0x101b, 0xfe00707f));
   ("SRLIW", (0x501b, 0xfe00707f)); ("SRAIW", (0x4000501b, 0xfe00707f));
   ("ADDW", (0x3b, 0xfe00707f)); ("SUBW", (0x4000003b, 0xfe00707f));
   ("SLLW", (0x103b, 0xfe00707f)); ("SRLW", (0x503b, 0xfe00707f));
   ("SRAW", (0x4000503b, 0xfe00707f)); ("LB", (0x3, 0x707f)); ("LH", (0x1003, 0x707f));
   ("LW", (0x2003, 0x707f)); ("LD", (0x3003, 0x707f)); ("LBU", (0x4003, 0x707f));
   ("LHU", (0x5003, 0x707f)); ("LWU", (0x6003, 0x707f)); ("SB", (0x23, 0x707f));
   ("SH", (0x1023, 0x707f)); ("SW", (0x2023, 0x707f)); ("SD", (0x3023, 0x707f));
   ("FENCE", (0xf, 0x707f)); ("FENCE_I", (0x100f, 0x707f)); ("MUL", (0x2000033, 0xfe00707f));
   ("MULH", (0x2001033, 0xfe00707f)); ("MULHSU", (0x2002033, 0xfe00707f));
   ("MULHU", (0x2003033, 0xfe00707f)); ("DIV", (0x2004033, 0xfe00707f));
   ("DIVU", (0x2005033, 0xfe00707f)); ("REM", (0x2006033, 0xfe00707f));
   ("REMU", (0x2007033, 0xfe00707f)); ("MULW", (0x200003b, 0xfe00707f));
   ("DIVW", (0x200403b, 0xfe00707f)); ("DIVUW", (0x200503b, 0xfe00707f));
   ("REMW", (0x200603b, 0xfe00707f)); ("REMUW", (0x200703b, 0xfe00707f))
  ].

(** Atomics and system instructions. *)
Definition opcodes_system : list (string * (Z * Z)) :=
  [
   ("AMOADD_W", (0x202f, 0xf800707f)); ("AMOXOR_W", (0x2000202f, 0xf800707f));
   ("AMOOR_W", (0x4000202f, 0xf800707f)); ("AMOAND_W", (0x6000202f, 0xf800707f));
   ("AMOMIN_W", (0x8000202f, 0xf800707f)); ("AMOMAX_W", (0xa000202f, 0xf800707f));
   ("AMOMINU_W", (0xc000202f, 0xf800707f)); ("AMOMAXU_W", (0xe000202f, 0xf800707f));
   ("AMOSWAP_W", (0x800202f, 0xf800707f)); ("LR_W", (0x1000202f, 0xf9f0707f));
   ("SC_W", (0x1800202f, 0xf800707f)); ("AMOADD_D", (0x302f, 0xf800707f));
   ("AMOXOR_D", (0x2000302f, 0xf800707f)); ("AMOOR_D", (0x4000302f, 0xf800707f));
   ("AMOAND_D", (0x6000302f, 0xf800707f)); ("AMOMIN_D", (0x8000302f, 0xf800707f));
   ("AMOMAX_D", (0xa000302f, 0xf800707f)); ("AMOMINU_D", (0xc000302f, 0xf800707f));
   ("AMOMAXU_D", (0xe000302f, 0xf800707f)); ("AMOSWAP_D", (0x800302f, 0xf800707f));
   ("LR_D", (0x1000302f, 0xf9f0707f)); ("SC_D", (0x1800302f, 0xf800707f));
   ("ECALL", (0x73, 0xffffffff)); ("EBREAK", (0x100073, 0xffffffff));
   ("URET", (0x200073, 0xffffffff)); ("SRET", (0x10200073, 0xffffffff));
   ("HRET", (0x20200073, 0xffffffff)); ("MRET", (0x30200073, 0xffffffff));
   ("DRET", (0x7b200073, 0xffffffff)); ("SFENCE_VM", (0x10400073, 0xfff07fff));
   ("WFI", (0x10500073, 0xffffffff)); ("CSRRW", (0x1073, 0x707f)); ("CSRRS", (0x2073, 0x707f));
   ("CSRRC", (0x3073, 0x707f)); ("CSRRWI", (0x5073, 0x707f)); ("CSRRSI", (0x6073, 0x707f));
   ("CSRRCI", (0x7073, 0x707f))
  ].

(** Floating point. *)
Definition opcodes_float : list (string * (Z * Z)) :=
  [
   ("FADD_S", (0x53, 0xfe00007f)); ("FSUB_S", (0x8000053, 0xfe00007f));
   ("FMUL_S", (0x10000053, 0xfe00007f)); ("FDIV_S", (0x18000053, 0xfe00007f));
   ("FSGNJ_S", (0x20000053, 0xfe00707f)); ("FSGNJN_S", (0x20001053, 0xfe00707f));
   ("FSGNJX_S", (0x20002053, 0xfe00707f)); ("FMIN_S", (0x28000053, 0xfe00707f));
   ("FMAX_S", (0x28001053, 0xfe00707f)); ("FSQRT_S", (0x58000053, 0xfff0007f));
   ("FADD_D", (0x2000053, 0xfe00007f)); ("FSUB_D", (0xa000053, 0xfe00007f));
   ("FMUL_D", (0x12000053, 0xfe00007f)); ("FDIV_D", (0x1a000053, 0xfe00007f));
   ("FSGNJ_D", (0x22000053, 0xfe00707f)); ("FSGNJN_D", (0x22001053, 0xfe00707f));
   ("FSGNJX_D", (0x22002053, 0xfe00707f)); ("FMIN_D", (0x2a000053, 0xfe00707f));
   ("FMAX_D", (0x2a001053, 0xfe00707f)); ("FCVT_S_D", (0x40100053, 0xfff0007f));
   ("FCVT_D_S", (0x42000053, 0xfff0007f)); ("FSQRT_D", (0x5a000053, 0xfff0007f));
   ("FLE_S", (0xa0000053, 0xfe00707f)); ("FLT_S", (0xa0001053, 0xfe00707f));
   ("FEQ_S", (0xa0002053, 0xfe00707f)); ("FLE_D", (0xa2000053, 0xfe00707f));
   ("FLT_D", (0xa2001053, 0xfe00707f)); ("FEQ_D", (0xa2002053, 0xfe00707f));
   ("FCVT_W_S", (0xc0000053, 0xfff0007f)); ("FCVT_WU_S", (0xc0100053, 0xfff0007f));
   ("FCVT_L_S", (0xc0200053, 0xfff0007f)); ("FCVT_LU_S", (0xc0300053, 0xfff0007f));
   ("FMV_X_S", (0xe0000053, 0xfff0707f)); ("FCLASS_S", (0xe0001053, 0xfff0707f));
   ("FCVT_W_D", (0xc2000053, 0xfff0007f)); ("FCVT_WU_D", (0xc2100053, 0xfff0007f));
   ("FCVT_L_D", (0xc2200053, 0xfff0007f)); ("FCVT_LU_D", (0xc2300053, 0xfff0007f));
   ("FMV_X_D", (0xe2000053, 0xfff0707f)); ("FCLASS_D", (0xe2001053, 0xfff0707f));
   ("FCVT_S_W", (0xd0000053, 0xfff0007f)); ("FCVT_S_WU", (0xd0100053, 0xfff0007f));
   ("FCVT_S_L", (0xd0200053, 0xfff0007f)); ("FCVT_S_LU", (0xd0300053, 0xfff0007f));
   ("FMV_S_X", (0xf0000053, 0xfff0707f)); ("FCVT_D_W", (0xd2000053, 0xfff0007f));
   ("FCVT_D_WU", (0xd2100053, 0xfff0007f)); ("FCVT_D_L", (0xd2200053, 0xfff0007f));
   ("FCVT_D_LU", (0xd2300053, 0xfff0007f)); ("FMV_D_X", (0xf2000053, 0xfff0707f));
   ("FLW", (0x2007, 0x707f)); ("FLD", (0x3007, 0x707f)); ("FSW", (0x2027, 0x707f));
   ("FSD", (0x3027, 0x707f)); ("FMADD_S", (0x43, 0x600007f)); ("FMSUB_S", (0x47, 0x600007f));
   ("FNMSUB_S", (0x4b, 0x600007f)); ("FNMADD_S", (0x4f, 0x600007f));
   ("FMADD_D", (0x2000043, 0x600007f)); ("FMSUB_D", (0x2000047, 0x600007f));
   ("FNMSUB_D", (0x200004b, 0x600007f)); ("FNMADD_D", (0x200004f, 0x600007f))
  ].

(** Compressed instructions. *)
Definition opcodes_compressed : list (string * (Z * Z)) :=
  [
   ("C_NOP", (0x1, 0xffff)); ("C_ADDI16SP", (0x6101, 0xef83)); ("C_JR", (0x8002, 0xf07f));
   ("C_JALR", (0x9002, 0xf07f)); ("C_EBREAK", (0x9002, 0xffff)); ("C_LD", (0x6000, 0xe003));
   ("C_SD", (0xe000, 0xe003)); ("C_ADDIW", (0x2001, 0xe003)); ("C_LDSP", (0x6002, 0xe003));
   ("C_SDSP", (0xe002, 0xe003)); ("C_ADDI4SPN", (0x0, 0xe003)); ("C_FLD", (0x2000, 0xe003));
   ("C_LW", (0x4000, 0xe003)); ("C_FLW", (0x6000, 0xe003)); ("C_FSD", (0xa000, 0xe003));
   ("C_SW", (0xc000, 0xe003)); ("C_FSW", (0xe000, 0xe003)); ("C_ADDI", (0x1, 0xe003));
   ("C_JAL", (0x2001, 0xe003)); ("C_LI", (0x4001, 0xe003)); ("C_LUI", (0x6001, 0xe003));
   ("C_SRLI", (0x8001, 0xec03)); ("C_SRAI", (0x8401, 0xec03)); ("C_ANDI", (0x8801, 0xec03));
   ("C_SUB", (0x8c01, 0xfc63)); ("C_XOR", (0x8c21, 0xfc63)); ("C_OR", (0x8c41, 0xfc63));
   ("C_AND", (0x8c61, 0xfc63)); ("C_SUBW", (0x9c01, 0xfc63)); ("C_ADDW", (0x9c21, 0xfc63));
   ("C_J", (0xa001, 0xe003)); ("C_BEQZ", (0xc001, 0xe003)); ("C_BNEZ", (0xe001, 0xe003));
   ("C_SLLI", (0x2, 0xe003)); ("C_FLDSP", (0x2002, 0xe003)); ("C_LWSP", (0x4002, 0xe003));
   ("C_FLWSP", (0x6002, 0xe003)); ("C_MV", (0x8002, 0xf003)); ("C_ADD", (0x9002, 0xf003));
   ("C_FSDSP", (0xa002, 0xe003)); ("C_SWSP", (0xc002, 0xe003)); ("C_FSWSP", (0xe002, 0xe003))
  ].

(** Custom opcodes. *)
Definition opcodes_custom : list (string * (Z * Z)) :=
  [
   ("CUSTOM0", (0xb, 0x707f)); ("CUSTOM0_RS1", (0x200b, 0x707f));
   ("CUSTOM0_RS1_RS2", (0x300b, 0x707f)); ("CUSTOM0_RD", (0x400b, 0x707f));
   ("CUSTOM0_RD_RS1", (0x600b, 0x707f)); ("CUSTOM0_RD_RS1_RS2", (0x700b, 0x707f));
   ("CUSTOM1", (0x2b, 0x707f)); ("CUSTOM1_RS1", (0x202b, 0x707f));
   ("CUSTOM1_RS1_RS2", (0x302b, 0x707f)); ("CUSTOM1_RD", (0x402b, 0x707f));
   ("CUSTOM1_RD_RS1", (0x602b, 0x707f)); ("CUSTOM1_RD_RS1_RS2", (0x702b, 0x707f));
   ("CUSTOM2", (0x5b, 0x707f)); ("CUSTOM2_RS1", (0x205b, 0x707f));
   ("CUSTOM2_RS1_RS2", (0x305b, 0x707f)); ("CUSTOM2_RD", (0x405b, 0x707f));
   ("CUSTOM2_RD_RS1", (0x605b, 0x707f)); ("CUSTOM2_RD_RS1_RS2", (0x705b, 0x707f));
   ("CUSTOM3", (0x7b, 0x707f)); ("CUSTOM3_RS1", (0x207b, 0x707f));
   ("CUSTOM3_RS1_RS2", (0x307b, 0x707f)); ("CUSTOM3_RD", (0x407b, 0x707f));
   ("CUSTOM3_RD_RS1", (0x607b, 0x707f)); ("CUSTOM3_RD_RS1_RS2", (0x707b, 0x707f))
  ].

(** ** The instructions: [DECLARE_INSN] *)

Definition declared_base : list (string * string * string) :=
  [
   ("beq", "BEQ", "BEQ"); ("bne", "BNE", "BNE"); ("blt", "BLT", "BLT"); ("bge", "BGE", "BGE");
   ("bltu", "BLTU", "BLTU"); ("bgeu", "BGEU", "BGEU"); ("jalr", "JALR", "JALR");
   ("jal", "JAL", "JAL"); ("lui", "LUI", "LUI"); ("auipc", "AUIPC", "AUIPC");
   ("addi", "ADDI", "ADDI"); ("slli", "SLLI", "SLLI"); ("slti", "SLTI", "SLTI");
   ("sltiu", "SLTIU", "SLTIU"); ("xori", "XORI", "XORI"); ("srli", "SRLI", "SRLI");
   ("srai", "SRAI", "SRAI"); ("ori", "ORI", "ORI"); ("andi", "ANDI", "ANDI");
   ("add", "ADD", "ADD"); ("sub", "SUB", "SUB"); ("sll", "SLL", "SLL"); ("slt", "SLT", "SLT");
   ("sltu", "SLTU", "SLTU"); ("xor", "XOR", "XOR"); ("srl", "SRL", "SRL"); ("sra", "SRA", "SRA");
   ("or", "OR", "OR"); ("and", "AND", "AND"); ("addiw", "ADDIW", "ADDIW");
   ("slliw", "SLLIW", "SLLIW"); ("srliw", "SRLIW", "SRLIW"); ("sraiw", "SRAIW", "SRAIW");
   ("addw", "ADDW", "ADDW"); ("subw", "SUBW", "SUBW"); ("sllw", "SLLW", "SLLW");
   ("srlw", "SRLW", "SRLW"); ("sraw", "SRAW", "SRAW"); ("lb", "LB", "LB"); ("lh", "LH", "LH");
   ("lw", "LW", "LW"); ("ld", "LD", "LD"); ("lbu", "LBU", "LBU"); ("lhu", "LHU", "LHU");
   ("lwu", "LWU", "LWU"); ("sb", "SB", "SB"); ("sh", "SH", "SH"); ("sw", "SW", "SW");
   ("sd", "SD", "SD"); ("fence", "FENCE", "FENCE"); ("fence_i", "FENCE_I", "FENCE_I");
   ("mul", "MUL", "MUL"); ("mulh", "MULH", "MULH"); ("mulhsu", "MULHSU", "MULHSU");
   ("mulhu", "MULHU", "MULHU"); ("div", "DIV", "DIV"); ("divu", "DIVU", "DIVU");
   ("rem", "REM", "REM"); ("remu", "REMU", "REMU"); ("mulw", "MULW", "MULW");
   ("divw", "DIVW", "DIVW"); ("divuw", "DIVUW", "DIVUW"); ("remw", "REMW", "REMW");
   ("remuw", "REMUW", "REMUW")
  ].

Definition declared_system : list (string * string * string) :=
  [
   ("amoadd_w", "AMOADD_W", "AMOADD_W"); ("amoxor_w", "AMOXOR_W", "AMOXOR_W");
   ("amoor_w", "AMOOR_W", "AMOOR_W"); ("amoand_w", "AMOAND_W", "AMOAND_W");
   ("amomin_w", "AMOMIN_W", "AMOMIN_W"); ("amomax_w", "AMOMAX_W", "AMOMAX_W");
   ("amominu_w", "AMOMINU_W", "AMOMINU_W"); ("amomaxu_w", "AMOMAXU_W", "AMOMAXU_W");
   ("amoswap_w", "AMOSWAP_W", "AMOSWAP_W"); ("lr_w", "LR_W", "LR_W"); ("sc_w", "SC_W", "SC_W");
   ("amoadd_d", "AMOADD_D", "AMOADD_D"); ("amoxor_d", "AMOXOR_D", "AMOXOR_D");
   ("amoor_d", "AMOOR_D", "AMOOR_D"); ("amoand_d", "AMOAND_D", "AMOAND_D");
   ("amomin_d", "AMOMIN_D", "AMOMIN_D"); ("amomax_d", "AMOMAX_D", "AMOMAX_D");
   ("amominu_d", "AMOMINU_D", "AMOMINU_D"); ("amomaxu_d", "AMOMAXU_D", "AMOMAXU_D");
   ("amoswap_d", "AMOSWAP_D", "AMOSWAP_D"); ("lr_d", "LR_D", "LR_D"); ("sc_d", "SC_D", "SC_D");
   ("ecall", "ECALL", "ECALL"); ("ebreak", "EBREAK", "EBREAK"); ("uret", "URET", "URET");
   ("sret", "SRET", "SRET"); ("hret", "HRET", "HRET"); ("mret", "MRET", "MRET");
   ("dret", "DRET", "DRET"); ("sfence_vm", "SFENCE_VM", "SFENCE_VM"); ("wfi", "WFI", "WFI");
   ("csrrw", "CSRRW", "CSRRW"); ("csrrs", "CSRRS", "CSRRS"); ("csrrc", "CSRRC", "CSRRC");
   ("csrrwi", "CSRRWI", "CSRRWI"); ("csrrsi", "CSRRSI", "CSRRSI"); ("csrrci", "CSRRCI", "CSRRCI")
  ].

Definition declared_float : list (string * string * string) :=
  [
   ("fadd_s", "FADD_S", "FADD_S"); ("fsub_s", "FSUB_S", "FSUB_S"); ("fmul_s", "FMUL_S", "FMUL_S");
   ("fdiv_s", "FDIV_S", "FDIV_S"); ("fsgnj_s", "FSGNJ_S", "FSGNJ_S");
   ("fsgnjn_s", "FSGNJN_S", "FSGNJN_S"); ("fsgnjx_s", "FSGNJX_S", "FSGNJX_S");
   ("fmin_s", "FMIN_S", "FMIN_S"); ("fmax_s", "FMAX_S", "FMAX_S");
   ("fsqrt_s", "FSQRT_S", "FSQRT_S"); ("fadd_d", "FADD_D", "FADD_D");
   ("fsub_d", "FSUB_D", "FSUB_D"); ("fmul_d", "FMUL_D", "FMUL_D"); ("fdiv_d", "FDIV_D", "FDIV_D");
   ("fsgnj_d", "FSGNJ_D", "FSGNJ_D"); ("fsgnjn_d", "FSGNJN_D", "FSGNJN_D");
   ("fsgnjx_d", "FSGNJX_D", "FSGNJX_D"); ("fmin_d", "FMIN_D", "FMIN_D");
   ("fmax_d", "FMAX_D", "FMAX_D"); ("fcvt_s_d", "FCVT_S_D", "FCVT_S_D");
   ("fcvt_d_s", "FCVT_D_S", "FCVT_D_S"); ("fsqrt_d", "FSQRT_D", "FSQRT_D");
   ("fle_s", "FLE_S", "FLE_S"); ("flt_s", "FLT_S", "FLT_S"); ("feq_s", "FEQ_S", "FEQ_S");
   ("fle_d", "FLE_D", "FLE_D"); ("flt_d", "FLT_D", "FLT_D"); ("feq_d", "FEQ_D", "FEQ_D");
   ("fcvt_w_s", "FCVT_W_S", "FCVT_W_S"); ("fcvt_wu_s", "FCVT_WU_S", "FCVT_WU_S");
   ("fcvt_l_s", "FCVT_L_S", "FCVT_L_S"); ("fcvt_lu_s", "FCVT_LU_S", "FCVT_LU_S");
   ("fmv_x_s", "FMV_X_S", "FMV_X_S"); ("fclass_s", "FCLASS_S", "FCLASS_S");
   ("fcvt_w_d", "FCVT_W_D", "FCVT_W_D"); ("fcvt_wu_d", "FCVT_WU_D", "FCVT_WU_D");
   ("fcvt_l_d", "FCVT_L_D", "FCVT_L_D"); ("fcvt_lu_d", "FCVT_LU_D", "FCVT_LU_D");
   ("fmv_x_d", "FMV_X_D", "FMV_X_D"); ("fclass_d", "FCLASS_D", "FCLASS_D");
   ("fcvt_s_w", "FCVT_S_W", "FCVT_S_W"); ("fcvt_s_wu", "FCVT_S_WU", "FCVT_S_WU");
   ("fcvt_s_l", "FCVT_S_L", "FCVT_S_L"); ("fcvt_s_lu", "FCVT_S_LU", "FCVT_S_LU");
   ("fmv_s_x", "FMV_S_X", "FMV_S_X"); ("fcvt_d_w", "FCVT_D_W", "FCVT_D_W");
   ("fcvt_d_wu", "FCVT_D_WU", "FCVT_D_WU"); ("fcvt_d_l", "FCVT_D_L", "FCVT_D_L");
   ("fcvt_d_lu", "FCVT_D_LU", "FCVT_D_LU"); ("fmv_d_x", "FMV_D_X", "FMV_D_X");
   ("flw", "FLW", "FLW"); ("fld", "FLD", "FLD"); ("fsw", "FSW", "FSW"); ("fsd", "FSD", "FSD");
   ("fmadd_s", "FMADD_S", "FMADD_S"); ("fmsub_s", "FMSUB_S", "FMSUB_S");
   ("fnmsub_s", "FNMSUB_S", "FNMSUB_S"); ("fnmadd_s", "FNMADD_S", "FNMADD_S");
   ("fmadd_d", "FMADD_D", "FMADD_D"); ("fmsub_d", "FMSUB_D", "FMSUB_D");
   ("fnmsub_d", "FNMSUB_D", "FNMSUB_D"); ("fnmadd_d", "FNMADD_D", "FNMADD_D")
  ].

Definition declared_compressed : list (string * string * string) :=
  [
   ("c_nop", "C_NOP", "C_NOP"); ("c_addi16sp", "C_ADDI16SP", "C_ADDI16SP");
   ("c_jr", "C_JR", "C_JR"); ("c_jalr", "C_JALR", "C_JALR"); ("c_ebreak", "C_EBREAK", "C_EBREAK");
   ("c_ld", "C_LD", "C_LD"); ("c_sd", "C_SD", "C_SD"); ("c_addiw", "C_ADDIW", "C_ADDIW");
   ("c_ldsp", "C_LDSP", "C_LDSP"); ("c_sdsp", "C_SDSP", "C_SDSP");
   ("c_addi4spn", "C_ADDI4SPN", "C_ADDI4SPN"); ("c_fld", "C_FLD", "C_FLD");
   ("c_lw", "C_LW", "C_LW"); ("c_flw", "C_FLW", "C_FLW"); ("c_fsd", "C_FSD", "C_FSD");
   ("c_sw", "C_SW", "C_SW"); ("c_fsw", "C_FSW", "C_FSW"); ("c_addi", "C_ADDI", "C_ADDI");
   ("c_jal", "C_JAL", "C_JAL"); ("c_li", "C_LI", "C_LI"); ("c_lui", "C_LUI", "C_LUI");
   ("c_srli", "C_SRLI", "C_SRLI"); ("c_srai", "C_SRAI", "C_SRAI"); ("c_andi", "C_ANDI", "C_ANDI");
   ("c_sub", "C_SUB", "C_SUB"); ("c_xor", "C_XOR", "C_XOR"); ("c_or", "C_OR", "C_OR");
   ("c_and", "C_AND", "C_AND"); ("c_subw", "C_SUBW", "C_SUBW"); ("c_addw", "C_ADDW", "C_ADDW");
   ("c_j", "C_J", "C_J"); ("c_beqz", "C_BEQZ", "C_BEQZ"); ("c_bnez", "C_BNEZ", "C_BNEZ");
   ("c_slli", "C_SLLI", "C_SLLI"); ("c_fldsp", "C_FLDSP", "C_FLDSP");
   ("c_lwsp", "C_LWSP", "C_LWSP"); ("c_flwsp", "C_FLWSP", "C_FLWSP"); ("c_mv", "C_MV", "C_MV");
   ("c_add", "C_ADD", "C_ADD"); ("c_fsdsp", "C_FSDSP", "C_FSDSP"); ("c_swsp", "C_SWSP", "C_SWSP");
   ("c_fswsp", "C_FSWSP", "C_FSWSP")
  ].

Definition declared_custom : list (string * string * string) :=
  [
   ("custom0", "CUSTOM0", "CUSTOM0"); ("custom0_rs1", "CUSTOM0_RS1", "CUSTOM0_RS1");
   ("custom0_rs1_rs2", "CUSTOM0_RS1_RS2", "CUSTOM0_RS1_RS2");
   ("custom0_rd", "CUSTOM0_RD", "CUSTOM0_RD");
   ("custom0_rd_rs1", "CUSTOM0_RD_RS1", "CUSTOM0_RD_RS1");
   ("custom0_rd_rs1_rs2", "CUSTOM0_RD_RS1_RS2", "CUSTOM0_RD_RS1_RS2");
   ("custom1", "CUSTOM1", "CUSTOM1"); ("custom1_rs1", "CUSTOM1_RS1", "CUSTOM1_RS1");
   ("custom1_rs1_rs2", "CUSTOM1_RS1_RS2", "CUSTOM1_RS1_RS2");
   ("custom1_rd", "CUSTOM1_RD", "CUSTOM1_RD");
   ("custom1_rd_rs1", "CUSTOM1_RD_RS1", "CUSTOM1_RD_RS1");
   ("custom1_rd_rs1_rs2", "CUSTOM1_RD_RS1_RS2", "CUSTOM1_RD_RS1_RS2");
   ("custom2", "CUSTOM2", "CUSTOM2"); ("custom2_rs1", "CUSTOM2_RS1", "CUSTOM2_RS1");
   ("custom2_rs1_rs2", "CUSTOM2_RS1_RS2", "CUSTOM2_RS1_RS2");
   ("custom2_rd", "CUSTOM2_RD", "CUSTOM2_RD");
   ("custom2_rd_rs1", "CUSTOM2_RD_RS1", "CUSTOM2_RD_RS1");
   ("custom2_rd_rs1_rs2", "CUSTOM2_RD_RS1_RS2", "CUSTOM2_RD_RS1_RS2");
   ("custom3", "CUSTOM3", "CUSTOM3"); ("custom3_rs1", "CUSTOM3_RS1", "CUSTOM3_RS1");
   ("custom3_rs1_rs2", "CUSTOM3_RS1_RS2", "CUSTOM3_RS1_RS2");
   ("custom3_rd", "CUSTOM3_RD", "CUSTOM3_RD");
   ("custom3_rd_rs1", "CUSTOM3_RD_RS1", "CUSTOM3_RD_RS1");
   ("custom3_rd_rs1_rs2", "CUSTOM3_RD_RS1_RS2", "CUSTOM3_RD_RS1_RS2")
  ].

(** ** Register numbers: [CSR_] *)

(** User counters and floating-point state. *)
Definition csr_numbers_user : list (string * Z) :=
  [
   ("FFLAGS", 0x1); ("FRM", 0x2); ("FCSR", 0x3); ("CYCLE", 0xc00); ("TIME", 0xc01);
   ("INSTRET", 0xc02); ("HPMCOUNTER3", 0xc03); ("HPMCOUNTER4", 0xc04); ("HPMCOUNTER5", 0xc05);
   ("HPMCOUNTER6", 0xc06); ("HPMCOUNTER7", 0xc07); ("HPMCOUNTER8", 0xc08); ("HPMCOUNTER9", 0xc09);
   ("HPMCOUNTER10", 0xc0a); ("HPMCOUNTER11", 0xc0b); ("HPMCOUNTER12", 0xc0c);
   ("HPMCOUNTER13", 0xc0d); ("HPMCOUNTER14", 0xc0e); ("HPMCOUNTER15", 0xc0f);
   ("HPMCOUNTER16", 0xc10); ("HPMCOUNTER17", 0xc11); ("HPMCOUNTER18", 0xc12);
   ("HPMCOUNTER19", 0xc13); ("HPMCOUNTER20", 0xc14); ("HPMCOUNTER21", 0xc15);
   ("HPMCOUNTER22", 0xc16); ("HPMCOUNTER23", 0xc17); ("HPMCOUNTER24", 0xc18);
   ("HPMCOUNTER25", 0xc19); ("HPMCOUNTER26", 0xc1a); ("HPMCOUNTER27", 0xc1b);
   ("HPMCOUNTER28", 0xc1c); ("HPMCOUNTER29", 0xc1d); ("HPMCOUNTER30", 0xc1e);
   ("HPMCOUNTER31", 0xc1f)
  ].

(** Supervisor registers. *)
Definition csr_numbers_supervisor : list (string * Z) :=
  [
   ("SSTATUS", 0x100); ("SIE", 0x104); ("STVEC", 0x105); ("SSCRATCH", 0x140); ("SEPC", 0x141);
   ("SCAUSE", 0x142); ("SBADADDR", 0x143); ("SIP", 0x144); ("SATP", 0x180)
  ].

(** Machine and debug registers. *)
Definition csr_numbers_machine : list (string * Z) :=
  [
   ("MSTATUS", 0x300); ("MISA", 0x301); ("MEDELEG", 0x302); ("MIDELEG", 0x303); ("MIE", 0x304);
   ("MTVEC", 0x305); ("MSCRATCH", 0x340); ("MEPC", 0x341); ("MCAUSE", 0x342); ("MBADADDR", 0x343);
   ("MIP", 0x344); ("TSELECT", 0x7a0); ("TDATA1", 0x7a1); ("TDATA2", 0x7a2); ("TDATA3", 0x7a3);
   ("DCSR", 0x7b0); ("DPC", 0x7b1); ("DSCRATCH", 0x7b2)
  ].

(** Machine counters. *)
Definition csr_numbers_machine_counters : list (string * Z) :=
  [
   ("MCYCLE", 0xb00); ("MINSTRET", 0xb02); ("MHPMCOUNTER3", 0xb03); ("MHPMCOUNTER4", 0xb04);
   ("MHPMCOUNTER5", 0xb05); ("MHPMCOUNTER6", 0xb06); ("MHPMCOUNTER7", 0xb07);
   ("MHPMCOUNTER8", 0xb08); ("MHPMCOUNTER9", 0xb09); ("MHPMCOUNTER10", 0xb0a);
   ("MHPMCOUNTER11", 0xb0b); ("MHPMCOUNTER12", 0xb0c); ("MHPMCOUNTER13", 0xb0d);
   ("MHPMCOUNTER14", 0xb0e); ("MHPMCOUNTER15", 0xb0f); ("MHPMCOUNTER16", 0xb10);
   ("MHPMCOUNTER17", 0xb11); ("MHPMCOUNTER18", 0xb12); ("MHPMCOUNTER19", 0xb13);
   ("MHPMCOUNTER20", 0xb14); ("MHPMCOUNTER21", 0xb15); ("MHPMCOUNTER22", 0xb16);
   ("MHPMCOUNTER23", 0xb17); ("MHPMCOUNTER24", 0xb18); ("MHPMCOUNTER25", 0xb19);
   ("MHPMCOUNTER26", 0xb1a); ("MHPMCOUNTER27", 0xb1b); ("MHPMCOUNTER28", 0xb1c);
   ("MHPMCOUNTER29", 0xb1d); ("MHPMCOUNTER30", 0xb1e); ("MHPMCOUNTER31", 0xb1f)
  ].

(** Machine counter set-up and identification. *)
Definition csr_numbers_machine_events : list (string * Z) :=
  [
   ("MUCOUNTEREN", 0x320); ("MSCOUNTEREN", 0x321); ("MHPMEVENT3", 0x323); ("MHPMEVENT4", 0x324);
   ("MHPMEVENT5", 0x325); ("MHPMEVENT6", 0x326); ("MHPMEVENT7", 0x327); ("MHPMEVENT8", 0x328);
   ("MHPMEVENT9", 0x329); ("MHPMEVENT10", 0x32a); ("MHPMEVENT11", 0x32b); ("MHPMEVENT12", 0x32c);
   ("MHPMEVENT13", 0x32d); ("MHPMEVENT14", 0x32e); ("MHPMEVENT15", 0x32f); ("MHPMEVENT16", 0x330);
   ("MHPMEVENT17", 0x331); ("MHPMEVENT18", 0x332); ("MHPMEVENT19", 0x333); ("MHPMEVENT20", 0x334);
   ("MHPMEVENT21", 0x335); ("MHPMEVENT22", 0x336); ("MHPMEVENT23", 0x337); ("MHPMEVENT24", 0x338);
   ("MHPMEVENT25", 0x339); ("MHPMEVENT26", 0x33a); ("MHPMEVENT27", 0x33b); ("MHPMEVENT28", 0x33c);
   ("MHPMEVENT29", 0x33d); ("MHPMEVENT30", 0x33e); ("MHPMEVENT31", 0x33f); ("MVENDORID", 0xf11);
   ("MARCHID", 0xf12); ("MIMPID", 0xf13); ("MHARTID", 0xf14)
  ].

(** High halves of the counters, on 32-bit machines. *)
Definition csr_numbers_high : list (string * Z) :=
  [
   ("CYCLEH", 0xc80); ("TIMEH", 0xc81); ("INSTRETH", 0xc82); ("HPMCOUNTER3H", 0xc83);
   ("HPMCOUNTER4H", 0xc84); ("HPMCOUNTER5H", 0xc85); ("HPMCOUNTER6H", 0xc86);
   ("HPMCOUNTER7H", 0xc87); ("HPMCOUNTER8H", 0xc88); ("HPMCOUNTER9H", 0xc89);
   ("HPMCOUNTER10H", 0xc8a); ("HPMCOUNTER11H", 0xc8b); ("HPMCOUNTER12H", 0xc8c);
   ("HPMCOUNTER13H", 0xc8d); ("HPMCOUNTER14H", 0xc8e); ("HPMCOUNTER15H", 0xc8f);
   ("HPMCOUNTER16H", 0xc90); ("HPMCOUNTER17H", 0xc91); ("HPMCOUNTER18H", 0xc92);
   ("HPMCOUNTER19H", 0xc93); ("HPMCOUNTER20H", 0xc94); ("HPMCOUNTER21H", 0xc95);
   ("HPMCOUNTER22H", 0xc96); ("HPMCOUNTER23H", 0xc97); ("HPMCOUNTER24H", 0xc98);
   ("HPMCOUNTER25H", 0xc99); ("HPMCOUNTER26H", 0xc9a); ("HPMCOUNTER27H", 0xc9b);
   ("HPMCOUNTER28H", 0xc9c); ("HPMCOUNTER29H", 0xc9d); ("HPMCOUNTER30H", 0xc9e);
   ("HPMCOUNTER31H", 0xc9f); ("MCYCLEH", 0xb80); ("MINSTRETH", 0xb82); ("MHPMCOUNTER3H", 0xb83);
   ("MHPMCOUNTER4H", 0xb84); ("MHPMCOUNTER5H", 0xb85); ("MHPMCOUNTER6H", 0xb86);
   ("MHPMCOUNTER7H", 0xb87); ("MHPMCOUNTER8H", 0xb88); ("MHPMCOUNTER9H", 0xb89);
   ("MHPMCOUNTER10H", 0xb8a); ("MHPMCOUNTER11H", 0xb8b); ("MHPMCOUNTER12H", 0xb8c);
   ("MHPMCOUNTER13H", 0xb8d); ("MHPMCOUNTER14H", 0xb8e); ("MHPMCOUNTER15H", 0xb8f);
   ("MHPMCOUNTER16H", 0xb90); ("MHPMCOUNTER17H", 0xb91); ("MHPMCOUNTER18H", 0xb92);
   ("MHPMCOUNTER19H", 0xb93); ("MHPMCOUNTER20H", 0xb94); ("MHPMCOUNTER21H", 0xb95);
   ("MHPMCOUNTER22H", 0xb96); ("MHPMCOUNTER23H", 0xb97); ("MHPMCOUNTER24H", 0xb98);
   ("MHPMCOUNTER25H", 0xb99); ("MHPMCOUNTER26H", 0xb9a); ("MHPMCOUNTER27H", 0xb9b);
   ("MHPMCOUNTER28H", 0xb9c); ("MHPMCOUNTER29H", 0xb9d); ("MHPMCOUNTER30H", 0xb9e);
   ("MHPMCOUNTER31H", 0xb9f)
  ].

(** ** The registers: [DECLARE_CSR] *)

Definition declared_csrs_user : list (string * string) :=
  [
   ("fflags", "FFLAGS"); ("frm", "FRM"); ("fcsr", "FCSR"); ("cycle", "CYCLE"); ("time", "TIME");
   ("instret", "INSTRET"); ("hpmcounter3", "HPMCOUNTER3"); ("hpmcounter4", "HPMCOUNTER4");
   ("hpmcounter5", "HPMCOUNTER5"); ("hpmcounter6", "HPMCOUNTER6"); ("hpmcounter7", "HPMCOUNTER7");
   ("hpmcounter8", "HPMCOUNTER8"); ("hpmcounter9", "HPMCOUNTER9");
   ("hpmcounter10", "HPMCOUNTER10"); ("hpmcounter11", "HPMCOUNTER11");
   ("hpmcounter12", "HPMCOUNTER12"); ("hpmcounter13", "HPMCOUNTER13");
   ("hpmcounter14", "HPMCOUNTER14"); ("hpmcounter15", "HPMCOUNTER15");
   ("hpmcounter16", "HPMCOUNTER16"); ("hpmcounter17", "HPMCOUNTER17");
   ("hpmcounter18", "HPMCOUNTER18"); ("hpmcounter19", "HPMCOUNTER19");
   ("hpmcounter20", "HPMCOUNTER20"); ("hpmcounter21", "HPMCOUNTER21");
   ("hpmcounter22", "HPMCOUNTER22"); ("hpmcounter23", "HPMCOUNTER23");
   ("hpmcounter24", "HPMCOUNTER24"); ("hpmcounter25", "HPMCOUNTER25");
   ("hpmcounter26", "HPMCOUNTER26"); ("hpmcounter27", "HPMCOUNTER27");
   ("hpmcounter28", "HPMCOUNTER28"); ("hpmcounter29", "HPMCOUNTER29");
   ("hpmcounter30", "HPMCOUNTER30"); ("hpmcounter31", "HPMCOUNTER31")
  ].

Definition declared_csrs_supervisor : list (string * string) :=
  [
   ("sstatus", "SSTATUS"); ("sie", "SIE"); ("stvec", "STVEC"); ("sscratch", "SSCRATCH");
   ("sepc", "SEPC"); ("scause", "SCAUSE"); ("sbadaddr", "SBADADDR"); ("sip", "SIP");
   ("satp", "SATP")
  ].

Definition declared_csrs_machine : list (string * string) :=
  [
   ("mstatus", "MSTATUS"); ("misa", "MISA"); ("medeleg", "MEDELEG"); ("mideleg", "MIDELEG");
   ("mie", "MIE"); ("mtvec", "MTVEC"); ("mscratch", "MSCRATCH"); ("mepc", "MEPC");
   ("mcause", "MCAUSE"); ("mbadaddr", "MBADADDR"); ("mip", "MIP"); ("tselect", "TSELECT");
   ("tdata1", "TDATA1"); ("tdata2", "TDATA2"); ("tdata3", "TDATA3"); ("dcsr", "DCSR");
   ("dpc", "DPC"); ("dscratch", "DSCRATCH")
  ].

Definition declared_csrs_machine_counters : list (string * string) :=
  [
   ("mcycle", "MCYCLE"); ("minstret", "MINSTRET"); ("mhpmcounter3", "MHPMCOUNTER3");
   ("mhpmcounter4", "MHPMCOUNTER4"); ("mhpmcounter5", "MHPMCOUNTER5");
   ("mhpmcounter6", "MHPMCOUNTER6"); ("mhpmcounter7", "MHPMCOUNTER7");
   ("mhpmcounter8", "MHPMCOUNTER8"); ("mhpmcounter9", "MHPMCOUNTER9");
   ("mhpmcounter10", "MHPMCOUNTER10"); ("mhpmcounter11", "MHPMCOUNTER11");
   ("mhpmcounter12", "MHPMCOUNTER12"); ("mhpmcounter13", "MHPMCOUNTER13");
   ("mhpmcounter14", "MHPMCOUNTER14"); ("mhpmcounter15", "MHPMCOUNTER15");
   ("mhpmcounter16", "MHPMCOUNTER16"); ("mhpmcounter17", "MHPMCOUNTER17");
   ("mhpmcounter18", "MHPMCOUNTER18"); ("mhpmcounter19", "MHPMCOUNTER19");
   ("mhpmcounter20", "MHPMCOUNTER20"); ("mhpmcounter21", "MHPMCOUNTER21");
   ("mhpmcounter22", "MHPMCOUNTER22"); ("mhpmcounter23", "MHPMCOUNTER23");
   ("mhpmcounter24", "MHPMCOUNTER24"); ("mhpmcounter25", "MHPMCOUNTER25");
   ("mhpmcounter26", "MHPMCOUNTER26"); ("mhpmcounter27", "MHPMCOUNTER27");
   ("mhpmcounter28", "MHPMCOUNTER28"); ("mhpmcounter29", "MHPMCOUNTER29");
   ("mhpmcounter30", "MHPMCOUNTER30"); ("mhpmcounter31", "MHPMCOUNTER31")
  ].

Definition declared_csrs_machine_events : list (string * string) :=
  [
   ("mucounteren", "MUCOUNTEREN"); ("mscounteren", "MSCOUNTEREN"); ("mhpmevent3", "MHPMEVENT3");
   ("mhpmevent4", "MHPMEVENT4"); ("mhpmevent5", "MHPMEVENT5"); ("mhpmevent6", "MHPMEVENT6");
   ("mhpmevent7", "MHPMEVENT7"); ("mhpmevent8", "MHPMEVENT8"); ("mhpmevent9", "MHPMEVENT9");
   ("mhpmevent10", "MHPMEVENT10"); ("mhpmevent11", "MHPMEVENT11"); ("mhpmevent12", "MHPMEVENT12");
   ("mhpmevent13", "MHPMEVENT13"); ("mhpmevent14", "MHPMEVENT14"); ("mhpmevent15", "MHPMEVENT15");
   ("mhpmevent16", "MHPMEVENT16"); ("mhpmevent17", "MHPMEVENT17"); ("mhpmevent18", "MHPMEVENT18");
   ("mhpmevent19", "MHPMEVENT19"); ("mhpmevent20", "MHPMEVENT20"); ("mhpmevent21", "MHPMEVENT21");
   ("mhpmevent22", "MHPMEVENT22"); ("mhpmevent23", "MHPMEVENT23"); ("mhpmevent24", "MHPMEVENT24");
   ("mhpmevent25", "MHPMEVENT25"); ("mhpmevent26", "MHPMEVENT26"); ("mhpmevent27", "MHPMEVENT27");
   ("mhpmevent28", "MHPMEVENT28"); ("mhpmevent29", "MHPMEVENT29"); ("mhpmevent30", "MHPMEVENT30");
   ("mhpmevent31", "MHPMEVENT31"); ("mvendorid", "MVENDORID"); ("marchid", "MARCHID");
   ("mimpid", "MIMPID"); ("mhartid", "MHARTID")
  ].

Definition declared_csrs_high : list (string * string) :=
  [
   ("cycleh", "CYCLEH"); ("timeh", "TIMEH"); ("instreth", "INSTRETH");
   ("hpmcounter3h", "HPMCOUNTER3H"); ("hpmcounter4h", "HPMCOUNTER4H");
   ("hpmcounter5h", "HPMCOUNTER5H"); ("hpmcounter6h", "HPMCOUNTER6H");
   ("hpmcounter7h", "HPMCOUNTER7H"); ("hpmcounter8h", "HPMCOUNTER8H");
   ("hpmcounter9h", "HPMCOUNTER9H"); ("hpmcounter10h", "HPMCOUNTER10H");
   ("hpmcounter11h", "HPMCOUNTER11H"); ("hpmcounter12h", "HPMCOUNTER12H");
   ("hpmcounter13h", "HPMCOUNTER13H"); ("hpmcounter14h", "HPMCOUNTER14H");
   ("hpmcounter15h", "HPMCOUNTER15H"); ("hpmcounter16h", "HPMCOUNTER16H");
   ("hpmcounter17h", "HPMCOUNTER17H"); ("hpmcounter18h", "HPMCOUNTER18H");
   ("hpmcounter19h", "HPMCOUNTER19H"); ("hpmcounter20h", "HPMCOUNTER20H");
   ("hpmcounter21h", "HPMCOUNTER21H"); ("hpmcounter22h", "HPMCOUNTER22H");
   ("hpmcounter23h", "HPMCOUNTER23H"); ("hpmcounter24h", "HPMCOUNTER24H");
   ("hpmcounter25h", "HPMCOUNTER25H"); ("hpmcounter26h", "HPMCOUNTER26H");
   ("hpmcounter27h", "HPMCOUNTER27H"); ("hpmcounter28h", "HPMCOUNTER28H");
   ("hpmcounter29h", "HPMCOUNTER29H"); ("hpmcounter30h", "HPMCOUNTER30H");
   ("hpmcounter31h", "HPMCOUNTER31H"); ("mcycleh", "MCYCLEH"); ("minstreth", "MINSTRETH");
   ("mhpmcounter3h", "MHPMCOUNTER3H"); ("mhpmcounter4h", "MHPMCOUNTER4H");
   ("mhpmcounter5h", "MHPMCOUNTER5H"); ("mhpmcounter6h", "MHPMCOUNTER6H");
   ("mhpmcounter7h", "MHPMCOUNTER7H"); ("mhpmcounter8h", "MHPMCOUNTER8H");
   ("mhpmcounter9h", "MHPMCOUNTER9H"); ("mhpmcounter10h", "MHPMCOUNTER10H");
   ("mhpmcounter11h", "MHPMCOUNTER11H"); ("mhpmcounter12h", "MHPMCOUNTER12H");
   ("mhpmcounter13h", "MHPMCOUNTER13H"); ("mhpmcounter14h", "MHPMCOUNTER14H");
   ("mhpmcounter15h", "MHPMCOUNTER15H"); ("mhpmcounter16h", "MHPMCOUNTER16H");
   ("mhpmcounter17h", "MHPMCOUNTER17H"); ("mhpmcounter18h", "MHPMCOUNTER18H");
   ("mhpmcounter19h", "MHPMCOUNTER19H"); ("mhpmcounter20h", "MHPMCOUNTER20H");
   ("mhpmcounter21h", "MHPMCOUNTER21H"); ("mhpmcounter22h", "MHPMCOUNTER22H");
   ("mhpmcounter23h", "MHPMCOUNTER23H"); ("mhpmcounter24h", "MHPMCOUNTER24H");
   ("mhpmcounter25h", "MHPMCOUNTER25H"); ("mhpmcounter26h", "MHPMCOUNTER26H");
   ("mhpmcounter27h", "MHPMCOUNTER27H"); ("mhpmcounter28h", "MHPMCOUNTER28H");
   ("mhpmcounter29h", "MHPMCOUNTER29H"); ("mhpmcounter30h", "MHPMCOUNTER30H");
   ("mhpmcounter31h", "MHPMCOUNTER31H")
  ].

(** ** The causes: [DECLARE_CAUSE] *)

Definition declared_causes : list (string * Z) :=
  [
   ("misaligned fetch", CAUSE_MISALIGNED_FETCH); ("fault fetch", CAUSE_FAULT_FETCH);
   ("illegal instruction", CAUSE_ILLEGAL_INSTRUCTION); ("breakpoint", CAUSE_BREAKPOINT);
   ("misaligned load", CAUSE_MISALIGNED_LOAD); ("fault load", CAUSE_FAULT_LOAD);
   ("misaligned store", CAUSE_MISALIGNED_STORE); ("fault store", CAUSE_FAULT_STORE);
   ("user_ecall", CAUSE_USER_ECALL); ("supervisor_ecall", CAUSE_SUPERVISOR_ECALL);
   ("hypervisor_ecall", CAUSE_HYPERVISOR_ECALL); ("machine_ecall", CAUSE_MACHINE_ECALL)
  ].


(** ** Decoding *)

Record insn : Type := Insn { iname : string; imatch : Z; imask : Z }.

Definition opcodes : list (string * (Z * Z)) :=
  opcodes_base ++ opcodes_system ++ opcodes_float ++ opcodes_compressed ++ opcodes_custom.
Definition declared : list (string * string * string) :=
  declared_base ++ declared_system ++ declared_float ++ declared_compressed ++ declared_custom.

(** The value of a macro: the first row of that name. *)
Fixpoint macro {A} (name : string) (rows : list (string * A)) : option A :=
  match rows with
  | [] => None
  | (n, v) :: rows' => if String.eqb n name then Some v else macro name rows'
  end.

(** [DECLARE_INSN(name, MATCH_m, MASK_k)]. *)
Definition resolve (d : string * string * string) : option insn :=
  let '(name, m, k) := d in
  x ← macro m opcodes; y ← macro k opcodes; Some (Insn name x.1 y.2).
Definition insn_table : list insn := omap resolve declared.

Definition matches (w : Z) (i : insn) : bool := Z.land w (imask i) =? imatch i.
Definition decode (w : Z) : list insn := List.filter (matches w) insn_table.

(** Compressed instructions that only 32-bit machines have; their encodings
    mean something else on 64-bit ones. *)
Definition rv32_only : list string := ["c_flw"; "c_fsw"; "c_jal"; "c_flwsp"; "c_fswsp"].
Definition is_rv64 (i : insn) : bool := negb (existsb (String.eqb (iname i)) rv32_only).

(** [i] fixes more bits than [j]: it is a special case of it. *)
Definition more_specific (i j : insn) : bool :=
  (Z.land (imask i) (imask j) =? imask j) && negb (imask i =? imask j).

(** The length of an instruction is in its two lowest bits. *)
Definition insn_size (w : Z) : Z := if Z.land w 3 =? 3 then 4 else 2.

Definition insn_ok (i : insn) : bool :=
  (Z.land (imatch i) (imask i) =? imatch i) && (Z.land (imask i) 3 =? 3) && (0 <=? imask i) &&
  (imask i <? 2 ^ (8 * insn_size (imatch i))).
Definition pair_ok (i j : insn) : bool :=
  String.eqb (iname i) (iname j) || more_specific i j || more_specific j i ||
  negb (Z.land (Z.lxor (imatch i) (imatch j)) (Z.land (imask i) (imask j)) =? 0).

Lemma matches_agree w i j :
  matches w i = true -> matches w j = true ->
  Z.land (Z.lxor (imatch i) (imatch j)) (Z.land (imask i) (imask j)) = 0.
Proof.
  intros <-%Z.eqb_eq <-%Z.eqb_eq. apply Z.bits_inj'. intros n Hn.
  rewrite !Z.land_spec, Z.lxor_spec, !Z.land_spec, Z.bits_0.
  by destruct (Z.testbit w n), (Z.testbit (imask i) n), (Z.testbit (imask j) n).
Qed.

Lemma insn_table_ok : forallb insn_ok insn_table = true.
Proof. by vm_compute. Qed.
Lemma pairs_ok : forallb (fun i => forallb (pair_ok i) (List.filter is_rv64 insn_table))
  (List.filter is_rv64 insn_table) = true.
Proof. by vm_compute. Qed.

Lemma names_unique : NoDup (iname <$> insn_table).
Proof. apply (bool_decide_unpack _). by vm_compute. Qed.

(** A name determines its row. *)
Lemma iname_inj i j : i ∈ insn_table -> j ∈ insn_table -> iname i = iname j -> i = j.
Proof.
  intros Hi Hj E. apply list_elem_of_lookup_1 in Hi as [a Ha]. apply list_elem_of_lookup_1 in Hj as [b Hb].
  assert (a = b) as ->; [|congruence].
  apply (NoDup_lookup _ _ _ (iname i) names_unique); rewrite list_lookup_fmap; [by rewrite Ha|by rewrite Hb, E].
Qed.

Lemma land_low w m n : 0 <= n -> 0 <= m < 2 ^ n -> Z.land (w mod 2 ^ n) m = Z.land w m.
Proof.
  intros Hn Hm. apply Z.bits_inj'. intros i Hi. rewrite !Z.land_spec. destruct (decide (i < n)).
  - by rewrite Z.mod_pow2_bits_low by lia.
  - rewrite <- (Z.mod_small m (2 ^ n)) by lia. rewrite !(Z.mod_pow2_bits_high m) by lia. by rewrite !andb_false_r.
Qed.

Lemma insn_size_matches w i : insn_ok i = true -> matches w i = true -> insn_size w = insn_size (imatch i).
Proof.
  intros Hok <-%Z.eqb_eq. unfold insn_size. do 2 f_equal.
  assert (Z.land (imask i) 3 = 3) as H3 by (unfold insn_ok in Hok; lia).
  by rewrite <- Z.land_assoc, H3.
Qed.

Lemma insn_size_range w : insn_size w = 2 \/ insn_size w = 4.
Proof. unfold insn_size. case_match; lia. Qed.

Lemma decode_elem w i : i ∈ decode w -> i ∈ insn_table /\ matches w i = true.
Proof. unfold decode. rewrite !list_elem_of_In. apply filter_In. Qed.

(** C39: every instruction that riscv.h declares has an encoding: a word that
    matches it, whose length says how many bits of a word it looks at; and on
    a 64-bit machine decoding is unambiguous: if two instructions match a
    word, one is a special case of the other. *)
Theorem decode_unambiguous :
  (length insn_table = length declared /\ NoDup (iname <$> insn_table)) /\
  (forall i, i ∈ insn_table -> matches (imatch i) i = true /\ forall w,
     (matches w i = true -> insn_size w = insn_size (imatch i)) /\
     matches (w mod 2 ^ (8 * insn_size (imatch i))) i = matches w i) /\
  (forall w i j, i ∈ decode w -> j ∈ decode w -> is_rv64 i = true -> is_rv64 j = true ->
     i = j \/ more_specific i j = true \/ more_specific j i = true).
Proof.
  split_and!; [by vm_compute|exact names_unique| |].
  - intros i Hi. pose proof (proj1 (forallb_forall _ _) insn_table_ok i) as Hok.
    rewrite <- list_elem_of_In in Hok. specialize (Hok Hi). pose proof (insn_size_range (imatch i)).
    split; [unfold insn_ok, matches in *; lia|]. intros w. split; [by apply insn_size_matches|].
    unfold matches. by rewrite land_low by (unfold insn_ok in Hok; lia).
  - intros w i j [Hi Hwi]%decode_elem [Hj Hwj]%decode_elem Ri Rj.
    pose proof (proj1 (forallb_forall _ _) pairs_ok i) as Hp. rewrite filter_In, <- list_elem_of_In in Hp.
    specialize (Hp (conj Hi Ri)). cbv beta in Hp.
    pose proof (proj1 (forallb_forall _ _) Hp j) as Hq. rewrite filter_In, <- list_elem_of_In in Hq.
    specialize (Hq (conj Hj Rj)). unfold pair_ok in Hq. rewrite (matches_agree w) in Hq by done.
    rewrite !orb_true_iff in Hq. destruct Hq as [[[E|E]|E]|E]; [|by auto|by auto|done].
    apply String.eqb_eq in E. left. by apply iname_inj.
Qed.

(** ** Control registers *)

Definition csr_numbers : list (string * Z) :=
  csr_numbers_user ++ csr_numbers_supervisor ++ csr_numbers_machine ++ csr_numbers_machine_counters ++
  csr_numbers_machine_events ++ csr_numbers_high.
Definition declared_csrs : list (string * string) :=
  declared_csrs_user ++ declared_csrs_supervisor ++ declared_csrs_machine ++
  declared_csrs_machine_counters ++ declared_csrs_machine_events ++ declared_csrs_high.

(** [DECLARE_CSR(name, CSR_m)]. *)
Definition csr_table : list (string * Z) :=
  omap (fun d => n ← macro d.2 csr_numbers; Some (d.1, n)) declared_csrs.

(** A register's number holds the lowest privilege that may use it, and
    whether it can be written. *)
Definition csr_privilege (n : Z) : Z := Z.land (Z.shiftr n 8) 3.
Definition csr_read_only (n : Z) : bool := Z.shiftr n 10 =? 3.

(** The names by privilege: debug registers are the machine's. *)
Definition debug_registers : list string :=
  ["tselect"; "tdata1"; "tdata2"; "tdata3"; "dcsr"; "dpc"; "dscratch"].
Definition privilege_name (name : string) : string :=
  if existsb (String.eqb name) debug_registers || String.prefix "m" name then "M"
  else if String.prefix "s" name then "S" else "U".

(** The names of the registers that the kernel uses. *)
Definition csr_name (r : csr) : string :=
  match r with
  | Csr_sstatus => "sstatus" | Csr_sie => "sie" | Csr_sip => "sip" | Csr_sscratch => "sscratch"
  | Csr_stvec => "stvec" | Csr_sepc => "sepc" | Csr_sbadaddr => "sbadaddr" | Csr_scause => "scause"
  | Csr_satp => "satp"
  end.

Definition csr_row_ok (row : string * Z) : bool :=
  (0 <=? row.2) && (row.2 <? 2 ^ 12) &&
  bool_decide (macro (privilege_name row.1) privileges = Some (csr_privilege row.2)).

Lemma csr_rows_ok : forallb csr_row_ok csr_table = true.
Proof. by vm_compute. Qed.

(** The high half of a counter is 128 numbers behind the counter. *)
Definition high_halves (l : list (string * Z)) : bool :=
  forallb (fun r => forallb (fun r' => implb (String.eqb r'.1 (r.1 ++ "h")) (r'.2 =? r.2 + 128)) l) l.
Lemma high_halves_ok : high_halves csr_table = true.
Proof. by vm_compute. Qed.

Lemma high_halves_spec l name n m :
  high_halves l = true -> (name, n) ∈ l -> (name ++ "h", m)%string ∈ l -> m = n + 128.
Proof.
  unfold high_halves. rewrite !list_elem_of_In. intros Hok Hn Hm.
  apply (proj1 (forallb_forall _ _)) with (x := (name, n)) in Hok; [|done].
  apply (proj1 (forallb_forall _ _)) with (x := (name ++ "h", m)%string) in Hok; [|done].
  cbn [fst snd] in Hok. rewrite String.eqb_refl in Hok. cbn [implb] in Hok. by apply Z.eqb_eq.
Qed.

Lemma csr_table_elem n a : macro n csr_table = Some a -> (n, a) ∈ csr_table.
Proof.
  generalize csr_table. intros l. induction l as [|[m b] l IH]; simpl; [done|].
  destruct (String.eqb_spec m n) as [->|]; intros E; [injection E as ->; by left|right; by apply IH].
Qed.

Definition supervisor_csr (l : list (string * Z)) (name : string) : bool :=
  match macro name l with
  | Some n => (csr_privilege n =? 1) && negb (csr_read_only n)
  | None => false
  end.
Lemma kernel_csrs_ok r : supervisor_csr csr_table (csr_name r) = true.
Proof. by destruct r; vm_compute. Qed.
Lemma supervisor_csr_spec l name :
  supervisor_csr l name = true ->
  exists n, macro name l = Some n /\ macro "S" privileges = Some (csr_privilege n) /\ csr_read_only n = false.
Proof.
  unfold supervisor_csr. destruct (macro name l) as [n|]; [|done].
  intros [Hp%Z.eqb_eq Hr%negb_true_iff]%andb_prop. exists n. split_and!; [done|by rewrite Hp|exact Hr].
Qed.

Lemma csr_names_unique : NoDup csr_table.*1.
Proof. apply (bool_decide_unpack _). by vm_compute. Qed.
Lemma csr_numbers_unique : NoDup csr_table.*2.
Proof. apply (bool_decide_unpack _). by vm_compute. Qed.
Lemma csr_table_length : length csr_table = length declared_csrs.
Proof. by vm_compute. Qed.

Lemma csr_row name n :
  macro name csr_table = Some n ->
  0 <= n < 2 ^ 12 /\ macro (privilege_name name) privileges = Some (csr_privilege n).
Proof.
  intros Hn%csr_table_elem. pose proof (proj1 (forallb_forall _ _) csr_rows_ok (name, n)) as Hok.
  rewrite <- list_elem_of_In in Hok. specialize (Hok Hn). unfold csr_row_ok in Hok.
  apply andb_prop in Hok as [Hok Hp%bool_decide_eq_true]. split; [cbn [fst snd] in Hok; lia|exact Hp].
Qed.

Lemma csr_high_half name n m :
  macro name csr_table = Some n -> macro (name ++ "h") csr_table = Some m -> m = n + 128.
Proof. intros Hn Hm. exact (high_halves_spec _ _ _ _ high_halves_ok (csr_table_elem _ _ Hn) (csr_table_elem _ _ Hm)). Qed.

Lemma kernel_csr r :
  exists n, macro (csr_name r) csr_table = Some n /\
    macro "S" privileges = Some (csr_privilege n) /\ csr_read_only n = false.
Proof. exact (supervisor_csr_spec _ _ (kernel_csrs_ok r)). Qed.

(** Every control register that riscv.h declares has a number of twelve
    bits of its own, whose privilege bits agree with the register's name; the
    high half of a counter is 128 behind the counter; and the registers that
    the kernel reads and writes are supervisor registers that can be written,
    so no access of the kernel, which runs in supervisor mode, is illegal. *)
Lemma csr_numbers_spec :
  (length csr_table = length declared_csrs /\ NoDup csr_table.*1 /\ NoDup csr_table.*2) /\
  (forall name n, macro name csr_table = Some n ->
     0 <= n < 2 ^ 12 /\ macro (privilege_name name) privileges = Some (csr_privilege n)) /\
  (forall name n m, macro name csr_table = Some n -> macro (name ++ "h") csr_table = Some m -> m = n + 128) /\
  (forall r, exists n, macro (csr_name r) csr_table = Some n /\
     macro "S" privileges = Some (csr_privilege n) /\ csr_read_only n = false).
Proof.
  split_and!; [exact csr_table_length|exact csr_names_unique|exact csr_numbers_unique| | |].
  - exact csr_row.
  - exact csr_high_half.
  - exact kernel_csr.
Qed.

(** ** Fields *)

(** No two fields share a bit. *)
Definition disjoint_fields (l : list (string * Z)) : bool :=
  forallb (fun f => forallb (fun g => String.eqb f.1 g.1 || (Z.land f.2 g.2 =? 0)) l) l.

Lemma fields_disjoint :
  forallb disjoint_fields [mstatus_fields; sstatus_fields; dcsr_fields; mcontrol_fields; mip_bits] = true.
Proof. by vm_compute. Qed.

(** [sstatus] shows some of the fields of [mstatus], in place. *)
Lemma sstatus_view f : f ∈ sstatus_fields -> macro f.1 mstatus_fields = Some f.2.
Proof.
  assert (H : Forall (fun f => macro f.1 mstatus_fields = Some f.2) sstatus_fields).
  { apply (bool_decide_unpack _). by vm_compute. }
  apply (proj1 (Forall_forall _ _) H).
Qed.

Lemma mcontrol_fields_wide xlen f :
  xlen = 32 \/ xlen = 64 -> f ∈ mcontrol_fields ->
  Z.land f.2 (Z.lor (Z.lor (MCONTROL_TYPE xlen) (MCONTROL_DMODE xlen)) (MCONTROL_MASKMAX xlen)) = 0.
Proof.
  intros Hx. assert (H : Forall (fun f => Z.land f.2 (Z.lor (Z.lor (MCONTROL_TYPE xlen) (MCONTROL_DMODE xlen))
    (MCONTROL_MASKMAX xlen)) = 0) mcontrol_fields) by (destruct Hx as [-> | ->]; apply (bool_decide_unpack _); by vm_compute).
  apply (proj1 (Forall_forall _ _) H).
Qed.

(** The constants the kernel's model names. *)
Lemma named_constants :
  macro "SIE" sstatus_fields = Some SSTATUS_SIE /\ macro "SPP" sstatus_fields = Some SSTATUS_SPP /\
  macro "STIP" mip_bits = Some MIP_STIP /\ declared_causes.*2 = known_exceptions.
Proof. by vm_compute. Qed.

(** The boot page table's entry is a page, not a further table. *)
Lemma boot_pte_leaf : PTE_TABLE boot_pte = false.
Proof. by vm_compute. Qed.

(** Of the permissions, only [PAGE_TABLE_DIR] makes an entry point to a further
    table. *)
Lemma permissions_leaf : List.filter (fun p => PTE_TABLE p.2) pte_permissions = [("PAGE_TABLE_DIR", PTE_V)].
Proof. by vm_compute. Qed.

(** Symbol types are distinct bytes. *)
Lemma stab_types_distinct : NoDup stab_types.*2 /\ Forall (fun t => in_u8 t.2) stab_types.
Proof.
  split; [apply (bool_decide_unpack _); by vm_compute|].
  repeat (apply Forall_cons; split; [by vm_compute|]). constructor.
Qed.

(** [lcr3] turns address translation off, whatever its argument: its operand
    is too narrow for the mode in the upper bits of [satp]. *)
Lemma lcr3_bare `{P : Platform} cr3 m :
  wp (lcr3 cr3) (fun _ m' => Z.shiftr (csr_value m' Csr_satp) 60 = 0) m.
Proof.
  unfold wp, lcr3, write_csr, mmodify. rewrite csr_put_same. rewrite !Z.shiftr_div_pow2 by (unfold RISCV_PGSHIFT; lia).
  change (2 ^ RISCV_PGSHIFT) with 4096. unfold u32.
  assert (0 <= cr3 mod 2 ^ 32 / 4096 < 2 ^ 20) by (Z.to_euclidean_division_equations; lia).
  rewrite u64_small by (unfold in_u64; lia). by apply Z.div_small; lia.
Qed.
