(* ===== verification/Tools.v ===== *)
(** * Tools of the build host

    tools/sign.c makes a boot sector of a file; tools/vector.c prints the
    interrupt vectors of an x86 kernel.  Both are programs of the host: they
    read and write its files through the C library. *)

From S2P Require Import Prelude Defs CString Printfmt Kernel.

(** The host.  [strerror_ENOENT] is what [strerror] says of a file that does
    not exist; [readable] and [writable] are the permissions, and [room] is the
    number of bytes a file has room for.  [delivered] is the number of bytes
    that an [fread] of [n] bytes reports, and [accepted] the number that an
    [fwrite] of [n] bytes reports: never more than [n], and all of them when
    the file has room for them.  It may be [n] also when there is no room,
    because the C library keeps the bytes in a buffer. *)
Class Host : Type := {
  strerror_ENOENT : list Z;
  readable : string -> bool;
  writable : string -> bool;
  room : string -> nat;
  delivered : string -> nat -> nat;
  accepted : string -> nat -> nat;
  delivered_le path n : (delivered path n <= n)%nat;
  accepted_le path n : (accepted path n <= n)%nat;
  accepted_room path n : (n <= room path)%nat -> accepted path n = n;
}.

(** The files, what the standard streams have been given (they do not fail),
    and the buffers of the streams that are open for writing. *)
Record world : Type := World {
  files : gmap string (list Z);
  stdout : list Z;
  stderr : list Z;
  buffers : gmap string (list Z);
}.

Definition puts_out (s : list Z) : M world unit :=
  mmodify (fun w => World (files w) (stdout w ++ s) (stderr w) (buffers w)).
Definition puts_err (s : list Z) : M world unit :=
  mmodify (fun w => World (files w) (stdout w) (stderr w ++ s) (buffers w)).

(** ** tools/sign.c *)

Section sign.
Context `{H : Host}.

(** [stat(path, &st)]: the size of the file. *)
Definition stat (path : string) : M world (option Z) :=
  w ← mget; mret (Z.of_nat ∘ length <$> files w !! path).

(** A [FILE *]: the path of the stream, or null; no function of the library
    takes a null stream. *)
Abbreviation stream := (option string).

(** [fopen(path, "rb")]. *)
Definition fopen_rb (path : string) : M world stream :=
  w ← mget;
  mret (match files w !! path with Some _ => if readable path then Some path else None | None => None end).
(** [fopen(path, "wb+")]: the file is emptied at once. *)
Definition fopen_wb (path : string) : M world stream :=
  if writable path then
    mmodify (fun w => World (<[path := []]> (files w)) (stdout w) (stderr w) (<[path := []]> (buffers w)));;
    mret (Some path)
  else mret None.
(** [fread(buf, 1, n, fp)]: the bytes read. *)
Definition fread (n : Z) (fp : stream) : M world (list Z) :=
  path ← mlift fp;
  w ← mget;
  c ← mlift (files w !! path);
  mret (take (delivered path (Z.to_nat n)) c).
(** [fwrite(buf, 1, n, fp)] of the [n] bytes of [buf]: what is accepted goes to
    the buffer. *)
Definition fwrite (buf : list Z) (fp : stream) : M world Z :=
  path ← mlift fp;
  let n := accepted path (length buf) in
  mmodify (fun w => World (files w) (stdout w) (stderr w)
    (<[path := default [] (buffers w !! path) ++ take n buf]> (buffers w)));;
  mret (Z.of_nat n).

(** A file when its buffer has been written out, as far as there is room. *)
Definition flushed (w : world) (path : string) (b : list Z) : list Z :=
  take (room path) (default [] (files w !! path) ++ b).
(** [fclose]: writes the buffer out; the result says whether all of it is in
    the file. *)
Definition fclose (fp : stream) : M world bool :=
  path ← mlift fp;
  w ← mget;
  match buffers w !! path with
  | None => mret true
  | Some b =>
      let c := flushed w path b in
      mput (World (<[path := c]> (files w)) (stdout w) (stderr w) (delete path (buffers w)));;
      mret (bool_decide (c = default [] (files w !! path) ++ b))
  end.

(** A program of the host: it starts without open files, and the return of
    [main] is an [exit], which writes out the buffers of the streams that are
    still open. *)
Definition run_main (main : M world Z) : M world Z :=
  mmodify (fun w => World (files w) (stdout w) (stderr w) ∅);;
  r ← main;
  mmodify (fun w => World (map_imap (fun path b => Some (flushed w path b)) (buffers w) ∪ files w)
    (stdout w) (stderr w) ∅);;
  mret r.

Definition sign_main (argv : list string) : M world Z :=
  match argv with
  | [_; inp; outp] =>
      size ← stat inp;
      match size with
      | None =>
          puts_err (text "Error opening file '" ++ text inp ++ text "': " ++ strerror_ENOENT ++ [10]);;
          mret (-1)
      | Some st_size =>
          puts_out (text "'" ++ text inp ++ text "' size: " ++ decimal_out st_size ++ line " bytes");;
          if 510 <? st_size then
            puts_err (decimal_out st_size ++ line " >> 510!!");;
            mret (-1)
          else
            let buf := replicate 512 0 in
            ifp ← fopen_rb inp;
            c ← fread st_size ifp;
            let buf := c ++ drop (length c) buf in
            let size := s32 (Z.of_nat (length c)) in
            if negb (size =? st_size) then
              puts_err (text "read '" ++ text inp ++ text "' error, size is " ++ decimal_out size ++ line ".");;
              mret (-1)
            else
              _ ← fclose ifp;
              let buf := <[510%nat := 0x55]> buf in
              let buf := <[511%nat := 0xAA]> buf in
              ofp ← fopen_wb outp;
              n ← fwrite buf ofp;
              let size := s32 n in
              if negb (size =? 512) then
                puts_err (text "write '" ++ text outp ++ text "' error, size is " ++ decimal_out size ++ line ".");;
                mret (-1)
              else
                _ ← fclose ofp;
                puts_out (text "build 512 bytes boot sector: '" ++ text outp ++ line "' success!");;
                mret 0
      end
  | _ =>
      puts_err (line "Usage: <input filename> <output filename>");;
      mret (-1)
  end.

(** A boot sector: the code, zeros up to the signature, the signature. *)
Definition boot_sector (c : list Z) : list Z := c ++ replicate (510 - length c) 0 ++ [0x55; 0xAA].

Lemma boot_sector_eq c :
  (length c <= 510)%nat ->
  <[511%nat := 0xAA]> (<[510%nat := 0x55]> (c ++ drop (length c) (replicate 512 0))) = boot_sector c.
Proof using Type.
  intros Hc. unfold boot_sector. rewrite drop_replicate.
  replace (512 - length c)%nat with ((510 - length c) + 2)%nat by lia. rewrite replicate_add.
  set (a := (510 - length c)%nat). rewrite !insert_app_r_alt by (rewrite ?length_app, ?length_replicate; lia).
  rewrite !length_replicate. by replace (510 - length c - a)%nat with 0%nat by lia;
    replace (511 - length c - a)%nat with 1%nat by lia.
Qed.

Lemma boot_sector_length c : (length c <= 510)%nat -> length (boot_sector c) = 512%nat.
Proof using Type. intros Hc. unfold boot_sector. rewrite !length_app, length_replicate. simpl. lia. Qed.

Lemma boot_sector_parts c :
  (length c <= 510)%nat -> take (length c) (boot_sector c) = c /\ drop 510 (boot_sector c) = [0x55; 0xAA].
Proof using Type.
  intros Hc. unfold boot_sector. split; [by rewrite take_app_length|].
  rewrite app_assoc, drop_app_length'; [done|]. rewrite length_app, length_replicate. lia.
Qed.

(** The files when [main] ends without an open buffer, and with one. *)
Lemma run_main_closed main w r f o e :
  main (World (files w) (stdout w) (stderr w) ∅) = Ok r (World f o e ∅) ->
  run_main main w = Ok r (World f o e ∅).
Proof using Type.
  intros E. unfold run_main, mbind, M_bind, mmodify. rewrite E. cbn [files stdout stderr buffers].
  by rewrite map_imap_empty, (left_id_L ∅ _).
Qed.
Lemma run_main_open main w r f o e path b :
  main (World (files w) (stdout w) (stderr w) ∅) = Ok r (World f o e {[path := b]}) ->
  run_main main w = Ok r (World (<[path := take (room path) (default [] (f !! path) ++ b)]> f) o e ∅).
Proof using Type.
  intros E. unfold run_main, mbind, M_bind, mmodify. rewrite E. cbn [files stdout stderr buffers].
  by rewrite <- (insert_empty path b), map_imap_insert, map_imap_empty, insert_empty, <- insert_union_singleton_l.
Qed.
Lemma run_main_undef main w :
  main (World (files w) (stdout w) (stderr w) ∅) = Undef -> run_main main w = Undef.
Proof using Type. intros E. unfold run_main, mbind, M_bind, mmodify. by rewrite E. Qed.

(** [sign] of a file of at most 510 bytes, up to the return of [main]: what
    [fread] and [fwrite] report decides, and the closing of the output does
    not. *)
Lemma sign_main_eq a inp outp c w :
  files w !! inp = Some c -> (length c <= 510)%nat -> buffers w = ∅ ->
  exists o e, sign_main [a; inp; outp] w =
    if readable inp then
      if decide (delivered inp (length c) = length c) then
        if writable outp then
          let n := accepted outp 512 in
          if decide (n = 512%nat)
          then Ok 0 (World (<[outp := take (room outp) (boot_sector c)]> (files w)) o e ∅)
          else Ok (-1) (World (<[outp := []]> (files w)) o e {[outp := take n (boot_sector c)]})
        else Undef
      else Ok (-1) (World (files w) o e ∅)
    else Undef.
Proof using Type.
  destruct w as [f o e b]. cbn [files buffers]. intros Hc Hlen ->.
  set (o1 := text "'" ++ text inp ++ text "' size: " ++ decimal_out (Z.of_nat (length c)) ++ line " bytes").
  assert (E1 : stat inp (World f o e ∅) = Ok (Some (Z.of_nat (length c))) (World f o e ∅))
    by (unfold stat, mbind, M_bind, mget; cbn [files]; by rewrite Hc).
  assert (E2 : fopen_rb inp (World f (o ++ o1) e ∅)
    = Ok (if readable inp then Some inp else None) (World f (o ++ o1) e ∅))
    by (unfold fopen_rb, mbind, M_bind, mget; cbn [files]; by rewrite Hc).
  unfold sign_main. unfold mbind, M_bind. rewrite E1.
  fold o1. change (puts_out o1 (World f o e ∅)) with (Ok () (World f (o ++ o1) e ∅)). cbv beta iota.
  rewrite (proj2 (Z.ltb_ge _ _)) by lia. rewrite E2.
  destruct (readable inp); [|by exists o, e].
  assert (E3 : fread (Z.of_nat (length c)) (Some inp) (World f (o ++ o1) e ∅)
    = Ok (take (delivered inp (length c)) c) (World f (o ++ o1) e ∅)).
  { unfold fread, mbind, M_bind, mget. cbn [mlift files]. unfold mret, M_ret. cbn [files]. rewrite Hc.
    by rewrite Nat2Z.id. }
  rewrite E3. set (d := delivered inp (length c)). pose proof (delivered_le inp (length c)) as Hd. fold d in Hd.
  rewrite length_take, Nat.min_l by lia. rewrite s32_small by (unfold in_s32; lia).
  case_decide as Ed; destruct (Z.eqb_spec (Z.of_nat d) (Z.of_nat (length c))) as [E|E]; try lia; cbn [negb];
    [|by eexists _, _].
  rewrite Ed, take_ge, boot_sector_eq by lia.
  change (fclose (Some inp) (World f (o ++ o1) e ∅)) with (Ok true (World f (o ++ o1) e ∅)).
  cbv beta iota. unfold fopen_wb at 1. destruct (writable outp); [|by exists o, e].
  unfold mbind at 1, M_bind at 1, mmodify at 1, mret at 1, M_ret at 1. cbn [files stdout stderr buffers].
  unfold fwrite at 1, mbind at 1, M_bind at 1. cbn [mlift]. unfold mret at 1, M_ret at 1.
  unfold mbind at 1, M_bind at 1, mmodify at 1, mret at 1, M_ret at 1. cbn [files stdout stderr buffers].
  rewrite boot_sector_length, lookup_insert_eq by done. cbn [default app]. rewrite insert_insert_eq.
  set (n := accepted outp 512). pose proof (accepted_le outp 512) as Hn. fold n in Hn.
  rewrite s32_small by (unfold in_s32; lia). cbv zeta.
  case_decide as En; destruct (Z.eqb_spec (Z.of_nat n) 512); try lia; cbn [negb]; [|by eexists _, _].
  eexists _, _. unfold fclose at 1, mbind at 1, M_bind at 1. cbn [mlift]. unfold mret at 1, M_ret at 1.
  unfold mbind at 1, M_bind at 1, mget. cbn [files stdout stderr buffers]. rewrite lookup_insert_eq.
  unfold flushed. cbn [files]. rewrite lookup_insert_eq. cbn [default app].
  rewrite En, (take_ge (boot_sector c)) by (rewrite boot_sector_length; lia).
  unfold mbind, M_bind, mput, mret, M_ret. cbn [files stdout stderr buffers].
  rewrite insert_insert_eq, delete_insert_eq. reflexivity.
Qed.

(** [sign] fails and changes no file: without two arguments, without the input
    or for one of more than 510 bytes. *)
Lemma sign_main_fails argv f o e :
  match argv with
  | [_; inp; _] => match f !! inp with Some c => (510 < length c)%nat | None => True end
  | _ => True
  end ->
  exists o' e', sign_main argv (World f o e ∅) = Ok (-1) (World f o' e' ∅).
Proof using Type.
  intros Hf. destruct argv as [|a [|inp [|outp [|]]]]; try by eexists _, _.
  unfold sign_main, stat, mbind, M_bind, mget, mret, M_ret. cbn [files].
  destruct (f !! inp) as [c|]; cbn [fmap option_fmap option_map compose]; [|by eexists _, _].
  cbv beta iota delta [puts_out mmodify]. cbn [files stdout stderr buffers].
  rewrite (proj2 (Z.ltb_lt _ _)) by lia. by eexists _, _.
Qed.

(** C40: [sign], from its start to its exit.  Without two arguments, without the
    input, or for an input of more than 510 bytes, it fails and no file
    changes; so it does when [fread] does not deliver the whole input.  It
    does not check that its files could be opened: if the input may not be
    read or the output may not be written, the behaviour is undefined.  With
    both permissions it succeeds exactly if [fwrite] accepts 512 bytes, and
    then the output holds as much of the boot sector as there is room for.
    With room for a sector it succeeds and the output is the sector: exactly
    512 bytes, the input, zeros, and the signature the firmware looks for.
    With less room it succeeds all the same if the C library has buffered the
    512 bytes, and leaves a truncated sector. *)
Theorem sign_spec argv w :
  let run := run_main (sign_main argv) in
  let fails := wp run (fun r w' => r = -1 /\ files w' = files w) w in
  match argv with
  | [_; inp; outp] =>
      match files w !! inp with
      | Some c =>
          if decide (510 < length c)%nat then fails else
          (readable inp = false -> run w = Undef) /\
          (readable inp = true -> delivered inp (length c) <> length c -> fails) /\
          (readable inp = true -> delivered inp (length c) = length c -> writable outp = false -> run w = Undef) /\
          (readable inp = true -> delivered inp (length c) = length c -> writable outp = true ->
           wp run (fun r w' =>
             let n := accepted outp 512 in
             files w' = <[outp := take (room outp) (take n (boot_sector c))]> (files w) /\
             r = (if decide (n = 512%nat) then 0 else -1) /\
             ((512 <= room outp)%nat -> r = 0 /\ files w' !! outp = Some (boot_sector c)) /\
             ((room outp < 512)%nat -> n = 512%nat -> r = 0 /\ files w' !! outp <> Some (boot_sector c)) /\
             length (boot_sector c) = 512%nat /\ take (length c) (boot_sector c) = c /\
             drop 510 (boot_sector c) = [0x55; 0xAA]) w)
      | None => fails
      end
  | _ => fails
  end.
Proof using Type.
  intros run fails. subst run.
  assert (Hfails : match argv with
      | [_; inp; _] => match files w !! inp with Some c => (510 < length c)%nat | None => True end
      | _ => True end -> fails).
  { intros Hf. destruct (sign_main_fails argv (files w) (stdout w) (stderr w) Hf) as (o & e & E).
    by eapply wp_intro; [exact (run_main_closed _ _ _ _ _ _ E)|]. }
  destruct argv as [|a [|inp [|outp [|]]]]; try by apply Hfails.
  destruct (files w !! inp) as [c|] eqn:Ec; [|by apply Hfails].
  case_decide as Hc; [by apply Hfails|]. subst fails. clear Hfails.
  destruct (sign_main_eq a inp outp c (World (files w) (stdout w) (stderr w) ∅) Ec ltac:(lia) eq_refl)
    as (o & e & E). cbn [files] in E.
  split_and!.
  - intros Hr. rewrite Hr in E. by apply run_main_undef.
  - intros Hr Hd. rewrite Hr, decide_False in E by done.
    by eapply wp_intro; [exact (run_main_closed _ _ _ _ _ _ E)|].
  - intros Hr Hd Hw. rewrite Hr, decide_True, Hw in E by done. by apply run_main_undef.
  - intros Hr Hd Hw. rewrite Hr, decide_True, Hw in E by done. cbv zeta in E |- *.
    pose proof (boot_sector_length c ltac:(lia)) as Hl. destruct (boot_sector_parts c ltac:(lia)) as [Ht Hs].
    assert (Hrun : exists r o' e', run_main (sign_main [a; inp; outp]) w
      = Ok r (World (<[outp := take (room outp) (take (accepted outp 512) (boot_sector c))]> (files w)) o' e' ∅) /\
      r = if decide (accepted outp 512 = 512%nat) then 0 else -1).
    { case_decide as En.
      - eexists _, _, _. rewrite En, (take_ge (boot_sector c)) by lia. split; [exact (run_main_closed _ _ _ _ _ _ E)|done].
      - eexists _, _, _. apply run_main_open in E. rewrite lookup_insert_eq, insert_insert_eq in E.
        split; [exact E|done]. }
    destruct Hrun as (r & o' & e' & Erun & Er). eapply wp_intro; [exact Erun|]. cbn [files].
    rewrite lookup_insert_eq. split_and!; [done|done| | |done..].
    + intros Hroom. rewrite Er, accepted_room, decide_True by done. by rewrite (take_ge (boot_sector c) 512), take_ge by lia.
    + intros Hroom En. rewrite Er, En, decide_True by done. split; [done|]. intros [= Heq].
      apply (f_equal length) in Heq. rewrite !length_take in Heq. lia.
Qed.
End sign.

(** ** tools/vector.c *)

(** The processor pushes an error code of its own for these vectors, as the
    tool has it. *)
Definition no_dummy (i : Z) : bool := negb (((i <? 8) || (14 <? i)) && negb (i =? 17)).

Definition vector_main : M world Z :=
  puts_out (line "# handler");;
  puts_out (line ".text");;
  puts_out (line ".globl __alltraps");;
  _ ← for_range (R := Empty_set) 256 (fun i _ =>
        puts_out (text ".globl vector" ++ decimal_out i ++ [10]);;
        puts_out (text "vector" ++ decimal_out i ++ line ":");;
        (if ((i <? 8) || (14 <? i)) && negb (i =? 17) then puts_out (line "  pushl $0") else mret ());;
        puts_out (text "  pushl $" ++ decimal_out i ++ [10]);;
        puts_out (line "  jmp __alltraps");;
        mret (Next ())) ();
  puts_out [10];;
  puts_out (line "# vector table");;
  puts_out (line ".data");;
  puts_out (line ".globl __vectors");;
  puts_out (line "__vectors:");;
  _ ← for_range (R := Empty_set) 256 (fun i _ =>
        puts_out (text "  .long vector" ++ decimal_out i ++ [10]);;
        mret (Next ())) ();
  mret 0.

(** The handler of a vector. *)
Definition handler_text (i : Z) : list Z :=
  text ".globl vector" ++ decimal_out i ++ [10] ++ text "vector" ++ decimal_out i ++ line ":" ++
  (if no_dummy i then [] else line "  pushl $0") ++
  text "  pushl $" ++ decimal_out i ++ [10] ++ line "  jmp __alltraps".

Definition vectors_text : list Z :=
  line "# handler" ++ line ".text" ++ line ".globl __alltraps" ++
  concat (handler_text <$> seqZ 0 256) ++ [10] ++
  line "# vector table" ++ line ".data" ++ line ".globl __vectors" ++ line "__vectors:" ++
  concat ((fun i => text "  .long vector" ++ decimal_out i ++ [10]) <$> seqZ 0 256).

Definition written (t : list Z) (w : world) : world := World (files w) (stdout w ++ t) (stderr w) (buffers w).

Lemma written_app t u w : written u (written t w) = written (t ++ u) w.
Proof. unfold written. cbn [files stdout stderr buffers]. by rewrite app_assoc. Qed.

(** [m] returns [a], and all it does is to print [t]. *)
Definition writes {A} (m : M world A) (a : A) (t : list Z) : Prop := forall w, m w = Ok a (written t w).

Lemma writes_puts t : writes (puts_out t) () t.
Proof. done. Qed.
Lemma writes_ret {A} (a : A) : writes (mret a) a [].
Proof. intros [f o e b]. unfold written. simpl. by rewrite app_nil_r. Qed.
Lemma writes_bind {A C} (m : M world A) (k : A -> M world C) a c t u :
  writes m a t -> writes (k a) c u -> writes (m ≫= k) c (t ++ u).
Proof. intros Hm Hk w. unfold mbind, M_bind. by rewrite Hm, Hk, written_app. Qed.

Lemma writes_then_ret {A C} (m : M world A) (k : A -> M world C) a c t :
  writes m a t -> writes (k a) c [] -> writes (m ≫= k) c t.
Proof. intros Hm Hk. rewrite <- (app_nil_r t). by apply writes_bind with (a := a). Qed.

(** A loop whose rounds only print. *)
Lemma writes_for_range (body : Z -> unit -> M world (step unit Empty_set)) (t : Z -> list Z) hi :
  0 <= hi -> (forall q, writes (body q ()) (Next ()) (t q)) ->
  writes (for_range hi body ()) (Next ()) (concat (t <$> seqZ 0 hi)).
Proof.
  intros Hhi Hb w. eapply (for_range_eq (fun q _ u => 0 <= q /\ u = written (concat (t <$> seqZ 0 q)) w) (fun _ _ => False)).
  - done.
  - split; [done|]. destruct w as [f o e b]. unfold written. simpl. by rewrite app_nil_r.
  - intros q [] u Hq [_ ->]. unfold wp. rewrite Hb, written_app. split; [lia|].
    rewrite (seqZ_app 0 q 1), fmap_app, concat_app by lia. change (seqZ (0 + q) 1) with [0 + q].
    simpl. by rewrite app_nil_r.
  - by intros [] u [_ ->].
  - done.
Qed.

Lemma writes_handler i :
  writes (puts_out (text ".globl vector" ++ decimal_out i ++ [10]);;
          puts_out (text "vector" ++ decimal_out i ++ line ":");;
          (if ((i <? 8) || (14 <? i)) && negb (i =? 17) then puts_out (line "  pushl $0") else mret ());;
          puts_out (text "  pushl $" ++ decimal_out i ++ [10]);;
          puts_out (line "  jmp __alltraps");;
          mret (Next (R := Empty_set) ())) (Next ()) (handler_text i).
Proof.
  set (d := decimal_out i). set (z := if no_dummy i then [] else line "  pushl $0").
  assert (Hz : writes (if ((i <? 8) || (14 <? i)) && negb (i =? 17) then puts_out (line "  pushl $0") else mret ()) () z).
  { unfold z, no_dummy. destruct (_ && _); [apply writes_puts|apply writes_ret]. }
  assert (E : handler_text i = (text ".globl vector" ++ d ++ [10]) ++ (text "vector" ++ d ++ line ":") ++ z ++
    (text "  pushl $" ++ d ++ [10]) ++ line "  jmp __alltraps" ++ []).
  { unfold handler_text. fold d z. by rewrite app_nil_r, <- !app_assoc. }
  rewrite E. repeat (apply writes_bind with (a := ()); [apply writes_puts || exact Hz|]). apply writes_ret.
Qed.

(** [vector] prints a handler for each of the 256 vectors and the table of
    their addresses. *)
Lemma vector_spec w : vector_main w = Ok 0 (written vectors_text w).
Proof.
  apply (fun H : writes vector_main 0 vectors_text => H w).
  unfold vector_main, vectors_text.
  do 3 (apply writes_bind with (a := ()); [apply writes_puts|]).
  eapply writes_bind; [apply writes_for_range; [done|exact writes_handler]|].
  do 5 (apply writes_bind with (a := ()); [apply writes_puts|]).
  eapply writes_then_ret; [|apply writes_ret]. apply writes_for_range; [done|]. intros q.
  apply writes_then_ret with (a := ()); [apply writes_puts|apply writes_ret].
Qed.

(** ** Witness *)

(** A host with room for 100 bytes for a file of the directory [full] and for
    1000 for the others, whose C library buffers. *)
Definition sample_room (path : string) : nat := if String.prefix "full/" path then 100 else 1000.
Definition sample_host : Host := {|
  strerror_ENOENT := text "No such file or directory";
  readable path := negb (String.eqb path "secret"); writable _ := true; room := sample_room;
  delivered _ n := n; accepted _ n := n;
  delivered_le _ n := Nat.le_refl n; accepted_le _ n := Nat.le_refl n; accepted_room _ _ _ := eq_refl |}.
Definition sample_files : gmap string (list Z) := {[ "boot"%string := [0xFA; 0xFC] ]}.

Lemma sample_boot : files (World sample_files [] [] ∅) !! "boot"%string = Some [0xFA; 0xFC].
Proof. reflexivity. Qed.

Lemma sign_spec_witness :
  let sign argv := run_main (H := sample_host) (sign_main (H := sample_host) argv) in
  let w := World sample_files [] [] ∅ in
  wp (sign ["sign"; "boot"; "out"]%string) (fun r w' =>
    r = 0 /\ files w' !! "out"%string = Some (boot_sector [0xFA; 0xFC])) w /\
  wp (sign ["sign"; "boot"; "full/out"]%string) (fun r w' =>
    r = 0 /\ files w' !! "full/out"%string <> Some (boot_sector [0xFA; 0xFC])) w.
Proof.
  pose proof (sign_spec (H := sample_host) ["sign"; "boot"; "out"]%string (World sample_files [] [] ∅)) as H1.
  pose proof (sign_spec (H := sample_host) ["sign"; "boot"; "full/out"]%string (World sample_files [] [] ∅)) as H2.
  cbv beta iota zeta in H1, H2. rewrite sample_boot in H1, H2. rewrite (decide_False (P := (510 < length [0xFA; 0xFC])%nat)) in H1, H2 by (simpl; lia).
  destruct H1 as (_ & _ & _ & H1), H2 as (_ & _ & _ & H2). split.
  - eapply wp_mono; [exact (H1 eq_refl eq_refl eq_refl)|]. intros r w' (_ & _ & H & _).
    apply H. apply Nat.leb_le. vm_compute. reflexivity.
  - eapply wp_mono; [exact (H2 eq_refl eq_refl eq_refl)|]. intros r w' (_ & _ & _ & H & _).
    apply H; [|reflexivity]. apply Nat.leb_le. vm_compute. reflexivity.
Defined.
