(* ===== verification/LlvmApi.v ===== *)
(** * LLVM as the emitter uses it

    racket/llvm-rosette is a program on LLVM's classes, which are not in the
    repository.  The class [Llvm] has one field for each type and each method
    of LLVM that it uses, named after the C++ class and the method; the
    emitter's model is a function of them.  [LlvmLaws] states what LLVM's
    documentation says of the few whose result the theorems depend on.

    A pointer to an object is the object; one that may be null is an [option].
    LLVM's subclasses of [llvm::Value] are one type with a class test [isa]. *)

From Stdlib Require Export Ascii.
From S2P Require Import Prelude.

(** The classes the source tests for with [isa], [dyn_cast] or [cast], or
    that [InstVisitor] dispatches on. *)
Inductive value_class : Type :=
  | ConstantAggregateZero | ConstantInt | ConstantExpr | UndefValue
  | ConstantVector | ConstantDataVector | ConstantDataSequential | ConstantAggregate
  | GEPOperator | CmpInst | LoadInst | StoreInst | ExtractValueInst | InsertValueInst
  | PHINode | BranchInst | CallInst | AllocaInst | SwitchInst | DbgInfoIntrinsic
  | GlobalVariable | InlineAsm.
#[global] Instance value_class_eq_dec : EqDecision value_class.
Proof. solve_decision. Defined.

Inductive type_class : Type := StructType | ArrayType | VectorType.
#[global] Instance type_class_eq_dec : EqDecision type_class.
Proof. solve_decision. Defined.

Inductive debug_class : Type := DIType | DIDerivedType | DICompositeType.
#[global] Instance debug_class_eq_dec : EqDecision debug_class.
Proof. solve_decision. Defined.

Class Llvm : Type := {
  Value : Type;
  LType : Type;
  DINode : Type;
  Module_ : Type;
  DataLayout : Type;

  (** llvm::Type and its subclasses *)
  Type_isa : type_class -> LType -> bool;
  Type_isIntegerTy : LType -> bool;
  Type_isPointerTy : LType -> bool;
  Type_isVoidTy : LType -> bool;
  Type_getIntegerBitWidth : LType -> Z;
  Type_print : LType -> string;
  StructType_isLiteral : LType -> bool;
  StructType_elements : LType -> list LType;
  SequentialType_getNumElements : LType -> Z;
  SequentialType_getElementType : LType -> LType;

  (** llvm::DataLayout and llvm::StructLayout *)
  DataLayout_isBigEndian : DataLayout -> bool;
  DataLayout_getPointerSizeInBits : DataLayout -> Z;
  DataLayout_getTypeAllocSize : DataLayout -> LType -> Z;
  DataLayout_getPreferredAlignment : DataLayout -> Value -> Z;
  StructLayout_getElementOffset : DataLayout -> LType -> Z -> Z;

  (** llvm::Value, llvm::User and llvm::Operator *)
  isa : value_class -> Value -> bool;
  Value_getType : Value -> LType;
  Value_getName : Value -> string;
  Value_printAsOperand : Value -> string;
  Value_stripPointerCasts : Value -> Value;
  User_operands : Value -> list Value;
  Operator_getOpcode : Value -> Z;
  Instruction_getOpcodeName : Z -> string;
  Instruction_isCast : Z -> bool;
  Instruction_BitCast : Z;
  Instruction_IntToPtr : Z;

  (** constants and global variables *)
  ConstantInt_getValue : Value -> Z;
  ConstantInt_getZExtValue : Value -> Z;
  ConstantInt_getBitWidth : Value -> Z;
  ConstantDataSequential_isString : Value -> bool;
  ConstantDataSequential_getAsString : Value -> string;
  GlobalVariable_hasInitializer : Value -> bool;
  GlobalVariable_getInitializer : Value -> Value;
  GlobalVariable_getValueType : Value -> LType;
  GlobalVariable_getDebugInfo : Value -> list (option DINode);
  InlineAsm_getAsmString : Value -> string;

  (** instructions; the indices of a getelementptr are what the
      [gep_type_iterator] goes over: operand, [getStructTypeOrNull],
      [getIndexedType] *)
  CmpInst_getPredicateName : Value -> string;
  GEPOperator_getPointerOperand : Value -> Value;
  gep_types : Value -> list (Value * option LType * LType);
  LoadStore_getAlignment : Value -> Z;
  StoreInst_getValueOperand : Value -> Value;
  ExtractInsert_indices : Value -> list Z;
  PHINode_incoming : Value -> list (Value * Value);
  BranchInst_isConditional : Value -> bool;
  Instruction_getCondition : Value -> Value;
  BranchInst_getSuccessor : Value -> nat -> Value;
  CallInst_getCalledValue : Value -> Value;
  CallInst_getCalledFunction : Value -> option Value;
  CallInst_args : Value -> list Value;
  AllocaInst_getAllocatedType : Value -> LType;
  SwitchInst_getDefaultDest : Value -> Value;
  SwitchInst_cases : Value -> list (Value * Value);
  Instruction_print : Module_ -> Value -> string;

  (** functions and basic blocks *)
  Function_hasExternalLinkage : Value -> bool;
  Function_isDeclaration : Value -> bool;
  Function_getIntrinsicID : Value -> Z;
  Intrinsic_dbg : list Z;
  Function_getFunctionType : Value -> LType;
  Function_args : Value -> list Value;
  Function_blocks : Value -> list Value;
  Function_getEntryBlock : Value -> Value;
  BasicBlock_instructions : Value -> list Value;
  BasicBlock_getTerminator : Value -> option Value;
  BasicBlock_predecessors : Value -> list Value;
  PostDominatorTree_findNearestCommonDominator : Value -> Value -> Value -> option Value;

  (** modules; [Value_use_empty] depends on what is left of the module *)
  Module_getDataLayout : Module_ -> DataLayout;
  Module_getGlobalList : Module_ -> list Value;
  Module_getFunctionList : Module_ -> list Value;
  Value_use_empty : Module_ -> Value -> bool;
  Function_eraseFromParent : Module_ -> Value -> Module_;
  parseIRFile : string -> option Module_;

  (** debugging information; a null element has no class *)
  DI_isa : debug_class -> DINode -> bool;
  DINode_getTag : DINode -> Z;
  DW_TAG_typedef : Z;
  DW_TAG_array_type : Z;
  DW_TAG_structure_type : Z;
  DW_TAG_member : Z;
  DIType_getName : DINode -> string;
  DIType_getBaseType : DINode -> option DINode;
  DICompositeType_getElements : DINode -> list DINode;

  (** ADT and Support: an integer on a [raw_ostream], [format_hex_no_prefix]
      (number, width), [left_justify], [StringRef::split], [Regex::match]
      (pattern, string), [isPrint], [hexdigit], [alignTo] *)
  print_int : Z -> string;
  format_hex_no_prefix : Z -> Z -> string;
  left_justify : string -> Z -> string;
  StringRef_split : string -> ascii -> list string;
  Regex_match : string -> string -> bool;
  isPrint : ascii -> bool;
  hexdigit : Z -> ascii;
  alignTo : Z -> Z -> Z;
}.

(** The body of [G] refers to [F]: an operand of an instruction, or of a
    constant expression in it. *)
Inductive mentions `{L : Llvm} (F : Value) : Value -> Prop :=
  | mentions_operand V : F ∈ User_operands V -> mentions F V
  | mentions_constant V C :
      C ∈ User_operands V -> isa ConstantExpr C = true -> mentions F C -> mentions F V.
Definition refers `{L : Llvm} (G F : Value) : Prop :=
  exists BB I, BB ∈ Function_blocks G /\ I ∈ BasicBlock_instructions BB /\ mentions F I.

(** ** Texts *)

Fixpoint all_chars (p : ascii -> bool) (s : string) : bool :=
  match s with
  | EmptyString => true
  | String c s => p c && all_chars p s
  end.

Definition newline : ascii := Ascii.ascii_of_nat 10.
Definition quote : ascii := Ascii.ascii_of_nat 34.
Definition backslash : ascii := Ascii.ascii_of_nat 92.

(** The characters that structure a Racket program. *)
Definition delimiter (c : ascii) : bool :=
  existsb (Ascii.eqb c)
    ["("%char; ")"%char; "["%char; "]"%char; "{"%char; "}"%char; ";"%char; "|"%char; "#"%char;
     quote; backslash; newline].

(** A text that Racket reads as symbols, numbers and blanks; one that may stand
    in quotes; one that may stand in a line comment. *)
Definition plain : string -> bool := all_chars (fun c => negb (delimiter c)).
Definition quotable : string -> bool := all_chars (fun c => negb (Ascii.eqb c quote || Ascii.eqb c backslash)).
Definition one_line : string -> bool := all_chars (fun c => negb (Ascii.eqb c newline)).

(** ** What LLVM's documentation says *)

Class LlvmLaws `(L : Llvm) : Prop := {
  (** decimal digits and a sign *)
  print_int_plain z : plain (print_int z) = true;
  (** mnemonics of the instruction set *)
  getOpcodeName_plain o : plain (Instruction_getOpcodeName o) = true;
  getPredicateName_plain V : plain (CmpInst_getPredicateName V) = true;
  (** padding on the right *)
  left_justify_spec s w : exists n, left_justify s w = s +:+ String.string_of_list_ascii (replicate n " "%char);
  (** the pieces between separators *)
  StringRef_split_spec s : Forall (fun l => one_line l = true) (StringRef_split s newline);
  (** ["0"] to ["9"] and ["A"] to ["F"] *)
  hexdigit_plain x : 0 <= x < 16 -> delimiter (hexdigit x) = false;
  (** characters from [32] to [126] *)
  isPrint_spec c : isPrint c = true -> c <> newline;
  (** the next multiple *)
  alignTo_spec v a :
    0 <= v -> 0 < a -> v + a <= 2 ^ 64 ->
    v <= alignTo v a < v + a /\ (a | alignTo v a);
  (** [eraseFromParent] takes the function, and nothing else, out of the list *)
  eraseFromParent_functions M F l1 l2 :
    NoDup (Module_getFunctionList M) -> Module_getFunctionList M = l1 ++ F :: l2 ->
    Module_getFunctionList (Function_eraseFromParent M F) = l1 ++ l2;
  (** the functions of a module that refer to a function are uses of it *)
  use_empty_spec M G F :
    G ∈ Module_getFunctionList M -> refers G F -> Value_use_empty M F = false;
}.
