(* ===== verification/LlvmSample.v ===== *)
(** * A concrete LLVM

    A small instance of [Llvm] with its laws, on which the theorems about the
    emitter are tried out: values and debugging information are trees. *)

From S2P Require Import Prelude LlvmApi.

#[warnings="-register-all"]
Inductive sample_type : Type :=
  | TInt (width : Z)
  | TPtr
  | TVoid
  | TStruct (elements : list sample_type)
  | TArray (num : Z) (element : sample_type).

(** A value: its classes, what it is printed as, its type, a number (of a
    constant, an opcode), its operands. *)
#[warnings="-register-all"]
Inductive sample_value : Type := MkValue {
  v_classes : list value_class;
  v_name : string;
  v_type : sample_type;
  v_num : Z;
  v_ops : list sample_value;
}.

#[warnings="-register-all"]
Inductive sample_debug : Type := MkDebug {
  d_tag : Z;
  d_name : string;
  d_base : option sample_debug;
  d_elements : list sample_debug;
}.

Record sample_module : Type := Mod {
  m_globals : list sample_value;
  m_functions : list sample_value;
}.

(** ** Types *)

Fixpoint sample_size (T : sample_type) : Z :=
  match T with
  | TInt w => (w + 7) / 8
  | TPtr => 8
  | TVoid => 0
  | TStruct l => foldr (fun T n => sample_size T + n) 0 l
  | TArray num T => sample_size T * num
  end.

Definition sample_elements (T : sample_type) : list sample_type :=
  match T with TStruct l => l | _ => [] end.

(** ** Texts *)

Definition sample_digit (z : Z) : ascii :=
  match String.get (Z.to_nat (z mod 16)) "0123456789ABCDEF" with Some c => c | None => "0"%char end.

Fixpoint sample_digits (n : nat) (base z : Z) (acc : string) : string :=
  match n with
  | O => acc
  | S n => let acc := String (sample_digit (z mod base)) acc in
           if z <? base then acc else sample_digits n base (z / base) acc
  end.
Definition sample_int (z : Z) : string :=
  if z <? 0 then String "-"%char (sample_digits 64 10 (- z) EmptyString)
  else sample_digits 64 10 z EmptyString.

Fixpoint sample_split (s : string) (sep : ascii) (line : list ascii) : list string :=
  match s with
  | EmptyString => [String.string_of_list_ascii (rev line)]
  | String c s =>
      if Ascii.eqb c sep then String.string_of_list_ascii (rev line) :: sample_split s sep []
      else sample_split s sep (c :: line)
  end.

(** ** Values *)

Definition sample_isa (c : value_class) (v : sample_value) : bool := bool_decide (c ∈ v_classes v).
Definition sample_null : sample_value := MkValue [] "null" TVoid 0 [].
Definition sample_op (i : nat) (v : sample_value) : sample_value :=
  match v_ops v !! i with Some o => o | None => sample_null end.

Fixpoint sample_pairs (l : list sample_value) : list (sample_value * sample_value) :=
  match l with a :: b :: l => (a, b) :: sample_pairs l | _ => [] end.

(** A value of the name occurs somewhere below [v]. *)
Fixpoint sample_occurs (name : string) (v : sample_value) : bool :=
  existsb (fun o => String.eqb (v_name o) name || sample_occurs name o) (v_ops v).

#[global] Instance sample_type_eq_dec : EqDecision sample_type.
Proof.
  unfold EqDecision, Decision. fix IH 1. intros [] []; try (right; congruence); try (left; congruence).
  - destruct (decide (width = width0)); [left|right]; congruence.
  - destruct (List.list_eq_dec IH elements elements0); [left|right]; congruence.
  - destruct (decide (num = num0)), (IH element element0); [left|right..]; congruence.
Defined.

#[global] Instance sample_value_eq_dec : EqDecision sample_value.
Proof.
  unfold EqDecision, Decision. fix IH 1. intros [c n t k l] [c' n' t' k' l'].
  destruct (decide ((c, n, t, k) = (c', n', t', k'))) as [E|E], (List.list_eq_dec IH l l') as [E'|E'];
    [left|right..]; congruence.
Defined.

Fixpoint sample_remove (F : sample_value) (l : list sample_value) : list sample_value :=
  match l with
  | [] => []
  | G :: l => if decide (G = F) then l else G :: sample_remove F l
  end.

Lemma sample_remove_app F l1 l2 : NoDup (l1 ++ F :: l2) -> sample_remove F (l1 ++ F :: l2) = l1 ++ l2.
Proof.
  induction l1 as [|G l1 IH]; simpl; intros Hnd; [by rewrite decide_True|].
  apply NoDup_cons in Hnd as [HG Hnd]. rewrite decide_False by (intros ->; set_solver). by rewrite IH.
Qed.

(** ** The instance

    A function's operands are its blocks, a block's its instructions; the
    classes tell declarations (no block), globals with an initializer (one
    operand) and so on apart. *)
Definition sample_llvm (file : option sample_module) : Llvm := {|
  Value := sample_value;
  LType := sample_type;
  DINode := sample_debug;
  Module_ := sample_module;
  DataLayout := unit;

  Type_isa c T :=
    match c, T with StructType, TStruct _ => true | ArrayType, TArray _ _ => true | _, _ => false end;
  Type_isIntegerTy T := match T with TInt _ => true | _ => false end;
  Type_isPointerTy T := match T with TPtr => true | _ => false end;
  Type_isVoidTy T := match T with TVoid => true | _ => false end;
  Type_getIntegerBitWidth T := match T with TInt w => w | _ => 0 end;
  Type_print T :=
    match T with TInt w => "i" +:+ sample_int w | TPtr => "i8*" | TVoid => "void" | _ => "aggregate" end;
  StructType_isLiteral T := true;
  StructType_elements := sample_elements;
  SequentialType_getNumElements T := match T with TArray n _ => n | _ => 0 end;
  SequentialType_getElementType T := match T with TArray _ T => T | _ => TVoid end;

  DataLayout_isBigEndian _ := false;
  DataLayout_getPointerSizeInBits _ := 64;
  DataLayout_getTypeAllocSize _ := sample_size;
  DataLayout_getPreferredAlignment _ _ := 8;
  StructLayout_getElementOffset _ T i :=
    foldr (fun T n => sample_size T + n) 0 (take (Z.to_nat i) (sample_elements T));

  isa := sample_isa;
  Value_getType := v_type;
  Value_getName v := String.substring 1 (String.length (v_name v) - 1) (v_name v);
  Value_printAsOperand := v_name;
  Value_stripPointerCasts v := v;
  User_operands := v_ops;
  Operator_getOpcode := v_num;
  Instruction_getOpcodeName o :=
    match o with 1 => "add" | 2 => "br" | 3 => "call" | 4 => "icmp" | 5 => "load" | 6 => "ret" | _ => "alloca" end;
  Instruction_isCast _ := false;
  Instruction_BitCast := 49;
  Instruction_IntToPtr := 48;

  ConstantInt_getValue := v_num;
  ConstantInt_getZExtValue := v_num;
  ConstantInt_getBitWidth v := match v_type v with TInt w => w | _ => 0 end;
  ConstantDataSequential_isString _ := true;
  ConstantDataSequential_getAsString := v_name;
  GlobalVariable_hasInitializer v := bool_decide (v_ops v <> []);
  GlobalVariable_getInitializer := sample_op 0;
  GlobalVariable_getValueType := v_type;
  GlobalVariable_getDebugInfo _ := [];
  InlineAsm_getAsmString := v_name;

  CmpInst_getPredicateName _ := "eq";
  GEPOperator_getPointerOperand := sample_op 0;
  gep_types _ := [];
  LoadStore_getAlignment _ := 8;
  StoreInst_getValueOperand := sample_op 0;
  ExtractInsert_indices _ := [];
  PHINode_incoming v := sample_pairs (v_ops v);
  BranchInst_isConditional v := bool_decide (1 < length (v_ops v))%nat;
  Instruction_getCondition v := sample_op 2 v;
  BranchInst_getSuccessor v i := sample_op i v;
  CallInst_getCalledValue := sample_op 0;
  CallInst_getCalledFunction v := v_ops v !! 0%nat;
  CallInst_args v := drop 1 (v_ops v);
  AllocaInst_getAllocatedType := v_type;
  SwitchInst_getDefaultDest := sample_op 0;
  SwitchInst_cases v := sample_pairs (drop 2 (v_ops v));
  Instruction_print _ v := v_name v;

  Function_hasExternalLinkage _ := true;
  Function_isDeclaration F := bool_decide (v_ops F = []);
  Function_getIntrinsicID _ := 0;
  Intrinsic_dbg := [1; 2; 3; 4];
  Function_getFunctionType := v_type;
  Function_args _ := [];
  Function_blocks := v_ops;
  Function_getEntryBlock := sample_op 0;
  BasicBlock_instructions := v_ops;
  BasicBlock_getTerminator v := last (v_ops v);
  BasicBlock_predecessors _ := [];
  PostDominatorTree_findNearestCommonDominator _ _ _ := None;

  Module_getDataLayout _ := ();
  Module_getGlobalList := m_globals;
  Module_getFunctionList := m_functions;
  Value_use_empty M F := negb (existsb (sample_occurs (v_name F)) (m_functions M));
  Function_eraseFromParent M F := Mod (m_globals M) (sample_remove F (m_functions M));
  parseIRFile _ := file;

  DI_isa _ _ := true;
  DINode_getTag := d_tag;
  DW_TAG_typedef := 0x16;
  DW_TAG_array_type := 0x01;
  DW_TAG_structure_type := 0x13;
  DW_TAG_member := 0x0d;
  DIType_getName := d_name;
  DIType_getBaseType := d_base;
  DICompositeType_getElements := d_elements;

  print_int := sample_int;
  format_hex_no_prefix z _ := sample_digits 64 16 z EmptyString;
  left_justify s w := s +:+ String.string_of_list_ascii (replicate (Z.to_nat w - String.length s) " "%char);
  StringRef_split s sep := sample_split s sep [];
  Regex_match _ s := String.prefix "memset" s;
  isPrint c := let n := Ascii.nat_of_ascii c in (32 <=? n)%nat && (n <=? 126)%nat;
  hexdigit := sample_digit;
  alignTo v a := (v + a - 1) / a * a;
|}.

(** ** The laws *)

Lemma sample_digit_plain z : delimiter (sample_digit z) = false.
Proof.
  assert (H : forall k, (k < 16)%nat -> delimiter
    match String.get k "0123456789ABCDEF" with Some c => c | None => "0"%char end = false).
  { intros k Hk. do 16 (destruct k as [|k]; [done|]). lia. }
  apply H. pose proof (Z.mod_pos_bound z 16). lia.
Qed.

Lemma sample_digits_plain n base z acc : plain acc = true -> plain (sample_digits n base z acc) = true.
Proof.
  revert z acc. induction n as [|n IH]; intros z acc Hacc; [done|]. simpl.
  assert (H : plain (String (sample_digit (z mod base)) acc) = true)
    by (unfold plain; simpl; by rewrite sample_digit_plain).
  destruct (z <? base); [done|]. by apply IH.
Qed.

Lemma sample_int_plain z : plain (sample_int z) = true.
Proof.
  unfold sample_int. destruct (z <? 0); [|by apply sample_digits_plain].
  unfold plain. cbn [all_chars]. apply andb_true_iff. split; [reflexivity|by apply sample_digits_plain].
Qed.

Lemma sample_split_one_line s line :
  Forall (fun c => c <> newline) line ->
  Forall (fun l => one_line l = true) (sample_split s newline line).
Proof.
  assert (Hrev : forall line, Forall (fun c => c <> newline) line ->
    one_line (String.string_of_list_ascii (rev line)) = true).
  { intros l Hl. unfold one_line. apply List.Forall_rev in Hl.
    induction Hl as [|c l' Hc Hl IH]; [done|]. simpl. rewrite IH. by apply Ascii.eqb_neq in Hc as ->. }
  revert line. induction s as [|c s IH]; intros line Hl; simpl; [by repeat constructor; apply Hrev|].
  destruct (Ascii.eqb_spec c newline) as [->|Hc].
  - constructor; [by apply Hrev|]. by apply IH.
  - apply IH. by constructor.
Qed.

Lemma sample_occurs_mentions file F G :
  @mentions (sample_llvm file) F G -> sample_occurs (v_name F) G = true.
Proof.
  induction 1 as [G HF|G C HC Hisa _ IH].
  - destruct G as [c n t k l]. simpl in *. apply existsb_exists. exists F. split; [by apply list_elem_of_In|].
    by rewrite String.eqb_refl.
  - destruct G as [c n t k l]. simpl in *. apply existsb_exists. exists C. split; [by apply list_elem_of_In|].
    by rewrite IH, orb_true_r.
Qed.

Lemma sample_occurs_below name G o : o ∈ v_ops G -> sample_occurs name o = true -> sample_occurs name G = true.
Proof.
  destruct G as [c n t k l]. simpl. intros Ho Hn. apply existsb_exists. exists o.
  split; [by apply list_elem_of_In|]. by rewrite Hn, orb_true_r.
Qed.

#[global] Instance sample_laws file : LlvmLaws (sample_llvm file).
Proof.
  split.
  - exact sample_int_plain.
  - intros o. simpl. repeat case_match; reflexivity.
  - reflexivity.
  - intros s w. by eexists.
  - intros s. by apply sample_split_one_line.
  - intros x _. apply sample_digit_plain.
  - intros c H ->. vm_compute in H. discriminate.
  - intros v a Hv Ha _. simpl. split; [|apply Z.divide_factor_r].
    pose proof (Z.div_mod (v + a - 1) a). pose proof (Z.mod_pos_bound (v + a - 1) a Ha). nia.
  - intros M F l1 l2. simpl. intros Hnd HF. rewrite HF in *. by apply sample_remove_app.
  - intros M G F HG (BB & J & HBB & HJ & HF). simpl in *. apply negb_false_iff, existsb_exists. exists G.
    split; [by apply list_elem_of_In|]. eapply sample_occurs_below; [exact HBB|].
    eapply sample_occurs_below; [exact HJ|]. by eapply sample_occurs_mentions.
Qed.

(** ** A module *)

Definition sample_const (w z : Z) : sample_value := MkValue [ConstantInt] EmptyString (TInt w) z [].
Definition sample_counter : sample_value := MkValue [GlobalVariable] "@counter" (TInt 64) 0 [].
Definition sample_table : sample_value := MkValue [GlobalVariable] "@table" (TArray 4 (TStruct [TInt 32; TPtr])) 0 [].
Definition sample_load : sample_value := MkValue [LoadInst] "%old" (TInt 64) 5 [sample_counter].
Definition sample_add : sample_value := MkValue [] "%new" (TInt 64) 1 [sample_load; sample_const 64 1].
Definition sample_ret : sample_value := MkValue [] "ret" TVoid 6 [sample_add].
Definition sample_exit : sample_value := MkValue [] "%exit" TVoid 0 [sample_ret].
Definition sample_printf : sample_value := MkValue [] "@printf" TPtr 0 [].
Definition sample_step : sample_value := MkValue [] "@step" TPtr 0 [MkValue [] "%entry" TVoid 0 [sample_load; sample_add; sample_ret]].
Definition sample_call : sample_value := MkValue [CallInst] "%r" (TInt 64) 3 [sample_step; sample_const 64 7].
Definition sample_br : sample_value := MkValue [BranchInst] "br" TVoid 2 [MkValue [] "%exit" TVoid 0 []].
Definition sample_main : sample_value :=
  MkValue [] "@main" TPtr 0 [MkValue [] "%entry" TVoid 0 [sample_call; sample_br]; sample_exit].
Definition sample_helper : sample_value := MkValue [] "@helper" TPtr 0 [MkValue [] "%entry" TVoid 0 [MkValue [] "ret" TVoid 6 []]].
Definition sample_unused : sample_value :=
  MkValue [] "@unused" TPtr 0 [MkValue [] "%entry" TVoid 0 [MkValue [CallInst] "call" TVoid 3 [sample_helper]]].
Definition sample_file : sample_module :=
  Mod [sample_counter; sample_table] [sample_printf; sample_helper; sample_step; sample_unused; sample_main].
