(* ===== verification/Emitter.v ===== *)
(** * The LLVM-to-Rosette emitter

    racket/llvm-rosette/RosetteEmitter.cc: a module of LLVM as a Racket
    program.  The state is the text written to the output stream so far; a
    string stream of its own is [to_string].  [assert] calls
    [llvm_unreachable_internal], which does not return.  The operands of [<<]
    are evaluated from left to right.

    [fuel] bounds the nesting of types and constants that the recursive
    functions go down; running out of it is undefined behaviour. *)

From S2P Require Import Prelude LlvmApi.

Definition emit (s : string) : M string unit := mmodify (fun out => out +:+ s).

(** A [raw_string_ostream] and its [str()]. *)
Definition to_string {S} (m : M string unit) : M S string := fun out =>
  match m EmptyString with
  | Ok _ s => Ok s out
  | Panic msg _ => Panic msg out
  | Undef => Undef
  end.

Fixpoint for_each {S A} (l : list A) (f : A -> M S unit) : M S unit :=
  match l with
  | [] => mret ()
  | x :: l => f x;; for_each l f
  end.

Definition newline_text : string := String newline EmptyString.
Definition quote_text : string := String quote EmptyString.
Definition emit_line (s : string) : M string unit := emit (s +:+ newline_text).

(** ** Regular expressions of the C++ library

    [std::regex_match] on the patterns of [emitInlineAsm]: characters and
    repeated classes, some of them captured.  Repetition is greedy and gives
    back one character at a time. *)
Module Regex.

Inductive item : Type :=
  | Char (c : ascii)
  | Many (least : nat) (p : ascii -> bool) (capture : bool).

Fixpoint span (p : ascii -> bool) (s : list ascii) : nat :=
  match s with
  | c :: s => if p c then S (span p s) else 0
  | [] => 0
  end.

Fixpoint regex_match (r : list item) (s : list ascii) : option (list (list ascii)) :=
  match r with
  | [] => match s with [] => Some [] | _ => None end
  | Char c :: r =>
      match s with
      | d :: s => if Ascii.eqb c d then regex_match r s else None
      | [] => None
      end
  | Many least p capture :: r =>
      (fix try (n : nat) :=
         if (n <? least)%nat then None else
         match regex_match r (drop n s), n with
         | Some m, _ => Some (if capture then take n s :: m else m)
         | None, O => None
         | None, S n => try n
         end) (span p s)
  end.

(** [\s] and the classes [[^\s]] and [[^\s,]]. *)
Definition space (c : ascii) : bool :=
  existsb (Ascii.eqb c) (" "%char :: map Ascii.ascii_of_nat [9; 10; 11; 12; 13]%nat).
Definition nonspace (c : ascii) : bool := negb (space c).
Definition word (c : ascii) : bool := negb (space c || Ascii.eqb c ","%char).

Definition one_word : list item := [Many 1 nonspace false].
Definition read_value : list item :=
  [Many 1 nonspace true; Many 1 space false; Char "$"%char; Char "0"%char; Char ","%char;
   Many 0 space false; Many 1 word true].
Definition write_value : list item :=
  [Many 1 nonspace true; Many 1 space false; Many 1 word true; Char ","%char;
   Many 0 space false; Char "$"%char; Char "0"%char].

End Regex.

Section Emitter.
Context `{L : Llvm} (fuel : nat).

(** ** Names, types, strings *)

Definition getName (V : option Value) : M string string :=
  match V with
  | Some V => mret (Value_printAsOperand V)
  | None => mpanic "V"
  end.
Definition emitName (V : Value) : M string unit := s ← getName (Some V); emit s.

Fixpoint getType_rec (n : nat) (T : LType) : M string string :=
  match n with
  | O => mundef
  | S n =>
      to_string (
        if Type_isIntegerTy T then
          emit "(bitvector ";; emit (print_int (Type_getIntegerBitWidth T));; emit ")"
        else if Type_isa StructType T then
          massert (StructType_isLiteral T) "ST->isLiteral()";;
          emit "(list";;
          for_each (StructType_elements T) (fun ET => emit " ";; s ← getType_rec n ET; emit s);;
          emit ")"
        else if Type_isa VectorType T then
          emit "(make-vector ";; emit (print_int (SequentialType_getNumElements T));; emit " ";;
          s ← getType_rec n (SequentialType_getElementType T); emit s;; emit ")"
        else emit quote_text;; emit (Type_print T);; emit quote_text)
  end.
Definition getType : LType -> M string string := getType_rec fuel.
Definition emitType (T : LType) : M string unit := s ← getType T; emit s.

(** [char] is signed on the hosts LLVM runs on. *)
Definition char_value (c : ascii) : Z := (Z.of_N (Ascii.N_of_ascii c) + 128) mod 256 - 128.

Definition printRacketEscaped (S : string) : M string unit :=
  emit ("#" +:+ quote_text);;
  let S := String.list_ascii_of_string S in
  let S := match last S with
           | Some c => if char_value c =? 0 then take (length S - 1) S else S
           | None => S
           end in
  for_each S (fun c =>
    if isPrint c && negb (Ascii.eqb c backslash) && negb (Ascii.eqb c quote)
    then emit (String c EmptyString)
    else emit (String backslash (String "x"%char
           (String (hexdigit (u32 (Z.quot (char_value c) 16)))
             (String (hexdigit (u32 (Z.rem (char_value c) 16))) EmptyString)))));;
  emit quote_text.

(** ** Special functions *)

Definition builtin_pattern : string :=
  "(llvm\.bswap\.i(16|32|64))|" +:+
  "(llvm\.[su](add|sub|mul)\.with\.overflow\.i(16|32|64))|" +:+
  "(llvm\.lifetime\.(start|end)\.p0i8)|" +:+
  "(llvm\.memset\.p0i8\.i64)|" +:+
  "(memset|memzero_explicit)".
Definition isBuiltinFunction (F : Value) : bool := Regex_match builtin_pattern (Value_getName F).

Definition isUBSanFunction (F : Value) : bool := String.prefix "__ubsan_handle_" (Value_getName F).

Definition isAssertFunction (F : Value) : bool :=
  bool_decide (Value_getName F ∈ ["__assert_fail"; "__assert_func"; "__assert_rtn"]).

Definition isDbgFunction (F : Value) : bool := bool_decide (Function_getIntrinsicID F ∈ Intrinsic_dbg).

(** ** [InstVisitor] *)

Section InstVisitor.
Context (DL : DataLayout).

Definition visitGEPOperator (ref : Value -> M string unit) (GEP : Value) : M string unit :=
  emit "(";; emit (Instruction_getOpcodeName (Operator_getOpcode GEP));;
  emit " ";; ref (GEPOperator_getPointerOperand GEP);;
  for_each (gep_types GEP) (fun '(V, ST, IT) =>
    emit " (";;
    match ST with
    | Some ST =>
        massert (isa ConstantInt V) "CI";;
        let idx := ConstantInt_getZExtValue V in
        let offset := StructLayout_getElementOffset DL ST idx in
        emit "struct-offset ";; emit (print_int offset)
    | None =>
        let size := DataLayout_getTypeAllocSize DL IT in
        emit "array-offset ";; ref V;; emit " ";; emit (print_int size)
    end;;
    emit ")");;
  emit ")".

(** The type and alignment of a load or a store. *)
Definition emitAccess (T : LType) (align : Z) : M string unit :=
  (if Type_isPointerTy T then emit " (bitvector 64) #:pointer #t"
   else emit " ";; emitType T);;
  emit " #:align ";; emit (print_int align).

Definition visitOperator (ref : Value -> M string unit) (O : Value) : M string unit :=
  let opcode := Operator_getOpcode O in
  if isa GEPOperator O then visitGEPOperator ref O else
  emit "(";; emit (Instruction_getOpcodeName opcode);;
  (if isa CmpInst O then emit "/";; emit (CmpInst_getPredicateName O) else mret ());;
  for_each (User_operands O) (fun V => emit " ";; ref V);;
  (if Instruction_isCast opcode && negb (opcode =? Instruction_BitCast)
        && negb (opcode =? Instruction_IntToPtr)
   then emit " ";; emitType (Value_getType O) else mret ());;
  (if isa LoadInst O then emitAccess (Value_getType O) (LoadStore_getAlignment O) else mret ());;
  (if isa StoreInst O
   then emitAccess (Value_getType (StoreInst_getValueOperand O)) (LoadStore_getAlignment O)
   else mret ());;
  (if isa ExtractValueInst O
   then for_each (ExtractInsert_indices O) (fun idx => emit " ";; emit (print_int idx)) else mret ());;
  (if isa InsertValueInst O
   then for_each (ExtractInsert_indices O) (fun idx => emit " ";; emit (print_int idx)) else mret ());;
  emit ")".

Fixpoint getRef_rec (n : nat) (V : Value) : M string unit :=
  match n with
  | O => mundef
  | S n =>
      let T := Value_getType V in
      if isa ConstantAggregateZero V then emit "(zeroinitializer ";; emitType T;; emit ")"
      else if isa ConstantInt V then
        emit "(bv ";; emit (print_int (ConstantInt_getValue V));; emit " ";;
        emit (print_int (ConstantInt_getBitWidth V));; emit ")"
      else if isa ConstantExpr V then visitOperator (getRef_rec n) V
      else if isa UndefValue V then emit "(undef ";; emitType T;; emit ")"
      else if isa ConstantVector V || isa ConstantDataVector V then
        emit "(vector";; for_each (User_operands V) (fun V => emit " ";; getRef_rec n V);; emit ")"
      else emit (Value_printAsOperand V)
  end.
Definition getRef : Value -> M string unit := getRef_rec fuel.

Definition visitInstruction (I : Value) : M string unit :=
  let isVoid := Type_isVoidTy (Value_getType I) in
  (if negb isVoid then emit "(set! ";; emitName I;; emit " " else mret ());;
  visitOperator getRef I;;
  (if negb isVoid then emit ")" else mret ()).

Definition visitPHINode (I : Value) : M string unit :=
  emit "(set! ";; emitName I;; emit " (phi";;
  for_each (PHINode_incoming I) (fun '(V, BB) =>
    emit " [";; getRef V;; emit " ";; getRef BB;; emit "]");;
  emit "))".

Definition visitBranchInst (I : Value) : M string unit :=
  emit "(br ";;
  (if negb (BranchInst_isConditional I) then getRef (BranchInst_getSuccessor I 0)
   else getRef (Instruction_getCondition I);; emit " ";;
        getRef (BranchInst_getSuccessor I 0);; emit " ";;
        getRef (BranchInst_getSuccessor I 1));;
  emit ")".

Definition emitInlineAsm (Asm : Value) : M string unit :=
  let s := InlineAsm_getAsmString Asm in
  let chars := String.list_ascii_of_string s in
  let sub := String.string_of_list_ascii in
  emit "asm ";;
  if bool_decide (s = EmptyString) then emit "'nop"
  else match Regex.regex_match Regex.one_word chars with
  | Some _ => emit "'";; emit s
  | None =>
  match Regex.regex_match Regex.read_value chars with
  | Some [m1; m2] => emit "'";; emit (sub m1);; emit " '";; emit (sub m2)
  | _ =>
  match Regex.regex_match Regex.write_value chars with
  | Some [m1; m2] => emit "'";; emit (sub m1);; emit " '";; emit (sub m2)
  | _ => emit quote_text;; emit s;; emit quote_text
  end end end.

Fixpoint emitLiftValue_rec (n : nat) (V : Value) : M string unit :=
  match n with
  | O => mundef
  | S n =>
      let GV := Value_stripPointerCasts V in
      if isa GlobalVariable GV && GlobalVariable_hasInitializer GV
      then emitLiftValue_rec n (Value_stripPointerCasts (GlobalVariable_getInitializer GV))
      else if isa ConstantInt V then emit (print_int (ConstantInt_getValue V))
      else if isa ConstantDataSequential V && ConstantDataSequential_isString V
      then printRacketEscaped (ConstantDataSequential_getAsString V)
      else if isa ConstantAggregate V then
        emit "(list";;
        for_each (User_operands V) (fun V => emit " ";; emitLiftValue_rec n V);;
        emit ")"
      else getRef V
  end.
Definition emitLiftValue : Value -> M string unit := emitLiftValue_rec fuel.

Definition emitUBSan (I : Value) : M string unit :=
  match CallInst_args I with
  | [] => mpanic "I.getNumArgOperands() > 0"
  | data :: handles =>
      match CallInst_getCalledFunction I with
      | None => mpanic "F"
      | Some F =>
          emit "(";; emit (Value_getName F);; emit " ";;
          emitLiftValue data;;
          for_each handles (fun V => emit " ";; getRef V);;
          emit ")"
      end
  end.

Definition emitAssert (I : Value) : M string unit :=
  match CallInst_getCalledFunction I with
  | None => mpanic "F"
  | Some F =>
      emit "(";; emit (Value_getName F);; emit " ";;
      for_each (CallInst_args I) (fun V => emit " ";; emitLiftValue V);;
      emit ")"
  end.

(** The tests of [CF], a callee that may be null. *)
Definition external (p : Value -> bool) (CF : option Value) : bool :=
  match CF with Some F => Function_hasExternalLinkage F && p F | None => false end.

Definition emitCallee (I : Value) (CF : option Value) : M string unit :=
  let V := CallInst_getCalledValue I in
  let call :=
    if isa InlineAsm V then emitInlineAsm V
    else emit (Instruction_getOpcodeName (Operator_getOpcode I));; emit " ";; getRef V in
  match CF with
  | Some F => if isBuiltinFunction F then emit (Value_getName F) else call
  | None => call
  end.

Definition visitCallInst (I : Value) : M string unit :=
  let isVoid := Type_isVoidTy (Value_getType I) in
  let CF := CallInst_getCalledFunction I in
  if external isUBSanFunction CF then emitUBSan I
  else if external isAssertFunction CF then emitAssert I
  else
    (if negb isVoid then emit "(set! ";; emitName I;; emit " " else mret ());;
    emit "(";;
    emitCallee I CF;;
    for_each (CallInst_args I) (fun V => emit " ";; getRef V);;
    emit ")";;
    (if negb isVoid then emit ")" else mret ()).

(** ** Memory layouts *)

Fixpoint stripDITypedef_rec (n : nat) (DT : option DINode) : M string (option DINode) :=
  match n with
  | O => mundef
  | S n =>
      match DT with
      | None => mret None
      | Some D =>
          if negb (DINode_getTag D =? DW_TAG_typedef) then mret DT else
          massert (DI_isa DIDerivedType D) "llvm::isa<llvm::DIDerivedType>(DT)";;
          stripDITypedef_rec n (DIType_getBaseType D)
      end
  end.
Definition stripDITypedef : option DINode -> M string (option DINode) := stripDITypedef_rec fuel.

(** The debugging type and dimension of an array's elements. *)
Definition array_debug (DT : option DINode) (idx : Z) : M string (option DINode * Z) :=
  match DT with
  | None => mret (None, idx)
  | Some D =>
      massert (DINode_getTag D =? DW_TAG_array_type) "DT->getTag() == llvm::dwarf::DW_TAG_array_type";;
      massert (DI_isa DICompositeType D) "llvm::isa<llvm::DICompositeType>(DT)";;
      let idx := u64 (idx + 1) in
      if idx =? Z.of_nat (length (DICompositeType_getElements D))
      then mret (DIType_getBaseType D, 0) else mret (DT, idx)
  end.

(** The debugging information of a structure's fields. *)
Definition struct_debug (T : LType) (DT : option DINode) : M string (list DINode) :=
  match DT with
  | None => mret []
  | Some D =>
      massert (DINode_getTag D =? DW_TAG_structure_type)
        "DT->getTag() == llvm::dwarf::DW_TAG_structure_type";;
      massert (DI_isa DICompositeType D) "llvm::isa<llvm::DICompositeType>(DT)";;
      let Elements := DICompositeType_getElements D in
      massert (length Elements =? length (StructType_elements T))%nat
        "Elements.size() == ST->getNumElements()";;
      mret Elements
  end.

Definition field_debug (DT : option DINode) : M string (option DINode) :=
  match DT with
  | None => mret None
  | Some D =>
      massert (DINode_getTag D =? DW_TAG_member) "DT->getTag() == llvm::dwarf::DW_TAG_member";;
      massert (DI_isa DIDerivedType D) "llvm::isa<llvm::DIDerivedType>(DT)";;
      mret (DIType_getBaseType D)
  end.

Definition field_node (Elements : list DINode) (i : nat) : option DINode :=
  D ← Elements !! i; if DI_isa DIType D then Some D else None.

Fixpoint emitGlobalType_rec (n : nat) (T : LType) (DT : option DINode) (idx : Z) : M string unit :=
  match n with
  | O => mundef
  | S n =>
      DT ← stripDITypedef DT;
      let size := u32 (DataLayout_getTypeAllocSize DL T) in
      if Type_isa ArrayType T then
        let num := SequentialType_getNumElements T in
        let ET := SequentialType_getElementType T in
        let esize := DataLayout_getTypeAllocSize DL ET in
        massert (size =? u64 (esize * num)) "size == esize * AT->getArrayNumElements()";;
        emit "(marray ";; emit (print_int num);; emit " ";;
        '(DT, idx) ← array_debug DT idx;
        emitGlobalType_rec n ET DT idx;;
        emit ")"
      else if Type_isa StructType T then
        Elements ← struct_debug T DT;
        emit "(mstruct ";; emit (print_int size);; emit " (list";;
        for_each (imap pair (StructType_elements T)) (fun '(i, ET) =>
          let DT := field_node Elements i in
          emit " (mfield '";;
          emit (match DT with Some D => DIType_getName D | None => print_int (Z.of_nat i) end);;
          emit " ";; emit (print_int (StructLayout_getElementOffset DL T (Z.of_nat i)));; emit " ";;
          DT ← field_debug DT;
          emitGlobalType_rec n ET DT 0;;
          emit ")");;
        emit "))"
      else
        massert (Type_isIntegerTy T || Type_isPointerTy T) "T->isIntegerTy() || T->isPointerTy()";;
        emit "(mcell ";; emit (print_int size);; emit ")"
  end.
Definition emitGlobalType : LType -> option DINode -> Z -> M string unit := emitGlobalType_rec fuel.

Definition visitAllocaInst (I : Value) : M string unit :=
  emit "(set! ";; emitName I;;
  emit " (";; emit (Instruction_getOpcodeName (Operator_getOpcode I));; emit " ";;
  emitGlobalType (AllocaInst_getAllocatedType I) None 0;;
  emit " #:align ";; emit (print_int (LoadStore_getAlignment I));; emit "))".

Definition visitSwitchInst (I : Value) : M string unit :=
  emit "(";; emit (Instruction_getOpcodeName (Operator_getOpcode I));;
  emit " ";; getRef (Instruction_getCondition I);;
  emit " ";; getRef (SwitchInst_getDefaultDest I);;
  for_each (SwitchInst_cases I) (fun '(V, BB) =>
    emit " [";; getRef V;; emit " ";; getRef BB;; emit "]");;
  emit ")".

(** [llvm::InstVisitor::visit]: the method of the instruction's class, or else
    [visitInstruction]. *)
Definition visit (I : Value) : M string unit :=
  if isa PHINode I then visitPHINode I
  else if isa BranchInst I then visitBranchInst I
  else if isa CallInst I then visitCallInst I
  else if isa AllocaInst I then visitAllocaInst I
  else if isa SwitchInst I then visitSwitchInst I
  else visitInstruction I.

End InstVisitor.

(** [ValueVisitor]. *)
Definition visitValue (I : Value) : M string unit :=
  if Type_isVoidTy (Value_getType I) then mret () else
  emit (newline_text +:+ "  (define-value ");; emitName I;; emit ")".

(** ** [RosetteEmitter] *)

Definition emitPrelude : M string unit :=
  emit_line "; DO NOT MODIFY.";;
  emit_line ";";;
  emit_line "; This file was automatically generated.";;
  emit_line "";;
  emit_line "#lang rosette";;
  emit_line "";;
  emit_line "(provide (all-defined-out))";;
  emit_line "".

Definition emitGlobalVariable (GV : Value) : M string unit :=
  emit (newline_text +:+ "(define-global ");; emitName GV;; emit ")".

(** The instruction as LLVM prints it, as comments, and translated. *)
Definition emitInstruction (M : Module_) (I : Value) : Prelude.M string unit :=
  if isa DbgInfoIntrinsic I then mret () else
  for_each (StringRef_split (Instruction_print M I) newline) (fun line =>
    emit (newline_text +:+ "; ");; emit line);;
  emit (newline_text +:+ "    ");;
  visit (Module_getDataLayout M) I.

Definition merge_label (F BB : Value) : M string string :=
  match BasicBlock_getTerminator BB with
  | None => mundef
  | Some terminator =>
      if isa BranchInst terminator && BranchInst_isConditional terminator then
        match PostDominatorTree_findNearestCommonDominator F
                (BranchInst_getSuccessor terminator 0) (BranchInst_getSuccessor terminator 1) with
        | Some common => getName (Some common)
        | None => mret "#f"
        end
      else mret "#f"
  end.

(** [F] stands for its post-dominator tree. *)
Definition emitBasicBlock (M : Module_) (F BB : Value) : Prelude.M string unit :=
  emit newline_text;;
  s ← getName (Some BB); emit (left_justify ("; " +:+ s) 50);; emit "; preds =";;
  for_each (BasicBlock_predecessors BB) (fun pred => emit " ";; emitName pred);;
  merge ← merge_label F BB;
  emit (newline_text +:+ "  (define-label (");; emitName BB;; emit ")";;
  emit " #:merge ";; emit merge;;
  for_each (BasicBlock_instructions BB) (emitInstruction M);;
  emit_line ")".

Definition special_function (F : Value) : bool :=
  Function_hasExternalLinkage F &&
  (isBuiltinFunction F || isDbgFunction F || isUBSanFunction F || isAssertFunction F).

Definition emitFunction (M : Module_) (F : Value) : Prelude.M string unit :=
  if special_function F then mret () else
  emit (newline_text +:+ "; @");; emit (Value_getName F);; emit ": ";;
  emit_line (Type_print (Function_getFunctionType F));;
  emit "(define-function (@";; emit (Value_getName F);;
  for_each (Function_args F) (fun A =>
    emit " [";; emitName A;; emit " : ";; emitType (Value_getType A);; emit "]");;
  emit ")";;
  if Function_isDeclaration F then emit_line " (unreachable))" else
  for_each (Function_blocks F) (emitBasicBlock M F);;
  emit (newline_text +:+ "; entry");;
  for_each (Function_blocks F) (fun BB => for_each (BasicBlock_instructions BB) visitValue);;
  emit (newline_text +:+ "  (enter! ");; emitName (Function_getEntryBlock F);; emit_line "))".

Definition emitModule (M : Module_) : Prelude.M string unit :=
  emit_line "(require serval/lib/core";;
  emit_line "         serval/llvm";;
  emit_line "         serval/ubsan)";; emit_line "";;
  let DL := Module_getDataLayout M in
  emit "(target-endian '";; emit (if DataLayout_isBigEndian DL then "big" else "little");;
  emit_line ")";;
  emit "(target-pointer-bitwidth ";; emit (print_int (DataLayout_getPointerSizeInBits DL));;
  emit_line ")";;
  for_each (Module_getGlobalList M) emitGlobalVariable;;
  (if bool_decide (Module_getGlobalList M = []) then mret () else emit newline_text);;
  for_each (Module_getFunctionList M) (emitFunction M);;
  emit newline_text.

Definition emitGlobals (M : Module_) : Prelude.M string unit :=
  let DL := Module_getDataLayout M in
  emit_line "(require serval/core)";; emit_line "";;
  emit "(define globals (make-hash (list";;
  for_each (Module_getGlobalList M) (fun GV =>
    name ← getName (Some GV);
    massert (String.prefix "@" name) "name[0] == '@'";;
    let DT := match GlobalVariable_getDebugInfo GV with [DT] => DT | _ => None end in
    emit (newline_text +:+ "  (cons '");; emit (String.substring 1 (String.length name - 1) name);;
    emit " (lambda () ";;
    emitGlobalType DL (GlobalVariable_getValueType GV) DT 0;;
    emit "))");;
  emit_line ")))".

Fixpoint emitSymbols_from (DL : DataLayout) (addr : Z) (l : list Value) : M string unit :=
  match l with
  | [] => mret ()
  | GV :: l =>
      let size := u32 (DataLayout_getTypeAllocSize DL (GlobalVariable_getValueType GV)) in
      let align := u32 (DataLayout_getPreferredAlignment DL GV) in
      let addr := u64 (alignTo addr align) in
      emit (format_hex_no_prefix addr 16);; emit " ";;
      emit (format_hex_no_prefix size 16);; emit " B ";;
      emit_line (Value_getName GV);;
      emitSymbols_from DL (u64 (addr + size)) l
  end.
Definition emitSymbols (M : Module_) : Prelude.M string unit :=
  emitSymbols_from (Module_getDataLayout M) 0x80000000 (Module_getGlobalList M).

End Emitter.
