(* ===== verification/Racket.v ===== *)
(** * Racket text

    How Racket's reader nests: brackets, strings, escapes in strings, line
    comments.  [scan] runs over a text; a text that leaves the reader as it
    found it is a sequence of complete data and comments.  [outputs] says
    what a program that writes to a stream does to the reader of the stream. *)

From S2P Require Import Prelude LlvmApi Emitter.

Inductive mode : Type := Code | Hash | InString | Escape | InComment.

(** The closing brackets still to come, innermost first. *)
Record reader : Type := Reader { rmode : mode; expected : list ascii }.

Definition code_step (c : ascii) (st : list ascii) : option reader :=
  if Ascii.eqb c "("%char then Some (Reader Code (")"%char :: st))
  else if Ascii.eqb c "["%char then Some (Reader Code ("]"%char :: st))
  else if Ascii.eqb c "{"%char then Some (Reader Code ("}"%char :: st))
  else if Ascii.eqb c ")"%char || Ascii.eqb c "]"%char || Ascii.eqb c "}"%char then
    match st with
    | d :: st => if Ascii.eqb c d then Some (Reader Code st) else None
    | [] => None
    end
  else if Ascii.eqb c quote then Some (Reader InString st)
  else if Ascii.eqb c ";"%char then Some (Reader InComment st)
  else if Ascii.eqb c "#"%char then Some (Reader Hash st)
  else if Ascii.eqb c backslash || Ascii.eqb c "|"%char then None
  else Some (Reader Code st).

Definition reader_step (c : ascii) (r : reader) : option reader :=
  let st := expected r in
  match rmode r with
  | Code => code_step c st
  | Hash => if Ascii.eqb c ";"%char then None else code_step c st
  | InString =>
      if Ascii.eqb c quote then Some (Reader Code st)
      else if Ascii.eqb c backslash then Some (Reader Escape st)
      else Some r
  | Escape => Some (Reader InString st)
  | InComment => if Ascii.eqb c newline then Some (Reader Code st) else Some r
  end.

Fixpoint scan (s : string) (r : reader) : option reader :=
  match s with
  | EmptyString => Some r
  | String c s => r' ← reader_step c r; scan s r'
  end.

(** Between data. *)
Abbreviation code st := (Reader Code st).
Definition start : reader := code [].

Lemma app_cons c s t : String c s +:+ t = String c (s +:+ t).
Proof. done. Qed.

Lemma scan_app s t r : scan (s +:+ t) r = r' ← scan s r; scan t r'.
Proof.
  revert r. induction s as [|c s IH]; intros r; [done|]. rewrite app_cons. simpl.
  destruct (reader_step c r); simpl; [apply IH|done].
Qed.

Lemma app_empty_r s : s +:+ EmptyString = s.
Proof. induction s as [|c s IH]; [done|]. by rewrite !app_cons, IH. Qed.

Lemma app_assoc s t u : (s +:+ t) +:+ u = s +:+ (t +:+ u).
Proof. induction s as [|c s IH]; [done|]. by rewrite !app_cons, IH. Qed.

(** ** Texts that leave the reader alone *)

Lemma scan_all (p : ascii -> bool) r s :
  (forall c, p c = true -> reader_step c r = Some r) -> all_chars p s = true -> scan s r = Some r.
Proof.
  intros Hp. induction s as [|c s IH]; [done|]. simpl. intros [Hc Hs]%andb_true_iff.
  rewrite (Hp c Hc). by apply IH.
Qed.

Lemma delimiter_step c st : delimiter c = false -> reader_step c (code st) = Some (code st).
Proof.
  unfold delimiter, reader_step, code_step. cbn [existsb rmode expected].
  intros H. repeat (apply orb_false_iff in H; destruct H as [E H]; rewrite E; clear E). done.
Qed.

Lemma scan_plain s st : plain s = true -> scan s (code st) = Some (code st).
Proof. apply scan_all. intros c Hc%negb_true_iff. by apply delimiter_step. Qed.

Lemma scan_quotable s st : quotable s = true -> scan s (Reader InString st) = Some (Reader InString st).
Proof.
  apply scan_all. intros c [H1 H2]%negb_true_iff%orb_false_iff. unfold reader_step. simpl.
  by rewrite H1, H2.
Qed.

Lemma scan_one_line s st : one_line s = true -> scan s (Reader InComment st) = Some (Reader InComment st).
Proof. apply scan_all. intros c H%negb_true_iff. unfold reader_step. simpl. by rewrite H. Qed.

Lemma all_chars_impl (p q : ascii -> bool) s :
  (forall c, p c = true -> q c = true) -> all_chars p s = true -> all_chars q s = true.
Proof.
  intros Hpq. induction s as [|c s IH]; [done|]. simpl. rewrite !andb_true_iff. intros [Hc Hs]. auto.
Qed.

Lemma plain_char_neq c d : delimiter d = true -> negb (delimiter c) = true -> Ascii.eqb c d = false.
Proof. intros Hd Hc. apply Ascii.eqb_neq. intros ->. by rewrite Hd in Hc. Qed.

Lemma plain_quotable s : plain s = true -> quotable s = true.
Proof. apply all_chars_impl. intros c Hc. by rewrite !(plain_char_neq c _). Qed.

Lemma plain_one_line s : plain s = true -> one_line s = true.
Proof. apply all_chars_impl. intros c Hc. by rewrite (plain_char_neq c). Qed.

Lemma all_chars_app p s t : all_chars p (s +:+ t) = all_chars p s && all_chars p t.
Proof. induction s as [|c s IH]; [done|]. rewrite app_cons. simpl. by rewrite IH, andb_assoc. Qed.

Lemma all_chars_list p l : all_chars p (String.string_of_list_ascii l) = forallb p l.
Proof. induction l as [|c l IH]; [done|]. simpl. by rewrite IH. Qed.

Lemma all_chars_chars p s : forallb p (String.list_ascii_of_string s) = all_chars p s.
Proof. by rewrite <- all_chars_list, String.string_of_list_ascii_of_string. Qed.

(** ** Programs that write *)

Definition outputs {A} (m : M string A) (r r' : reader) (Q : A -> Prop) : Prop :=
  exists t a, (forall out, m out = Ok a (out +:+ t)) /\ scan t r = Some r' /\ Q a.
Abbreviation prints m r r' := (outputs m r r' (fun _ => True)).

Lemma outputs_ret {A} (a : A) r (Q : A -> Prop) : Q a -> outputs (mret a) r r Q.
Proof. intros Ha. exists EmptyString, a. split; [|done]. intros out. by rewrite app_empty_r. Qed.

Lemma outputs_bind {A B} (m : M string A) (k : A -> M string B) r r1 r2 P Q :
  outputs m r r1 P -> (forall a, P a -> outputs (k a) r1 r2 Q) -> outputs (m ≫= k) r r2 Q.
Proof.
  intros (t & a & Hm & Ht & Ha) Hk. destruct (Hk a Ha) as (u & b & Hb & Hu & HQ).
  exists (t +:+ u), b. split; [|split; [by rewrite scan_app, Ht|done]].
  intros out. unfold mbind, M_bind. by rewrite Hm, Hb, app_assoc.
Qed.

Lemma outputs_mono {A} (m : M string A) r r' (P Q : A -> Prop) :
  (forall a, P a -> Q a) -> outputs m r r' P -> outputs m r r' Q.
Proof. intros HPQ (t & a & Hm & Ht & Ha). exists t, a. auto. Qed.

Lemma prints_emit s r r' : scan s r = Some r' -> prints (emit s) r r'.
Proof. intros Hs. by exists s, (). Qed.

Lemma prints_plain s st : plain s = true -> prints (emit s) (code st) (code st).
Proof. intros Hs. by apply prints_emit, scan_plain. Qed.

Lemma prints_assert b msg r : b = true -> prints (massert b msg) r r.
Proof. intros ->. by apply outputs_ret. Qed.

Lemma prints_if (b : bool) (m1 m2 : M string unit) r r' :
  (b = true -> prints m1 r r') -> (b = false -> prints m2 r r') -> prints (if b then m1 else m2) r r'.
Proof. destruct b; auto. Qed.

Lemma prints_for_each {A} (l : list A) f r :
  (forall x, x ∈ l -> prints (f x) r r) -> prints (for_each l f) r r.
Proof.
  induction l as [|x l IH]; intros Hf; simpl; [by apply outputs_ret|].
  eapply outputs_bind; [apply Hf; set_solver|]. intros _ _. apply IH. set_solver.
Qed.

Lemma prints_forallb {A} (l : list A) (p : A -> bool) f r :
  forallb p l = true -> (forall x, p x = true -> prints (f x) r r) -> prints (for_each l f) r r.
Proof.
  intros Hp Hf. apply prints_for_each. intros x Hx. apply Hf.
  rewrite forallb_forall in Hp. by apply Hp, list_elem_of_In.
Qed.

(** A loop that keeps the reader in one of several states. *)
Lemma prints_for_each_among {A} (I : reader -> Prop) (l : list A) f r :
  (forall x r, x ∈ l -> I r -> exists r', I r' /\ prints (f x) r r') ->
  I r -> exists r', I r' /\ prints (for_each l f) r r'.
Proof.
  revert r. induction l as [|x l IH]; intros r Hf Hr; [exists r; split; [done|by apply outputs_ret]|].
  destruct (Hf x r ltac:(set_solver) Hr) as (r1 & Hr1 & H1).
  destruct (IH r1) as (r2 & Hr2 & H2); [intros; apply Hf; [set_solver|done]|done|].
  exists r2. split; [done|]. eapply outputs_bind; [exact H1|]. by intros _ _.
Qed.

(** Text that is a sequence of complete data, and programs that write such
    text. *)
Definition whole (s : string) : Prop := forall st, scan s (code st) = Some (code st).
Definition writes_whole (m : M string unit) : Prop := forall st, prints m (code st) (code st).

Lemma plain_whole s : plain s = true -> whole s.
Proof. intros Hs st. by apply scan_plain. Qed.

Lemma prints_whole s st : whole s -> prints (emit s) (code st) (code st).
Proof. intros Hs. apply prints_emit, Hs. Qed.

Lemma prints_writes_whole m st : writes_whole m -> prints m (code st) (code st).
Proof. auto. Qed.

(** A stream of its own contributes its text as a value. *)
Lemma outputs_to_string (m : M string unit) r : writes_whole m -> outputs (to_string m) r r whole.
Proof.
  intros H. destruct (H []) as (t & [] & Ht & _). exists EmptyString, t. split_and!; [|done|].
  - intros out. unfold to_string. by rewrite Ht, app_empty_r.
  - intros st. destruct (H st) as (u & [] & Hu & Hs & _).
    enough (t = u) as -> by done. specialize (Hu EmptyString). rewrite Ht in Hu. by injection Hu.
Qed.

Lemma writes_whole_value (m : M string string) :
  (forall r, outputs m r r whole) -> writes_whole (s ← m; emit s).
Proof. intros Hm st. eapply outputs_bind; [apply Hm|]. intros s Hs. by apply prints_whole. Qed.

(** [prints_step] runs the next statement of a program that writes: literals,
    plain text ([plain]) and programs that write complete data ([whole]);
    [prints] runs as many as it can. *)
Create HintDb plain.
Create HintDb whole.
#[export] Hint Resolve plain_whole : plain.
#[export] Hint Extern 1 (plain _ = true) => reflexivity : plain.

Ltac prints_stmt :=
  first
    [ apply prints_whole; solve [auto with plain]
    | apply prints_emit; reflexivity
    | apply prints_assert; solve [auto with plain]
    | apply (outputs_ret _ _ (fun _ => True)); exact Logic.I
    | apply prints_writes_whole; solve [auto with whole] ].
Ltac prints_step :=
  cbn [expected rmode];
  lazymatch goal with
  | |- outputs (_ ≫= _) _ _ _ => eapply outputs_bind; [first [prints_stmt | solve [prints]] | intros _ _]
  | |- outputs (mret _) _ _ _ =>
      first [apply (outputs_ret _ _ (fun _ => True)); exact Logic.I | apply outputs_ret; done]
  | |- outputs _ _ _ _ => prints_stmt
  end
with prints := repeat prints_step.
(** A statement that [tac] proves to leave the reader alone, then the rest. *)
Tactic Notation "prints" "by" tactic3(tac) :=
  eapply outputs_bind; [solve [tac] | intros _ _; prints].
