(* ===== verification/EmitterLayout.v ===== *)
(** * Memory layouts

    [emitGlobalType] of racket/llvm-rosette/RosetteEmitter.cc against a tree of
    cells, arrays and structures: what it prints is a tree of the shape that
    LLVM's types and data layout give, whatever the debugging information. *)

From S2P Require Import Prelude LlvmApi LlvmSample Emitter Racket.

(** [mcell], [marray] and [mstruct] of the Racket library, with the name and
    the offset of each field. *)
#[warnings="-register-all"]
Inductive block : Type :=
  | Cell (size : Z)
  | Array (num : Z) (b : block)
  | Struct (size : Z) (fields : list (string * Z * block)).

Section Layout.
Context `{LL : !LlvmLaws L} (DL : DataLayout).

Fixpoint show_block (b : block) : string :=
  match b with
  | Cell size => "(mcell " +:+ print_int size +:+ ")"
  | Array num b => "(marray " +:+ print_int num +:+ " " +:+ show_block b +:+ ")"
  | Struct size fields =>
      "(mstruct " +:+ print_int size +:+ " (list" +:+
      foldr (fun '(name, offset, b) s =>
        " (mfield '" +:+ name +:+ " " +:+ print_int offset +:+ " " +:+ show_block b +:+ ")" +:+ s)
        EmptyString fields +:+ "))"
  end.

(** The layout without the names of its fields. *)
Fixpoint shape (b : block) : block :=
  match b with
  | Cell size => Cell size
  | Array num b => Array num (shape b)
  | Struct size fields => Struct size (map (fun '(_, offset, b) => (EmptyString, offset, shape b)) fields)
  end.

Fixpoint names_plain (b : block) : bool :=
  match b with
  | Cell _ => true
  | Array _ b => names_plain b
  | Struct _ fields => forallb (fun '(name, _, b) => plain name && names_plain b) fields
  end.

(** The layout of a type, as LLVM lays it out; fields are named by number.
    There is none for a type without a fixed layout, nor for an array whose
    size does not fit 32 bits. *)
Fixpoint type_block (n : nat) (T : LType) : option block :=
  match n with
  | O => None
  | S n =>
      let size := u32 (DataLayout_getTypeAllocSize DL T) in
      if Type_isa ArrayType T then
        let num := SequentialType_getNumElements T in
        let ET := SequentialType_getElementType T in
        if size =? u64 (DataLayout_getTypeAllocSize DL ET * num)
        then Array num <$> type_block n ET else None
      else if Type_isa StructType T then
        bs ← mapM (type_block n) (StructType_elements T);
        Some (Struct size (imap (fun i b =>
          (print_int (Z.of_nat i), StructLayout_getElementOffset DL T (Z.of_nat i), b)) bs))
      else if Type_isIntegerTy T || Type_isPointerTy T then Some (Cell size) else None
  end.

(** [DT] without typedefs, if it is at most [n] of them deep. *)
Fixpoint strip (n : nat) (DT : option DINode) : option (option DINode) :=
  match n, DT with
  | O, _ => None
  | S _, None => Some None
  | S n, Some D =>
      if negb (DINode_getTag D =? DW_TAG_typedef) then Some DT
      else if DI_isa DIDerivedType D then strip n (DIType_getBaseType D) else None
  end.

Definition member_ok (E : DINode) : bool :=
  implb (DI_isa DIType E)
    ((DINode_getTag E =? DW_TAG_member) && DI_isa DIDerivedType E && plain (DIType_getName E)).

Definition member_type (E : option DINode) : option DINode := E ≫= DIType_getBaseType.

(** The debugging information [DT] describes [T], an array from its dimension
    [idx] on: an array type lists all its dimensions, a structure one member
    for each element. *)
Fixpoint describes (n : nat) (T : LType) (DT : option DINode) (idx : Z) : bool :=
  match n with
  | O => false
  | S m =>
      match strip n DT with
      | None => false
      | Some DT =>
          if Type_isa ArrayType T then
            let ET := SequentialType_getElementType T in
            match DT with
            | None => describes m ET None idx
            | Some D =>
                (DINode_getTag D =? DW_TAG_array_type) && DI_isa DICompositeType D &&
                if u64 (idx + 1) =? Z.of_nat (length (DICompositeType_getElements D))
                then describes m ET (DIType_getBaseType D) 0
                else describes m ET DT (u64 (idx + 1))
            end
          else if Type_isa StructType T then
            match DT with
            | None => forallb (fun ET => describes m ET None 0) (StructType_elements T)
            | Some D =>
                let Elements := DICompositeType_getElements D in
                (DINode_getTag D =? DW_TAG_structure_type) && DI_isa DICompositeType D &&
                (length Elements =? length (StructType_elements T))%nat &&
                forallb member_ok Elements &&
                forallb (fun '(i, ET) => describes m ET (member_type (field_node Elements i)) 0)
                  (imap pair (StructType_elements T))
            end
          else true
      end
  end.

(** ** Programs that print one text *)

Definition says (m : M string unit) (s : string) : Prop := forall out, m out = Ok () (out +:+ s).

Lemma says_emit s : says (emit s) s.
Proof. done. Qed.

Lemma says_bind m k s t : says m s -> says k t -> says (m;; k) (s +:+ t).
Proof. intros Hm Hk out. unfold mbind, M_bind. by rewrite Hm, Hk, app_assoc. Qed.

Lemma says_emit_bind s k t : says k t -> says (emit s;; k) (s +:+ t).
Proof. apply says_bind, says_emit. Qed.

Lemma says_value {A} (m : M string A) a k s :
  (forall out, m out = Ok a out) -> says (k a) s -> says (m ≫= k) s.
Proof. intros Hm Hk out. unfold mbind, M_bind. by rewrite Hm. Qed.

Lemma strip_eq n m DT DT' :
  strip n DT = Some DT' -> (n <= m)%nat -> forall out, stripDITypedef_rec m DT out = Ok DT' out.
Proof.
  revert m DT. induction n as [|n IH]; intros [|m] DT; [done..|lia|]. intros Hs Hm out. simpl in *.
  destruct DT as [D|]; [|by injection Hs as <-].
  destruct (negb _); [by injection Hs as <-|]. destruct (DI_isa _ _); [|done].
  simpl. apply IH; [done|lia].
Qed.


(** A structure's elements with their numbers, and its fields. *)
Definition numbered_field (n : nat) (T : LType) (x : nat * LType) (f : string * Z * block) : Prop :=
  exists b, type_block n x.2 = Some b /\
    f = (print_int (Z.of_nat x.1), StructLayout_getElementOffset DL T (Z.of_nat x.1), b).

Lemma numbered_fields n T Ts bs :
  mapM (type_block n) Ts = Some bs ->
  Forall2 (numbered_field n T) (imap pair Ts) (imap (fun i b =>
    (print_int (Z.of_nat i), StructLayout_getElementOffset DL T (Z.of_nat i), b)) bs).
Proof.
  intros H%mapM_Some. rewrite Forall2_lookup in H. apply Forall2_lookup. intros i.
  rewrite !list_lookup_imap. destruct (H i) as [ET b Hb|]; constructor. by exists b.
Qed.

Lemma forall2_choice {A B} (R : A -> B -> Prop) (P : A -> B -> B -> Prop) l k :
  Forall2 R l k -> (forall x y, x ∈ l -> R x y -> exists z, P x y z) -> exists k', Forall3 P l k k'.
Proof.
  induction 1 as [|x y l k HR _ IH]; intros HP; [exists []; constructor|].
  destruct (HP x y ltac:(set_solver) HR) as [z Hz], IH as [k' Hk]; [set_solver|].
  exists (z :: k'). by constructor.
Qed.

Definition show_field (f : string * Z * block) : string :=
  let '(name, offset, b) := f in
  " (mfield '" +:+ name +:+ " " +:+ print_int offset +:+ " " +:+ show_block b +:+ ")".

Definition shape_field (f : string * Z * block) : string * Z * block := (EmptyString, f.1.2, shape f.2).
Definition plain_field (f : string * Z * block) : bool := plain f.1.1 && names_plain f.2.

(** [f'] is [f] up to names, plain, and [f] itself without debugging
    information, and printed by [m]. *)
Definition field_printed (nodebug : Prop) (m : M string unit) (f f' : string * Z * block) : Prop :=
  shape_field f' = shape_field f /\ plain_field f' = true /\ (nodebug -> f' = f) /\ says m (show_field f').

Lemma fields_printed {A} nodebug (body : A -> M string unit) l fs fs' :
  Forall3 (fun x => field_printed nodebug (body x)) l fs fs' ->
  map shape_field fs' = map shape_field fs /\ forallb plain_field fs' = true /\
  (nodebug -> fs' = fs) /\
  says (for_each l body) (foldr (fun f s => show_field f +:+ s) EmptyString fs').
Proof.
  induction 1 as [|x f f' l fs fs' (H1 & H2 & H3 & H4) _ (I1 & I2 & I3 & I4)].
  - split_and!; try done. intros out. simpl. by rewrite app_empty_r.
  - split_and!; simpl.
    + by rewrite H1, I1.
    + by rewrite H2, I2.
    + intros Hn. by rewrite H3, I3.
    + by apply says_bind.
Qed.

Lemma shape_struct size fs : shape (Struct size fs) = Struct size (map shape_field fs).
Proof. simpl. f_equal. apply map_ext. by intros [[? ?] ?]. Qed.

Lemma show_struct size fs :
  show_block (Struct size fs)
  = "(mstruct " +:+ print_int size +:+ " (list" +:+
    foldr (fun f s => show_field f +:+ s) EmptyString fs +:+ "))".
Proof.
  simpl. do 3 f_equal. f_equal. induction fs as [|[[name offset] b] fs IH]; [done|]. simpl.
  rewrite IH. by rewrite !app_assoc.
Qed.

Lemma names_plain_struct size fs : names_plain (Struct size fs) = forallb plain_field fs.
Proof. simpl. apply forallb_ext. by intros [[? ?] ?]. Qed.

(** [m] prints a layout that is [b] up to the names of fields. *)
Definition prints_block (nodebug : Prop) (m : M string unit) (b : block) : Prop :=
  exists b', shape b' = shape b /\ names_plain b' = true /\ (nodebug -> b' = b) /\ says m (show_block b').

Lemma prints_block_mono (P Q : Prop) m b : (Q -> P) -> prints_block P m b -> prints_block Q m b.
Proof. intros HQ (b' & H1 & H2 & H3 & H4). exists b'. split_and!; auto. Qed.

Lemma prints_block_ext nodebug m m' b :
  (forall out, m' out = m out) -> prints_block nodebug m b -> prints_block nodebug m' b.
Proof.
  intros He (b' & H1 & H2 & H3 & H4). exists b'. split_and!; auto. intros out. rewrite He. apply H4.
Qed.

Lemma array_printed nodebug num m b :
  prints_block nodebug m b ->
  prints_block nodebug (emit "(marray ";; emit (print_int num);; emit " ";; m;; emit ")") (Array num b).
Proof.
  intros (b' & Hs & Hp & Hn & Hm). exists (Array num b'). split_and!; simpl.
  - by rewrite Hs.
  - done.
  - intros Hd. by rewrite Hn.
  - do 3 apply says_emit_bind. apply says_bind; [done|apply says_emit].
Qed.

Section Emit.
Context (fuel : nat).

Lemma field_eq nodebug n m T i ET E f :
  numbered_field n T (i, ET) f ->
  (forall D, E = Some D -> DI_isa DIType D = true /\ member_ok D = true) ->
  (nodebug -> E = None) ->
  (forall b, type_block n ET = Some b ->
     prints_block (member_type E = None) (emitGlobalType_rec fuel DL m ET (member_type E) 0) b) ->
  exists f', field_printed nodebug
    (emit " (mfield '";;
     emit (match E with Some D => DIType_getName D | None => print_int (Z.of_nat i) end);;
     emit " ";; emit (print_int (StructLayout_getElementOffset DL T (Z.of_nat i)));; emit " ";;
     DT ← field_debug E;
     emitGlobalType_rec fuel DL m ET DT 0;;
     emit ")") f f'.
Proof.
  intros (b & Hb & ->) HE Hn Hm. simpl in Hb. destruct (Hm b Hb) as (b' & H1 & H2 & H3 & H4). simpl.
  exists (match E with Some D => DIType_getName D | None => print_int (Z.of_nat i) end,
     StructLayout_getElementOffset DL T (Z.of_nat i), b'). split_and!.
  - unfold shape_field. simpl. by rewrite H1.
  - unfold plain_field. simpl. apply andb_true_iff. split; [|done]. destruct E as [D|]; [|apply print_int_plain].
    destruct (HE D eq_refl) as [Ht Hok]. unfold member_ok in Hok. rewrite Ht in Hok.
    by apply andb_true_iff in Hok as [_ Hok].
  - intros HN. rewrite (Hn HN) in *. by rewrite H3.
  - simpl. do 5 apply says_emit_bind. eapply (says_value _ (member_type E)).
    + intros out. destruct E as [D|]; [|done]. destruct (HE D eq_refl) as [Ht Hok].
      unfold member_ok in Hok. rewrite Ht in Hok. unfold field_debug. apply andb_true_iff in Hok as [[-> ->]%andb_true_iff _]. done.
    + apply says_bind; [done|apply says_emit].
Qed.

(** The structure's fields, whose debugging information is [Elements]. *)
Lemma struct_printed nodebug n m T Elements bs :
  mapM (type_block n) (StructType_elements T) = Some bs ->
  forallb member_ok Elements = true ->
  (nodebug -> Elements = []) ->
  (forall i ET b, StructType_elements T !! i = Some ET -> type_block n ET = Some b ->
     let DT := member_type (field_node Elements i) in
     prints_block (DT = None) (emitGlobalType_rec fuel DL m ET DT 0) b) ->
  prints_block nodebug
    (let size := u32 (DataLayout_getTypeAllocSize DL T) in
     emit "(mstruct ";; emit (print_int size);; emit " (list";;
     for_each (imap pair (StructType_elements T)) (fun '(i, ET) =>
       let DT := field_node Elements i in
       emit " (mfield '";;
       emit (match DT with Some D => DIType_getName D | None => print_int (Z.of_nat i) end);;
       emit " ";; emit (print_int (StructLayout_getElementOffset DL T (Z.of_nat i)));; emit " ";;
       DT ← field_debug DT;
       emitGlobalType_rec fuel DL m ET DT 0;;
       emit ")");;
     emit "))")
    (Struct (u32 (DataLayout_getTypeAllocSize DL T)) (imap (fun i b =>
       (print_int (Z.of_nat i), StructLayout_getElementOffset DL T (Z.of_nat i), b)) bs)).
Proof.
  intros Hbs Hok Hn Hm.
  match goal with |- context [for_each _ ?f] => set (body := f) end.
  edestruct (forall2_choice (numbered_field n T) (fun x => field_printed nodebug (body x))) as [fs' Hfs'];
    [by apply numbered_fields| |edestruct (fields_printed nodebug _ _ _ _ Hfs') as (F1 & F2 & F3 & F4)].
  - intros [i ET] f Hx Hf. eapply field_eq; [exact Hf|..].
    + intros D HD. unfold field_node in HD. destruct (Elements !! i) as [E|] eqn:HE; [|done].
      simpl in HD. destruct (DI_isa DIType E) eqn:Ht; [|done]. injection HD as <-. split; [done|].
      rewrite forallb_forall in Hok. apply Hok, list_elem_of_In. by eapply list_elem_of_lookup_2.
    + intros HN. by rewrite Hn.
    + intros b Hb. apply list_elem_of_lookup in Hx as [k Hk]. rewrite list_lookup_imap in Hk.
      destruct (StructType_elements T !! k) as [ET'|] eqn:HET; [|done]. injection Hk as -> ->.
      by eapply Hm.
  - eexists (Struct _ fs'). split_and!.
    + rewrite !shape_struct. by rewrite F1.
    + by rewrite names_plain_struct.
    + intros HN. by rewrite F3.
    + rewrite show_struct. do 3 apply says_emit_bind. apply says_bind; [exact F4|apply says_emit].
Qed.
Lemma prints_block_value {A} nodebug (m : M string A) a k b :
  (forall out, m out = Ok a out) -> prints_block nodebug (k a) b -> prints_block nodebug (m ≫= k) b.
Proof. intros Hm (b' & H1 & H2 & H3 & H4). exists b'. split_and!; auto. by eapply says_value. Qed.

Lemma assert_eq (c : bool) msg (out : string) : c = true -> massert c msg out = Ok () out.
Proof. by intros ->. Qed.

Lemma emitGlobalType_rec_spec n m T DT idx b :
  (n <= m)%nat -> (n <= fuel)%nat -> type_block n T = Some b -> describes n T DT idx = true ->
  prints_block (DT = None) (emitGlobalType_rec fuel DL m T DT idx) b.
Proof.
  revert m T DT idx b. induction n as [|n IH]; intros [|m] T DT idx b; [done..|lia|].
  intros Hm Hf Hb Hd. cbn [type_block describes emitGlobalType_rec] in *.
  destruct (strip (S n) DT) as [DT'|] eqn:Hstrip; [|done].
  apply (prints_block_mono (DT' = None)); [by intros ->; injection Hstrip as <-|].
  apply (prints_block_value _ _ DT'); [by eapply strip_eq|]. clear DT Hstrip.
  destruct (Type_isa ArrayType T).
  { destruct (u32 _ =? u64 _) eqn:Hsize; [|done]. apply fmap_Some in Hb as (b' & Hb & ->).
    apply (prints_block_value _ _ ()); [by intros out; apply assert_eq|].
    destruct DT' as [D|].
    - apply andb_true_iff in Hd as [[Htag Hcomp]%andb_true_iff Hd].
      set (r := if u64 (idx + 1) =? Z.of_nat (length (DICompositeType_getElements D))
                then (DIType_getBaseType D, 0) else (Some D, u64 (idx + 1))).
      apply (prints_block_ext _ (emit "(marray ";; emit (print_int (SequentialType_getNumElements T));;
        emit " ";; emitGlobalType_rec fuel DL m (SequentialType_getElementType T) r.1 r.2;; emit ")")).
      + intros out. unfold mbind, M_bind, emit, mmodify, array_debug. rewrite Htag, Hcomp. simpl.
        subst r. by case_match.
      + apply array_printed, (prints_block_mono (r.1 = None)); [done|].
        apply IH; [lia|lia|done|]. subst r. by case_match.
    - apply (prints_block_ext _ (emit "(marray ";; emit (print_int (SequentialType_getNumElements T));;
        emit " ";; emitGlobalType_rec fuel DL m (SequentialType_getElementType T) None idx;; emit ")")).
      + done.
      + apply array_printed, (prints_block_mono (None = @None DINode)); [done|]. apply IH; [lia|lia|done..]. }
  destruct (Type_isa StructType T).
  { apply bind_Some in Hb as (bs & Hbs & Hb). injection Hb as <-.
    assert (Hrec : forall ET b DT, type_block n ET = Some b -> describes n ET DT 0 = true ->
      prints_block (DT = None) (emitGlobalType_rec fuel DL m ET DT 0) b)
      by (intros; apply IH; [lia|lia|done..]).
    destruct DT' as [D|].
    - rewrite !andb_true_iff in Hd. destruct Hd as [[[[Htag Hcomp] Hlen] Hmem] Hel].
      apply (prints_block_value _ _ (DICompositeType_getElements D)).
      { intros out. unfold struct_debug. by rewrite Htag, Hcomp, Hlen. }
      apply (struct_printed _ n); [done|done|done|]. intros i ET b' HET Hb'. apply Hrec; [done|].
      rewrite forallb_forall in Hel. apply (Hel (i, ET)), list_elem_of_In, list_elem_of_lookup.
      exists i. by rewrite list_lookup_imap, HET.
    - apply (prints_block_value _ _ []); [done|].
      apply (struct_printed _ n); [done|done|done|]. intros i ET b' HET Hb'. apply Hrec; [done|].
      rewrite forallb_forall in Hd. apply Hd, list_elem_of_In. by eapply list_elem_of_lookup_2. }
  destruct (Type_isIntegerTy T || Type_isPointerTy T); [|done]. injection Hb as <-.
  exists (Cell (u32 (DataLayout_getTypeAllocSize DL T))). split_and!; try done.
  simpl. do 2 apply says_emit_bind. apply says_emit.
Qed.
End Emit.

Lemma scan_texts s t r r1 r2 : scan s r = Some r1 -> scan t r1 = r2 -> scan (s +:+ t) r = r2.
Proof. intros Hs Ht. by rewrite scan_app, Hs. Qed.

Ltac scan_literal := eapply scan_texts; [reflexivity|].
Ltac scan_plain := eapply scan_texts; [apply plain_whole; (done || apply print_int_plain)|].

(** Only typedefs are stripped: a structure whose debugging type is qualified,
    as [const] is, fails an assertion. *)
Lemma qualified_struct fuel T D idx out :
  Type_isa ArrayType T = false -> Type_isa StructType T = true ->
  DINode_getTag D <> DW_TAG_typedef -> DINode_getTag D <> DW_TAG_structure_type -> (0 < fuel)%nat ->
  emitGlobalType fuel DL T (Some D) idx out
  = Panic "DT->getTag() == llvm::dwarf::DW_TAG_structure_type" out.
Proof.
  intros HA HS H1%Z.eqb_neq H2%Z.eqb_neq Hf. destruct fuel as [|fuel]; [lia|].
  unfold emitGlobalType. cbn [emitGlobalType_rec]. unfold stripDITypedef. cbn [stripDITypedef_rec].
  rewrite H1, HA, HS. unfold mbind, M_bind, mret, M_ret. cbn [negb]. cbv beta iota.
  unfold struct_debug. by rewrite H2.
Qed.

(** A layout with plain names is complete data. *)
Fixpoint show_block_whole (b : block) : names_plain b = true -> whole (show_block b).
Proof.
  destruct b as [size|num b|size fields]; intros Hb st.
  - simpl. scan_literal. scan_plain. done.
  - simpl in *. scan_literal. scan_plain. scan_literal.
    eapply scan_texts; [by apply show_block_whole|]. done.
  - rewrite names_plain_struct in Hb. rewrite show_struct. scan_literal. scan_plain. scan_literal.
    match goal with |- scan _ (code ?l) = _ => apply (scan_texts _ _ _ (code l)); [generalize l|done] end.
    clear st.
    induction fields as [|[[name offset] b] fields IH]; [done|]. intros st'. simpl in Hb |- *.
    apply andb_true_iff in Hb as [[Hname Hb]%andb_true_iff Hfields].
    eapply scan_texts; [|by apply IH]. scan_literal. scan_plain. scan_literal. scan_plain. scan_literal.
    eapply scan_texts; [by apply show_block_whole|]. done.
Qed.

Definition layout_ok (n : nat) (T : LType) (DT : option DINode) (idx : Z) : bool :=
  match type_block n T with Some _ => describes n T DT idx | None => false end.

Lemma emitGlobalType_whole fuel n T DT idx :
  (n <= fuel)%nat -> layout_ok n T DT idx = true -> writes_whole (emitGlobalType fuel DL T DT idx).
Proof.
  intros Hn Hok st. unfold layout_ok in Hok. destruct (type_block n T) as [b|] eqn:Hb; [|done].
  destruct (emitGlobalType_rec_spec fuel n fuel T DT idx b Hn Hn Hb Hok) as (b' & _ & Hp & _ & Hm).
  exists (show_block b'), (). split_and!; [exact Hm|by apply show_block_whole|done].
Qed.

(** C33: on a type with a fixed layout that fits 32 bits, and debugging
    information that describes it or none, [emitGlobalType] returns and
    prints a tree of [mcell], [marray] and [mstruct] of the shape that LLVM's
    types, sizes and offsets give: the debugging information, through any
    typedefs and array dimensions, only chooses the names of fields, which
    without it are numbers. *)
Theorem emitGlobalType_spec fuel n T DT idx b :
  (n <= fuel)%nat -> type_block n T = Some b -> describes n T DT idx = true ->
  exists b', shape b' = shape b /\ (DT = None -> b' = b) /\
    forall out, emitGlobalType fuel DL T DT idx out = Ok () (out +:+ show_block b').
Proof.
  intros Hn Hb Hd.
  destruct (emitGlobalType_rec_spec fuel n fuel T DT idx b Hn Hn Hb Hd) as (b' & H1 & _ & H2 & H3).
  by exists b'.
Qed.

End Layout.

(** *** A table of records, with its debugging information through a typedef *)

Definition sample_record_debug : sample_debug :=
  MkDebug 0x13 "record" None [MkDebug 0x0d "count" (Some (MkDebug 0x24 "int" None [])) []; MkDebug 0x0d "next" None []].
Definition sample_table_debug : sample_debug :=
  MkDebug 0x16 "table_t" (Some (MkDebug 0x01 EmptyString (Some sample_record_debug) [MkDebug 0x21 EmptyString None []])) [].

Lemma emitGlobalType_spec_witness :
  exists b',
    @emitGlobalType (sample_llvm None) 5 () (v_type sample_table) (Some sample_table_debug) 0 EmptyString
      = Ok () (@show_block (sample_llvm None) b') /\
    shape b' = Array 4 (Struct 12 [(EmptyString, 0, Cell 4); (EmptyString, 4, Cell 8)]).
Proof.
  destruct (emitGlobalType_spec (L := sample_llvm None) () 5 5 (v_type sample_table) (Some sample_table_debug) 0
    (Array 4 (Struct 12 [("0", 0, Cell 4); ("1", 4, Cell 8)])) ltac:(lia) eq_refl eq_refl)
    as (b' & Hshape & _ & He).
  exists b'. split; [exact (He EmptyString)|exact Hshape].
Defined.
