(* ===== verification/EmitterSpec.v ===== *)
(** * The emitter writes complete Racket programs

    Which modules the emitter supports, as executable tests that follow the
    nesting of types and constants to a depth [n], and that with at least
    that much fuel it returns and leaves Racket's reader where it was. *)

From S2P Require Import Prelude LlvmApi Emitter Racket EmitterLayout.

(** ** The texts that the emitter chooses *)

#[export] Hint Extern 1 (plain (print_int _) = true) => apply print_int_plain : plain.
#[export] Hint Extern 1 (plain (Instruction_getOpcodeName _) = true) => apply getOpcodeName_plain : plain.
#[export] Hint Extern 1 (plain (CmpInst_getPredicateName _) = true) => apply getPredicateName_plain : plain.

Section Readable.
Context `{LL : !LlvmLaws L}.

(** ** What is supported *)

Fixpoint type_ok (n : nat) (T : LType) : bool :=
  match n with
  | O => false
  | S n =>
      if Type_isIntegerTy T then true
      else if Type_isa StructType T
      then StructType_isLiteral T && forallb (type_ok n) (StructType_elements T)
      else if Type_isa VectorType T then type_ok n (SequentialType_getElementType T)
      else quotable (Type_print T)
  end.

Definition name_ok (V : Value) : bool := plain (Value_printAsOperand V).

Definition access_ok (n : nat) (T : LType) : bool := Type_isPointerTy T || type_ok n T.

Definition index_ok (ok : Value -> bool) : Value * option LType * LType -> bool :=
  fun '(V, ST, IT) => match ST with Some _ => isa ConstantInt V | None => ok V end.

Definition operator_ok (n : nat) (ok : Value -> bool) (O : Value) : bool :=
  if isa GEPOperator O
  then ok (GEPOperator_getPointerOperand O) && forallb (index_ok ok) (gep_types O)
  else
    forallb ok (User_operands O) &&
    implb (Instruction_isCast (Operator_getOpcode O)) (type_ok n (Value_getType O)) &&
    implb (isa LoadInst O) (access_ok n (Value_getType O)) &&
    implb (isa StoreInst O) (access_ok n (Value_getType (StoreInst_getValueOperand O))).

Fixpoint ref_ok (n : nat) (V : Value) : bool :=
  match n with
  | O => false
  | S m =>
      if isa ConstantAggregateZero V then type_ok n (Value_getType V)
      else if isa ConstantInt V then true
      else if isa ConstantExpr V then operator_ok n (ref_ok m) V
      else if isa UndefValue V then type_ok n (Value_getType V)
      else if isa ConstantVector V || isa ConstantDataVector V then forallb (ref_ok m) (User_operands V)
      else name_ok V
  end.

Fixpoint lift_ok (n : nat) (V : Value) : bool :=
  match n with
  | O => false
  | S m =>
      let GV := Value_stripPointerCasts V in
      if isa GlobalVariable GV && GlobalVariable_hasInitializer GV
      then lift_ok m (Value_stripPointerCasts (GlobalVariable_getInitializer GV))
      else if isa ConstantInt V then true
      else if isa ConstantDataSequential V && ConstantDataSequential_isString V
      then forallb (fun c => 0 <=? char_value c) (String.list_ascii_of_string (ConstantDataSequential_getAsString V))
      else if isa ConstantAggregate V then forallb (lift_ok m) (User_operands V)
      else ref_ok n V
  end.

(** An assembly text that is not one line of a supported form is quoted. *)
Definition one_liner (s : string) : bool :=
  let matches r := match Regex.regex_match r (String.list_ascii_of_string s) with Some _ => true | None => false end in
  matches Regex.one_word || matches Regex.read_value || matches Regex.write_value.
Definition asm_ok (V : Value) : bool :=
  let s := InlineAsm_getAsmString V in if one_liner s then plain s else quotable s.

(** The result of an instruction that has one is defined under its name. *)
Definition result_ok (I : Value) : bool := Type_isVoidTy (Value_getType I) || name_ok I.

Definition callee_ok (n : nat) (I : Value) : bool :=
  let V := CallInst_getCalledValue I in
  let call := if isa InlineAsm V then asm_ok V else ref_ok n V in
  match CallInst_getCalledFunction I with
  | Some F => if isBuiltinFunction F then plain (Value_getName F) else call
  | None => call
  end.

Definition call_ok (n : nat) (I : Value) : bool :=
  let CF := CallInst_getCalledFunction I in
  let named := match CF with Some F => plain (Value_getName F) | None => false end in
  if external isUBSanFunction CF then
    named && match CallInst_args I with
             | [] => false
             | data :: handles => lift_ok n data && forallb (ref_ok n) handles
             end
  else if external isAssertFunction CF then named && forallb (lift_ok n) (CallInst_args I)
  else result_ok I && callee_ok n I && forallb (ref_ok n) (CallInst_args I).

Definition pair_ok (n : nat) : Value * Value -> bool := fun '(V, BB) => ref_ok n V && ref_ok n BB.

Definition instruction_ok (DL : DataLayout) (n : nat) (I : Value) : bool :=
  if isa PHINode I then name_ok I && forallb (pair_ok n) (PHINode_incoming I)
  else if isa BranchInst I then
    ref_ok n (BranchInst_getSuccessor I 0) &&
    implb (BranchInst_isConditional I)
      (ref_ok n (Instruction_getCondition I) && ref_ok n (BranchInst_getSuccessor I 1))
  else if isa CallInst I then call_ok n I
  else if isa AllocaInst I then name_ok I && layout_ok DL n (AllocaInst_getAllocatedType I) None 0
  else if isa SwitchInst I then
    ref_ok n (Instruction_getCondition I) && ref_ok n (SwitchInst_getDefaultDest I) &&
    forallb (pair_ok n) (SwitchInst_cases I)
  else result_ok I && operator_ok n (ref_ok n) I.

(** A basic block has a terminator, and names to print. *)
Definition block_ok (DL : DataLayout) (n : nat) (F BB : Value) : bool :=
  name_ok BB && forallb name_ok (BasicBlock_predecessors BB) &&
  match BasicBlock_getTerminator BB with
  | Some T =>
      match PostDominatorTree_findNearestCommonDominator F
              (BranchInst_getSuccessor T 0) (BranchInst_getSuccessor T 1) with
      | Some common => name_ok common
      | None => true
      end
  | None => false
  end &&
  forallb (fun I => isa DbgInfoIntrinsic I || instruction_ok DL n I) (BasicBlock_instructions BB) &&
  forallb result_ok (BasicBlock_instructions BB).

Definition function_ok (DL : DataLayout) (n : nat) (F : Value) : bool :=
  special_function F ||
  plain (Value_getName F) && one_line (Type_print (Function_getFunctionType F)) &&
  forallb (fun A => name_ok A && type_ok n (Value_getType A)) (Function_args F) &&
  (Function_isDeclaration F ||
   forallb (block_ok DL n F) (Function_blocks F) && name_ok (Function_getEntryBlock F)).

Definition module_ok (n : nat) (M : Module_) : bool :=
  forallb name_ok (Module_getGlobalList M) &&
  forallb (function_ok (Module_getDataLayout M) n) (Module_getFunctionList M).

(** ** Types and strings *)

Lemma getType_rec_whole n m T r :
  type_ok n T = true -> (n <= m)%nat -> outputs (getType_rec m T) r r whole.
Proof.
  revert m T r. induction n as [|n IH]; intros [|m] T r; [done..|lia|]. simpl. intros HT Hm.
  assert (HR : forall T', type_ok n T' = true -> writes_whole (s ← getType_rec m T'; emit s)).
  { intros T' HT'. apply writes_whole_value. intros r'. apply IH; [done|lia]. }
  apply outputs_to_string. intros st. repeat case_match; prints.
  - apply andb_true_iff in HT as [Hlit Hel]. rewrite Hlit. prints.
    prints by (eapply prints_forallb; [exact Hel|intros T' HT'; prints; by apply HR]).
  - eapply outputs_bind; [apply IH; [done|lia]|]. intros s Hs. prints.
  - prints by (by apply prints_emit, scan_quotable).
Qed.

Section Fuel.
Context (fuel : nat) (DL : DataLayout).

Lemma emitType_whole n T : (n <= fuel)%nat -> type_ok n T = true -> writes_whole (emitType fuel T).
Proof. intros Hn HT. apply writes_whole_value. intros r. by eapply getType_rec_whole. Qed.

Lemma emitName_whole V : name_ok V = true -> writes_whole (emitName V).
Proof.
  intros HV. apply writes_whole_value. intros r. apply outputs_ret. by apply plain_whole.
Qed.

Lemma char_value_range c : 0 <= char_value c -> char_value c < 128.
Proof. unfold char_value. word_lia. Qed.

(** A character between the quotes: itself, or escaped in hexadecimal. *)
Lemma escaped_char c st :
  0 <= char_value c ->
  prints (if isPrint c && negb (Ascii.eqb c backslash) && negb (Ascii.eqb c quote)
    then emit (String c EmptyString)
    else emit (String backslash (String "x"%char
           (String (hexdigit (u32 (Z.quot (char_value c) 16)))
             (String (hexdigit (u32 (Z.rem (char_value c) 16))) EmptyString)))))
    (Reader InString st) (Reader InString st).
Proof.
  intros Hc. pose proof (char_value_range c Hc). apply prints_if; intros Hp.
  - apply andb_true_iff in Hp as [[_ H1%negb_true_iff]%andb_true_iff H2%negb_true_iff].
    apply prints_emit. simpl. unfold reader_step. simpl. by rewrite H1, H2.
  - assert (Hh : forall x, 0 <= x < 16 -> reader_step (hexdigit (u32 x)) (Reader InString st) = Some (Reader InString st)).
    { intros x Hx. pose proof (hexdigit_plain x Hx) as Hd.
      replace (u32 x) with x by word_lia. unfold reader_step. simpl.
      rewrite (plain_char_neq _ quote), (plain_char_neq _ backslash) by (done || by rewrite Hd). done. }
    apply prints_emit. simpl. rewrite Hh by word_lia. simpl. by rewrite Hh by word_lia.
Qed.

Lemma printRacketEscaped_whole S :
  forallb (fun c => 0 <=? char_value c) (String.list_ascii_of_string S) = true ->
  writes_whole (printRacketEscaped S).
Proof.
  intros HS st. unfold printRacketEscaped. prints.
  assert (HF : Forall (fun c => 0 <= char_value c) (String.list_ascii_of_string S)).
  { rewrite forallb_forall in HS. apply Forall_forall. intros c Hc%list_elem_of_In. apply HS in Hc. lia. }
  set (l := match last _ with Some c => _ | None => _ end).
  assert (Hl : Forall (fun c => 0 <= char_value c) l) by (unfold l; repeat case_match; auto using Forall_take).
  rewrite Forall_forall in Hl.
  prints by (apply prints_for_each; intros c Hc; by apply escaped_char, Hl).
Qed.

(** A character above 127 is negative, and then [hexdigit] is called with a
    number that is no digit. *)
Lemma escaped_char_negative c :
  char_value c < 0 -> 16 <= u32 (Z.quot (char_value c) 16) \/ 16 <= u32 (Z.rem (char_value c) 16).
Proof.
  intros Hc. assert (-128 <= char_value c) by (unfold char_value; word_lia). word_lia.
Qed.

(** ** Operands *)

Lemma visitGEPOperator_whole ok ref V :
  (forall V, ok V = true -> writes_whole (ref V)) ->
  ok (GEPOperator_getPointerOperand V) = true -> forallb (index_ok ok) (gep_types V) = true ->
  writes_whole (visitGEPOperator DL ref V).
Proof.
  intros Href Hp Hi st. unfold visitGEPOperator. prints.
  prints by (eapply prints_forallb; [exact Hi|]; intros [[I ST] IT] HI; prints;
    destruct ST; simpl in HI; [rewrite HI|]; prints by prints).
Qed.

Lemma emitAccess_whole n T align :
  (n <= fuel)%nat -> access_ok n T = true -> writes_whole (emitAccess fuel T align).
Proof.
  intros Hn HT st. unfold emitAccess.
  prints by (apply prints_if; intros Hp; prints; eapply emitType_whole; [done|];
    unfold access_ok in HT; by rewrite Hp in HT).
Qed.

Lemma prints_opt (b : bool) m st :
  (b = true -> writes_whole m) -> prints (if b then m else mret ()) (code st) (code st).
Proof. intros Hb. apply prints_if; intros E; [by apply Hb|by apply outputs_ret]. Qed.

Lemma indices_whole (l : list Z) : writes_whole (for_each l (fun idx => emit " ";; emit (print_int idx))).
Proof. intros st. apply prints_for_each. intros idx _. prints. Qed.

Lemma visitOperator_whole n ok ref V :
  (n <= fuel)%nat -> (forall V, ok V = true -> writes_whole (ref V)) ->
  operator_ok n ok V = true -> writes_whole (visitOperator fuel DL ref V).
Proof.
  intros Hn Href Hok st. unfold operator_ok in Hok. unfold visitOperator.
  apply prints_if; intros Hgep; rewrite Hgep in Hok.
  { apply andb_true_iff in Hok as [H1 H2]. by eapply visitGEPOperator_whole. }
  apply andb_true_iff in Hok as [[[Hops Hcast]%andb_true_iff Hload]%andb_true_iff Hstore].
  rewrite implb_true_iff in Hcast, Hload, Hstore. prints.
  prints by (apply prints_opt; intros _ ?; prints).
  prints by (eapply prints_forallb; [exact Hops|]; intros O HO; prints; by apply Href).
  prints by (apply prints_opt; intros [[Hc _]%andb_true_iff _]%andb_true_iff ?; prints;
    eapply emitType_whole; [done|by apply Hcast]).
  prints by (apply prints_opt; intros Hc; eapply emitAccess_whole; [done|by apply Hload]).
  prints by (apply prints_opt; intros Hc; eapply emitAccess_whole; [done|by apply Hstore]).
  prints by (apply prints_opt; intros _; apply indices_whole).
  prints by (apply prints_opt; intros _; apply indices_whole).
Qed.

Lemma getRef_rec_whole n m V :
  (n <= m)%nat -> (n <= fuel)%nat -> ref_ok n V = true -> writes_whole (getRef_rec fuel DL m V).
Proof.
  revert m V. induction n as [|n IH]; intros [|m] V; [done..|lia|]. intros Hm Hf HV st.
  cbn [getRef_rec ref_ok] in *.
  assert (HR : forall V, ref_ok n V = true -> writes_whole (getRef_rec fuel DL m V)) by (intros; apply IH; [lia|lia|done]).
  repeat (apply prints_if; let E := fresh "E" in intros E; rewrite E in HV).
  - prints. prints by (by eapply emitType_whole).
  - prints.
  - by eapply visitOperator_whole.
  - prints. prints by (by eapply emitType_whole).
  - prints. prints by (eapply prints_forallb; [exact HV|]; intros O HO; prints; by apply HR).
  - prints.
Qed.

Lemma getRef_whole n V : (n <= fuel)%nat -> ref_ok n V = true -> writes_whole (getRef fuel DL V).
Proof. intros Hn. by apply getRef_rec_whole. Qed.

Lemma emitLiftValue_rec_whole n m V :
  (n <= m)%nat -> (n <= fuel)%nat -> lift_ok n V = true -> writes_whole (emitLiftValue_rec fuel DL m V).
Proof.
  revert m V. induction n as [|n IH]; intros [|m] V; [done..|lia|]. intros Hm Hf HV st.
  cbn [emitLiftValue_rec lift_ok] in *.
  assert (HR : forall V, lift_ok n V = true -> writes_whole (emitLiftValue_rec fuel DL m V))
    by (intros; apply IH; [lia|lia|done]).
  repeat (apply prints_if; let E := fresh "E" in intros E; rewrite E in HV).
  - by apply HR.
  - prints.
  - by apply printRacketEscaped_whole.
  - prints. prints by (eapply prints_forallb; [exact HV|]; intros O HO; prints; by apply HR).
  - by apply (getRef_whole (S n)).
Qed.

(** A global variable whose initializer is the variable itself, casts apart:
    lifting it does not end. *)
Lemma emitLiftValue_cyclic V m out :
  let GV := Value_stripPointerCasts V in
  isa GlobalVariable GV = true -> GlobalVariable_hasInitializer GV = true ->
  Value_stripPointerCasts (GlobalVariable_getInitializer GV) = V ->
  emitLiftValue_rec fuel DL m V out = Undef.
Proof.
  intros GV Hisa Hinit Hcycle. induction m as [|m IH]; [done|]. cbn [emitLiftValue_rec].
  fold GV. by rewrite Hisa, Hinit, Hcycle.
Qed.

(** A comparison that is a constant expression is no [CmpInst]: its predicate
    is not printed. *)
Lemma constant_compare ref V out :
  isa CmpInst V = false -> Forall (fun c => isa c V = false)
    [GEPOperator; LoadInst; StoreInst; ExtractValueInst; InsertValueInst] ->
  Instruction_isCast (Operator_getOpcode V) = false ->
  visitOperator fuel DL ref V out
  = (emit "(";; emit (Instruction_getOpcodeName (Operator_getOpcode V));;
     for_each (User_operands V) (fun V => emit " ";; ref V);; emit ")") out.
Proof.
  intros H1 H2 H3. repeat (apply Forall_cons in H2 as [? H2]). unfold visitOperator.
  rewrite H1, H3. repeat match goal with H : isa _ V = false |- _ => rewrite H; clear H end. simpl.
  unfold mbind, M_bind, emit, mmodify, mret, M_ret. by destruct (for_each _ _ _) as [[] ?| |].
Qed.

(** ** Instructions *)

Section Instruction.
Context (n : nat) (Hn : (n <= fuel)%nat).

#[local] Hint Extern 1 (writes_whole (emitName _)) => apply emitName_whole; assumption : whole.
#[local] Hint Extern 1 (writes_whole (getRef _ _ _)) => apply (getRef_whole n); assumption : whole.
#[local] Hint Extern 1 (writes_whole (emitLiftValue _ _ _)) =>
  apply (emitLiftValue_rec_whole n); assumption : whole.

Lemma result_cases I : result_ok I = true -> Type_isVoidTy (Value_getType I) = true \/
  Type_isVoidTy (Value_getType I) = false /\ name_ok I = true.
Proof. unfold result_ok. destruct (Type_isVoidTy _); [by left|by right]. Qed.

Lemma visitInstruction_whole I :
  result_ok I = true -> operator_ok n (ref_ok n) I = true -> writes_whole (visitInstruction fuel DL I).
Proof.
  intros Hr Ho st. unfold visitInstruction.
  assert (writes_whole (visitOperator fuel DL (getRef fuel DL) I))
    by (eapply visitOperator_whole; [exact Hn| |exact Ho]; intros; by apply (getRef_whole n)).
  destruct (result_cases I Hr) as [-> | [-> Hname]]; simpl; prints.
Qed.

Lemma pairs_whole l :
  forallb (pair_ok n) l = true ->
  writes_whole (for_each l (fun '(V, BB) =>
    emit " [";; getRef fuel DL V;; emit " ";; getRef fuel DL BB;; emit "]")).
Proof.
  intros Hl st. eapply prints_forallb; [exact Hl|]. intros [V BB] [HV HBB]%andb_true_iff. prints.
Qed.

Lemma visitPHINode_whole I :
  name_ok I = true -> forallb (pair_ok n) (PHINode_incoming I) = true ->
  writes_whole (visitPHINode fuel DL I).
Proof. intros Hname Hl st. unfold visitPHINode. prints. prints by (by apply pairs_whole). Qed.

Lemma args_whole l :
  forallb (ref_ok n) l = true -> writes_whole (for_each l (fun V => emit " ";; getRef fuel DL V)).
Proof. intros Hl st. eapply prints_forallb; [exact Hl|]. intros V HV. prints. Qed.

Lemma visitBranchInst_whole I :
  ref_ok n (BranchInst_getSuccessor I 0) = true ->
  implb (BranchInst_isConditional I)
    (ref_ok n (Instruction_getCondition I) && ref_ok n (BranchInst_getSuccessor I 1)) = true ->
  writes_whole (visitBranchInst fuel DL I).
Proof.
  intros H0 Hc st. unfold visitBranchInst. destruct (BranchInst_isConditional I); simpl in *.
  - apply andb_true_iff in Hc as [H1 H2]. prints.
  - prints.
Qed.

Lemma visitSwitchInst_whole I :
  ref_ok n (Instruction_getCondition I) = true -> ref_ok n (SwitchInst_getDefaultDest I) = true ->
  forallb (pair_ok n) (SwitchInst_cases I) = true -> writes_whole (visitSwitchInst fuel DL I).
Proof. intros Hc Hd Hl st. unfold visitSwitchInst. prints. prints by (by apply pairs_whole). Qed.

Lemma visitAllocaInst_whole I :
  name_ok I = true -> layout_ok DL n (AllocaInst_getAllocatedType I) None 0 = true ->
  writes_whole (visitAllocaInst fuel DL I).
Proof.
  intros Hname Hl st. unfold visitAllocaInst. prints. prints by (by apply (emitGlobalType_whole DL fuel n)).
Qed.

(** *** Inline assembly *)

Lemma regex_match_chars (p : ascii -> bool) r s m :
  Regex.regex_match r s = Some m -> forallb p s = true -> Forall (fun c => forallb p c = true) m.
Proof.
  revert s m. induction r as [|[c|least q capture] r IH]; intros s m; simpl.
  - destruct s; [|done]. intros [= <-] _. constructor.
  - destruct s as [|d s]; [done|]. simpl. destruct (Ascii.eqb c d); [|done].
    intros Hm [_ Hs]%andb_true_iff. by eapply IH.
  - intros Hm Hs. revert Hm.
    assert (Hsplit : forall k, forallb p (take k s) = true /\ forallb p (drop k s) = true)
      by (intros k; by rewrite <- andb_true_iff, <- forallb_app, take_drop).
    generalize (Regex.span q s) as k. induction k as [|k IHk]; simpl.
    all: destruct (_ <? _)%nat; [done|].
    all: destruct (Regex.regex_match r (drop _ s)) as [m'|] eqn:E; [|try done; by apply IHk].
    all: intros [= <-]; pose proof (IH _ _ E (proj2 (Hsplit _)));
      destruct capture; [constructor; [apply (proj1 (Hsplit _))|]|]; done.
Qed.

(** What an assembly text is printed as. *)
Lemma emitInlineAsm_whole V : asm_ok V = true -> writes_whole (emitInlineAsm V).
Proof.
  unfold asm_ok, one_liner, emitInlineAsm. set (s := InlineAsm_getAsmString V). intros Hok st.
  assert (Hcap : forall r m, plain s = true -> Regex.regex_match r (String.list_ascii_of_string s) = Some m ->
    Forall (fun c => plain (String.string_of_list_ascii c) = true) m).
  { intros r m Hs Hm. eapply Forall_impl; [eapply regex_match_chars; [exact Hm|]|].
    - rewrite all_chars_chars. exact Hs.
    - intros c Hc. unfold plain. rewrite all_chars_list. exact Hc. }
  assert (Hquoted : quotable s = true -> writes_whole (emit quote_text;; emit s;; emit quote_text)).
  { intros Hq st'. prints. prints by (by apply prints_emit, scan_quotable). }
  pose proof (Hcap Regex.read_value) as Hread. pose proof (Hcap Regex.write_value) as Hwrite. clear Hcap.
  prints. case_bool_decide; [prints|].
  set (r1 := Regex.regex_match Regex.one_word _) in *.
  set (r2 := Regex.regex_match Regex.read_value _) in *.
  set (r3 := Regex.regex_match Regex.write_value _) in *. clearbody r1 r2 r3.
  assert (Hq : quotable s = true) by (repeat case_match; auto using plain_quotable).
  repeat case_match; simplify_eq/=; try by apply Hquoted.
  all: try pose proof (Hread _ Hok eq_refl); try pose proof (Hwrite _ Hok eq_refl).
  all: repeat match goal with H : Forall _ (_ :: _) |- _ => apply Forall_cons in H as [? H] end; prints.
Qed.
(** *** Calls *)

Lemma emitUBSan_whole I F data handles :
  CallInst_getCalledFunction I = Some F -> plain (Value_getName F) = true ->
  CallInst_args I = data :: handles -> lift_ok n data = true -> forallb (ref_ok n) handles = true ->
  writes_whole (emitUBSan fuel DL I).
Proof.
  intros HF Hname Hargs Hdata Hh st. unfold emitUBSan. rewrite HF, Hargs. prints.
  prints by (by apply args_whole).
Qed.

Lemma emitAssert_whole I F :
  CallInst_getCalledFunction I = Some F -> plain (Value_getName F) = true ->
  forallb (lift_ok n) (CallInst_args I) = true -> writes_whole (emitAssert fuel DL I).
Proof.
  intros HF Hname Hargs st. unfold emitAssert. rewrite HF. prints.
  prints by (eapply prints_forallb; [exact Hargs|]; intros V HV; prints).
Qed.

Lemma emitCallee_whole I :
  callee_ok n I = true -> writes_whole (emitCallee fuel DL I (CallInst_getCalledFunction I)).
Proof.
  unfold callee_ok, emitCallee. set (V := CallInst_getCalledValue I). intros Hok.
  assert (Hcall : (if isa InlineAsm V then asm_ok V else ref_ok n V) = true ->
    writes_whole (if isa InlineAsm V then emitInlineAsm V
      else emit (Instruction_getOpcodeName (Operator_getOpcode I));; emit " ";; getRef fuel DL V)).
  { intros Hc st. destruct (isa InlineAsm V); [by apply emitInlineAsm_whole|prints]. }
  destruct (CallInst_getCalledFunction I) as [F|]; [|auto].
  destruct (isBuiltinFunction F); [|auto]. intros st. prints.
Qed.

Lemma visitCallInst_whole I : call_ok n I = true -> writes_whole (visitCallInst fuel DL I).
Proof.
  unfold call_ok, visitCallInst. intros Hok st.
  destruct (external isUBSanFunction _).
  { destruct (CallInst_getCalledFunction I) as [F|] eqn:HF; [|done].
    apply andb_true_iff in Hok as [Hname Hok].
    destruct (CallInst_args I) as [|data handles] eqn:Hargs; [done|].
    apply andb_true_iff in Hok as [H1 H2]. by eapply emitUBSan_whole. }
  destruct (external isAssertFunction _).
  { destruct (CallInst_getCalledFunction I) as [F|] eqn:HF; [|done].
    apply andb_true_iff in Hok as [Hname Hok]. by eapply emitAssert_whole. }
  apply andb_true_iff in Hok as [[Hr Hc]%andb_true_iff Ha].
  pose proof (emitCallee_whole I Hc) as Hcallee. pose proof (args_whole _ Ha) as Hargs.
  destruct (result_cases I Hr) as [-> | [-> Hname]]; simpl; prints.
Qed.

(** The translation of an instruction is complete data. *)
Lemma visit_whole I : instruction_ok DL n I = true -> writes_whole (visit fuel DL I).
Proof.
  unfold instruction_ok, visit. intros Hok. repeat case_match; rewrite ?andb_true_iff in Hok; destruct_and?.
  - by apply visitPHINode_whole.
  - by apply visitBranchInst_whole.
  - by apply visitCallInst_whole.
  - by apply visitAllocaInst_whole.
  - by apply visitSwitchInst_whole.
  - by apply visitInstruction_whole.
Qed.
End Instruction.

(** ** Functions and modules *)

Lemma visitValue_whole I : result_ok I = true -> writes_whole (visitValue I).
Proof.
  intros Hr st. unfold visitValue. destruct (result_cases I Hr) as [-> | [-> Hname]]; prints.
Qed.

End Fuel.

Section Module_.
Context (fuel n : nat) (Hn : (n <= fuel)%nat) (M : Module_).
Let DL := Module_getDataLayout M.

Abbreviation comment st := (Reader InComment st).

(** In a comment. *)
Lemma prints_comment s st : one_line s = true -> prints (emit s) (comment st) (comment st).
Proof. intros Hs. by apply prints_emit, scan_one_line. Qed.

Lemma prints_comment_line s st : one_line s = true -> prints (emit_line s) (comment st) (code st).
Proof. intros Hs. apply prints_emit. by rewrite scan_app, scan_one_line. Qed.

Lemma emitName_comment V st : name_ok V = true -> prints (emitName V) (comment st) (comment st).
Proof. intros HV. by apply prints_comment, plain_one_line. Qed.

(** Where a line may start: after data or in a comment. *)
Definition line_state (st : list ascii) (r : reader) : Prop := r = code st \/ r = comment st.

Lemma line_start s st r r' :
  line_state st r -> scan (newline_text +:+ s) (code st) = Some r' ->
  scan (newline_text +:+ s) (comment st) = Some r' -> prints (emit (newline_text +:+ s)) r r'.
Proof. intros [-> | ->] H1 H2; by apply prints_emit. Qed.

Lemma comment_lines l r st :
  Forall (fun s => one_line s = true) l -> line_state st r ->
  exists r', line_state st r' /\ prints (for_each l (fun line => emit (newline_text +:+ "; ");; emit line)) r r'.
Proof.
  intros Hl. apply prints_for_each_among. intros s r0 Hs Hr0. exists (comment st). split; [by right|].
  eapply outputs_bind; [by apply (line_start _ _ _ _ Hr0)|intros _ _].
  apply prints_comment. by eapply Forall_forall in Hl.
Qed.

Lemma value_lines l r st :
  forallb result_ok l = true -> line_state st r ->
  exists r', line_state st r' /\ prints (for_each l visitValue) r r'.
Proof.
  intros Hl. apply prints_for_each_among. intros I r0 HI Hr0.
  rewrite forallb_forall in Hl. apply list_elem_of_In, Hl in HI.
  unfold visitValue. destruct (result_cases I HI) as [-> | [-> Hname]].
  - exists r0. split; [done|]. by apply outputs_ret.
  - exists (code st). split; [by left|]. pose proof (emitName_whole I Hname).
    eapply outputs_bind; [by apply (line_start _ _ _ _ Hr0)|intros _ _]. prints.
Qed.

(** The lines of an instruction are comments, whatever they say. *)
Lemma emitInstruction_whole I :
  isa DbgInfoIntrinsic I || instruction_ok DL n I = true -> writes_whole (emitInstruction fuel M I).
Proof.
  intros Hok st. unfold emitInstruction. destruct (isa DbgInfoIntrinsic I); simpl in Hok; [prints|].
  pose proof (visit_whole fuel DL n Hn I Hok) as Hvisit.
  destruct (comment_lines (StringRef_split (Instruction_print M I) newline) (code st) st)
    as (r' & Hr' & H); [apply StringRef_split_spec|by left|].
  eapply outputs_bind; [exact H|intros _ _].
  eapply outputs_bind; [by apply (line_start _ _ _ _ Hr')|intros _ _]. apply Hvisit.
Qed.

Lemma merge_label_whole F BB r :
  block_ok DL n F BB = true -> outputs (merge_label F BB) r r whole.
Proof.
  unfold block_ok, merge_label. rewrite !andb_true_iff. intros [[[_ Hm] _] _].
  destruct (BasicBlock_getTerminator BB) as [T|]; [|done].
  repeat case_match; apply outputs_ret; try done. by apply plain_whole.
Qed.

Lemma emitBasicBlock_whole F BB : block_ok DL n F BB = true -> writes_whole (emitBasicBlock fuel M F BB).
Proof.
  intros Hok st. pose proof (merge_label_whole F BB (comment st) Hok) as Hmerge.
  unfold block_ok in Hok. rewrite !andb_true_iff in Hok. destruct Hok as [[[[Hname Hpreds] _] Hinsts] _].
  unfold emitBasicBlock. prints.
  eapply (outputs_bind _ _ _ _ _ (fun s => plain s = true)); [by apply outputs_ret|intros s Hs].
  eapply (outputs_bind _ _ _ (comment st)).
  { apply prints_emit. destruct (left_justify_spec ("; " +:+ s) 50) as [k ->].
    rewrite app_assoc. eapply scan_texts; [reflexivity|]. rewrite scan_app, (scan_one_line s) by by apply plain_one_line.
    apply scan_one_line. unfold one_line. rewrite all_chars_list. by induction k. }
  intros _ _. eapply outputs_bind; [by apply prints_comment|intros _ _].
  eapply outputs_bind.
  { eapply (prints_forallb _ name_ok); [exact Hpreds|]. intros V HV.
    eapply outputs_bind; [by apply prints_comment|intros _ _; by apply emitName_comment]. }
  intros _ _. eapply outputs_bind; [exact Hmerge|intros merge Hmerge'].
  pose proof (emitName_whole BB Hname). prints.
  prints by (eapply prints_forallb; [exact Hinsts|]; intros I HI; by apply emitInstruction_whole).
Qed.

Lemma function_values F r st :
  forallb (block_ok DL n F) (Function_blocks F) = true -> line_state st r ->
  exists r', line_state st r' /\
    prints (for_each (Function_blocks F) (fun BB => for_each (BasicBlock_instructions BB) visitValue)) r r'.
Proof.
  intros Hblocks. apply prints_for_each_among. intros BB r0 HBB Hr0. apply value_lines; [|done].
  rewrite forallb_forall in Hblocks. apply list_elem_of_In, Hblocks in HBB.
  unfold block_ok in HBB. rewrite !andb_true_iff in HBB. by destruct HBB as [_ Hvalues].
Qed.

Lemma emitFunction_whole F : function_ok DL n F = true -> writes_whole (emitFunction fuel M F).
Proof.
  unfold function_ok, emitFunction. destruct (special_function F); simpl; intros Hok st; [prints|].
  rewrite !andb_true_iff in Hok. destruct Hok as [[[Hname Htype] Hargs] Hbody]. prints.
  eapply outputs_bind; [by apply prints_comment, plain_one_line|intros _ _].
  eapply outputs_bind; [by apply prints_comment|intros _ _].
  eapply outputs_bind; [by apply prints_comment_line|intros _ _]. prints.
  prints by (eapply prints_forallb; [exact Hargs|]; intros A [HA HT]%andb_true_iff;
    pose proof (emitName_whole A HA); pose proof (emitType_whole fuel n _ Hn HT); prints).
  destruct (Function_isDeclaration F); simpl in Hbody; [prints|].
  apply andb_true_iff in Hbody as [Hblocks Hentry]. pose proof (emitName_whole _ Hentry).
  prints by (eapply prints_forallb; [exact Hblocks|]; intros BB HBB; by apply emitBasicBlock_whole).
  destruct (function_values F (comment (")"%char :: st)) (")"%char :: st) Hblocks) as (r' & Hr' & Hvalues);
    [by right|].
  eapply outputs_bind; [exact Hvalues|intros _ _].
  eapply outputs_bind; [by apply (line_start _ _ _ _ Hr')|intros _ _]. prints.
Qed.

Lemma emitPrelude_whole st : prints emitPrelude (code st) (code st).
Proof. unfold emitPrelude. prints. Qed.

Lemma emitModule_whole : module_ok n M = true -> writes_whole (emitModule fuel M).
Proof.
  intros [Hg Hf]%andb_true_iff st. unfold emitModule. destruct (DataLayout_isBigEndian _).
  all: prints; prints by (eapply prints_forallb; [exact Hg|]; intros GV HGV; pose proof (emitName_whole GV HGV);
    unfold emitGlobalVariable; prints).
  all: prints by (case_bool_decide; prints).
  all: prints by (eapply prints_forallb; [exact Hf|]; intros F HF; by apply emitFunction_whole).
Qed.

(** *** The table of globals *)

Definition debug_type (GV : Value) : option DINode :=
  match GlobalVariable_getDebugInfo GV with [DT] => DT | _ => None end.

Definition globals_ok : bool :=
  forallb (fun GV => name_ok GV && String.prefix "@" (Value_printAsOperand GV) &&
    layout_ok DL n (GlobalVariable_getValueType GV) (debug_type GV) 0) (Module_getGlobalList M).

Lemma substring_all s : String.substring 0 (String.length s) s = s.
Proof. induction s as [|c s IH]; [done|]. simpl. by rewrite IH. Qed.

Lemma substring_plain s : plain s = true -> plain (String.substring 1 (String.length s - 1) s) = true.
Proof.
  destruct s as [|c s]; [done|]. simpl. rewrite Nat.sub_0_r, substring_all. by intros [_ H]%andb_true_iff.
Qed.

Lemma emitGlobals_whole : globals_ok = true -> writes_whole (emitGlobals fuel M).
Proof.
  intros Hg st. unfold emitGlobals. prints.
  prints by (eapply prints_forallb; [exact Hg|]; intros GV [[Hname Hat]%andb_true_iff Hl]%andb_true_iff;
    eapply (outputs_bind _ _ _ _ _ (fun s => s = Value_printAsOperand GV)); [by apply outputs_ret|];
    intros s ->; rewrite Hat; pose proof (substring_plain _ Hname);
    pose proof (emitGlobalType_whole DL fuel n _ _ _ Hn Hl); prints).
Qed.

End Module_.
End Readable.
