(* ===== verification/EmitterMain.v ===== *)
(** * The emitter's main program

    racket/llvm-rosette/main.cc: reading a module, deleting the functions that
    nothing uses, and printing it. *)

From S2P Require Import Prelude LlvmApi LlvmSample Emitter Racket EmitterLayout EmitterSpec.

(** The command line. *)
Record options : Type := Options {
  global : bool;
  symbols : bool;
  Input : string;
  functions : list string;
}.

Section Main.
Context `{L : Llvm}.

(** One function of the loop; [changed] and the module are its state. *)
Definition prune_function (names : list string) (s : Module_ * bool) (F : Value) : Module_ * bool :=
  let '(M, _) := s in
  if Function_isDeclaration F || negb (Value_use_empty M F) then s
  else if bool_decide (Value_getName F ∈ names) then s
  else (Function_eraseFromParent M F, true).

(** The iterator is advanced before the function may be deleted, so a round
    visits the functions the module has at its beginning. *)
Definition prune_round (names : list string) (M : Module_) : Module_ * bool :=
  foldl (prune_function names) (M, false) (Module_getFunctionList M).

Definition prune (fuel : nat) (names : list string) : Module_ -> Prelude.M string Module_ :=
  while_loop fuel (fun M =>
    let '(M, changed) := prune_round names M in
    mret (if changed : bool then Next M else Stop M)).

(** What is left of the module: all of it unless functions are named. *)
Definition select (fuel : nat) (o : options) (M : Module_) : Prelude.M string Module_ :=
  if bool_decide (functions o = []) then mret M else prune fuel (functions o) M.

(** A module that cannot be read is a null pointer, which the program goes on
    to use. *)
Definition main (fuel : nat) (o : options) : Prelude.M string Z :=
  match parseIRFile (Input o) with
  | None => mundef
  | Some M =>
      M ← select fuel o M;
      if symbols o then emitSymbols M;; mret 0 else
      emitPrelude;;
      (if global o then emitGlobals fuel M else emitModule fuel M);;
      mret 0
  end.

(** ** Deleting functions *)

Section Prune.
Context `{LL : !LlvmLaws L} (names : list string).

(** What must stay: declarations, the functions named, what they refer to. *)
Inductive needed (M : Module_) : Value -> Prop :=
  | needed_declaration F : Function_isDeclaration F = true -> needed M F
  | needed_named F : Value_getName F ∈ names -> needed M F
  | needed_used G F : G ∈ Module_getFunctionList M -> needed M G -> refers G F -> needed M F.

(** [M'] is [M] without some functions that are not needed. *)
Definition pruned (M M' : Module_) : Prop :=
  sublist (Module_getFunctionList M') (Module_getFunctionList M) /\
  forall F, F ∈ Module_getFunctionList M -> needed M F -> F ∈ Module_getFunctionList M'.

Lemma pruned_refl M : pruned M M.
Proof. by split. Qed.

(** A function that a round deletes is not needed. *)
Lemma not_needed M M' F :
  pruned M M' -> F ∈ Module_getFunctionList M' ->
  Function_isDeclaration F || negb (Value_use_empty M' F) = false -> Value_getName F ∉ names ->
  ~ needed M F.
Proof.
  intros [_ Hkeep] HF [Hdecl Huse%negb_false_iff]%orb_false_iff Hname Hneeded.
  destruct Hneeded as [F H|F H|G F HG Hneeded H]; [congruence|done|].
  by rewrite (use_empty_spec M' G F) in Huse by auto.
Qed.

Lemma prune_function_pruned M M' c F M'' c' :
  NoDup (Module_getFunctionList M') ->
  pruned M M' -> F ∈ Module_getFunctionList M' -> prune_function names (M', c) F = (M'', c') ->
  pruned M M'' /\ NoDup (Module_getFunctionList M'') /\
  (forall G, G ∈ Module_getFunctionList M' -> G <> F -> G ∈ Module_getFunctionList M'') /\
  ((M'', c') = (M', c) /\
     (Function_isDeclaration F = true \/ Value_use_empty M' F = false \/ Value_getName F ∈ names) \/
   c' = true /\ (length (Module_getFunctionList M'') < length (Module_getFunctionList M'))%nat).
Proof.
  intros Hnd Hp HF. unfold prune_function.
  destruct (Function_isDeclaration F || negb (Value_use_empty M' F)) eqn:Hdu.
  { intros [= <- <-]. split_and!; try done. left. split; [done|].
    apply orb_true_iff in Hdu as [|H%negb_true_iff]; auto. }
  case_bool_decide as Hname; [intros [= <- <-]; split_and!; auto|]. intros [= <- <-].
  pose proof (not_needed M M' F Hp HF Hdu Hname) as Hnn. destruct Hp as [Hsub Hkeep].
  apply list_elem_of_split in HF as (l1 & l2 & HF).
  assert (Hl : Module_getFunctionList (Function_eraseFromParent M' F) = l1 ++ l2)
    by (by apply eraseFromParent_functions). rewrite HF in Hnd, Hsub |- *. rewrite Hl. split_and!.
  - split; [etrans; [|exact Hsub]|].
    + rewrite Hl. apply sublist_app; [done|by apply sublist_cons].
    + intros G HG Hneeded. rewrite Hl.
      pose proof (Hkeep G HG Hneeded) as H. rewrite HF in H.
      clear - H Hnn Hneeded. rewrite elem_of_app, elem_of_cons in H. rewrite elem_of_app.
      destruct H as [H|[H|H]]; [by left|subst; done|by right].
  - eapply sublist_NoDup; [exact Hnd|]. apply sublist_app; [done|by apply sublist_cons].
  - intros G HG HGF. rewrite elem_of_app, elem_of_cons in HG. rewrite elem_of_app.
    destruct HG as [HG|[HG|HG]]; [by left|done|by right].
  - right. rewrite !length_app. simpl. split; [done|lia].
Qed.

(** One round: what it deletes is not needed, and if it deletes nothing, what
    stays is a declaration, named, or used. *)
Definition settled (M : Module_) (F : Value) : Prop :=
  Function_isDeclaration F = true \/ Value_use_empty M F = false \/ Value_getName F ∈ names.

Lemma prune_loop M l M' c :
  NoDup l -> NoDup (Module_getFunctionList M') -> (forall F, F ∈ l -> F ∈ Module_getFunctionList M') ->
  pruned M M' ->
  let '(M'', c') := foldl (prune_function names) (M', c) l in
  pruned M M'' /\ NoDup (Module_getFunctionList M'') /\
  (M'' = M' /\ c' = c /\ (forall F, F ∈ l -> settled M' F) \/
   c' = true /\ (length (Module_getFunctionList M'') < length (Module_getFunctionList M'))%nat).
Proof.
  revert M' c. induction l as [|F l IH]; intros M' c Hl Hnd Hin Hp; cbn [foldl].
  { split_and!; try done. left. split_and!; [done..|]. set_solver. }
  apply NoDup_cons in Hl as [HFl Hl].
  destruct (prune_function names (M', c) F) as [M1 c1] eqn:E.
  destruct (prune_function_pruned M M' c F M1 c1 Hnd Hp ltac:(set_solver) E) as (Hp1 & Hnd1 & Hstay & Hcase).
  assert (Hin1 : forall G, G ∈ l -> G ∈ Module_getFunctionList M1).
  { intros G HG. apply Hstay; [apply Hin; by right|by intros ->]. }
  specialize (IH M1 c1 Hl Hnd1 Hin1 Hp1).
  destruct (foldl _ _ _) as [M2 c2]. destruct IH as (Hp2 & Hnd2 & IH). split_and!; [done..|].
  destruct Hcase as [[[= -> ->] HF]|[-> Hlt]], IH as [(-> & -> & Hs)|[-> Hlt']].
  - left. split_and!; [done..|]. intros G HG. apply elem_of_cons in HG as [HG|HG]; [subst G; exact HF|exact (Hs G HG)].
  - by right.
  - by right.
  - right. split; [done|lia].
Qed.

Lemma prune_round_spec M M' :
  NoDup (Module_getFunctionList M') -> pruned M M' ->
  let '(M'', changed) := prune_round names M' in
  pruned M M'' /\ NoDup (Module_getFunctionList M'') /\
  if changed : bool then (length (Module_getFunctionList M'') < length (Module_getFunctionList M'))%nat
  else M'' = M' /\ forall F, F ∈ Module_getFunctionList M' -> settled M' F.
Proof.
  intros Hnd Hp. pose proof (prune_loop M (Module_getFunctionList M') M' false Hnd Hnd ltac:(done) Hp) as H.
  unfold prune_round. destruct (foldl _ _ _) as [M'' c]. destruct H as (H1 & H2 & H). split_and!; [done..|].
  destruct H as [(-> & -> & Hs)|[-> Hlt]]; done.
Qed.

(** C32: with functions named on the command line, the loop over the module ends
    after at most one round more than the module has functions; it deletes
    no declaration, no named function and no function that one of those
    refers to, directly or not, and every function it leaves is a declaration,
    named or used. *)
Theorem prune_spec fuel M out :
  NoDup (Module_getFunctionList M) -> (length (Module_getFunctionList M) < fuel)%nat ->
  exists M', prune fuel names M out = Ok M' out /\ pruned M M' /\
    forall F, F ∈ Module_getFunctionList M' -> settled M' F.
Proof.
  intros Hnd Hfuel.
  set (Q := fun M' (out' : string) => out' = out /\ pruned M M' /\
    forall F, F ∈ Module_getFunctionList M' -> settled M' F).
  destruct (wp_elim _ _ _ (wp_while_loop
    (fun k M' out' => out' = out /\ (length (Module_getFunctionList M') <= k)%nat /\
       NoDup (Module_getFunctionList M') /\ pruned M M') Q
    (fun M => let '(M, changed) := prune_round names M in mret (if changed : bool then Next M else Stop M))
    fuel (length (Module_getFunctionList M)) M out Hfuel (conj eq_refl (conj (le_n _) (conj Hnd (pruned_refl M))))
    ltac:(idtac; intros j M1 out' Hj (-> & Hlen & Hnd1 & Hp);
      pose proof (prune_round_spec M M1 Hnd1 Hp) as H; destruct (prune_round names M1) as [M2 []];
      destruct H as (Hp2 & Hnd2 & H); apply wp_ret;
      [exists (length (Module_getFunctionList M2)); split_and!; try done; lia
      |destruct H as [-> H]; by split_and!])))
    as (M' & out' & E & -> & Hp & Hs).
  by exists M'.
Qed.
End Prune.

(** ** The symbol map *)

(** The line of a symbol at an address. *)
Definition symbol_size (DL : DataLayout) (GV : Value) : Z :=
  DataLayout_getTypeAllocSize DL (GlobalVariable_getValueType GV).
Definition symbol_line (DL : DataLayout) (a : Z) (GV : Value) : string :=
  format_hex_no_prefix a 16 +:+ " " +:+ format_hex_no_prefix (symbol_size DL GV) 16 +:+ " B " +:+
  Value_getName GV +:+ newline_text.

(** Symbols placed one behind the other from [lo] on, aligned, below [hi]. *)
Inductive placed (DL : DataLayout) (hi : Z) : Z -> list Value -> list Z -> Prop :=
  | placed_nil lo : lo <= hi -> placed DL hi lo [] []
  | placed_cons lo GV l a addrs :
      lo <= a -> (DataLayout_getPreferredAlignment DL GV | a) ->
      placed DL hi (a + symbol_size DL GV) l addrs -> placed DL hi lo (GV :: l) (a :: addrs).

(** What symbols take at most, with their padding. *)
Definition symbol_ok (DL : DataLayout) (GV : Value) : Prop :=
  0 <= symbol_size DL GV < 2 ^ 32 /\ 0 < DataLayout_getPreferredAlignment DL GV < 2 ^ 32.
Fixpoint room (DL : DataLayout) (l : list Value) : Z :=
  match l with
  | [] => 0
  | GV :: l => symbol_size DL GV + DataLayout_getPreferredAlignment DL GV + room DL l
  end.

Lemma room_nonneg DL l : Forall (symbol_ok DL) l -> 0 <= room DL l.
Proof. induction 1 as [|GV l [H1 H2] _ IH]; simpl; lia. Qed.

Section Symbols.
Context `{LL : !LlvmLaws L} (DL : DataLayout).

Lemma placed_mono hi hi' lo l addrs : placed DL hi lo l addrs -> hi <= hi' -> placed DL hi' lo l addrs.
Proof. induction 1; intros Hhi; constructor; (done || lia || auto). Qed.

Lemma emitSymbols_from_spec lo l :
  Forall (symbol_ok DL) l -> 0 <= lo -> lo + room DL l < 2 ^ 64 ->
  exists addrs, placed DL (lo + room DL l) lo l addrs /\
    says (emitSymbols_from DL lo l)
      (foldr (fun s t => s +:+ t) EmptyString (zip_with (symbol_line DL) addrs l)).
Proof.
  intros Hl. revert lo. induction Hl as [|GV l [H1 H2] Hl IH]; intros lo Hlo Hroom; simpl in Hroom |- *.
  { exists []. split; [constructor; lia|]. intros out. simpl. by rewrite app_empty_r. }
  pose proof (room_nonneg DL l Hl) as Hnn.
  set (align := DataLayout_getPreferredAlignment DL GV) in *.
  destruct (alignTo_spec lo align) as [Ha Hdiv]; [lia|lia|lia|].
  destruct (IH (alignTo lo align + symbol_size DL GV)) as (addrs & Hp & Hs); [lia|lia|].
  exists (alignTo lo align :: addrs). split.
  - constructor; [lia|done|]. clear - Hp Ha.
    replace (lo + (symbol_size DL GV + align + room DL l))
      with (alignTo lo align + symbol_size DL GV + room DL l + (lo + align - alignTo lo align)) by lia.
    revert Hp. generalize (alignTo lo align + symbol_size DL GV) as lo'.
    assert (0 <= lo + align - alignTo lo align) as Hd by lia. revert Hd.
    generalize (lo + align - alignTo lo align) as d. intros d Hd lo'.
    intros Hp. eapply placed_mono; [exact Hp|lia].
  - assert (E1 : u32 (symbol_size DL GV) = symbol_size DL GV) by word_lia.
    assert (E2 : u32 align = align) by word_lia.
    assert (E3 : u64 (alignTo lo align) = alignTo lo align) by (apply u64_small; unfold in_u64; lia).
    assert (E4 : u64 (alignTo lo align + symbol_size DL GV) = alignTo lo align + symbol_size DL GV)
      by (apply u64_small; unfold in_u64; lia).
    fold (symbol_size DL GV). rewrite E1. fold align. rewrite E2, E3, E4. cbn [zip_with foldr]. unfold symbol_line at 1.
    rewrite !app_assoc. do 4 apply says_emit_bind. rewrite <- (app_assoc (Value_getName GV)).
    apply says_bind; [apply says_emit|exact Hs].
Qed.

Lemma placed_lower hi lo l addrs a : placed DL hi lo l addrs -> Forall (symbol_ok DL) l -> a ∈ addrs -> lo <= a.
Proof.
  induction 1 as [lo Hlo|lo GV l b addrs H1 H2 _ IH]; intros Hl Ha; [by apply elem_of_nil in Ha|].
  apply Forall_cons in Hl as [[Hsize _] Hl]. apply elem_of_cons in Ha as [-> |Ha]; [done|].
  specialize (IH Hl Ha). lia.
Qed.

(** Each symbol ends before the ones behind it. *)
Lemma placed_disjoint hi lo l addrs i j GV a b :
  placed DL hi lo l addrs -> Forall (symbol_ok DL) l ->
  (i < j)%nat -> l !! i = Some GV -> addrs !! i = Some a -> addrs !! j = Some b ->
  a + symbol_size DL GV <= b.
Proof.
  intros Hp. revert i j. induction Hp as [lo Hlo|lo GV' l c addrs H1 H2 Hp IH]; intros [|i] [|j] Hl Hij; try done; try lia.
  - simpl. intros [= ->] [= ->] Hb. apply Forall_cons in Hl as [_ Hl].
    eapply placed_lower; [exact Hp|done|]. by eapply list_elem_of_lookup_2.
  - simpl. apply Forall_cons in Hl as [_ Hl]. apply IH; [done|lia].
Qed.
End Symbols.

(** C34: when every symbol's size and alignment is below 2^32 and the symbols
    with their padding fit the address space behind [0x80000000], [emitSymbols] prints one line for each global variable, in
    the module's order, at addresses that are aligned as LLVM prefers, and
    each symbol ends before the ones behind it start. *)
Theorem emitSymbols_spec `{LL : !LlvmLaws L} M out :
  let DL := Module_getDataLayout M in
  let globals := Module_getGlobalList M in
  Forall (symbol_ok DL) globals -> 0x80000000 + room DL globals < 2 ^ 64 ->
  exists addrs,
    emitSymbols M out
      = Ok () (out +:+ foldr (fun s t => s +:+ t) EmptyString (zip_with (symbol_line DL) addrs globals)) /\
    placed DL (2 ^ 64) 0x80000000 globals addrs /\
    forall i j GV a b, (i < j)%nat -> globals !! i = Some GV -> addrs !! i = Some a -> addrs !! j = Some b ->
      a + symbol_size DL GV <= b.
Proof.
  intros DL globals Hok Hroom.
  destruct (emitSymbols_from_spec DL 0x80000000 globals Hok ltac:(lia) Hroom) as (addrs & Hp & Hs).
  exists addrs. split_and!; [apply Hs|eapply placed_mono; [exact Hp|lia]|].
  intros i j GV a b Hij H1 H2 H3. by eapply placed_disjoint.
Qed.

(** ** The program *)

(** C31: on a module it can read and that the emitter supports to the depth of
    the fuel, the program returns 0, and what it prints is a complete Racket
    program: every bracket, string and comment that it opens it closes. *)
Theorem main_readable `{LL : !LlvmLaws L} fuel n o M M' :
  parseIRFile (Input o) = Some M -> (forall out, select fuel o M out = Ok M' out) ->
  symbols o = false -> (if global o then globals_ok n M' else module_ok n M') = true -> (n <= fuel)%nat ->
  exists t, (forall out, main fuel o out = Ok 0 (out +:+ t)) /\ scan t start = Some start.
Proof.
  intros Hparse Hsel Hsym Hok Hn. unfold main. rewrite Hparse.
  assert (H : outputs (select fuel o M) start start (fun M2 => M2 = M'))
    by (exists EmptyString, M'; split_and!; [intros out; by rewrite Hsel, app_empty_r|done|done]).
  enough (outputs (M ← select fuel o M;
      if symbols o then emitSymbols M;; mret 0 else
      emitPrelude;; (if global o then emitGlobals fuel M else emitModule fuel M);; mret 0)
    start start (fun r => r = 0)) as (t & r & H1 & H2 & ->) by by exists t.
  eapply outputs_bind; [exact H|]. intros M2 ->. rewrite Hsym.
  eapply outputs_bind; [apply emitPrelude_whole|intros _ _].
  eapply (outputs_bind _ _ _ start); [|intros _ _; by apply outputs_ret].
  destruct (global o); [by apply (emitGlobals_whole _ n)|by apply (emitModule_whole _ n)].
Qed.

(** A file that LLVM cannot read is used as a module all the same. *)
Lemma main_unreadable fuel o out : parseIRFile (Input o) = None -> main fuel o out = Undef.
Proof. unfold main. by intros ->. Qed.

End Main.

(** ** A module *)

Abbreviation sample := (sample_llvm (Some sample_file)).
Definition sample_options (names : list string) : options := Options false false "kernel.ll" names.
Definition sample_pruned : sample_module :=
  Mod (m_globals sample_file) [sample_printf; sample_step; sample_main].

Lemma prune_spec_witness :
  exists M', prune (L := sample) 6 ["main"] sample_file EmptyString = Ok M' EmptyString /\
    pruned (L := sample) ["main"] sample_file M' /\ M' = sample_pruned.
Proof.
  destruct (prune_spec (L := sample) ["main"] 6 sample_file EmptyString) as (M' & E & Hp & _).
  - change (NoDup (m_functions sample_file)). apply (bool_decide_unpack _). vm_compute. exact Logic.I.
  - simpl. lia.
  - exists M'. split; [exact E|]. split; [exact Hp|]. vm_compute in E. injection E as <-. reflexivity.
Defined.

Lemma emitSymbols_spec_witness :
  exists addrs,
    emitSymbols (L := sample) sample_file EmptyString
      = Ok () (foldr (fun s t => s +:+ t) EmptyString
          (zip_with (symbol_line (L := sample) ()) addrs (m_globals sample_file))) /\
    placed (L := sample) () (2 ^ 64) 0x80000000 (m_globals sample_file) addrs.
Proof.
  destruct (emitSymbols_spec (L := sample) sample_file EmptyString) as (addrs & E & Hp & _).
  - repeat constructor; vm_compute; done.
  - vm_compute. done.
  - exists addrs. split; [exact E|exact Hp].
Defined.

Lemma main_readable_witness :
  exists t, (forall out, main (L := sample) 8 (sample_options ["main"]) out = Ok 0 (out +:+ t)) /\
    scan t start = Some start.
Proof.
  apply (main_readable (L := sample) 8 8 (sample_options ["main"]) sample_file sample_pruned).
  - reflexivity.
  - intros out. vm_compute. reflexivity.
  - reflexivity.
  - vm_compute. reflexivity.
  - lia.
Defined.
